(* ===== verification/_CoqProject ===== *)
-Q . S2P
Prelude.v
Types.v
Kernel.v
Checksum.v
NatRewrite.v
Ingress.v
Egress.v
Delayed.v
RefKernel.v
DnsName.v
QnameProofs.v
DatapathSpec.v
Outcomes.v
Reports.v
Samples.v
NatProps.v
IngressProps.v
EgressProps.v
NameProps.v
System.v
GoStrings.v
GoNet.v
Dnsenc.v
Config.v
Loader.v
LoaderProps.v
EndToEnd.v
Health.v
Startup.v
Attach.v
AttachSteps.v
Monitor.v
Controller.v
Bindings.v
Lifecycle.v
Shutdown.v
Gateway.v
Machine.v
Scrape.v
Collector.v
CLayout.v
CLayoutProps.v
VmLayouts.v
VmBase.v
VmPacket.v
VmBpfUapi.v
VmBpfMaps.v
VmNetdev.v
VmQueue.v
VmRouting.v
VmSock.v
VmNetns.v
VmFs.v
Abi.v
AbiProps.v
Verdicts.v
