(* ===== verification/Prelude.v ===== *)
(** * Verification of bpf-dns-gateway

    bpf-dns-gateway redirects selected DNS queries of Kubernetes pods from the
    cluster's CoreDNS to the host's VPC resolver.  Two eBPF programs on each
    pod's veth do the work (bpf/dns_gateway.c): the ingress program parses a
    query, looks the suffixes of its name up in [suffix_rules], and rewrites the
    destination of a query whose action is host-resolve, remembering the
    original address in [conntrack_map]; the egress program restores the source
    address of the matching reply.  A Go controller (cmd/, internal/) validates
    the configuration, fills the maps, attaches the programs and switches the
    [bypass] flag when the VPC resolver stops answering.

    ** Layout

    The library, from the bottom up.

    - [Prelude]: bytes, fixed-width integers, little-endian words, byte ranges
      of buffers, the hint database [maps].
    - [Types]: dns_gateway.h and the packet headers of headers/vmlinux.h.
    - [Kernel]: the BPF helpers as the class [BpfHelpers] with their documented
      behaviour ([BpfHelpersOk]; [BpfHelpersUp] for a kernel that does not
      fail), the state [dp_state] of a run, and the monad [prog] of state and
      early return.  [RefKernel] is a concrete kernel with a fault script, for
      the witnesses.
    - [Checksum]: internet checksums and their incremental update.
    - [NatRewrite]: nat_rewrite_addr; [Ingress], [Egress]: the two programs, a
      definition per stage in source order.
    - [DnsName], [QnameProofs]: names as lists of labels, their wire format, and
      the label walk and suffix loop in these terms.
    - [DatapathSpec]: the abstract specification [ingress_spec], and the header
      tests of both programs in terms of datagrams.  [Outcomes], [Reports]: what
      a run leaves, case by case, and the counters that report it; [egress_report]
      specifies the egress program without its stages.
    - [Delayed]: a run up to its delete from [conntrack_map], and the delete
      alone; together they are the whole run.
    - [NatProps], [IngressProps], [EgressProps], [NameProps], [Verdicts]: the
      theorems on one run.
    - [System]: the maps shared by all CPUs as a step relation [node_step], in
      which a run is a step and its delete a later one; theorems on reachable
      nodes, the ledger of counters, and the round trip of a query and its reply.
    - [GoStrings], [GoNet]: what the controller uses of Go's strings, net and
      strconv packages.
    - [Dnsenc]: internal/dnsenc/wire.go; [Config]: internal/config/config.go;
      [Loader], [LoaderProps]: internal/ebpf/maps.go over the class
      [MapSyscalls]; [EndToEnd]: rules to packets.
    - [Health]: internal/health/checker.go, a client of the class
      [BypassSetter] which the loader implements, and the first half of main.go's
      shutdown; [Startup]: main.go from the configuration to the maps.
    - [Attach]: internal/ebpf/attach.go over the class [TcxLinks], each method a
      function; [AttachSteps]: the same methods system call by system call
      ([call], [call_next]), which give the methods when nothing comes in between
      ([method_steps]).  [Monitor]:
      internal/netlinkmon/monitor.go; [Controller]: the goroutines of the monitor
      and of internal/controller/controller.go as the step relation [sys_step];
      [Bindings]: the objects of internal/ebpf/dnsgateway_x86_bpfel.go, their
      names and how they are closed; [Lifecycle]: internal/ebpf/loader.go over
      the class [LoadEnv], main.go's startup with its clean-up; [Shutdown]: the
      running process up to its exit as [life_step], which runs [sys_step] and
      [Health.process_step] side by side, and its termination.
    - [Gateway]: the composition of the control plane and the datapath.
      [gw_step] runs the packets of [System] and the steps of
      [Health.process_step] over the same [config_map], [suffix_rules] and
      counters, which the loader holds; [g_node] is the node that a state of
      the gateway stands for.
    - [Machine]: everything together.  A packet of an interface runs a program
      when the kernel has a live link there ([hooked]); [machine_step] runs the
      packets, the deletes, the goroutines of [life_step] and the kernel in any
      order, and the controller's goroutine one call of [AttachSteps] at a time;
      [m_gateway] is the [Gateway] in it.
    - [Scrape]: [ReadMetrics] lookup by lookup beside [node_step].
    - [Collector]: internal/metrics/collector.go, a client of the classes
      [DatapathSource], [AttachSource] and [HealthSource].
    - [CLayout]: C types as values ([ctype]) and the layout the x86-64 ABI gives
      them; [CLayoutProps]: facts about every such layout.  [VmBase],
      [VmPacket], [VmBpfUapi], [VmBpfMaps], [VmNetdev], [VmQueue], [VmRouting],
      [VmSock], [VmNetns], [VmFs]: declarations of headers/vmlinux.h, one
      definition each; [VmLayouts]: the numbers a C compiler gives for them.  [Abi]: the structs of dns_gateway.h, the map
      declarations of dns_gateway.c and the generated Go structs; [AbiProps]: the
      theorems on all of them.

    ** What the theorems show

    - The programs refine their specifications on every packet and state
      ([ingress_refinement] up to the common tail [ingress_redirect], whose
      outcomes [ingress_integrity] and [ingress_conntrack] state;
      [egress_refinement]); a query of at most ten labels
      and 128 bytes gets the most specific rule ([ingress_most_specific]), and
      the rules are those the controller was configured with
      ([configured_policy_applies], [startup_installs]).
    - A packet is either untouched or rewritten completely, with both checksums
      correct, or the failure is counted ([ingress_integrity],
      [egress_integrity], [nat_rewrite_atomic]); neither program drops
      ([programs_never_drop]).
    - [conntrack_map] agrees with the rewrites ([ingress_conntrack],
      [egress_decision]); across packets and CPUs a reply that is restored comes
      from the address the pod asked ([reachable_snat_source]), on a healthy
      kernel it always is ([round_trip]), and the counters balance
      ([counters_balance]).  The two parts of a run are the run
      ([run_in_two_parts]), and with something in between two copies of one reply
      may both be restored ([copies_both_restored]).
    - The wire encoding of the controller is the one the programs look up
      ([encode_suffix_correct], [encode_decode]); the map reconciliation ends
      with exactly the configured rules, deletes before it adds, and leaves what
      stays alone ([populate_reconciles], [populate_at_capacity],
      [populate_no_disruption]).
    - The checker's hysteresis, its agreement with the map, and the order of the
      shutdown ([bypass_hysteresis], [bypass_agreement],
      [teardown_bypass_sticks]).
    - The control plane and the programs together: every run of the gateway is a
      run of the node ([gateway_refines_node]), so the theorems on reachable
      nodes hold of it; packets pass untouched while the checker counts a failed
      resolver and after the teardown, and meet exactly the configuration of the
      startup otherwise ([gateway_failover]).
    - The machine: when links close without an error, an interface has both
      programs or neither except while the controller is attaching to it or
      detaching from it, and after the controller has returned every packet
      passes untouched ([traffic_restored]).  [Attach] passes through a state with
      the ingress program alone ([attach_window]), and the detach at the shutdown
      does not wait for the replies in flight ([detach_races_drain]).
    - Between the manager's calls, when links close without an error, both
      programs are on an interface or neither ([attach_pairs]); the
      attachments follow the netlink updates in every interleaving without an
      interrupted dump ([attachments_follow]), with one a resync can undo an
      attachment ([resync_undoes_attachment]); the controller leaves nothing
      behind ([controller_leaves_nothing]), a failed start leaves nothing
      ([startup_all_or_nothing]), the shutdown is ordered ([ordered_shutdown])
      and, as long as no wait is given up, it always gets to its end
      ([shutdown_terminates]).
    - A scrape exports every counter once and never panics ([collect_exports]);
      its values lie between the counters at its beginning and its end, and keep
      the inequalities whose smaller side is read first ([scrape_consistent]),
      not the others ([scrape_skew]).
    - Every declaration has the layout a C compiler gives it, field by field,
      which is sound and the least the ABI's rules allow ([layouts_exact],
      [layout_least]), and its fields behave as storage
      ([object_laws]); the header fields the model reads are those of the
      declarations ([header_equivalence]), the Go bindings match the C structs
      ([go_bindings_match]), and a map key is its bytes ([map_keys_exact]).

    ** Bounds and fuel

    The loops of the programs are bounded in the source: ten labels
    ([MAX_LABELS]), ten suffixes, 128 bytes copied; the definitions recurse on
    those bounds.  [DecodeSuffix] has fuel 128: an iteration that continues
    advances by at least two of the 128 bytes, and [decode_suffix_sound] proves
    that it returns.  The IPv6 parser of [GoNet] has at most eight groups.

    ** Modelling choices

    - Integers are [Z]; [u16], [u32], [u64] wrap where the C or Go arithmetic
      can.  The target is little-endian, as the bpfel bindings are.
    - A run of a program is two steps of a node, when it deletes an entry: all
      before the delete, and the delete, with anything in between.  The first
      part is one step because all it shares with other CPUs is one access to
      [conntrack_map] (the update of a query, the lookup of a reply), a rule
      lookup, and the configuration entry, whose only field written while traffic
      flows is [bypass], which is read once and before the rules; a CPU's scratch
      slot and counters are its own.  An element that a second CPU rewrites between
      a run's lookup and its reads holds the same address, as every entry does
      ([reachable_snat_source]), and a newer time stamp: that is a run whose
      lookup came later with an earlier clock, which the model has too, since the
      kernel moves freely.  The packet leaves with the first
      step, so its answer may come before the delete: these are more runs than
      the kernel's.  A CPU runs one program at a time.  [conntrack_map] may
      evict any entry at any time.
    - A node may start with what an earlier process left in the pinned maps:
      any counters, and entries of the same CoreDNS address.  (An entry of
      another one is restored with the old address until it is five seconds old;
      [egress_decision] covers it.)
    - [config_map], [metrics_map] and [scratch_map] are lists (array maps),
      [suffix_rules] and [conntrack_map] finite maps.
    - The asm volatile barriers have no effect and are left out; the label
      offsets array is the prefix written so far.
    - The checksum helpers are specified by what they do to a one's complement
      sum.  For a packet whose UDP checksum is left to the hardware only the
      address and the header checksum are described.
    - Lower-casing a string with non-ASCII bytes is the parameter
      [unicode_lower]; Go's map iteration order is the parameter [range].
    - Writers of [config_map] hold configMu, so each is one function.
    - Mutexes: [AttachManager] and the monitor's table are accessed under their
      own, so each access is one step.  In [Attach], [Controller] and [Shutdown] a
      method of the manager is one function, which is what its one caller sees; in
      [Machine], where packets see more, each of its system calls is a step.  The
      kernel does not give the index of an interface that has gone to another.
      The event channel holds 32 events and a
      goroutine waiting to send is a state.
    - In [CLayout] a pointer keeps the text of its target and a by-value type
      loses its qualifiers: neither has a part in the layout.  [VmLayouts] was
      made with gcc from the header itself.  An object is an integer, so that a bit-field is a range of its bits.
    - The wait for Done() and the timeouts of the shutdown are choices of the
      step relation, so every order of the events is a run.  For termination
      [own_step] leaves out what the environment may do for ever (updates that
      arrive, links that are listed again) and the timeouts; [left_to_do] is the
      measure, and a state without a step is a finished process.
    - Closing the loaded objects stops at the first error, as the generated code
      does; "held" is the set of objects whose descriptor is still open.
    - A lookup of a per-CPU counter is one step.  The failure count of the checker
      is a Go int, so [gateway_failover] bounds the run by [2^63] steps; the
      counters are 64 bits wide and may start anywhere, so [counters_balance]
      takes as many steps as no counter can overflow in ([room]), and
      [scrape_consistent] as many as no sum over the CPUs can.

    ** Not modelled

    The object file, the file system, TCX links, netlink sockets, the YAML
    parser, the probe's DNS exchange and the Prometheus registry are the
    libraries' or the kernel's: parameters, with the behaviour relied on as laws
    of their classes.  Of the generated code, LoadDnsGateway only hands the
    embedded bytes to the library.  The metrics HTTP server, the notifications to systemd,
    command-line flags and logging are I/O without effect on the model's state.
    A process that exits drops its descriptors, and the kernel closes links that
    failed to close; the model ends with the process.
    The declarations of headers/vmlinux.h that have no part in maps, programs,
    packets, devices, routing, sockets, namespaces or the file system of the pins
    are left out, as are the load generator and the integration tests. *)

From stdpp Require Export base numbers list gmap countable.
From Stdlib Require Export ZArith Lia.
From Stdlib.Strings Require Byte.

#[global] Open Scope Z_scope.

(** ** Bytes *)

Abbreviation byte := Corelib.Init.Byte.byte.

#[export] Instance byte_eq_dec : EqDecision byte := Byte.byte_eq_dec.

#[export] Instance byte_inhabited : Inhabited byte := populate Byte.x00.

#[export] Program Instance byte_countable : Countable byte :=
  inj_countable Byte.to_N Byte.of_N _.
Next Obligation. intros b. apply Byte.of_to_N. Qed.

(** The value of a byte, and the byte a C conversion to [__u8] leaves. *)
Definition ub (b : byte) : Z := Z.of_N (Byte.to_N b).

Definition byte_of_Z (z : Z) : byte :=
  default Byte.x00 (Byte.of_N (Z.to_N (z mod 256))).

Lemma ub_range b : 0 <= ub b < 256.
Proof.
  unfold ub. pose proof (Byte.to_N_bounded b). lia.
Qed.

Lemma ub_inj b1 b2 : ub b1 = ub b2 -> b1 = b2.
Proof.
  unfold ub. intros H%N2Z.inj.
  pose proof (Byte.of_to_N b1) as E. rewrite H, Byte.of_to_N in E. congruence.
Qed.

Lemma byte_of_Z_ub b : byte_of_Z (ub b) = b.
Proof.
  unfold byte_of_Z. rewrite Z.mod_small by apply ub_range.
  unfold ub. rewrite N2Z.id, Byte.of_to_N. done.
Qed.

Lemma ub_byte_of_Z z : ub (byte_of_Z z) = z mod 256.
Proof.
  unfold byte_of_Z. pose proof (Z.mod_pos_bound z 256 ltac:(lia)) as Hz.
  destruct (Byte.of_N (Z.to_N (z mod 256))) as [b|] eqn:E; simpl.
  - apply Byte.to_of_N in E. unfold ub. rewrite E. lia.
  - apply Byte.of_N_None_iff in E. lia.
Qed.

Lemma ub_zero b : ub b = 0 <-> b = Byte.x00.
Proof. split; [intros H; by apply ub_inj | by intros ->]. Qed.

(** ** Machine integers: the wrap-around of the C and Go unsigned types *)

Definition u8 (z : Z) : Z := z mod 2 ^ 8.
Definition u16 (z : Z) : Z := z mod 2 ^ 16.
Definition u32 (z : Z) : Z := z mod 2 ^ 32.
Definition u64 (z : Z) : Z := z mod 2 ^ 64.

Definition is_u16 (z : Z) : Prop := 0 <= z < 2 ^ 16.
Definition is_u32 (z : Z) : Prop := 0 <= z < 2 ^ 32.
Definition is_u64 (z : Z) : Prop := 0 <= z < 2 ^ 64.

Lemma u32_small z : is_u32 z -> u32 z = z.
Proof. apply Z.mod_small. Qed.

Lemma u64_small z : is_u64 z -> u64 z = z.
Proof. apply Z.mod_small. Qed.

(** ** Little-endian words (the target is x86_64: [bpfel], [NativeEndian]) *)

Fixpoint le_combine (bs : list byte) : Z :=
  match bs with
  | [] => 0
  | b :: bs => ub b + 256 * le_combine bs
  end.

Fixpoint le_split (n : nat) (z : Z) : list byte :=
  match n with
  | O => []
  | S n => byte_of_Z z :: le_split n (z / 256)
  end.

(** Byte swap of a 16-bit value: [bpf_htons] on a little-endian target. *)
Definition bswap16 (z : Z) : Z := Z.lor (Z.shiftl (Z.land z 255) 8) (Z.shiftr z 8).

Lemma le_combine_nil : le_combine [] = 0.
Proof. done. Qed.

Lemma le_combine_cons b bs : le_combine (b :: bs) = ub b + 256 * le_combine bs.
Proof. done. Qed.

Lemma length_le_split n z : length (le_split n z) = n.
Proof. revert z. induction n; intros; simpl; auto. Qed.

Lemma le_combine_split n z : le_combine (le_split n z) = z mod 256 ^ Z.of_nat n.
Proof.
  revert z. induction n as [|n IH]; intros z; simpl.
  - by rewrite Z.mod_1_r.
  - rewrite IH, ub_byte_of_Z, Nat2Z.inj_succ, Z.pow_succ_r by lia.
    rewrite Z.rem_mul_r by lia. done.
Qed.

Lemma le_split_combine bs n :
  length bs = n -> le_split n (le_combine bs) = bs.
Proof.
  intros <-. induction bs as [|b bs IH]; simpl; [done|].
  pose proof (ub_range b).
  assert (byte_of_Z (ub b + 256 * le_combine bs) = b) as ->.
  { apply ub_inj. rewrite ub_byte_of_Z. rewrite Z.mul_comm, Z_mod_plus_full.
    apply Z.mod_small. lia. }
  replace ((ub b + 256 * le_combine bs) / 256) with (le_combine bs)
    by (rewrite Z.mul_comm, Z.div_add, (Z.div_small (ub b)) by lia; lia).
  by rewrite IH.
Qed.

Lemma le_combine_range bs : 0 <= le_combine bs < 256 ^ Z.of_nat (length bs).
Proof.
  induction bs as [|b bs IH]; simpl; [lia|].
  rewrite Nat2Z.inj_succ, Z.pow_succ_r by lia. pose proof (ub_range b). lia.
Qed.

Lemma le_combine_app bs1 bs2 :
  le_combine (bs1 ++ bs2) =
    le_combine bs1 + 256 ^ Z.of_nat (length bs1) * le_combine bs2.
Proof.
  induction bs1 as [|b bs1 IH]; simpl; [lia|].
  rewrite IH, Nat2Z.inj_succ, Z.pow_succ_r by lia. ring.
Qed.

Lemma le_combine_inj bs1 bs2 :
  length bs1 = length bs2 -> le_combine bs1 = le_combine bs2 -> bs1 = bs2.
Proof.
  intros Hl Hc.
  by rewrite <- (le_split_combine bs1 _ eq_refl), Hc, (le_split_combine bs2) by done.
Qed.

Arguments le_combine : simpl never.
Arguments le_split : simpl never.

(** ** Byte ranges of a buffer *)

(** [slice off n l]: the [n] bytes of [l] at [off].  [put off bs l]: [l] with
    the bytes at [off] overwritten by [bs]; in range only. *)
Definition slice {A} (off n : Z) (l : list A) : list A :=
  take (Z.to_nat n) (drop (Z.to_nat off) l).

Definition put {A} (off : Z) (bs l : list A) : list A :=
  take (Z.to_nat off) l ++ bs ++ drop (Z.to_nat off + length bs) l.

(** [l[i]] of a byte buffer; out of range it is 0 (no use is out of range). *)
Definition byte_at (i : Z) (l : list byte) : byte := default Byte.x00 (l !! Z.to_nat i).

Definition in_range {A} (off n : Z) (l : list A) : Prop :=
  0 <= off /\ 0 <= n /\ off + n <= Z.of_nat (length l).

Section slices.
Context {A : Type}.
Implicit Types l bs : list A.

Lemma length_slice off n l :
  in_range off n l -> length (slice off n l) = Z.to_nat n.
Proof. intros (?&?&?). unfold slice. rewrite length_take, length_drop. lia. Qed.

Lemma lookup_slice off n l i :
  slice off n l !! i =
    if decide (i < Z.to_nat n)%nat then l !! (Z.to_nat off + i)%nat else None.
Proof.
  unfold slice. case_decide.
  - rewrite lookup_take_lt, lookup_drop by done. done.
  - by rewrite lookup_take_ge by lia.
Qed.

Lemma length_put off bs l :
  in_range off (Z.of_nat (length bs)) l -> length (put off bs l) = length l.
Proof.
  intros (?&?&?). unfold put.
  rewrite !length_app, length_take, length_drop. lia.
Qed.

Lemma lookup_put off bs l (i : nat) :
  in_range off (Z.of_nat (length bs)) l ->
  put off bs l !! i =
    if decide (Z.to_nat off <= i < Z.to_nat off + length bs)%nat
    then bs !! (i - Z.to_nat off)%nat else l !! i.
Proof.
  intros (?&?&?). unfold put. case_decide.
  - rewrite lookup_app_r; rewrite length_take; [|lia].
    rewrite lookup_app_l by lia. f_equal. lia.
  - destruct (decide (i < Z.to_nat off)%nat).
    + rewrite lookup_app_l by (rewrite length_take; lia).
      by rewrite lookup_take_lt by lia.
    + rewrite lookup_app_r; rewrite length_take; [|lia].
      rewrite lookup_app_r by lia. rewrite lookup_drop. f_equal. lia.
Qed.

Lemma slice_put_same off bs l n :
  n = Z.of_nat (length bs) -> in_range off n l -> slice off n (put off bs l) = bs.
Proof.
  intros -> Hr. pose proof Hr as (?&?&?). apply list_eq. intros i.
  rewrite lookup_slice, lookup_put by done.
  repeat case_decide; try lia; [f_equal; lia|].
  symmetry. apply lookup_ge_None. lia.
Qed.

Lemma slice_put_disjoint off bs l off' n :
  in_range off (Z.of_nat (length bs)) l -> 0 <= off' ->
  off' + n <= off \/ off + Z.of_nat (length bs) <= off' ->
  slice off' n (put off bs l) = slice off' n l.
Proof.
  intros Hr ? ?. pose proof Hr as (?&?&?). apply list_eq. intros i.
  rewrite !lookup_slice. case_decide; [|done].
  rewrite lookup_put by done. case_decide; [lia|done].
Qed.

Lemma put_put off bs bs' l :
  length bs = length bs' -> in_range off (Z.of_nat (length bs)) l ->
  put off bs' (put off bs l) = put off bs' l.
Proof.
  intros Hl Hr. apply list_eq. intros i.
  assert (in_range off (Z.of_nat (length bs')) (put off bs l)).
  { unfold in_range in *. rewrite length_put by done. lia. }
  assert (in_range off (Z.of_nat (length bs')) l) by by rewrite <- Hl.
  rewrite !lookup_put by done. by repeat case_decide; try lia.
Qed.

Lemma put_comm off bs off' bs' l :
  in_range off (Z.of_nat (length bs)) l -> in_range off' (Z.of_nat (length bs')) l ->
  off' + Z.of_nat (length bs') <= off \/ off + Z.of_nat (length bs) <= off' ->
  put off bs (put off' bs' l) = put off' bs' (put off bs l).
Proof.
  intros Hr Hr' Hd. apply list_eq. intros i.
  pose proof Hr as (?&?&?). pose proof Hr' as (?&?&?).
  assert (in_range off (Z.of_nat (length bs)) (put off' bs' l))
    by (unfold in_range; rewrite length_put by done; lia).
  assert (in_range off' (Z.of_nat (length bs')) (put off bs l))
    by (unfold in_range; rewrite length_put by done; lia).
  rewrite !lookup_put by done. by repeat case_decide; try lia.
Qed.

Lemma put_slice off n l : in_range off n l -> put off (slice off n l) l = l.
Proof.
  intros Hr. pose proof Hr as (?&?&?). apply list_eq. intros i.
  rewrite lookup_put by (rewrite length_slice, Z2Nat.id by done; done).
  rewrite length_slice by done. case_decide; [|done].
  rewrite lookup_slice, decide_True by lia. f_equal. lia.
Qed.

Lemma slice_slice off n off' n' l :
  0 <= off -> 0 <= off' -> off' + n' <= n ->
  slice off' n' (slice off n l) = slice (off + off') n' l.
Proof.
  intros. apply list_eq. intros i. rewrite !lookup_slice.
  repeat case_decide; try done; try lia. f_equal. lia.
Qed.
End slices.

Lemma lookup_slice_byte off n (l : list byte) i :
  0 <= off -> 0 <= i < n -> byte_at i (slice off n l) = byte_at (off + i) l.
Proof.
  intros. unfold byte_at. rewrite lookup_slice, decide_True by lia.
  do 2 f_equal. lia.
Qed.

(** Offsets and lengths of in-range accesses. *)
Ltac solve_range :=
  unfold in_range in *; rewrite ?length_put; unfold in_range;
  rewrite ?length_le_split; first [done | lia].

(** ** Maps that shrink except at one key

    An update of an LRU map may evict any other entry, so what is known of the
    map after it is an inclusion away from the key.  [eauto with maps] finds
    the consequences. *)

Section maps.
Context {K V : Type} `{Countable K}.
Implicit Types (m : gmap K V) (P : K -> V -> Prop).

Lemma map_Forall_subseteq P m m' : m' ⊆ m -> map_Forall P m -> map_Forall P m'.
Proof. intros Hs Hm k v Hk. eapply Hm, lookup_weaken; done. Qed.

Lemma map_Forall_subseteq_delete P k m m' :
  m' ⊆ delete k m -> map_Forall P m -> map_Forall P m'.
Proof. intros Hs Hm. eapply map_Forall_subseteq; [done|]. by apply map_Forall_delete. Qed.

Lemma map_Forall_of_delete P k v m m' :
  m' !! k = Some v -> P k v -> delete k m' ⊆ delete k m -> map_Forall P m ->
  map_Forall P m'.
Proof.
  intros Hk HP Hs Hm. rewrite <- (insert_delete_id m' k v) by done.
  apply map_Forall_insert_2; [done|]. by eapply map_Forall_subseteq_delete.
Qed.

Lemma delete_subseteq_lookup k k' m m' :
  delete k m' ⊆ delete k m -> k' <> k -> m' !! k' = m !! k' \/ m' !! k' = None.
Proof.
  intros Hs Hk. destruct (m' !! k') as [v|] eqn:E; [left|by right].
  assert (delete k m !! k' = Some v) as E'
    by (eapply lookup_weaken; [by rewrite lookup_delete_ne|done]).
  by rewrite lookup_delete_ne in E'.
Qed.

Lemma subseteq_delete_lookup k m m' : m' ⊆ delete k m -> m' !! k = None.
Proof. intros Hs. eapply lookup_weaken_None; [|done]. apply lookup_delete_eq. Qed.

Lemma subseteq_of_delete k m m' : m' ⊆ delete k m -> m' ⊆ m.
Proof. intros Hs. etrans; [done|]. apply delete_subseteq. Qed.
End maps.

Create HintDb maps.
#[export] Hint Resolve map_Forall_subseteq map_Forall_subseteq_delete map_Forall_of_delete
  delete_subseteq_lookup subseteq_delete_lookup subseteq_of_delete : maps.
