(* ===== verification/Types.v ===== *)
(** * Shared data types of the datapath

    The constants, enumerations and structs of [bpf/dns_gateway.h], the
    packet headers of [bpf/headers/vmlinux.h] the programs read, and how a
    header is laid out in packet bytes on the little-endian target. *)

From S2P Require Import Prelude.

(** ** Constants *)

Definition TC_ACT_OK : Z := 0.
Definition TC_ACT_SHOT : Z := 2.

Definition ETH_P_IP : Z := 0x0800.
Definition ETH_HLEN : Z := 14.
Definition IPPROTO_UDP : Z := 17.

Definition MAX_DNS_NAME_LEN : Z := 128.
Definition MAX_LABELS : nat := 10.
Definition CONNTRACK_TTL_NS : Z := 5 * 1000 * 1000 * 1000.

Definition ACTION_HOST_RESOLVE : Z := 1.
Definition ACTION_CLUSTER_RESOLVE : Z := 2.

Definition BPF_ANY : Z := 0.
Definition BPF_F_PSEUDO_HDR : Z := 16.
Definition BPF_F_MARK_MANGLED_0 : Z := 32.

(** ** Metric ids *)

Inductive metric_id :=
  | METRIC_TOTAL_PACKETS
  | METRIC_DNS_QUERIES
  | METRIC_SUFFIX_MATCH
  | METRIC_SUFFIX_NO_MATCH
  | METRIC_BYPASS_ACTIVE
  | METRIC_PARSE_ERROR
  | METRIC_EGRESS_SNAT
  | METRIC_EGRESS_CONNTRACK_MISS
  | METRIC_EGRESS_TOTAL
  | METRIC_NAT_ERROR
  | METRIC_NAT_REVERT_FAIL
  | METRIC_REDIRECTED
  | METRIC_CLUSTER_RESOLVED.

#[export] Instance metric_id_eq_dec : EqDecision metric_id.
Proof. solve_decision. Defined.

(** The value of the C enumerator: its index in [metrics_map]. *)
Definition metric_index (m : metric_id) : nat :=
  match m with
  | METRIC_TOTAL_PACKETS => 0
  | METRIC_DNS_QUERIES => 1
  | METRIC_SUFFIX_MATCH => 2
  | METRIC_SUFFIX_NO_MATCH => 3
  | METRIC_BYPASS_ACTIVE => 4
  | METRIC_PARSE_ERROR => 5
  | METRIC_EGRESS_SNAT => 6
  | METRIC_EGRESS_CONNTRACK_MISS => 7
  | METRIC_EGRESS_TOTAL => 8
  | METRIC_NAT_ERROR => 9
  | METRIC_NAT_REVERT_FAIL => 10
  | METRIC_REDIRECTED => 11
  | METRIC_CLUSTER_RESOLVED => 12
  end.

Definition METRIC__MAX : nat := 13.

Lemma metric_index_lt m : (metric_index m < METRIC__MAX)%nat.
Proof. destruct m; unfold METRIC__MAX; simpl; lia. Qed.

#[export] Instance metric_index_inj : Inj (=) (=) metric_index.
Proof. intros [] []; simpl; congruence. Qed.

(** ** Map keys and values *)

Record suffix_key := SuffixKey { sk_name : list byte }.

Record suffix_value := SuffixValue { sv_action : Z; sv_pad : Z }.

Record gateway_config := GatewayConfig {
  coredns_ip : Z;
  host_resolver_ip : Z;
  dns_port : Z;
  bypass : Z;
  default_action : Z
}.

Record conntrack_key := ConntrackKey {
  pod_ip : Z;
  pod_port : Z;
  txid : Z
}.

Record conntrack_value := ConntrackValue {
  cv_coredns_ip : Z;
  cv_pad : Z;
  timestamp_ns : Z
}.

Record scratch_buf := ScratchBuf {
  qname : list byte;
  lookup_buf : list byte
}.

#[export] Instance suffix_key_eq_dec : EqDecision suffix_key.
Proof. solve_decision. Defined.
#[export] Program Instance suffix_key_countable : Countable suffix_key :=
  inj_countable' sk_name SuffixKey _.
Next Obligation. by intros []. Qed.

#[export] Instance suffix_value_eq_dec : EqDecision suffix_value.
Proof. solve_decision. Defined.

#[export] Instance gateway_config_eq_dec : EqDecision gateway_config.
Proof. solve_decision. Defined.

#[export] Instance conntrack_key_eq_dec : EqDecision conntrack_key.
Proof. solve_decision. Defined.
#[export] Program Instance conntrack_key_countable : Countable conntrack_key :=
  inj_countable' (fun k => (pod_ip k, pod_port k, txid k))
                 (fun '(a, b, c) => ConntrackKey a b c) _.
Next Obligation. by intros []. Qed.

#[export] Instance conntrack_value_eq_dec : EqDecision conntrack_value.
Proof. solve_decision. Defined.

(** Field widths of the config entry. *)
Definition gateway_config_wf (c : gateway_config) : Prop :=
  is_u32 (coredns_ip c) /\ is_u32 (host_resolver_ip c) /\ is_u16 (dns_port c) /\
  is_u16 (bypass c) /\ is_u32 (default_action c).

(** ** Packets

    [data] is the linear view of the packet the skb helpers address; its
    length is [skb->len].  [csum_partial] is the kernel's
    [ip_summed == CHECKSUM_PARTIAL]: no program reads it, the checksum
    helpers behave differently under it. *)
Record skb := Skb {
  data : list byte;
  csum_partial : bool
}.

Definition skb_len (s : skb) : Z := Z.of_nat (length (data s)).

Definition with_data (s : skb) (d : list byte) : skb := Skb d (csum_partial s).

(** ** Headers *)

Record ethhdr := EthHdr { h_dest : list byte; h_source : list byte; h_proto : Z }.

Record iphdr := IpHdr {
  ihl : Z; version : Z; tos : Z; tot_len : Z; ip_id : Z; frag_off : Z;
  ttl : Z; protocol : Z; ip_check : Z; saddr : Z; daddr : Z
}.

Record udphdr := UdpHdr { source : Z; dest : Z; udp_len : Z; udp_check : Z }.

Definition sizeof_ethhdr : Z := 14.
Definition sizeof_iphdr : Z := 20.
Definition sizeof_udphdr : Z := 8.

(** The field of [n] bytes at [off], as the host integer the struct access
    yields. *)
Definition field (off n : Z) (bs : list byte) : Z := le_combine (slice off n bs).

Definition ethhdr_of_bytes (bs : list byte) : ethhdr :=
  {| h_dest := slice 0 6 bs; h_source := slice 6 6 bs; h_proto := field 12 2 bs |}.

Definition iphdr_of_bytes (bs : list byte) : iphdr :=
  {| ihl := Z.land (field 0 1 bs) 15;
     version := Z.shiftr (field 0 1 bs) 4;
     tos := field 1 1 bs;
     tot_len := field 2 2 bs;
     ip_id := field 4 2 bs;
     frag_off := field 6 2 bs;
     ttl := field 8 1 bs;
     protocol := field 9 1 bs;
     ip_check := field 10 2 bs;
     saddr := field 12 4 bs;
     daddr := field 16 4 bs |}.

Definition udphdr_of_bytes (bs : list byte) : udphdr :=
  {| source := field 0 2 bs; dest := field 2 2 bs;
     udp_len := field 4 2 bs; udp_check := field 6 2 bs |}.

(** [((__u16)b[i] << 8) | b[i+1]]: the big-endian reads of the DNS header. *)
Definition be16_at (i : Z) (bs : list byte) : Z :=
  Z.lor (Z.shiftl (ub (byte_at i bs)) 8) (ub (byte_at (i + 1) bs)).

Definition bpf_htons (x : Z) : Z := bswap16 x.

Lemma field_range off n bs :
  0 <= n -> 0 <= field off n bs < 256 ^ n.
Proof.
  intros. unfold field. pose proof (le_combine_range (slice off n bs)) as H0.
  split; [lia|]. eapply Z.lt_le_trans; [apply H0|].
  apply Z.pow_le_mono_r; [lia|]. unfold slice. rewrite length_take. lia.
Qed.

Lemma field_slice off n off' n' bs :
  0 <= off -> 0 <= off' -> off' + n' <= n ->
  field off' n' (slice off n bs) = field (off + off') n' bs.
Proof. intros. unfold field. by rewrite slice_slice by lia. Qed.

Lemma field_put_same off bs l n :
  n = Z.of_nat (length bs) -> in_range off n l -> field off n (put off bs l) = le_combine bs.
Proof. intros. unfold field. by rewrite slice_put_same. Qed.

Lemma field_put_disjoint off bs l off' n :
  in_range off (Z.of_nat (length bs)) l -> 0 <= off' ->
  off' + n <= off \/ off + Z.of_nat (length bs) <= off' ->
  field off' n (put off bs l) = field off' n l.
Proof. intros. unfold field. by rewrite slice_put_disjoint. Qed.

Lemma iphdr_ihl_range bs : 0 <= ihl (iphdr_of_bytes bs) < 16.
Proof.
  simpl. change 15 with (Z.ones 4). rewrite Z.land_ones by lia.
  apply Z.mod_pos_bound. lia.
Qed.

Lemma saddr_range bs : is_u32 (saddr (iphdr_of_bytes bs)).
Proof. apply (field_range 12 4). lia. Qed.

Lemma daddr_range bs : is_u32 (daddr (iphdr_of_bytes bs)).
Proof. apply (field_range 16 4). lia. Qed.
