(* ===== verification/Kernel.v ===== *)
(** * The kernel interface of the datapath

    The helpers the two programs call are kernel code, so they are the
    operations of the class [BpfHelpers]; [BpfHelpersOk] states the documented
    behaviour the programs rely on.  [dp_state] is what a program run reads and
    writes: the packet, the five maps of [bpf/dns_gateway.c], and the kernel's
    private state.  [prog] is the state-and-early-return monad the programs are
    written in. *)

From S2P Require Import Prelude.
From S2P Require Import Types.

Abbreviation rules_map := (gmap suffix_key suffix_value).
Abbreviation ct_map := (gmap conntrack_key conntrack_value).

(** ** Helpers *)

Class BpfHelpers := {
  (** Everything in the kernel a helper may depend on or change besides the
      packet and the map contents: allocator, LRU lists, clock. *)
  kern : Type;
  (** [bpf_skb_load_bytes(skb, off, to, len)]: return code and the bytes left
      in [to]. *)
  skb_load_bytes : kern -> skb -> Z -> Z -> Z * list byte;
  (** [bpf_skb_store_bytes(skb, off, from, len, flags)]. *)
  skb_store_bytes : kern -> skb -> Z -> list byte -> Z -> Z * skb * kern;
  (** [bpf_l3_csum_replace(skb, off, from, to, flags)], and [l4]. *)
  l3_csum_replace : kern -> skb -> Z -> Z -> Z -> Z -> Z * skb * kern;
  l4_csum_replace : kern -> skb -> Z -> Z -> Z -> Z -> Z * skb * kern;
  (** [bpf_ktime_get_ns()]. *)
  ktime_get_ns : kern -> Z * kern;
  (** [bpf_map_update_elem] and [bpf_map_delete_elem] on the LRU hash
      [conntrack_map]. *)
  ct_update_elem :
    kern -> ct_map -> conntrack_key -> conntrack_value -> Z -> Z * ct_map * kern;
  ct_delete_elem : kern -> ct_map -> conntrack_key -> Z * ct_map * kern
}.

(** A 16-bit one's complement checksum field goes from [c] to [c'] when a
    32-bit word it covers goes from [from] to [to]: the incremental update of
    RFC 1624, modulo [2^16 - 1]. *)
Definition csum_step (c c' from to : Z) : Prop :=
  (c' + to) mod 65535 = (c + from) mod 65535.

(** Documented behaviour of the helpers. *)
Class BpfHelpersOk (H : BpfHelpers) := {
  load_in_range k s off n :
    0 < n -> in_range off n (data s) ->
    skb_load_bytes k s off n = (0, slice off n (data s));
  load_out_of_range k s off n :
    0 < n -> ~ in_range off n (data s) ->
    (skb_load_bytes k s off n).1 < 0 /\
    length (skb_load_bytes k s off n).2 = Z.to_nat n;
  store_result k s off bs rc s' k' :
    skb_store_bytes k s off bs 0 = (rc, s', k') ->
    (rc < 0 /\ s' = s) \/
    (rc = 0 /\ in_range off (Z.of_nat (length bs)) (data s) /\
     s' = with_data s (put off bs (data s)));
  l3_result k s off from to rc s' k' :
    l3_csum_replace k s off from to 4 = (rc, s', k') ->
    (rc < 0 /\ s' = s) \/
    (rc = 0 /\ in_range off 2 (data s) /\ exists c', is_u16 c' /\
     s' = with_data s (put off (le_split 2 c') (data s)) /\
     csum_step (field off 2 (data s)) c' from to);
  l4_result k s off from to rc s' k' :
    l4_csum_replace k s off from to
      (Z.lor (Z.lor BPF_F_PSEUDO_HDR BPF_F_MARK_MANGLED_0) 4) = (rc, s', k') ->
    (rc < 0 /\ s' = s) \/
    (rc = 0 /\ in_range off 2 (data s) /\ exists c', is_u16 c' /\
     s' = with_data s (put off (le_split 2 c') (data s)) /\
     (csum_partial s = false ->
      (field off 2 (data s) = 0 /\ c' = 0) \/
      (field off 2 (data s) <> 0 /\ c' <> 0 /\
       csum_step (field off 2 (data s)) c' from to)));
  ktime_u64 k : is_u64 (ktime_get_ns k).1;
  ct_update_result k m key v rc m' k' :
    ct_update_elem k m key v BPF_ANY = (rc, m', k') ->
    (rc < 0 /\ m' ⊆ m) \/
    (rc = 0 /\ m' !! key = Some v /\ delete key m' ⊆ delete key m);
  ct_delete_result k m key rc m' k' :
    ct_delete_elem k m key = (rc, m', k') -> m' = delete key m
}.

(** A healthy kernel: while [up] holds, the helpers that can fail for lack of a
    resource (unsharing or allocating packet memory, allocating a map entry)
    succeed on in-range arguments, and [up] keeps holding. *)
Class BpfHelpersUp (H : BpfHelpers) (up : kern -> Prop) := {
  up_store k s off bs rc s' k' :
    up k -> in_range off (Z.of_nat (length bs)) (data s) ->
    skb_store_bytes k s off bs 0 = (rc, s', k') -> rc = 0 /\ up k';
  up_l3 k s off from to rc s' k' :
    up k -> in_range off 2 (data s) ->
    l3_csum_replace k s off from to 4 = (rc, s', k') -> rc = 0 /\ up k';
  up_l4 k s off from to rc s' k' :
    up k -> in_range off 2 (data s) ->
    l4_csum_replace k s off from to
      (Z.lor (Z.lor BPF_F_PSEUDO_HDR BPF_F_MARK_MANGLED_0) 4) = (rc, s', k') ->
    rc = 0 /\ up k';
  up_ktime k : up k -> up (ktime_get_ns k).2;
  up_ct_update k m key v rc m' k' :
    up k -> ct_update_elem k m key v BPF_ANY = (rc, m', k') -> rc = 0 /\ up k'
}.

Section datapath.
  Context {H : BpfHelpers}.

(** ** State of a program run *)

Record dp_state := DpState {
  st_skb : skb;
  st_config : list gateway_config;   (* config_map: ARRAY of 1 *)
  st_rules : rules_map;              (* suffix_rules: HASH *)
  st_ct : ct_map;                    (* conntrack_map: LRU_HASH *)
  st_metrics : list Z;               (* metrics_map: this CPU's slots *)
  st_scratch : list scratch_buf;     (* scratch_map: this CPU's slot *)
  st_kern : kern
}.

Definition set_skb (p : skb) (s : dp_state) : dp_state :=
  DpState p (st_config s) (st_rules s) (st_ct s) (st_metrics s) (st_scratch s) (st_kern s).
Definition set_ct (m : ct_map) (s : dp_state) : dp_state :=
  DpState (st_skb s) (st_config s) (st_rules s) m (st_metrics s) (st_scratch s) (st_kern s).
Definition set_metrics (l : list Z) (s : dp_state) : dp_state :=
  DpState (st_skb s) (st_config s) (st_rules s) (st_ct s) l (st_scratch s) (st_kern s).
Definition set_scratch (l : list scratch_buf) (s : dp_state) : dp_state :=
  DpState (st_skb s) (st_config s) (st_rules s) (st_ct s) (st_metrics s) l (st_kern s).
Definition set_kern (k : kern) (s : dp_state) : dp_state :=
  DpState (st_skb s) (st_config s) (st_rules s) (st_ct s) (st_metrics s) (st_scratch s) k.

(** ** The monad: state, and C's [return] *)

Inductive ctl (A : Type) :=
  | Cont (a : A)
  | Exit (act : Z).
Arguments Cont {A} a.
Arguments Exit {A} act.

Definition prog (A : Type) : Type := dp_state -> dp_state * ctl A.

#[export] Instance prog_ret : MRet prog := fun A a s => (s, Cont a).

#[export] Instance prog_bind : MBind prog := fun A B f m s =>
  match m s with
  | (s', Cont a) => f a s'
  | (s', Exit act) => (s', Exit act)
  end.

(** [return act;] *)
Definition exit {A} (act : Z) : prog A := fun s => (s, Exit act).

(** [if (c) return act;] *)
Definition exit_if (c : bool) (act : Z) : prog unit :=
  if c then exit act else mret tt.

Definition gets {A} (f : dp_state -> A) : prog A := fun s => (s, Cont (f s)).
Definition modify (f : dp_state -> dp_state) : prog unit := fun s => (f s, Cont tt).

(** Runs an entry point: the final state and the TC verdict. *)
Definition run (p : prog Z) (s : dp_state) : dp_state * Z :=
  match p s with
  | (s', Cont act) => (s', act)
  | (s', Exit act) => (s', act)
  end.

(** ** Helper calls as program steps *)

Definition load_bytes (off len : Z) : prog (Z * list byte) := fun s =>
  (s, Cont (skb_load_bytes (st_kern s) (st_skb s) off len)).

Definition store_bytes (off : Z) (bs : list byte) : prog Z := fun s =>
  let '(rc, p, k) := skb_store_bytes (st_kern s) (st_skb s) off bs 0 in
  (set_kern k (set_skb p s), Cont rc).

Definition l3_csum (off from to flags : Z) : prog Z := fun s =>
  let '(rc, p, k) := l3_csum_replace (st_kern s) (st_skb s) off from to flags in
  (set_kern k (set_skb p s), Cont rc).

Definition l4_csum (off from to flags : Z) : prog Z := fun s =>
  let '(rc, p, k) := l4_csum_replace (st_kern s) (st_skb s) off from to flags in
  (set_kern k (set_skb p s), Cont rc).

Definition ktime : prog Z := fun s =>
  let '(t, k) := ktime_get_ns (st_kern s) in (set_kern k s, Cont t).

Definition conntrack_update (key : conntrack_key) (v : conntrack_value) : prog Z := fun s =>
  let '(rc, m, k) := ct_update_elem (st_kern s) (st_ct s) key v BPF_ANY in
  (set_kern k (set_ct m s), Cont rc).

Definition conntrack_delete (key : conntrack_key) : prog Z := fun s =>
  let '(rc, m, k) := ct_delete_elem (st_kern s) (st_ct s) key in
  (set_kern k (set_ct m s), Cont rc).

(** ** Metrics *)

Definition bump (m : metric_id) (l : list Z) : list Z :=
  match l !! metric_index m with
  | Some v => <[metric_index m := u64 (v + 1)]> l
  | None => l
  end.

Definition increment_metric (m : metric_id) : prog unit :=
  modify (fun s => set_metrics (bump m (st_metrics s)) s).

Definition bump_all (ms : list metric_id) (l : list Z) : list Z :=
  foldl (flip bump) l ms.

Definition count (ms : list metric_id) (s : dp_state) : dp_state :=
  set_metrics (bump_all ms (st_metrics s)) s.

(** [bpf_map_lookup_elem(&config_map, &zero)]; [if (!cfg) return TC_ACT_OK]. *)
Definition lookup_config : prog gateway_config := fun s =>
  match st_config s !! 0%nat with
  | Some cfg => (s, Cont cfg)
  | None => (s, Exit TC_ACT_OK)
  end.

(** ** Well-formed states: the widths and sizes of the map declarations *)

Definition scratch_wf (b : scratch_buf) : Prop :=
  length (qname b) = Z.to_nat MAX_DNS_NAME_LEN /\
  length (lookup_buf b) = Z.to_nat MAX_DNS_NAME_LEN.

Record dp_wf (s : dp_state) : Prop := {
  wf_len : skb_len (st_skb s) < 2 ^ 32;
  wf_config_len : length (st_config s) = 1%nat;
  wf_config : Forall gateway_config_wf (st_config s);
  wf_metrics_len : length (st_metrics s) = METRIC__MAX;
  wf_metrics : Forall is_u64 (st_metrics s);
  wf_scratch_len : length (st_scratch s) = 1%nat;
  wf_scratch : Forall scratch_wf (st_scratch s)
}.

(** Field widths of the conntrack entries. *)
Definition conntrack_value_wf (v : conntrack_value) : Prop :=
  is_u32 (cv_coredns_ip v) /\ is_u64 (timestamp_ns v).

Definition conntrack_wf (m : ct_map) : Prop := map_Forall (fun _ => conntrack_value_wf) m.

End datapath.

Arguments Cont {A} a.
Arguments Exit {A} act.

(** ** Monad equations *)

Section monad.
Context {H : BpfHelpers}.

Lemma run_bind {A B} (m : prog A) (f : A -> prog B) s :
  (m ≫= f) s = match m s with
               | (s', Cont a) => f a s'
               | (s', Exit act) => (s', Exit act)
               end.
Proof. done. Qed.

Lemma bind_bind {A B C} (m : prog A) (f : A -> prog B) (g : B -> prog C) s :
  ((m ≫= f) ≫= g) s = (m ≫= (fun a => f a ≫= g)) s.
Proof. rewrite !run_bind. destruct (m s) as [s' []]; done. Qed.

Lemma exit_if_false {B} act (f : unit -> prog B) s :
  (exit_if false act ≫= f) s = f tt s.
Proof. done. Qed.

Lemma exit_if_true {B} act (f : unit -> prog B) s :
  (exit_if true act ≫= f) s = (s, Exit act).
Proof. done. Qed.

Lemma count_nil s : count [] s = s.
Proof. by destruct s. Qed.

Lemma count_app ms ms' s : count ms' (count ms s) = count (ms ++ ms') s.
Proof. unfold count, bump_all. by rewrite foldl_app. Qed.

Lemma increment_metric_run m s : increment_metric m s = (count [m] s, Cont tt).
Proof. done. Qed.
End monad.

(** ** Counters *)

Definition metric (l : list Z) (m : metric_id) : Z := default 0 (l !! metric_index m).

Lemma length_bump m l : length (bump m l) = length l.
Proof. unfold bump. case_match; [apply length_insert | done]. Qed.

Lemma length_bump_all ms l : length (bump_all ms l) = length l.
Proof.
  revert l. induction ms as [|m ms IH]; intros l; simpl; [done|].
  rewrite IH. apply length_bump.
Qed.

Lemma metric_bump m m' l :
  length l = METRIC__MAX ->
  metric (bump m l) m' = if decide (m = m') then u64 (metric l m + 1) else metric l m'.
Proof.
  intros Hl. pose proof (metric_index_lt m) as Hm. rewrite <- Hl in Hm.
  unfold metric, bump. destruct (lookup_lt_is_Some_2 _ _ Hm) as [v Hv]. rewrite Hv.
  case_decide as E.
  - subst. by rewrite list_lookup_insert_eq.
  - rewrite list_lookup_insert_ne; [done|]. intros ?%(inj metric_index). done.
Qed.

(** Counting [ms] adds to each counter the number of its occurrences, in
    64-bit arithmetic. *)
Lemma metric_bump_all ms m l :
  length l = METRIC__MAX -> is_u64 (metric l m) ->
  metric (bump_all ms l) m =
    u64 (metric l m + Z.of_nat (length (filter (.= m) ms))).
Proof.
  revert l. induction ms as [|m' ms IH]; intros l Hl Hu; simpl.
  - rewrite Z.add_0_r. by rewrite u64_small.
  - rewrite IH; [|by rewrite length_bump|].
    + rewrite metric_bump by done. rewrite filter_cons.
      repeat case_decide; simplify_eq; simpl; [|done].
      unfold u64. rewrite Zplus_mod_idemp_l. f_equal. lia.
    + rewrite metric_bump by done. case_decide; [|done].
      apply Z.mod_pos_bound. lia.
Qed.

Lemma bump_u64 m l : Forall is_u64 l -> Forall is_u64 (bump m l).
Proof.
  intros Hl. unfold bump. case_match; [|done].
  apply Forall_insert; [done|]. apply Z.mod_pos_bound. lia.
Qed.

Lemma bump_all_u64 ms l : Forall is_u64 l -> Forall is_u64 (bump_all ms l).
Proof.
  revert l. induction ms as [|m ms IH]; intros l Hl; simpl; [done|].
  apply IH, bump_u64, Hl.
Qed.
