(* ===== verification/Checksum.v ===== *)
(** * Internet checksums over packet bytes

    What a correct IPv4 header checksum and a correct UDP checksum are, and the
    arithmetic that shows the effect of overwriting one word of a packet.  All
    sums are taken over little-endian 16-bit words: one's complement sums do
    not depend on the byte order. *)

From S2P Require Import Prelude.
From S2P Require Import Types.

(** Sum of the 16-bit words, an odd last byte padded with zero. *)
Fixpoint words_sum (bs : list byte) : Z :=
  match bs with
  | [] => 0
  | [b] => ub b
  | b1 :: b2 :: bs => ub b1 + 256 * ub b2 + words_sum bs
  end.

Definition ip_hdr_len (d : list byte) : Z := 4 * ihl (iphdr_of_bytes (slice ETH_HLEN 20 d)).
Definition ip_udp_off (d : list byte) : Z := ETH_HLEN + ip_hdr_len d.

(** The one's complement sum of the header, checksum field included, is -0. *)
Definition ip_csum_ok (d : list byte) : Prop :=
  words_sum (slice ETH_HLEN (ip_hdr_len d) d) mod 65535 = 0.

(** UDP over IPv4: a zero field means no checksum; otherwise the segment and
    the pseudo-header (addresses, protocol 17, UDP length) sum to -0.  The
    whole segment is in the packet. *)
Definition udp_segment_len (d : list byte) : Z := bswap16 (field (ip_udp_off d + 4) 2 d).

Definition udp_pseudo_sum (d : list byte) : Z :=
  field 26 4 d + field 30 4 d + 256 * IPPROTO_UDP + field (ip_udp_off d + 4) 2 d.

Definition udp_csum_ok (d : list byte) : Prop :=
  field (ip_udp_off d + 6) 2 d = 0 \/
  (udp_pseudo_sum d + words_sum (slice (ip_udp_off d) (udp_segment_len d) d)) mod 65535 = 0.

(** The UDP segment, header included, lies in the packet. *)
Definition udp_segment_wf (d : list byte) : Prop :=
  8 <= udp_segment_len d /\ in_range (ip_udp_off d) (udp_segment_len d) d.

(** ** Arithmetic modulo [2^16 - 1] *)

Lemma pow256_even n : 0 <= n -> Z.Even n -> 256 ^ n mod 65535 = 1.
Proof.
  intros Hn [m ->]. rewrite Z.pow_mul_r by lia. change (256 ^ 2) with (65535 + 1).
  assert (0 <= m) as Hm by lia. clear Hn. revert m Hm.
  apply natlike_ind; [done|]. intros m Hm IH.
  rewrite Z.pow_succ_r by lia. rewrite Z.mul_mod, IH by lia. done.
Qed.

Lemma words_sum_le_combine bs : words_sum bs mod 65535 = le_combine bs mod 65535.
Proof.
  remember (length bs) as n eqn:Hn. revert bs Hn.
  induction (lt_wf n) as [n _ IH]. intros [|b1 [|b2 bs]] ->; rewrite ?le_combine_cons, ?le_combine_nil; simpl.
  - done.
  - f_equal. lia.
  - assert (words_sum bs mod 65535 = le_combine bs mod 65535) as E
      by (eapply IH; [|done]; simpl; lia).
    replace (ub b1 + 256 * (ub b2 + 256 * le_combine bs))
      with (ub b1 + 256 * ub b2 + le_combine bs + le_combine bs * 65535) by ring.
    rewrite Z_mod_plus_full, Zplus_mod, E, <- Zplus_mod. done.
Qed.

(** Overwriting bytes changes the little-endian value by the weighted
    difference of the bytes. *)
Lemma le_combine_put off bs l :
  in_range off (Z.of_nat (length bs)) l ->
  le_combine (put off bs l) =
    le_combine l + 256 ^ off * (le_combine bs - field off (Z.of_nat (length bs)) l).
Proof.
  intros (?&?&?).
  set (n := Z.of_nat (length bs)).
  assert (l = take (Z.to_nat off) l ++ slice off n l ++
              drop (Z.to_nat off + length bs) l) as E.
  { unfold slice, n. rewrite Nat2Z.id, <- drop_drop, take_drop, take_drop. done. }
  assert (length (take (Z.to_nat off) l) = Z.to_nat off) as Ht by (rewrite length_take; lia).
  assert (length (slice off n l) = length bs) as Hs
    by (unfold n; rewrite length_slice; [lia|done]).
  apply (f_equal le_combine) in E. unfold put, field.
  rewrite !le_combine_app, Hs, Ht, Z2Nat.id in * by lia. rewrite E. ring.
Qed.

Lemma words_sum_put off bs l :
  in_range off (Z.of_nat (length bs)) l -> Z.Even off ->
  words_sum (put off bs l) mod 65535 =
    (words_sum l + le_combine bs - field off (Z.of_nat (length bs)) l) mod 65535.
Proof.
  intros Hr He. pose proof Hr as (?&_&_).
  rewrite words_sum_le_combine, le_combine_put by done.
  rewrite Zplus_mod, Zmult_mod, pow256_even by done.
  rewrite Z.mul_1_l, Zmod_mod, <- Zplus_mod.
  replace (words_sum l + le_combine bs - field off (Z.of_nat (length bs)) l)
    with (words_sum l + (le_combine bs - field off (Z.of_nat (length bs)) l)) by ring.
  rewrite (Zplus_mod (words_sum l)), words_sum_le_combine, <- Zplus_mod. done.
Qed.

Lemma slice_put_inside {A} off n o (bs l : list A) :
  in_range off n l -> off <= o -> o + Z.of_nat (length bs) <= off + n ->
  slice off n (put o bs l) = put (o - off) bs (slice off n l).
Proof.
  intros Hr ? ?. pose proof Hr as (?&?&?). apply list_eq. intros i.
  assert (in_range o (Z.of_nat (length bs)) l) by (unfold in_range; lia).
  assert (in_range (o - off) (Z.of_nat (length bs)) (slice off n l))
    by (unfold in_range; rewrite length_slice by done; lia).
  rewrite lookup_slice, !lookup_put, lookup_slice by done.
  repeat case_decide; try done; try lia; f_equal; lia.
Qed.

(** Two 16-bit fields equal modulo [2^16 - 1] differ only in the
    representation of zero. *)
Lemma u16_mod_eq c c' :
  is_u16 c -> is_u16 c' -> c' mod 65535 = c mod 65535 ->
  c' = c \/ (c = 0 /\ c' = 65535) \/ (c = 65535 /\ c' = 0).
Proof. unfold is_u16. intros. Z.div_mod_to_equations. lia. Qed.
