(* ===== verification/NatRewrite.v ===== *)
(** * [nat_rewrite_addr]: the checked rewrite of one IPv4 address

    The three helper calls of a DNAT or SNAT, with the rollback of each prefix.
    The component promises that a packet leaves fully rewritten, or as it came,
    or is reported ([-2]): [nat_result] is that contract. *)

From S2P Require Import Prelude.
From S2P Require Import Types.
From S2P Require Import Kernel.
From S2P Require Import Checksum.

(** ** Translation *)

Section code.
  Context {H : BpfHelpers}.

Definition IP_CSUM_OFF : Z := ETH_HLEN + 10.

Definition nat_rewrite_addr (addr_off udp_csum_off old_addr new_addr : Z) : prog Z :=
  (* Step 1: rewrite the address bytes. *)
  rc ← store_bytes addr_off (le_split 4 new_addr);
  if rc <? 0 then mret (-1) else
  (* Step 2: IP header checksum. *)
  rc ← l3_csum IP_CSUM_OFF old_addr new_addr 4;
  if rc <? 0 then
    rc ← store_bytes addr_off (le_split 4 old_addr);
    if rc <? 0 then mret (-2) else mret (-1)
  else
  (* Step 3: UDP checksum. *)
  rc ← l4_csum udp_csum_off old_addr new_addr
         (Z.lor (Z.lor BPF_F_PSEUDO_HDR BPF_F_MARK_MANGLED_0) 4);
  if rc <? 0 then
    rc3 ← l3_csum IP_CSUM_OFF new_addr old_addr 4;
    let rc := if rc3 <? 0 then -2 else -1 in
    rc4 ← store_bytes addr_off (le_split 4 old_addr);
    let rc := if rc4 <? 0 then -2 else rc in
    mret rc
  else mret 0.

Definition count_nat_failure (rc : Z) : prog unit :=
  increment_metric METRIC_NAT_ERROR;;
  if rc =? -2 then increment_metric METRIC_NAT_REVERT_FAIL else mret tt.

End code.

(** ** Packets equal up to the representation of a zero IP checksum

    The incremental update determines the checksum field only modulo
    [2^16 - 1], so a rollback restores it up to the two zeros of one's
    complement.  [pkt_eqv] is that equality; it is equality whenever the field
    is neither [0x0000] nor [0xffff]. *)

Definition pkt_eqv (p q : skb) : Prop :=
  csum_partial p = csum_partial q /\
  length (data p) = length (data q) /\
  (forall i : nat, i <> 24%nat -> i <> 25%nat -> data p !! i = data q !! i) /\
  field 24 2 (data p) mod 65535 = field 24 2 (data q) mod 65535.

#[export] Instance pkt_eqv_equivalence : Equivalence pkt_eqv.
Proof.
  split.
  - by intros p.
  - intros p q (?&?&Hi&?). repeat split; auto. intros. symmetry; auto.
  - intros p q r (?&?&Hi&?) (?&?&Hj&?). repeat split; try congruence.
    intros. by rewrite Hi, Hj.
Qed.

Lemma pkt_eqv_slice p q off n :
  pkt_eqv p q -> 0 <= off -> off + n <= 24 \/ 26 <= off ->
  slice off n (data p) = slice off n (data q).
Proof.
  intros (_&_&Hi&_) ? ?. apply list_eq. intros i. rewrite !lookup_slice.
  case_decide; [|done]. apply Hi; lia.
Qed.

Lemma pkt_eqv_field p q off n :
  pkt_eqv p q -> 0 <= off -> off + n <= 24 \/ 26 <= off ->
  field off n (data p) = field off n (data q).
Proof. intros. unfold field. by erewrite pkt_eqv_slice. Qed.

#[export] Instance skb_len_proper : Proper (pkt_eqv ==> eq) skb_len.
Proof. intros p q (_&Hl&_). unfold skb_len. by rewrite Hl. Qed.

Lemma pkt_eqv_exact p q :
  pkt_eqv p q -> (26 <= length (data p))%nat ->
  field 24 2 (data p) <> 0 -> field 24 2 (data p) <> 65535 -> p = q.
Proof.
  intros (Hc&Hl&Hi&Hm) Hlen Hz Hf.
  assert (field 24 2 (data q) = field 24 2 (data p)) as Hq.
  { pose proof (field_range 24 2 (data p) ltac:(lia)).
    pose proof (field_range 24 2 (data q) ltac:(lia)).
    destruct (u16_mod_eq (field 24 2 (data p)) (field 24 2 (data q)));
      unfold is_u16; try lia. }
  apply le_combine_inj in Hq;
    [|rewrite !length_slice by (unfold in_range; lia); done].
  destruct p as [dp cp], q as [dq cq]; simpl in *. subst. f_equal.
  apply list_eq. intros i.
  destruct (decide (i = 24 \/ i = 25)%nat) as [E|E]; [|apply Hi; lia].
  apply (f_equal (fun l => l !! (i - 24)%nat)) in Hq.
  rewrite !lookup_slice, !decide_True in Hq by (destruct E; lia).
  replace (Z.to_nat 24 + (i - 24))%nat with i in Hq by (destruct E; lia). done.
Qed.

Lemma pkt_eqv_csum p c :
  in_range 24 2 (data p) -> is_u16 c ->
  c mod 65535 = field 24 2 (data p) mod 65535 ->
  pkt_eqv p (with_data p (put 24 (le_split 2 c) (data p))).
Proof.
  intros Hr Hc Hm. repeat split; simpl.
  - by rewrite length_put.
  - intros. rewrite lookup_put by done. rewrite length_le_split, decide_False; [done|lia].
  - rewrite field_put_same by done. rewrite le_combine_split. cbn.
    rewrite (Z.mod_small c) by (unfold is_u16 in Hc; lia). done.
Qed.

(** ** The contract *)

(** The UDP checksum field under [BPF_F_MARK_MANGLED_0]: an absent checksum
    stays absent, a present one is updated and stays present. *)
Definition udp_csum_step (c c' from to : Z) : Prop :=
  (c = 0 /\ c' = 0) \/ (c <> 0 /\ c' <> 0 /\ csum_step c c' from to).

(** [p'] is [p] with the address at [a] replaced and both checksums updated. *)
Definition nat_rewritten (a u old new : Z) (p p' : skb) : Prop :=
  exists c w, is_u16 c /\ is_u16 w /\
    p' = with_data p (put u (le_split 2 w)
           (put IP_CSUM_OFF (le_split 2 c) (put a (le_split 4 new) (data p)))) /\
    csum_step (field IP_CSUM_OFF 2 (data p)) c old new /\
    (csum_partial p = false -> udp_csum_step (field u 2 (data p)) w old new).

(** [p'] is [p] up to the address and the IP checksum. *)
Definition nat_smudged (a : Z) (p p' : skb) : Prop :=
  exists v c, is_u16 c /\
    p' = with_data p (put IP_CSUM_OFF (le_split 2 c) (put a (le_split 4 v) (data p))).

Inductive nat_result (a u old new : Z) (p p' : skb) : Z -> Prop :=
  | nat_done : nat_rewritten a u old new p p' -> nat_result a u old new p p' 0
  | nat_reverted : pkt_eqv p p' -> nat_result a u old new p p' (-1)
  | nat_broken : nat_smudged a p p' -> nat_result a u old new p p' (-2).

(** Where the rewrite is applied: the source or the destination address of a
    packet that holds [old] there, and a UDP checksum field past the IP
    header. *)
Record nat_site (a u old : Z) (p : skb) : Prop := {
  site_addr : a = 26 \/ a = 30;
  site_udp : 40 <= u;
  site_range : in_range u 2 (data p);
  site_old : field a 4 (data p) = old
}.

Section contract.
Context {H : BpfHelpers} {HK : BpfHelpersOk H}.

Definition with_packet (k : kern) (p : skb) (s : dp_state) : dp_state :=
  set_kern k (set_skb p s).

Lemma store_bytes_run off bs s :
  exists rc p k, store_bytes off bs s = (with_packet k p s, Cont rc) /\
    ((rc < 0 /\ p = st_skb s) \/
     (rc = 0 /\ in_range off (Z.of_nat (length bs)) (data (st_skb s)) /\
      p = with_data (st_skb s) (put off bs (data (st_skb s))))).
Proof.
  unfold store_bytes.
  destruct (skb_store_bytes _ _ _ _ _) as [[rc p] k] eqn:E.
  apply store_result in E. eauto 6.
Qed.

Lemma l3_csum_run off from to s :
  exists rc p k, l3_csum off from to 4 s = (with_packet k p s, Cont rc) /\
    ((rc < 0 /\ p = st_skb s) \/
     (rc = 0 /\ exists c', is_u16 c' /\
      p = with_data (st_skb s) (put off (le_split 2 c') (data (st_skb s))) /\
      csum_step (field off 2 (data (st_skb s))) c' from to)).
Proof.
  unfold l3_csum.
  destruct (l3_csum_replace _ _ _ _ _ _) as [[rc p] k] eqn:E.
  apply l3_result in E as [?|(?&_&c'&?&?&?)]; do 3 eexists; split; eauto 8.
Qed.

Lemma l4_csum_run off from to s :
  exists rc p k,
    l4_csum off from to (Z.lor (Z.lor BPF_F_PSEUDO_HDR BPF_F_MARK_MANGLED_0) 4) s =
      (with_packet k p s, Cont rc) /\
    ((rc < 0 /\ p = st_skb s) \/
     (rc = 0 /\ exists c', is_u16 c' /\
      p = with_data (st_skb s) (put off (le_split 2 c') (data (st_skb s))) /\
      (csum_partial (st_skb s) = false ->
       udp_csum_step (field off 2 (data (st_skb s))) c' from to))).
Proof.
  unfold l4_csum, udp_csum_step.
  destruct (l4_csum_replace _ _ _ _ _ _) as [[rc p] k] eqn:E.
  apply l4_result in E as [?|(?&_&c'&?&?&?)]; do 3 eexists; split; eauto 8.
Qed.

Lemma field_u16_split off c l :
  in_range off 2 l -> is_u16 c -> field off 2 (put off (le_split 2 c) l) = c.
Proof.
  intros. rewrite field_put_same by done. rewrite le_combine_split.
  apply Z.mod_small. done.
Qed.

(** The ranges a site fixes: address and checksum lie in the packet. *)
Lemma site_in_range a u old p :
  nat_site a u old p ->
  in_range IP_CSUM_OFF 2 (data p) /\ in_range a 4 (data p) /\
  (a + 4 <= 24 \/ 26 <= a).
Proof. intros [Ha Hu Hr _]. change IP_CSUM_OFF with 24. unfold in_range in *. lia. Qed.

Lemma put_addr_twice a u old p v w :
  nat_site a u old p ->
  put a (le_split 4 w) (put a (le_split 4 v) (data p)) = put a (le_split 4 w) (data p).
Proof. intros (?&?&?)%site_in_range. apply put_put; [done|solve_range]. Qed.

Lemma put_addr_old a u old p :
  nat_site a u old p -> put a (le_split 4 old) (data p) = data p.
Proof.
  intros Hs. destruct (site_in_range _ _ _ _ Hs) as (?&?&?). destruct Hs as [_ _ _ <-].
  unfold field. rewrite le_split_combine by (by rewrite length_slice). by apply put_slice.
Qed.

Lemma put_addr_csum a u old p v w c :
  nat_site a u old p ->
  put a (le_split 4 w) (put IP_CSUM_OFF (le_split 2 c) (put a (le_split 4 v) (data p))) =
  put IP_CSUM_OFF (le_split 2 c) (put a (le_split 4 w) (data p)).
Proof.
  intros Hs. destruct (site_in_range _ _ _ _ Hs) as (?&?&?).
  change IP_CSUM_OFF with 24 in *.
  rewrite put_comm by solve_range. by erewrite put_addr_twice.
Qed.

Lemma put_csum_twice a u old p v c c' :
  nat_site a u old p ->
  put IP_CSUM_OFF (le_split 2 c')
    (put IP_CSUM_OFF (le_split 2 c) (put a (le_split 4 v) (data p))) =
  put IP_CSUM_OFF (le_split 2 c') (put a (le_split 4 v) (data p)).
Proof.
  intros (?&?&?)%site_in_range. change IP_CSUM_OFF with 24 in *.
  apply put_put; [done|solve_range].
Qed.

Lemma field_csum_addr a u old p v :
  nat_site a u old p ->
  field IP_CSUM_OFF 2 (put a (le_split 4 v) (data p)) = field IP_CSUM_OFF 2 (data p).
Proof.
  intros (?&?&?)%site_in_range. change IP_CSUM_OFF with 24 in *.
  apply field_put_disjoint; [solve_range|lia|]. rewrite length_le_split. lia.
Qed.

Lemma field_csum_put a u old p v c :
  nat_site a u old p -> is_u16 c ->
  field IP_CSUM_OFF 2 (put IP_CSUM_OFF (le_split 2 c) (put a (le_split 4 v) (data p))) = c.
Proof.
  intros (?&?&?)%site_in_range Hc. change IP_CSUM_OFF with 24 in *.
  rewrite field_put_same by (done || solve_range). rewrite le_combine_split.
  apply Z.mod_small. done.
Qed.

Lemma field_udp_put a u old p v c :
  nat_site a u old p ->
  field u 2 (put IP_CSUM_OFF (le_split 2 c) (put a (le_split 4 v) (data p))) =
  field u 2 (data p).
Proof.
  intros Hs. destruct (site_in_range _ _ _ _ Hs) as (?&?&?).
  destruct Hs as [? ? ? _]. change IP_CSUM_OFF with 24 in *.
  rewrite !field_put_disjoint; try solve_range; rewrite ?length_le_split; lia.
Qed.

(** What the rollback leaves: the original bytes with a congruent checksum. *)
Lemma rollback_eqv a u old new p c c' :
  nat_site a u old p -> is_u16 c' ->
  csum_step (field IP_CSUM_OFF 2 (data p)) c old new -> csum_step c c' new old ->
  pkt_eqv p (with_data p (put IP_CSUM_OFF (le_split 2 c') (data p))).
Proof.
  intros (?&_)%site_in_range Hc' H1 H2. apply pkt_eqv_csum; try done.
  unfold csum_step in *. change IP_CSUM_OFF with 24 in *.
  Z.div_mod_to_equations. lia.
Qed.

Lemma smudged_addr a u old p v :
  nat_site a u old p -> nat_smudged a p (with_data p (put a (le_split 4 v) (data p))).
Proof.
  intros Hs. pose proof (field_csum_addr a u old p v Hs) as Hf.
  exists v, (field IP_CSUM_OFF 2 (data p)). split.
  - pose proof (field_range IP_CSUM_OFF 2 (data p) ltac:(lia)). unfold is_u16. lia.
  - f_equal. rewrite <- Hf. unfold field.
    apply site_in_range in Hs as (?&?&?). change IP_CSUM_OFF with 24 in *.
    rewrite le_split_combine by (rewrite length_slice; [done|solve_range]).
    rewrite put_slice; [done|solve_range].
Qed.

Lemma run_bind_eq {A B} (m : prog A) (f : A -> prog B) s s' a :
  m s = (s', Cont a) -> (m ≫= f) s = f a s'.
Proof. intros E. by rewrite run_bind, E. Qed.

(** One helper call: its outcomes become cases, the failing one first. *)
Ltac helper_step lem :=
  let rc := fresh "rc" in let p := fresh "p" in let k := fresh "k" in
  let E := fresh "E" in
  destruct lem as (rc & p & k & E & [[? ->]|[-> ?]]);
  erewrite run_bind_eq by exact E; simpl;
  [ rewrite ?(proj2 (Z.ltb_lt rc 0)) by done | ].

Ltac nat_result_is :=
  do 3 eexists; split; [done|]; constructor; try (unfold with_data; simpl).

(** The branch of a failed step 3: both rollbacks are attempted. *)
Lemma nat_rollback_step3 a u old new s s2 c :
  nat_site a u old (st_skb s) -> is_u16 c ->
  csum_step (field IP_CSUM_OFF 2 (data (st_skb s))) c old new ->
  (exists k, s2 = with_packet k (with_data (st_skb s) (put IP_CSUM_OFF (le_split 2 c)
                   (put a (le_split 4 new) (data (st_skb s))))) s) ->
  exists rc p' k',
    (rc3 ← l3_csum IP_CSUM_OFF new old 4;
     rc4 ← store_bytes a (le_split 4 old);
     mret (if rc4 <? 0 then -2 else if rc3 <? 0 then -2 else -1)) s2 =
      (with_packet k' p' s, Cont rc) /\
    nat_result a u old new (st_skb s) p' rc.
Proof.
  intros Hs Hc Hstep [k ->].
  helper_step (l3_csum_run IP_CSUM_OFF new old (with_packet k
    (with_data (st_skb s) (put IP_CSUM_OFF (le_split 2 c)
      (put a (le_split 4 new) (data (st_skb s))))) s)).
  - set (s3 := with_packet _ _ s).
    helper_step (store_bytes_run a (le_split 4 old) (with_packet k0 (st_skb s3) s3));
      simpl in *.
    + nat_result_is. by exists new, c.
    + destruct H1 as [_ ->]. nat_result_is. exists old, c. simpl.
      by erewrite put_addr_csum.
  - destruct H0 as (c'&Hc'&->&Hstep'). simpl in *.
    erewrite field_csum_put in Hstep' by done. erewrite put_csum_twice by done.
    set (s3 := with_packet _ _ (with_packet _ _ s)).
    helper_step (store_bytes_run a (le_split 4 old) s3); simpl in *.
    + nat_result_is. by exists new, c'.
    + destruct H0 as [_ ->]. nat_result_is. simpl.
      erewrite put_addr_csum, put_addr_old by done. by eapply rollback_eqv.
Qed.

Lemma nat_rewrite_addr_contract a u old new s :
  nat_site a u old (st_skb s) ->
  exists rc p' k', nat_rewrite_addr a u old new s = (with_packet k' p' s, Cont rc) /\
    nat_result a u old new (st_skb s) p' rc.
Proof.
  intros Hs. unfold nat_rewrite_addr.
  helper_step (store_bytes_run a (le_split 4 new) s).
  { nat_result_is. done. }
  destruct H0 as [_ ->]. set (s1 := with_packet _ _ s).
  helper_step (l3_csum_run IP_CSUM_OFF old new s1); simpl in *.
  { set (s2 := with_packet _ _ s1).
    helper_step (store_bytes_run a (le_split 4 old) s2); simpl in *.
    - nat_result_is. by eapply smudged_addr.
    - destruct H1 as [_ ->]. nat_result_is.
      erewrite put_addr_twice, put_addr_old by done. by destruct (st_skb s). }
  destruct H0 as (c&Hc&->&Hstep). simpl in Hstep.
  erewrite field_csum_addr in Hstep by done.
  set (s2 := with_packet _ _ s1).
  helper_step (l4_csum_run u old new s2); simpl in *.
  - eapply nat_rollback_step3; try done. by exists k1.
  - destruct H0 as (w&Hw&->&Hstep'). simpl in Hstep'.
    erewrite field_udp_put in Hstep' by done.
    nat_result_is. exists c, w. done.
Qed.

(** On a healthy kernel the rewrite completes. *)
Lemma nat_rewrite_addr_up up a u old new s :
  BpfHelpersUp H up -> up (st_kern s) -> nat_site a u old (st_skb s) ->
  exists s', nat_rewrite_addr a u old new s = (s', Cont 0).
Proof.
  intros Hup Hk Hs. destruct (site_in_range _ _ _ _ Hs) as (?&?&?).
  destruct Hs as [? ? ? _]. change IP_CSUM_OFF with 24 in *.
  unfold nat_rewrite_addr. rewrite run_bind. unfold store_bytes at 1.
  destruct (skb_store_bytes _ _ _ _ _) as [[rc p1] k1] eqn:E1. pose proof E1 as E1'.
  apply up_store in E1 as [-> Hk1]; [|done|by rewrite length_le_split].
  apply store_result in E1' as [[? _]|(_&_&->)]; [done|].
  simpl. rewrite run_bind. unfold l3_csum at 1. simpl st_kern. simpl st_skb.
  destruct (l3_csum_replace _ _ _ _ _ _) as [[rc p2] k2] eqn:E2. pose proof E2 as E2'.
  change IP_CSUM_OFF with 24 in *.
  apply up_l3 in E2 as [-> Hk2]; [|done|simpl; solve_range].
  apply l3_result in E2' as [[? _]|(_&_&c&_&->&_)]; [done|].
  simpl. rewrite run_bind. unfold l4_csum at 1. simpl st_kern. simpl st_skb.
  destruct (l4_csum_replace _ _ _ _ _ _) as [[rc p3] k3] eqn:E3.
  apply up_l4 in E3 as [-> Hk3]; [by eexists|done|].
  unfold in_range in *. simpl data.
  rewrite !length_put; try done; unfold in_range; rewrite ?length_put;
    unfold in_range; rewrite ?length_le_split; lia.
Qed.
End contract.

(** ** A complete rewrite and the checksums *)

Section rewritten.
Context (a u old new : Z) (p p' : skb).
Context (Hsite : nat_site a u old p) (Hnew : is_u32 new).
Context (Hihl : 20 <= ip_hdr_len (data p)) (Hu : u = ip_udp_off (data p) + 6).
Context (Hrw : nat_rewritten a u old new p p').

Local Ltac range :=
  destruct (site_in_range _ _ _ _ Hsite) as (?&?&?);
  destruct Hsite as [? ? ? _]; change IP_CSUM_OFF with 24 in *;
  unfold in_range, ip_udp_off, ETH_HLEN in *; cbn [data with_data];
  repeat (rewrite ?length_le_split;
          first [rewrite length_put | rewrite length_slice]; unfold in_range);
  rewrite ?length_le_split; first [done | lia].

Lemma rewritten_len : skb_len p' = skb_len p.
Proof.
  destruct Hrw as (c&w&?&?&->&_). unfold skb_len; simpl. rewrite !length_put; range.
Qed.

(** Every byte outside the address and the two checksums is kept. *)
Lemma rewritten_slice off n :
  0 <= off ->
  (off + n <= a \/ a + 4 <= off) -> (off + n <= 24 \/ 26 <= off) ->
  (off + n <= u \/ u + 2 <= off) ->
  slice off n (data p') = slice off n (data p).
Proof.
  intros ? ? ? ?. destruct Hrw as (c&w&?&?&->&_). simpl.
  rewrite !slice_put_disjoint; try done; range.
Qed.

Lemma rewritten_field off n :
  0 <= off ->
  (off + n <= a \/ a + 4 <= off) -> (off + n <= 24 \/ 26 <= off) ->
  (off + n <= u \/ u + 2 <= off) ->
  field off n (data p') = field off n (data p).
Proof. intros. unfold field. by rewrite rewritten_slice. Qed.

Lemma rewritten_addr : field a 4 (data p') = new.
Proof.
  pose proof Hrw as (c&w&?&?&->&_). simpl.
  rewrite 2!field_put_disjoint by range. rewrite field_put_same by range.
  rewrite le_combine_split. apply Z.mod_small. done.
Qed.

Lemma rewritten_hdr_len : ip_hdr_len (data p') = ip_hdr_len (data p).
Proof.
  unfold ip_hdr_len. simpl. change ETH_HLEN with 14.
  rewrite !field_slice, rewritten_field by range. done.
Qed.

Lemma rewritten_segment_len : udp_segment_len (data p') = udp_segment_len (data p).
Proof.
  unfold udp_segment_len, ip_udp_off. rewrite rewritten_hdr_len.
  rewrite rewritten_field; try done; range.
Qed.

Lemma rewritten_ip_csum : ip_csum_ok (data p) <-> ip_csum_ok (data p').
Proof.
  unfold ip_csum_ok. rewrite rewritten_hdr_len.
  pose proof Hrw as (c&w&?&?&->&Hstep&_). simpl. change ETH_HLEN with 14.
  rewrite slice_put_disjoint by range.
  rewrite slice_put_inside by range. rewrite slice_put_inside by range.
  assert (words_sum (put (IP_CSUM_OFF - 14) (le_split 2 c)
            (put (a - 14) (le_split 4 new) (slice 14 (ip_hdr_len (data p)) (data p))))
            mod 65535 =
          words_sum (slice 14 (ip_hdr_len (data p)) (data p)) mod 65535) as E.
  { rewrite words_sum_put; [|range|by exists 5].
    rewrite <- Zminus_mod_idemp_l, <- Zplus_mod_idemp_l, words_sum_put;
      [|range|destruct Hsite as [[->| ->] _ _ _]; [by exists 6|by exists 8]].
    rewrite Zplus_mod_idemp_l, Zminus_mod_idemp_l.
    rewrite !le_combine_split, !length_le_split, field_put_disjoint by range.
    rewrite !field_slice by range.
    change (256 ^ Z.of_nat 2) with (2 ^ 16). change (256 ^ Z.of_nat 4) with (2 ^ 32).
    rewrite (Z.mod_small c), (Z.mod_small new) by done.
    replace (14 + (IP_CSUM_OFF - 14)) with IP_CSUM_OFF by lia.
    replace (14 + (a - 14)) with a by lia. pose proof Hsite as [_ _ _ Ho].
    change (Z.of_nat 4) with 4. change (Z.of_nat 2) with 2. rewrite Ho.
    unfold csum_step in Hstep. Z.div_mod_to_equations. lia. }
  by rewrite E.
Qed.

Lemma rewritten_udp_csum :
  csum_partial p = false -> udp_segment_wf (data p) ->
  udp_csum_ok (data p) <-> udp_csum_ok (data p').
Proof.
  intros Hp [Hlen Hseg].
  unfold udp_csum_ok. rewrite rewritten_segment_len.
  unfold udp_pseudo_sum, ip_udp_off in *. rewrite rewritten_hdr_len.
  rewrite (rewritten_field (ETH_HLEN + ip_hdr_len (data p) + 4)) by range.
  assert (field 26 4 (data p') + field 30 4 (data p') + old =
          field 26 4 (data p) + field 30 4 (data p) + new) as Hsum.
  { pose proof rewritten_addr as Hn. pose proof Hsite as [[Ha|Ha] _ _ Ho];
      rewrite Ha in Hn, Ho.
    - rewrite Hn, (rewritten_field 30) by range. lia.
    - rewrite Hn, (rewritten_field 26) by range. lia. }
  pose proof Hrw as (c&w&?&?&Hp'&_&Hstep). specialize (Hstep Hp). rewrite <- Hu.
  assert (field u 2 (data p') = w) as ->.
  { rewrite Hp'. simpl. rewrite field_put_same by range.
    rewrite le_combine_split. by apply Z.mod_small. }
  assert (words_sum (slice (ETH_HLEN + ip_hdr_len (data p))
            (udp_segment_len (data p)) (data p')) mod 65535 =
          (words_sum (slice (ETH_HLEN + ip_hdr_len (data p))
            (udp_segment_len (data p)) (data p)) + w - field u 2 (data p)) mod 65535) as E.
  { rewrite Hp'. simpl. rewrite slice_put_inside by range.
    rewrite !slice_put_disjoint by range.
    rewrite words_sum_put; [|range|exists 3; range].
    rewrite le_combine_split, length_le_split, field_slice by range.
    rewrite (Z.mod_small w) by done.
    replace (ETH_HLEN + ip_hdr_len (data p) + (u - (ETH_HLEN + ip_hdr_len (data p))))
      with u by lia. done. }
  rewrite !(Zplus_mod _ (words_sum _)), E, <- !Zplus_mod.
  destruct Hstep as [[-> ->]|(Hc&Hw&Hstep)]; [by split; left|].
  unfold csum_step in Hstep. clear E Hp'.
  split; (intros [?|Hm]; [done|right]); revert Hm Hstep Hsum;
    generalize (words_sum (slice (ETH_HLEN + ip_hdr_len (data p))
      (udp_segment_len (data p)) (data p)));
    generalize (field u 2 (data p)); intros; Z.div_mod_to_equations; lia.
Qed.
End rewritten.

(** What a complete rewrite means to the two ends of the flow: the address at
    [a] is [new], nothing else but the two checksums changed, and each checksum
    is correct afterwards exactly when it was before. *)
Record readdressed (a new : Z) (p p' : skb) : Prop := {
  rd_len : skb_len p' = skb_len p;
  rd_addr : field a 4 (data p') = new;
  rd_rest off n :
    0 <= off ->
    (off + n <= a \/ a + 4 <= off) -> (off + n <= 24 \/ 26 <= off) ->
    (off + n <= ip_udp_off (data p) + 6 \/ ip_udp_off (data p) + 8 <= off) ->
    slice off n (data p') = slice off n (data p);
  rd_ip_csum : ip_csum_ok (data p) <-> ip_csum_ok (data p');
  rd_udp_csum : csum_partial p = false -> udp_segment_wf (data p) ->
    udp_csum_ok (data p) <-> udp_csum_ok (data p')
}.

Lemma rewritten_readdressed a old new p p' :
  let u := ip_udp_off (data p) + 6 in
  nat_site a u old p -> is_u32 new -> 20 <= ip_hdr_len (data p) ->
  nat_rewritten a u old new p p' -> readdressed a new p p'.
Proof.
  intros u Hs Hn Hl Hr. split.
  - by eapply rewritten_len.
  - by eapply rewritten_addr.
  - intros. eapply rewritten_slice; try done. unfold u. lia.
  - by eapply rewritten_ip_csum.
  - by eapply rewritten_udp_csum.
Qed.
