(* ===== verification/Ingress.v ===== *)
(** * [dns_gateway_ingress] (bpf/dns_gateway.c, tc/ingress)

    The program as written: each stage of the C function is a definition, in
    source order, and [dns_gateway_ingress] composes them.  An [exit TC_ACT_OK]
    is a [return TC_ACT_OK].  The compiler barriers ([asm volatile] with an
    empty body) have no effect and no counterpart. *)

From S2P Require Import Prelude.
From S2P Require Import Types.
From S2P Require Import Kernel.
From S2P Require Import NatRewrite.

Section code.
  Context {H : BpfHelpers}.

(** [cfg = bpf_map_lookup_elem(&config_map, &0)], and the bypass test. *)
Definition ingress_config : prog gateway_config :=
  cfg ← lookup_config;
  (if negb (bypass cfg =? 0)
   then increment_metric METRIC_BYPASS_ACTIVE;; exit TC_ACT_OK
   else mret tt);;
  mret cfg.

(** Ethernet, IP and UDP headers. *)
Definition ingress_headers (cfg : gateway_config) : prog (iphdr * udphdr * Z) :=
  '(rc, b) ← load_bytes 0 sizeof_ethhdr;
  exit_if (rc <? 0) TC_ACT_OK;;
  let eth := ethhdr_of_bytes b in
  exit_if (negb (h_proto eth =? bpf_htons ETH_P_IP)) TC_ACT_OK;;
  '(rc, b) ← load_bytes ETH_HLEN sizeof_iphdr;
  exit_if (rc <? 0) TC_ACT_OK;;
  let iph := iphdr_of_bytes b in
  exit_if (negb (protocol iph =? IPPROTO_UDP)) TC_ACT_OK;;
  exit_if (negb (daddr iph =? coredns_ip cfg)) TC_ACT_OK;;
  exit_if ((ihl iph <? 5) || (15 <? ihl iph)) TC_ACT_OK;;
  exit_if (negb (Z.land (frag_off iph) (bpf_htons 0x3FFF) =? 0)) TC_ACT_OK;;
  let ip_hdr_len := u32 (ihl iph * 4) in
  let udp_offset := u32 (ETH_HLEN + ip_hdr_len) in
  '(rc, b) ← load_bytes udp_offset sizeof_udphdr;
  exit_if (rc <? 0) TC_ACT_OK;;
  let udp := udphdr_of_bytes b in
  exit_if (negb (dest udp =? dns_port cfg)) TC_ACT_OK;;
  mret (iph, udp, udp_offset).

(** DNS header: QR, QDCOUNT and the transaction id. *)
Definition ingress_dns_header (dns_offset : Z) : prog Z :=
  '(rc, dns_hdr) ← load_bytes dns_offset 12;
  exit_if (rc <? 0) TC_ACT_OK;;
  let flags := be16_at 2 dns_hdr in
  exit_if (negb (Z.land flags 0x8000 =? 0)) TC_ACT_OK;;
  let qdcount := be16_at 4 dns_hdr in
  (if negb (qdcount =? 1)
   then increment_metric METRIC_PARSE_ERROR;; exit TC_ACT_OK
   else mret tt);;
  mret (be16_at 0 dns_hdr).

(** Accesses through [struct scratch_buf *scratch]. *)
Definition scratch_qname_byte (i : Z) : prog byte :=
  gets (fun s => match st_scratch s !! 0%nat with
                 | Some b => byte_at i (qname b)
                 | None => Byte.x00
                 end).

Definition on_scratch (f : scratch_buf -> scratch_buf) : prog unit :=
  modify (fun s => set_scratch (alter f 0%nat (st_scratch s)) s).

(** The scratch slot, and QNAME loaded into it: at most [MAX_DNS_NAME_LEN]
    bytes of what follows the DNS header. *)
Definition load_qname (dns_offset : Z) : prog Z :=
  scratch ← gets (fun s => st_scratch s !! 0%nat);
  exit_if (bool_decide (scratch = None)) TC_ACT_OK;;
  let qname_offset := u32 (dns_offset + 12) in
  len ← gets (fun s => skb_len (st_skb s));
  exit_if (len <? qname_offset) TC_ACT_OK;;
  let remaining := u32 (len - qname_offset) in
  exit_if (remaining <? 1) TC_ACT_OK;;
  let remaining := if MAX_DNS_NAME_LEN <? remaining then MAX_DNS_NAME_LEN else remaining in
  let remaining := Z.land remaining (MAX_DNS_NAME_LEN - 1) in
  let remaining := if remaining =? 0 then MAX_DNS_NAME_LEN else remaining in
  '(rc, b) ← load_bytes qname_offset remaining;
  on_scratch (fun sc => ScratchBuf (put 0 b (qname sc)) (lookup_buf sc));;
  exit_if (rc <? 0) TC_ACT_OK;;
  mret remaining.

(** The label walk; [n] counts the iterations left of the bounded loop.
    [label_offsets] holds the written entries [0 .. num_labels - 1]. *)
Fixpoint walk_labels (n : nat) (remaining : Z) (label_offsets : list Z) (pos : Z)
  : prog (list Z * Z) :=
  match n with
  | O => mret (label_offsets, pos)
  | S n =>
      if (remaining <=? pos) || (MAX_DNS_NAME_LEN <=? pos) then mret (label_offsets, pos)
      else
        let read_idx := Z.land pos (MAX_DNS_NAME_LEN - 1) in
        label_len ← scratch_qname_byte read_idx;
        if ub label_len =? 0 then mret (label_offsets, pos)
        else if 63 <? ub label_len then
          increment_metric METRIC_PARSE_ERROR;; exit TC_ACT_OK
        else
          walk_labels n remaining (label_offsets ++ [pos]) (u32 (pos + (1 + ub label_len)))
  end.

(** The walk and the checks on its result: label offsets and
    [qname_total_len]. *)
Definition qname_labels (remaining : Z) : prog (list Z * Z) :=
  '(label_offsets, pos) ← walk_labels MAX_LABELS remaining [] 0;
  exit_if (Z.of_nat (length label_offsets) =? 0) TC_ACT_OK;;
  let qname_total_len := u32 (pos + 1) in
  exit_if ((MAX_DNS_NAME_LEN <? qname_total_len) || (remaining <? qname_total_len))
    TC_ACT_OK;;
  mret (label_offsets, qname_total_len).

(** The unrolled copy loop: [n] iterations left, [k] the next index. *)
Fixpoint copy_suffix (n : nat) (k ss sl : Z) : prog unit :=
  match n with
  | O => mret tt
  | S n =>
      let si := Z.land (u32 (ss + k)) (MAX_DNS_NAME_LEN - 1) in
      b ← (if k <? sl then scratch_qname_byte si else mret Byte.x00);
      on_scratch (fun sc => ScratchBuf (qname sc) (<[Z.to_nat k := b]> (lookup_buf sc)));;
      copy_suffix n (k + 1) ss sl
  end.

(** [bpf_map_lookup_elem(&suffix_rules, (struct suffix_key * )scratch->lookup)] *)
Definition lookup_suffix_rule : prog (option suffix_value) :=
  gets (fun s => match st_scratch s !! 0%nat with
                 | Some b => st_rules s !! SuffixKey (lookup_buf b)
                 | None => None
                 end).

(** The suffix loop, longest suffix first: the resolved action, and whether a
    rule matched.  [n] iterations left, [i] the loop variable. *)
Fixpoint match_suffixes (n : nat) (i : Z) (label_offsets : list Z)
    (qname_total_len action : Z) : prog (Z * bool) :=
  match n with
  | O => mret (action, false)
  | S n =>
      if Z.of_nat (length label_offsets) <=? i then mret (action, false)
      else if Z.of_nat MAX_LABELS <=? i then mret (action, false)
      else
        let suffix_start := default 0 (label_offsets !! Z.to_nat i) in
        let suffix_len := u32 (qname_total_len - suffix_start) in
        if (suffix_len =? 0) || (MAX_DNS_NAME_LEN <? suffix_len) then mret (action, false)
        else
          let ss := Z.land suffix_start (MAX_DNS_NAME_LEN - 1) in
          let sl := if MAX_DNS_NAME_LEN <? suffix_len then MAX_DNS_NAME_LEN
                    else suffix_len in
          copy_suffix (Z.to_nat MAX_DNS_NAME_LEN) 0 ss sl;;
          val ← lookup_suffix_rule;
          match val with
          | Some v => mret (sv_action v, true)
          | None => match_suffixes n (i + 1) label_offsets qname_total_len action
          end
  end.

(** Conntrack entry and DNAT of a query whose action is host-resolve. *)
Definition ingress_redirect (cfg : gateway_config) (ct_key : conntrack_key)
    (old_daddr udp_offset : Z) : prog Z :=
  now ← ktime;
  let ct_val := ConntrackValue (coredns_ip cfg) 0 now in
  rc ← conntrack_update ct_key ct_val;
  exit_if (rc <? 0) TC_ACT_OK;;
  rc ← nat_rewrite_addr (ETH_HLEN + 16) (u32 (udp_offset + 6)) old_daddr
         (host_resolver_ip cfg);
  if rc <? 0 then
    count_nat_failure rc;;
    conntrack_delete ct_key;;
    exit TC_ACT_OK
  else
    increment_metric METRIC_REDIRECTED;;
    mret TC_ACT_OK.

(** Suffix matching, action resolution, and what the action asks for. *)
Definition ingress_resolve (cfg : gateway_config) (iph : iphdr) (udp : udphdr)
    (udp_offset tx : Z) (labels : list Z * Z) : prog Z :=
  let '(label_offsets, qname_total_len) := labels in
  '(action, matched) ← match_suffixes MAX_LABELS 0 label_offsets qname_total_len
                         (default_action cfg);
  increment_metric (if (matched : bool) then METRIC_SUFFIX_MATCH
                    else METRIC_SUFFIX_NO_MATCH);;
  if negb (action =? ACTION_HOST_RESOLVE) then
    increment_metric METRIC_CLUSTER_RESOLVED;; exit TC_ACT_OK
  else
    ingress_redirect cfg (ConntrackKey (saddr iph) (source udp) tx) (daddr iph) udp_offset.

Definition dns_gateway_ingress : prog Z :=
  increment_metric METRIC_TOTAL_PACKETS;;
  cfg ← ingress_config;
  '(iph, udp, udp_offset) ← ingress_headers cfg;
  increment_metric METRIC_DNS_QUERIES;;
  let dns_offset := u32 (udp_offset + sizeof_udphdr) in
  tx ← ingress_dns_header dns_offset;
  remaining ← load_qname dns_offset;
  labels ← qname_labels remaining;
  ingress_resolve cfg iph udp udp_offset tx labels.

End code.
