(* ===== verification/Egress.v ===== *)
(** * [dns_gateway_egress] (bpf/dns_gateway.c, tc/egress) *)

From S2P Require Import Prelude.
From S2P Require Import Types.
From S2P Require Import Kernel.
From S2P Require Import NatRewrite.

Section code.
  Context {H : BpfHelpers}.

(** Ethernet, IP and UDP headers. *)
Definition egress_headers (cfg : gateway_config) : prog (iphdr * udphdr * Z) :=
  '(rc, b) ← load_bytes 0 sizeof_ethhdr;
  exit_if (rc <? 0) TC_ACT_OK;;
  let eth := ethhdr_of_bytes b in
  exit_if (negb (h_proto eth =? bpf_htons ETH_P_IP)) TC_ACT_OK;;
  '(rc, b) ← load_bytes ETH_HLEN sizeof_iphdr;
  exit_if (rc <? 0) TC_ACT_OK;;
  let iph := iphdr_of_bytes b in
  exit_if (negb (protocol iph =? IPPROTO_UDP)) TC_ACT_OK;;
  exit_if (negb (saddr iph =? host_resolver_ip cfg)) TC_ACT_OK;;
  exit_if ((ihl iph <? 5) || (15 <? ihl iph)) TC_ACT_OK;;
  exit_if (negb (Z.land (frag_off iph) (bpf_htons 0x3FFF) =? 0)) TC_ACT_OK;;
  let ip_hdr_len := u32 (ihl iph * 4) in
  let udp_offset := u32 (ETH_HLEN + ip_hdr_len) in
  '(rc, b) ← load_bytes udp_offset sizeof_udphdr;
  exit_if (rc <? 0) TC_ACT_OK;;
  let udp := udphdr_of_bytes b in
  exit_if (negb (source udp =? dns_port cfg)) TC_ACT_OK;;
  mret (iph, udp, udp_offset).

(** The transaction id. *)
Definition egress_txid (dns_offset : Z) : prog Z :=
  '(rc, dns_hdr) ← load_bytes dns_offset 12;
  exit_if (rc <? 0) TC_ACT_OK;;
  mret (be16_at 0 dns_hdr).

(** Conntrack lookup, TTL check and SNAT. *)
Definition egress_restore (ct_key : conntrack_key) (old_saddr udp_offset : Z) : prog Z :=
  ct_val ← gets (fun s => st_ct s !! ct_key);
  match ct_val with
  | None => increment_metric METRIC_EGRESS_CONNTRACK_MISS;; exit TC_ACT_OK
  | Some ct_val =>
      now ← ktime;
      if CONNTRACK_TTL_NS <? u64 (now - timestamp_ns ct_val) then
        conntrack_delete ct_key;;
        increment_metric METRIC_EGRESS_CONNTRACK_MISS;;
        exit TC_ACT_OK
      else
        rc ← nat_rewrite_addr (ETH_HLEN + 12) (u32 (udp_offset + 6)) old_saddr
               (cv_coredns_ip ct_val);
        if rc <? 0 then
          count_nat_failure rc;;
          exit TC_ACT_OK
        else
          conntrack_delete ct_key;;
          increment_metric METRIC_EGRESS_SNAT;;
          mret TC_ACT_OK
  end.

Definition dns_gateway_egress : prog Z :=
  increment_metric METRIC_EGRESS_TOTAL;;
  cfg ← lookup_config;
  '(iph, udp, udp_offset) ← egress_headers cfg;
  let dns_offset := u32 (udp_offset + sizeof_udphdr) in
  tx ← egress_txid dns_offset;
  egress_restore (ConntrackKey (daddr iph) (dest udp) tx) (saddr iph) udp_offset.

End code.
