(* ===== verification/Delayed.v ===== *)
(** * A run whose delete is still to come

    A program touches the shared [conntrack_map] twice: it looks an entry up or
    writes one, and at the end it may delete one.  On several CPUs anything can
    come between the two.  [Delayed] is the kernel on which a delete is only
    noted, so a program run on it is the part of the run before the delete, and
    [settle] makes the delete that is noted.  [settles_ingress] and
    [settles_egress] say that the two parts are the whole run, whatever the
    helpers do. *)

From S2P Require Import Prelude.
From S2P Require Import Types.
From S2P Require Import Kernel.
From S2P Require Import NatRewrite.
From S2P Require Import Ingress.
From S2P Require Import Egress.

Section delayed.
Context {H : BpfHelpers}.

(** [bpf_map_delete_elem] returns at once and leaves the key to be deleted; the
    programs do not look at its result. *)
Definition Delayed : BpfHelpers := {|
  kern := kern * option conntrack_key;
  skb_load_bytes k := skb_load_bytes k.1;
  skb_store_bytes k s off bs fl :=
    let '(rc, s, k') := skb_store_bytes k.1 s off bs fl in (rc, s, (k', k.2));
  l3_csum_replace k s off from to fl :=
    let '(rc, s, k') := l3_csum_replace k.1 s off from to fl in (rc, s, (k', k.2));
  l4_csum_replace k s off from to fl :=
    let '(rc, s, k') := l4_csum_replace k.1 s off from to fl in (rc, s, (k', k.2));
  ktime_get_ns k := let '(t, k') := ktime_get_ns k.1 in (t, (k', k.2));
  ct_update_elem k m key v fl :=
    let '(rc, m, k') := ct_update_elem k.1 m key v fl in (rc, m, (k', k.2));
  ct_delete_elem k m key := (0, m, (k.1, Some key))
|}.

(** The state a run starts in, and what it leaves when its delete is done. *)
Definition delayed (s : dp_state) : @dp_state Delayed :=
  @DpState Delayed (st_skb s) (st_config s) (st_rules s) (st_ct s) (st_metrics s)
    (st_scratch s) (st_kern s, None).

Definition do_delete (key : conntrack_key) (m : ct_map) (k : kern) : ct_map * kern :=
  let '(_, m, k) := ct_delete_elem k m key in (m, k).

Definition do_pending (pending : option conntrack_key) (m : ct_map) (k : kern) : ct_map * kern :=
  match pending with Some key => do_delete key m k | None => (m, k) end.

Definition settle (s : @dp_state Delayed) : dp_state :=
  let '(m, k) := do_pending (st_kern s).2 (st_ct s) (st_kern s).1 in
  DpState (st_skb s) (st_config s) (st_rules s) m (st_metrics s) (st_scratch s) k.

Lemma settle_delayed s : settle (delayed s) = s.
Proof. by destruct s. Qed.

Lemma settle_fields (s : @dp_state Delayed) :
  st_skb (settle s) = st_skb s /\ st_config (settle s) = st_config s /\
  st_rules (settle s) = st_rules s /\ st_metrics (settle s) = st_metrics s /\
  st_scratch (settle s) = st_scratch s.
Proof. unfold settle. by destruct (do_pending _ _ _). Qed.
End delayed.
Arguments Delayed H : clear implicits.

(** ** The two parts of a run are the run

    [Delays m m']: [m] makes no delete, and [m'], the same code on the delayed
    kernel, does the same.  [Settles m m']: [m] is [m'] and then the delete
    noted.  Both keep what [Good] says of the configuration and [Entry] of the
    entries of [conntrack_map]. *)

Section parts.
Context {H : BpfHelpers} {HK : BpfHelpersOk H}.
Context (Good : gateway_config -> Prop) (Entry : conntrack_value -> Prop).
Context (Hentry : forall c t, Good c -> is_u64 t -> Entry (ConntrackValue (coredns_ip c) 0 t)).

Definition kept (cfgs : list gateway_config) (m : ct_map) : Prop :=
  Forall Good cfgs /\ map_Forall (fun _ => Entry) m.

Class Delays {A} (m : @prog H A) (m' : @prog (Delayed H) A) : Prop :=
  delays s : kept (st_config s) (st_ct s) ->
    exists s' c, m s = (s', c) /\ m' (delayed s) = (delayed s', c) /\
      kept (st_config s') (st_ct s').

Class Settles {A} (m : @prog H A) (m' : @prog (Delayed H) A) : Prop :=
  settles s : kept (st_config s) (st_ct s) ->
    exists s' c, m s = (settle s', c) /\ m' (delayed s) = (s', c) /\
      kept (st_config s') (st_ct s').

#[export] Instance delays_settles {A} (m : @prog H A) m' : Delays m m' -> Settles m m'.
Proof.
  intros Hm s Hs. destruct (Hm s Hs) as (s'&c&->&->&?). exists (delayed s'), c.
  by rewrite settle_delayed.
Qed.

Lemma delays_bind {A B} (m : @prog H A) m' (f : A -> @prog H B) f' :
  Delays m m' -> (forall a, Delays (f a) (f' a)) -> Delays (m ≫= f) (m' ≫= f').
Proof.
  intros Hm Hf s Hs. destruct (Hm s Hs) as (s1&c&E&E'&Hs1). rewrite !run_bind, E, E'.
  destruct c as [a|act]; [by apply Hf|by eexists _, _].
Qed.

Lemma settles_bind {A B} (m : @prog H A) m' (f : A -> @prog H B) f' :
  Delays m m' -> (forall a, Settles (f a) (f' a)) -> Settles (m ≫= f) (m' ≫= f').
Proof.
  intros Hm Hf s Hs. destruct (Hm s Hs) as (s1&c&E&E'&Hs1). rewrite !run_bind, E, E'.
  destruct c as [a|act]; [by apply Hf|]. exists (delayed s1), (Exit act). by rewrite settle_delayed.
Qed.

Lemma settles_assoc {A B C} (m : @prog H A) (f : A -> @prog H B) (g : B -> @prog H C)
    (m' : @prog (Delayed H) A) (f' : A -> @prog (Delayed H) B) (g' : B -> @prog (Delayed H) C) :
  Settles (m ≫= fun a => f a ≫= g) (m' ≫= fun a => f' a ≫= g') ->
  Settles ((m ≫= f) ≫= g) ((m' ≫= f') ≫= g').
Proof. intros Hm s Hs. rewrite !bind_bind. by apply Hm. Qed.

Lemma settles_ret_bind {A B} (a : A) (f : A -> @prog H B) (f' : A -> @prog (Delayed H) B) :
  Settles (f a) (f' a) -> Settles (mret a ≫= f) (mret a ≫= f').
Proof. done. Qed.

(** After the delete a program only counts and returns. *)
Lemma settles_delete {A} key (m : @prog H A) m' ms c :
  (forall s, m s = (count ms s, c)) -> (forall s, m' s = (count ms s, c)) ->
  Settles (conntrack_delete key;; m) (conntrack_delete key;; m').
Proof.
  intros Hm Hm' s Hs. rewrite !run_bind. unfold conntrack_delete at 1 2. simpl.
  destruct (ct_delete_elem (st_kern s) (st_ct s) key) as [[rc ct] k] eqn:E.
  rewrite Hm, Hm'. eexists _, _. split; [|by split].
  unfold settle, do_pending, do_delete. simpl. by rewrite E.
Qed.

(** ** The primitives *)

Lemma delays_ret {A} (a : A) : Delays (mret a) (mret a).
Proof. intros s Hs. by eexists _, _. Qed.
Lemma delays_exit {A} act : Delays (@exit H A act) (@exit (Delayed H) A act).
Proof. intros s Hs. by eexists _, _. Qed.
Lemma delays_exit_if c act : Delays (@exit_if H c act) (@exit_if (Delayed H) c act).
Proof. destruct c; [apply delays_exit|apply delays_ret]. Qed.
Lemma delays_increment m : Delays (@increment_metric H m) (@increment_metric (Delayed H) m).
Proof. intros s Hs. by eexists _, _. Qed.
Lemma delays_gets {A} (f : @dp_state H -> A) (f' : @dp_state (Delayed H) -> A) :
  (forall s, f' (delayed s) = f s) -> Delays (gets f) (gets f').
Proof. intros Hf s Hs. unfold gets. eexists _, _. by rewrite Hf. Qed.
Lemma delays_scratch f : Delays (@on_scratch H f) (@on_scratch (Delayed H) f).
Proof. intros s Hs. by eexists _, _. Qed.
Lemma delays_load off n : Delays (@load_bytes H off n) (@load_bytes (Delayed H) off n).
Proof. intros s Hs. by eexists _, _. Qed.
Lemma delays_store off bs : Delays (@store_bytes H off bs) (@store_bytes (Delayed H) off bs).
Proof.
  intros s Hs. unfold store_bytes. simpl. destruct (skb_store_bytes _ _ _ _ _) as [[]]. by eexists _, _.
Qed.
Lemma delays_l3 off a b fl : Delays (@l3_csum H off a b fl) (@l3_csum (Delayed H) off a b fl).
Proof.
  intros s Hs. unfold l3_csum. simpl. destruct (l3_csum_replace _ _ _ _ _ _) as [[]]. by eexists _, _.
Qed.
Lemma delays_l4 off a b fl : Delays (@l4_csum H off a b fl) (@l4_csum (Delayed H) off a b fl).
Proof.
  intros s Hs. unfold l4_csum. simpl. destruct (l4_csum_replace _ _ _ _ _ _) as [[]]. by eexists _, _.
Qed.

(** The clock is a [u64], the configuration is good, and a good entry may be
    written. *)
Lemma settles_ktime {B} (f : Z -> @prog H B) f' :
  (forall t, is_u64 t -> Settles (f t) (f' t)) -> Settles (ktime ≫= f) (ktime ≫= f').
Proof.
  intros Hf s Hs. rewrite !run_bind. unfold ktime at 1 2. simpl.
  pose proof (ktime_u64 (st_kern s)) as Ht. destruct (ktime_get_ns (st_kern s)) as [t k].
  by apply (Hf t Ht (set_kern k s)).
Qed.

Lemma settles_config {B} (f : gateway_config -> @prog H B) f' :
  (forall c, Good c -> Settles (f c) (f' c)) -> Settles (lookup_config ≫= f) (lookup_config ≫= f').
Proof.
  intros Hf s Hs. rewrite !run_bind. unfold lookup_config at 1 2. simpl.
  destruct (st_config s !! 0%nat) as [c|] eqn:Hc.
  - apply Hf; [|done]. destruct Hs as [Hs _]. by eapply Forall_lookup_1 in Hs.
  - exists (delayed s), (Exit TC_ACT_OK). by rewrite settle_delayed.
Qed.

Lemma delays_update key v :
  Entry v -> Delays (@conntrack_update H key v) (@conntrack_update (Delayed H) key v).
Proof.
  intros Hv s [Hc Hm]. unfold conntrack_update. simpl.
  destruct (ct_update_elem (st_kern s) (st_ct s) key v BPF_ANY) as [[rc m] k] eqn:E.
  eexists _, _. split; [done|]. split; [done|]. split; [done|]. simpl.
  apply ct_update_result in E as [[_ Hsub]|(_&Hkey&Hsub)]; [by eapply map_Forall_subseteq|].
  intros key' v' Hv'. destruct (decide (key' = key)) as [->|Hne]; [congruence|].
  apply (Hm key'). eapply (lookup_delete_Some _ key key').
  eapply lookup_weaken; [|exact Hsub]. by rewrite lookup_delete_ne.
Qed.
End parts.

Create HintDb delays.
#[export] Hint Resolve delays_ret delays_exit delays_exit_if delays_increment delays_gets
  delays_scratch delays_load delays_store delays_l3 delays_l4 : delays.

(** Walks the code of both runs in step. *)
Ltac delay :=
  repeat (cbv zeta; first
    [ lazymatch goal with |- forall _, _ => intro end
    | solve [auto with delays]
    | solve [apply delays_settles; auto with delays]
    | apply delays_bind
    | lazymatch goal with
      | |- Settles _ _ (conntrack_delete _ ≫= _) _ => fail
      | |- Settles _ _ (_ ≫= _) _ => apply settles_bind
      end
    | match goal with
      | |- Delays _ _ (if ?b then _ else _) _ => destruct b
      | |- Settles _ _ (if ?b then _ else _) _ => destruct b
      | |- Delays _ _ (match ?x with _ => _ end) _ => destruct x
      | |- Settles _ _ (match ?x with _ => _ end) _ => destruct x
      end ]).

Section programs.
Context {H : BpfHelpers} {HK : BpfHelpersOk H}.
Context (Good : gateway_config -> Prop) (Entry : conntrack_value -> Prop).
Context (Hentry : forall c t, Good c -> is_u64 t -> Entry (ConntrackValue (coredns_ip c) 0 t)).
Abbreviation Delays := (Delays Good Entry).
Abbreviation Settles := (Settles Good Entry).

Lemma delays_nat a u o n :
  Delays (@nat_rewrite_addr H a u o n) (@nat_rewrite_addr (Delayed H) a u o n).
Proof. unfold nat_rewrite_addr. delay. Qed.

Lemma delays_count_failure rc :
  Delays (@count_nat_failure H rc) (@count_nat_failure (Delayed H) rc).
Proof. unfold count_nat_failure. delay. Qed.

Lemma delays_ingress_headers cfg :
  Delays (@ingress_headers H cfg) (@ingress_headers (Delayed H) cfg).
Proof. unfold ingress_headers. delay. Qed.

Lemma delays_egress_headers cfg :
  Delays (@egress_headers H cfg) (@egress_headers (Delayed H) cfg).
Proof. unfold egress_headers. delay. Qed.

Lemma delays_dns_header o : Delays (@ingress_dns_header H o) (@ingress_dns_header (Delayed H) o).
Proof. unfold ingress_dns_header. delay. Qed.

Lemma delays_txid o : Delays (@egress_txid H o) (@egress_txid (Delayed H) o).
Proof. unfold egress_txid. delay. Qed.

Lemma delays_load_qname o : Delays (@load_qname H o) (@load_qname (Delayed H) o).
Proof. unfold load_qname. delay. Qed.

Lemma delays_qname_byte i :
  Delays (@scratch_qname_byte H i) (@scratch_qname_byte (Delayed H) i).
Proof. unfold scratch_qname_byte. delay. Qed.
Hint Resolve delays_nat delays_count_failure delays_qname_byte : delays.

Lemma delays_walk n r ls pos :
  Delays (@walk_labels H n r ls pos) (@walk_labels (Delayed H) n r ls pos).
Proof. revert ls pos. induction n as [|n IH]; intros; simpl; delay; apply IH. Qed.
Hint Resolve delays_walk : delays.

Lemma delays_labels r : Delays (@qname_labels H r) (@qname_labels (Delayed H) r).
Proof. unfold qname_labels. delay. Qed.

Lemma delays_copy n k ss sl : Delays (@copy_suffix H n k ss sl) (@copy_suffix (Delayed H) n k ss sl).
Proof. revert k. induction n as [|n IH]; intros; simpl; delay; apply IH. Qed.
Hint Resolve delays_copy : delays.

Lemma delays_match n i ls t a :
  Delays (@match_suffixes H n i ls t a) (@match_suffixes (Delayed H) n i ls t a).
Proof.
  revert i. induction n as [|n IH]; intros; cbn [match_suffixes]; delay; try apply IH.
  unfold lookup_suffix_rule. delay.
Qed.

Lemma settles_redirect cfg key old u :
  Good cfg -> Settles (@ingress_redirect H cfg key old u) (@ingress_redirect (Delayed H) cfg key old u).
Proof.
  intros Hc. unfold ingress_redirect. apply settles_ktime. intros t Ht. delay.
  - apply delays_update; auto.
  - eapply (settles_delete _ _ key _ _ [] (Exit TC_ACT_OK)); intros s; unfold exit; by rewrite count_nil.
Qed.

Lemma settles_restore key old u :
  Settles (@egress_restore H key old u) (@egress_restore (Delayed H) key old u).
Proof.
  unfold egress_restore. apply settles_bind; [by apply delays_gets|]. intros [v|]; [|delay].
  apply settles_ktime. intros t _. delay.
  - by eapply (settles_delete _ _ key _ _ [METRIC_EGRESS_CONNTRACK_MISS] (Exit TC_ACT_OK)).
  - by eapply (settles_delete _ _ key _ _ [METRIC_EGRESS_SNAT] (Cont TC_ACT_OK)).
Qed.
Hint Resolve delays_ingress_headers delays_egress_headers delays_dns_header delays_txid
  delays_load_qname delays_labels delays_match settles_redirect settles_restore : delays.

(** The ingress program: what it does before the delete, and the delete. *)
Lemma settles_ingress : Settles (@dns_gateway_ingress H) (@dns_gateway_ingress (Delayed H)).
Proof.
  unfold dns_gateway_ingress, ingress_config. apply settles_bind; [apply delays_increment|]. intros _.
  apply settles_assoc, settles_config. intros cfg Hc.
  apply settles_assoc, settles_bind; [delay|]. intros _. apply settles_ret_bind.
  unfold ingress_resolve. delay.
Qed.

Lemma settles_egress : Settles (@dns_gateway_egress H) (@dns_gateway_egress (Delayed H)).
Proof.
  unfold dns_gateway_egress. apply settles_bind; [apply delays_increment|]. intros _.
  apply settles_config. intros cfg Hc. delay.
Qed.

(** The run of a program before its delete. *)
Lemma settles_run (p : @prog H Z) p' s :
  Settles p p' -> kept Good Entry (st_config s) (st_ct s) ->
  run p s = (settle (run p' (delayed s)).1, (run p' (delayed s)).2) /\
  kept Good Entry (st_config (run p' (delayed s)).1) (st_ct (run p' (delayed s)).1).
Proof.
  intros Hp Hs. destruct (Hp s Hs) as (s'&c&E&E'&Hk). unfold run. rewrite E, E'. by destruct c.
Qed.
End programs.
