(* ===== verification/RefKernel.v ===== *)
(** * A concrete kernel

    An executable instance of [BpfHelpers] that satisfies [BpfHelpersOk]: the
    hypotheses of the datapath theorems can hold, and concrete packets can be
    run.  [faults] scripts the failures: every fallible helper call consumes
    one entry and fails when it is [true]. *)

From S2P Require Import Prelude.
From S2P Require Import Types.
From S2P Require Import Kernel.

Record ref_kern := RefKern { faults : list bool; clock : Z }.

Definition pop_fault (k : ref_kern) : bool * ref_kern :=
  match faults k with
  | [] => (false, k)
  | b :: l => (b, RefKern l (clock k))
  end.

Definition in_rangeb (off n : Z) (l : list byte) : bool :=
  (0 <=? off) && (0 <=? n) && (off + n <=? Z.of_nat (length l)).

Lemma in_rangeb_spec off n l : in_rangeb off n l = true <-> in_range off n l.
Proof. unfold in_rangeb, in_range. rewrite !andb_true_iff, !Z.leb_le. tauto. Qed.

(** RFC 1624, equation 3, for a 32-bit word: the folded sum is never +0. *)
Definition csum_replace4 (c from to : Z) : Z :=
  let s := 65535 + (65535 - c) + (2 ^ 32 - 1 - from) + to in
  65535 - ((s - 1) mod 65535 + 1).

Lemma csum_replace4_ok c from to :
  0 <= csum_replace4 c from to < 65535 /\ csum_step c (csum_replace4 c from to) from to.
Proof.
  unfold csum_step, csum_replace4. split; Z.div_mod_to_equations; lia.
Qed.

Definition ref_l4 (partial : bool) (c from to : Z) : Z :=
  if c =? 0 then 0 else
  let c' := if partial then 65535 - csum_replace4 (65535 - c) from to
            else csum_replace4 c from to in
  if c' =? 0 then 65535 else c'.

Lemma ref_l4_u16 partial c from to : is_u16 (ref_l4 partial c from to).
Proof.
  unfold ref_l4, is_u16.
  destruct (csum_replace4_ok (65535 - c) from to), (csum_replace4_ok c from to).
  destruct partial; repeat case_match; lia.
Qed.

Lemma ref_l4_step c from to :
  (c = 0 /\ ref_l4 false c from to = 0) \/
  (c <> 0 /\ ref_l4 false c from to <> 0 /\ csum_step c (ref_l4 false c from to) from to).
Proof.
  unfold ref_l4. destruct (csum_replace4_ok c from to) as [? Hs].
  destruct (Z.eqb_spec c 0); [by left|right].
  destruct (Z.eqb_spec (csum_replace4 c from to) 0) as [E|]; split_and!; try done.
  unfold csum_step in *. rewrite E in Hs. rewrite <- Hs. Z.div_mod_to_equations. lia.
Qed.

Definition ref_fallible (k : ref_kern) (p : skb) (ok : bool) (d : list byte)
  : Z * skb * ref_kern :=
  let '(bad, k) := pop_fault k in
  if bad || negb ok then (-22, p, k) else (0, with_data p d, k).

#[export] Instance RefKernel : BpfHelpers := {|
  kern := ref_kern;
  skb_load_bytes k s off n :=
    if in_rangeb off n (data s) then (0, slice off n (data s))
    else (-14, replicate (Z.to_nat n) Byte.x00);
  skb_store_bytes k s off bs flags :=
    ref_fallible k s (in_rangeb off (Z.of_nat (length bs)) (data s)) (put off bs (data s));
  l3_csum_replace k s off from to flags :=
    ref_fallible k s (in_rangeb off 2 (data s))
      (put off (le_split 2 (csum_replace4 (field off 2 (data s)) from to)) (data s));
  l4_csum_replace k s off from to flags :=
    ref_fallible k s (in_rangeb off 2 (data s))
      (put off (le_split 2 (ref_l4 (csum_partial s) (field off 2 (data s)) from to))
         (data s));
  ktime_get_ns k := (u64 (clock k), k);
  ct_update_elem k m key v flags :=
    let '(bad, k) := pop_fault k in
    if bad then (-12, m, k) else (0, <[key := v]> m, k);
  ct_delete_elem k m key :=
    (if bool_decide (is_Some (m !! key)) then 0 else -2, delete key m, k)
|}.

Lemma ref_fallible_ok k p ok d rc p' k' :
  ref_fallible k p ok d = (rc, p', k') ->
  (rc < 0 /\ p' = p) \/ (rc = 0 /\ ok = true /\ p' = with_data p d).
Proof.
  unfold ref_fallible. destruct (pop_fault k) as [bad k1].
  destruct bad, ok; simpl; intros ?; simplify_eq; auto with lia.
Qed.

#[export] Instance RefKernelOk : BpfHelpersOk RefKernel.
Proof.
  split; simpl; intros.
  - by rewrite (proj2 (in_rangeb_spec _ _ _)).
  - destruct (in_rangeb off n (data s)) eqn:E;
      [by apply in_rangeb_spec in E | simpl; rewrite length_replicate; lia].
  - apply ref_fallible_ok in H as [?|(?&E&?)]; [by left|right].
    by apply in_rangeb_spec in E.
  - apply ref_fallible_ok in H as [?|(?&E&?)]; [by left|right].
    apply in_rangeb_spec in E. split_and!; try done.
    destruct (csum_replace4_ok (field off 2 (data s)) from to).
    exists (csum_replace4 (field off 2 (data s)) from to).
    split_and!; [unfold is_u16; lia|done..].
  - apply ref_fallible_ok in H as [?|(?&E&?)]; [by left|right].
    apply in_rangeb_spec in E. split_and!; try done.
    exists (ref_l4 (csum_partial s) (field off 2 (data s)) from to).
    split_and!; [|done|].
    + apply ref_l4_u16.
    + intros ->. apply ref_l4_step.
  - unfold is_u64, u64. apply Z.mod_pos_bound. lia.
  - destruct (pop_fault k) as [bad k1]. destruct bad; simplify_eq; [left|right].
    + split; [lia|done].
    + split_and!; [done|apply lookup_insert_eq|].
      by rewrite delete_insert_eq.
  - by simplify_eq.
Qed.

(** With an empty script nothing fails. *)
Definition no_faults (k : ref_kern) : Prop := faults k = [].

Lemma ref_fallible_up k p ok d rc p' k' :
  no_faults k -> ok = true -> ref_fallible k p ok d = (rc, p', k') ->
  rc = 0 /\ no_faults k'.
Proof.
  unfold ref_fallible, pop_fault, no_faults. intros Hk -> E. rewrite Hk in E. simpl in E.
  by simplify_eq.
Qed.

#[export] Instance RefKernelUp : BpfHelpersUp RefKernel no_faults.
Proof.
  split; simpl; intros.
  - eapply ref_fallible_up; [done|by apply in_rangeb_spec|done].
  - eapply ref_fallible_up; [done|by apply in_rangeb_spec|done].
  - eapply ref_fallible_up; [done|by apply in_rangeb_spec|done].
  - done.
  - unfold pop_fault, no_faults in *. by rewrite H in H0; simplify_eq.
Qed.
