(* ===== verification/DnsName.v ===== *)
(** * DNS names

    Names as lists of labels, their wire format, the 128-byte keys of
    [suffix_rules], and the reading of a name from a question section.  This is
    the vocabulary of the specifications; both the label walk of the eBPF
    program and [EncodeSuffix] of the controller are compared with it. *)

From S2P Require Import Prelude.
From S2P Require Import Types.

Abbreviation label := (list byte).
Abbreviation name := (list label).

Definition KEY_LEN : nat := 128.

Definition valid_label (l : label) : Prop := (1 <= length l <= 63)%nat.
Definition valid_name (ls : name) : Prop := ls <> [] /\ Forall valid_label ls.

#[export] Instance valid_label_dec l : Decision (valid_label l).
Proof. unfold valid_label. apply _. Defined.
#[export] Instance valid_name_dec ls : Decision (valid_name ls).
Proof. unfold valid_name. apply _. Defined.

Definition wire_label (l : label) : list byte := byte_of_Z (Z.of_nat (length l)) :: l.

Fixpoint wire_body (ls : name) : list byte :=
  match ls with
  | [] => []
  | l :: ls => wire_label l ++ wire_body ls
  end.

(** The wire format: the labels and the root label. *)
Definition wire (ls : name) : list byte := wire_body ls ++ [Byte.x00].

(** Zero padding to a key. *)
Definition pad_key (bs : list byte) : list byte := bs ++ replicate (KEY_LEN - length bs) Byte.x00.

(** The key of a name, and of labels followed by an arbitrary byte. *)
Definition open_key (ls : name) (t : byte) : suffix_key := SuffixKey (pad_key (wire_body ls ++ [t])).
Definition name_key (ls : name) : suffix_key := open_key ls Byte.x00.

(** ** Reading a name *)

Inductive qparse :=
  | QBad                             (* a length byte above 63 *)
  | QShort                           (* the buffer ends first *)
  | QName (ls : name) (t : byte).    (* the labels, and the byte after them *)

(** At most [n] labels; the byte after them is the root label unless [n]
    labels were read. *)
Fixpoint parse_name (n : nat) (bs : list byte) : qparse :=
  match n, bs with
  | _, [] => QShort
  | O, b :: _ => QName [] b
  | S n, b :: bs =>
      if ub b =? 0 then QName [] b
      else if 63 <? ub b then QBad
      else if Z.of_nat (length bs) <? ub b then QShort
      else match parse_name n (drop (Z.to_nat (ub b)) bs) with
           | QName ls t => QName (take (Z.to_nat (ub b)) bs :: ls) t
           | r => r
           end
  end.

(** ** Facts *)

Lemma ub_label_len (l : label) :
  (length l <= 63)%nat -> ub (byte_of_Z (Z.of_nat (length l))) = Z.of_nat (length l).
Proof. intros. rewrite ub_byte_of_Z, Z.mod_small; lia. Qed.

Lemma length_wire_label (l : label) : length (wire_label l) = S (length l).
Proof. done. Qed.

Lemma length_pad_key bs : (length bs <= KEY_LEN)%nat -> length (pad_key bs) = KEY_LEN.
Proof. intros. unfold pad_key. rewrite length_app, length_replicate. lia. Qed.

Lemma lookup_pad_key bs i :
  (i < KEY_LEN)%nat -> pad_key bs !! i = Some (default Byte.x00 (bs !! i)).
Proof.
  intros Hi. unfold pad_key. destruct (decide (i < length bs)%nat) as [Hl|Hl].
  - rewrite lookup_app_l by done. by destruct (lookup_lt_is_Some_2 _ _ Hl) as [b ->].
  - rewrite lookup_app_r, lookup_replicate_2, lookup_ge_None_2 by lia. done.
Qed.

Lemma parse_wire n ls t rest :
  Forall valid_label ls -> (length ls <= n)%nat ->
  t = Byte.x00 \/ length ls = n ->
  parse_name n (wire_body ls ++ t :: rest) = QName ls t.
Proof.
  intros Hv. revert n. induction Hv as [|l ls Hl Hv IH]; intros n Hn Ht; simpl in *.
  - destruct n; simpl; [done|]. destruct Ht as [->|?]; [done|lia].
  - destruct n as [|n]; [lia|]. unfold valid_label in Hl. simpl.
    rewrite ub_label_len by lia.
    destruct (Z.eqb_spec (Z.of_nat (length l)) 0); [lia|].
    destruct (Z.ltb_spec 63 (Z.of_nat (length l))); [lia|].
    rewrite <- app_assoc, length_app.
    destruct (Z.ltb_spec (Z.of_nat (length l + length (wire_body ls ++ t :: rest)))
      (Z.of_nat (length l))); [lia|].
    rewrite Nat2Z.id, drop_app_length, take_app_length, IH; [done|lia|].
    destruct Ht; [by left|right; lia].
Qed.

Lemma parse_name_sound n bs ls t :
  parse_name n bs = QName ls t ->
  Forall valid_label ls /\ (length ls <= n)%nat /\
  (t = Byte.x00 \/ length ls = n) /\
  exists rest, bs = wire_body ls ++ t :: rest.
Proof.
  revert bs ls. induction n as [|n IH]; intros [|b bs] ls; simpl; try done.
  - intros [= <- <-]. split_and!; eauto.
  - destruct (Z.eqb_spec (ub b) 0) as [Hb|Hb].
    { intros [= <- <-]. apply ub_zero in Hb. split_and!; eauto; simpl; lia. }
    repeat case_match; try done. intros [= <- <-].
    destruct (IH _ _ H1) as (?&?&Ht&rest&Hrest). pose proof (ub_range b).
    assert (length (take (Z.to_nat (ub b)) bs) = Z.to_nat (ub b)) as Hlen
      by (rewrite length_take; lia).
    split_and!; simpl; [|lia|destruct Ht; auto|].
    + constructor; [|done]. unfold valid_label. lia.
    + exists rest. unfold wire_label. rewrite Hlen, Z2Nat.id, byte_of_Z_ub by lia.
      simpl. rewrite <- app_assoc, <- Hrest, take_drop. done.
Qed.

Lemma length_wire_body_drop i ls :
  (length (wire_body (drop i ls)) <= length (wire_body ls))%nat.
Proof.
  revert i. induction ls as [|l ls IH]; intros [|i]; simpl; try done.
  rewrite length_app. specialize (IH i). lia.
Qed.

Lemma wire_body_app ls ls' : wire_body (ls ++ ls') = wire_body ls ++ wire_body ls'.
Proof. induction ls as [|l ls IH]; simpl; [done|]. by rewrite IH, app_assoc. Qed.

(** Keys determine names: padding and concatenation lose nothing. *)
Lemma pad_key_parse ls t n rest :
  Forall valid_label ls -> (length ls <= n)%nat -> t = Byte.x00 \/ length ls = n ->
  (length (wire_body ls) < KEY_LEN)%nat ->
  parse_name n (pad_key (wire_body ls ++ [t]) ++ rest) = QName ls t.
Proof.
  intros. unfold pad_key. rewrite <- !app_assoc. simpl. by apply parse_wire.
Qed.

Lemma name_key_inj ls ls' :
  Forall valid_label ls -> Forall valid_label ls' ->
  (length (wire_body ls) < KEY_LEN)%nat -> (length (wire_body ls') < KEY_LEN)%nat ->
  name_key ls = name_key ls' -> ls = ls'.
Proof.
  intros Hv Hv' Hl Hl' [= Hk].
  pose proof (pad_key_parse ls Byte.x00 (length ls + length ls') [] Hv
    ltac:(lia) ltac:(auto) Hl) as E.
  rewrite Hk, pad_key_parse in E by (auto; lia). congruence.
Qed.
