(* ===== verification/QnameProofs.v ===== *)
(** * The QNAME stages of the ingress program

    The label walk computes [parse_name], the copy loop builds the key of a
    suffix, and the suffix loop returns the first rule along the suffixes,
    longest first.  All three hold whatever the scratch buffers contained. *)

From S2P Require Import Prelude.
From S2P Require Import Types.
From S2P Require Import Kernel.
From S2P Require Import NatRewrite.
From S2P Require Import Ingress.
From S2P Require Import DnsName.

(** The rule of the longest suffix that has one. *)
Fixpoint lookup_suffix (rules : rules_map) (ls : name) (t : byte) : option suffix_value :=
  match ls with
  | [] => None
  | _ :: ls' =>
      match rules !! open_key ls t with
      | Some v => Some v
      | None => lookup_suffix rules ls' t
      end
  end.

(** The offsets of the labels of a name that starts at [pos]. *)
Fixpoint offsets (pos : Z) (ls : name) : list Z :=
  match ls with
  | [] => []
  | l :: ls => pos :: offsets (pos + (1 + Z.of_nat (length l))) ls
  end.

Lemma length_offsets pos ls : length (offsets pos ls) = length ls.
Proof. revert pos. induction ls; intros; simpl; auto. Qed.

Lemma lookup_offsets pos ls i :
  (i < length ls)%nat ->
  offsets pos ls !! i = Some (pos + Z.of_nat (length (wire_body (take i ls)))).
Proof.
  revert pos i. induction ls as [|l ls IH]; intros pos [|i] Hi; simpl in *; try lia.
  - f_equal. lia.
  - rewrite IH by lia. f_equal. rewrite length_app. lia.
Qed.

Lemma land_127 z : 0 <= z < 128 -> Z.land z (128 - 1) = z.
Proof.
  intros. change (128 - 1) with (Z.ones 7). rewrite Z.land_ones by lia.
  apply Z.mod_small. lia.
Qed.

Section walk.
Context {H : BpfHelpers}.
Context (s : dp_state) (sc : scratch_buf) (r : Z).
Context (Hsc : st_scratch s = [sc]) (Hlen : length (qname sc) = KEY_LEN).
Context (Hr : 1 <= r <= 128).

Let buf : list byte := take (Z.to_nat r) (qname sc).

Lemma length_walk_buf : length buf = Z.to_nat r.
Proof. unfold buf. rewrite length_take, Hlen. unfold KEY_LEN. lia. Qed.

Lemma scratch_qname_byte_run i :
  scratch_qname_byte i s = (s, Cont (byte_at i (qname sc))).
Proof. unfold scratch_qname_byte, gets. by rewrite Hsc. Qed.

Lemma walk_labels_stop n offs pos :
  r <= pos -> walk_labels n r offs pos s = (s, Cont (offs, pos)).
Proof. destruct n; simpl; [done|]. intros. by rewrite (proj2 (Z.leb_le r pos)). Qed.

Lemma walk_buf_cons pos :
  0 <= pos < r ->
  drop (Z.to_nat pos) buf = byte_at pos (qname sc) :: drop (Z.to_nat (pos + 1)) buf.
Proof.
  intros. pose proof length_walk_buf.
  destruct (lookup_lt_is_Some_2 buf (Z.to_nat pos)) as [b Hb]; [lia|].
  rewrite (drop_S _ _ _ Hb). f_equal; [|f_equal; lia].
  unfold byte_at. unfold buf in Hb. apply lookup_take_Some in Hb as [-> _]. done.
Qed.

(** The walk from [pos] computes [parse_name] of what is left. *)
Lemma walk_labels_run n offs pos :
  0 <= pos ->
  match parse_name n (drop (Z.to_nat pos) buf) with
  | QBad => walk_labels n r offs pos s = (count [METRIC_PARSE_ERROR] s, Exit TC_ACT_OK)
  | QShort => exists offs' pos', walk_labels n r offs pos s = (s, Cont (offs', pos')) /\
      r <= pos' <= Z.max pos (r + 64)
  | QName ls t => walk_labels n r offs pos s =
      (s, Cont (offs ++ offsets pos ls, pos + Z.of_nat (length (wire_body ls))))
  end.
Proof.
  revert offs pos. induction n as [|n IH]; intros offs pos Hpos.
  { destruct (decide (r <= pos)).
    - rewrite drop_ge by (rewrite length_walk_buf; lia). simpl. exists offs, pos. split; [done|lia].
    - rewrite walk_buf_cons by lia. simpl. by rewrite app_nil_r, Z.add_0_r. }
  destruct (decide (r <= pos)).
  { rewrite drop_ge by (rewrite length_walk_buf; lia). simpl.
    rewrite (proj2 (Z.leb_le r pos)) by lia. simpl. exists offs, pos. split; [done|lia]. }
  rewrite walk_buf_cons by lia. simpl. change MAX_DNS_NAME_LEN with 128.
  rewrite (proj2 (Z.leb_gt r pos)), (proj2 (Z.leb_gt 128 pos)) by lia. simpl.
  rewrite run_bind, scratch_qname_byte_run, land_127 by lia.
  set (b := byte_at pos (qname sc)). pose proof (ub_range b).
  destruct (Z.eqb_spec (ub b) 0) as [E|E]; simpl.
  { by rewrite app_nil_r, Z.add_0_r. }
  destruct (Z.ltb_spec 63 (ub b)); [done|].
  rewrite length_drop, length_walk_buf, drop_drop.
  rewrite u32_small by (unfold is_u32; lia).
  destruct (Z.ltb_spec (Z.of_nat (Z.to_nat r - Z.to_nat (pos + 1))) (ub b)).
  { exists (offs ++ [pos]), (pos + (1 + ub b)). rewrite walk_labels_stop by lia.
    split; [done|lia]. }
  specialize (IH (offs ++ [pos]) (pos + (1 + ub b)) ltac:(lia)).
  replace (Z.to_nat (pos + 1) + Z.to_nat (ub b))%nat
    with (Z.to_nat (pos + (1 + ub b))) by lia.
  destruct (parse_name n _) as [| |ls t]; [done| |].
  - destruct IH as (offs'&pos'&?&?). exists offs', pos'. split; [done|lia].
  - assert (length (take (Z.to_nat (ub b)) (drop (Z.to_nat (pos + 1)) buf)) =
            Z.to_nat (ub b)) as Hl.
    { rewrite length_take, length_drop, length_walk_buf. lia. }
    rewrite IH. simpl. rewrite length_app, Hl, <- app_assoc.
    replace (Z.of_nat (Z.to_nat (ub b))) with (ub b) by lia. simpl.
    do 3 f_equal. lia.
Qed.

(** The stage as a whole. *)
Lemma qname_labels_run :
  qname_labels r s =
    match parse_name MAX_LABELS buf with
    | QBad => (count [METRIC_PARSE_ERROR] s, Exit TC_ACT_OK)
    | QShort => (s, Exit TC_ACT_OK)
    | QName [] _ => (s, Exit TC_ACT_OK)
    | QName ls t => (s, Cont (offsets 0 ls, Z.of_nat (length (wire_body ls)) + 1))
    end.
Proof.
  unfold qname_labels. rewrite run_bind.
  pose proof (walk_labels_run MAX_LABELS [] 0 ltac:(lia)) as Hw.
  change (drop (Z.to_nat 0) buf) with buf in Hw.
  destruct (parse_name MAX_LABELS buf) as [| |ls t] eqn:E.
  - by rewrite Hw.
  - destruct Hw as (offs&pos&->&?). rewrite run_bind.
    destruct (Z.eqb_spec (Z.of_nat (length offs)) 0); [done|]. simpl.
    rewrite run_bind, u32_small by (unfold is_u32; lia).
    rewrite (proj2 (Z.ltb_lt r (pos + 1))), orb_true_r by lia. done.
  - rewrite Hw. simpl. rewrite run_bind, length_offsets.
    destruct ls as [|l ls]; [done|].
    destruct (Z.eqb_spec (Z.of_nat (length (l :: ls))) 0); [simpl in *; lia|].
    apply parse_name_sound in E as (_&_&_&rest&E).
    apply (f_equal length) in E. rewrite length_walk_buf, length_app in E. simpl in E.
    unfold exit_if at 1. unfold mret at 1, prog_ret at 1.
    rewrite run_bind, u32_small by (unfold is_u32; simpl; lia). unfold MAX_DNS_NAME_LEN.
    simpl. rewrite (proj2 (Z.ltb_ge 128 _)), (proj2 (Z.ltb_ge r _)) by lia. done.
Qed.
End walk.

(** ** Loading the name *)

Lemma clamp_127 r :
  1 <= r ->
  (let m := Z.land (if 128 <? r then 128 else r) (128 - 1) in
   if m =? 0 then 128 else m) = Z.min 128 r.
Proof.
  intros. cbv zeta. destruct (Z.ltb_spec 128 r); [by rewrite Z.min_l by lia|].
  destruct (decide (r = 128)) as [->|]; [done|].
  rewrite land_127, Z.min_r by lia. by destruct (Z.eqb_spec r 0); [lia|].
Qed.

Section load.
Context {H : BpfHelpers} {HK : BpfHelpersOk H}.

Lemma load_bytes_in off n s :
  0 < n -> in_range off n (data (st_skb s)) ->
  load_bytes off n s = (s, Cont (0, slice off n (data (st_skb s)))).
Proof. intros. unfold load_bytes. by rewrite load_in_range. Qed.

Lemma load_bytes_out off n s :
  0 < n -> ~ in_range off n (data (st_skb s)) ->
  exists rc b, load_bytes off n s = (s, Cont (rc, b)) /\ (rc <? 0) = true.
Proof.
  intros Hn Hr. destruct (load_out_of_range (st_kern s) (st_skb s) off n Hn Hr).
  unfold load_bytes. destruct (skb_load_bytes _ _ _ _) as [rc b].
  exists rc, b. split; [done|]. by apply Z.ltb_lt.
Qed.

(** The scratch slot after [load_qname]. *)
Definition scratch_loaded (sc : scratch_buf) (off r : Z) (d : list byte) : scratch_buf :=
  ScratchBuf (put 0 (slice off r d) (qname sc)) (lookup_buf sc).

Lemma load_qname_run s sc o :
  st_scratch s = [sc] -> 0 <= o -> o + 12 < 2 ^ 32 -> skb_len (st_skb s) < 2 ^ 32 ->
  load_qname o s =
    if skb_len (st_skb s) <=? o + 12 then (s, Exit TC_ACT_OK)
    else
      let r := Z.min 128 (skb_len (st_skb s) - (o + 12)) in
      (set_scratch [scratch_loaded sc (o + 12) r (data (st_skb s))] s, Cont r).
Proof.
  intros Hsc Ho Ho' Hlen. unfold load_qname.
  rewrite run_bind. unfold gets at 1. rewrite Hsc, run_bind.
  rewrite bool_decide_eq_false_2 by done. simpl. rewrite !run_bind. simpl.
  rewrite (u32_small (o + 12)) by (unfold is_u32; lia).
  rewrite run_bind. unfold exit_if at 1.
  destruct (Z.ltb_spec (skb_len (st_skb s)) (o + 12)).
  { by rewrite (proj2 (Z.leb_le _ _)) by lia. }
  simpl. rewrite u32_small by (unfold is_u32; lia). rewrite run_bind.
  destruct (Z.leb_spec (skb_len (st_skb s)) (o + 12)).
  { by rewrite (proj2 (Z.ltb_lt _ 1)) by lia. }
  rewrite (proj2 (Z.ltb_ge _ 1)) by lia. simpl. change MAX_DNS_NAME_LEN with 128.
  pose proof (clamp_127 (skb_len (st_skb s) - (o + 12)) ltac:(lia)) as Hc.
  cbv zeta in Hc. rewrite Hc.
  rewrite run_bind, load_bytes_in by (unfold in_range, skb_len in *; lia).
  rewrite run_bind. unfold on_scratch, modify. rewrite Hsc. done.
Qed.

Lemma scratch_loaded_take sc off r d :
  length (qname sc) = KEY_LEN -> in_range off r d -> 0 <= r <= 128 ->
  take (Z.to_nat r) (qname (scratch_loaded sc off r d)) = slice off r d /\
  length (qname (scratch_loaded sc off r d)) = KEY_LEN.
Proof.
  intros Hl Hr ?. unfold scratch_loaded, put; simpl.
  pose proof (length_slice off r d Hr) as Hs. split.
  - by rewrite <- Hs, take_app_length.
  - rewrite length_app, length_drop, Hs, Hl. unfold KEY_LEN. lia.
Qed.

(** The bytes read are all that the packet has, up to 128. *)
Lemma slice_min off (d : list byte) n :
  0 <= off -> off < Z.of_nat (length d) ->
  slice off (Z.min n (Z.of_nat (length d) - off)) d = slice off n d.
Proof.
  intros. unfold slice. destruct (decide (n <= Z.of_nat (length d) - off)).
  - by rewrite Z.min_l by lia.
  - rewrite Z.min_r by lia. rewrite !take_ge; [done|..]; rewrite length_drop; lia.
Qed.
End load.

(** ** Copying and matching suffixes *)

Section match_suffix.
Context {H : BpfHelpers}.

Lemma copy_suffix_run n k ss sl s q lk :
  st_scratch s = [ScratchBuf q lk] -> length q = KEY_LEN -> length lk = KEY_LEN ->
  0 <= ss -> 0 <= sl -> ss + sl <= 128 -> (k + n = KEY_LEN)%nat ->
  copy_suffix n (Z.of_nat k) ss sl s =
    (set_scratch [ScratchBuf q (take k lk ++ drop k (pad_key (slice ss sl q)))] s, Cont tt).
Proof.
  intros Hsc Hq Hlk Hss Hsl Hle. set (bs := slice ss sl q).
  assert (length bs = Z.to_nat sl) as Hbs
    by (unfold bs; rewrite length_slice; unfold in_range, KEY_LEN in *; lia).
  assert (length (pad_key bs) = KEY_LEN) as Hpad
    by (apply length_pad_key; unfold KEY_LEN; lia).
  revert k s lk Hsc Hlk. induction n as [|n IH]; intros k s lk Hsc Hlk Hk; simpl.
  { rewrite take_ge, drop_ge, app_nil_r by lia. rewrite <- Hsc. by destruct s. }
  set (b := default Byte.x00 (bs !! k)).
  assert ((if Z.of_nat k <? sl
           then scratch_qname_byte (Z.land (u32 (ss + Z.of_nat k)) (MAX_DNS_NAME_LEN - 1))
           else mret Byte.x00) s = (s, Cont b)) as Hb.
  { change MAX_DNS_NAME_LEN with 128. unfold b, bs. destruct (Z.ltb_spec (Z.of_nat k) sl).
    - rewrite u32_small, land_127 by (unfold is_u32; lia).
      erewrite scratch_qname_byte_run by done. simpl. unfold byte_at.
      rewrite lookup_slice, decide_True by lia. do 4 f_equal. lia.
    - by rewrite lookup_slice, decide_False by lia. }
  rewrite run_bind, Hb, run_bind. unfold on_scratch at 1, modify at 1.
  replace (Z.of_nat k + 1) with (Z.of_nat (S k)) by lia.
  rewrite (IH (S k) _ (<[k := b]> lk)); try done; try lia.
  - unfold set_scratch; simpl. do 4 f_equal.
    rewrite (take_S_r _ _ b) by (apply list_lookup_insert_eq; unfold KEY_LEN in *; lia).
    rewrite take_insert_ge by lia.
    rewrite <- app_assoc. simpl. f_equal.
    symmetry. apply drop_S. apply lookup_pad_key. lia.
  - simpl. rewrite Hsc. simpl. by rewrite Nat2Z.id.
  - by rewrite length_insert.
Qed.

#[local] Arguments copy_suffix : simpl never.

(** The bytes from the [i]-th label to the end of the name. *)
Lemma slice_suffix i ls t rest :
  let st := Z.of_nat (length (wire_body (take i ls))) in
  let tot := Z.of_nat (length (wire_body ls)) in
  st + Z.of_nat (length (wire_body (drop i ls))) = tot /\
  slice st (tot + 1 - st) (wire_body ls ++ t :: rest) = wire_body (drop i ls) ++ [t].
Proof.
  intros st tot.
  assert (st + Z.of_nat (length (wire_body (drop i ls))) = tot) as Hsplit.
  { unfold st, tot. rewrite <- (take_drop i ls) at 3. rewrite wire_body_app, length_app. lia. }
  split; [done|]. rewrite <- (take_drop i ls) at 1. rewrite wire_body_app, <- app_assoc.
  unfold slice. rewrite drop_app_length' by lia.
  replace (Z.to_nat (tot + 1 - st)) with (length (wire_body (drop i ls) ++ [t]))
    by (rewrite length_app; cbn [length]; lia).
  change (t :: rest) with ([t] ++ rest). by rewrite app_assoc, take_app_length.
Qed.

(** The suffix loop from label [i]. *)
Lemma match_suffixes_run rules n i ls t rest q lk action s :
  st_scratch s = [ScratchBuf q lk] -> length q = KEY_LEN -> length lk = KEY_LEN ->
  st_rules s = rules -> q = wire_body ls ++ t :: rest ->
  (i + n = MAX_LABELS)%nat -> (length ls <= MAX_LABELS)%nat ->
  exists lk', length lk' = KEY_LEN /\
    match_suffixes n (Z.of_nat i) (offsets 0 ls) (Z.of_nat (length (wire_body ls)) + 1)
      action s =
    (set_scratch [ScratchBuf q lk'] s,
     Cont (match lookup_suffix rules (drop i ls) t with
           | Some v => (sv_action v, true)
           | None => (action, false)
           end)).
Proof.
  intros Hsc Hq Hlk Hru Hw. revert i lk s Hsc Hlk Hru.
  induction n as [|n IH]; intros i lk s Hsc Hlk Hru Hi Hls; simpl.
  { rewrite drop_ge by lia. exists lk. split; [done|]. rewrite <- Hsc. by destruct s. }
  rewrite length_offsets.
  destruct (Z.leb_spec (Z.of_nat (length ls)) (Z.of_nat i)).
  { rewrite drop_ge by lia. exists lk. split; [done|]. rewrite <- Hsc. by destruct s. }
  rewrite (proj2 (Z.leb_gt (Z.of_nat MAX_LABELS) _)) by lia.
  rewrite Nat2Z.id, lookup_offsets by lia. simpl.
  pose proof (f_equal length Hw) as Hlen. rewrite Hq, length_app in Hlen. simpl in Hlen.
  destruct (slice_suffix i ls t rest) as [Hsplit Hslice]. rewrite <- Hw in Hslice.
  destruct (drop i ls) as [|l ls'] eqn:Hd.
  { apply (f_equal length) in Hd. rewrite length_drop in Hd. simpl in Hd. lia. }
  set (st := Z.of_nat (length (wire_body (take i ls)))) in *.
  set (tot := Z.of_nat (length (wire_body ls))) in *.
  unfold KEY_LEN in Hlen. change MAX_DNS_NAME_LEN with 128.
  replace (0 + st) with st by lia.
  assert (0 <= st /\ st + Z.of_nat (length (wire_body (l :: ls'))) = tot /\ tot < 128)
    as (?&?&?) by lia.
  rewrite (u32_small (tot + 1 - st)) by (unfold is_u32; lia).
  rewrite (proj2 (Z.eqb_neq (tot + 1 - st) 0)), (proj2 (Z.ltb_ge 128 (tot + 1 - st))) by lia.
  change (false || false) with false. cbv iota. rewrite land_127 by lia.
  rewrite run_bind, (copy_suffix_run _ 0 _ _ _ q lk) by (done || lia).
  rewrite run_bind. unfold lookup_suffix_rule at 1, gets at 1. simpl st_scratch.
  rewrite Hslice.
  change (drop 0 ?x) with x. change (take 0 ?x ++ ?y) with y.
  set (key := pad_key (wire_body (l :: ls') ++ [t])).
  assert (length key = KEY_LEN)
    by (apply length_pad_key; rewrite length_app; unfold KEY_LEN; cbn [length]; lia).
  simpl. rewrite Hru. unfold open_key. change (SuffixKey (pad_key _)) with (SuffixKey key).
  destruct (rules !! SuffixKey key) as [v|] eqn:Hv.
  { exists key. done. }
  destruct (IH (S i) key (set_scratch [ScratchBuf q key] s)) as (lk'&?&Hm);
    try done; try lia.
  exists lk'. split; [done|].
  replace (Z.of_nat i + 1) with (Z.of_nat (S i)) by lia. rewrite Hm.
  assert (drop (S i) ls = ls') as ->.
  { rewrite <- Nat.add_1_r, <- drop_drop, Hd. done. }
  done.
Qed.
End match_suffix.
