(* ===== verification/DatapathSpec.v ===== *)
(** * Specification of the two programs, and refinement

    [ingress_spec] says what a run does in terms of UDP datagrams, names and
    rules, with no scratch buffers, offset arrays or loops, up to the rewrite of
    a query that is to be redirected; [egress_staged] is the egress program with
    its header tests replaced by [egress_flow].  The lemmas show that the
    translated programs compute them on every packet; the rest of each run is
    described in [Outcomes], without the programs' own stages. *)

From S2P Require Import Prelude.
From S2P Require Import Types.
From S2P Require Import Kernel.
From S2P Require Import Checksum.
From S2P Require Import NatRewrite.
From S2P Require Import Ingress.
From S2P Require Import Egress.
From S2P Require Import DnsName.
From S2P Require Import QnameProofs.

(** ** Datagrams *)

Record dgram := Dgram {
  dg_saddr : Z; dg_daddr : Z; dg_sport : Z; dg_dport : Z; dg_udp_off : Z
}.

(** The unfragmented IPv4 UDP datagram a packet carries, if it does. *)
Definition parse_dgram (d : list byte) : option dgram :=
  let len := Z.of_nat (length d) in
  if (34 <=? len) && (field 12 2 d =? bpf_htons ETH_P_IP) &&
     (field 23 1 d =? IPPROTO_UDP) && (20 <=? ip_hdr_len d) &&
     (Z.land (field 20 2 d) (bpf_htons 0x3FFF) =? 0) && (ip_udp_off d + 8 <=? len)
  then Some {| dg_saddr := field 26 4 d; dg_daddr := field 30 4 d;
               dg_sport := field (ip_udp_off d) 2 d;
               dg_dport := field (ip_udp_off d + 2) 2 d;
               dg_udp_off := ip_udp_off d |}
  else None.

Definition dns_off (dg : dgram) : Z := dg_udp_off dg + 8.

(** ** Ingress *)

(** What a packet is, for a configuration and a set of rules. *)
Inductive verdict :=
  | VPass (ms : list metric_id)                               (* not ours; counted *)
  | VQuery (dg : dgram) (tx : Z) (rule : option suffix_value). (* a resolved query *)

Definition query_verdict (rules : rules_map) (dg : dgram) (d : list byte) : verdict :=
  let o := dns_off dg in
  if Z.of_nat (length d) <? o + 12 then VPass []
  else if negb (Z.land (be16_at (o + 2) d) 0x8000 =? 0) then VPass []
  else if negb (be16_at (o + 4) d =? 1) then VPass [METRIC_PARSE_ERROR]
  else match parse_name MAX_LABELS (slice (o + 12) 128 d) with
       | QBad => VPass [METRIC_PARSE_ERROR]
       | QShort => VPass []
       | QName [] _ => VPass []
       | QName ls t => VQuery dg (be16_at o d) (lookup_suffix rules ls t)
       end.

Definition ingress_verdict (cfg : gateway_config) (rules : rules_map) (d : list byte)
  : verdict :=
  if negb (bypass cfg =? 0) then VPass [METRIC_BYPASS_ACTIVE]
  else match parse_dgram d with
       | Some dg =>
           if (dg_daddr dg =? coredns_ip cfg) && (dg_dport dg =? dns_port cfg) then
             match query_verdict rules dg d with
             | VPass ms => VPass (METRIC_DNS_QUERIES :: ms)
             | v => v
             end
           else VPass []
       | None => VPass []
       end.

Definition resolve (cfg : gateway_config) (rule : option suffix_value) : Z :=
  match rule with Some v => sv_action v | None => default_action cfg end.

Definition match_metric (rule : option suffix_value) : metric_id :=
  match rule with Some _ => METRIC_SUFFIX_MATCH | None => METRIC_SUFFIX_NO_MATCH end.

Definition query_key (dg : dgram) (tx : Z) : conntrack_key :=
  ConntrackKey (dg_saddr dg) (dg_sport dg) tx.

Section spec.
Context {H : BpfHelpers}.

Definition ingress_apply (cfg : gateway_config) (v : verdict) (s : dp_state)
  : dp_state * Z :=
  match v with
  | VPass ms => (count (METRIC_TOTAL_PACKETS :: ms) s, TC_ACT_OK)
  | VQuery dg tx rule =>
      let ms := [METRIC_TOTAL_PACKETS; METRIC_DNS_QUERIES; match_metric rule] in
      if resolve cfg rule =? ACTION_HOST_RESOLVE then
        run (ingress_redirect cfg (query_key dg tx) (dg_daddr dg) (dg_udp_off dg))
          (count ms s)
      else (count (ms ++ [METRIC_CLUSTER_RESOLVED]) s, TC_ACT_OK)
  end.

Definition ingress_spec (s : dp_state) : dp_state * Z :=
  match st_config s !! 0%nat with
  | None => (count [METRIC_TOTAL_PACKETS] s, TC_ACT_OK)
  | Some cfg => ingress_apply cfg (ingress_verdict cfg (st_rules s) (data (st_skb s))) s
  end.

(** ** Egress *)

Definition egress_flow (cfg : gateway_config) (d : list byte) : option (dgram * conntrack_key) :=
  dg ← parse_dgram d;
  if (dg_saddr dg =? host_resolver_ip cfg) && (dg_sport dg =? dns_port cfg) &&
     (dns_off dg + 12 <=? Z.of_nat (length d))
  then Some (dg, ConntrackKey (dg_daddr dg) (dg_dport dg) (be16_at (dns_off dg) d))
  else None.

(** The header tests done; the tail is the program's. *)
Definition egress_staged (s : dp_state) : dp_state * Z :=
  let s1 := count [METRIC_EGRESS_TOTAL] s in
  match st_config s !! 0%nat with
  | None => (s1, TC_ACT_OK)
  | Some cfg =>
      match egress_flow cfg (data (st_skb s)) with
      | Some (dg, key) => run (egress_restore key (dg_saddr dg) (dg_udp_off dg)) s1
      | None => (s1, TC_ACT_OK)
      end
  end.
End spec.

Lemma parse_dgram_Some d dg :
  parse_dgram d = Some dg ->
  dg = {| dg_saddr := field 26 4 d; dg_daddr := field 30 4 d;
          dg_sport := field (ip_udp_off d) 2 d;
          dg_dport := field (ip_udp_off d + 2) 2 d; dg_udp_off := ip_udp_off d |} /\
  34 <= Z.of_nat (length d) /\ 20 <= ip_hdr_len d /\
  ip_udp_off d + 8 <= Z.of_nat (length d).
Proof.
  unfold parse_dgram. case_match eqn:E; intros [= <-].
  rewrite !andb_true_iff, !Z.leb_le in E. split; [done|lia].
Qed.

(** ** Header stages *)

Lemma ip_hdr_len_range d : 0 <= ip_hdr_len d <= 60.
Proof.
  unfold ip_hdr_len. pose proof (iphdr_ihl_range (slice ETH_HLEN 20 d)). lia.
Qed.

Lemma ip_udp_off_range d : 14 <= ip_udp_off d <= 74.
Proof. unfold ip_udp_off, ETH_HLEN. pose proof (ip_hdr_len_range d). lia. Qed.

Lemma be16_at_slice o i n d :
  0 <= o -> 0 <= i -> i + 2 <= n -> be16_at i (slice o n d) = be16_at (o + i) d.
Proof.
  intros. unfold be16_at. rewrite !lookup_slice_byte by lia.
  by replace (o + i + 1) with (o + (i + 1)) by lia.
Qed.

Section headers.
Context {H : BpfHelpers} {HK : BpfHelpersOk H}.

Lemma exit_if_run {B} c act (f : unit -> prog B) s :
  (exit_if c act ≫= f) s = if c then (s, Exit act) else f tt s.
Proof. by destruct c. Qed.

(** A load whose failure returns [TC_ACT_OK]. *)
Lemma load_or_exit {B} off n (g : list byte -> prog B) s :
  0 <= off -> 0 < n ->
  (load_bytes off n ≫= (fun '(rc, b) => exit_if (rc <? 0) TC_ACT_OK;; g b)) s =
    if off + n <=? Z.of_nat (length (data (st_skb s)))
    then g (slice off n (data (st_skb s))) s else (s, Exit TC_ACT_OK).
Proof.
  intros. rewrite run_bind. destruct (Z.leb_spec (off + n) (Z.of_nat (length (data (st_skb s))))).
  - by rewrite load_bytes_in by (unfold in_range; lia).
  - destruct (load_bytes_out off n s) as (rc&b&->&Hrc); [done|unfold in_range; lia|].
    by rewrite exit_if_run, Hrc.
Qed.

Lemma eth_proto_field d : h_proto (ethhdr_of_bytes (slice 0 sizeof_ethhdr d)) = field 12 2 d.
Proof. simpl. unfold sizeof_ethhdr. by rewrite field_slice by lia. Qed.

Lemma ihl_field d : 4 * ihl (iphdr_of_bytes (slice ETH_HLEN sizeof_iphdr d)) = ip_hdr_len d.
Proof. done. Qed.

Lemma iphdr_fields d :
  let iph := iphdr_of_bytes (slice ETH_HLEN sizeof_iphdr d) in
  protocol iph = field 23 1 d /\ frag_off iph = field 20 2 d /\
  saddr iph = field 26 4 d /\ daddr iph = field 30 4 d.
Proof. simpl. unfold sizeof_iphdr, ETH_HLEN. by rewrite !field_slice by lia. Qed.

Lemma udphdr_fields off d :
  0 <= off ->
  let udp := udphdr_of_bytes (slice off sizeof_udphdr d) in
  source udp = field off 2 d /\ dest udp = field (off + 2) 2 d.
Proof.
  intros. simpl. unfold sizeof_udphdr. rewrite !field_slice by lia. by rewrite Z.add_0_r.
Qed.

(** What the programs read of a datagram's headers. *)
Lemma dgram_headers d dg :
  parse_dgram d = Some dg ->
  let iph := iphdr_of_bytes (slice ETH_HLEN sizeof_iphdr d) in
  let udp := udphdr_of_bytes (slice (dg_udp_off dg) sizeof_udphdr d) in
  ip_udp_off d = dg_udp_off dg /\ saddr iph = dg_saddr dg /\ daddr iph = dg_daddr dg /\
  source udp = dg_sport dg.
Proof.
  intros (->&_)%parse_dgram_Some. simpl dg_udp_off. pose proof (ip_udp_off_range d).
  destruct (iphdr_fields d) as (_&_&?&?).
  by destruct (udphdr_fields (ip_udp_off d) d ltac:(lia)) as (?&_).
Qed.

Lemma udp_offset_u32 d :
  u32 (ETH_HLEN + u32 (ihl (iphdr_of_bytes (slice ETH_HLEN sizeof_iphdr d)) * 4)) =
    ip_udp_off d.
Proof.
  pose proof (ihl_field d). pose proof (ip_hdr_len_range d).
  unfold ip_udp_off, ETH_HLEN in *. rewrite (u32_small (_ * 4)) by (unfold is_u32; lia).
  rewrite u32_small by (unfold is_u32; lia). lia.
Qed.

(** The tests the two programs share, decided. *)
Ltac header_cases d :=
  unfold parse_dgram, sizeof_ethhdr, sizeof_iphdr, sizeof_udphdr, ETH_HLEN in *;
  destruct (Z.leb_spec (0 + 14) (Z.of_nat (length d))),
    (Z.leb_spec (14 + 20) (Z.of_nat (length d))), (Z.leb_spec 34 (Z.of_nat (length d)));
    try lia;
  destruct (Z.ltb_spec (ihl (iphdr_of_bytes (slice 14 20 d))) 5),
    (Z.ltb_spec 15 (ihl (iphdr_of_bytes (slice 14 20 d)))),
    (Z.leb_spec 20 (ip_hdr_len d)); try lia;
  destruct (field 12 2 d =? bpf_htons ETH_P_IP), (field 23 1 d =? IPPROTO_UDP),
    (Z.land (field 20 2 d) (bpf_htons 16383) =? 0).

Lemma ingress_headers_run cfg s :
  let d := data (st_skb s) in
  ingress_headers cfg s =
    match parse_dgram d with
    | Some dg =>
        if (dg_daddr dg =? coredns_ip cfg) && (dg_dport dg =? dns_port cfg)
        then (s, Cont (iphdr_of_bytes (slice ETH_HLEN sizeof_iphdr d),
                       udphdr_of_bytes (slice (ip_udp_off d) sizeof_udphdr d),
                       ip_udp_off d))
        else (s, Exit TC_ACT_OK)
    | None => (s, Exit TC_ACT_OK)
    end.
Proof.
  intros d. unfold ingress_headers. pose proof (ip_udp_off_range d).
  destruct (iphdr_fields d) as (Hp&Hf&_&Hd).
  destruct (udphdr_fields (ip_udp_off d) d ltac:(lia)) as (_&Hdp).
  pose proof (ihl_field d) as Hi. pose proof (iphdr_ihl_range (slice ETH_HLEN sizeof_iphdr d)).
  rewrite load_or_exit by done. fold d. rewrite exit_if_run, eth_proto_field.
  rewrite load_or_exit by done. fold d. cbv zeta.
  rewrite !exit_if_run, udp_offset_u32, load_or_exit by (done || lia). fold d.
  rewrite exit_if_run, Hp, Hf, Hd, Hdp.
  header_cases d; destruct (ip_udp_off d + 8 <=? Z.of_nat (length d)); simpl.
  all: by destruct (field 30 4 d =? coredns_ip cfg), (field (ip_udp_off d + 2) 2 d =? dns_port cfg).
Qed.

Lemma egress_headers_run cfg s :
  let d := data (st_skb s) in
  egress_headers cfg s =
    match parse_dgram d with
    | Some dg =>
        if (dg_saddr dg =? host_resolver_ip cfg) && (dg_sport dg =? dns_port cfg)
        then (s, Cont (iphdr_of_bytes (slice ETH_HLEN sizeof_iphdr d),
                       udphdr_of_bytes (slice (ip_udp_off d) sizeof_udphdr d),
                       ip_udp_off d))
        else (s, Exit TC_ACT_OK)
    | None => (s, Exit TC_ACT_OK)
    end.
Proof.
  intros d. unfold egress_headers. pose proof (ip_udp_off_range d).
  destruct (iphdr_fields d) as (Hp&Hf&Hs&_).
  destruct (udphdr_fields (ip_udp_off d) d ltac:(lia)) as (Hsp&_).
  pose proof (ihl_field d) as Hi. pose proof (iphdr_ihl_range (slice ETH_HLEN sizeof_iphdr d)).
  rewrite load_or_exit by done. fold d. rewrite exit_if_run, eth_proto_field.
  rewrite load_or_exit by done. fold d. cbv zeta.
  rewrite !exit_if_run, udp_offset_u32, load_or_exit by (done || lia). fold d.
  rewrite exit_if_run, Hp, Hf, Hs, Hsp.
  header_cases d; destruct (ip_udp_off d + 8 <=? Z.of_nat (length d)); simpl.
  all: by destruct (field 26 4 d =? host_resolver_ip cfg), (field (ip_udp_off d) 2 d =? dns_port cfg).
Qed.
End headers.

(** ** Steps that do not touch the scratch slot

    [ScratchFree m]: [m] commutes with replacing the scratch contents.  The
    instances close the tails of both programs under the combinators. *)

Class ScratchFree {H : BpfHelpers} {A} (m : prog A) : Prop :=
  scratch_free x s : m (set_scratch x s) = (set_scratch x (m s).1, (m s).2).

Section scratch_free.
Context {H : BpfHelpers}.

#[export] Instance ret_scratch_free {A} (a : A) : ScratchFree (mret a).
Proof. by intros x s. Qed.
#[export] Instance exit_scratch_free {A} act : ScratchFree (exit (A:=A) act).
Proof. by intros x s. Qed.
#[export] Instance exit_if_scratch_free c act : ScratchFree (exit_if c act).
Proof. by intros x s; destruct c. Qed.
#[export] Instance bind_scratch_free {A B} (m : prog A) (f : A -> prog B) :
  ScratchFree m -> (forall a, ScratchFree (f a)) -> ScratchFree (m ≫= f).
Proof.
  intros Hm Hf x s. rewrite !run_bind, Hm. destruct (m s) as [s' [a|act]]; simpl; [|done].
  by rewrite Hf.
Qed.
#[export] Instance if_scratch_free {A} (c : bool) (m1 m2 : prog A) :
  ScratchFree m1 -> ScratchFree m2 -> ScratchFree (if c then m1 else m2).
Proof. by destruct c. Qed.
#[export] Instance increment_scratch_free m : ScratchFree (increment_metric m).
Proof. by intros x s. Qed.
#[export] Instance ktime_scratch_free : ScratchFree ktime.
Proof. intros x s. unfold ktime; simpl. by destruct (ktime_get_ns _). Qed.
#[export] Instance store_scratch_free off bs : ScratchFree (store_bytes off bs).
Proof. intros x s. unfold store_bytes; simpl. by destruct (skb_store_bytes _ _ _ _ _) as [[]]. Qed.
#[export] Instance l3_scratch_free off a b f : ScratchFree (l3_csum off a b f).
Proof. intros x s. unfold l3_csum; simpl. by destruct (l3_csum_replace _ _ _ _ _ _) as [[]]. Qed.
#[export] Instance l4_scratch_free off a b f : ScratchFree (l4_csum off a b f).
Proof. intros x s. unfold l4_csum; simpl. by destruct (l4_csum_replace _ _ _ _ _ _) as [[]]. Qed.
#[export] Instance ct_update_scratch_free k v : ScratchFree (conntrack_update k v).
Proof. intros x s. unfold conntrack_update; simpl. by destruct (ct_update_elem _ _ _ _ _) as [[]]. Qed.
#[export] Instance ct_delete_scratch_free k : ScratchFree (conntrack_delete k).
Proof. intros x s. unfold conntrack_delete; simpl. by destruct (ct_delete_elem _ _ _) as [[]]. Qed.
#[export] Instance nat_scratch_free a u o n : ScratchFree (nat_rewrite_addr a u o n).
Proof. unfold nat_rewrite_addr. apply _. Qed.
#[export] Instance count_failure_scratch_free rc : ScratchFree (count_nat_failure rc).
Proof. unfold count_nat_failure. apply _. Qed.
#[export] Instance redirect_scratch_free cfg k o u : ScratchFree (ingress_redirect cfg k o u).
Proof. unfold ingress_redirect. apply _. Qed.

Lemma run_scratch_free (m : prog Z) x s :
  ScratchFree m -> run m (set_scratch x s) = (set_scratch x (run m s).1, (run m s).2).
Proof. intros Hm. unfold run. rewrite Hm. by destruct (m s) as [s' []]. Qed.
End scratch_free.

(** ** Refinement of the ingress program *)

#[local] Arguments match_suffixes : simpl never.
#[local] Arguments parse_name : simpl never.

Section refinement.
Context {H : BpfHelpers} {HK : BpfHelpersOk H}.

Lemma dp_wf_config s : dp_wf s -> exists cfg, st_config s = [cfg] /\ gateway_config_wf cfg.
Proof.
  intros [_ Hl Hc _ _ _ _]. destruct (st_config s) as [|cfg [|]]; try done.
  exists cfg. by inversion Hc.
Qed.

Lemma dp_wf_scratch s : dp_wf s -> exists sc, st_scratch s = [sc] /\ scratch_wf sc.
Proof.
  intros [_ _ _ _ _ Hl Hc]. destruct (st_scratch s) as [|sc [|]]; try done.
  exists sc. by inversion Hc.
Qed.

Lemma ingress_config_run s cfg :
  st_config s = [cfg] ->
  ingress_config s =
    if negb (bypass cfg =? 0) then (count [METRIC_BYPASS_ACTIVE] s, Exit TC_ACT_OK)
    else (s, Cont cfg).
Proof.
  intros Hc. unfold ingress_config. rewrite run_bind. unfold lookup_config. rewrite Hc.
  simpl. rewrite run_bind. by destruct (negb _).
Qed.

Lemma ingress_dns_header_run o s :
  let d := data (st_skb s) in
  0 <= o ->
  ingress_dns_header o s =
    if Z.of_nat (length d) <? o + 12 then (s, Exit TC_ACT_OK)
    else if negb (Z.land (be16_at (o + 2) d) 0x8000 =? 0) then (s, Exit TC_ACT_OK)
    else if negb (be16_at (o + 4) d =? 1) then
      (count [METRIC_PARSE_ERROR] s, Exit TC_ACT_OK)
    else (s, Cont (be16_at o d)).
Proof.
  intros d Ho. unfold ingress_dns_header. rewrite load_or_exit by done. fold d.
  rewrite Z.leb_antisym. destruct (Z.of_nat (length d) <? o + 12); [done|]. simpl.
  rewrite exit_if_run. rewrite !be16_at_slice by lia. rewrite Z.add_0_r.
  destruct (negb _); [done|]. rewrite run_bind. by destruct (negb _).
Qed.

(** The stages after the header tests, on a query. *)
Lemma ingress_query_stage {B} rules dg s (g : Z -> list Z * Z -> prog B) :
  dp_wf s -> st_rules s = rules -> 0 <= dg_udp_off dg <= 74 ->
  forall o, o = dns_off dg ->
  match query_verdict rules dg (data (st_skb s)) with
  | VPass ms =>
      exists sc, scratch_wf sc /\
      (tx ← ingress_dns_header o; remaining ← load_qname o;
       lt ← qname_labels remaining; g tx lt) s =
      (count ms (set_scratch [sc] s), Exit TC_ACT_OK)
  | VQuery dg' tx rule =>
      exists sc ls t rest, scratch_wf sc /\
      dg' = dg /\ rule = lookup_suffix rules ls t /\ (length ls <= MAX_LABELS)%nat /\
      qname sc = wire_body ls ++ t :: rest /\
      (tx ← ingress_dns_header o; remaining ← load_qname o;
       lt ← qname_labels remaining; g tx lt) s =
      g tx (offsets 0 ls, Z.of_nat (length (wire_body ls)) + 1) (set_scratch [sc] s)
  end.
Proof.
  intros Hwf Hru Hoff o ->. destruct (dp_wf_scratch s Hwf) as (sc&Hsc&Hscw).
  pose proof (wf_len s Hwf) as Hlen. unfold skb_len in Hlen.
  assert (s = set_scratch [sc] s) as Hs by (rewrite <- Hsc; by destruct s).
  unfold query_verdict. set (d := data (st_skb s)) in *. set (o := dns_off dg).
  assert (0 <= o <= 82) by (unfold o, dns_off; lia).
  rewrite run_bind, ingress_dns_header_run by lia. fold d.
  destruct (Z.ltb_spec (Z.of_nat (length d)) (o + 12)).
  { exists sc. by rewrite <- Hs, count_nil. }
  destruct (negb (Z.land _ _ =? 0)). { exists sc. by rewrite <- Hs, count_nil. }
  destruct (negb (be16_at (o + 4) d =? 1)). { exists sc. by rewrite <- Hs. }
  rewrite run_bind, (load_qname_run s sc) by (done || unfold skb_len; lia).
  unfold skb_len. fold d.
  destruct (Z.leb_spec (Z.of_nat (length d)) (o + 12)).
  { unfold slice. rewrite drop_ge by lia. simpl. exists sc. by rewrite <- Hs, count_nil. }
  cbv zeta. set (r := Z.min 128 _).
  set (sc' := scratch_loaded sc (o + 12) r d). destruct Hscw as [Hq Hlk].
  destruct (scratch_loaded_take sc (o + 12) r d) as [Htake Hq'];
    [done|unfold in_range; lia|lia|]. fold sc' in Htake, Hq'.
  assert (scratch_wf sc') as Hw' by done.
  rewrite run_bind, (qname_labels_run _ sc' r) by (done || lia).
  rewrite Htake. unfold r. rewrite slice_min by lia.
  destruct (parse_name MAX_LABELS _) as [| |ls t] eqn:E; [by exists sc'..|].
  destruct ls as [|l ls]; [by exists sc'|].
  apply parse_name_sound in E as (_&Hn&_&rest&E).
  exists sc', (l :: ls), t, (rest ++ drop (Z.to_nat r) (qname sc')).
  split_and!; try done.
  rewrite <- (take_drop (Z.to_nat r) (qname sc')) at 1. rewrite Htake.
  unfold r at 1. rewrite slice_min, E by lia. by rewrite <- app_assoc.
Qed.

(** The last stage, on the labels of a query. *)
Lemma ingress_resolve_stage cfg dg tx iph udp sc ls t rest s :
  scratch_wf sc -> st_scratch s = [sc] ->
  qname sc = wire_body ls ++ t :: rest -> (length ls <= MAX_LABELS)%nat ->
  saddr iph = dg_saddr dg -> source udp = dg_sport dg -> daddr iph = dg_daddr dg ->
  let rule := lookup_suffix (st_rules s) ls t in
  exists sc', scratch_wf sc' /\
    run (ingress_resolve cfg iph udp (dg_udp_off dg) tx
           (offsets 0 ls, Z.of_nat (length (wire_body ls)) + 1)) s =
    let '(s', act) :=
      if resolve cfg rule =? ACTION_HOST_RESOLVE
      then run (ingress_redirect cfg (query_key dg tx) (dg_daddr dg) (dg_udp_off dg))
             (count [match_metric rule] s)
      else (count [match_metric rule; METRIC_CLUSTER_RESOLVED] s, TC_ACT_OK) in
    (set_scratch [sc'] s', act).
Proof.
  intros [Hq Hlk] Hsc Hw Hn Hsa Hsp Hda rule. destruct sc as [q lk]. cbn [qname lookup_buf] in *.
  destruct (match_suffixes_run (st_rules s) MAX_LABELS 0 ls t rest q lk
    (default_action cfg) s) as (lk'&Hlk'&Hm); try done.
  exists (ScratchBuf q lk'). split; [done|].
  unfold ingress_resolve. unfold run at 1. rewrite run_bind.
  change (Z.of_nat 0) with 0 in Hm. rewrite Hm. change (drop 0 ls) with ls.
  fold rule. unfold query_key. rewrite Hsa, Hsp, Hda.
  destruct rule as [v|]; simpl resolve;
    (destruct (_ =? ACTION_HOST_RESOLVE); [|done]);
    simpl; rewrite run_bind, increment_metric_run;
    change (count ?ms (set_scratch ?x s)) with (set_scratch x (count ms s));
    match goal with |- context [ingress_redirect ?a ?b ?c ?d (set_scratch ?x ?s)] =>
      rewrite (scratch_free (m := ingress_redirect a b c d) x s) end;
    unfold run; by destruct (ingress_redirect _ _ _ _ _) as [? []].
Qed.

Lemma dp_wf_count ms s : dp_wf s -> dp_wf (count ms s).
Proof.
  intros []. split; simpl; try done; [by rewrite length_bump_all|].
  by apply bump_all_u64.
Qed.

(** The ingress program computes its specification; only the scratch slot
    differs. *)
Lemma ingress_refines_spec s :
  dp_wf s ->
  exists sc, scratch_wf sc /\
    run dns_gateway_ingress s =
      (set_scratch [sc] (ingress_spec s).1, (ingress_spec s).2).
Proof.
  intros Hwf. destruct (dp_wf_config s Hwf) as (cfg&Hc&_).
  destruct (dp_wf_scratch s Hwf) as (sc&Hsc&Hscw).
  assert (s = set_scratch [sc] s) as Hs by (rewrite <- Hsc; by destruct s).
  assert (forall ms, count ms s = set_scratch [sc] (count ms s)) as Hcs
    by (intros; rewrite Hs at 1; done).
  unfold ingress_spec. rewrite Hc. simpl. unfold ingress_verdict.
  unfold run, dns_gateway_ingress. rewrite run_bind, increment_metric_run, run_bind.
  rewrite (ingress_config_run _ cfg) by done.
  destruct (negb (bypass cfg =? 0)).
  { exists sc. split; [done|]. rewrite count_app. simpl. by rewrite <- Hcs. }
  rewrite run_bind, ingress_headers_run. simpl data.
  destruct (parse_dgram _) as [dg|] eqn:Hdg; [|exists sc; simpl; by rewrite <- Hcs].
  destruct (_ && _); [|exists sc; simpl; by rewrite <- Hcs].
  rewrite run_bind, increment_metric_run, count_app. simpl app.
  set (d := data (st_skb s)) in *. pose proof (ip_udp_off_range d).
  destruct (dgram_headers d dg Hdg) as (Eoff&Hsa&Hda&Hsp).
  rewrite Eoff in *.
  set (s1 := count [METRIC_TOTAL_PACKETS; METRIC_DNS_QUERIES] s).
  pose proof (ingress_query_stage (st_rules s) dg s1
    (ingress_resolve cfg (iphdr_of_bytes (slice ETH_HLEN sizeof_iphdr d))
       (udphdr_of_bytes (slice (dg_udp_off dg) sizeof_udphdr d)) (dg_udp_off dg))
    ltac:(by apply dp_wf_count) eq_refl ltac:(lia)
    (u32 (dg_udp_off dg + sizeof_udphdr))
    ltac:(unfold sizeof_udphdr, dns_off; apply u32_small; unfold is_u32; lia)) as Hq.
  change (data (st_skb s1)) with d in Hq. fold s1.
  destruct (query_verdict (st_rules s) dg d) as [ms|dg' tx rule].
  { destruct Hq as (sc'&?&->). exists sc'. split; [done|].
    unfold s1. simpl. done. }
  destruct Hq as (sc'&ls&t&rest&Hw'&->&->&Hn&Hqn&->).
  destruct (ingress_resolve_stage cfg dg tx (iphdr_of_bytes (slice ETH_HLEN sizeof_iphdr d))
    (udphdr_of_bytes (slice (dg_udp_off dg) sizeof_udphdr d)) sc' ls t rest
    (set_scratch [sc'] s1)) as (sc''&?&Hres); try done.
  exists sc''. split; [done|]. unfold run in Hres at 1. rewrite Hres.
  change (st_rules (set_scratch _ _)) with (st_rules s). simpl ingress_apply.
  change (count ?ms (set_scratch ?x s1)) with (set_scratch x (count ms s1)).
  unfold s1. rewrite !count_app. simpl app.
  destruct (resolve _ _ =? _); [|done].
  rewrite run_scratch_free by apply _. by destruct (run _ _).
Qed.

Lemma egress_txid_run o s :
  0 <= o ->
  egress_txid o s =
    if o + 12 <=? Z.of_nat (length (data (st_skb s)))
    then (s, Cont (be16_at o (data (st_skb s)))) else (s, Exit TC_ACT_OK).
Proof.
  intros. unfold egress_txid. rewrite load_or_exit by done.
  case_match; [|done]. rewrite be16_at_slice by lia. by rewrite Z.add_0_r.
Qed.

(** The header tests of the egress program, on every state. *)
Lemma egress_staged_run s : run dns_gateway_egress s = egress_staged s.
Proof.
  unfold egress_staged, egress_flow, run, dns_gateway_egress.
  rewrite run_bind, increment_metric_run. set (s1 := count [METRIC_EGRESS_TOTAL] s).
  change (st_config s) with (st_config s1). change (st_skb s) with (st_skb s1).
  rewrite run_bind. unfold lookup_config at 1.
  destruct (st_config s1 !! 0%nat) as [cfg|]; [|done].
  rewrite run_bind, egress_headers_run. set (d := data (st_skb s1)).
  destruct (parse_dgram d) as [dg|] eqn:Hdg; simpl; [|done].
  destruct (parse_dgram_Some _ _ Hdg) as (Hdgv&_&_&_). pose proof (ip_udp_off_range d).
  destruct (iphdr_fields d) as (_&_&Hsa&Hda).
  destruct (udphdr_fields (ip_udp_off d) d ltac:(lia)) as (_&Hdp).
  destruct (_ && _); [|done]. simpl.
  rewrite u32_small by (unfold is_u32, sizeof_udphdr; lia).
  rewrite run_bind, egress_txid_run by (unfold sizeof_udphdr; lia). fold d.
  assert (dns_off dg = ip_udp_off d + sizeof_udphdr) as -> by by rewrite Hdgv.
  destruct (_ <=? _); [|done]. simpl in Hsa, Hda, Hdp. rewrite Hsa, Hda, Hdp, Hdgv. done.
Qed.
End refinement.
