(* ===== verification/Outcomes.v ===== *)
(** * Outcomes of the two programs

    The tails [ingress_redirect] and [egress_restore] and then whole runs, as
    relations between the state before and after, one constructor per way a
    run can end.  The properties of the datapath are read off these. *)

From S2P Require Import Prelude.
From S2P Require Import Types.
From S2P Require Import Kernel.
From S2P Require Import Checksum.
From S2P Require Import NatRewrite.
From S2P Require Import Ingress.
From S2P Require Import Egress.
From S2P Require Import DnsName.
From S2P Require Import QnameProofs.
From S2P Require Import DatapathSpec.

Definition DADDR_OFF : Z := ETH_HLEN + 16.
Definition SADDR_OFF : Z := ETH_HLEN + 12.

Section outcomes.
Context {H : BpfHelpers} {HK : BpfHelpersOk H}.

(** The policy maps, and the number and sizes of per-CPU slots, are kept. *)
Definition same_policy (s s' : dp_state) : Prop :=
  st_config s' = st_config s /\ st_rules s' = st_rules s.

Inductive redirect_outcome (cfg : gateway_config) (key : conntrack_key) (u : Z)
    (s s' : dp_state) : Prop :=
  | redirect_no_entry :
      st_skb s' = st_skb s -> st_ct s' ⊆ st_ct s -> st_metrics s' = st_metrics s ->
      redirect_outcome cfg key u s s'
  | redirect_done :
      nat_rewritten DADDR_OFF u (coredns_ip cfg) (host_resolver_ip cfg)
        (st_skb s) (st_skb s') ->
      st_ct s' !! key =
        Some (ConntrackValue (coredns_ip cfg) 0 (ktime_get_ns (st_kern s)).1) ->
      delete key (st_ct s') ⊆ delete key (st_ct s) ->
      st_metrics s' = bump_all [METRIC_REDIRECTED] (st_metrics s) ->
      redirect_outcome cfg key u s s'
  | redirect_reverted :
      pkt_eqv (st_skb s) (st_skb s') ->
      st_ct s' ⊆ delete key (st_ct s) ->
      st_metrics s' = bump_all [METRIC_NAT_ERROR] (st_metrics s) ->
      redirect_outcome cfg key u s s'
  | redirect_broken :
      nat_smudged DADDR_OFF (st_skb s) (st_skb s') ->
      st_ct s' ⊆ delete key (st_ct s) ->
      st_metrics s' =
        bump_all [METRIC_NAT_ERROR; METRIC_NAT_REVERT_FAIL] (st_metrics s) ->
      redirect_outcome cfg key u s s'.

Lemma ingress_redirect_outcome cfg key uoff s :
  0 <= uoff <= 74 -> nat_site DADDR_OFF (uoff + 6) (coredns_ip cfg) (st_skb s) ->
  exists s', run (ingress_redirect cfg key (coredns_ip cfg) uoff) s = (s', TC_ACT_OK) /\
    same_policy s s' /\ st_scratch s' = st_scratch s /\
    redirect_outcome cfg key (uoff + 6) s s'.
Proof.
  intros Hu Hs. unfold run, ingress_redirect. rewrite run_bind.
  unfold ktime at 1. destruct (ktime_get_ns (st_kern s)) as [t k] eqn:Ht.
  rewrite run_bind. unfold conntrack_update at 1. simpl st_kern. simpl st_ct.
  destruct (ct_update_elem k (st_ct s) key _ BPF_ANY) as [[rc m] k1] eqn:Hup.
  rewrite run_bind. apply ct_update_result in Hup as [[Hrc Hm]|(->&Hm&Hsub)].
  { rewrite (proj2 (Z.ltb_lt rc 0)) by done. simpl. eexists. split; [done|].
    split; [done|]. split; [done|]. by apply redirect_no_entry. }
  simpl. rewrite run_bind, u32_small by (unfold is_u32; lia).
  set (s1 := set_kern k1 _).
  destruct (nat_rewrite_addr_contract DADDR_OFF (uoff + 6) (coredns_ip cfg)
    (host_resolver_ip cfg) s1) as (rc&p'&k'&Hn&Hres); [done|].
  change (ETH_HLEN + 16) with DADDR_OFF. rewrite Hn.
  destruct Hres as [Hres|Hres|Hres]; simpl.
  - eexists. split; [done|]. split; [done|]. split; [done|].
    apply redirect_done; try done. by rewrite Ht.
  - rewrite run_bind. simpl. rewrite run_bind. unfold conntrack_delete at 1. simpl.
    destruct (ct_delete_elem k' m key) as [[rc m'] k2] eqn:Hdel.
    apply ct_delete_result in Hdel as ->.
    eexists. split; [done|]. split; [done|]. split; [done|].
    by apply redirect_reverted.
  - rewrite run_bind. simpl. rewrite run_bind. unfold conntrack_delete at 1. simpl.
    destruct (ct_delete_elem k' m key) as [[rc m'] k2] eqn:Hdel.
    apply ct_delete_result in Hdel as ->.
    eexists. split; [done|]. split; [done|]. split; [done|].
    by apply redirect_broken.
Qed.

(** ** Egress *)

Definition entry_age (s : dp_state) (v : conntrack_value) : Z :=
  u64 ((ktime_get_ns (st_kern s)).1 - timestamp_ns v).

Inductive restore_outcome (key : conntrack_key) (old u : Z) (s s' : dp_state) : Prop :=
  | restore_miss :
      st_ct s !! key = None ->
      st_skb s' = st_skb s -> st_ct s' = st_ct s ->
      st_metrics s' = bump_all [METRIC_EGRESS_CONNTRACK_MISS] (st_metrics s) ->
      restore_outcome key old u s s'
  | restore_stale v :
      st_ct s !! key = Some v -> CONNTRACK_TTL_NS < entry_age s v ->
      st_skb s' = st_skb s -> st_ct s' = delete key (st_ct s) ->
      st_metrics s' = bump_all [METRIC_EGRESS_CONNTRACK_MISS] (st_metrics s) ->
      restore_outcome key old u s s'
  | restore_done v :
      st_ct s !! key = Some v -> entry_age s v <= CONNTRACK_TTL_NS ->
      nat_rewritten SADDR_OFF u old (cv_coredns_ip v) (st_skb s) (st_skb s') ->
      st_ct s' = delete key (st_ct s) ->
      st_metrics s' = bump_all [METRIC_EGRESS_SNAT] (st_metrics s) ->
      restore_outcome key old u s s'
  | restore_reverted v :
      st_ct s !! key = Some v -> entry_age s v <= CONNTRACK_TTL_NS ->
      pkt_eqv (st_skb s) (st_skb s') -> st_ct s' = st_ct s ->
      st_metrics s' = bump_all [METRIC_NAT_ERROR] (st_metrics s) ->
      restore_outcome key old u s s'
  | restore_broken v :
      st_ct s !! key = Some v -> entry_age s v <= CONNTRACK_TTL_NS ->
      nat_smudged SADDR_OFF (st_skb s) (st_skb s') -> st_ct s' = st_ct s ->
      st_metrics s' =
        bump_all [METRIC_NAT_ERROR; METRIC_NAT_REVERT_FAIL] (st_metrics s) ->
      restore_outcome key old u s s'.

Lemma egress_restore_outcome key old uoff s :
  0 <= uoff <= 74 -> nat_site SADDR_OFF (uoff + 6) old (st_skb s) ->
  exists s', run (egress_restore key old uoff) s = (s', TC_ACT_OK) /\
    same_policy s s' /\ st_scratch s' = st_scratch s /\
    restore_outcome key old (uoff + 6) s s'.
Proof.
  intros Hu Hs. unfold run, egress_restore. rewrite run_bind. unfold gets at 1.
  destruct (st_ct s !! key) as [v|] eqn:Hv.
  2:{ eexists. split; [done|]. split; [done|]. split; [done|]. by apply restore_miss. }
  rewrite run_bind. unfold ktime at 1.
  destruct (ktime_get_ns (st_kern s)) as [t k] eqn:Ht.
  assert (entry_age s v = u64 (t - timestamp_ns v)) as <-
    by (unfold entry_age; by rewrite Ht).
  destruct (Z.ltb_spec CONNTRACK_TTL_NS (entry_age s v)).
  { rewrite run_bind. unfold conntrack_delete at 1. simpl.
    destruct (ct_delete_elem k (st_ct s) key) as [[rc m'] k2] eqn:Hdel.
    apply ct_delete_result in Hdel as ->.
    eexists. split; [done|]. split; [done|]. split; [done|]. by eapply restore_stale. }
  rewrite run_bind, u32_small by (unfold is_u32; lia).
  set (s1 := set_kern k s).
  destruct (nat_rewrite_addr_contract SADDR_OFF (uoff + 6) old (cv_coredns_ip v) s1)
    as (rc&p'&k'&Hn&Hres); [done|].
  change (ETH_HLEN + 12) with SADDR_OFF. rewrite Hn.
  destruct Hres as [Hres|Hres|Hres]; simpl.
  - rewrite run_bind. unfold conntrack_delete at 1. simpl.
    destruct (ct_delete_elem k' (st_ct s) key) as [[rc m'] k2] eqn:Hdel.
    apply ct_delete_result in Hdel as ->.
    eexists. split; [done|]. split; [done|]. split; [done|]. by eapply restore_done.
  - eexists. split; [done|]. split; [done|]. split; [done|]. by eapply restore_reverted.
  - eexists. split; [done|]. split; [done|]. split; [done|]. by eapply restore_broken.
Qed.

(** ** Whole runs *)

Lemma ingress_verdict_query cfg rules d dg tx rule :
  ingress_verdict cfg rules d = VQuery dg tx rule ->
  bypass cfg = 0 /\ parse_dgram d = Some dg /\
  dg_daddr dg = coredns_ip cfg /\ dg_dport dg = dns_port cfg /\
  query_verdict rules dg d = VQuery dg tx rule.
Proof.
  unfold ingress_verdict. destruct (Z.eqb_spec (bypass cfg) 0); [|done]. simpl.
  destruct (parse_dgram d) as [dg'|]; [|done].
  destruct (Z.eqb_spec (dg_daddr dg') (coredns_ip cfg)),
    (Z.eqb_spec (dg_dport dg') (dns_port cfg)); simpl; try done.
  destruct (query_verdict rules dg' d) eqn:E; [done|].
  intros [= -> -> ->]. assert (dg = dg') as ->; [|done].
  unfold query_verdict in E. repeat case_match; congruence.
Qed.

Lemma dgram_site_daddr d dg p :
  data p = d -> parse_dgram d = Some dg ->
  0 <= dg_udp_off dg <= 74 /\ dg_udp_off dg = ip_udp_off d /\
  nat_site DADDR_OFF (dg_udp_off dg + 6) (dg_daddr dg) p /\
  nat_site SADDR_OFF (dg_udp_off dg + 6) (dg_saddr dg) p.
Proof.
  intros <- (->&?&Hl&?)%parse_dgram_Some. pose proof (ip_udp_off_range (data p)).
  simpl. unfold DADDR_OFF, SADDR_OFF, ip_udp_off, ETH_HLEN in *.
  split_and!; try lia; split; try done; try (unfold in_range); auto; try lia.
Qed.

Inductive ingress_outcome (cfg : gateway_config) (s s' : dp_state) : Prop :=
  | ingress_passed ms :
      ingress_verdict cfg (st_rules s) (data (st_skb s)) = VPass ms ->
      st_skb s' = st_skb s -> st_ct s' = st_ct s ->
      st_metrics s' = bump_all (METRIC_TOTAL_PACKETS :: ms) (st_metrics s) ->
      ingress_outcome cfg s s'
  | ingress_kept dg tx rule :
      ingress_verdict cfg (st_rules s) (data (st_skb s)) = VQuery dg tx rule ->
      resolve cfg rule <> ACTION_HOST_RESOLVE ->
      st_skb s' = st_skb s -> st_ct s' = st_ct s ->
      st_metrics s' = bump_all [METRIC_TOTAL_PACKETS; METRIC_DNS_QUERIES;
        match_metric rule; METRIC_CLUSTER_RESOLVED] (st_metrics s) ->
      ingress_outcome cfg s s'
  | ingress_host dg tx rule :
      ingress_verdict cfg (st_rules s) (data (st_skb s)) = VQuery dg tx rule ->
      resolve cfg rule = ACTION_HOST_RESOLVE ->
      redirect_outcome cfg (query_key dg tx) (dg_udp_off dg + 6)
        (count [METRIC_TOTAL_PACKETS; METRIC_DNS_QUERIES; match_metric rule] s) s' ->
      ingress_outcome cfg s s'.

Lemma redirect_outcome_scratch cfg key u s s' x :
  redirect_outcome cfg key u s s' -> redirect_outcome cfg key u s (set_scratch x s').
Proof.
  intros [].
  - by apply redirect_no_entry.
  - by apply redirect_done.
  - by apply redirect_reverted.
  - by apply redirect_broken.
Qed.

Lemma ingress_run_outcome s cfg :
  dp_wf s -> st_config s = [cfg] ->
  exists s', run dns_gateway_ingress s = (s', TC_ACT_OK) /\ same_policy s s' /\
    (exists sc, st_scratch s' = [sc] /\ scratch_wf sc) /\ ingress_outcome cfg s s'.
Proof.
  intros Hwf Hc. destruct (ingress_refines_spec s Hwf) as (sc&Hsc&->).
  unfold ingress_spec. rewrite Hc. simpl.
  destruct (ingress_verdict _ _ _) as [ms|dg tx rule] eqn:Hv; simpl.
  { eexists. split; [done|]. split; [done|]. split; [by eexists|].
    by eapply ingress_passed. }
  destruct (Z.eqb_spec (resolve cfg rule) ACTION_HOST_RESOLVE) as [Hr|Hr].
  - destruct (ingress_verdict_query _ _ _ _ _ _ Hv) as (_&Hdg&Hda&_&_).
    destruct (dgram_site_daddr _ _ (st_skb s) eq_refl Hdg) as (?&_&Hsite&_).
    rewrite Hda in *.
    set (s1 := count [METRIC_TOTAL_PACKETS; METRIC_DNS_QUERIES; match_metric rule] s).
    destruct (ingress_redirect_outcome cfg (query_key dg tx) (dg_udp_off dg) s1)
      as (s'&->&Hpol&_&Hout); [done..|].
    eexists. split; [done|]. split; [done|]. split; [by eexists|].
    eapply ingress_host; [done..|]. by apply redirect_outcome_scratch.
  - eexists. split; [done|]. split; [done|]. split; [by eexists|].
    by eapply ingress_kept.
Qed.

Inductive egress_outcome (cfg : gateway_config) (s s' : dp_state) : Prop :=
  | egress_passed :
      egress_flow cfg (data (st_skb s)) = None ->
      st_skb s' = st_skb s -> st_ct s' = st_ct s ->
      st_metrics s' = bump_all [METRIC_EGRESS_TOTAL] (st_metrics s) ->
      egress_outcome cfg s s'
  | egress_reply dg key :
      egress_flow cfg (data (st_skb s)) = Some (dg, key) ->
      restore_outcome key (host_resolver_ip cfg) (dg_udp_off dg + 6)
        (count [METRIC_EGRESS_TOTAL] s) s' ->
      egress_outcome cfg s s'.

Lemma egress_flow_Some cfg d dg key :
  egress_flow cfg d = Some (dg, key) ->
  parse_dgram d = Some dg /\ dg_saddr dg = host_resolver_ip cfg /\
  dg_sport dg = dns_port cfg /\
  key = ConntrackKey (dg_daddr dg) (dg_dport dg) (be16_at (dns_off dg) d).
Proof.
  unfold egress_flow. destruct (parse_dgram d) as [dg'|]; [|done]. simpl.
  case_match eqn:E; [|done]. intros [= -> <-].
  rewrite !andb_true_iff, !Z.eqb_eq in E. destruct E as [[? ?] _]. by split_and!.
Qed.

Lemma egress_run_outcome s cfg :
  st_config s = [cfg] ->
  exists s', run dns_gateway_egress s = (s', TC_ACT_OK) /\ same_policy s s' /\
    st_scratch s' = st_scratch s /\ egress_outcome cfg s s'.
Proof.
  intros Hc. rewrite egress_staged_run. unfold egress_staged. rewrite Hc. simpl.
  destruct (egress_flow cfg (data (st_skb s))) as [[dg key]|] eqn:Hf.
  - destruct (egress_flow_Some _ _ _ _ Hf) as (Hdg&Hsa&_&_).
    destruct (dgram_site_daddr _ _ (st_skb s) eq_refl Hdg) as (?&_&_&Hsite).
    destruct (egress_restore_outcome key (dg_saddr dg) (dg_udp_off dg)
      (count [METRIC_EGRESS_TOTAL] s)) as (s'&->&?&?&Hout); [done..|].
    rewrite Hsa in Hout. eexists. split_and!; try done. by eapply egress_reply.
  - eexists. split_and!; try done. by apply egress_passed.
Qed.
End outcomes.

(** ** Progress: on a healthy kernel the tails complete *)

Section progress.
Context {H : BpfHelpers} {HK : BpfHelpersOk H}.
Context (up : kern -> Prop) {Hup : BpfHelpersUp H up}.

Lemma nat_rewrite_addr_up_run a u old new s :
  up (st_kern s) -> nat_site a u old (st_skb s) ->
  exists p' k', nat_rewrite_addr a u old new s = (with_packet k' p' s, Cont 0).
Proof.
  intros Hk Hs. destruct (nat_rewrite_addr_up up a u old new s Hup Hk Hs) as [s' E].
  destruct (nat_rewrite_addr_contract a u old new s Hs) as (rc&p'&k'&E'&_).
  rewrite E in E'. injection E' as -> <-. by exists p', k'.
Qed.

Lemma ingress_redirect_up cfg key old uoff s :
  up (st_kern s) -> 0 <= uoff <= 74 -> nat_site DADDR_OFF (uoff + 6) old (st_skb s) ->
  st_metrics (run (ingress_redirect cfg key old uoff) s).1 =
    bump_all [METRIC_REDIRECTED] (st_metrics s).
Proof.
  intros Hk Hu Hs. unfold run, ingress_redirect. rewrite run_bind.
  unfold ktime at 1. apply up_ktime in Hk. destruct (ktime_get_ns (st_kern s)) as [t k].
  rewrite run_bind. unfold conntrack_update at 1. simpl st_kern. simpl st_ct.
  destruct (ct_update_elem k (st_ct s) key _ BPF_ANY) as [[rc m] k1] eqn:E.
  apply up_ct_update in E as [-> Hk1]; [|done]. simpl. rewrite run_bind.
  rewrite u32_small by (unfold is_u32; lia). change (ETH_HLEN + 16) with DADDR_OFF.
  set (s1 := set_kern k1 _). unfold mret, prog_ret at 1. cbv beta iota.
  rewrite run_bind.
  destruct (nat_rewrite_addr_up_run DADDR_OFF (uoff + 6) old (host_resolver_ip cfg) s1)
    as (p'&k'&->); done.
Qed.

Lemma egress_restore_up key old uoff s v :
  up (st_kern s) -> 0 <= uoff <= 74 -> nat_site SADDR_OFF (uoff + 6) old (st_skb s) ->
  st_ct s !! key = Some v -> entry_age s v <= CONNTRACK_TTL_NS ->
  st_metrics (run (egress_restore key old uoff) s).1 =
    bump_all [METRIC_EGRESS_SNAT] (st_metrics s).
Proof.
  intros Hk Hu Hs Hv Hage. unfold run, egress_restore. rewrite run_bind. unfold gets at 1.
  rewrite Hv, run_bind. unfold ktime at 1. unfold entry_age in *. apply up_ktime in Hk.
  destruct (ktime_get_ns (st_kern s)) as [t k]. simpl in *.
  destruct (Z.ltb_spec CONNTRACK_TTL_NS (u64 (t - timestamp_ns v))); [lia|].
  rewrite run_bind, u32_small by (unfold is_u32; lia). change (ETH_HLEN + 12) with SADDR_OFF.
  destruct (nat_rewrite_addr_up_run SADDR_OFF (uoff + 6) old (cv_coredns_ip v)
    (set_kern k s)) as (p'&k'&->); [done..|].
  simpl. rewrite run_bind. unfold conntrack_delete.
  by destruct (ct_delete_elem _ _ _) as [[]].
Qed.
End progress.
