(* ===== verification/Reports.v ===== *)
(** * What a run counts, and what it did

    Each run is described by the counters it increments together with its
    effect on the packet and on [conntrack_map], one constructor per way a run
    can end.  The properties of both programs are read off these reports. *)

From S2P Require Import Prelude.
From S2P Require Import Types.
From S2P Require Import Kernel.
From S2P Require Import Checksum.
From S2P Require Import NatRewrite.
From S2P Require Import Ingress.
From S2P Require Import Egress.
From S2P Require Import DnsName.
From S2P Require Import QnameProofs.
From S2P Require Import DatapathSpec.
From S2P Require Import Outcomes.

(** ** Counters *)

Section counted.
Context {H : BpfHelpers}.

(** The run from [s] to [s'] incremented the counter [m]. *)
Definition counted (m : metric_id) (s s' : dp_state) : Prop :=
  metric (st_metrics s') m <> metric (st_metrics s) m.

#[export] Instance counted_dec m s s' : Decision (counted m s s').
Proof. unfold counted. apply _. Defined.

(** The run incremented the counters [ms], once each, and no other. *)
Definition counts (ms : list metric_id) (s s' : dp_state) : Prop :=
  NoDup ms /\ st_metrics s' = bump_all ms (st_metrics s).

Lemma filter_eq_NoDup (m : metric_id) ms :
  NoDup ms -> length (filter (.= m) ms) = if decide (m ∈ ms) then 1%nat else 0%nat.
Proof.
  induction 1 as [|m' ms Hm _ IH]; [done|]. rewrite filter_cons.
  destruct (decide (m' = m)) as [<-|E]; rewrite ?length_cons, IH.
  - by rewrite decide_False, decide_True by (done || left).
  - apply decide_ext. rewrite elem_of_cons. split; [by right|by intros [->|]].
Qed.

Lemma metric_u64 s m : dp_wf s -> is_u64 (metric (st_metrics s) m).
Proof.
  intros [_ _ _ Hl Hm _ _]. unfold metric. pose proof (metric_index_lt m) as Hi.
  rewrite <- Hl in Hi. destruct (lookup_lt_is_Some_2 _ _ Hi) as [v Hv]. rewrite Hv.
  by eapply Forall_lookup_1 in Hm.
Qed.

Lemma counts_metric ms s s' m :
  dp_wf s -> counts ms s s' ->
  metric (st_metrics s') m =
    if decide (m ∈ ms) then u64 (metric (st_metrics s) m + 1)
    else metric (st_metrics s) m.
Proof.
  intros Hwf [Hnd ->]. pose proof (metric_u64 s m Hwf).
  rewrite metric_bump_all by (done || apply Hwf). rewrite filter_eq_NoDup by done.
  case_decide; [done|]. rewrite Z.add_0_r. by apply u64_small.
Qed.

Lemma counted_iff ms s s' m :
  dp_wf s -> counts ms s s' -> counted m s s' <-> m ∈ ms.
Proof.
  intros Hwf Hc. unfold counted. rewrite (counts_metric ms s s') by done.
  pose proof (metric_u64 s m Hwf) as Hu. unfold is_u64, u64 in *.
  case_decide as Hm; [|by split]. split; [done|]. intros _.
  Z.div_mod_to_equations. lia.
Qed.
End counted.

(** ** Reports *)

Section reports.
Context {H : BpfHelpers} {HK : BpfHelpersOk H}.

Definition query_verdict_of (cfg : gateway_config) (s : dp_state) : verdict :=
  ingress_verdict cfg (st_rules s) (data (st_skb s)).

(** Time stamp of an entry the run records. *)
Definition now (s : dp_state) : Z := (ktime_get_ns (st_kern s)).1.

Definition ct_entry (cfg : gateway_config) (s : dp_state) : conntrack_value :=
  ConntrackValue (coredns_ip cfg) 0 (now s).

Inductive ingress_report (cfg : gateway_config) (s s' : dp_state)
    : list metric_id -> Prop :=
  | rep_passed ms :
      query_verdict_of cfg s = VPass ms ->
      st_skb s' = st_skb s -> st_ct s' = st_ct s ->
      ingress_report cfg s s' (METRIC_TOTAL_PACKETS :: ms)
  | rep_cluster dg tx rule :
      query_verdict_of cfg s = VQuery dg tx rule ->
      resolve cfg rule <> ACTION_HOST_RESOLVE ->
      st_skb s' = st_skb s -> st_ct s' = st_ct s ->
      ingress_report cfg s s' [METRIC_TOTAL_PACKETS; METRIC_DNS_QUERIES;
        match_metric rule; METRIC_CLUSTER_RESOLVED]
  | rep_no_entry dg tx rule :
      query_verdict_of cfg s = VQuery dg tx rule ->
      resolve cfg rule = ACTION_HOST_RESOLVE ->
      st_skb s' = st_skb s -> st_ct s' ⊆ st_ct s ->
      ingress_report cfg s s' [METRIC_TOTAL_PACKETS; METRIC_DNS_QUERIES;
        match_metric rule]
  | rep_redirected dg tx rule :
      query_verdict_of cfg s = VQuery dg tx rule ->
      resolve cfg rule = ACTION_HOST_RESOLVE ->
      nat_rewritten DADDR_OFF (dg_udp_off dg + 6) (coredns_ip cfg)
        (host_resolver_ip cfg) (st_skb s) (st_skb s') ->
      st_ct s' !! query_key dg tx = Some (ct_entry cfg s) ->
      delete (query_key dg tx) (st_ct s') ⊆ delete (query_key dg tx) (st_ct s) ->
      ingress_report cfg s s' [METRIC_TOTAL_PACKETS; METRIC_DNS_QUERIES;
        match_metric rule; METRIC_REDIRECTED]
  | rep_reverted dg tx rule :
      query_verdict_of cfg s = VQuery dg tx rule ->
      resolve cfg rule = ACTION_HOST_RESOLVE ->
      pkt_eqv (st_skb s) (st_skb s') ->
      st_ct s' ⊆ delete (query_key dg tx) (st_ct s) ->
      ingress_report cfg s s' [METRIC_TOTAL_PACKETS; METRIC_DNS_QUERIES;
        match_metric rule; METRIC_NAT_ERROR]
  | rep_broken dg tx rule :
      query_verdict_of cfg s = VQuery dg tx rule ->
      resolve cfg rule = ACTION_HOST_RESOLVE ->
      nat_smudged DADDR_OFF (st_skb s) (st_skb s') ->
      st_ct s' ⊆ delete (query_key dg tx) (st_ct s) ->
      ingress_report cfg s s' [METRIC_TOTAL_PACKETS; METRIC_DNS_QUERIES;
        match_metric rule; METRIC_NAT_ERROR; METRIC_NAT_REVERT_FAIL].

(** The counters of a packet that is not a resolved query. *)
Lemma ingress_verdict_pass cfg rules d ms :
  ingress_verdict cfg rules d = VPass ms ->
  ms = [] \/ ms = [METRIC_BYPASS_ACTIVE] \/ ms = [METRIC_DNS_QUERIES] \/
  ms = [METRIC_DNS_QUERIES; METRIC_PARSE_ERROR].
Proof.
  unfold ingress_verdict, query_verdict. intros.
  repeat case_match; naive_solver.
Qed.

Ltac reported := eexists _, _; split; [done|]; split; [done|]; split; [done|].

Ltac nodup rule := split; [destruct rule; by apply (bool_decide_unpack _)|done].

Lemma ingress_run_report s cfg :
  dp_wf s -> st_config s = [cfg] ->
  exists s' ms, run dns_gateway_ingress s = (s', TC_ACT_OK) /\ same_policy s s' /\
    (exists sc, st_scratch s' = [sc] /\ scratch_wf sc) /\
    counts ms s s' /\ ingress_report cfg s s' ms.
Proof.
  intros Hwf Hc.
  destruct (ingress_run_outcome s cfg Hwf Hc) as (s'&Hrun&Hp&Hsc&[ms Hv|dg tx rule Hv|dg tx rule Hv Hr Ho]).
  - reported. split; [|by apply rep_passed]. split; [|done].
    apply ingress_verdict_pass in Hv as [->|[->|[->| ->]]]; by apply (bool_decide_unpack _).
  - reported. split; [|by eapply rep_cluster]. nodup rule.
  - destruct Ho; simpl in *; reported.
    + split; [|by eapply rep_no_entry]. nodup rule.
    + split; [|by eapply rep_redirected]. nodup rule.
    + split; [|by eapply rep_reverted]. nodup rule.
    + split; [|by eapply rep_broken]. nodup rule.
Qed.

Inductive egress_report (cfg : gateway_config) (s s' : dp_state)
    : list metric_id -> Prop :=
  | rep_other :
      egress_flow cfg (data (st_skb s)) = None ->
      st_skb s' = st_skb s -> st_ct s' = st_ct s ->
      egress_report cfg s s' [METRIC_EGRESS_TOTAL]
  | rep_miss dg key :
      egress_flow cfg (data (st_skb s)) = Some (dg, key) ->
      st_ct s !! key = None -> st_skb s' = st_skb s -> st_ct s' = st_ct s ->
      egress_report cfg s s' [METRIC_EGRESS_TOTAL; METRIC_EGRESS_CONNTRACK_MISS]
  | rep_stale dg key v :
      egress_flow cfg (data (st_skb s)) = Some (dg, key) ->
      st_ct s !! key = Some v -> CONNTRACK_TTL_NS < entry_age s v ->
      st_skb s' = st_skb s -> st_ct s' = delete key (st_ct s) ->
      egress_report cfg s s' [METRIC_EGRESS_TOTAL; METRIC_EGRESS_CONNTRACK_MISS]
  | rep_restored dg key v :
      egress_flow cfg (data (st_skb s)) = Some (dg, key) ->
      st_ct s !! key = Some v -> entry_age s v <= CONNTRACK_TTL_NS ->
      nat_rewritten SADDR_OFF (dg_udp_off dg + 6) (host_resolver_ip cfg)
        (cv_coredns_ip v) (st_skb s) (st_skb s') ->
      st_ct s' = delete key (st_ct s) ->
      egress_report cfg s s' [METRIC_EGRESS_TOTAL; METRIC_EGRESS_SNAT]
  | rep_unrestored dg key v :
      egress_flow cfg (data (st_skb s)) = Some (dg, key) ->
      st_ct s !! key = Some v -> entry_age s v <= CONNTRACK_TTL_NS ->
      pkt_eqv (st_skb s) (st_skb s') -> st_ct s' = st_ct s ->
      egress_report cfg s s' [METRIC_EGRESS_TOTAL; METRIC_NAT_ERROR]
  | rep_smudged dg key v :
      egress_flow cfg (data (st_skb s)) = Some (dg, key) ->
      st_ct s !! key = Some v -> entry_age s v <= CONNTRACK_TTL_NS ->
      nat_smudged SADDR_OFF (st_skb s) (st_skb s') -> st_ct s' = st_ct s ->
      egress_report cfg s s'
        [METRIC_EGRESS_TOTAL; METRIC_NAT_ERROR; METRIC_NAT_REVERT_FAIL].

Lemma egress_run_report s cfg :
  st_config s = [cfg] ->
  exists s' ms, run dns_gateway_egress s = (s', TC_ACT_OK) /\ same_policy s s' /\
    st_scratch s' = st_scratch s /\ counts ms s s' /\ egress_report cfg s s' ms.
Proof.
  intros Hc.
  destruct (egress_run_outcome s cfg Hc) as (s'&Hrun&Hp&Hsc&[Hf|dg key Hf Ho]).
  - reported. split; [|by apply rep_other]. split; [by apply (bool_decide_unpack _)|done].
  - destruct Ho; simpl in *; reported.
    + split; [|by eapply rep_miss]. split; [by apply (bool_decide_unpack _)|done].
    + split; [|by eapply rep_stale]. split; [by apply (bool_decide_unpack _)|done].
    + split; [|by eapply rep_restored]. split; [by apply (bool_decide_unpack _)|done].
    + split; [|by eapply rep_unrestored]. split; [by apply (bool_decide_unpack _)|done].
    + split; [|by eapply rep_smudged]. split; [by apply (bool_decide_unpack _)|done].
Qed.
End reports.
