(* ===== verification/Samples.v ===== *)
(** * Concrete packets and states

    The query and reply packets of the repository's integration tests, as
    byte lists, and the states the witnesses run on (over [RefKernel]). *)

From stdpp Require Import strings.
From S2P Require Import Prelude.
From S2P Require Import Types.
From S2P Require Import Kernel.
From S2P Require Import Checksum.
From S2P Require Import RefKernel.
From S2P Require Import DnsName.
From S2P Require Import QnameProofs.
From S2P Require Import DatapathSpec.

Definition bytes_of (s : String.string) : list byte := String.list_byte_of_string s.
Definition name_of (ss : list String.string) : name := map bytes_of ss.
Definition z2b (zs : list Z) : list byte := map byte_of_Z zs.
Definition be2 (z : Z) : list byte := z2b [z / 256; z].

(** Header with its checksum filled in. *)
Definition ip_header (src dst : list Z) (len : Z) : list byte :=
  let h c := z2b [0x45; 0] ++ be2 len ++ z2b [0xab; 0xcd; 0; 0; 64; 17] ++ le_split 2 c ++
             z2b src ++ z2b dst in
  h ((- words_sum (h 0)) mod 65535).

Definition eth_header : list byte :=
  z2b [2; 0; 0; 0; 0; 1; 2; 0; 0; 0; 0; 2] ++ be2 0x0800.

Definition udp_packet (src dst : list Z) (sport dport : Z) (payload : list byte)
    : list byte :=
  let ulen := 8 + Z.of_nat (length payload) in
  eth_header ++ ip_header src dst (20 + ulen) ++
  be2 sport ++ be2 dport ++ be2 ulen ++ z2b [0; 0] ++ payload.

(** A one-question message: header flags, then the name, type A, class IN. *)
Definition dns_message (id flags : Z) (ls : name) : list byte :=
  be2 id ++ be2 flags ++ be2 1 ++ z2b [0; 0; 0; 0; 0; 0] ++ wire ls ++ z2b [0; 1; 0; 1].

Definition COREDNS : list Z := [10; 100; 0; 10].
Definition RESOLVER : list Z := [169; 254; 169; 253].
Definition POD : list Z := [10; 0; 5; 23].
Definition addr (a : list Z) : Z := le_combine (z2b a).

Definition query_packet (id : Z) (ls : name) : list byte :=
  udp_packet POD COREDNS 43465 53 (dns_message id 0x0100 ls).
Definition reply_packet (id : Z) (ls : name) : list byte :=
  udp_packet RESOLVER POD 53 43465 (dns_message id 0x8180 ls).

Definition sample_config (default : Z) : gateway_config :=
  GatewayConfig (addr COREDNS) (addr RESOLVER) (le_combine (be2 53)) 0 default.

Definition bypassed (c : gateway_config) : gateway_config :=
  GatewayConfig (coredns_ip c) (host_resolver_ip c) (dns_port c) 1 (default_action c).

Definition sample_state (cfg : gateway_config) (rules : rules_map) (ct : ct_map)
    (p : list byte) (fl : list bool) (t : Z) : dp_state :=
  DpState (Skb p false) [cfg] rules ct (replicate METRIC__MAX 0)
    [ScratchBuf (replicate KEY_LEN Byte.xff) (replicate KEY_LEN Byte.xff)]
    (RefKern fl t).

Definition S3 : name := name_of ["s3"; "amazonaws"; "com"]%string.
Definition FOO_S3 : name := name_of ["foo"; "s3"; "amazonaws"; "com"]%string.

Definition s3_rules : rules_map :=
  {[ name_key S3 := SuffixValue ACTION_HOST_RESOLVE 0 ]}.

Definition s3_query_state (fl : list bool) : dp_state :=
  sample_state (sample_config ACTION_CLUSTER_RESOLVE) s3_rules ∅
    (query_packet 0x8a3f FOO_S3) fl 1000.

(** A reverse lookup of an IPv6 address, cut to twelve labels. *)
Definition IP6_ARPA : name := name_of ["ip6"; "arpa"]%string.
Definition REVERSE_NAME : name :=
  name_of ["1"; "0"; "0"; "0"; "8"; "b"; "d"; "0"; "1"; "2"]%string ++ IP6_ARPA.

(** Host-resolve by default, reverse lookups kept in the cluster. *)
Definition arpa_rules : rules_map :=
  {[ name_key IP6_ARPA := SuffixValue ACTION_CLUSTER_RESOLVE 0 ]}.

Definition default_host_state (rules : rules_map) (ls : name) : dp_state :=
  sample_state (sample_config ACTION_HOST_RESOLVE) rules ∅ (query_packet 7 ls) [] 1000.

Definition MIXED_S3 : name := name_of ["foo"; "s3"; "amazonaws"; "Com"]%string.
Definition LONG_NAME : name :=
  [replicate 63 Byte.x61; replicate 62 Byte.x62; bytes_of "com"%string].

Definition query_dgram : dgram := Dgram (addr POD) (addr COREDNS)
  (le_combine (be2 43465)) (le_combine (be2 53)) 34.

(** ** Deciding well-formedness *)

Definition inb (z n : Z) : bool := (0 <=? z) && (z <? 2 ^ n).

Definition config_wfb (c : gateway_config) : bool :=
  inb (coredns_ip c) 32 && inb (host_resolver_ip c) 32 && inb (dns_port c) 16 &&
  inb (bypass c) 16 && inb (default_action c) 32.

Definition scratch_wfb (b : scratch_buf) : bool :=
  (length (qname b) =? 128)%nat && (length (lookup_buf b) =? 128)%nat.

Definition dp_wfb (s : dp_state) : bool :=
  (skb_len (st_skb s) <? 2 ^ 32) &&
  (length (st_config s) =? 1)%nat && forallb config_wfb (st_config s) &&
  (length (st_metrics s) =? METRIC__MAX)%nat && forallb (fun z => inb z 64) (st_metrics s) &&
  (length (st_scratch s) =? 1)%nat && forallb scratch_wfb (st_scratch s).

Lemma inb_true z n : inb z n = true <-> 0 <= z < 2 ^ n.
Proof. unfold inb. rewrite andb_true_iff, Z.leb_le, Z.ltb_lt. done. Qed.

Lemma config_wfb_sound c : config_wfb c = true -> gateway_config_wf c.
Proof.
  unfold config_wfb, gateway_config_wf, is_u32, is_u16.
  rewrite !andb_true_iff, !inb_true. tauto.
Qed.

Lemma Forall_forallb {A} (P : A -> Prop) (f : A -> bool) l :
  (forall x, f x = true -> P x) -> forallb f l = true -> Forall P l.
Proof.
  intros Hf. induction l as [|x l IH]; simpl; [done|].
  rewrite andb_true_iff. intros [? ?]. constructor; auto.
Qed.

Lemma dp_wfb_sound s : dp_wfb s = true -> dp_wf s.
Proof.
  unfold dp_wfb. rewrite !andb_true_iff, Z.ltb_lt, !Nat.eqb_eq.
  intros [[[[[[? ?] ?] ?] ?] ?] ?]. split; try done.
  - eapply Forall_forallb; [|done]. apply config_wfb_sound.
  - eapply Forall_forallb; [|done]. intros x. apply inb_true.
  - eapply Forall_forallb; [|done]. intros x. unfold scratch_wfb, scratch_wf.
    rewrite andb_true_iff, !Nat.eqb_eq. done.
Qed.
