(* ===== verification/NatProps.v ===== *)
(** * Properties of [nat_rewrite_addr] *)

From S2P Require Import Prelude.
From S2P Require Import Types.
From S2P Require Import Kernel.
From S2P Require Import Checksum.
From S2P Require Import NatRewrite.
From S2P Require Import RefKernel.
From S2P Require Import Samples.

Section nat.
Context {H : BpfHelpers} {HK : BpfHelpersOk H}.

(** C22. The rewrite is atomic up to a reported failure: 0 means the address
    is replaced and both checksums are correct exactly when they were (the UDP
    one unless it is still to be computed by the device); -1
    means the packet is as it was, up to the representation of a zero IP
    checksum, and byte for byte when that field is neither zero; -2 means the
    address or the IP checksum may have been left changed, and nothing else. *)
Theorem nat_rewrite_atomic a u old new s :
  nat_site a u old (st_skb s) -> is_u32 new ->
  20 <= ip_hdr_len (data (st_skb s)) -> u = ip_udp_off (data (st_skb s)) + 6 ->
  exists rc p k, nat_rewrite_addr a u old new s = (with_packet k p s, Cont rc) /\
    ((rc = 0 /\ readdressed a new (st_skb s) p) \/
     (rc = -1 /\ pkt_eqv (st_skb s) p /\
      (field IP_CSUM_OFF 2 (data (st_skb s)) <> 0 ->
       field IP_CSUM_OFF 2 (data (st_skb s)) <> 0xffff -> p = st_skb s)) \/
     (rc = -2 /\ nat_smudged a (st_skb s) p)).
Proof.
  intros Hs Hn Hl ->. destruct (nat_rewrite_addr_contract _ _ _ new s Hs)
    as (rc&p&k&E&Hres). exists rc, p, k. split; [done|].
  destruct Hres as [Hr|Hr|Hr].
  - left. split; [done|]. by eapply rewritten_readdressed.
  - right; left. split_and!; try done. intros. symmetry. eapply pkt_eqv_exact; try done.
    apply site_in_range in Hs as ((?&?&?)&_&_). change IP_CSUM_OFF with 24 in *. lia.
  - by right; right.
Qed.

(** On a healthy kernel the rewrite never fails. *)
Theorem nat_rewrite_completes up a u old new s :
  BpfHelpersUp H up -> up (st_kern s) -> nat_site a u old (st_skb s) ->
  exists p k, nat_rewrite_addr a u old new s = (with_packet k p s, Cont 0).
Proof.
  intros Hup Hk Hs. destruct (nat_rewrite_addr_up up a u old new s Hup Hk Hs) as [s' E].
  destruct (nat_rewrite_addr_contract a u old new s Hs) as (rc&p&k&E'&_).
  rewrite E in E'. injection E' as -> <-. by exists p, k.
Qed.
End nat.

Lemma s3_site fl :
  nat_site 30 40 (addr COREDNS) (st_skb (s3_query_state fl)).
Proof. split; [by right|lia|by vm_compute|by vm_compute]. Qed.

(** The UDP checksum update fails and both earlier steps are undone. *)
Lemma nat_rewrite_atomic_witness :
  let s := s3_query_state [false; false; true] in
  exists p k, nat_rewrite_addr 30 40 (addr COREDNS) (addr RESOLVER) s =
    (with_packet k p s, Cont (-1)) /\ p = st_skb s.
Proof.
  destruct (nat_rewrite_atomic 30 40 (addr COREDNS) (addr RESOLVER)
    (s3_query_state [false; false; true]))
    as (rc&p&k&E&[[-> _]|[(->&_&Hp)|[-> _]]]);
    [by apply s3_site|by vm_compute|by vm_compute|by vm_compute|..].
  - exfalso. apply (f_equal snd) in E. vm_compute in E. discriminate.
  - exists p, k. split; [done|]. by apply Hp; vm_compute.
  - exfalso. apply (f_equal snd) in E. vm_compute in E. discriminate.
Defined.

Lemma nat_rewrite_completes_witness :
  exists p k, nat_rewrite_addr 30 40 (addr COREDNS) (addr RESOLVER) (s3_query_state []) =
    (with_packet k p (s3_query_state []), Cont 0).
Proof. by apply (nat_rewrite_completes (H := RefKernel) no_faults); [apply _|..|apply s3_site]. Defined.
