(* ===== verification/IngressProps.v ===== *)
(** * Properties of the ingress program

    Refinement of the specification, integrity of the packet and of
    [conntrack_map], and independence from what earlier packets left behind. *)

From S2P Require Import Prelude.
From S2P Require Import Types.
From S2P Require Import Kernel.
From S2P Require Import Checksum.
From S2P Require Import NatRewrite.
From S2P Require Import Ingress.
From S2P Require Import Egress.
From S2P Require Import DnsName.
From S2P Require Import QnameProofs.
From S2P Require Import DatapathSpec.
From S2P Require Import Outcomes.
From S2P Require Import Reports.
From S2P Require Import RefKernel.
From S2P Require Import Samples.

(** ** States equal up to the contents of the scratch slot *)

Section similar.
Context {H : BpfHelpers}.

Definition same_but_scratch (s s' : dp_state) : Prop :=
  set_scratch [] s = set_scratch [] s'.

#[export] Instance same_but_scratch_equivalence : Equivalence same_but_scratch.
Proof. unfold same_but_scratch. split; congruence. Qed.

#[export] Instance set_scratch_proper l :
  Proper (same_but_scratch ==> same_but_scratch) (set_scratch l).
Proof. unfold same_but_scratch, set_scratch. intros [] [] E; simpl in *. by simplify_eq. Qed.

Lemma set_scratch_similar l s : same_but_scratch (set_scratch l s) s.
Proof. done. Qed.

(** The specification does not read the slot. *)
Lemma ingress_spec_scratch l s :
  ingress_spec (set_scratch l s) = (set_scratch l (ingress_spec s).1, (ingress_spec s).2).
Proof.
  unfold ingress_spec. simpl. destruct (st_config s !! 0%nat) as [cfg|]; [|done].
  unfold ingress_apply. destruct (ingress_verdict _ _ _) as [ms|dg tx rule]; [done|].
  destruct (_ =? _); [|done].
  change (count ?ms (set_scratch l s)) with (set_scratch l (count ms s)).
  by rewrite run_scratch_free by apply _.
Qed.
End similar.

(** ** Reading the reports *)

Section helpers.
Context {H : BpfHelpers} {HK : BpfHelpersOk H}.

Lemma verdict_site cfg s dg tx rule :
  query_verdict_of cfg s = VQuery dg tx rule ->
  let d := data (st_skb s) in
  dg_udp_off dg = ip_udp_off d /\ 20 <= ip_hdr_len d /\
  dg_daddr dg = coredns_ip cfg /\
  nat_site DADDR_OFF (dg_udp_off dg + 6) (coredns_ip cfg) (st_skb s).
Proof.
  intros (_&Hdg&Hda&_&_)%ingress_verdict_query d.
  destruct (dgram_site_daddr _ _ (st_skb s) eq_refl Hdg) as (?&->&Hs&_).
  apply parse_dgram_Some in Hdg as (_&?&?&?). by rewrite Hda in Hs.
Qed.

Lemma redirected_readdressed cfg s dg tx rule p' :
  gateway_config_wf cfg -> query_verdict_of cfg s = VQuery dg tx rule ->
  nat_rewritten DADDR_OFF (dg_udp_off dg + 6) (coredns_ip cfg)
    (host_resolver_ip cfg) (st_skb s) p' ->
  readdressed DADDR_OFF (host_resolver_ip cfg) (st_skb s) p'.
Proof.
  intros (_&Hh&_) (Hoff&Hl&_&Hs)%verdict_site Hr. rewrite Hoff in *.
  by eapply rewritten_readdressed.
Qed.

Lemma same_policy_wf s s' :
  dp_wf s -> same_policy s s' -> skb_len (st_skb s') = skb_len (st_skb s) ->
  (exists ms, st_metrics s' = bump_all ms (st_metrics s)) ->
  (exists sc, st_scratch s' = [sc] /\ scratch_wf sc) -> dp_wf s'.
Proof.
  intros [] [Hc Hr] Hl [ms Hm] (sc&Hs&Hsc). split.
  - by rewrite Hl.
  - by rewrite Hc.
  - by rewrite Hc.
  - by rewrite Hm, length_bump_all.
  - rewrite Hm. by apply bump_all_u64.
  - by rewrite Hs.
  - rewrite Hs. by constructor.
Qed.

Lemma smudged_len a u old p p' :
  nat_site a u old p -> nat_smudged a p p' -> skb_len p' = skb_len p.
Proof.
  intros (?&?&?)%site_in_range (v&c&_&->). unfold skb_len; simpl.
  change IP_CSUM_OFF with 24 in *.
  rewrite !length_put; try done; unfold in_range in *; rewrite ?length_put;
    unfold in_range; rewrite ?length_le_split; lia.
Qed.

Lemma ingress_report_len cfg s s' ms :
  ingress_report cfg s s' ms -> skb_len (st_skb s') = skb_len (st_skb s).
Proof.
  intros [|? ? ? ? ? ->|? ? ? ? ? ->|? ? ? Hv|? ? ? Hv|? ? ? Hv]; try congruence.
  - apply verdict_site in Hv as (_&_&_&?). by eapply rewritten_len.
  - by apply skb_len_proper.
  - apply verdict_site in Hv as (_&_&_&?). by eapply smudged_len.
Qed.

(** What an entry a run leaves can be: an old one, or the one it recorded. *)
Lemma ingress_report_entries cfg s s' ms P :
  P (ct_entry cfg s) -> ingress_report cfg s s' ms ->
  map_Forall (fun _ => P) (st_ct s) -> map_Forall (fun _ => P) (st_ct s').
Proof.
  intros HP Hr Hm.
  destruct Hr; try match goal with E : st_ct s' = _ |- _ => rewrite E end; eauto with maps.
Qed.

Lemma ingress_keeps_wf s :
  dp_wf s ->
  dp_wf (run dns_gateway_ingress s).1 /\ same_policy s (run dns_gateway_ingress s).1.
Proof.
  intros Hwf. destruct (dp_wf_config s Hwf) as (cfg&Hcfg&Hcw).
  destruct (ingress_run_report _ _ Hwf Hcfg) as (s'&ms&->&Hpol&Hsc&[_ ?]&Hr).
  split; [|done]. eapply same_policy_wf; try done; [by eapply ingress_report_len|eauto].
Qed.

Lemma ct_entry_wf cfg s : gateway_config_wf cfg -> conntrack_value_wf (ct_entry cfg s).
Proof. intros (?&_). split; [done|]. apply ktime_u64. Qed.
End helpers.

(** Splits a run of the ingress program into its reports, the [counted] tests
    of the goal decided in each. *)
Ltac absurd_count :=
  exfalso;
  match goal with
  | Hm : ?m ∈ ?l |- _ =>
      revert Hm; clear; repeat match goal with r : option suffix_value |- _ => destruct r end;
      apply (bool_decide_unpack (~ _)); by vm_compute
  | Hn : ~ ?m ∈ ?l |- _ =>
      apply Hn; clear; repeat match goal with r : option suffix_value |- _ => destruct r end;
      apply (bool_decide_unpack _); by vm_compute
  end.

Ltac passed_counters :=
  match goal with
  | Hv : query_verdict_of _ _ = VPass _ |- _ =>
      let Hp := fresh in
      pose proof (ingress_verdict_pass _ _ _ _ Hv) as Hp;
      destruct Hp as [->|[->|[->| ->]]]
  | _ => idtac
  end.

Ltac ingress_cases Hwf Hcfg :=
  let s' := fresh "s'" in let ms := fresh "ms" in
  let Hrun := fresh "Hrun" in let Hc := fresh "Hc" in let Hr := fresh "Hr" in
  destruct (ingress_run_report _ _ Hwf Hcfg) as (s'&ms&Hrun&Hpol&Hsc&Hc&Hr);
  rewrite Hrun; simpl; rewrite ?(counted_iff ms) by done;
  clear Hrun; destruct Hr; passed_counters.

Section theorems.
Context {H : BpfHelpers} {HK : BpfHelpersOk H}.

(** C2. The ingress program, with its bounded walk, masks, scratch slot and
    copy loops, computes [ingress_spec] on every well-formed state. *)
Theorem ingress_refinement s :
  dp_wf s ->
  same_but_scratch (run dns_gateway_ingress s).1 (ingress_spec s).1 /\
  (run dns_gateway_ingress s).2 = (ingress_spec s).2.
Proof.
  intros Hwf. destruct (ingress_refines_spec s Hwf) as (sc&_&->). simpl.
  by rewrite set_scratch_similar.
Qed.

(** C8. Integrity of the packet: it is rewritten completely, to the host
    resolver and with both checksums kept correct (the UDP one unless it is still
    to be computed by the device), exactly when REDIRECTED is counted, which happens only for a query whose action is host-resolve; it
    is left inconsistent only when NAT_REVERT_FAIL is counted; otherwise it
    leaves as it came, up to the representation of a zero IP checksum. *)
Theorem ingress_integrity s cfg :
  dp_wf s -> st_config s = [cfg] ->
  let s' := (run dns_gateway_ingress s).1 in
  (counted METRIC_REDIRECTED s s' ->
     (exists dg tx rule, query_verdict_of cfg s = VQuery dg tx rule /\
        resolve cfg rule = ACTION_HOST_RESOLVE) /\
     readdressed DADDR_OFF (host_resolver_ip cfg) (st_skb s) (st_skb s')) /\
  (counted METRIC_NAT_REVERT_FAIL s s' ->
     counted METRIC_NAT_ERROR s s' /\ nat_smudged DADDR_OFF (st_skb s) (st_skb s')) /\
  (~ counted METRIC_REDIRECTED s s' -> ~ counted METRIC_NAT_REVERT_FAIL s s' ->
     pkt_eqv (st_skb s) (st_skb s')).
Proof.
  intros Hwf Hcfg. cbv zeta. destruct (dp_wf_config s Hwf) as (cfg'&Hcfg'&Hcw).
  assert (cfg' = cfg) as -> by congruence.
  ingress_cases Hwf Hcfg; split_and!; intros; try absurd_count;
    try (by match goal with E : st_skb _ = _ |- _ => rewrite E end); try done.
  - split; [eauto|]. by eapply redirected_readdressed.
  - split; [|done]. do 3 right. left.
Qed.

(** C11. Consistency of [conntrack_map] with the rewrite: a redirected query
    leaves its entry, holding CoreDNS's address and the current time; the
    entries of other flows are as before or evicted; a query whose rewrite
    failed leaves no entry; without a rewrite no entry is added or changed. *)
Theorem ingress_conntrack s cfg :
  dp_wf s -> st_config s = [cfg] ->
  let s' := (run dns_gateway_ingress s).1 in
  (counted METRIC_REDIRECTED s s' ->
     exists dg tx rule, query_verdict_of cfg s = VQuery dg tx rule /\
       st_ct s' !! query_key dg tx = Some (ct_entry cfg s) /\
       forall k, k <> query_key dg tx ->
         st_ct s' !! k = st_ct s !! k \/ st_ct s' !! k = None) /\
  (counted METRIC_NAT_ERROR s s' ->
     exists dg tx rule, query_verdict_of cfg s = VQuery dg tx rule /\
       st_ct s' !! query_key dg tx = None) /\
  (~ counted METRIC_REDIRECTED s s' -> st_ct s' ⊆ st_ct s).
Proof.
  intros Hwf Hcfg. cbv zeta.
  ingress_cases Hwf Hcfg; split_and!; intros; try absurd_count; try done.
  all: try by match goal with E : st_ct _ = _ |- _ => rewrite E end.
  all: try (eexists _, _, _; split; [done|]); try split; intros; eauto with maps; done.
Qed.

(** Per-CPU scratch is private to a run: what an earlier packet left in
    the slot changes neither the packet, the maps nor the counters. *)
Theorem ingress_scratch_irrelevant s sc :
  dp_wf s -> scratch_wf sc ->
  same_but_scratch (run dns_gateway_ingress (set_scratch [sc] s)).1
                   (run dns_gateway_ingress s).1.
Proof.
  intros Hwf Hsc. assert (dp_wf (set_scratch [sc] s)) as Hwf'
    by (destruct Hwf; split; try done; by constructor).
  destruct (ingress_refines_spec s Hwf) as (?&_&->).
  destruct (ingress_refines_spec _ Hwf') as (?&_&->).
  by rewrite ingress_spec_scratch, !set_scratch_similar.
Qed.

(** Bypass: with a nonzero [bypass] every packet passes untouched and
    [conntrack_map] is kept; TOTAL_PACKETS and BYPASS_ACTIVE are counted and
    no other counter. *)
Theorem ingress_bypass s cfg :
  dp_wf s -> st_config s = [cfg] -> bypass cfg <> 0 ->
  same_but_scratch (run dns_gateway_ingress s).1
    (count [METRIC_TOTAL_PACKETS; METRIC_BYPASS_ACTIVE] s).
Proof.
  intros Hwf Hcfg Hb. destruct (ingress_refines_spec s Hwf) as (sc&_&->).
  unfold ingress_spec, ingress_verdict. rewrite Hcfg. simpl.
  by rewrite (proj2 (Z.eqb_neq _ _) Hb).
Qed.

(** Traffic that is not an unfragmented IPv4 UDP datagram to the DNS port
    of CoreDNS is left alone: only TOTAL_PACKETS is counted. *)
Theorem ingress_other_traffic s cfg :
  dp_wf s -> st_config s = [cfg] -> bypass cfg = 0 ->
  (forall dg, parse_dgram (data (st_skb s)) = Some dg ->
     dg_daddr dg <> coredns_ip cfg \/ dg_dport dg <> dns_port cfg) ->
  same_but_scratch (run dns_gateway_ingress s).1 (count [METRIC_TOTAL_PACKETS] s).
Proof.
  intros Hwf Hcfg Hb Hno. destruct (ingress_refines_spec s Hwf) as (sc&_&->).
  unfold ingress_spec. rewrite Hcfg. simpl. unfold ingress_verdict. rewrite Hb. simpl.
  destruct (parse_dgram _) as [dg|]; [|done].
  by destruct (Hno dg eq_refl) as [?%Z.eqb_neq|?%Z.eqb_neq]; rewrite H0, ?andb_false_r.
Qed.

(** Well-formedness is an invariant of the ingress program: widths and
    sizes of the packet, the maps and the slots, and the widths of the
    conntrack entries, are kept; the policy maps are not written. *)
Theorem ingress_preserves_wf s :
  dp_wf s -> conntrack_wf (st_ct s) ->
  let s' := (run dns_gateway_ingress s).1 in
  dp_wf s' /\ conntrack_wf (st_ct s') /\ same_policy s s'.
Proof.
  intros Hwf Hct. destruct (ingress_keeps_wf s Hwf) as [Hwf' Hpol].
  split_and!; try done. destruct (dp_wf_config s Hwf) as (cfg&Hcfg&Hcw).
  destruct (ingress_run_report _ _ Hwf Hcfg) as (s'&ms&->&_&_&_&Hr).
  eapply ingress_report_entries; [by apply ct_entry_wf|done..].
Qed.
End theorems.

(** ** The theorems on the sample query *)

Lemma s3_query_wf fl : dp_wfb (s3_query_state fl) = true.
Proof. by vm_compute. Qed.

Lemma ingress_refinement_witness :
  let s := s3_query_state [] in
  same_but_scratch (run dns_gateway_ingress s).1 (ingress_spec s).1 /\
  (run dns_gateway_ingress s).2 = (ingress_spec s).2.
Proof. apply (ingress_refinement _ (dp_wfb_sound _ (s3_query_wf _))). Defined.

Lemma ingress_integrity_witness :
  let s := s3_query_state [] in
  let s' := (run dns_gateway_ingress s).1 in
  counted METRIC_REDIRECTED s s' /\
  readdressed DADDR_OFF (addr RESOLVER) (st_skb s) (st_skb s').
Proof.
  destruct (ingress_integrity _ _ (dp_wfb_sound _ (s3_query_wf [])) eq_refl) as [Hr _].
  split; [by apply (bool_decide_unpack _); vm_compute|].
  apply Hr. by apply (bool_decide_unpack _); vm_compute.
Defined.

(** The checksum update fails: the entry recorded first is deleted again. *)
Lemma ingress_conntrack_witness :
  let s := s3_query_state [false; false; true] in
  let s' := (run dns_gateway_ingress s).1 in
  counted METRIC_NAT_ERROR s s' /\ st_ct s' ⊆ ∅.
Proof.
  destruct (ingress_conntrack _ _ (dp_wfb_sound _ (s3_query_wf [false; false; true]))
    eq_refl) as (_&_&Hn).
  split; [by apply (bool_decide_unpack _); vm_compute|].
  apply Hn. by apply (bool_decide_unpack (~ _)); vm_compute.
Defined.

Lemma ingress_scratch_irrelevant_witness :
  let s := s3_query_state [] in
  same_but_scratch
    (run dns_gateway_ingress
       (set_scratch [ScratchBuf (replicate KEY_LEN Byte.x61) (replicate KEY_LEN Byte.x00)] s)).1
    (run dns_gateway_ingress s).1.
Proof.
  by apply (ingress_scratch_irrelevant _ _ (dp_wfb_sound _ (s3_query_wf []))).
Defined.

Definition bypass_state : dp_state :=
  sample_state (bypassed (sample_config ACTION_HOST_RESOLVE)) s3_rules ∅
    (query_packet 7 S3) [] 0.

Lemma ingress_bypass_witness :
  same_but_scratch (run dns_gateway_ingress bypass_state).1
    (count [METRIC_TOTAL_PACKETS; METRIC_BYPASS_ACTIVE] bypass_state).
Proof. by eapply ingress_bypass; [by apply dp_wfb_sound; vm_compute|..]. Defined.

(** A reply seen on the ingress hook. *)
Definition reply_state : dp_state :=
  sample_state (sample_config ACTION_HOST_RESOLVE) s3_rules ∅ (reply_packet 7 S3) [] 0.

Lemma ingress_other_traffic_witness :
  same_but_scratch (run dns_gateway_ingress reply_state).1
    (count [METRIC_TOTAL_PACKETS] reply_state).
Proof.
  eapply ingress_other_traffic; [by apply dp_wfb_sound; vm_compute|done|done|].
  intros dg Hdg. left. vm_compute in Hdg. injection Hdg as <-. by vm_compute.
Defined.

Lemma ingress_preserves_wf_witness :
  dp_wf (run dns_gateway_ingress (s3_query_state [])).1.
Proof.
  apply (ingress_preserves_wf _ (dp_wfb_sound _ (s3_query_wf []))). apply map_Forall_empty.
Defined.
