(* ===== verification/EgressProps.v ===== *)
(** * Properties of the egress program *)

From S2P Require Import Prelude.
From S2P Require Import Types.
From S2P Require Import Kernel.
From S2P Require Import Checksum.
From S2P Require Import NatRewrite.
From S2P Require Import Ingress.
From S2P Require Import Egress.
From S2P Require Import DnsName.
From S2P Require Import DatapathSpec.
From S2P Require Import Outcomes.
From S2P Require Import Reports.
From S2P Require Import RefKernel.
From S2P Require Import Samples.
From S2P Require Import IngressProps.

Ltac egress_cases Hwf Hcfg :=
  let s' := fresh "s'" in let ms := fresh "ms" in
  let Hrun := fresh "Hrun" in let Hc := fresh "Hc" in let Hr := fresh "Hr" in
  destruct (egress_run_report _ _ Hcfg) as (s'&ms&Hrun&Hpol&Hsc&Hc&Hr);
  rewrite Hrun; simpl; rewrite ?(counted_iff ms) by done; clear Hrun; destruct Hr.

Section helpers.
Context {H : BpfHelpers} {HK : BpfHelpersOk H}.

Lemma flow_site cfg p dg key :
  egress_flow cfg (data p) = Some (dg, key) ->
  dg_udp_off dg = ip_udp_off (data p) /\ 20 <= ip_hdr_len (data p) /\
  0 <= dg_udp_off dg <= 74 /\ dg_saddr dg = host_resolver_ip cfg /\
  nat_site SADDR_OFF (dg_udp_off dg + 6) (host_resolver_ip cfg) p.
Proof.
  intros (Hdg&Hsa&_&_)%egress_flow_Some.
  destruct (dgram_site_daddr _ _ p eq_refl Hdg) as (?&?&_&Hs).
  apply parse_dgram_Some in Hdg as (_&?&?&?). by rewrite Hsa in Hs.
Qed.

Lemma restored_readdressed cfg p p' dg key new :
  is_u32 new -> egress_flow cfg (data p) = Some (dg, key) ->
  nat_rewritten SADDR_OFF (dg_udp_off dg + 6) (host_resolver_ip cfg) new p p' ->
  readdressed SADDR_OFF new p p'.
Proof.
  intros Hn (Hoff&Hl&_&_&Hs)%flow_site Hr. rewrite Hoff in *.
  by eapply rewritten_readdressed.
Qed.

Lemma egress_report_len cfg s s' ms :
  egress_report cfg s s' ms -> skb_len (st_skb s') = skb_len (st_skb s).
Proof.
  intros [? ->|? ? ? ? ->|? ? ? ? ? ? ->|? ? ? Hf|? ? ? Hf|? ? ? Hf]; try done.
  - apply flow_site in Hf as (_&_&_&_&?). by eapply rewritten_len.
  - by apply skb_len_proper.
  - apply flow_site in Hf as (_&_&_&_&?). by eapply smudged_len.
Qed.

Lemma egress_report_entries cfg s s' ms :
  egress_report cfg s s' ms -> st_ct s' ⊆ st_ct s.
Proof. intros []; match goal with E : st_ct _ = _ |- _ => rewrite E end;
  first [done | apply delete_subseteq]. Qed.

Lemma egress_keeps_wf s :
  dp_wf s ->
  let s' := (run dns_gateway_egress s).1 in
  dp_wf s' /\ same_policy s s' /\ st_ct s' ⊆ st_ct s.
Proof.
  intros Hwf. destruct (dp_wf_config s Hwf) as (cfg&Hcfg&Hcw).
  destruct (egress_run_report _ _ Hcfg) as (s'&ms&->&Hpol&Hsc&[_ ?]&Hr). simpl.
  split_and!; [|done|by eapply egress_report_entries].
  eapply same_policy_wf; try done; [by eapply egress_report_len|eauto|].
  rewrite Hsc. by apply dp_wf_scratch.
Qed.
End helpers.

Section theorems.
Context {H : BpfHelpers} {HK : BpfHelpersOk H}.

(** C9. Integrity of the packet: when EGRESS_SNAT is counted a live entry of
    the reply's flow existed, the source is now the address it holds, both
    checksums are kept correct (the UDP one unless it is still to be computed by
    the device), nothing else changed, and the entry is consumed; the packet is
    left inconsistent only when NAT_REVERT_FAIL is counted; otherwise it leaves
    as it came, up to the representation of a zero IP checksum. *)
Theorem egress_integrity s cfg :
  dp_wf s -> conntrack_wf (st_ct s) -> st_config s = [cfg] ->
  let s' := (run dns_gateway_egress s).1 in
  (counted METRIC_EGRESS_SNAT s s' ->
     exists dg key v, egress_flow cfg (data (st_skb s)) = Some (dg, key) /\
       st_ct s !! key = Some v /\ entry_age s v <= CONNTRACK_TTL_NS /\
       readdressed SADDR_OFF (cv_coredns_ip v) (st_skb s) (st_skb s') /\
       st_ct s' = delete key (st_ct s)) /\
  (counted METRIC_NAT_REVERT_FAIL s s' ->
     counted METRIC_NAT_ERROR s s' /\ nat_smudged SADDR_OFF (st_skb s) (st_skb s')) /\
  (~ counted METRIC_EGRESS_SNAT s s' -> ~ counted METRIC_NAT_REVERT_FAIL s s' ->
     pkt_eqv (st_skb s) (st_skb s')).
Proof.
  intros Hwf Hct Hcfg. cbv zeta.
  egress_cases Hwf Hcfg; split_and!; intros; try absurd_count;
    try (by match goal with E : st_skb _ = _ |- _ => rewrite E end); try done.
  - eexists _, _, _. split_and!; try done. eapply restored_readdressed; [|done..].
    by eapply Hct.
  - split; [|done]. by right; left.
Qed.

(** C21. What the conntrack entry decides.  For a reply of a redirected flow:
    no entry, or one older than the TTL or stamped in the future, makes the
    reply a miss, which leaves the packet as it is and drops the entry; a live
    entry makes it a restore, or a counted NAT error that keeps the entry for
    a retransmission. *)
Theorem egress_decision s cfg dg key :
  dp_wf s -> st_config s = [cfg] ->
  egress_flow cfg (data (st_skb s)) = Some (dg, key) ->
  let s' := (run dns_gateway_egress s).1 in
  let live v := timestamp_ns v <= now s <= timestamp_ns v + CONNTRACK_TTL_NS in
  (forall v, st_ct s !! key = Some v ->
     0 <= timestamp_ns v < 2 ^ 64 - CONNTRACK_TTL_NS -> live v ->
     (counted METRIC_EGRESS_SNAT s s' /\ st_ct s' = delete key (st_ct s)) \/
     (counted METRIC_NAT_ERROR s s' /\ st_ct s' = st_ct s)) /\
  ((forall v, st_ct s !! key = Some v ->
     0 <= timestamp_ns v < 2 ^ 64 - CONNTRACK_TTL_NS /\ ~ live v) ->
     counted METRIC_EGRESS_CONNTRACK_MISS s s' /\
     st_skb s' = st_skb s /\ st_ct s' = delete key (st_ct s)).
Proof.
  intros Hwf Hcfg Hf. cbv zeta.
  assert (is_u64 (now s)) as Hnow by apply ktime_u64.
  assert (forall v, 0 <= timestamp_ns v < 2 ^ 64 - CONNTRACK_TTL_NS ->
    entry_age s v <= CONNTRACK_TTL_NS <->
    timestamp_ns v <= now s <= timestamp_ns v + CONNTRACK_TTL_NS) as Hage.
  { intros v Hv. unfold entry_age, u64. change (ktime_get_ns (st_kern s)).1 with (now s).
    unfold is_u64, CONNTRACK_TTL_NS in *. Z.div_mod_to_equations. lia. }
  egress_cases Hwf Hcfg; simplify_eq; (split; [intros v' Hv' Hw Hl|intros Hno]);
    simplify_eq; try congruence;
    try (apply Hage in Hl; [lia|done]);
    try (exfalso; destruct (Hno _ ltac:(done)) as [? Hn]; by apply Hn, Hage);
    rewrite !(counted_iff _ _ _ _ Hwf Hc).
  - split_and!; [by right; left|done|]. by rewrite delete_id.
  - split_and!; [by right; left|done..].
  - left. split; [by right; left|done].
  - right. split; [by right; left|done].
  - right. split; [by right; left|done].
Qed.

(** Traffic that is not a DNS message from the host resolver is left
    alone: only EGRESS_TOTAL is counted. *)
Theorem egress_other_traffic s cfg :
  st_config s = [cfg] -> egress_flow cfg (data (st_skb s)) = None ->
  run dns_gateway_egress s = (count [METRIC_EGRESS_TOTAL] s, TC_ACT_OK).
Proof.
  intros Hcfg Hf. rewrite egress_staged_run. unfold egress_staged. rewrite Hcfg. simpl.
  by rewrite Hf.
Qed.

(** Well-formedness is an invariant of the egress program, which adds no
    conntrack entry and does not write the policy maps. *)
Theorem egress_preserves_wf s :
  dp_wf s -> conntrack_wf (st_ct s) ->
  let s' := (run dns_gateway_egress s).1 in
  dp_wf s' /\ conntrack_wf (st_ct s') /\ st_ct s' ⊆ st_ct s /\ same_policy s s'.
Proof.
  intros Hwf Hct. destruct (egress_keeps_wf s Hwf) as (Hwf'&Hpol&Hsub).
  split_and!; try done. by eapply map_Forall_subseteq.
Qed.

(** On a healthy kernel a reply with a live entry is always restored. *)
Theorem egress_completes up s cfg dg key v :
  BpfHelpersUp H up -> up (st_kern s) -> dp_wf s -> st_config s = [cfg] ->
  egress_flow cfg (data (st_skb s)) = Some (dg, key) ->
  st_ct s !! key = Some v -> entry_age s v <= CONNTRACK_TTL_NS ->
  counted METRIC_EGRESS_SNAT s (run dns_gateway_egress s).1.
Proof.
  intros Hup Hk Hwf Hcfg Hf Hv Hage.
  apply (counted_iff [METRIC_EGRESS_TOTAL; METRIC_EGRESS_SNAT]); [done| |by right; left].
  split; [by apply (bool_decide_unpack _)|].
  rewrite egress_staged_run. unfold egress_staged. rewrite Hcfg. simpl. rewrite Hf.
  destruct (flow_site _ _ _ _ Hf) as (?&_&?&->&Hs).
  by erewrite (egress_restore_up up).
Qed.
(** C28. The egress program refines its specification.  On every packet and every
    state of the maps the program accepts, leaves the configuration, the rules
    and the scratch slot, and does one of six things, which [egress_report] says
    without the program's stages: a packet that is no DNS message from the host
    resolver is only counted; a reply without an entry is counted as missed; a
    reply whose entry is older than the TTL is counted as missed and the entry
    is deleted; otherwise the source becomes the entry's address, both checksums
    follow, and the entry is deleted; or the rewrite failed, the packet is as it
    came, or is reported as inconsistent, and the entry stays.  Each counts
    exactly its own counters, once; and on a healthy kernel a reply whose entry
    is not too old is always restored. *)
Theorem egress_refinement s cfg :
  dp_wf s -> st_config s = [cfg] ->
  exists s' ms, run dns_gateway_egress s = (s', TC_ACT_OK) /\
    same_policy s s' /\ st_scratch s' = st_scratch s /\
    counts ms s s' /\ egress_report cfg s s' ms /\
    (forall up dg key v, BpfHelpersUp H up -> up (st_kern s) ->
       egress_flow cfg (data (st_skb s)) = Some (dg, key) ->
       st_ct s !! key = Some v -> entry_age s v <= CONNTRACK_TTL_NS ->
       ms = [METRIC_EGRESS_TOTAL; METRIC_EGRESS_SNAT]).
Proof.
  intros Hwf Hcfg. destruct (egress_run_report s cfg Hcfg) as (s'&ms&Hrun&Hpol&Hsc&Hc&Hr).
  exists s', ms. split_and!; try done. intros up dg key v Hup Hk Hf Hv Hage.
  pose proof (egress_completes up s cfg dg key v Hup Hk Hwf Hcfg Hf Hv Hage) as Hsnat.
  rewrite Hrun in Hsnat. apply (counted_iff ms) in Hsnat; [|done..].
  destruct Hr; try done; by apply (bool_decide_pack _) in Hsnat.
Qed.
End theorems.

(** ** The theorems on a reply to the sample query *)

Definition sample_key : conntrack_key :=
  ConntrackKey (addr POD) (le_combine (be2 43465)) 0x8a3f.

(** The entry was recorded at 1000 ns; the reply arrives at [t]. *)
Definition s3_reply_state (fl : list bool) (t : Z) : dp_state :=
  sample_state (sample_config ACTION_CLUSTER_RESOLVE) s3_rules
    {[ sample_key := ConntrackValue (addr COREDNS) 0 1000 ]}
    (reply_packet 0x8a3f FOO_S3) fl t.

Definition sample_dgram : dgram := Dgram (addr RESOLVER) (addr POD)
  (le_combine (be2 53)) (le_combine (be2 43465)) 34.

Lemma s3_reply_wf fl t : dp_wfb (s3_reply_state fl t) = true.
Proof. by vm_compute. Qed.

Lemma s3_reply_ct_wf fl t : conntrack_wf (st_ct (s3_reply_state fl t)).
Proof. by apply map_Forall_singleton. Qed.

Lemma s3_reply_entry fl t :
  st_ct (s3_reply_state fl t) !! sample_key = Some (ConntrackValue (addr COREDNS) 0 1000).
Proof. apply lookup_singleton_eq. Qed.

Lemma s3_reply_flow fl t :
  egress_flow (sample_config ACTION_CLUSTER_RESOLVE) (data (st_skb (s3_reply_state fl t))) =
    Some (sample_dgram, sample_key).
Proof. by vm_compute. Qed.

(** The sample reply, with its entry and one second later. *)
Lemma egress_refinement_witness :
  exists s', run dns_gateway_egress (s3_reply_state [] 2000) = (s', TC_ACT_OK) /\
    counts [METRIC_EGRESS_TOTAL; METRIC_EGRESS_SNAT] (s3_reply_state [] 2000) s' /\
    egress_report (sample_config ACTION_CLUSTER_RESOLVE) (s3_reply_state [] 2000) s'
      [METRIC_EGRESS_TOTAL; METRIC_EGRESS_SNAT].
Proof.
  destruct (egress_refinement _ _ (dp_wfb_sound _ (s3_reply_wf [] 2000)) eq_refl)
    as (s'&ms&Hrun&_&_&Hc&Hr&Hup).
  rewrite (Hup no_faults _ _ _ RefKernelUp eq_refl (s3_reply_flow _ _) (s3_reply_entry _ _)
    ltac:(vm_compute; discriminate)) in Hc, Hr.
  exists s'. split; [exact Hrun|]. split; [exact Hc|exact Hr].
Defined.

Lemma egress_integrity_witness :
  let s := s3_reply_state [] 2000 in
  let s' := (run dns_gateway_egress s).1 in
  counted METRIC_EGRESS_SNAT s s' /\
  readdressed SADDR_OFF (addr COREDNS) (st_skb s) (st_skb s').
Proof.
  destruct (egress_integrity _ _ (dp_wfb_sound _ (s3_reply_wf [] 2000))
    (s3_reply_ct_wf _ _) eq_refl) as [Hr _].
  assert (counted METRIC_EGRESS_SNAT (s3_reply_state [] 2000)
    (run dns_gateway_egress (s3_reply_state [] 2000)).1) as Hc
    by (by apply (bool_decide_unpack _); vm_compute).
  split; [done|]. destruct (Hr Hc) as (dg&key&v&Hf&Hv&_&Hrd&_).
  rewrite s3_reply_flow in Hf. injection Hf as <- <-.
  rewrite s3_reply_entry in Hv. injection Hv as <-. exact Hrd.
Defined.

(** Five seconds and a bit later the entry is stale. *)
Lemma egress_decision_witness :
  let s := s3_reply_state [] 5000001001 in
  let s' := (run dns_gateway_egress s).1 in
  counted METRIC_EGRESS_CONNTRACK_MISS s s' /\
  st_skb s' = st_skb s /\ st_ct s' = delete sample_key (st_ct s).
Proof.
  destruct (egress_decision _ _ _ _ (dp_wfb_sound _ (s3_reply_wf [] 5000001001)) eq_refl
    (s3_reply_flow _ _)) as [_ Hm].
  apply Hm. intros v Hv. rewrite s3_reply_entry in Hv. injection Hv as <-.
  split; vm_compute; intuition congruence.
Defined.

(** A query seen on the egress hook. *)
Definition stray_state : dp_state :=
  sample_state (sample_config ACTION_HOST_RESOLVE) s3_rules ∅ (query_packet 7 S3) [] 0.

Lemma egress_other_traffic_witness :
  run dns_gateway_egress stray_state = (count [METRIC_EGRESS_TOTAL] stray_state, TC_ACT_OK).
Proof.
  apply (egress_other_traffic (H := RefKernel) stray_state (sample_config ACTION_HOST_RESOLVE)).
  - reflexivity.
  - vm_compute. reflexivity.
Defined.

Lemma egress_preserves_wf_witness :
  dp_wf (run dns_gateway_egress (s3_reply_state [] 2000)).1.
Proof.
  destruct (egress_preserves_wf _ (dp_wfb_sound _ (s3_reply_wf [] 2000))
    (s3_reply_ct_wf [] 2000)) as [Hwf _]. exact Hwf.
Defined.

Lemma egress_completes_witness :
  counted METRIC_EGRESS_SNAT (s3_reply_state [] 2000)
    (run dns_gateway_egress (s3_reply_state [] 2000)).1.
Proof.
  eapply (egress_completes (H := RefKernel) no_faults);
    [apply _|done|apply dp_wfb_sound, s3_reply_wf|done|apply s3_reply_flow|
     apply s3_reply_entry|by vm_compute].
Defined.
