(* ===== verification/NameProps.v ===== *)
(** * Which rule a query gets

    The label walk and the suffix loop seen from the question's name: the most
    specific rule decides, and what happens to the names the bounded walk does
    not cover. *)

From stdpp Require Import strings.
From S2P Require Import Prelude.
From S2P Require Import Types.
From S2P Require Import Kernel.
From S2P Require Import Checksum.
From S2P Require Import NatRewrite.
From S2P Require Import Ingress.
From S2P Require Import DnsName.
From S2P Require Import QnameProofs.
From S2P Require Import DatapathSpec.
From S2P Require Import Outcomes.
From S2P Require Import Reports.
From S2P Require Import RefKernel.
From S2P Require Import Samples.
From S2P Require Import IngressProps.

(** ** Vocabulary *)

(** A packet holding a DNS query for [ls] to CoreDNS: one question, and its
    name in wire format after the 12-byte header. *)
Record dns_query (cfg : gateway_config) (d : list byte) (dg : dgram) (tx : Z)
    (ls : name) (rest : list byte) : Prop := {
  q_dgram : parse_dgram d = Some dg;
  q_daddr : dg_daddr dg = coredns_ip cfg;
  q_dport : dg_dport dg = dns_port cfg;
  q_tx : be16_at (dns_off dg) d = tx;
  q_flags : Z.land (be16_at (dns_off dg + 2) d) 0x8000 = 0;
  q_qdcount : be16_at (dns_off dg + 4) d = 1;
  q_valid : valid_name ls;
  q_name : drop (Z.to_nat (dns_off dg + 12)) d = wire ls ++ rest
}.

(** The rule of the longest suffix of [ls] that has one. *)
Inductive best_rule (rules : rules_map) (ls : name) : option suffix_value -> Prop :=
  | best_some n v :
      (n < length ls)%nat -> rules !! name_key (drop n ls) = Some v ->
      (forall m, (m < n)%nat -> rules !! name_key (drop m ls) = None) ->
      best_rule rules ls (Some v)
  | best_none :
      (forall m, (m < length ls)%nat -> rules !! name_key (drop m ls) = None) ->
      best_rule rules ls None.

(** Every rule is keyed by a name whose bytes satisfy [P]. *)
Definition rules_named (P : byte -> Prop) (rules : rules_map) : Prop :=
  map_Forall (fun k _ => exists ns, valid_name ns /\ Forall (Forall P) ns /\
    (length (wire_body ns) < KEY_LEN)%nat /\ k = name_key ns) rules.

Definition not_nul (b : byte) : Prop := b <> Byte.x00.
Definition not_upper (b : byte) : Prop := ~ (65 <= ub b <= 90).

#[export] Instance not_nul_dec b : Decision (not_nul b).
Proof. unfold not_nul. apply _. Defined.
#[export] Instance not_upper_dec b : Decision (not_upper b).
Proof. unfold not_upper. apply _. Defined.

(** ** Lookup *)

Lemma lookup_suffix_best rules ls : best_rule rules ls (lookup_suffix rules ls Byte.x00).
Proof.
  induction ls as [|l ls IH]; simpl; [constructor; simpl; lia|].
  destruct (rules !! open_key (l :: ls) Byte.x00) as [v|] eqn:E.
  { apply (best_some _ _ 0); simpl; try done; lia. }
  destruct IH as [n v Hn Hv Hm|Hm].
  - apply (best_some _ _ (S n)); simpl; try done; [lia|].
    intros [|m] ?; [done|]. apply Hm. lia.
  - apply best_none. intros [|m] ?; [done|]. apply Hm. simpl in *. lia.
Qed.

Lemma best_rule_unique rules ls r r' :
  best_rule rules ls r -> best_rule rules ls r' -> r = r'.
Proof.
  intros [n v Hn Hv Hm|Hm] [n' v' Hn' Hv' Hm'|Hm']; try done.
  - destruct (lt_eq_lt_dec n n') as [[Hlt| ->]|Hlt]; [|congruence|].
    + by rewrite Hm' in Hv.
    + by rewrite Hm in Hv'.
  - by rewrite Hm' in Hv.
  - by rewrite Hm in Hv'.
Qed.

Lemma lookup_suffix_None rules ls t :
  (forall n, (n < length ls)%nat -> rules !! open_key (drop n ls) t = None) ->
  lookup_suffix rules ls t = None.
Proof.
  induction ls as [|l ls IH]; simpl; intros Hn; [done|].
  pose proof (Hn 0%nat ltac:(lia)) as E. simpl in E. rewrite E. apply IH. intros n ?. apply (Hn (S n)). lia.
Qed.

(** ** Parsing *)

Lemma parse_name_short n ls k x :
  Forall valid_label ls -> (length ls <= n)%nat -> (k <= length (wire_body ls))%nat ->
  parse_name n (take k (wire_body ls ++ x)) = QShort.
Proof.
  intros Hv. revert n k. induction Hv as [|l ls Hl Hv IH]; intros n k Hn Hk; simpl in *.
  { replace k with 0%nat by lia. by destruct n. }
  destruct k as [|k]; [by destruct n|]. destruct n as [|n]; [lia|]. unfold valid_label in Hl.
  simpl. rewrite ub_label_len by lia.
  destruct (Z.eqb_spec (Z.of_nat (length l)) 0); [lia|].
  destruct (Z.ltb_spec 63 (Z.of_nat (length l))); [lia|].
  rewrite length_app in Hk. rewrite Nat2Z.id, <- app_assoc, length_take, !length_app.
  destruct (Z.ltb_spec (Z.of_nat (k `min` (length l + (length (wire_body ls) + length x))))
    (Z.of_nat (length l))); [done|].
  rewrite take_app_ge, drop_app_length by lia. by rewrite IH by lia.
Qed.

Lemma parse_query_name ls rest :
  valid_name ls -> (length ls <= MAX_LABELS)%nat ->
  (length (wire ls) <= KEY_LEN)%nat ->
  parse_name MAX_LABELS (take KEY_LEN (wire ls ++ rest)) = QName ls Byte.x00.
Proof.
  intros [_ Hv] Hn Hl. rewrite take_app_ge by done. unfold wire at 1.
  rewrite <- app_assoc. apply parse_wire; auto.
Qed.

(** The eleventh label's length byte, where the walk stops. *)
Definition stop_byte (ls : name) : byte :=
  byte_of_Z (Z.of_nat (length (default [] (ls !! MAX_LABELS)))).

Lemma wire_split n ls l rest :
  ls !! n = Some l ->
  wire ls ++ rest = wire_body (take n ls) ++ byte_of_Z (Z.of_nat (length l)) ::
    (l ++ wire_body (drop (S n) ls) ++ Byte.x00 :: rest).
Proof.
  intros Hl. rewrite <- (take_drop_middle _ _ _ Hl) at 1. unfold wire.
  rewrite wire_body_app, <- !app_assoc. simpl. by rewrite <- !app_assoc.
Qed.

Lemma parse_deep_name ls rest :
  valid_name ls -> (MAX_LABELS < length ls)%nat ->
  parse_name MAX_LABELS (take KEY_LEN (wire ls ++ rest)) =
    if decide (length (wire_body (take MAX_LABELS ls)) < KEY_LEN)%nat
    then QName (take MAX_LABELS ls) (stop_byte ls) else QShort.
Proof.
  intros [_ Hv] Hn. destruct (lookup_lt_is_Some_2 _ _ Hn) as [l Hl].
  assert (Forall valid_label (take MAX_LABELS ls)) by by apply Forall_take.
  rewrite (wire_split _ _ _ _ Hl). unfold stop_byte. rewrite Hl. simpl default.
  case_decide as Hd.
  - rewrite take_app_ge by lia.
    destruct (KEY_LEN - length (wire_body (take MAX_LABELS ls)))%nat eqn:E; [lia|].
    simpl take at 2. apply parse_wire; [done|rewrite length_take; lia|].
    right. rewrite length_take. lia.
  - apply parse_name_short; [done|rewrite length_take|]; lia.
Qed.

(** A key cut off at a nonzero byte is not the key of a NUL-free name. *)
Lemma open_wire_not_closed ls t ns j k :
  Forall valid_label ls -> Forall valid_label ns -> Forall (Forall not_nul) ns ->
  t <> Byte.x00 ->
  wire_body ls ++ t :: replicate j Byte.x00 <> wire_body ns ++ Byte.x00 :: replicate k Byte.x00.
Proof.
  intros Hls Hns Hnul Ht. revert ns Hns Hnul.
  induction Hls as [|l ls Hl Hls IH]; intros [|n ns] Hns Hnul; simpl.
  - by intros [=].
  - inversion Hns as [|?? Hn _]; subst. inversion Hnul as [|?? Hz _]; subst.
    destruct n as [|b n]; [unfold valid_label in Hn; simpl in Hn; lia|].
    inversion Hz as [|?? Hb _]; subst. unfold not_nul in Hb.
    destruct j; simpl; intros [=]; congruence.
  - intros [= E _]. apply (f_equal ub) in E. unfold valid_label in Hl.
    rewrite ub_label_len in E by lia. change (ub Byte.x00) with 0 in E. lia.
  - inversion Hns as [|?? Hn Hns']; subst. inversion Hnul as [|?? Hz Hnul']; subst.
    intros [= E E']. apply (f_equal ub) in E. unfold valid_label in *.
    rewrite !ub_label_len in E by lia. rewrite <- !app_assoc in E'.
    apply app_inj_1 in E' as [-> E']; [|lia]. by apply (IH ns Hns' Hnul').
Qed.

Lemma open_key_not_name ls t ns :
  Forall valid_label ls -> Forall valid_label ns -> Forall (Forall not_nul) ns ->
  t <> Byte.x00 -> open_key ls t <> name_key ns.
Proof.
  intros Hls Hns Hnul Ht [= E]. unfold pad_key in E. rewrite <- !app_assoc in E. simpl in E.
  by apply open_wire_not_closed in E.
Qed.

Lemma length_wire_body_valid ls :
  Forall valid_label ls -> (length ls <= length (wire_body ls))%nat.
Proof.
  induction 1 as [|l ls Hl _ IH]; simpl; [done|]. rewrite length_app. lia.
Qed.

(** ** The verdict of a query *)

#[local] Arguments parse_name : simpl never.

Section verdict.
Context (cfg : gateway_config) (rules : rules_map) (d : list byte) (dg : dgram)
        (tx : Z) (ls : name) (rest : list byte).
Context (Hb : bypass cfg = 0) (Hq : dns_query cfg d dg tx ls rest).

Lemma query_slice :
  0 <= dns_off dg -> Z.of_nat (length d) = dns_off dg + 12 + Z.of_nat (length (wire ls ++ rest)) /\
  slice (dns_off dg + 12) 128 d = take KEY_LEN (wire ls ++ rest).
Proof.
  intros. pose proof (q_name _ _ _ _ _ _ Hq) as Hn. split.
  - apply (f_equal length) in Hn. rewrite length_drop in Hn.
    assert (0 < length (wire ls ++ rest))%nat; [|lia].
    unfold wire. rewrite !length_app. simpl. lia.
  - unfold slice. by rewrite Hn.
Qed.

Lemma query_verdict_name :
  ingress_verdict cfg rules d =
    match parse_name MAX_LABELS (take KEY_LEN (wire ls ++ rest)) with
    | QBad => VPass [METRIC_DNS_QUERIES; METRIC_PARSE_ERROR]
    | QShort => VPass [METRIC_DNS_QUERIES]
    | QName [] _ => VPass [METRIC_DNS_QUERIES]
    | QName ls' t => VQuery dg tx (lookup_suffix rules ls' t)
    end.
Proof.
  pose proof Hq as [Hdg Hda Hdp Htx Hf Hqd _ _].
  unfold ingress_verdict. rewrite Hb, Hdg, Hda, Hdp, !Z.eqb_refl. simpl.
  apply parse_dgram_Some in Hdg as (Hdg&_). pose proof (ip_udp_off_range d).
  assert (0 <= dns_off dg) as Ho by (rewrite Hdg; unfold dns_off; simpl; lia).
  destruct (query_slice Ho) as [Hl Hs]. unfold query_verdict.
  rewrite Hf, Hqd, Htx, Hs, !Z.eqb_refl.
  destruct (Z.ltb_spec (Z.of_nat (length d)) (dns_off dg + 12)); [lia|].
  simpl. by destruct (parse_name _ _) as [| |[|]].
Qed.

Lemma short_query_verdict :
  (length ls <= MAX_LABELS)%nat -> (length (wire ls) <= KEY_LEN)%nat ->
  ingress_verdict cfg rules d = VQuery dg tx (lookup_suffix rules ls Byte.x00).
Proof.
  intros. pose proof (q_valid _ _ _ _ _ _ Hq) as Hv.
  rewrite query_verdict_name, parse_query_name by done.
  destruct ls; [by destruct Hv|done].
Qed.

Lemma deep_query_verdict :
  (MAX_LABELS < length ls)%nat ->
  (length (wire_body (take MAX_LABELS ls)) < KEY_LEN)%nat ->
  rules_named not_nul rules ->
  ingress_verdict cfg rules d = VQuery dg tx None.
Proof.
  intros Hn Hl Hr. pose proof (q_valid _ _ _ _ _ _ Hq) as [_ Hv].
  rewrite query_verdict_name, parse_deep_name, decide_True by (done || apply Hq).
  destruct (lookup_lt_is_Some_2 _ _ Hn) as [l El].
  assert (stop_byte ls <> Byte.x00) as Hstop.
  { unfold stop_byte. rewrite El. simpl. intros E. apply (f_equal ub) in E.
    eapply Forall_lookup_1 in Hv as [? ?]; [|done].
    rewrite ub_label_len in E by lia. change (ub Byte.x00) with 0 in E. lia. }
  rewrite lookup_suffix_None.
  { destruct (take MAX_LABELS ls) eqn:E; [|done]. apply (f_equal length) in E.
    rewrite length_take in E. unfold MAX_LABELS in *. cbn [length] in E. lia. }
  intros n _. apply eq_None_not_Some. intros [v Hv'].
  destruct (Hr _ _ Hv') as (ns&[_ Hns]&Hnul&_&E).
  by eapply open_key_not_name in E; [|by apply Forall_drop, Forall_take|..].
Qed.

Lemma long_query_verdict :
  (length ls <= MAX_LABELS)%nat -> (KEY_LEN < length (wire ls))%nat ->
  ingress_verdict cfg rules d = VPass [METRIC_DNS_QUERIES].
Proof.
  intros Hn Hl. pose proof (q_valid _ _ _ _ _ _ Hq) as [_ Hv].
  rewrite query_verdict_name. unfold wire in *. rewrite length_app in Hl. cbn [length] in Hl.
  rewrite <- app_assoc, parse_name_short by (done || lia). done.
Qed.
End verdict.

(** ** What a run does with a resolved query *)

Section routes.
Context {H : BpfHelpers} {HK : BpfHelpersOk H}.

(** The run applies the resolved action: cluster-resolve leaves everything
    but the counters alone; host-resolve redirects, on a healthy kernel. *)
Definition routed (cfg : gateway_config) (rule : option suffix_value)
    (s s' : dp_state) : Prop :=
  (resolve cfg rule <> ACTION_HOST_RESOLVE ->
     same_but_scratch s' (count [METRIC_TOTAL_PACKETS; METRIC_DNS_QUERIES;
       match_metric rule; METRIC_CLUSTER_RESOLVED] s)) /\
  (resolve cfg rule = ACTION_HOST_RESOLVE ->
     forall up, BpfHelpersUp H up -> up (st_kern s) ->
     counted METRIC_REDIRECTED s s' /\ counted (match_metric rule) s s').

Lemma ingress_routed s cfg dg tx rule :
  dp_wf s -> st_config s = [cfg] ->
  ingress_verdict cfg (st_rules s) (data (st_skb s)) = VQuery dg tx rule ->
  routed cfg rule s (run dns_gateway_ingress s).1.
Proof.
  intros Hwf Hcfg Hv. destruct (ingress_refines_spec s Hwf) as (sc&_&->).
  unfold ingress_spec. rewrite Hcfg. simpl. rewrite Hv. simpl. split.
  - intros Hr%Z.eqb_neq. by rewrite Hr.
  - intros Hr up Hup Hk. rewrite (proj2 (Z.eqb_eq _ _) Hr).
    set (ms := [METRIC_TOTAL_PACKETS; METRIC_DNS_QUERIES; match_metric rule]).
    destruct (verdict_site _ _ _ _ _ Hv) as (Hoff&_&Hda&Hs). rewrite <- Hda in Hs.
    pose proof (ip_udp_off_range (data (st_skb s))) as Hr2. rewrite <- Hoff in Hr2.
    set (s2 := set_scratch [sc] _).
    assert (counts (ms ++ [METRIC_REDIRECTED]) s s2) as Hc.
    { split; [destruct rule; by apply (bool_decide_unpack _)|].
      unfold s2. simpl. by rewrite (ingress_redirect_up up) by (done || lia). }
    split; apply (counted_iff _ _ _ _ Hwf Hc); destruct rule;
      by apply (bool_decide_unpack _); vm_compute.
Qed.
End routes.

Section theorems.
Context {H : BpfHelpers} {HK : BpfHelpersOk H}.

(** C7. The most specific rule decides: a query whose name has at most ten
    labels and 128 bytes of wire format gets the action of the longest of its
    suffixes that has a rule, and the default action when none has. *)
Theorem ingress_most_specific s cfg dg tx ls rest :
  dp_wf s -> st_config s = [cfg] -> bypass cfg = 0 ->
  dns_query cfg (data (st_skb s)) dg tx ls rest ->
  (length ls <= MAX_LABELS)%nat -> (length (wire ls) <= KEY_LEN)%nat ->
  exists rule, best_rule (st_rules s) ls rule /\
    query_verdict_of cfg s = VQuery dg tx rule /\
    routed cfg rule s (run dns_gateway_ingress s).1.
Proof.
  intros Hwf Hcfg Hb Hq Hn Hl. exists (lookup_suffix (st_rules s) ls Byte.x00).
  pose proof (short_query_verdict cfg (st_rules s) _ dg tx ls rest Hb Hq Hn Hl) as Hv.
  split_and!; [apply lookup_suffix_best|done|]. by eapply ingress_routed.
Qed.

(** C38. A query, with bypass off, for a name of more than ten labels whose first
    ten fit in 127 bytes matches no rule, whatever its suffixes, when the rules'
    names hold no NUL byte: the default action is applied to it. *)
Theorem ingress_deep_name s cfg dg tx ls rest :
  dp_wf s -> st_config s = [cfg] -> bypass cfg = 0 ->
  rules_named not_nul (st_rules s) ->
  dns_query cfg (data (st_skb s)) dg tx ls rest ->
  (MAX_LABELS < length ls)%nat ->
  (length (wire_body (take MAX_LABELS ls)) < KEY_LEN)%nat ->
  routed cfg None s (run dns_gateway_ingress s).1.
Proof.
  intros Hwf Hcfg Hb Hr Hq Hn Hl. eapply ingress_routed; [done..|].
  by apply (deep_query_verdict cfg (st_rules s) _ dg tx ls rest).
Qed.

(** A name longer than the 128-byte buffer is not resolved: the packet
    and the conntrack map are kept, and only TOTAL_PACKETS and DNS_QUERIES
    are counted. *)
Theorem ingress_long_name s cfg dg tx ls rest :
  dp_wf s -> st_config s = [cfg] -> bypass cfg = 0 ->
  dns_query cfg (data (st_skb s)) dg tx ls rest ->
  (length ls <= MAX_LABELS)%nat -> (KEY_LEN < length (wire ls))%nat ->
  same_but_scratch (run dns_gateway_ingress s).1
    (count [METRIC_TOTAL_PACKETS; METRIC_DNS_QUERIES] s).
Proof.
  intros Hwf Hcfg Hb Hq Hn Hl. destruct (ingress_refines_spec s Hwf) as (sc&_&->).
  unfold ingress_spec. rewrite Hcfg. simpl.
  by rewrite (long_query_verdict cfg (st_rules s) _ dg tx ls rest).
Qed.

(** C39. Matching is case-sensitive: with lower-case rules and bypass off, a query
    for a name of at most ten labels and 128 bytes whose last label has an
    upper-case letter matches no rule and gets the default action. *)
Theorem ingress_mixed_case s cfg dg tx ls l rest :
  dp_wf s -> st_config s = [cfg] -> bypass cfg = 0 ->
  rules_named not_upper (st_rules s) ->
  dns_query cfg (data (st_skb s)) dg tx (ls ++ [l]) rest ->
  (length (ls ++ [l]) <= MAX_LABELS)%nat -> (length (wire (ls ++ [l])) <= KEY_LEN)%nat ->
  ~ Forall not_upper l ->
  routed cfg None s (run dns_gateway_ingress s).1.
Proof.
  intros Hwf Hcfg Hb Hr Hq Hn Hl Hup.
  pose proof (short_query_verdict cfg (st_rules s) _ dg tx _ rest Hb Hq Hn Hl) as Hv.
  rewrite lookup_suffix_None in Hv; [by eapply ingress_routed|].
  intros n Hlt. apply eq_None_not_Some. intros [v Hk].
  destruct (Hr _ _ Hk) as (ns&[_ Hns]&Hlow&Hlen&E).
  pose proof (q_valid _ _ _ _ _ _ Hq) as [_ Hvls].
  apply name_key_inj in E as <-; try done.
  - apply Hup. rewrite drop_app_le in Hlow by (rewrite length_app in Hlt; simpl in *; lia).
    apply Forall_app in Hlow as [_ Hlow]. by inversion Hlow.
  - by apply Forall_drop.
  - pose proof (length_wire_body_drop n (ls ++ [l])). unfold wire in Hl.
    rewrite length_app in Hl. cbn [length] in Hl. lia.
Qed.
End theorems.

(** ** The theorems on sample names *)

Ltac sample_query := split; first [reflexivity | apply (bool_decide_unpack _); by vm_compute | vm_compute; reflexivity].

Lemma rules_named_singleton P ns v :
  valid_name ns -> Forall (Forall P) ns -> (length (wire_body ns) < KEY_LEN)%nat ->
  rules_named P {[ name_key ns := v ]}.
Proof. intros ??? k v' [<- _]%lookup_singleton_Some. by exists ns. Qed.

Ltac sample_rules ns :=
  apply (rules_named_singleton _ ns); apply (bool_decide_unpack _); by vm_compute.

Lemma s3_dns_query fl :
  dns_query (sample_config ACTION_CLUSTER_RESOLVE) (data (st_skb (s3_query_state fl)))
    query_dgram 0x8a3f FOO_S3 (z2b [0; 1; 0; 1]).
Proof. sample_query. Qed.

Lemma default_host_query rules ls :
  (ls = REVERSE_NAME \/ ls = MIXED_S3 \/ ls = LONG_NAME) ->
  dns_query (sample_config ACTION_HOST_RESOLVE)
    (data (st_skb (default_host_state rules ls))) query_dgram 7 ls (z2b [0; 1; 0; 1]).
Proof. intros [->|[->| ->]]; sample_query. Qed.

(** foo.s3.amazonaws.com is redirected by the rule of s3.amazonaws.com. *)
Lemma ingress_most_specific_witness :
  let s := s3_query_state [] in
  best_rule (st_rules s) FOO_S3 (Some (SuffixValue ACTION_HOST_RESOLVE 0)) /\
  counted METRIC_REDIRECTED s (run dns_gateway_ingress s).1.
Proof.
  destruct (ingress_most_specific _ _ _ _ _ _ (dp_wfb_sound _ (s3_query_wf [])) eq_refl
    eq_refl (s3_dns_query _)) as (rule&Hb&_&_&Hr);
    [by apply (bool_decide_unpack _); vm_compute..|].
  assert (best_rule s3_rules FOO_S3 (Some (SuffixValue ACTION_HOST_RESOLVE 0))) as Hb'.
  { apply (best_some _ _ 1); [simpl; lia|by vm_compute|].
    intros [|m] ?; [by vm_compute|lia]. }
  split; [done|]. rewrite (best_rule_unique _ _ _ _ Hb Hb') in Hr.
  by apply (Hr eq_refl no_faults _ eq_refl).
Defined.

(** A reverse lookup is redirected although a rule keeps ip6.arpa in the
    cluster. *)
Lemma ingress_deep_name_witness :
  let s := default_host_state arpa_rules REVERSE_NAME in
  st_rules s !! name_key IP6_ARPA = Some (SuffixValue ACTION_CLUSTER_RESOLVE 0) /\
  counted METRIC_REDIRECTED s (run dns_gateway_ingress s).1.
Proof.
  split; [by vm_compute|].
  destruct (ingress_deep_name (default_host_state arpa_rules REVERSE_NAME)
    (sample_config ACTION_HOST_RESOLVE) query_dgram 7 REVERSE_NAME (z2b [0; 1; 0; 1]))
    as [_ Hr];
    [apply dp_wfb_sound; by vm_compute|done|done|sample_rules IP6_ARPA
    |apply default_host_query; by left|by apply (bool_decide_unpack _); vm_compute..|].
  by apply (Hr eq_refl no_faults _ eq_refl).
Defined.

Lemma ingress_long_name_witness :
  let s := default_host_state ∅ LONG_NAME in
  same_but_scratch (run dns_gateway_ingress s).1
    (count [METRIC_TOTAL_PACKETS; METRIC_DNS_QUERIES] s).
Proof.
  apply (ingress_long_name (default_host_state ∅ LONG_NAME)
    (sample_config ACTION_HOST_RESOLVE) query_dgram 7 LONG_NAME (z2b [0; 1; 0; 1]));
    [apply dp_wfb_sound; by vm_compute|done|done
    |apply default_host_query; by right; right|by apply (bool_decide_unpack _); vm_compute..].
Defined.

Lemma ingress_mixed_case_witness :
  let s := default_host_state s3_rules MIXED_S3 in
  counted METRIC_REDIRECTED s (run dns_gateway_ingress s).1.
Proof.
  destruct (ingress_mixed_case (default_host_state s3_rules MIXED_S3)
    (sample_config ACTION_HOST_RESOLVE) query_dgram 7 (take 3 MIXED_S3) (bytes_of "Com")
    (z2b [0; 1; 0; 1])) as [_ Hr];
    [apply dp_wfb_sound; by vm_compute|done|done|sample_rules S3
    |apply default_host_query; by right; left|by apply (bool_decide_unpack _); vm_compute..|].
  by apply (Hr eq_refl no_faults _ eq_refl).
Defined.
