(* ===== verification/System.v ===== *)
(** * The node: both programs over the shared maps

    [config_map], [suffix_rules] and [conntrack_map] are shared by all CPUs,
    [metrics_map] and [scratch_map] are per CPU.  [node_step] is the step
    relation: a packet through either hook on any CPU, the delete that a run
    still has to make, the control plane writing its maps, eviction from the
    LRU map, and the kernel moving on.

    A run touches [conntrack_map] when it looks an entry up or writes one, and
    again when it deletes it; these are two steps ([Delayed]), so that other
    CPUs can use the same entry in between.  A CPU runs one packet at a time.
    Everything else a run reads of shared state is fixed by its first step: the
    addresses and the port never change, and a bypass flag or a rule read before
    a concurrent write is one the program would have read had it come first. *)

From S2P Require Import Prelude.
From S2P Require Import Types.
From S2P Require Import Kernel.
From S2P Require Import Checksum.
From S2P Require Import NatRewrite.
From S2P Require Import Ingress.
From S2P Require Import Egress.
From S2P Require Import Delayed.
From S2P Require Import DnsName.
From S2P Require Import DatapathSpec.
From S2P Require Import Outcomes.
From S2P Require Import Reports.
From S2P Require Import RefKernel.
From S2P Require Import Samples.
From S2P Require Import IngressProps.
From S2P Require Import EgressProps.

Section node.
Context {H : BpfHelpers}.

(** One CPU's slots: its counters and its scratch buffer; and the key that its
    current run is about to delete. *)
Record cpu := Cpu {
  cpu_metrics : list Z; cpu_scratch : list scratch_buf; cpu_pending : option conntrack_key
}.

Record node := Node {
  nd_config : list gateway_config;
  nd_rules : rules_map;
  nd_ct : ct_map;
  nd_cpus : list cpu;
  nd_kern : kern
}.

(** What a program run on CPU [c] sees, and what it leaves. *)
Definition cpu_view (n : node) (c : cpu) (p : skb) : dp_state :=
  DpState p (nd_config n) (nd_rules n) (nd_ct n) (cpu_metrics c) (cpu_scratch c) (nd_kern n).

Definition write_back (n : node) (i : nat) (s : @dp_state (Delayed H)) : node :=
  Node (st_config s) (st_rules s) (st_ct s)
    (<[i := Cpu (st_metrics s) (st_scratch s) (st_kern s).2]> (nd_cpus n)) (st_kern s).1.

(** A run up to its delete. *)
Definition before_delete (p : @prog (Delayed H) Z) (s : dp_state) : @dp_state (Delayed H) :=
  (run p (delayed s)).1.

Definition ingress_part : dp_state -> @dp_state (Delayed H) :=
  before_delete (@dns_gateway_ingress (Delayed H)).
Definition egress_part : dp_state -> @dp_state (Delayed H) :=
  before_delete (@dns_gateway_egress (Delayed H)).

(** The delete that the run on CPU [i] has left. *)
Definition finish_delete (n : node) (i : nat) (c : cpu) (key : conntrack_key) : node :=
  let '(m, k) := do_delete key (nd_ct n) (nd_kern n) in
  Node (nd_config n) (nd_rules n) m
    (<[i := Cpu (cpu_metrics c) (cpu_scratch c) None]> (nd_cpus n)) k.

Definition with_bypass (b : Z) (c : gateway_config) : gateway_config :=
  GatewayConfig (coredns_ip c) (host_resolver_ip c) (dns_port c) b (default_action c).

Inductive node_step (n : node) : node -> Prop :=
  | step_ingress i c p :
      nd_cpus n !! i = Some c -> cpu_pending c = None -> skb_len p < 2 ^ 32 ->
      node_step n (write_back n i (ingress_part (cpu_view n c p)))
  | step_egress i c p :
      nd_cpus n !! i = Some c -> cpu_pending c = None -> skb_len p < 2 ^ 32 ->
      node_step n (write_back n i (egress_part (cpu_view n c p)))
  | step_delete i c key :
      nd_cpus n !! i = Some c -> cpu_pending c = Some key ->
      node_step n (finish_delete n i c key)
  | step_set_bypass b :
      is_u16 b ->
      node_step n (Node (with_bypass b <$> nd_config n) (nd_rules n) (nd_ct n)
                        (nd_cpus n) (nd_kern n))
  | step_set_rules rules :
      node_step n (Node (nd_config n) rules (nd_ct n) (nd_cpus n) (nd_kern n))
  | step_evict ct :
      ct ⊆ nd_ct n ->
      node_step n (Node (nd_config n) (nd_rules n) ct (nd_cpus n) (nd_kern n))
  | step_kern k :
      node_step n (Node (nd_config n) (nd_rules n) (nd_ct n) (nd_cpus n) k).

Record cpu_wf (c : cpu) : Prop := {
  cpu_metrics_len : length (cpu_metrics c) = METRIC__MAX;
  cpu_metrics_wf : Forall is_u64 (cpu_metrics c);
  cpu_scratch_len : length (cpu_scratch c) = 1%nat;
  cpu_scratch_wf : Forall scratch_wf (cpu_scratch c)
}.

(** Entries of [conntrack_map] hold the CoreDNS address of the configuration
    that startup wrote. *)
Definition entry_ok (cfg : gateway_config) (v : conntrack_value) : Prop :=
  conntrack_value_wf v /\ cv_coredns_ip v = coredns_ip cfg.

(** A node when startup is over: the configuration it wrote, no run under way,
    and for the rest zero counters and no entries, or what an earlier process
    left pinned and [LoadAndAssign] reused. *)
Record node_init (cfg : gateway_config) (n : node) : Prop := {
  init_config : nd_config n = [cfg];
  init_cfg_wf : gateway_config_wf cfg;
  init_ct : map_Forall (fun _ => entry_ok cfg) (nd_ct n);
  init_cpus : Forall cpu_wf (nd_cpus n);
  init_idle : Forall (fun c => cpu_pending c = None) (nd_cpus n)
}.

(** The sum of a counter over the CPUs. *)
Definition total (m : metric_id) (n : node) : Z :=
  foldr (fun c a => metric (cpu_metrics c) m + a) 0 (nd_cpus n).

(** ** Well-formed nodes *)

Record node_wf (cfg : gateway_config) (n : node) : Prop := {
  node_config : exists b, is_u16 b /\ nd_config n = [with_bypass b cfg];
  node_cfg_wf : gateway_config_wf cfg;
  node_ct : map_Forall (fun _ => entry_ok cfg) (nd_ct n);
  node_cpus : Forall cpu_wf (nd_cpus n)
}.
End node.

(** ** Invariants *)

Section invariants.
Context {H : BpfHelpers} {HK : BpfHelpersOk H}.
Implicit Types (n : node) (c : cpu).

Lemma with_bypass_wf b cfg :
  gateway_config_wf cfg -> is_u16 b -> gateway_config_wf (with_bypass b cfg).
Proof. by intros (?&?&?&?&?). Qed.

Lemma view_wf cfg n i c p :
  node_wf cfg n -> nd_cpus n !! i = Some c -> skb_len p < 2 ^ 32 -> dp_wf (cpu_view n c p).
Proof.
  intros [(b&Hb&Hcfg) Hw _ Hcpus] Hc Hp. eapply Forall_lookup_1 in Hcpus as []; [|done].
  split; simpl; try done; rewrite Hcfg; [done|].
  apply Forall_singleton. by apply with_bypass_wf.
Qed.

Lemma write_back_wf cfg n i (s : @dp_state (Delayed H)) :
  node_wf cfg n -> dp_wf (settle s) -> st_config (settle s) = nd_config n ->
  map_Forall (fun _ => entry_ok cfg) (st_ct s) -> node_wf cfg (write_back n i s).
Proof.
  destruct (settle_fields s) as (_&->&_&Hm&Hsc).
  intros [] [] Hcfg Hct. split; simpl; try done; [by rewrite Hcfg|].
  apply Forall_insert; [done|]. split; simpl; congruence.
Qed.

Lemma ct_entry_ok cfg b s :
  gateway_config_wf cfg -> is_u16 b -> entry_ok cfg (ct_entry (with_bypass b cfg) s).
Proof. intros Hw Hb. split; [|done]. by apply ct_entry_wf, with_bypass_wf. Qed.

(** A run up to its delete, on a well-formed node: with the delete it is the
    run, and the entries are good before the delete too. *)
Lemma part_run cfg n c p (prog : @prog H Z) prog' :
  (forall Good Entry,
     (forall a t, Good a -> is_u64 t -> Entry (ConntrackValue (coredns_ip a) 0 t)) ->
     Settles Good Entry prog prog') ->
  node_wf cfg n ->
  run prog (cpu_view n c p) =
    (settle (before_delete prog' (cpu_view n c p)), (run prog' (delayed (cpu_view n c p))).2) /\
  map_Forall (fun _ => entry_ok cfg) (st_ct (before_delete prog' (cpu_view n c p))).
Proof.
  intros Hp [(b&Hb&Hcfg) Hw Hct _].
  destruct (settles_run (fun a => exists b, is_u16 b /\ a = with_bypass b cfg) (entry_ok cfg)
    prog prog' (cpu_view n c p)) as [E [_ Hk]].
  - apply Hp. intros c' t (b'&?&->) Ht. split; [|done]. split; [apply Hw|done].
  - split; simpl; [rewrite Hcfg; apply Forall_singleton; by exists b|done].
  - by split.
Qed.

Lemma ingress_part_run cfg n c p :
  node_wf cfg n ->
  (run dns_gateway_ingress (cpu_view n c p)).1 = settle (ingress_part (cpu_view n c p)) /\
  map_Forall (fun _ => entry_ok cfg) (st_ct (ingress_part (cpu_view n c p))).
Proof.
  intros Hn. destruct (part_run cfg n c p dns_gateway_ingress dns_gateway_ingress) as [-> ?];
    [|done..]. intros. by apply settles_ingress.
Qed.

Lemma egress_part_run cfg n c p :
  node_wf cfg n ->
  (run dns_gateway_egress (cpu_view n c p)).1 = settle (egress_part (cpu_view n c p)) /\
  map_Forall (fun _ => entry_ok cfg) (st_ct (egress_part (cpu_view n c p))).
Proof.
  intros Hn. destruct (part_run cfg n c p dns_gateway_egress dns_gateway_egress) as [-> ?];
    [|done..]. intros. by apply settles_egress.
Qed.

(** It leaves the configuration and the rules. *)
Lemma ingress_part_frame cfg n i c p :
  node_wf cfg n -> nd_cpus n !! i = Some c -> skb_len p < 2 ^ 32 ->
  st_config (ingress_part (cpu_view n c p)) = nd_config n /\
  st_rules (ingress_part (cpu_view n c p)) = nd_rules n.
Proof.
  intros Hn Hc Hp. destruct (ingress_keeps_wf _ (view_wf _ _ _ _ _ Hn Hc Hp)) as [_ [Hpc Hpr]].
  destruct (ingress_part_run cfg n c p Hn) as [E _]. rewrite E in *.
  destruct (settle_fields (ingress_part (cpu_view n c p))) as (_&<-&<-&_). by split.
Qed.

Lemma egress_part_frame cfg n i c p :
  node_wf cfg n -> nd_cpus n !! i = Some c -> skb_len p < 2 ^ 32 ->
  st_config (egress_part (cpu_view n c p)) = nd_config n /\
  st_rules (egress_part (cpu_view n c p)) = nd_rules n.
Proof.
  intros Hn Hc Hp. destruct (egress_keeps_wf _ (view_wf _ _ _ _ _ Hn Hc Hp)) as (_&[Hpc Hpr]&_).
  destruct (egress_part_run cfg n c p Hn) as [E _]. rewrite E in *.
  destruct (settle_fields (egress_part (cpu_view n c p))) as (_&<-&<-&_). by split.
Qed.

Lemma finish_delete_wf cfg n i c key :
  node_wf cfg n -> nd_cpus n !! i = Some c -> node_wf cfg (finish_delete n i c key).
Proof.
  intros [] Hc. unfold finish_delete, do_delete.
  destruct (ct_delete_elem _ _ _) as [[rc m] k] eqn:E. apply ct_delete_result in E as ->.
  split; simpl; try done.
  - by apply map_Forall_delete.
  - apply Forall_insert; [done|]. eapply Forall_lookup_1 in Hc; [|done]. by destruct Hc.
Qed.

Lemma node_step_wf cfg n n' : node_wf cfg n -> node_step n n' -> node_wf cfg n'.
Proof.
  intros Hn. pose proof Hn as [(b&Hb&Hcfg) Hw Hct Hcpus].
  intros [i c p Hc _ Hp|i c p Hc _ Hp|i c key Hc _|b' Hb'|rules|ct Hsub|k].
  - pose proof (view_wf _ _ _ _ _ Hn Hc Hp) as Hv.
    destruct (ingress_keeps_wf _ Hv) as [Hv' [Hpc _]].
    destruct (ingress_part_run cfg n c p Hn) as [E Hk]. rewrite E in *. by apply write_back_wf.
  - pose proof (view_wf _ _ _ _ _ Hn Hc Hp) as Hv.
    destruct (egress_keeps_wf _ Hv) as (Hv'&[Hpc _]&_).
    destruct (egress_part_run cfg n c p Hn) as [E Hk]. rewrite E in *. by apply write_back_wf.
  - by apply finish_delete_wf.
  - split; simpl; try done. exists b'. by rewrite Hcfg.
  - split; try done. by exists b.
  - split; simpl; try done; [by exists b|]. by eapply map_Forall_subseteq.
  - split; try done. by exists b.
Qed.

Lemma node_init_wf cfg n : node_init cfg n -> node_wf cfg n.
Proof.
  intros [Hcfg Hw Hct Hcpus _]. split; try done.
  exists (bypass cfg). split; [apply Hw|]. rewrite Hcfg. by destruct cfg.
Qed.

Lemma reachable_wf cfg n0 n : node_init cfg n0 -> rtc node_step n0 n -> node_wf cfg n.
Proof.
  intros Hi Hr. apply node_init_wf in Hi. induction Hr; [done|].
  eauto using node_step_wf.
Qed.

(** C10. Addresses across packets and CPUs: in every reachable node, whatever
    packets, bypass changes, rule changes and evictions came before, a packet
    whose source an egress run rewrites leaves with the CoreDNS address of the
    startup configuration, even while bypass is on; the entries found at
    start-up, if the maps were pinned, are assumed to be of that address. *)
Theorem reachable_snat_source cfg n0 n i c p :
  node_init cfg n0 -> rtc node_step n0 n -> nd_cpus n !! i = Some c ->
  skb_len p < 2 ^ 32 ->
  let s := cpu_view n c p in
  let s' := (run dns_gateway_egress s).1 in
  counted METRIC_EGRESS_SNAT s s' -> readdressed SADDR_OFF (coredns_ip cfg) p (st_skb s').
Proof.
  intros Hi Hr Hc Hp. pose proof (reachable_wf _ _ _ Hi Hr) as Hn.
  pose proof (view_wf _ _ _ _ _ Hn Hc Hp) as Hv.
  pose proof Hn as [(b&Hb&Hcfg) Hw Hct _].
  change (nd_config n) with (st_config (cpu_view n c p)) in Hcfg.
  cbv zeta. egress_cases Hv Hcfg; intros; try absurd_count.
  destruct (Hct _ _ ltac:(done)) as [[? _] Hcd]. rewrite <- Hcd.
  by eapply restored_readdressed.
Qed.
End invariants.

(** Without another CPU in between, a run and its delete are the program as it
    is written. *)
Section then_delete.
Context {H : BpfHelpers}.

Definition then_delete (n : node) (i : nat) : node :=
  match nd_cpus n !! i with
  | Some c => match cpu_pending c with Some key => finish_delete n i c key | None => n end
  | None => n
  end.

Lemma then_delete_settle (n : node) i c s :
  nd_cpus n !! i = Some c ->
  then_delete (write_back n i s) i = write_back n i (delayed (settle s)).
Proof.
  intros Hc. unfold then_delete, settle, write_back, finish_delete. simpl.
  rewrite list_lookup_insert_eq by (by eapply lookup_lt_Some). simpl.
  destruct ((st_kern s).2) as [key|]; simpl; [|done].
  destruct (do_delete key (st_ct s) (st_kern s).1). simpl. by rewrite list_insert_insert_eq.
Qed.
End then_delete.

Section two_parts.
Context {H : BpfHelpers} {HK : BpfHelpersOk H}.

(** C5. A run is its two parts: on every reachable node, the steps of the ingress
    program and of the egress program up to the delete, followed at once by the
    delete they have left, if any, leave the maps, the counters, the packet and
    the kernel as the program's own run does; so a program deletes at most one
    entry, the delete is its last use of a shared map and of the packet, and it
    does not depend on the delete's result. *)
Theorem run_in_two_parts cfg n0 n i c p :
  node_init cfg n0 -> rtc node_step n0 n -> nd_cpus n !! i = Some c ->
  let s := cpu_view n c p in
  then_delete (write_back n i (ingress_part s)) i =
    write_back n i (delayed (run dns_gateway_ingress s).1) /\
  st_skb (ingress_part s) = st_skb (run dns_gateway_ingress s).1 /\
  then_delete (write_back n i (egress_part s)) i =
    write_back n i (delayed (run dns_gateway_egress s).1) /\
  st_skb (egress_part s) = st_skb (run dns_gateway_egress s).1.
Proof.
  intros Hi Hr Hc s. pose proof (reachable_wf _ _ _ Hi Hr) as Hn. subst s.
  rewrite !(then_delete_settle n i c) by done.
  destruct (ingress_part_run cfg n c p Hn) as [-> _]. destruct (egress_part_run cfg n c p Hn) as [-> _].
  split_and!; try done; symmetry; apply settle_fields.
Qed.
End two_parts.

(** ** The ledger of counters

    What the counters of a node have gained in fewer than [2^64] steps is exact,
    and it balances: each stage of a program counts at most once for each count
    of the stage before. *)

Definition ind (m : metric_id) (ms : list metric_id) : Z := if decide (m ∈ ms) then 1 else 0.

Section ledger.
Context {H : BpfHelpers} {HK : BpfHelpersOk H}.
Implicit Types (n : node) (c : cpu).

Definition grown (n0 n : node) (m : metric_id) : Z := total m n - total m n0.

Record ledger (n0 : node) (k : Z) (n : node) : Prop := {
  led_cpus : length (nd_cpus n) = length (nd_cpus n0);
  led_bound i c0 c m : nd_cpus n0 !! i = Some c0 -> nd_cpus n !! i = Some c ->
    metric (cpu_metrics c0) m <= metric (cpu_metrics c) m <= metric (cpu_metrics c0) m + k;
  led_resolved : grown n0 n METRIC_REDIRECTED + grown n0 n METRIC_CLUSTER_RESOLVED <=
    grown n0 n METRIC_SUFFIX_MATCH + grown n0 n METRIC_SUFFIX_NO_MATCH;
  led_matched : grown n0 n METRIC_SUFFIX_MATCH + grown n0 n METRIC_SUFFIX_NO_MATCH +
    grown n0 n METRIC_PARSE_ERROR <= grown n0 n METRIC_DNS_QUERIES;
  led_queries : grown n0 n METRIC_DNS_QUERIES + grown n0 n METRIC_BYPASS_ACTIVE <=
    grown n0 n METRIC_TOTAL_PACKETS;
  led_egress : grown n0 n METRIC_EGRESS_SNAT + grown n0 n METRIC_EGRESS_CONNTRACK_MISS <=
    grown n0 n METRIC_EGRESS_TOTAL;
  led_revert : grown n0 n METRIC_NAT_REVERT_FAIL <= grown n0 n METRIC_NAT_ERROR
}.

(** No counter of [n0] overflows in [k] increments. *)
Definition room (n0 : node) (k : Z) : Prop :=
  forall c m, c ∈ nd_cpus n0 -> metric (cpu_metrics c) m + k < 2 ^ 64.

Lemma counts_ind ms s s' m :
  dp_wf s -> counts ms s s' -> metric (st_metrics s) m < 2 ^ 64 - 1 ->
  metric (st_metrics s') m = metric (st_metrics s) m + ind m ms.
Proof.
  intros Hwf Hc Hm. rewrite (counts_metric ms s s') by done. unfold ind.
  pose proof (metric_u64 s m Hwf). unfold is_u64 in *. case_decide; [|lia].
  apply u64_small. unfold is_u64. lia.
Qed.

Lemma total_write_back m n i c s :
  nd_cpus n !! i = Some c ->
  total m (write_back n i s) =
    total m n - metric (cpu_metrics c) m + metric (st_metrics s) m.
Proof.
  unfold total. simpl. generalize (nd_cpus n). intros l. revert i.
  induction l as [|c' l IH]; intros [|i] Hc; simplify_eq/=; [lia|]. rewrite IH by done. lia.
Qed.

(** The counters of one run balance. *)
Definition balanced (ms : list metric_id) : bool :=
  let i m := ind m ms in
  (i METRIC_REDIRECTED + i METRIC_CLUSTER_RESOLVED <=?
     i METRIC_SUFFIX_MATCH + i METRIC_SUFFIX_NO_MATCH) &&
  (i METRIC_SUFFIX_MATCH + i METRIC_SUFFIX_NO_MATCH + i METRIC_PARSE_ERROR <=?
     i METRIC_DNS_QUERIES) &&
  (i METRIC_DNS_QUERIES + i METRIC_BYPASS_ACTIVE <=? i METRIC_TOTAL_PACKETS) &&
  (i METRIC_EGRESS_SNAT + i METRIC_EGRESS_CONNTRACK_MISS <=? i METRIC_EGRESS_TOTAL) &&
  (i METRIC_NAT_REVERT_FAIL <=? i METRIC_NAT_ERROR).

(** One run on a CPU whose counters have not overflowed. *)
Lemma ledger_run n0 k n i c p s ms :
  0 <= k -> room n0 (k + 1) -> nd_cpus n !! i = Some c -> ledger n0 k n ->
  dp_wf (cpu_view n c p) -> counts ms (cpu_view n c p) (settle s) -> balanced ms = true ->
  ledger n0 (k + 1) (write_back n i s).
Proof.
  intros Hk Hroom Hc [] Hwf Hms Hbal. unfold balanced in Hbal.
  rewrite !andb_true_iff, !Z.leb_le in Hbal.
  destruct (settle_fields s) as (_&_&_&Hst&_).
  assert (forall m, metric (st_metrics s) m = metric (cpu_metrics c) m + ind m ms) as Hm.
  { intros m. rewrite <- Hst. apply (counts_ind ms (cpu_view n c p)); try done. simpl.
    destruct (lookup_lt_is_Some_2 (nd_cpus n0) i) as [c0 Hc0].
    { rewrite <- led_cpus0. by eapply lookup_lt_Some. }
    specialize (led_bound0 _ _ _ m Hc0 Hc).
    pose proof (Hroom c0 m ltac:(by eapply list_elem_of_lookup_2)). lia. }
  assert (forall m, grown n0 (write_back n i s) m = grown n0 n m + ind m ms) as Ht.
  { intros m. unfold grown. rewrite (total_write_back m n i c) by done. rewrite Hm. lia. }
  split; rewrite ?Ht; simpl; try lia; [by rewrite length_insert|].
  intros j c0 c' m Hj0 Hj. apply list_lookup_insert_Some in Hj as [(<-&<-&_)|[_ Hj]]; simpl.
  - rewrite Hm. specialize (led_bound0 _ _ _ m Hj0 Hc). unfold ind. case_decide; lia.
  - specialize (led_bound0 _ _ _ m Hj0 Hj). lia.
Qed.

Ltac each_report Hr :=
  destruct Hr; passed_counters;
  repeat match goal with r : option suffix_value |- _ => destruct r end.

Lemma ingress_balanced cfg s s' ms : ingress_report cfg s s' ms -> balanced ms = true.
Proof. intros Hr. by each_report Hr. Qed.

Lemma egress_balanced cfg s s' ms : egress_report cfg s s' ms -> balanced ms = true.
Proof. intros Hr. by each_report Hr. Qed.

Lemma total_metrics m n :
  total m n = foldr (fun l a => metric l m + a) 0 (map cpu_metrics (nd_cpus n)).
Proof. unfold total. by induction (nd_cpus n) as [|c l IH]; simpl; [|rewrite IH]. Qed.

Lemma ledger_keep n0 k n n' :
  map cpu_metrics (nd_cpus n') = map cpu_metrics (nd_cpus n) ->
  ledger n0 k n -> ledger n0 (k + 1) n'.
Proof.
  intros Hc []. assert (forall m, grown n0 n' m = grown n0 n m) as Ht
    by (intros m; unfold grown; by rewrite !total_metrics, Hc).
  split; rewrite ?Ht; try done.
  { apply (f_equal length) in Hc. rewrite !length_map in Hc. lia. }
  intros i c0 c m H0 Hi. apply (f_equal (fun l => l !! i)) in Hc.
  rewrite !list_lookup_fmap, Hi in Hc. simpl in Hc.
  destruct (nd_cpus n !! i) as [c1|] eqn:H1; [|done]. injection Hc as Hc.
  rewrite Hc. specialize (led_bound0 _ _ _ m H0 H1). lia.
Qed.

Lemma finish_delete_metrics n i c key :
  nd_cpus n !! i = Some c ->
  map cpu_metrics (nd_cpus (finish_delete n i c key)) = map cpu_metrics (nd_cpus n).
Proof.
  intros Hc. unfold finish_delete. destruct (do_delete _ _ _). simpl.
  rewrite (list_fmap_insert cpu_metrics). simpl. apply list_insert_id.
  by rewrite list_lookup_fmap, Hc.
Qed.

(** The counters of a run that has its delete still to come. *)
Lemma ingress_part_counts cfg n i c p :
  node_wf cfg n -> nd_cpus n !! i = Some c -> skb_len p < 2 ^ 32 ->
  exists ms, counts ms (cpu_view n c p) (settle (ingress_part (cpu_view n c p))) /\
    balanced ms = true.
Proof.
  intros Hn Hc Hp. pose proof (view_wf _ _ _ _ _ Hn Hc Hp) as Hv.
  destruct (ingress_part_run cfg n c p Hn) as [<- _]. destruct Hn as [(b&_&Hcfg) _ _ _].
  destruct (ingress_run_report _ _ Hv Hcfg) as (s'&ms&->&_&_&Hms&Hr).
  exists ms. split; [done|]. by eapply ingress_balanced.
Qed.

Lemma egress_part_counts cfg n c p :
  node_wf cfg n ->
  exists ms, counts ms (cpu_view n c p) (settle (egress_part (cpu_view n c p))) /\
    balanced ms = true.
Proof.
  intros Hn. destruct (egress_part_run cfg n c p Hn) as [<- _]. destruct Hn as [(b&_&Hcfg) _ _ _].
  destruct (egress_run_report (cpu_view n c p) _ Hcfg) as (s'&ms&->&_&_&Hms&Hr).
  exists ms. split; [done|]. by eapply egress_balanced.
Qed.

Lemma ledger_step cfg n0 k n n' :
  0 <= k -> room n0 (k + 1) -> node_wf cfg n -> ledger n0 k n -> node_step n n' ->
  ledger n0 (k + 1) n'.
Proof.
  intros Hk Hroom Hn Hl Hs. pose proof (view_wf cfg n) as Hv.
  destruct Hs as [i c p Hc _ Hp|i c p Hc _ Hp|i c key Hc _|b' Hb'|rules|ct Hsub|k'];
    [| |by apply (ledger_keep n0 k n); [by apply finish_delete_metrics|]
     |by apply (ledger_keep n0 k n)..].
  - destruct (ingress_part_counts cfg n i c p) as (ms&?&?); [done..|]. by eapply ledger_run; eauto.
  - destruct (egress_part_counts cfg n c p) as (ms&?&?); [done..|]. by eapply ledger_run; eauto.
Qed.

Lemma ledger_init n : ledger n 0 n.
Proof.
  split; unfold grown; try lia. intros i c0 c m H0 Hc. assert (c = c0) as -> by congruence. lia.
Qed.

Lemma ledger_steps cfg n0 k n n' :
  nsteps node_step k n n' -> forall j, node_wf cfg n -> ledger n0 (Z.of_nat j) n ->
  room n0 (Z.of_nat (k + j)) -> ledger n0 (Z.of_nat (k + j)) n'.
Proof.
  induction 1 as [n|k n1 n2 n3 Hstep _ IH]; intros j Hw Hl Hk; [done|].
  replace (S k + j)%nat with (k + S j)%nat in * by lia.
  apply IH; [by eapply node_step_wf| |done].
  rewrite Nat2Z.inj_succ, <- Z.add_1_r. eapply ledger_step; try done; [lia|].
  intros c m Hc. specialize (Hk c m Hc). lia.
Qed.

(** C24. The counters balance.  From the node that startup leaves, through any
    packets on any CPUs, with the delete of each run at any later time,
    control-plane writes, evictions and helper failures, for as many steps as no
    counter overflows: no counter goes down, and of what the counters gained,
    each query was resolved at most once and by one action, each resolved query
    was matched or unmatched, each query was a packet of which no bypass was
    counted, no egress packet was both restored and missed, and each failed
    rollback was a failed rewrite. *)
Theorem counters_balance cfg n0 n k :
  node_init cfg n0 -> nsteps node_step k n0 n -> room n0 (Z.of_nat k) ->
  ledger n0 (Z.of_nat k) n.
Proof.
  intros Hi Hs Hk. pose proof (node_init_wf _ _ Hi) as Hw.
  rewrite <- (Nat.add_0_r k) in Hk |- *. eapply ledger_steps; [done..|apply ledger_init|done].
Qed.
End ledger.

(** ** A query and its reply *)

(** The packet [d] is the host resolver's reply to the query [dg] with
    transaction id [tx], as the resolver sends it. *)
Record reply_to (cfg : gateway_config) (dg : dgram) (tx : Z) (d : list byte) (dgq : dgram)
    : Prop := {
  r_dgram : parse_dgram d = Some dgq;
  r_saddr : dg_saddr dgq = host_resolver_ip cfg;
  r_sport : dg_sport dgq = dns_port cfg;
  r_daddr : dg_daddr dgq = dg_saddr dg;
  r_dport : dg_dport dgq = dg_sport dg;
  r_tx : be16_at (dns_off dgq) d = tx;
  r_len : dns_off dgq + 12 <= Z.of_nat (length d)
}.

(** What a client expects of a reply: the query's end points, swapped. *)
Definition answers (dg dgq : dgram) : Prop :=
  dg_saddr dgq = dg_daddr dg /\ dg_sport dgq = dg_dport dg /\
  dg_daddr dgq = dg_saddr dg /\ dg_dport dgq = dg_sport dg.

Section round_trip.
Context {H : BpfHelpers} {HK : BpfHelpersOk H}.

Lemma reply_flow cfg dg tx d dgq :
  reply_to cfg dg tx d dgq -> egress_flow cfg d = Some (dgq, query_key dg tx).
Proof.
  intros []. unfold egress_flow, query_key. rewrite r_dgram0. simpl.
  rewrite r_saddr0, r_sport0, r_daddr0, r_dport0, r_tx0, !Z.eqb_refl. simpl.
  by rewrite (proj2 (Z.leb_le _ _)).
Qed.

(** A rewritten source leaves the datagram otherwise as it was. *)
Lemma readdressed_dgram new p p' dg :
  readdressed SADDR_OFF new p p' -> parse_dgram (data p) = Some dg ->
  parse_dgram (data p') =
    Some (Dgram new (dg_daddr dg) (dg_sport dg) (dg_dport dg) (dg_udp_off dg)).
Proof.
  intros [Hlen Ha Hrest _ _] Hdg. change SADDR_OFF with 26 in *. change IP_CSUM_OFF with 24 in *.
  unfold skb_len in Hlen.
  assert (forall off n, 0 <= off -> (off + n <= 26 \/ 30 <= off) -> (off + n <= 24 \/ 26 <= off) ->
    (off + n <= ip_udp_off (data p) + 6 \/ ip_udp_off (data p) + 8 <= off) ->
    field off n (data p') = field off n (data p)) as Hf
    by (intros; unfold field; by rewrite Hrest by (done || lia)).
  pose proof (ip_udp_off_range (data p)).
  destruct (parse_dgram_Some _ _ Hdg) as (Edg&Hl&Hih&Hu).
  assert (forall d, ip_hdr_len d = 4 * Z.land (field 14 1 d) 15) as Hi.
  { intros d. unfold ip_hdr_len. simpl. change ETH_HLEN with 14. by rewrite field_slice by lia. }
  assert (34 <= ip_udp_off (data p)) by (unfold ip_udp_off, ETH_HLEN; lia).
  assert (ip_hdr_len (data p') = ip_hdr_len (data p)) as Hh.
  { rewrite !Hi. by rewrite Hf by lia. }
  assert (ip_udp_off (data p') = ip_udp_off (data p)) as Ho by (unfold ip_udp_off; by rewrite Hh).
  revert Hdg. unfold parse_dgram. rewrite Hlen, Hh, Ho, Ha, !Hf by lia.
  destruct (_ && _); [|done]. by intros [= <-].
Qed.

(** C3. Transparency of the detour: a redirected query's reply from the host
    resolver, arriving on any CPU within the TTL while its entry is in the map,
    whether or not bypass was switched on in between, on a kernel on which no
    helper call of the egress run fails for want of a resource, reaches the pod
    as an answer from the address and port the pod had asked, with its checksums
    kept correct, and the entry is consumed.  (When a helper does fail, the
    reply passes with the resolver's address and NAT_ERROR is counted.) *)
Theorem round_trip s s2 cfg b dg tx rule dgq up :
  dp_wf s -> st_config s = [cfg] -> query_verdict_of cfg s = VQuery dg tx rule ->
  counted METRIC_REDIRECTED s (run dns_gateway_ingress s).1 ->
  dp_wf s2 -> st_config s2 = [with_bypass b cfg] ->
  st_ct s2 !! query_key dg tx = st_ct (run dns_gateway_ingress s).1 !! query_key dg tx ->
  now s <= now s2 <= now s + CONNTRACK_TTL_NS ->
  BpfHelpersUp H up -> up (st_kern s2) ->
  reply_to cfg dg tx (data (st_skb s2)) dgq ->
  let s3 := (run dns_gateway_egress s2).1 in
  readdressed SADDR_OFF (dg_daddr dg) (st_skb s2) (st_skb s3) /\
  (exists dg3, parse_dgram (data (st_skb s3)) = Some dg3 /\ answers dg dg3) /\
  st_ct s3 !! query_key dg tx = None.
Proof.
  intros Hwf Hcfg Hv Hred Hwf2 Hcfg2 Hct Ht Hup Hk Hreply s3.
  destruct (dp_wf_config s Hwf) as (?&Hcfg'&Hcw). assert (x = cfg) as -> by congruence.
  destruct (ingress_verdict_query _ _ _ _ _ _ Hv) as (_&_&Hda&Hdp&_).
  assert (st_ct s2 !! query_key dg tx = Some (ct_entry cfg s)) as Hent.
  { rewrite Hct. destruct (ingress_run_report _ _ Hwf Hcfg) as (s'&ms&Hrun&_&_&Hc&Hr).
    rewrite Hrun in *. simpl in *. apply (counted_iff ms) in Hred; [|done..].
    destruct Hr as [| | |dg' tx' rule' Hv' _ _ He _| |]; passed_counters; try absurd_count.
    by rewrite Hv in Hv'; simplify_eq. }
  assert (entry_age s2 (ct_entry cfg s) <= CONNTRACK_TTL_NS) as Hage.
  { unfold entry_age. change (ktime_get_ns (st_kern s2)).1 with (now s2). simpl.
    unfold u64, CONNTRACK_TTL_NS in *. rewrite Z.mod_small; lia. }
  pose proof (reply_flow _ _ _ _ _ Hreply) as Hf.
  assert (counted METRIC_EGRESS_SNAT s2 s3) as Hsnat.
  { apply (counted_iff [METRIC_EGRESS_TOTAL; METRIC_EGRESS_SNAT]); [done| |by right; left].
    split; [by apply (bool_decide_unpack _)|]. unfold s3.
    rewrite egress_staged_run. unfold egress_staged. rewrite Hcfg2. simpl.
    change (egress_flow (with_bypass b cfg)) with (egress_flow cfg). rewrite Hf.
    destruct (flow_site _ _ _ _ Hf) as (?&_&?&->&Hs).
    by erewrite (egress_restore_up up). }
  clear Hred. revert Hsnat. subst s3. egress_cases Hwf2 Hcfg2; intros; try absurd_count.
  change (egress_flow (with_bypass b cfg)) with (egress_flow cfg) in *. simplify_eq.
  assert (readdressed SADDR_OFF (coredns_ip cfg) (st_skb s2) (st_skb s')) as Hrd.
  { eapply (restored_readdressed cfg); [apply Hcw|done..]. }
  rewrite Hda. split_and!; [done| |].
  - eexists. split; [eapply readdressed_dgram; [done|apply Hreply]|].
    destruct Hreply. split_and!; simpl; congruence.
  - match goal with E : st_ct s' = _ |- _ => rewrite E end. apply lookup_delete_eq.
Qed.

End round_trip.

(** ** The theorems on a query and its reply *)

(** A CPU on which no program has run. *)
Definition cpu_init : cpu :=
  Cpu (replicate METRIC__MAX 0)
    [ScratchBuf (replicate (Z.to_nat MAX_DNS_NAME_LEN) Byte.x00)
       (replicate (Z.to_nat MAX_DNS_NAME_LEN) Byte.x00)] None.

Lemma cpu_init_wf : cpu_wf cpu_init.
Proof.
  split; try done; [by apply Forall_replicate|].
  apply Forall_singleton. split; apply length_replicate.
Qed.

Definition node0 : node :=
  Node [sample_config ACTION_HOST_RESOLVE] ∅ ∅ [cpu_init; cpu_init] (RefKern [] 1000).

Definition query_skb : skb := Skb (query_packet 0x8a3f FOO_S3) false.
Definition reply_skb : skb := Skb (reply_packet 0x8a3f FOO_S3) false.

(** The query on CPU 0; its reply comes on CPU 1. *)
Definition node1 : node :=
  write_back node0 0 (ingress_part (cpu_view node0 cpu_init query_skb)).

Lemma node0_init : node_init (sample_config ACTION_HOST_RESOLVE) node0.
Proof.
  split; [done| |done| |by repeat constructor].
  - apply config_wfb_sound. by vm_compute.
  - do 2 (constructor; [apply cpu_init_wf|]). constructor.
Qed.

Lemma node1_step : node_step node0 node1.
Proof. by apply (step_ingress node0 0 cpu_init query_skb). Qed.

Lemma reachable_snat_source_witness :
  let s' := (run dns_gateway_egress (cpu_view node1 cpu_init reply_skb)).1 in
  readdressed SADDR_OFF (addr COREDNS) reply_skb (st_skb s').
Proof.
  apply (reachable_snat_source (sample_config ACTION_HOST_RESOLVE) node0 node1 1 cpu_init);
    [exact node0_init|apply rtc_once; exact node1_step|reflexivity|reflexivity|].
  by apply (bool_decide_unpack _); vm_compute.
Defined.

Lemma counters_balance_witness :
  ledger node0 1 node1 /\ total METRIC_REDIRECTED node1 = 1.
Proof.
  split; [|by vm_compute].
  apply (counters_balance (sample_config ACTION_HOST_RESOLVE) node0 node1 1);
    [exact node0_init|apply nsteps_once; exact node1_step|].
  intros c m Hc. assert (c = cpu_init) as -> by set_solver. by destruct m.
Defined.

(** Two copies of the reply, on the two CPUs: each run finds the entry before
    the other has deleted it. *)
Definition node2 : node := write_back node1 1 (egress_part (cpu_view node1 cpu_init reply_skb)).
Definition cpu0_after : cpu := default cpu_init (nd_cpus node2 !! 0%nat).
Definition node3 : node := write_back node2 0 (egress_part (cpu_view node2 cpu0_after reply_skb)).

Lemma node3_run : rtc node_step node0 node3.
Proof.
  eapply rtc_l; [exact node1_step|].
  eapply rtc_l; [by apply (step_egress node1 1 cpu_init reply_skb)|].
  apply rtc_once. apply (step_egress node2 0 cpu0_after reply_skb); vm_compute; reflexivity.
Qed.

Lemma then_delete_steps {H : BpfHelpers} (n : node) i : rtc node_step n (then_delete n i).
Proof.
  unfold then_delete. destruct (nd_cpus n !! i) as [c|] eqn:Hc; [|done].
  destruct (cpu_pending c) eqn:Hp; [|done]. apply rtc_once. by apply step_delete.
Qed.

Lemma node3_deletes : rtc node_step node3 (then_delete (then_delete node3 0) 1).
Proof. etrans; apply then_delete_steps. Qed.

(** Two copies of a reply may both be restored.  The second lookup can come
    before the first delete: a query is redirected, two copies of the resolver's
    reply arrive on two CPUs, both leave with the CoreDNS address, both are
    counted as restored, and the one entry is deleted twice; so the restored
    replies may outnumber the redirected queries. *)
Theorem copies_both_restored :
  rtc node_step node0 node3 /\
  total METRIC_REDIRECTED node3 = 1 /\ total METRIC_EGRESS_SNAT node3 = 2 /\
  dg_saddr <$> parse_dgram (data reply_skb) = Some (addr RESOLVER) /\
  dg_saddr <$> parse_dgram (data (st_skb (egress_part (cpu_view node1 cpu_init reply_skb)))) =
    Some (addr COREDNS) /\
  dg_saddr <$> parse_dgram (data (st_skb (egress_part (cpu_view node2 cpu0_after reply_skb)))) =
    Some (addr COREDNS) /\
  rtc node_step node3 (then_delete (then_delete node3 0) 1) /\
  nd_ct (then_delete node3 0) = ∅ /\ nd_ct (then_delete (then_delete node3 0) 1) = ∅.
Proof.
  split; [exact node3_run|]. do 5 (split; [vm_compute; reflexivity|]).
  split; [exact node3_deletes|]. split; vm_compute; reflexivity.
Qed.

Lemma run_in_two_parts_witness :
  then_delete node2 1 =
    write_back node1 1 (delayed (run dns_gateway_egress (cpu_view node1 cpu_init reply_skb)).1).
Proof.
  apply (run_in_two_parts (sample_config ACTION_HOST_RESOLVE) node0 node1 1 cpu_init reply_skb);
    [exact node0_init|apply rtc_once; exact node1_step|reflexivity].
Defined.

Lemma sample_reply :
  reply_to (sample_config ACTION_CLUSTER_RESOLVE) query_dgram 0x8a3f
    (data (st_skb (s3_reply_state [] 2000))) sample_dgram.
Proof. split; [vm_compute; reflexivity..|vm_compute; discriminate]. Qed.

Lemma round_trip_witness :
  let s3 := (run dns_gateway_egress (s3_reply_state [] 2000)).1 in
  readdressed SADDR_OFF (addr COREDNS) (st_skb (s3_reply_state [] 2000)) (st_skb s3).
Proof.
  destruct (round_trip (s3_query_state []) (s3_reply_state [] 2000)
    (sample_config ACTION_CLUSTER_RESOLVE) 0 query_dgram 0x8a3f
    (Some (SuffixValue ACTION_HOST_RESOLVE 0)) sample_dgram no_faults
    (dp_wfb_sound _ (s3_query_wf [])) eq_refl ltac:(vm_compute; reflexivity)
    ltac:(apply (bool_decide_unpack _); vm_compute; exact I)
    (dp_wfb_sound _ (s3_reply_wf [] 2000)) eq_refl ltac:(vm_compute; reflexivity)
    ltac:(vm_compute; split; discriminate) _ eq_refl sample_reply) as [Hrd _].
  exact Hrd.
Defined.
