(* ===== verification/GoStrings.v ===== *)
(** * Go strings

    A Go string is a byte list.  The functions of package [strings] the
    controller uses, with separators specialised to the dot. *)

From S2P Require Import Prelude.

Abbreviation gostring := (list byte).

Definition DOT : byte := Byte.x2e.
Definition STAR : byte := Byte.x2a.

(** [strings.TrimSuffix(s, ".")]: at most one trailing dot. *)
Definition TrimSuffixDot (s : gostring) : gostring :=
  match rev s with
  | b :: r => if decide (b = DOT) then rev r else s
  | [] => s
  end.

(** [strings.HasPrefix(s, p)] and [strings.Contains(s, "*")]. *)
Definition HasPrefix (s p : gostring) : bool := bool_decide (p `prefix_of` s).
Definition ContainsStar (s : gostring) : bool := bool_decide (STAR ∈ s).

(** [strings.Split(s, ".")]; a string without a dot is its own only piece. *)
Fixpoint SplitDot (s : gostring) : list gostring :=
  match s with
  | [] => [[]]
  | b :: s =>
      if decide (b = DOT) then [] :: SplitDot s
      else match SplitDot s with
           | l :: ls => (b :: l) :: ls
           | [] => [[b]]
           end
  end.

(** [strings.Join(ls, ".")]. *)
Fixpoint JoinDot (ls : list gostring) : gostring :=
  match ls with
  | [] => []
  | [l] => l
  | l :: ls => l ++ DOT :: JoinDot ls
  end.

(** [strings.ToLower]: the ASCII path; a string with a byte of [0x80] or more
    goes through the Unicode tables, which [unicode_lower] stands for. *)
Definition is_ascii (s : gostring) : bool := forallb (fun b => ub b <? 128) s.

Definition lower_byte (b : byte) : byte :=
  if (65 <=? ub b) && (ub b <=? 90) then byte_of_Z (ub b + 32) else b.

Definition ToLower (unicode_lower : gostring -> gostring) (s : gostring) : gostring :=
  if is_ascii s then map lower_byte s else unicode_lower s.

(** ** Splitting and joining *)

Definition no_dot (l : gostring) : Prop := DOT ∉ l.

#[export] Instance no_dot_dec l : Decision (no_dot l).
Proof. unfold no_dot. apply _. Defined.

Lemma SplitDot_nonempty s : SplitDot s <> [].
Proof. destruct s; simpl; [done|]. repeat case_match; done. Qed.

Lemma SplitDot_no_dot s : Forall no_dot (SplitDot s).
Proof.
  unfold no_dot. induction s as [|b s IH]; simpl.
  { repeat constructor. by apply not_elem_of_nil. }
  case_decide as Hb; [constructor; [by apply not_elem_of_nil|done]|].
  destruct (SplitDot s) as [|l ls].
  - repeat constructor. rewrite list_elem_of_singleton. congruence.
  - inversion IH; subst. constructor; [|done]. rewrite elem_of_cons. intros [?|?]; congruence.
Qed.

Lemma JoinDot_cons l ls : ls <> [] -> JoinDot (l :: ls) = l ++ DOT :: JoinDot ls.
Proof. by destruct ls. Qed.

Lemma JoinDot_SplitDot s : JoinDot (SplitDot s) = s.
Proof.
  induction s as [|b s IH]; simpl; [done|]. pose proof (SplitDot_nonempty s).
  case_decide as Hb.
  - rewrite JoinDot_cons, IH by done. by subst.
  - destruct (SplitDot s) as [|l [|l' ls]] eqn:E; [done|by rewrite <- IH|].
    rewrite JoinDot_cons by done. rewrite JoinDot_cons in IH by done. by rewrite <- IH.
Qed.

Lemma SplitDot_app l s : no_dot l -> SplitDot (l ++ DOT :: s) = l :: SplitDot s.
Proof.
  unfold no_dot. induction l as [|b l IH]; intros Hl; simpl; [by rewrite ?decide_True|].
  apply not_elem_of_cons in Hl as [??]. rewrite decide_False by congruence. by rewrite IH.
Qed.

Lemma SplitDot_single l : no_dot l -> SplitDot l = [l].
Proof.
  unfold no_dot. induction l as [|b l IH]; intros Hl; simpl; [done|].
  apply not_elem_of_cons in Hl as [??]. rewrite decide_False by congruence. by rewrite IH.
Qed.

Lemma SplitDot_JoinDot ls : ls <> [] -> Forall no_dot ls -> SplitDot (JoinDot ls) = ls.
Proof.
  intros Hne Hls. induction Hls as [|l ls Hl Hls IH]; [done|].
  destruct ls as [|l' ls]; [by apply SplitDot_single|].
  rewrite JoinDot_cons, SplitDot_app by done. by rewrite IH.
Qed.

(** ** Case *)

Lemma lower_byte_idem b : lower_byte (lower_byte b) = lower_byte b.
Proof.
  unfold lower_byte. pose proof (ub_range b).
  destruct ((65 <=? ub b) && (ub b <=? 90)) eqn:E; [|by rewrite E].
  rewrite andb_true_iff, !Z.leb_le in E. rewrite ub_byte_of_Z, Z.mod_small by lia.
  by rewrite (proj2 (Z.leb_gt (ub b + 32) 90)), andb_false_r by lia.
Qed.

Lemma lower_byte_not_upper b : ~ (65 <= ub (lower_byte b) <= 90).
Proof.
  unfold lower_byte. pose proof (ub_range b).
  destruct (Z.leb_spec 65 (ub b)), (Z.leb_spec (ub b) 90); simpl; try lia.
  rewrite ub_byte_of_Z, Z.mod_small by lia. lia.
Qed.

Lemma lower_byte_id b : ~ (65 <= ub b <= 90) -> lower_byte b = b.
Proof.
  unfold lower_byte. intros. destruct (Z.leb_spec 65 (ub b)), (Z.leb_spec (ub b) 90);
    simpl; done || lia.
Qed.

Lemma ToLower_id ul s :
  is_ascii s = true -> Forall (fun b => ~ (65 <= ub b <= 90)) s -> ToLower ul s = s.
Proof.
  intros Ha Hs. unfold ToLower. rewrite Ha. clear Ha. induction Hs as [|b s Hb _ IH]; [done|].
  simpl. rewrite IH. f_equal. by apply lower_byte_id.
Qed.

(** ** The trailing dot *)

Lemma TrimSuffixDot_snoc s : TrimSuffixDot (s ++ [DOT]) = s.
Proof.
  unfold TrimSuffixDot. rewrite rev_app_distr. simpl.
  by rewrite ?decide_True, rev_involutive.
Qed.

Lemma TrimSuffixDot_cases s :
  TrimSuffixDot s = s \/ (exists s', s = s' ++ [DOT] /\ TrimSuffixDot s = s').
Proof.
  destruct s as [|b s _] using rev_ind; [by left|].
  destruct (decide (b = DOT)) as [->|Hb].
  - right. exists s. split; [done|]. apply TrimSuffixDot_snoc.
  - left. unfold TrimSuffixDot. rewrite rev_app_distr. simpl. by rewrite decide_False.
Qed.

Lemma SplitDot_snoc s : SplitDot (s ++ [DOT]) = SplitDot s ++ [[]].
Proof.
  induction s as [|b s IH]; simpl; [by rewrite ?decide_True|].
  case_decide; rewrite IH; [done|].
  destruct (SplitDot s) eqn:E; [by apply SplitDot_nonempty in E|done].
Qed.

Lemma TrimSuffixDot_JoinDot ls :
  ls <> [] -> Forall no_dot ls -> Forall (fun l => l <> []) ls ->
  TrimSuffixDot (JoinDot ls) = JoinDot ls.
Proof.
  intros Hne Hd Hl. destruct (TrimSuffixDot_cases (JoinDot ls)) as [?|(s&E&_)]; [done|].
  apply (f_equal SplitDot) in E. rewrite SplitDot_JoinDot, SplitDot_snoc in E by done.
  rewrite E in Hl. apply Forall_app in Hl as [_ Hl]. by inversion Hl.
Qed.

(** A dotted string satisfies what its dots and labels satisfy. *)
Lemma Forall_JoinDot (P : byte -> Prop) ls :
  P DOT -> Forall (Forall P) ls -> Forall P (JoinDot ls).
Proof.
  intros HP Hls. induction Hls as [|l ls Hl Hls IH]; [constructor|].
  destruct ls as [|l' ls]; [done|]. rewrite JoinDot_cons by done.
  apply Forall_app. by split; [|constructor].
Qed.

Lemma Forall_SplitDot (P : byte -> Prop) s :
  Forall P s -> Forall (Forall P) (SplitDot s).
Proof.
  induction 1 as [|b s Hb Hs IH]; simpl; [by repeat constructor|].
  case_decide; [by constructor|].
  destruct (SplitDot s); [by repeat constructor|]. inversion IH; subst. by repeat constructor.
Qed.

Lemma is_ascii_spec s : is_ascii s = true <-> Forall (fun b => ub b < 128) s.
Proof.
  unfold is_ascii. rewrite forallb_forall, List.Forall_forall.
  split; intros Hs b Hb; apply Z.ltb_lt; auto.
Qed.
