(* ===== verification/GoNet.v ===== *)
(** * Go's [net] and [strconv]: addresses, ports, integers

    The functions of the standard library the configuration goes through:
    [net.ParseIP] (through [netip.ParseAddr]), [IP.To4], [net.SplitHostPort] and
    [strconv.Atoi].  A nil result is [None]; what their errors say is not used. *)

From stdpp Require Import strings.
From S2P Require Import Prelude.
From S2P Require Import GoStrings.

Definition COLON : byte := Byte.x3a.
Definition PERCENT : byte := Byte.x25.

(** ** Decimal numbers *)

Definition dec_digit (b : byte) : option Z :=
  if (48 <=? ub b) && (ub b <=? 57) then Some (ub b - 48) else None.

(** The value of a string of decimal digits. *)
Fixpoint dec_value (acc : Z) (s : gostring) : option Z :=
  match s with
  | [] => Some acc
  | b :: s => d ← dec_digit b; dec_value (10 * acc + d) s
  end.

(** [strconv.Atoi] for a 64-bit [int]. *)
Definition Atoi (s : gostring) : option Z :=
  let '(neg, ds) := match s with
                    | b :: ds => if decide (b = Byte.x2d) then (true, ds)
                                 else if decide (b = Byte.x2b) then (false, ds) else (false, s)
                    | [] => (false, s)
                    end in
  if decide (ds = []) then None
  else v ← dec_value 0 ds;
       if (neg : bool) then (if v <=? 2 ^ 63 then Some (- v) else None)
       else if v <? 2 ^ 63 then Some v else None.

(** ** Addresses *)

(** An octet: no leading zero, at most 255. *)
Definition octet (s : gostring) : option byte :=
  if bool_decide (s = []) || (bool_decide (head s = Some Byte.x30) && (1 <? length s)%nat) then None
  else v ← dec_value 0 s; if v <=? 255 then Some (byte_of_Z v) else None.

(** [parseIPv4Fields]. *)
Definition parse_ipv4 (s : gostring) : option (list byte) :=
  match SplitDot s with
  | [a; b; c; d] =>
      a ← octet a; b ← octet b; c ← octet c; d ← octet d; Some [a; b; c; d]
  | _ => None
  end.

Definition hex_digit (b : byte) : option Z :=
  if (48 <=? ub b) && (ub b <=? 57) then Some (ub b - 48)
  else if (97 <=? ub b) && (ub b <=? 102) then Some (ub b - 87)
  else if (65 <=? ub b) && (ub b <=? 70) then Some (ub b - 55)
  else None.

(** The hexadecimal digits a string starts with: their value, their number,
    and the rest. *)
Fixpoint hex_prefix (acc : Z) (off : nat) (s : gostring) : Z * nat * gostring :=
  match s with
  | [] => (acc, off, [])
  | b :: s' =>
      match hex_digit b with
      | Some d => hex_prefix (16 * acc + d) (S off) s'
      | None => (acc, off, s)
      end
  end.

(** The loop of [parseIPv6]: at most eight groups, an ellipsis, and possibly a
    final dotted quad.  The result is what was read, the position of the
    ellipsis, and the unread rest. *)
Fixpoint ipv6_groups (n : nat) (s ip : list byte) (ellipsis : option nat)
  : option (list byte * option nat * gostring) :=
  match n with
  | O => Some (ip, ellipsis, s)
  | S n =>
      let '(acc, off, rest) := hex_prefix 0 0 s in
      if (off =? 0)%nat || (4 <? off)%nat then None
      else if decide (head rest = Some DOT) then
        if (bool_decide (ellipsis = None) && negb (length ip =? 12)%nat) || (12 <? length ip)%nat
        then None
        else v4 ← parse_ipv4 s; Some (ip ++ v4, ellipsis, [])
      else
        let ip := ip ++ [byte_of_Z (acc / 256); byte_of_Z acc] in
        match rest with
        | [] => Some (ip, ellipsis, [])
        | [_] => None
        | c :: c' :: s' =>
            if decide (c <> COLON) then None
            else if decide (c' = COLON) then
              if decide (ellipsis = None) then
                match s' with
                | [] => Some (ip, Some (length ip), [])
                | _ => ipv6_groups n s' ip (Some (length ip))
                end
              else None
            else ipv6_groups n (c' :: s') ip ellipsis
        end
  end.

Definition expand_ellipsis (ip : list byte) (ellipsis : option nat) : option (list byte) :=
  match ellipsis with
  | None => if (length ip =? 16)%nat then Some ip else None
  | Some e =>
      if (length ip <? 16)%nat
      then Some (take e ip ++ replicate (16 - length ip) Byte.x00 ++ drop e ip)
      else None
  end.

(** [parseIPv6] of a string without a zone. *)
Definition parse_ipv6 (s : gostring) : option (list byte) :=
  let ellipsis := bool_decide ([COLON; COLON] `prefix_of` s) in
  let s := if ellipsis then drop 2 s else s in
  if ellipsis && bool_decide (s = []) then Some (replicate 16 Byte.x00)
  else
    '(ip, e, rest) ← ipv6_groups 8 s [] (if ellipsis then Some 0%nat else None);
    if decide (rest = []) then expand_ellipsis ip e else None.

(** The separator that decides between the two syntaxes: the first of [.], [:]
    and [%]. *)
Definition first_separator (s : gostring) : option byte :=
  snd <$> list_find (fun b => b = DOT \/ b = COLON \/ b = PERCENT) s.

Definition v4_in_6 : list byte := replicate 10 Byte.x00 ++ [Byte.xff; Byte.xff].

(** [net.ParseIP]: 16 bytes; an address with a zone is refused. *)
Definition ParseIP (s : gostring) : option (list byte) :=
  match first_separator s with
  | None => None
  | Some b =>
      if decide (b = DOT) then (app v4_in_6) <$> parse_ipv4 s
      else if decide (b = COLON) then
        if decide (PERCENT ∈ s) then None else parse_ipv6 s
      else None
  end.

(** [net.IP.To4]. *)
Definition To4 (ip : list byte) : option (list byte) :=
  if decide (length ip = 4%nat) then Some ip
  else if decide (length ip = 16%nat /\ take 10 ip = replicate 10 Byte.x00 /\
                  slice 10 2 ip = [Byte.xff; Byte.xff])
  then Some (drop 12 ip) else None.

(** The predicates of an IPv4 address. *)
Definition IsLoopback (ip4 : list byte) : bool := ub (byte_at 0 ip4) =? 127.
Definition IsUnspecified (ip4 : list byte) : bool := bool_decide (ip4 = replicate 4 Byte.x00).
Definition IsMulticast (ip4 : list byte) : bool := Z.land (ub (byte_at 0 ip4)) 0xf0 =? 0xe0.

(** ** Host and port *)

Definition index (c : byte) (s : gostring) : option nat := fst <$> list_find (eq c) s.
Definition last_index (c : byte) (s : gostring) : option nat :=
  (fun i => (length s - 1 - i)%nat) <$> index c (rev s).

(** [net.SplitHostPort]. *)
Definition SplitHostPort (s : gostring) : option (gostring * gostring) :=
  i ← last_index COLON s;
  '(host, j, k) ←
    (if decide (head s = Some Byte.x5b) then
       e ← index Byte.x5d s;
       if (S e =? i)%nat then Some (take (e - 1) (drop 1 s), 1%nat, S e) else None
     else
       let host := take i s in
       if decide (COLON ∈ host) then None else Some (host, 0%nat, 0%nat));
  if decide (Byte.x5b ∈ drop j s) then None
  else if decide (Byte.x5d ∈ drop k s) then None
  else Some (host, drop (S i) s).

(** ** Dotted quads *)

(** The decimal text of an octet, and of an address. *)
Definition octet_text (b : byte) : gostring :=
  let z := ub b in
  let d n := byte_of_Z (48 + n) in
  if z <? 10 then [d z]
  else if z <? 100 then [d (z / 10); d (z mod 10)]
  else [d (z / 100); d (z / 10 mod 10); d (z mod 10)].

Definition dotted (ip4 : list byte) : gostring := JoinDot (map octet_text ip4).

Definition all_bytes : list byte := map (fun n => byte_of_Z (Z.of_nat n)) (seq 0 256).

Lemma elem_of_all_bytes b : b ∈ all_bytes.
Proof.
  unfold all_bytes. apply list_elem_of_fmap. exists (Z.to_nat (ub b)).
  pose proof (ub_range b). split; [by rewrite Z2Nat.id, byte_of_Z_ub by lia|].
  apply elem_of_seq. lia.
Qed.

(** A decidable fact about a byte, by trying all of them. *)
Lemma byte_forall (P : byte -> bool) : forallb P all_bytes = true -> forall b, P b = true.
Proof.
  intros HP b. rewrite forallb_forall in HP. apply HP, list_elem_of_In, elem_of_all_bytes.
Qed.

Lemma octet_octet_text b : octet (octet_text b) = Some b.
Proof.
  apply (bool_decide_unpack _). apply Is_true_true.
  revert b. apply byte_forall. vm_compute. reflexivity.
Qed.

Lemma octet_text_no_sep b :
  forallb (fun c => (48 <=? ub c) && (ub c <=? 57)) (octet_text b) = true.
Proof. revert b. apply byte_forall. vm_compute. reflexivity. Qed.

Lemma octet_text_no_dot b : no_dot (octet_text b).
Proof.
  pose proof (octet_text_no_sep b) as Hb. rewrite forallb_forall in Hb.
  intros Hin%list_elem_of_In%Hb. by vm_compute in Hin.
Qed.

Lemma parse_dotted ip4 : length ip4 = 4%nat -> parse_ipv4 (dotted ip4) = Some ip4.
Proof.
  intros Hl. unfold parse_ipv4, dotted.
  rewrite SplitDot_JoinDot; [|by destruct ip4|].
  - destruct ip4 as [|a [|b [|c [|d [|]]]]]; try done. simpl.
    by rewrite !octet_octet_text.
  - apply Forall_fmap, Forall_true. intros b. apply octet_text_no_dot.
Qed.

(** [ParseIP] reads back the dotted form of every IPv4 address. *)
Lemma ParseIP_dotted ip4 :
  length ip4 = 4%nat -> ParseIP (dotted ip4) = Some (v4_in_6 ++ ip4).
Proof.
  intros Hl. unfold ParseIP.
  assert (first_separator (dotted ip4) = Some DOT) as ->.
  { destruct ip4 as [|a [|b ip4]]; try done. unfold dotted. cbn [map].
    rewrite JoinDot_cons by done. unfold first_separator.
    assert (list_find (fun b => b = DOT \/ b = COLON \/ b = PERCENT) (octet_text a) = None) as Hn.
    { apply list_find_None, List.Forall_forall. intros c Hc.
      pose proof (octet_text_no_sep a) as Ha. rewrite forallb_forall in Ha.
      apply Ha in Hc. by intros [->|[->| ->]]; vm_compute in Hc. }
    by rewrite (list_find_app_r _ _ _ Hn). }
  rewrite ?decide_True by done. by rewrite parse_dotted.
Qed.

Lemma To4_v4_in_6 ip4 : length ip4 = 4%nat -> To4 (v4_in_6 ++ ip4) = Some ip4.
Proof. intros Hl. by destruct ip4 as [|a [|b [|c [|d [|]]]]]. Qed.

Lemma To4_length ip ip4 : To4 ip = Some ip4 -> length ip4 = 4%nat.
Proof.
  unfold To4. case_decide as H1; [by intros [= <-]|]. case_decide as H2; [|done].
  intros [= <-]. rewrite length_drop. lia.
Qed.
