(* ===== verification/Dnsenc.v ===== *)
(** * [internal/dnsenc/wire.go]: rule patterns to map keys

    [EncodeSuffix], [DecodeSuffix] and [ParsePattern] as written, loops over
    the 128-byte array included, and their agreement with the names of
    [DnsName]: the keys the controller writes are the keys the eBPF program
    looks up. *)

From stdpp Require Import strings.
From S2P Require Import Prelude.
From S2P Require Import Types.
From S2P Require Import DnsName.
From S2P Require Import GoStrings.
From S2P Require Import Samples.

Definition MaxDNSNameLen : Z := 128.

(** The errors of [EncodeSuffix], with what their messages print. *)
Inductive encode_error :=
  | EmptyDomain
  | EmptyLabel (domain : gostring)
  | LabelTooLong (label : gostring)
  | NameTooLong (domain : gostring).

(** [copy(key[pos:], bs)]: as many bytes as fit. *)
Definition copy_at (pos : Z) (bs key : list byte) : list byte :=
  put pos (take (length key - Z.to_nat pos) bs) key.

(** [key[pos] = b]; the index is in range wherever the code writes. *)
Definition set_at (pos : Z) (b : byte) (key : list byte) : list byte :=
  <[Z.to_nat pos := b]> key.

Definition zero_key : list byte := replicate (Z.to_nat MaxDNSNameLen) Byte.x00.

Fixpoint encode_labels (domain : gostring) (labels : list gostring) (key : list byte)
    (pos : Z) : encode_error + (list byte * Z) :=
  match labels with
  | [] => inr (key, pos)
  | label :: labels =>
      let len := Z.of_nat (length label) in
      if len =? 0 then inl (EmptyLabel domain)
      else if 63 <? len then inl (LabelTooLong label)
      else if MaxDNSNameLen <=? pos + 1 + len then inl (NameTooLong domain)
      else
        let key := set_at pos (byte_of_Z len) key in
        let pos := pos + 1 in
        let key := copy_at pos label key in
        encode_labels domain labels key (pos + len)
  end.

Section lower.
Context (unicode_lower : gostring -> gostring).

Definition EncodeSuffix (domain : gostring) : encode_error + list byte :=
  let domain := TrimSuffixDot domain in
  let domain := ToLower unicode_lower domain in
  if decide (domain = []) then inl EmptyDomain
  else match encode_labels domain (SplitDot domain) zero_key 0 with
       | inl e => inl e
       | inr (key, pos) => inr (set_at pos Byte.x00 key)
       end.
End lower.

Inductive decode_error :=
  | NameExceedsBuffer (pos : Z)
  | InvalidLabelLength (labelLen pos : Z)
  | LabelBeyondBuffer (pos : Z)
  | EmptyName.

(** The loop of [DecodeSuffix]; every iteration that continues advances [pos]
    by at least two, so fuel of the buffer's size is never used up. *)
Fixpoint decode_labels (fuel : nat) (key : list byte) (labels : list gostring) (pos : Z)
  : option (decode_error + list gostring) :=
  match fuel with
  | O => None
  | S fuel =>
      if MaxDNSNameLen <=? pos then Some (inl (NameExceedsBuffer pos))
      else
        let labelLen := ub (byte_at pos key) in
        if labelLen =? 0 then Some (inr labels)
        else if 63 <? labelLen then Some (inl (InvalidLabelLength labelLen pos))
        else
          let pos := pos + 1 in
          if MaxDNSNameLen <? pos + labelLen then Some (inl (LabelBeyondBuffer pos))
          else decode_labels fuel key (labels ++ [slice pos labelLen key]) (pos + labelLen)
  end.

Definition DecodeSuffix (key : list byte) : option (decode_error + gostring) :=
  match decode_labels (Z.to_nat MaxDNSNameLen) key [] 0 with
  | None => None
  | Some (inl e) => Some (inl e)
  | Some (inr []) => Some (inl EmptyName)
  | Some (inr labels) => Some (inr (JoinDot labels))
  end.

(** [pattern[2:]] of a ["*."] pattern. *)
Definition ParsePattern (pattern : gostring) : gostring * bool :=
  if HasPrefix pattern [STAR; DOT] then (drop 2 pattern, true) else (pattern, false).

(** ** The encoding loop *)

Lemma length_zero_key : length zero_key = KEY_LEN.
Proof. done. Qed.

Lemma pad_key_nil : pad_key [] = zero_key.
Proof. done. Qed.

(** One round of the loop appends one label to the padded prefix. *)
Lemma pad_key_snoc w (l : gostring) :
  (length w + 1 + length l < KEY_LEN)%nat -> (length l <= 63)%nat ->
  copy_at (Z.of_nat (length w) + 1) l
    (set_at (Z.of_nat (length w)) (byte_of_Z (Z.of_nat (length l))) (pad_key w)) =
  pad_key (w ++ wire_label l).
Proof.
  intros Hw Hl. unfold copy_at, set_at. rewrite Nat2Z.id.
  set (k1 := <[_ := _]> (pad_key w)).
  assert (length k1 = KEY_LEN) as Hk1
    by (unfold k1; rewrite length_insert, length_pad_key; lia).
  rewrite take_ge by lia.
  assert (in_range (Z.of_nat (length w) + 1) (Z.of_nat (length l)) k1)
    by (unfold in_range; lia).
  assert (length (w ++ wire_label l) <= KEY_LEN)%nat
    by (rewrite length_app, length_wire_label; lia).
  apply list_eq_same_length with KEY_LEN;
    [by rewrite length_pad_key|by rewrite length_put|].
  intros i b b' Hi. rewrite lookup_put, lookup_pad_key by done. unfold k1.
  case_decide as Hd.
  - rewrite lookup_app_r by lia. unfold wire_label.
    replace (i - length w)%nat with (S (i - Z.to_nat (Z.of_nat (length w) + 1))) by lia.
    simpl. intros ->. by intros [=].
  - destruct (decide (i = length w)) as [->|Hne].
    + rewrite list_lookup_insert_eq by (rewrite length_pad_key; lia).
      rewrite lookup_app_r, Nat.sub_diag by lia. simpl. congruence.
    + rewrite list_lookup_insert_ne, lookup_pad_key by done.
      destruct (decide (i < length w)%nat).
      * rewrite lookup_app_l by done. congruence.
      * rewrite lookup_ge_None_2 by lia.
        rewrite lookup_ge_None_2 by (rewrite length_app, length_wire_label; lia). congruence.
Qed.

(** The loop fails unless every label is valid and the name fits, and then it
    leaves the padded wire format. *)
Lemma encode_labels_run domain labels w :
  (length w < KEY_LEN)%nat ->
  match encode_labels domain labels (pad_key w) (Z.of_nat (length w)) with
  | inl _ => ~ (Forall valid_label labels /\ (length (w ++ wire_body labels) < KEY_LEN)%nat)
  | inr (key, pos) =>
      Forall valid_label labels /\ (length (w ++ wire_body labels) < KEY_LEN)%nat /\
      key = pad_key (w ++ wire_body labels) /\
      pos = Z.of_nat (length (w ++ wire_body labels))
  end.
Proof.
  revert w. induction labels as [|l ls IH]; intros w Hw; simpl.
  { by rewrite app_nil_r. }
  change MaxDNSNameLen with (Z.of_nat KEY_LEN).
  destruct (Z.eqb_spec (Z.of_nat (length l)) 0).
  { intros [Hv _]. inversion Hv as [|?? Hl]. unfold valid_label in Hl. lia. }
  destruct (Z.ltb_spec 63 (Z.of_nat (length l))).
  { intros [Hv _]. inversion Hv as [|?? Hl]. unfold valid_label in Hl. lia. }
  destruct (Z.leb_spec (Z.of_nat KEY_LEN) (Z.of_nat (length w) + 1 + Z.of_nat (length l))).
  { intros [_ Hlen]. rewrite length_app in Hlen. simpl in Hlen. rewrite length_app in Hlen. lia. }
  rewrite pad_key_snoc by lia.
  specialize (IH (w ++ wire_label l)).
  rewrite length_app, length_wire_label in IH.
  replace (Z.of_nat (length w + S (length l)))
    with (Z.of_nat (length w) + 1 + Z.of_nat (length l)) in IH by lia.
  specialize (IH ltac:(lia)). rewrite <- app_assoc in IH.
  change (byte_of_Z (Z.of_nat (length l)) :: l ++ wire_body ls) with (wire_label l ++ wire_body ls).
  assert (valid_label l) by (unfold valid_label; lia).
  destruct (encode_labels _ _ _ _) as [e|[key pos]].
  - intros [Hv ?]. apply IH. by inversion Hv.
  - destruct IH as (?&?&?&?). by split_and!; [constructor|..].
Qed.

Lemma pad_key_terminated w :
  (length w < KEY_LEN)%nat -> set_at (Z.of_nat (length w)) Byte.x00 (pad_key w) = pad_key (w ++ [Byte.x00]).
Proof.
  intros Hw. unfold set_at. rewrite Nat2Z.id. apply list_eq_same_length with KEY_LEN.
  - by rewrite length_pad_key by (rewrite length_app; simpl; lia).
  - by rewrite length_insert, length_pad_key by lia.
  - intros i b b' Hi. rewrite (lookup_pad_key (w ++ _)) by done.
    destruct (decide (i = length w)) as [->|Hne].
    + rewrite list_lookup_insert_eq by (rewrite length_pad_key; lia).
      rewrite lookup_app_r, Nat.sub_diag by lia. simpl. congruence.
    + rewrite list_lookup_insert_ne, lookup_pad_key by done.
      destruct (decide (i < length w)%nat); [by rewrite lookup_app_l by done; congruence|].
      rewrite !lookup_ge_None_2; [congruence|rewrite length_app; simpl|]; lia.
Qed.

(** The wire format of a dotted string is two bytes longer than the string. *)
Lemma length_wire_SplitDot s : length (wire (SplitDot s)) = (length s + 2)%nat.
Proof.
  unfold wire. rewrite length_app. simpl.
  enough (length (wire_body (SplitDot s)) = S (length s)) by lia.
  induction s as [|b s IH]; simpl; [done|]. case_decide; simpl; [by rewrite IH|].
  destruct (SplitDot s) as [|l ls] eqn:E; [by apply SplitDot_nonempty in E|].
  simpl in *. lia.
Qed.

Lemma EncodeSuffix_iff ul d key :
  let dom := ToLower ul (TrimSuffixDot d) in
  EncodeSuffix ul d = inr key <->
  valid_name (SplitDot dom) /\ (length dom + 2 <= KEY_LEN)%nat /\
  key = sk_name (name_key (SplitDot dom)).
Proof.
  intros dom. unfold EncodeSuffix. fold dom.
  pose proof (length_wire_SplitDot dom) as Hlen. unfold wire in Hlen.
  rewrite length_app in Hlen. simpl in Hlen.
  case_decide as Hd.
  { split; [done|]. rewrite Hd. intros ([_ Hv]&_). simpl in Hv.
    inversion Hv as [|?? Hl]. unfold valid_label in Hl. simpl in Hl. lia. }
  pose proof (encode_labels_run dom (SplitDot dom) [] ltac:(by apply (bool_decide_unpack _))) as Hrun.
  change (Z.of_nat (length [])) with 0 in Hrun. change (pad_key []) with zero_key in Hrun.
  simpl app in Hrun. unfold valid_name.
  destruct (encode_labels _ _ _ _) as [e|[k pos]].
  - split; [done|]. intros ([_ ?]&?&_). destruct Hrun. split; [done|lia].
  - destruct Hrun as (Hv&Hl&->& ->). rewrite pad_key_terminated by lia. split.
    + intros [= <-]. split_and!; [apply SplitDot_nonempty|done|lia|done].
    + by intros (_&_&->).
Qed.

(** ** The decoding loop *)

Lemma slice_drop_app off (key x y : list byte) :
  0 <= off -> drop (Z.to_nat off) key = x ++ y ->
  slice off (Z.of_nat (length x)) key = x /\
  drop (Z.to_nat (off + Z.of_nat (length x))) key = y.
Proof.
  intros Ho E. unfold slice. rewrite E, Nat2Z.id, take_app_length. split; [done|].
  replace (Z.to_nat (off + Z.of_nat (length x))) with (Z.to_nat off + length x)%nat by lia.
  by rewrite <- drop_drop, E, drop_app_length.
Qed.

Lemma byte_at_drop off (key : list byte) b x :
  drop (Z.to_nat off) key = b :: x -> byte_at off key = b.
Proof.
  intros E. unfold byte_at. rewrite <- (Nat.add_0_r (Z.to_nat off)), <- lookup_drop, E. done.
Qed.

Lemma decode_labels_run fuel key ls acc pos rest :
  length key = KEY_LEN -> 0 <= pos -> Forall valid_label ls -> (length ls < fuel)%nat ->
  drop (Z.to_nat pos) key = wire_body ls ++ Byte.x00 :: rest ->
  decode_labels fuel key acc pos = Some (inr (acc ++ ls)).
Proof.
  intros Hk. revert fuel acc pos. induction ls as [|l ls IH]; intros [|fuel] acc pos Hpos Hv Hf E;
    simpl in *; try lia; pose proof (f_equal length E) as El; rewrite length_drop in El;
    (destruct (Z.leb_spec MaxDNSNameLen pos); [unfold MaxDNSNameLen, KEY_LEN in *; simpl in El; lia|]).
  - by rewrite (byte_at_drop _ _ _ _ E), app_nil_r.
  - inversion Hv as [|?? Hl Hv']; subst. unfold valid_label in Hl.
    rewrite (byte_at_drop _ _ _ _ E), ub_label_len by lia.
    destruct (Z.eqb_spec (Z.of_nat (length l)) 0); [lia|].
    destruct (Z.ltb_spec 63 (Z.of_nat (length l))); [lia|].
    assert (drop (Z.to_nat (pos + 1)) key = l ++ wire_body ls ++ Byte.x00 :: rest) as E'.
    { replace (Z.to_nat (pos + 1)) with (Z.to_nat pos + 1)%nat by lia.
      rewrite <- drop_drop, E. simpl. by rewrite drop_0, <- app_assoc. }
    pose proof (f_equal length E') as El'. rewrite length_drop, length_app in El'.
    destruct (Z.ltb_spec MaxDNSNameLen (pos + 1 + Z.of_nat (length l)));
      [unfold MaxDNSNameLen, KEY_LEN in *; lia|].
    apply slice_drop_app in E' as [-> E']; [|lia].
    rewrite (IH fuel) by (done || lia). by rewrite <- app_assoc.
Qed.

Lemma decode_labels_total fuel key acc pos :
  (1 <= fuel)%nat -> 130 <= 2 * Z.of_nat fuel + pos -> 0 <= pos ->
  decode_labels fuel key acc pos <> None.
Proof.
  revert acc pos. induction fuel as [|fuel IH]; intros acc pos; simpl; [lia|].
  intros. pose proof (ub_range (byte_at pos key)). unfold MaxDNSNameLen.
  destruct (128 <=? pos); [done|]. destruct (Z.eqb_spec (ub (byte_at pos key)) 0); [done|].
  destruct (63 <? _); [done|].
  destruct (Z.ltb_spec 128 (pos + 1 + ub (byte_at pos key))); [done|].
  apply IH; lia.
Qed.

Lemma decode_labels_sound fuel key acc pos ls :
  length key = KEY_LEN -> 0 <= pos ->
  decode_labels fuel key acc pos = Some (inr ls) ->
  exists ls' rest, ls = acc ++ ls' /\ Forall valid_label ls' /\
    drop (Z.to_nat pos) key = wire_body ls' ++ Byte.x00 :: rest.
Proof.
  intros Hk. revert acc pos. induction fuel as [|fuel IH]; intros acc pos Hpos; simpl; [done|].
  destruct (Z.leb_spec MaxDNSNameLen pos); [done|]. unfold MaxDNSNameLen in *.
  destruct (drop (Z.to_nat pos) key) as [|b bs] eqn:E.
  { apply (f_equal length) in E. rewrite length_drop, Hk in E. unfold KEY_LEN in E.
    simpl in E. lia. }
  rewrite (byte_at_drop _ _ _ _ E).
  destruct (Z.eqb_spec (ub b) 0) as [Hz|Hz].
  { intros [= <-]. apply ub_zero in Hz as ->. exists [], bs. by rewrite app_nil_r. }
  destruct (Z.ltb_spec 63 (ub b)); [done|].
  destruct (Z.ltb_spec 128 (pos + 1 + ub b)); [done|]. pose proof (ub_range b).
  intros (ls'&rest&->&Hv&E')%IH; [|lia].
  assert (drop (Z.to_nat (pos + 1)) key = bs) as Ebs.
  { replace (Z.to_nat (pos + 1)) with (Z.to_nat pos + 1)%nat by lia.
    by rewrite <- drop_drop, E. }
  set (l := slice (pos + 1) (ub b) key) in *.
  assert (length l = Z.to_nat (ub b)) as Hl
    by (unfold l; rewrite length_slice; [done|unfold in_range, KEY_LEN in *; lia]).
  exists (l :: ls'), rest. rewrite <- app_assoc. split_and!; [done| |].
  - constructor; [|done]. unfold valid_label. lia.
  - simpl. unfold wire_label. rewrite Hl, Z2Nat.id, byte_of_Z_ub by lia. f_equal.
    rewrite <- app_assoc, <- E'. unfold l, slice. rewrite Ebs.
    replace (Z.to_nat (pos + 1 + ub b)) with (Z.to_nat (pos + 1) + Z.to_nat (ub b))%nat by lia.
    by rewrite <- drop_drop, Ebs, take_drop.
Qed.

Lemma DecodeSuffix_name ls rest :
  valid_name ls -> length (wire ls ++ rest) = KEY_LEN ->
  DecodeSuffix (wire ls ++ rest) = Some (inr (JoinDot ls)).
Proof.
  intros [Hne Hv] Hl. unfold DecodeSuffix. unfold wire in *. rewrite <- app_assoc in *.
  rewrite (decode_labels_run _ _ ls [] 0 rest); try done.
  - simpl. by destruct ls.
  - enough (length ls <= length (wire_body ls))%nat.
    { rewrite length_app in Hl. simpl in Hl. unfold KEY_LEN, MaxDNSNameLen in *. lia. }
    clear. induction ls as [|l ls IH]; simpl; [done|]. rewrite length_app. lia.
Qed.

Lemma name_key_wire ls :
  sk_name (name_key ls) = wire ls ++ replicate (KEY_LEN - length (wire ls)) Byte.x00.
Proof. done. Qed.

(** The bytes of a host name as configuration files hold it. *)
Definition host_byte (b : byte) : Prop := ub b < 128 /\ ~ (65 <= ub b <= 90) /\ b <> DOT.

#[export] Instance host_byte_dec b : Decision (host_byte b).
Proof. unfold host_byte. apply _. Defined.

Definition host_name (ls : name) : Prop := valid_name ls /\ Forall (Forall host_byte) ls.

Lemma host_name_join ul ls :
  host_name ls ->
  SplitDot (JoinDot ls) = ls /\ ToLower ul (TrimSuffixDot (JoinDot ls)) = JoinDot ls.
Proof.
  intros [[Hne Hv] Hb].
  assert (Forall no_dot ls) as Hd.
  { eapply Forall_impl; [|exact Hb]. intros l Hl Hin. rewrite List.Forall_forall in Hl.
    apply list_elem_of_In in Hin. by destruct (Hl _ Hin) as (_&_&?). }
  split; [by apply SplitDot_JoinDot|].
  rewrite TrimSuffixDot_JoinDot; try done.
  - apply ToLower_id.
    + apply is_ascii_spec, Forall_JoinDot; [done|].
      eapply Forall_impl; [|exact Hb]. intros l. apply Forall_impl. by intros b (?&_).
    + apply Forall_JoinDot; [by vm_compute; intuition|].
      eapply Forall_impl; [|exact Hb]. intros l. apply Forall_impl. by intros b (_&?&_).
  - eapply Forall_impl; [|exact Hv]. intros l Hl ->. unfold valid_label in Hl. simpl in Hl. lia.
Qed.

(** C30. [EncodeSuffix] accepts a domain exactly when its labels are of 1 to 63
    bytes and it has at most 126 bytes without its trailing dot, and then
    yields the zero-padded wire format of the lower-cased labels; every other
    domain is an error. *)
Theorem encode_suffix_correct ul d :
  let dom := ToLower ul (TrimSuffixDot d) in
  match EncodeSuffix ul d with
  | inr key => valid_name (SplitDot dom) /\ (length dom <= 126)%nat /\
               SuffixKey key = name_key (SplitDot dom)
  | inl _ => ~ (valid_name (SplitDot dom) /\ (length dom <= 126)%nat)
  end.
Proof.
  intros dom. destruct (EncodeSuffix ul d) as [e|key] eqn:E.
  - intros [Hv Hl]. assert (EncodeSuffix ul d = inr (sk_name (name_key (SplitDot dom)))) as E'.
    { apply EncodeSuffix_iff. fold dom. unfold KEY_LEN. split; [done|]. split; [lia|done]. }
    congruence.
  - apply EncodeSuffix_iff in E as (Hv&Hl&->). unfold KEY_LEN in Hl. fold dom in Hl.
    split; [done|]. split; [lia|done].
Qed.

(** C40. Decoding an encoded domain gives it back, lower-cased and without the
    trailing dot. *)
Theorem encode_decode ul d key :
  EncodeSuffix ul d = inr key ->
  DecodeSuffix key = Some (inr (ToLower ul (TrimSuffixDot d))).
Proof.
  intros (Hv&Hl&->)%EncodeSuffix_iff. rewrite name_key_wire.
  pose proof (length_wire_SplitDot (ToLower ul (TrimSuffixDot d))) as Hw.
  rewrite DecodeSuffix_name; [by rewrite JoinDot_SplitDot|done|].
  rewrite length_app, length_replicate. lia.
Qed.

(** Encoding a host name gives the key of its labels, which decodes to
    it. *)
Theorem encode_host_name ul ls :
  host_name ls -> (length (wire ls) <= KEY_LEN)%nat ->
  EncodeSuffix ul (JoinDot ls) = inr (sk_name (name_key ls)).
Proof.
  intros Hls Hl. destruct (host_name_join ul ls Hls) as [E1 E2].
  apply EncodeSuffix_iff. rewrite E2, E1. split; [by apply Hls|]. split; [|done].
  pose proof (length_wire_SplitDot (JoinDot ls)) as Hw. rewrite E1 in Hw. lia.
Qed.

(** [DecodeSuffix] terminates on every 128-byte key, and a name it returns
    is the dotted form of valid labels the key starts with. *)
Theorem decode_suffix_sound key :
  length key = KEY_LEN ->
  DecodeSuffix key <> None /\
  forall s, DecodeSuffix key = Some (inr s) ->
    exists ls rest, valid_name ls /\ key = wire ls ++ rest /\ s = JoinDot ls.
Proof.
  intros Hk. unfold DecodeSuffix.
  assert (decode_labels (Z.to_nat MaxDNSNameLen) key [] 0 <> None) as Ht
    by (change (Z.to_nat MaxDNSNameLen) with 128%nat; apply decode_labels_total; lia).
  destruct (decode_labels _ _ _ _) as [[e|ls]|] eqn:E; [by split|..|done].
  apply decode_labels_sound in E as (ls'&rest&->&Hv&E'); [|done..]. simpl in *.
  destruct ls' as [|l ls']; [by split|]. split; [done|]. intros s [= <-].
  exists (l :: ls'), rest. split_and!; [done| |done].
  unfold wire. rewrite <- app_assoc. exact E'.
Qed.

(** ** The theorems on sample domains *)

Lemma encode_decode_witness :
  DecodeSuffix (sk_name (name_key S3)) = Some (inr (bytes_of "s3.amazonaws.com"%string)).
Proof.
  apply (encode_decode id (bytes_of "S3.amazonaws.com."%string)). vm_compute. reflexivity.
Defined.

Lemma encode_host_name_witness :
  EncodeSuffix id (bytes_of "s3.amazonaws.com"%string) = inr (sk_name (name_key S3)).
Proof. by apply (encode_host_name id S3); apply (bool_decide_unpack _); vm_compute. Defined.

Lemma decode_suffix_sound_witness :
  DecodeSuffix (sk_name (name_key S3)) <> None /\
  DecodeSuffix (replicate KEY_LEN Byte.x01) <> None.
Proof.
  split; apply decode_suffix_sound; vm_compute; reflexivity.
Defined.
