(* ===== verification/Config.v ===== *)
(** * [internal/config/config.go]: validation of the configuration

    The parsed YAML as a record, [applyDefaults], the accessors, [Validate] and
    its helpers, with the errors as values.  The YAML parser and the file are
    outside: a [Config] here is what [yaml.Unmarshal] left. *)

From stdpp Require Import strings.
From S2P Require Import Prelude.
From S2P Require Import GoStrings.
From S2P Require Import GoNet.
From S2P Require Import DnsName.

(** A string literal. *)
Definition lit (s : String.string) : gostring := String.list_byte_of_string s.

Definition ActionHostResolve : gostring := lit "host-resolve"%string.
Definition ActionClusterResolve : gostring := lit "cluster-resolve"%string.

(** [time.Duration] counts nanoseconds. *)
Definition Second : Z := 1000000000.

Definition DefaultMetricsAddr : gostring := lit ":9153"%string.
Definition DefaultHealthCheckInterval : Z := 5 * Second.
Definition DefaultHealthCheckTimeout : Z := 2 * Second.
Definition DefaultHealthCheckThreshold : Z := 3.
Definition DefaultLogLevel : gostring := lit "info"%string.
Definition DefaultDefaultAction : gostring := ActionClusterResolve.

Record Rule := MkRule { Pattern : gostring; Action : gostring }.

(** Nil pointers are [None]. *)
Record HealthCheck := MkHealthCheck {
  Interval : option Z; Timeout : option Z; FailureThreshold : option Z
}.

Record Config := MkConfig {
  CorednsServiceIP : gostring;
  HostResolverIP : gostring;
  DefaultAction : gostring;
  Rules : list Rule;
  MetricsAddr : gostring;
  Health : HealthCheck;
  LogLevel : gostring
}.

Definition HealthCheckInterval (c : Config) : Z :=
  default DefaultHealthCheckInterval (Interval (Health c)).
Definition HealthCheckTimeout (c : Config) : Z :=
  default DefaultHealthCheckTimeout (Timeout (Health c)).
Definition HealthCheckThreshold (c : Config) : Z :=
  default DefaultHealthCheckThreshold (FailureThreshold (Health c)).

Definition or_default (s d : gostring) : gostring := if decide (s = []) then d else s.

Definition applyDefaults (c : Config) : Config :=
  MkConfig (CorednsServiceIP c) (HostResolverIP c)
    (or_default (DefaultAction c) DefaultDefaultAction) (Rules c)
    (or_default (MetricsAddr c) DefaultMetricsAddr) (Health c)
    (or_default (LogLevel c) DefaultLogLevel).

Inductive ip_error := InvalidIP | NotIPv4 | Loopback | Unspecified | Multicast.

Inductive rule_error :=
  | PatternEmpty | NotWildcard | InteriorStar | EmptySuffix | EmptyRuleLabel
  | RuleLabelTooLong (label : gostring) | ActionEmpty | UnsupportedAction (a : gostring).

Inductive addr_error := AddrEmpty | AddrSplit | PortEmpty | PortNotNumeric | PortOutOfRange (p : Z).

Inductive config_error :=
  | YamlError
  | CorednsRequired | CorednsInvalid (e : ip_error)
  | HostResolverRequired | HostResolverInvalid (e : ip_error)
  | DefaultActionInvalid (a : gostring)
  | NoRules | RuleInvalid (i : nat) (e : rule_error) | NoDifferingRule (hint : bool)
  | MetricsAddrInvalid (e : addr_error)
  | IntervalNotPositive | TimeoutNotPositive | TimeoutTooLong | ThresholdTooSmall
  | LogLevelInvalid (l : gostring).

(** [if err := a; err != nil { return err }; b]. *)
Definition or_else {E} (a b : option E) : option E :=
  match a with Some e => Some e | None => b end.
Declare Scope go_scope.
Delimit Scope go_scope with go.
Notation "a ;? b" := (or_else a b) (at level 66, right associativity) : go_scope.
Notation "'fail_if' c e" := (if c then Some e else None)
  (at level 10, c at level 9, e at level 9) : go_scope.
#[local] Open Scope go_scope.

Definition validateIPv4 (s : gostring) (rejectLoopback : bool) : option ip_error :=
  match ParseIP s with
  | None => Some InvalidIP
  | Some ip =>
  match To4 ip with
  | None => Some NotIPv4
  | Some v4 =>
      fail_if (rejectLoopback && IsLoopback v4) Loopback ;?
      fail_if (IsUnspecified v4) Unspecified ;?
      fail_if (IsMulticast v4) Multicast
  end end.

Definition validAction (a : gostring) : bool :=
  bool_decide (a = ActionHostResolve) || bool_decide (a = ActionClusterResolve).

Fixpoint validateLabels (labels : list gostring) : option rule_error :=
  match labels with
  | [] => None
  | label :: labels =>
      fail_if (bool_decide (label = [])) EmptyRuleLabel ;?
      fail_if (63 <? Z.of_nat (length label)) (RuleLabelTooLong label) ;?
      validateLabels labels
  end.

Definition validateRule (r : Rule) : option rule_error :=
  let suffix := drop 2 (Pattern r) in
  fail_if (bool_decide (Pattern r = [])) PatternEmpty ;?
  fail_if (negb (HasPrefix (Pattern r) [STAR; DOT])) NotWildcard ;?
  fail_if (ContainsStar suffix) InteriorStar ;?
  fail_if (bool_decide (suffix = [])) EmptySuffix ;?
  validateLabels (SplitDot suffix) ;?
  fail_if (bool_decide (Action r = [])) ActionEmpty ;?
  fail_if (negb (validAction (Action r))) (UnsupportedAction (Action r)).

(** The loop over the rules: the first error with its index, and whether a rule
    differs from the default. *)
Fixpoint validateRules (def : gostring) (i : nat) (rules : list Rule) (differing : bool)
  : config_error + bool :=
  match rules with
  | [] => inr differing
  | r :: rules =>
      match validateRule r with
      | Some e => inl (RuleInvalid i e)
      | None => validateRules def (S i) rules (differing || negb (bool_decide (Action r = def)))
      end
  end.

Definition validateMetricsAddr (addr : gostring) : option addr_error :=
  if decide (addr = []) then Some AddrEmpty
  else match SplitHostPort addr with
  | None => Some AddrSplit
  | Some (_, port) =>
      if decide (port = []) then Some PortEmpty
      else match Atoi port with
      | None => Some PortNotNumeric
      | Some p => fail_if ((p <? 1) || (65535 <? p)) (PortOutOfRange p)
      end
  end.

Definition validLogLevel (s : gostring) : bool :=
  bool_decide (s ∈ map lit ["debug"; "info"; "warn"; "error"]%string).

Definition Validate (c : Config) : option config_error :=
  fail_if (bool_decide (CorednsServiceIP c = [])) CorednsRequired ;?
  CorednsInvalid <$> validateIPv4 (CorednsServiceIP c) false ;?
  fail_if (bool_decide (HostResolverIP c = [])) HostResolverRequired ;?
  HostResolverInvalid <$> validateIPv4 (HostResolverIP c) true ;?
  fail_if (negb (validAction (DefaultAction c))) (DefaultActionInvalid (DefaultAction c)) ;?
  fail_if (bool_decide (Rules c = [])) NoRules ;?
  match validateRules (DefaultAction c) 0 (Rules c) false with
  | inl e => Some e
  | inr differing =>
      fail_if (negb differing)
        (NoDifferingRule (bool_decide (DefaultAction c = ActionHostResolve))) ;?
      MetricsAddrInvalid <$> validateMetricsAddr (MetricsAddr c) ;?
      fail_if (HealthCheckInterval c <=? 0) IntervalNotPositive ;?
      fail_if (HealthCheckTimeout c <=? 0) TimeoutNotPositive ;?
      fail_if (HealthCheckInterval c <=? HealthCheckTimeout c) TimeoutTooLong ;?
      fail_if (HealthCheckThreshold c <? 1) ThresholdTooSmall ;?
      fail_if (negb (validLogLevel (LogLevel c))) (LogLevelInvalid (LogLevel c))
  end.

(** [Parse], with the YAML library as a parameter. *)
Definition Parse (unmarshal : list byte -> option Config) (bytes : list byte)
  : config_error + Config :=
  match unmarshal bytes with
  | None => inl YamlError
  | Some c =>
      let c := applyDefaults c in
      match Validate c with Some e => inl e | None => inr c end
  end.

(** ** Specification *)

Definition known_action (a : gostring) : Prop := a = ActionHostResolve \/ a = ActionClusterResolve.

(** A text that denotes an IPv4 address a node can send to. *)
Definition usable_ipv4 (s : gostring) (rejectLoopback : bool) : Prop :=
  exists ip v4, ParseIP s = Some ip /\ To4 ip = Some v4 /\
    (rejectLoopback = true -> ub (byte_at 0 v4) <> 127) /\
    v4 <> replicate 4 Byte.x00 /\ ~ (224 <= ub (byte_at 0 v4) < 240).

(** A rule is [*.] followed by a valid DNS name without a star. *)
Record rule_ok (r : Rule) : Prop := {
  rule_pattern : exists suffix, Pattern r = ([STAR; DOT] ++ suffix) /\ ~ STAR ∈ suffix /\
                   valid_name (SplitDot suffix);
  rule_action : known_action (Action r)
}.

Record config_ok (c : Config) : Prop := {
  ok_coredns : usable_ipv4 (CorednsServiceIP c) false;
  ok_resolver : usable_ipv4 (HostResolverIP c) true;
  ok_default : known_action (DefaultAction c);
  ok_rules : Forall rule_ok (Rules c);
  ok_differing : Exists (fun r => Action r <> DefaultAction c) (Rules c);
  ok_metrics : exists host port p,
    SplitHostPort (MetricsAddr c) = Some (host, port) /\ Atoi port = Some p /\ 1 <= p <= 65535;
  ok_health : 0 < HealthCheckTimeout c < HealthCheckInterval c /\ 1 <= HealthCheckThreshold c;
  ok_log : LogLevel c ∈ map lit ["debug"; "info"; "warn"; "error"]%string
}.

Lemma or_else_None {E} (a b : option E) : a ;? b = None <-> a = None /\ b = None.
Proof. destruct a; simpl; naive_solver. Qed.

Lemma fail_if_None {E} (c : bool) (e : E) : fail_if c e = None <-> c = false.
Proof. by destruct c. Qed.

Lemma validAction_iff a : validAction a = true <-> known_action a.
Proof. unfold validAction, known_action. rewrite orb_true_iff, !bool_decide_eq_true. done. Qed.

Lemma is_multicast_iff b : (Z.land (ub b) 0xf0 =? 0xe0) = (224 <=? ub b) && (ub b <? 240).
Proof.
  apply eqb_prop. revert b.
  apply (byte_forall (fun b => Bool.eqb (Z.land (ub b) 0xf0 =? 0xe0)
    ((224 <=? ub b) && (ub b <? 240)))).
  vm_compute. reflexivity.
Qed.

Lemma validateIPv4_iff s loop : validateIPv4 s loop = None <-> usable_ipv4 s loop.
Proof.
  unfold validateIPv4, usable_ipv4.
  destruct (ParseIP s) as [ip|]; [|naive_solver]. destruct (To4 ip) as [v4|] eqn:E; [|naive_solver].
  rewrite !or_else_None, !fail_if_None. unfold IsLoopback, IsUnspecified, IsMulticast.
  rewrite is_multicast_iff, andb_false_iff, Z.eqb_neq, bool_decide_eq_false.
  rewrite andb_false_iff, Z.leb_gt, Z.ltb_ge. split.
  - intros (Hl&?&?). exists ip, v4. split_and!; try done; [|lia]. intros ->. by destruct Hl.
  - intros (ip'&v4'&[= <-]&E'&Hl&?&?). assert (v4' = v4) as -> by congruence.
    split_and!; [|done|lia]. destruct loop; [right; auto|by left].
Qed.

Lemma validateLabels_iff labels : validateLabels labels = None <-> Forall valid_label labels.
Proof.
  induction labels as [|l labels IH]; simpl; [naive_solver|].
  rewrite !or_else_None, !fail_if_None, IH, List.Forall_cons_iff, bool_decide_eq_false, Z.ltb_ge.
  unfold valid_label. destruct l; simpl; naive_solver lia.
Qed.

Lemma HasPrefix_drop s p : HasPrefix s p = true <-> s = p ++ drop (length p) s.
Proof.
  unfold HasPrefix. rewrite bool_decide_eq_true. split.
  - intros [k ->]. by rewrite drop_app_length.
  - intros ->. by eexists.
Qed.

Lemma validateRule_iff r : validateRule r = None <-> rule_ok r.
Proof.
  unfold validateRule. rewrite !or_else_None, !fail_if_None, !negb_false_iff.
  rewrite validateLabels_iff, validAction_iff, HasPrefix_drop. unfold ContainsStar.
  rewrite !bool_decide_eq_false. split.
  - intros (_&Hp&Hs&_&Hl&_&Ha). split; [|done]. exists (drop 2 (Pattern r)).
    split; [done|]. split; [done|]. split; [apply SplitDot_nonempty|done].
  - intros [(suffix&->&Hs&_&Hl) Ha]. simpl. rewrite drop_0. split_and!; try done.
    + intros ->. inversion Hl as [|?? Hv]. unfold valid_label in Hv. simpl in Hv. lia.
    + destruct Ha as [->| ->]; by vm_compute.
Qed.

Lemma validateRules_iff def i rules d :
  match validateRules def i rules d with
  | inr d' => Forall rule_ok rules /\ (d' = true <-> d = true \/ Exists (fun r => Action r <> def) rules)
  | inl _ => ~ Forall rule_ok rules
  end.
Proof.
  revert i d. induction rules as [|r rules IH]; intros i d; simpl.
  { split; [done|]. rewrite Exists_nil. tauto. }
  destruct (validateRule r) as [e|] eqn:E.
  { intros [Hr%validateRule_iff _]%List.Forall_cons_iff. congruence. }
  apply validateRule_iff in E.
  specialize (IH (S i) (d || negb (bool_decide (Action r = def)))).
  destruct (validateRules _ _ _ _) as [e|d']; rewrite List.Forall_cons_iff; [tauto|].
  destruct IH as [? ->]. split; [done|].
  rewrite Exists_cons, orb_true_iff, negb_true_iff, bool_decide_eq_false. tauto.
Qed.

Lemma validateMetricsAddr_iff addr :
  validateMetricsAddr addr = None <->
  exists host port p, SplitHostPort addr = Some (host, port) /\ Atoi port = Some p /\ 1 <= p <= 65535.
Proof.
  unfold validateMetricsAddr. case_decide as Ha.
  { split; [done|]. subst. intros (?&?&?&Hs&_). by vm_compute in Hs. }
  destruct (SplitHostPort addr) as [[host port]|]; [|naive_solver]. case_decide as Hp.
  { split; [done|]. subst. intros (?&?&?&[= _ <-]&Hs&_). by vm_compute in Hs. }
  destruct (Atoi port) as [p|] eqn:E; [|naive_solver].
  rewrite fail_if_None, orb_false_iff, !Z.ltb_ge. naive_solver.
Qed.

Lemma Validate_iff c : Validate c = None <-> config_ok c.
Proof.
  unfold Validate. rewrite !or_else_None, !fail_if_None, !fmap_None, !validateIPv4_iff.
  rewrite negb_false_iff, validAction_iff, !bool_decide_eq_false.
  pose proof (validateRules_iff (DefaultAction c) 0 (Rules c) false) as Hr.
  destruct (validateRules _ _ _ _) as [e|d].
  { split; [by intros (_&_&_&_&_&_&?)|]. by intros []. }
  rewrite !or_else_None, !fail_if_None, fmap_None, validateMetricsAddr_iff, !negb_false_iff.
  unfold validLogLevel. rewrite !Z.leb_gt, Z.ltb_ge, bool_decide_eq_true.
  destruct Hr as [Hrules Hd]. rewrite Hd. split.
  - intros (_&?&_&?&?&_&[?|?]&?&?&?&?&?&?); [done|]. by split.
  - intros [Hc Hh ? ? He ? ? ?]. split_and!; try done; try lia; try tauto.
    + intros E. rewrite E in Hc. destruct Hc as (?&?&Hs&_). by vm_compute in Hs.
    + intros E. rewrite E in Hh. destruct Hh as (?&?&Hs&_). by vm_compute in Hs.
    + intros E. rewrite E in He. by apply Exists_nil in He.
Qed.

(** C31. Parsing accepts a file exactly when its configuration, with the defaults
    filled in, has usable IPv4 addresses, rules that are [*.] and a valid name
    with a known action, a rule that differs from the default action, and a
    metrics address, health-check times and log level in range; and it returns
    that configuration. *)
Theorem parse_exact unmarshal bytes :
  match Parse unmarshal bytes with
  | inr c => exists c0, unmarshal bytes = Some c0 /\ c = applyDefaults c0 /\ config_ok c
  | inl _ => forall c0, unmarshal bytes = Some c0 -> ~ config_ok (applyDefaults c0)
  end.
Proof.
  unfold Parse. destruct (unmarshal bytes) as [c0|]; [|done].
  destruct (Validate (applyDefaults c0)) as [e|] eqn:E.
  - intros c [= ->] Hok%Validate_iff. congruence.
  - exists c0. by rewrite <- Validate_iff.
Qed.
