(* ===== verification/Loader.v ===== *)
(** * [internal/ebpf/maps.go]: the controller's side of the maps

    [PopulateConfig], [SetBypass], [PopulateSuffixRules], [CountSuffixRules]
    and [ReadMetrics].  The map system calls of the cilium library are the
    class [MapSyscalls]; [configMu] makes the two writers of [config_map] run
    one after the other, so each is one function here.  Go's unspecified map
    iteration order is a parameter. *)

From S2P Require Import Prelude.
From S2P Require Import Types.
From S2P Require Import Kernel.
From S2P Require Import DnsName.
From S2P Require Import GoStrings.
From S2P Require Import GoNet.
From S2P Require Import Dnsenc.

(** ** System calls *)

Inductive delete_result := Deleted | KeyNotExist | DeleteFailed.

Class MapSyscalls := {
  (** What a call may depend on or change besides the map's contents. *)
  sysk : Type;
  config_lookup : sysk -> list gateway_config -> option gateway_config;
  config_update :
    sysk -> list gateway_config -> gateway_config -> bool * list gateway_config * sysk;
  (** [Iterate]: the entries, and whether [iter.Err()] is nil. *)
  rules_iterate : sysk -> rules_map -> list (suffix_key * suffix_value) * bool;
  rules_delete : sysk -> rules_map -> suffix_key -> delete_result * rules_map * sysk;
  rules_update :
    sysk -> rules_map -> suffix_key -> suffix_value -> bool * rules_map * sysk;
  (** The values of one counter, a slot per CPU. *)
  metrics_lookup : sysk -> list (list Z) -> nat -> option (list Z)
}.

(** Documented behaviour of the calls. *)
Class MapSyscallsOk (M : MapSyscalls) := {
  config_lookup_ok k l c : config_lookup k l = Some c -> l !! 0%nat = Some c;
  config_update_ok k l c ok l' k' :
    config_update k l c = (ok, l', k') -> l' = if ok then <[0%nat := c]> l else l;
  rules_iterate_ok k m l : rules_iterate k m = (l, true) -> l ≡ₚ map_to_list m;
  rules_delete_ok k m key r m' k' :
    rules_delete k m key = (r, m', k') ->
    match r with
    | Deleted => m' = delete key m
    | KeyNotExist => m' = m /\ m !! key = None
    | DeleteFailed => m' = m
    end;
  rules_update_ok k m key v ok m' k' :
    rules_update k m key v = (ok, m', k') -> m' = if ok then <[key := v]> m else m;
  metrics_lookup_ok k cpus id vs :
    metrics_lookup k cpus id = Some vs -> vs = map (fun l => default 0 (l !! id)) cpus
}.

(** A healthy kernel, for a [suffix_rules] of [cap] entries: an update fails
    only when it would add an entry to a full map. *)
Class MapSyscallsUp (M : MapSyscalls) (up : sysk -> Prop) (cap : nat) := {
  up_config k l c ok l' k' :
    up k -> config_update k l c = (ok, l', k') -> ok = true /\ up k';
  up_iterate k m : up k -> (rules_iterate k m).2 = true;
  up_delete k m key r m' k' :
    up k -> rules_delete k m key = (r, m', k') -> r <> DeleteFailed /\ up k';
  up_update k m key v ok m' k' :
    up k -> is_Some (m !! key) \/ (size m < cap)%nat ->
    rules_update k m key v = (ok, m', k') -> ok = true /\ up k'
}.

(** ** Errors and inputs *)

Definition ActionHostResolve : Z := 1.
Definition ActionClusterResolve : Z := 2.

Inductive loader_error :=
  | CorednsNotIPv4 (ip : list byte)
  | HostResolverNotIPv4 (ip : list byte)
  | InvalidDefaultAction (a : Z)
  | UpdateConfigMap
  | LookupConfigMap
  | InvalidRuleAction (pattern : gostring) (a : Z)
  | ExactPattern (pattern : gostring)
  | InteriorWildcard (pattern : gostring)
  | EncodePattern (pattern : gostring) (e : encode_error)
  | ConflictingActions (pattern : gostring)
  | IterateRules
  | DeleteStaleRule
  | AddRule
  | LookupMetric (id : nat).

Definition nativeUint16 (b : list byte) : Z := le_combine b.
Definition nativeUint32IP (ip4 : list byte) : Z := le_combine ip4.

Definition dnsPort53 : Z := nativeUint16 [Byte.x00; Byte.x35].

Record Config := MkConfig {
  CorednsIP : list byte;
  HostResolverIP : list byte;
  Bypass : bool;
  DefaultAction : Z
}.

Record SuffixRule := MkRule { Pattern : gostring; Action : Z }.

(** ** The loader *)

Section loader.
Context {M : MapSyscalls} (unicode_lower : gostring -> gostring).
(** Go's iteration orders over a map. *)
Context (range : gmap suffix_key Z -> list (suffix_key * Z)).

Record loader := Loader {
  ConfigMap : list gateway_config;
  SuffixRules : rules_map;
  MetricsMap : list (list Z);     (* a list of counters per CPU *)
  Sys : sysk
}.

Definition set_config_map (l : list gateway_config) (k : sysk) (s : loader) : loader :=
  Loader l (SuffixRules s) (MetricsMap s) k.
Definition set_rules (m : rules_map) (k : sysk) (s : loader) : loader :=
  Loader (ConfigMap s) m (MetricsMap s) k.

Definition config_value (c4 h4 : list byte) (on : bool) (action : Z) : gateway_config :=
  {| coredns_ip := nativeUint32IP c4; host_resolver_ip := nativeUint32IP h4;
     dns_port := dnsPort53; bypass := if on then 1 else 0; default_action := action |}.

Definition PopulateConfig (cfg : Config) (s : loader) : option loader_error * loader :=
  match To4 (CorednsIP cfg) with
  | None => (Some (CorednsNotIPv4 (CorednsIP cfg)), s)
  | Some c4 =>
  match To4 (HostResolverIP cfg) with
  | None => (Some (HostResolverNotIPv4 (HostResolverIP cfg)), s)
  | Some h4 =>
      let defaultAction :=
        if DefaultAction cfg =? 0 then ActionClusterResolve else DefaultAction cfg in
      if negb (defaultAction =? ActionHostResolve) &&
         negb (defaultAction =? ActionClusterResolve)
      then (Some (InvalidDefaultAction defaultAction), s)
      else
        let val := config_value c4 h4 (Bypass cfg) defaultAction in
        let '(ok, l, k) := config_update (Sys s) (ConfigMap s) val in
        (if (ok : bool) then None else Some UpdateConfigMap, set_config_map l k s)
  end end.

Definition SetBypass (on : bool) (s : loader) : option loader_error * loader :=
  match config_lookup (Sys s) (ConfigMap s) with
  | None => (Some LookupConfigMap, s)
  | Some val =>
      let val := GatewayConfig (coredns_ip val) (host_resolver_ip val) (dns_port val)
                   (if on then 1 else 0) (default_action val) in
      let '(ok, l, k) := config_update (Sys s) (ConfigMap s) val in
      (if (ok : bool) then None else Some UpdateConfigMap, set_config_map l k s)
  end.

(** The validation loop: the wanted contents of [suffix_rules]. *)
Fixpoint desired_rules (rules : list SuffixRule) (desired : gmap suffix_key Z)
  : loader_error + gmap suffix_key Z :=
  match rules with
  | [] => inr desired
  | r :: rules =>
      if negb (Action r =? ActionHostResolve) && negb (Action r =? ActionClusterResolve)
      then inl (InvalidRuleAction (Pattern r) (Action r))
      else
        let '(suffix, isWildcard) := ParsePattern (Pattern r) in
        if negb isWildcard then inl (ExactPattern (Pattern r))
        else if ContainsStar suffix then inl (InteriorWildcard (Pattern r))
        else match EncodeSuffix unicode_lower suffix with
             | inl e => inl (EncodePattern (Pattern r) e)
             | inr key =>
                 let mapKey := SuffixKey key in
                 match desired !! mapKey with
                 | Some prev =>
                     if negb (prev =? Action r) then inl (ConflictingActions (Pattern r))
                     else desired_rules rules (<[mapKey := Action r]> desired)
                 | None => desired_rules rules (<[mapKey := Action r]> desired)
                 end
             end
  end.

(** [for key := range existing]: stale keys are deleted. *)
Fixpoint delete_stale (desired : gmap suffix_key Z) (keys : list (suffix_key * Z))
    (s : loader) : option loader_error * loader :=
  match keys with
  | [] => (None, s)
  | (key, _) :: keys =>
      match desired !! key with
      | Some _ => delete_stale desired keys s
      | None =>
          let '(r, m, k) := rules_delete (Sys s) (SuffixRules s) key in
          match r with
          | DeleteFailed => (Some DeleteStaleRule, set_rules m k s)
          | _ => delete_stale desired keys (set_rules m k s)
          end
      end
  end.

(** [for key, action := range desired]: new and changed keys are written. *)
Fixpoint add_rules (existing : gmap suffix_key Z) (entries : list (suffix_key * Z))
    (s : loader) : option loader_error * loader :=
  match entries with
  | [] => (None, s)
  | (key, action) :: entries =>
      if decide (existing !! key = Some action) then add_rules existing entries s
      else
        let '(ok, m, k) := rules_update (Sys s) (SuffixRules s) key (SuffixValue action 0) in
        if (ok : bool) then add_rules existing entries (set_rules m k s)
        else (Some AddRule, set_rules m k s)
  end.

Definition PopulateSuffixRules (rules : list SuffixRule) (s : loader)
  : option loader_error * loader :=
  match desired_rules rules ∅ with
  | inl e => (Some e, s)
  | inr desired =>
      let '(entries, ok) := rules_iterate (Sys s) (SuffixRules s) in
      if negb ok then (Some IterateRules, s)
      else
        let existing := foldl (fun m '(k, v) => <[k := sv_action v]> m) ∅ entries in
        match delete_stale desired (range existing) s with
        | (Some e, s) => (Some e, s)
        | (None, s) => add_rules existing (range desired) s
        end
  end.

Definition CountSuffixRules (s : loader) : loader_error + Z :=
  let '(entries, ok) := rules_iterate (Sys s) (SuffixRules s) in
  if (ok : bool) then inr (Z.of_nat (length entries)) else inl IterateRules.

(** The sums wrap at 64 bits; on an error the sums read so far are returned
    with it. *)
Fixpoint read_metrics (ids : list nat) (s : loader) (snap : list Z)
  : option loader_error * list Z :=
  match ids with
  | [] => (None, snap)
  | id :: ids =>
      match metrics_lookup (Sys s) (MetricsMap s) id with
      | None => (Some (LookupMetric id), snap)
      | Some perCPU =>
          let sum := foldl (fun sum v => u64 (sum + v)) 0 perCPU in
          read_metrics ids s (<[id := sum]> snap)
      end
  end.

Definition ReadMetrics (s : loader) : option loader_error * list Z :=
  read_metrics (seq 0 METRIC__MAX) s (replicate METRIC__MAX 0).
End loader.

(** ** Contents of a rule set *)

Section rules.
Context (unicode_lower : gostring -> gostring).

(** The key of a rule, and what [PopulateSuffixRules] requires of one. *)
Definition rule_key (r : SuffixRule) : option suffix_key :=
  match EncodeSuffix unicode_lower (ParsePattern (Pattern r)).1 with
  | inr key => Some (SuffixKey key)
  | inl _ => None
  end.

Definition valid_rule (r : SuffixRule) : Prop :=
  (Action r = ActionHostResolve \/ Action r = ActionClusterResolve) /\
  (ParsePattern (Pattern r)).2 = true /\
  ContainsStar (ParsePattern (Pattern r)).1 = false /\ is_Some (rule_key r).

Definition consistent (rules : list SuffixRule) : Prop :=
  forall r r' k, r ∈ rules -> r' ∈ rules -> rule_key r = Some k -> rule_key r' = Some k ->
    Action r = Action r'.

(** One round of the validation loop. *)
Lemma desired_rules_cons r rules des :
  (exists k, valid_rule r /\ rule_key r = Some k /\
     (forall a, des !! k = Some a -> a = Action r) /\
     desired_rules unicode_lower (r :: rules) des =
       desired_rules unicode_lower rules (<[k := Action r]> des)) \/
  ((exists e, desired_rules unicode_lower (r :: rules) des = inl e) /\
   (~ valid_rule r \/
    exists k a, rule_key r = Some k /\ des !! k = Some a /\ a <> Action r)).
Proof.
  unfold valid_rule, rule_key. simpl.
  destruct (ParsePattern (Pattern r)) as [suffix w]. simpl.
  destruct (Z.eqb_spec (Action r) ActionHostResolve),
    (Z.eqb_spec (Action r) ActionClusterResolve); simpl;
    try (right; split; [by eexists|left; tauto]).
  1: unfold ActionHostResolve, ActionClusterResolve in *; lia.
  all: destruct w; simpl; [|right; split; [by eexists|left; intuition congruence]].
  all: destruct (ContainsStar suffix); [right; split; [by eexists|left; intuition congruence]|].
  all: destruct (EncodeSuffix _ suffix) as [err|key];
    [right; split; [by eexists|left; intros (_&_&_&[? ?]); congruence]|].
  all: destruct (des !! SuffixKey key) as [prev|] eqn:Hp;
    [destruct (Z.eqb_spec prev (Action r)); simpl|].
  all: try (right; split; [by eexists|right; eexists _, prev; by split_and!]).
  all: left; exists (SuffixKey key); split_and!; eauto; try tauto; congruence.
Qed.

Lemma desired_rules_lookup rules des0 des :
  desired_rules unicode_lower rules des0 = inr des ->
  forall k a, des !! k = Some a <->
    des0 !! k = Some a \/ exists r, r ∈ rules /\ rule_key r = Some k /\ Action r = a.
Proof.
  revert des0. induction rules as [|r rules IH]; intros des0 E k a.
  { injection E as ->. split; [by left|]. intros [?|(?&Hr&_)]; [done|]. by apply elem_of_nil in Hr. }
  destruct (desired_rules_cons r rules des0) as [(k'&_&Hk'&Hc&E')|[[e E'] _]]; [|congruence].
  rewrite E' in E. rewrite (IH _ E). setoid_rewrite elem_of_cons. split.
  - intros [Hl|(r'&?&?&?)]; [|by right; eauto].
    apply lookup_insert_Some in Hl as [[<- <-]|[_ ?]]; [right; eauto|by left].
  - intros [Hl|(r'&[->|?]&Hr'&<-)].
    + left. destruct (decide (k' = k)) as [->|]; [|by rewrite lookup_insert_ne].
      rewrite lookup_insert_eq. by rewrite <- (Hc _ Hl).
    + left. assert (k' = k) as -> by congruence. by rewrite lookup_insert_eq.
    + right. eauto.
Qed.

Lemma desired_rules_size rules des0 des :
  desired_rules unicode_lower rules des0 = inr des ->
  (size des <= size des0 + length rules)%nat.
Proof.
  revert des0. induction rules as [|r rules IH]; intros des0 E; [injection E as <-; simpl; lia|].
  destruct (desired_rules_cons r rules des0) as [(k&_&_&_&E')|[[e E'] _]]; [|congruence].
  rewrite E' in E. apply IH in E. rewrite map_size_insert in E.
  destruct (des0 !! k); simpl in *; lia.
Qed.

Lemma desired_rules_accepts rules :
  (exists des, desired_rules unicode_lower rules ∅ = inr des) <->
  Forall valid_rule rules /\ consistent rules.
Proof.
  enough (forall des0, (exists des, desired_rules unicode_lower rules des0 = inr des) <->
    Forall valid_rule rules /\ consistent rules /\
    forall r k a, r ∈ rules -> rule_key r = Some k -> des0 !! k = Some a -> a = Action r) as Hg.
  { rewrite Hg. split; [tauto|]. intros [? ?]. split_and!; try done. }
  induction rules as [|r rules IH]; intros des0.
  { split; [|by eexists]. intros _. split_and!; [constructor| |].
    - intros ??? Hr. by apply elem_of_nil in Hr.
    - intros ??? Hr. by apply elem_of_nil in Hr. }
  unfold consistent in *. setoid_rewrite elem_of_cons. rewrite List.Forall_cons_iff.
  destruct (desired_rules_cons r rules des0) as [(k&Hv&Hk&Hc&->)|[[e ->] Hbad]].
  - rewrite IH. split.
    + intros (?&Hcons&Hins). split_and!; try done.
      * intros r1 r2 k' [->|H1] [->|H2] E1 E2; eauto.
        -- assert (k' = k) as -> by congruence. eapply Hins; eauto. by rewrite lookup_insert_eq.
        -- assert (k' = k) as -> by congruence. symmetry. eapply Hins; eauto.
           by rewrite lookup_insert_eq.
      * intros r1 k' a [->|H1] E1 Ha; [assert (k' = k) as -> by congruence; auto|].
        destruct (decide (k = k')) as [->|Hne];
          [|apply (Hins r1 k'); eauto; by rewrite lookup_insert_ne].
        rewrite <- (Hc _ Ha) in Hins. apply (Hins r1 k'); eauto. by rewrite lookup_insert_eq.
    + intros ([_ ?]&Hcons&Hins). split_and!; [done|eauto|].
      intros r1 k' a H1 E1 [[<- <-]|[_ Ha]]%lookup_insert_Some; eauto.
  - split; [by intros [? ?]|]. intros ([? _]&_&Hins).
    destruct Hbad as [?|(k&a&Hk&Ha&Hne)]; [done|]. destruct Hne. eapply Hins; eauto.
Qed.
End rules.

(** ** Reconciliation *)

Section reconcile.
Context {M : MapSyscalls} {MO : MapSyscallsOk M}.
Implicit Types (desired existing : gmap suffix_key Z) (s : loader).

(** The value written for a key stands for an action. *)
Abbreviation actions := (fmap sv_action : rules_map -> gmap suffix_key Z).

Definition others_kept s s' : Prop := ConfigMap s' = ConfigMap s /\ MetricsMap s' = MetricsMap s.

Lemma existing_actions (l : list (suffix_key * suffix_value)) (m : rules_map) :
  l ≡ₚ map_to_list m ->
  foldl (fun m '(k, v) => <[k := sv_action v]> m) ∅ l = actions m.
Proof.
  intros Hl.
  assert (NoDup l.*1) as Hnd by (rewrite Hl; apply NoDup_fst_map_to_list).
  rewrite <- (list_to_map_to_list m), <- (list_to_map_proper l _ Hnd Hl).
  enough (forall acc : gmap suffix_key Z,
    foldl (fun m '(k, v) => <[k := sv_action v]> m) acc l =
    actions (list_to_map l) ∪ acc) as Hg by (rewrite Hg; apply (right_id_L _ _)).
  clear Hl. induction l as [|[k v] l IH]; intros acc; simpl.
  { rewrite fmap_empty. by rewrite (left_id_L _ _). }
  inversion Hnd as [|?? Hk Hnd']; subst. rewrite IH by done.
  rewrite fmap_insert. rewrite <- insert_union_l, <- insert_union_r; [done|].
  rewrite lookup_fmap, (not_elem_of_list_to_map_1 l k); done.
Qed.

Lemma delete_stale_spec desired keys s e s' :
  delete_stale desired keys s = (e, s') ->
  others_kept s s' /\
  (forall k, SuffixRules s' !! k = SuffixRules s !! k \/
             (desired !! k = None /\ SuffixRules s' !! k = None)) /\
  (e = None -> forall k, k ∈ keys.*1 -> desired !! k = None -> SuffixRules s' !! k = None).
Proof.
  revert s. induction keys as [|[key a] keys IH]; intros s; simpl.
  { intros [= <- <-]. split_and!; [done|by left|]. intros _ k Hk. by apply elem_of_nil in Hk. }
  destruct (desired !! key) eqn:Hd.
  { intros (?&?&Hn)%IH. split_and!; try done. intros He k [->|Hk]%elem_of_cons Hk'; [congruence|eauto]. }
  destruct (rules_delete _ _ _) as [[r m] k1] eqn:Hdel. apply rules_delete_ok in Hdel.
  assert (r <> DeleteFailed -> m = delete key (SuffixRules s)) as Hm.
  { destruct r; [done| |done]. destruct Hdel as [-> ?]. by rewrite delete_id. }
  assert (r = DeleteFailed \/ r <> DeleteFailed) as [-> |Hr]
    by (destruct r; auto; right; done).
  { intros [= <- <-]. subst m. split_and!; [done|by left|done]. }
  rewrite (Hm Hr). clear Hdel Hm. intros E.
  assert (delete_stale desired keys (set_rules (delete key (SuffixRules s)) k1 s) = (e, s')) as E'
    by by destruct r.
  apply IH in E' as ([? ?]&Hk&Hn). simpl in *. split_and!; [done| |].
  - intros k. destruct (Hk k) as [Hk'|?]; [|by right]. rewrite Hk'.
    destruct (decide (k = key)) as [->|]; [right; by rewrite lookup_delete_eq|left].
    by rewrite lookup_delete_ne.
  - intros He k [->|?]%elem_of_cons ?; [|by apply Hn].
    destruct (Hk key) as [->|[_ ?]]; [apply lookup_delete_eq|done].
Qed.

Lemma add_rules_spec existing entries s e s' :
  NoDup entries.*1 -> add_rules existing entries s = (e, s') ->
  others_kept s s' /\
  (forall k, SuffixRules s' !! k = SuffixRules s !! k \/
     exists a, (k, a) ∈ entries /\ existing !! k <> Some a /\
       SuffixRules s' !! k = Some (SuffixValue a 0)) /\
  (e = None -> forall k a, (k, a) ∈ entries -> existing !! k <> Some a ->
     SuffixRules s' !! k = Some (SuffixValue a 0)).
Proof.
  revert s. induction entries as [|[key a] entries IH]; intros s Hnd; simpl.
  { intros [= <- <-]. split_and!; [done|by left|]. intros _ k a Hk. by apply elem_of_nil in Hk. }
  inversion Hnd as [|?? Hkey Hnd']; subst. setoid_rewrite elem_of_cons. case_decide as Hex.
  { intros (?&Hk&Hn)%IH; [|done]. split_and!; [done| |].
    - intros k. destruct (Hk k) as [?|(b&?&?&?)]; [by left|right; eauto 6].
    - intros He k b [[= -> ->]|?] ?; [done|eauto]. }
  destruct (rules_update _ _ _ _) as [[ok m] k1] eqn:Hup. apply rules_update_ok in Hup as ->.
  destruct ok.
  2:{ intros [= <- <-]. split_and!; [done|by left|done]. }
  intros ([? ?]&Hk&Hn)%IH; [|done]. simpl in *. split_and!; [done| |].
  - intros k. destruct (Hk k) as [Hk'|(b&?&?&?)]; [|right; eauto 6].
    destruct (decide (k = key)) as [->|]; [|left; by rewrite Hk', lookup_insert_ne].
    right. exists a. rewrite Hk', lookup_insert_eq. eauto.
  - intros He k b [[= -> ->]|?] ?; [|eauto].
    destruct (Hk key) as [->|(b&Hin&_)]; [apply lookup_insert_eq|].
    destruct Hkey. apply list_elem_of_fmap. by exists (key, b).
Qed.

Context (ul : gostring -> gostring) (range : gmap suffix_key Z -> list (suffix_key * Z)).
Context (Hrange : forall m, range m ≡ₚ map_to_list m).

Lemma range_NoDup m : NoDup (range m).*1.
Proof. rewrite Hrange. apply NoDup_fst_map_to_list. Qed.

Lemma elem_of_range m k a : (k, a) ∈ range m <-> m !! k = Some a.
Proof. rewrite Hrange. apply elem_of_map_to_list. Qed.

Lemma elem_of_range_keys m k : k ∈ (range m).*1 <-> is_Some (m !! k).
Proof.
  rewrite list_elem_of_fmap. split.
  - intros ([k' a]&->&?%elem_of_range). eauto.
  - intros [a Ha]. exists (k, a). by rewrite elem_of_range.
Qed.

(** What a call leaves, whether or not it fails on the way: entries that are
    old or wanted, and every entry that is both. *)
Lemma populate_outcome rules s e s' :
  PopulateSuffixRules ul range rules s = (e, s') ->
  others_kept s s' /\
  match desired_rules ul rules ∅ with
  | inl err => e = Some err /\ s' = s
  | inr desired =>
      (forall k v, SuffixRules s' !! k = Some v ->
         SuffixRules s !! k = Some v \/ desired !! k = Some (sv_action v)) /\
      (forall k v, SuffixRules s !! k = Some v -> desired !! k = Some (sv_action v) ->
         SuffixRules s' !! k = Some v) /\
      (e = None -> actions (SuffixRules s') = desired)
  end.
Proof.
  unfold PopulateSuffixRules. destruct (desired_rules _ _ _) as [err|desired]; [by intros [= <- <-]|].
  destruct (rules_iterate _ _) as [entries ok] eqn:Hit. destruct ok; simpl.
  2:{ intros [= <- <-]. split_and!; eauto; done. }
  apply rules_iterate_ok in Hit. rewrite (existing_actions _ _ Hit).
  destruct (delete_stale _ _ _) as [e1 s1] eqn:Hdel.
  apply delete_stale_spec in Hdel as ([? ?]&Hd&Hdn).
  assert (forall k v, SuffixRules s !! k = Some v -> desired !! k = Some (sv_action v) ->
    SuffixRules s1 !! k = Some v) as Hkeep
    by (intros k v Hv Hw; destruct (Hd k) as [->|[? _]]; congruence).
  assert (forall k v, SuffixRules s1 !! k = Some v -> SuffixRules s !! k = Some v) as Hsub
    by (intros k v Hv; destruct (Hd k) as [<-|[_ ?]]; congruence).
  destruct e1 as [e1|].
  { intros [= <- <-]. split_and!; eauto; done. }
  intros ([? ?]&Ha&Han)%add_rules_spec; [|apply range_NoDup]. split; [split; congruence|].
  setoid_rewrite elem_of_range in Ha. setoid_rewrite elem_of_range in Han. split_and!.
  - intros k v Hv. destruct (Ha k) as [E|(a&Hdes&_&E)]; [left; apply Hsub; congruence|right].
    rewrite E in Hv. by injection Hv as <-.
  - intros k v Hv Hw. destruct (Ha k) as [->|(a&Hdes&Hne&E)]; [auto|].
    destruct Hne. rewrite lookup_fmap, Hv. simpl. congruence.
  - intros ->. apply map_eq. intros k. rewrite lookup_fmap.
    destruct (desired !! k) as [a|] eqn:Hdk.
    + destruct (decide (actions (SuffixRules s) !! k = Some a)) as [Hex|Hex].
      * rewrite lookup_fmap in Hex. apply fmap_Some in Hex as (v&Hv&->).
        destruct (Ha k) as [->|(b&Hb&_&->)]; [by rewrite (Hkeep k v)|].
        simpl. congruence.
      * by rewrite (Han eq_refl k a).
    + destruct (Ha k) as [->|(b&Hb&_)]; [|congruence].
      destruct (SuffixRules s !! k) as [v|] eqn:Hv.
      * rewrite Hdn; try done. apply elem_of_range_keys. rewrite lookup_fmap, Hv. by eexists.
      * destruct (Hd k) as [->|[_ ->]]; by rewrite ?Hv.
Qed.
End reconcile.

(** ** Capacity *)

Section capacity.
Context {M : MapSyscalls} {MO : MapSyscallsOk M}.
Context (up : sysk -> Prop) (cap : nat) {MU : MapSyscallsUp M up cap}.

Lemma delete_stale_up desired keys s :
  up (Sys s) -> exists s', delete_stale desired keys s = (None, s') /\ up (Sys s').
Proof.
  revert s. induction keys as [|[key a] keys IH]; intros s Hs; simpl; [eauto|].
  destruct (desired !! key); [auto|].
  destruct (rules_delete _ _ _) as [[r m] k1] eqn:E.
  apply up_delete in E as [Hr Hk]; [|done]. destruct r; [by apply IH..|done].
Qed.

Lemma size_room (m : rules_map) (desired : gmap suffix_key Z) key :
  (size desired <= cap)%nat -> dom m ⊆ dom desired -> is_Some (desired !! key) ->
  m !! key = None -> (size m < cap)%nat.
Proof.
  intros Hs Hd Hk Hm. assert (dom m ⊂ dom desired) as Hlt%subset_size.
  { split; [done|]. intros Hsub. apply elem_of_dom, Hsub, elem_of_dom in Hk.
    destruct Hk as [v Hv]. congruence. }
  rewrite !size_dom in Hlt. lia.
Qed.

Lemma add_rules_up existing (desired : gmap suffix_key Z) entries s :
  (size desired <= cap)%nat -> (forall k a, (k, a) ∈ entries -> desired !! k = Some a) ->
  up (Sys s) -> dom (SuffixRules s) ⊆ dom desired ->
  exists s', add_rules existing entries s = (None, s').
Proof.
  intros Hcap. revert s. induction entries as [|[key a] entries IH]; intros s Hin Hs Hd; simpl;
    [by eexists|].
  assert (desired !! key = Some a) as Hka by (apply Hin; left).
  assert (forall k a, (k, a) ∈ entries -> desired !! k = Some a) as Hin'
    by (intros; apply Hin; by right).
  case_decide; [auto|].
  destruct (rules_update _ _ _ _) as [[ok m] k1] eqn:E. pose proof E as E'.
  apply rules_update_ok in E'. apply up_update in E as [-> Hk1]; [|done|].
  - subst m. apply IH; try done. simpl. rewrite dom_insert_L.
    apply union_subseteq. split; [|done]. apply singleton_subseteq_l, elem_of_dom. eauto.
  - destruct (SuffixRules s !! key) eqn:Hlk; [left; eauto|right]. eapply size_room; eauto.
Qed.
End capacity.
