(* ===== verification/LoaderProps.v ===== *)
(** * Properties of the controller's side of the maps *)

From stdpp Require Import strings.
From S2P Require Import Prelude.
From S2P Require Import Types.
From S2P Require Import Kernel.
From S2P Require Import DnsName.
From S2P Require Import RefKernel.
From S2P Require Import Samples.
From S2P Require Import System.
From S2P Require Import GoStrings.
From S2P Require Import GoNet.
From S2P Require Import Dnsenc.
From S2P Require Import Loader.

(** ** Concrete system calls

    A map of 1024 entries; an update consumes one entry of a fault script. *)

Definition SUFFIX_RULES_MAX : nat := 1024.

#[export] Instance RefSyscalls : MapSyscalls := {|
  sysk := list bool;
  config_lookup k l := l !! 0%nat;
  config_update k l c := (true, <[0%nat := c]> l, k);
  rules_iterate k m := (map_to_list m, true);
  rules_delete k m key :=
    (if bool_decide (is_Some (m !! key)) then Deleted else KeyNotExist, delete key m, k);
  rules_update k m key v :=
    let full := bool_decide (m !! key = None) && (SUFFIX_RULES_MAX <=? size m)%nat in
    let bad := match k with true :: _ => true | _ => false end in
    if full || bad then (false, m, tail k) else (true, <[key := v]> m, tail k);
  metrics_lookup k cpus id := Some (map (fun l => default 0 (l !! id)) cpus)
|}.

#[export] Instance RefSyscallsOk : MapSyscallsOk RefSyscalls.
Proof.
  split; simpl; intros; simplify_eq; try done.
  - case_bool_decide as E; [done|]. rewrite <- eq_None_not_Some in E. by rewrite delete_id.
  - destruct (_ || _); by simplify_eq.
Qed.

#[export] Instance RefSyscallsUp : MapSyscallsUp RefSyscalls (fun k => k = []) SUFFIX_RULES_MAX.
Proof.
  split; cbn [sysk config_update rules_iterate rules_delete rules_update RefSyscalls].
  - by intros k l c ok l' k' -> [= <- <- <-].
  - done.
  - intros k m key r m' k' -> [= <- <- <-]. by case_bool_decide.
  - intros k m key v ok m' k' -> Hroom.
    assert (bool_decide (m !! key = None) && (SUFFIX_RULES_MAX <=? size m)%nat = false) as ->.
    { destruct Hroom as [[w Hw]|Hs]; [by rewrite Hw|].
      rewrite (proj2 (Nat.leb_gt _ _)) by done. apply andb_false_r. }
    by intros [= <- <- <-].
Qed.

Section theorems.
Context {M : MapSyscalls} {MO : MapSyscallsOk M}.
Context (ul : gostring -> gostring) (range : gmap suffix_key Z -> list (suffix_key * Z)).

(** What a successful reconciliation leaves. *)
Lemma populate_contents rules s s' :
  (forall m, range m ≡ₚ map_to_list m) ->
  PopulateSuffixRules ul range rules s = (None, s') ->
  ConfigMap s' = ConfigMap s /\
  forall k a, sv_action <$> SuffixRules s' !! k = Some a <->
    exists r, r ∈ rules /\ rule_key ul r = Some k /\ Action r = a.
Proof.
  intros Hr Hp. apply (populate_outcome ul range Hr) in Hp as ([Hc _]&Ho).
  split; [done|]. destruct (desired_rules ul rules ∅) as [err|des] eqn:Hd; [by destruct Ho|].
  destruct Ho as (_&_&Ho). intros k a.
  rewrite <- lookup_fmap, (Ho eq_refl), (desired_rules_lookup _ _ _ _ Hd k a).
  split; [by intros [[]%lookup_empty_Some|?]|by right].
Qed.

(** C26. Reconciliation: when [PopulateSuffixRules] succeeds, from whatever the
    map held and in whatever order Go iterates, [suffix_rules] holds exactly the
    keys of the given rules, each with its rule's action. *)
Theorem populate_reconciles rules s s' :
  (forall m, range m ≡ₚ map_to_list m) ->
  PopulateSuffixRules ul range rules s = (None, s') ->
  ConfigMap s' = ConfigMap s /\
  forall k a, sv_action <$> SuffixRules s' !! k = Some a <->
    exists r, r ∈ rules /\ rule_key ul r = Some k /\ Action r = a.
Proof. apply populate_contents. Qed.

(** Rejection: a rule set is refused, with the map untouched, exactly when a
    rule is malformed (a bad action, not a [*.] pattern, an interior wildcard, a
    suffix that does not encode) or two rules give one key different actions. *)
Theorem populate_rejects rules s :
  ~ (Forall (valid_rule ul) rules /\ consistent ul rules) <->
  exists err, desired_rules ul rules ∅ = inl err /\
    PopulateSuffixRules ul range rules s = (Some err, s).
Proof.
  rewrite <- desired_rules_accepts. unfold PopulateSuffixRules.
  destruct (desired_rules ul rules ∅) as [err|des]; split.
  - intros _. by exists err.
  - by intros _ [? ?].
  - intros Hn. destruct Hn. by exists des.
  - by intros (?&?&_).
Qed.

(** C32. Reconciliation does not disturb what stays: whether it succeeds or fails
    half-way, an entry present before whose key and action are still wanted is
    still there, and no entry appears that is neither old nor wanted. *)
Theorem populate_no_disruption rules s e s' :
  (forall m, range m ≡ₚ map_to_list m) ->
  PopulateSuffixRules ul range rules s = (e, s') ->
  (forall k v r, SuffixRules s !! k = Some v -> r ∈ rules -> rule_key ul r = Some k ->
     Action r = sv_action v -> SuffixRules s' !! k = Some v) /\
  (forall k v, SuffixRules s' !! k = Some v -> SuffixRules s !! k = Some v \/
     exists r, r ∈ rules /\ rule_key ul r = Some k /\ Action r = sv_action v).
Proof.
  intros Hr Hp. apply (populate_outcome ul range Hr) in Hp as (_&Ho).
  destruct (desired_rules ul rules ∅) as [err|des] eqn:Hd.
  { destruct Ho as [_ ->]. split; [done|by left]. }
  pose proof (desired_rules_lookup _ _ _ _ Hd) as Hdes.
  destruct Ho as (Hold&Hkeep&_). split.
  - intros k v r Hv Hin Hk Ha. apply Hkeep; [done|]. apply Hdes. right. eauto.
  - intros k v [?|[[]%lookup_empty_Some|?]%Hdes]%Hold; [by left|by right].
Qed.

(** On a healthy kernel, valid rules that fit the map are installed. *)
Lemma populate_up up cap rules s des :
  (forall m, range m ≡ₚ map_to_list m) -> MapSyscallsUp M up cap -> up (Sys s) ->
  desired_rules ul rules ∅ = inr des -> (size des <= cap)%nat ->
  exists s', PopulateSuffixRules ul range rules s = (None, s').
Proof.
  intros Hr HU Hs Hd Hcap. unfold PopulateSuffixRules. rewrite Hd.
  pose proof (up_iterate (Sys s) (SuffixRules s) Hs) as Hit.
  destruct (rules_iterate (Sys s) (SuffixRules s)) as [entries ok] eqn:E. simpl in Hit. subst ok.
  apply rules_iterate_ok in E. rewrite (existing_actions _ _ E). simpl.
  set (ex := sv_action <$> SuffixRules s).
  destruct (delete_stale_up up cap des (range ex) s Hs) as (s1&Hdel&Hs1). rewrite Hdel.
  apply delete_stale_spec in Hdel as (_&Hsub&Hdn).
  apply (add_rules_up up cap _ des); try done; [intros k a; by rewrite elem_of_range|].
  intros k [v Hv]%elem_of_dom. apply elem_of_dom. destruct (des !! k) eqn:Hk; [by eexists|].
  exfalso. rewrite Hdn in Hv; try done. apply elem_of_range_keys; [done|].
  unfold ex. rewrite lookup_fmap. destruct (Hsub k) as [<-|[_ ?]]; [|congruence].
  rewrite Hv. by eexists.
Qed.

(** C33. A full map can be reconciled.  On a healthy kernel, valid rules that do
    not contradict each other, and are no more than the map can hold, are
    installed whatever the map holds, because stale entries are deleted before
    new ones are written: the call succeeds, and afterwards the map holds exactly
    the keys of the rules, each with its rule's action. *)
Theorem populate_at_capacity up cap rules s :
  (forall m, range m ≡ₚ map_to_list m) -> MapSyscallsUp M up cap -> up (Sys s) ->
  Forall (valid_rule ul) rules -> consistent ul rules -> (length rules <= cap)%nat ->
  exists s', PopulateSuffixRules ul range rules s = (None, s') /\
    ConfigMap s' = ConfigMap s /\
    forall k a, sv_action <$> SuffixRules s' !! k = Some a <->
      exists r, r ∈ rules /\ rule_key ul r = Some k /\ Action r = a.
Proof.
  intros Hr HU Hs Hv Hc Hcap.
  destruct (proj2 (desired_rules_accepts ul rules) (conj Hv Hc)) as [des Hd].
  destruct (populate_up up cap rules s des) as [s' Hp]; [done..| |].
  - apply desired_rules_size in Hd. rewrite map_size_empty in Hd. lia.
  - exists s'. split; [done|]. by apply populate_contents.
Qed.

(** ** The configuration entry *)

Lemma field_eq_bytes off n d bs :
  n = Z.of_nat (length bs) -> in_range off n d -> field off n d = le_combine bs <-> slice off n d = bs.
Proof.
  intros -> Hr. unfold field. split; [|by intros ->].
  apply le_combine_inj. by rewrite length_slice, Nat2Z.id.
Qed.

Lemma config_value_wf c4 h4 on act :
  length c4 = 4%nat -> length h4 = 4%nat ->
  act = ActionHostResolve \/ act = ActionClusterResolve ->
  gateway_config_wf (config_value c4 h4 on act).
Proof.
  intros Lc Lh Hact. pose proof (le_combine_range c4) as Rc. pose proof (le_combine_range h4) as Rh.
  rewrite Lc in Rc. rewrite Lh in Rh. unfold gateway_config_wf, is_u32, is_u16. simpl.
  unfold nativeUint32IP, ActionHostResolve, ActionClusterResolve in *.
  assert (0 <= dnsPort53 < 2 ^ 16) by (vm_compute; split; congruence).
  destruct on; lia.
Qed.

(** The entry a successful call writes. *)
Lemma populate_config_entry cfg s s' c0 :
  ConfigMap s = [c0] -> PopulateConfig cfg s = (None, s') ->
  exists c4 h4, ConfigMap s' = [config_value c4 h4 (Bypass cfg)
    (if DefaultAction cfg =? 0 then ACTION_CLUSTER_RESOLVE else DefaultAction cfg)].
Proof.
  intros Hs. unfold PopulateConfig. destruct (To4 _) as [c4|]; [|done].
  destruct (To4 _) as [h4|]; [|done]. case_match; [done|].
  destruct (config_update _ _ _) as [[ok l] k] eqn:Hup. apply config_update_ok in Hup.
  destruct ok; intros [= <-]. exists c4, h4. simpl. by rewrite Hup, Hs.
Qed.

(** C29. Byte order: after [PopulateConfig], the datapath's integer comparisons
    hold exactly for packets that carry the configured IPv4 addresses and port
    53 in network order, the action is one of the two (an absent one is
    cluster-resolve), and the entry is well-formed. *)
Theorem populate_config_bytes cfg s s' c0 :
  ConfigMap s = [c0] -> PopulateConfig cfg s = (None, s') ->
  exists c c4 h4, ConfigMap s' = [c] /\ gateway_config_wf c /\
    To4 (CorednsIP cfg) = Some c4 /\ To4 (HostResolverIP cfg) = Some h4 /\
    (forall d off, in_range off 4 d ->
       (field off 4 d = coredns_ip c <-> slice off 4 d = c4) /\
       (field off 4 d = host_resolver_ip c <-> slice off 4 d = h4)) /\
    (forall d off, in_range off 2 d ->
       field off 2 d = dns_port c <-> slice off 2 d = [Byte.x00; Byte.x35]) /\
    bypass c = (if Bypass cfg then 1 else 0) /\
    default_action c = (if DefaultAction cfg =? 0 then ACTION_CLUSTER_RESOLVE else DefaultAction cfg) /\
    (default_action c = ACTION_HOST_RESOLVE \/ default_action c = ACTION_CLUSTER_RESOLVE).
Proof.
  intros Hs. unfold PopulateConfig.
  destruct (To4 (CorednsIP cfg)) as [c4|] eqn:Hc; [|done].
  destruct (To4 (HostResolverIP cfg)) as [h4|] eqn:Hh; [|done].
  set (act := if _ =? 0 then _ else _). case_match eqn:Hact; [done|].
  destruct (config_update _ _ _) as [[ok l] k] eqn:Hup. apply config_update_ok in Hup.
  destruct ok; intros [= <-]. simpl. rewrite Hup, Hs. simpl.
  apply andb_false_iff in Hact. rewrite !negb_false_iff, !Z.eqb_eq in Hact.
  pose proof (To4_length _ _ Hc) as Lc. pose proof (To4_length _ _ Hh) as Lh.
  exists (config_value c4 h4 (Bypass cfg) act), c4, h4. split_and!; try done.
  - by apply config_value_wf.
  - intros d off Hd. split; apply field_eq_bytes; rewrite ?Lc, ?Lh; done.
  - intros d off Hd. by apply field_eq_bytes.
Qed.

(** [SetBypass] rewrites the bypass flag and nothing else, and on an error
    changes nothing: it is a [step_set_bypass] of the node or no step. *)
Theorem set_bypass_frame on s e s' c :
  ConfigMap s = [c] -> SetBypass on s = (e, s') ->
  SuffixRules s' = SuffixRules s /\ MetricsMap s' = MetricsMap s /\
  ConfigMap s' = match e with
                 | None => [with_bypass (if on then 1 else 0) c]
                 | Some _ => [c]
                 end.
Proof.
  intros Hs. unfold SetBypass.
  destruct (config_lookup _ _) as [v|] eqn:Hl; [|by intros [= <- <-]].
  apply config_lookup_ok in Hl. rewrite Hs in Hl. injection Hl as <-.
  destruct (config_update _ _ _) as [[ok l] k] eqn:Hup. apply config_update_ok in Hup.
  rewrite Hs in Hup. destruct ok; intros [= <- <-]; simpl; by subst.
Qed.

(** ** The counters *)

Lemma sum_u64 vs acc :
  foldl (fun sum v => u64 (sum + v)) (u64 acc) vs = u64 (acc + foldr Z.add 0 vs).
Proof.
  revert acc. induction vs as [|v vs IH]; intros acc; simpl; [by rewrite Z.add_0_r|].
  replace (u64 (u64 acc + v)) with (u64 (acc + v)) by (unfold u64; by rewrite Zplus_mod_idemp_l).
  rewrite IH. f_equal. lia.
Qed.

Lemma read_metrics_spec ids s snap snap' :
  read_metrics ids s snap = (None, snap') -> NoDup ids ->
  Forall (fun id => (id < length snap)%nat) ids ->
  length snap' = length snap /\
  forall id, snap' !! id =
    if decide (id ∈ ids)
    then Some (u64 (foldr Z.add 0 (map (fun l => default 0 (l !! id)) (MetricsMap s))))
    else snap !! id.
Proof.
  revert snap. induction ids as [|i ids IH]; intros snap; simpl.
  { by intros [= <-]. }
  destruct (metrics_lookup _ _ _) as [vs|] eqn:Hl; [|done].
  apply metrics_lookup_ok in Hl. intros E Hnd Hlt. inversion Hnd; inversion Hlt; subst.
  apply IH in E as [Hlen Hs]; [|done|by rewrite length_insert].
  rewrite length_insert in Hlen. split; [done|]. intros id. rewrite Hs.
  destruct (decide (id ∈ ids)) as [Hin|Hin].
  { by rewrite decide_True by (by right). }
  destruct (decide (id = i)) as [->|Hne].
  - rewrite list_lookup_insert_eq, decide_True by (done || by left).
    f_equal. apply (sum_u64 _ 0).
  - rewrite list_lookup_insert_ne, decide_False; [done| |done]. by intros [?|?]%elem_of_cons.
Qed.

(** [ReadMetrics] returns, for each of the 13 counters, its sum over the
    CPUs, modulo 2^64. *)
Theorem read_metrics_total {H : BpfHelpers} (n : node) s snap m :
  MetricsMap s = map cpu_metrics (nd_cpus n) -> ReadMetrics s = (None, snap) ->
  length snap = METRIC__MAX /\ snap !! metric_index m = Some (u64 (total m n)).
Proof.
  intros Hm Hr. apply read_metrics_spec in Hr as [Hlen Hs]; [|apply NoDup_seq|].
  - split; [done|]. rewrite Hs, decide_True, Hm.
    + do 2 f_equal. unfold total, metric. generalize (nd_cpus n). intros l.
      induction l as [|c l IH]; simpl; [done|]. by rewrite IH.
    + apply elem_of_seq. pose proof (metric_index_lt m). lia.
  - apply List.Forall_forall. intros id Hid%in_seq. rewrite length_replicate. lia.
Qed.
End theorems.

(** ** The theorems on a small rule set *)

Definition sample_rules : list SuffixRule :=
  [MkRule (bytes_of "*.s3.amazonaws.com"%string) ActionHostResolve;
   MkRule (bytes_of "*.ip6.arpa"%string) ActionClusterResolve].

(** A loader whose map holds a stale rule and one with another action. *)
Definition sample_loader : loader :=
  Loader [sample_config 0]
    (<[name_key (name_of ["old"; "com"]%string) := SuffixValue 1 0]>
       {[ name_key S3 := SuffixValue 2 0 ]}) [replicate METRIC__MAX 0] [].

Definition sample_reconciled : loader :=
  (PopulateSuffixRules id map_to_list sample_rules sample_loader).2.

Lemma fst_snd {A B} (x : A * B) (a : A) : x.1 = a -> x = (a, x.2).
Proof. by destruct x; intros <-. Qed.

Lemma sample_reconcile :
  PopulateSuffixRules id map_to_list sample_rules sample_loader = (None, sample_reconciled).
Proof. apply fst_snd. vm_compute. reflexivity. Qed.

Lemma populate_reconciles_witness :
  sv_action <$> SuffixRules sample_reconciled !! name_key S3 = Some ActionHostResolve.
Proof.
  destruct (populate_reconciles id map_to_list sample_rules sample_loader sample_reconciled
    ltac:(done) sample_reconcile) as [_ Hk].
  apply Hk. eexists. split; [by left|]. split; by vm_compute.
Defined.

Lemma populate_no_disruption_witness :
  SuffixRules sample_loader !! name_key S3 = Some (SuffixValue ActionHostResolve 0) \/
  exists r, r ∈ sample_rules /\ rule_key id r = Some (name_key S3) /\ Action r = ActionHostResolve.
Proof.
  destruct (populate_no_disruption id map_to_list sample_rules sample_loader None
    sample_reconciled ltac:(done) sample_reconcile) as [_ Hold].
  apply (Hold (name_key S3) (SuffixValue ActionHostResolve 0)). vm_compute. reflexivity.
Defined.

Definition sample_desired : gmap suffix_key Z :=
  match desired_rules id sample_rules ∅ with inr d => d | inl _ => ∅ end.

Lemma sample_desired_ok : desired_rules id sample_rules ∅ = inr sample_desired.
Proof.
  unfold sample_desired.
  assert (match desired_rules id sample_rules ∅ with inr _ => true | inl _ => false end = true)
    as E by (vm_compute; reflexivity).
  destruct (desired_rules _ _ _); [discriminate E|reflexivity].
Qed.

(** A map that is full of stale entries. *)
Definition full_loader : loader :=
  Loader [sample_config 0]
    (list_to_map (map (fun i => (SuffixKey (Byte.x01 :: le_split 2 i), SuffixValue 1 0))
       (seqZ 0 (Z.of_nat SUFFIX_RULES_MAX)))) [replicate METRIC__MAX 0] [].

Lemma populate_at_capacity_witness :
  size (SuffixRules full_loader) = SUFFIX_RULES_MAX /\
  exists s', PopulateSuffixRules id map_to_list sample_rules full_loader = (None, s') /\
    sv_action <$> SuffixRules s' !! name_key S3 = Some ActionHostResolve.
Proof.
  split; [vm_compute; reflexivity|].
  destruct (proj1 (desired_rules_accepts id sample_rules) (ex_intro _ _ sample_desired_ok))
    as [Hv Hc].
  destruct (populate_at_capacity id map_to_list _ SUFFIX_RULES_MAX sample_rules full_loader
    (fun _ => Permutation_refl _) RefSyscallsUp eq_refl Hv Hc) as (s'&Hp&_&Hk).
  { apply (bool_decide_unpack _). vm_compute. exact I. }
  exists s'. split; [exact Hp|]. apply Hk. eexists. split; [by left|]. split; by vm_compute.
Defined.

Definition sample_go_config : Config :=
  MkConfig (z2b COREDNS) (replicate 10 Byte.x00 ++ z2b [255; 255] ++ z2b RESOLVER) false 0.

Lemma populate_config_bytes_witness :
  exists c, ConfigMap (PopulateConfig sample_go_config sample_loader).2 = [c] /\
    default_action c = ACTION_CLUSTER_RESOLVE.
Proof.
  destruct (populate_config_bytes sample_go_config sample_loader
    (PopulateConfig sample_go_config sample_loader).2 (sample_config 0))
    as (c&c4&h4&Hc&_&_&_&_&_&_&Hd&_); [done|by apply fst_snd; vm_compute|].
  exists c. split; [exact Hc|exact Hd].
Defined.

Lemma set_bypass_frame_witness :
  ConfigMap (SetBypass true sample_loader).2 = [with_bypass 1 (sample_config 0)].
Proof.
  apply (set_bypass_frame true sample_loader None (SetBypass true sample_loader).2).
  - reflexivity.
  - apply fst_snd. vm_compute. reflexivity.
Defined.

Definition node1_loader : loader := Loader [] ∅ (map cpu_metrics (nd_cpus node1)) [].

Lemma read_metrics_total_witness :
  (ReadMetrics node1_loader).2 !! metric_index METRIC_REDIRECTED =
    Some (u64 (total METRIC_REDIRECTED node1)).
Proof.
  apply (read_metrics_total node1 node1_loader _ METRIC_REDIRECTED eq_refl).
  apply fst_snd. vm_compute. reflexivity.
Defined.
