(* ===== verification/EndToEnd.v ===== *)
(** * From the configured patterns to the action on a packet

    The controller's writers of the maps composed with the ingress program: the
    rules are compared with the question's name as lists of labels, with no keys,
    encodings or maps in the statement. *)

From stdpp Require Import strings.
From S2P Require Import Prelude.
From S2P Require Import Types.
From S2P Require Import Kernel.
From S2P Require Import Ingress.
From S2P Require Import DnsName.
From S2P Require Import QnameProofs.
From S2P Require Import DatapathSpec.
From S2P Require Import Reports.
From S2P Require Import RefKernel.
From S2P Require Import Samples.
From S2P Require Import IngressProps.
From S2P Require Import NameProps.
From S2P Require Import GoStrings.
From S2P Require Import Dnsenc.
From S2P Require Import Loader.
From S2P Require Import LoaderProps.

Section policy.
Context (ul : gostring -> gostring).

(** The labels a pattern [*.suffix] stands for. *)
Definition rule_labels (r : SuffixRule) : name :=
  SplitDot (ToLower ul (TrimSuffixDot (ParsePattern (Pattern r)).1)).

(** The configured policy: the action of the rule with the most labels among
    those whose labels end the name, or the default when there is none. *)
Inductive policy (rules : list SuffixRule) (default : Z) (ls : name) : Z -> Prop :=
  | policy_rule r :
      r ∈ rules -> rule_labels r `suffix_of` ls ->
      (forall r', r' ∈ rules -> rule_labels r' `suffix_of` ls ->
         (length (rule_labels r') <= length (rule_labels r))%nat) ->
      policy rules default ls (Action r)
  | policy_default :
      (forall r, r ∈ rules -> ~ rule_labels r `suffix_of` ls) ->
      policy rules default ls default.

(** The key of a rule is the key of a name exactly when its labels are the
    name's. *)
Lemma rule_key_labels r k :
  rule_key ul r = Some k ->
  valid_name (rule_labels r) /\ (length (wire_body (rule_labels r)) < KEY_LEN)%nat /\
  k = name_key (rule_labels r).
Proof.
  unfold rule_key, rule_labels.
  destruct (EncodeSuffix _ _) as [|key] eqn:E; [done|]. intros [= <-].
  apply EncodeSuffix_iff in E as (Hv&Hl&->). split; [done|]. split; [|done].
  pose proof (length_wire_SplitDot (ToLower ul (TrimSuffixDot (ParsePattern (Pattern r)).1))) as Hw.
  unfold wire in Hw. rewrite length_app in Hw. cbn [length] in Hw. lia.
Qed.

Lemma rule_key_name r ns :
  Forall valid_label ns -> (length (wire_body ns) < KEY_LEN)%nat ->
  rule_key ul r = Some (name_key ns) -> rule_labels r = ns.
Proof.
  intros Hv Hl ([_ Hv']&Hl'&E)%rule_key_labels. symmetry. by eapply name_key_inj.
Qed.

Lemma suffix_of_drop (ns ls : name) :
  ns `suffix_of` ls -> ns <> [] -> exists n, (n < length ls)%nat /\ ns = drop n ls.
Proof.
  intros [l ->] Hne. exists (length l). split.
  - destruct ns; [done|]. rewrite length_app. simpl. lia.
  - by rewrite drop_app_length.
Qed.

(** The rule of the longest suffix in the map is the policy's. *)
Lemma best_rule_policy rules (m : rules_map) default ls rule cfg :
  (forall k a, sv_action <$> m !! k = Some a <->
     exists r, r ∈ rules /\ rule_key ul r = Some k /\ Action r = a) ->
  Forall valid_label ls -> (length (wire ls) <= KEY_LEN)%nat ->
  (forall r, r ∈ rules -> is_Some (rule_key ul r)) ->
  default_action cfg = default ->
  best_rule m ls rule -> policy rules default ls (resolve cfg rule).
Proof.
  intros Hm Hv Hl Hkeys <- Hb.
  assert (forall n, (length (wire_body (drop n ls)) < KEY_LEN)%nat) as Hlen.
  { intros n. pose proof (length_wire_body_drop n ls). unfold wire in Hl.
    rewrite length_app in Hl. cbn [length] in Hl. lia. }
  assert (forall r n, r ∈ rules -> rule_labels r = drop n ls ->
    is_Some (m !! name_key (drop n ls))) as Hsome.
  { intros r n Hr E. destruct (Hkeys r Hr) as [k Hk].
    pose proof (rule_key_labels _ _ Hk) as (_&_&->). rewrite E in Hk.
    apply (fmap_is_Some sv_action). exists (Action r). apply Hm. eauto. }
  destruct Hb as [n v Hn Hv' Hlong|Hnone]; simpl.
  - destruct (proj1 (Hm (name_key (drop n ls)) (sv_action v))) as (r&Hr&Hk&<-); [by rewrite Hv'|].
    apply rule_key_name in Hk; [|by apply Forall_drop|done]. apply policy_rule; [done| |].
    + rewrite Hk. apply suffix_drop.
    + intros r' Hr' Hs. destruct (Hkeys r' Hr') as [k' Hk'].
      apply rule_key_labels in Hk' as ([Hne _]&_&_).
      destruct (suffix_of_drop _ _ Hs Hne) as (n'&Hn'&E). rewrite E, Hk, !length_drop.
      destruct (decide (n' < n)%nat) as [Hlt|]; [|lia].
      destruct (Hsome r' n' Hr' E) as [? Hx]. by rewrite Hlong in Hx.
  - apply policy_default. intros r Hr Hs. destruct (Hkeys r Hr) as [k Hk].
    apply rule_key_labels in Hk as ([Hne _]&_&_).
    destruct (suffix_of_drop _ _ Hs Hne) as (n&Hn&E).
    destruct (Hsome r n Hr E) as [? Hx]. by rewrite Hnone in Hx.
Qed.
End policy.

Section end_to_end.
Context {H : BpfHelpers} {HK : BpfHelpersOk H}.
Context {M : MapSyscalls} {MO : MapSyscallsOk M}.
Context (ul : gostring -> gostring) (range : gmap suffix_key Z -> list (suffix_key * Z)).

(** C1. The configured policy is what packets get: with the maps as a successful
    [PopulateConfig] and [PopulateSuffixRules] leave them, a query of at most
    ten labels and 128 bytes gets the action of the most specific configured
    pattern, or the configured default, and the run applies it: a query for the
    host resolver is redirected when bypass is off and no helper fails. *)
Theorem configured_policy_applies rules cfg l0 l1 l2 c0 s c dg tx ls rest :
  (forall m, range m ≡ₚ map_to_list m) ->
  ConfigMap l0 = [c0] -> PopulateConfig cfg l0 = (None, l1) ->
  PopulateSuffixRules ul range rules l1 = (None, l2) ->
  dp_wf s -> st_config s = ConfigMap l2 -> st_config s = [c] -> st_rules s = SuffixRules l2 ->
  Bypass cfg = false ->
  dns_query c (data (st_skb s)) dg tx ls rest ->
  (length ls <= MAX_LABELS)%nat -> (length (wire ls) <= KEY_LEN)%nat ->
  exists rule, query_verdict_of c s = VQuery dg tx rule /\
    policy ul rules
      (if DefaultAction cfg =? 0 then ACTION_CLUSTER_RESOLVE else DefaultAction cfg) ls
      (resolve c rule) /\
    routed c rule s (run dns_gateway_ingress s).1.
Proof.
  intros Hrange Hl0 Hpc Hpr Hwf Hcfg Hc Hrules Hby Hq Hn Hlen.
  assert (exists des, desired_rules ul rules ∅ = inr des) as Hdes.
  { unfold PopulateSuffixRules in Hpr. destruct (desired_rules ul rules ∅); [done|by eexists]. }
  apply desired_rules_accepts in Hdes as [Hvalid _].
  apply populate_outcome in Hpr as ([Hcm _]&Ho); [|done].
  destruct (desired_rules ul rules ∅) as [|des] eqn:Hd; [by destruct Ho|].
  destruct Ho as (_&_&Ho). specialize (Ho eq_refl).
  destruct (populate_config_entry _ _ _ _ Hl0 Hpc) as (c4&h4&E).
  assert (c = config_value c4 h4 false
    (if DefaultAction cfg =? 0 then ACTION_CLUSTER_RESOLVE else DefaultAction cfg)) as Ec
    by (rewrite Hby in E; congruence).
  assert (bypass c = 0) as Hb by by rewrite Ec.
  exists (lookup_suffix (st_rules s) ls Byte.x00).
  pose proof (short_query_verdict c (st_rules s) _ dg tx ls rest Hb Hq Hn Hlen) as Hv.
  split_and!; [done| |by eapply ingress_routed].
  apply (best_rule_policy ul rules (st_rules s)); [|by apply Hq|done| |by rewrite Ec
    |apply lookup_suffix_best].
  - intros k a. rewrite Hrules, <- lookup_fmap, Ho, (desired_rules_lookup _ _ _ _ Hd k a).
    split; [by intros [[]%lookup_empty_Some|?]|by right].
  - intros r Hr. rewrite List.Forall_forall in Hvalid.
    apply list_elem_of_In in Hr. apply (Hvalid r Hr).
Qed.
End end_to_end.

(** ** The theorem on the sample rules *)

Definition sample_configured : loader :=
  (PopulateSuffixRules id map_to_list sample_rules
     (PopulateConfig sample_go_config sample_loader).2).2.

Definition sample_datapath : dp_state :=
  DpState (Skb (query_packet 7 FOO_S3) false) (ConfigMap sample_configured)
    (SuffixRules sample_configured) ∅ (replicate METRIC__MAX 0)
    [ScratchBuf (replicate KEY_LEN Byte.x00) (replicate KEY_LEN Byte.x00)] (RefKern [] 1000).

Lemma configured_policy_applies_witness :
  exists a, policy id sample_rules ACTION_CLUSTER_RESOLVE FOO_S3 a.
Proof.
  destruct (configured_policy_applies id map_to_list sample_rules sample_go_config
    sample_loader (PopulateConfig sample_go_config sample_loader).2 sample_configured
    (sample_config 0) sample_datapath (sample_config ACTION_CLUSTER_RESOLVE) query_dgram 7
    FOO_S3 (z2b [0; 1; 0; 1])) as (rule&_&Hp&_);
    [done|reflexivity|apply fst_snd; vm_compute; reflexivity
    |apply fst_snd; vm_compute; reflexivity|apply dp_wfb_sound; vm_compute; reflexivity
    |reflexivity|vm_compute; reflexivity|reflexivity|reflexivity|sample_query
    |by apply (bool_decide_unpack _); vm_compute..|].
  eexists. exact Hp.
Defined.
