(* ===== verification/Health.v ===== *)
(** * [internal/health/checker.go] and the shutdown order of [main.go]

    The checker turns probe results into [SetBypass] calls; it is a client of
    the interface [BypassSetter], which the loader implements.  The shutdown is
    a step relation over the checker's goroutine and the main goroutine: a probe
    decides on a call in one step and makes it in another, so that a signal can
    fall in between. *)

From stdpp Require Import strings.
From S2P Require Import Prelude.
From S2P Require Import Types.
From S2P Require Import Kernel.
From S2P Require Import Samples.
From S2P Require Import System.
From S2P Require Import GoStrings.
From S2P Require Import GoNet.
From S2P Require Import Loader.
From S2P Require Import LoaderProps.

(** ** The interface *)

(** [type BypassSetter interface]: a state, and whether the call returned nil. *)
Class BypassSetter := {
  setter : Type;
  set_bypass : bool -> setter -> bool * setter
}.

(** What the checker relies on: the flag is what the last successful call set
    and a failed call leaves it. *)
Class BypassSetterOk (B : BypassSetter) := {
  setter_wf : setter -> Prop;
  flag : setter -> bool;
  set_bypass_ok on s ok s' :
    setter_wf s -> set_bypass on s = (ok, s') ->
    setter_wf s' /\ flag s' = if ok then on else flag s
}.

#[export] Instance LoaderSetter {M : MapSyscalls} : BypassSetter := {|
  setter := loader;
  set_bypass on s :=
    let '(e, s') := SetBypass on s in (match e with None => true | Some _ => false end, s')
|}.

#[export] Program Instance LoaderSetterOk {M : MapSyscalls} {MO : MapSyscallsOk M}
  : BypassSetterOk LoaderSetter := {|
  setter_wf s := exists c, ConfigMap s = [c];
  flag s := match ConfigMap s with c :: _ => negb (bypass c =? 0) | [] => false end
|}.
Next Obligation.
  intros M MO on s ok s' [c Hc] E. simpl in *. unfold SetBypass in E.
  destruct (config_lookup _ _) as [v|] eqn:Hl.
  - destruct (config_update _ _ _) as [[b l] k] eqn:Hup. apply config_update_ok in Hup.
    rewrite Hc in *. destruct b; injection E as <- <-; simpl; subst l; simpl.
    + split; [by eexists|]. by destruct on.
    + split; [by eexists|]. done.
  - injection E as <- <-. split; [by eexists|done].
Qed.

(** ** The checker *)

(** Go's [int] is 64 bits wide. *)
Definition i64 (z : Z) : Z := (z + 2 ^ 63) mod 2 ^ 64 - 2 ^ 63.

Record Checker := MkChecker {
  consecutiveFailures : Z;
  bypassActive : bool;
  probeFailures : Z
}.

Definition NewChecker : Checker := MkChecker 0 false 0.

(** [type Config]; a nil [ResolverIP] is the empty slice. *)
Record HealthConfig := MkHealthConfig {
  ResolverIP : list byte; ProbePort : Z; ProbeName : gostring;
  Interval : Z; Timeout : Z; FailureThreshold : Z
}.

Inductive new_error :=
  | BypassSetterRequired | ResolverNotIPv4 | BadInterval | BadTimeout | BadThreshold
  | ProbePortRange (port : Z).

Definition default_probe_name : gostring := bytes_of "amazon.com."%string.

(** [New], which fills in the defaults; [bypass_nil] is [bypass == nil]. *)
Definition New (cfg : HealthConfig) (bypass_nil : bool) : new_error + (HealthConfig * Checker) :=
  if bypass_nil then inl BypassSetterRequired
  else match To4 (ResolverIP cfg) with
  | None => inl ResolverNotIPv4
  | Some _ =>
      if Interval cfg <=? 0 then inl BadInterval
      else if Timeout cfg <=? 0 then inl BadTimeout
      else if FailureThreshold cfg <? 1 then inl BadThreshold
      else if (ProbePort cfg <? 0) || (65535 <? ProbePort cfg)
      then inl (ProbePortRange (ProbePort cfg))
      else
        let name := if decide (ProbeName cfg = []) then default_probe_name else ProbeName cfg in
        let port := if ProbePort cfg =? 0 then 53 else ProbePort cfg in
        inr (MkHealthConfig (ResolverIP cfg) port name (Interval cfg) (Timeout cfg)
               (FailureThreshold cfg), NewChecker)
  end.

(** What a checker that exists was given: a positive threshold and a port. *)
Lemma New_ok cfg bypass_nil cfg' c :
  New cfg bypass_nil = inr (cfg', c) ->
  c = NewChecker /\ 0 < FailureThreshold cfg' /\ 0 < ProbePort cfg' <= 65535 /\
  0 < Interval cfg' /\ 0 < Timeout cfg' /\ ProbeName cfg' <> [] /\
  is_Some (To4 (ResolverIP cfg')).
Proof.
  unfold New. destruct bypass_nil; [done|]. destruct (To4 _) eqn:Hip; [|done].
  destruct (Z.leb_spec (Interval cfg) 0); [done|].
  destruct (Z.leb_spec (Timeout cfg) 0); [done|].
  destruct (Z.ltb_spec (FailureThreshold cfg) 1); [done|].
  destruct (Z.ltb_spec (ProbePort cfg) 0); [done|].
  destruct (Z.ltb_spec 65535 (ProbePort cfg)); [done|]. intros [= <- <-]. simpl.
  rewrite Hip. split_and!; try lia; eauto.
  - by destruct (Z.eqb_spec (ProbePort cfg) 0); lia.
  - by destruct (Z.eqb_spec (ProbePort cfg) 0); lia.
  - by case_decide.
Qed.

Section checker.
Context (th : Z).   (* cfg.FailureThreshold *)

(** [probeOnce] up to the [SetBypass] call it goes on to make, if any. *)
Definition probe_decide (failed : bool) (c : Checker) : Checker * option bool :=
  if failed then
    let c := MkChecker (i64 (consecutiveFailures c + 1)) (bypassActive c)
               (u64 (probeFailures c + 1)) in
    (c, if (th <=? consecutiveFailures c) && negb (bypassActive c)
        then Some true else None)
  else
    let c := MkChecker 0 (bypassActive c) (probeFailures c) in
    (c, if bypassActive c then Some false else None).

(** The rest of [probeOnce]: the call returned, with or without an error. *)
Definition probe_apply (on ok : bool) (c : Checker) : Checker :=
  if ok then MkChecker (consecutiveFailures c) on (probeFailures c) else c.

Definition probeOnce {B : BypassSetter} (cancelled failed : bool) (st : Checker * setter)
  : Checker * setter :=
  let '(c, s) := st in
  if cancelled then (c, s)
  else
    let '(c, call) := probe_decide failed c in
    match call with
    | None => (c, s)
    | Some on => let '(ok, s) := set_bypass on s in (probe_apply on ok c, s)
    end.

(** [Run] until the context is cancelled: a probe per element. *)
Definition run_probes {B : BypassSetter} (probes : list bool) (st : Checker * setter)
  : Checker * setter :=
  foldl (fun st failed => probeOnce false failed st) st probes.
End checker.

(** ** Specification *)

(** The number of failures since the last success. *)
Definition trailing_failures (probes : list bool) : Z :=
  foldl (fun n (failed : bool) => if failed then n + 1 else 0) 0 probes.

Definition count_failures (probes : list bool) : Z :=
  Z.of_nat (length (List.filter id probes)).

Section hysteresis.
Context {B : BypassSetter} {BO : BypassSetterOk B} (th : Z).

Lemma trailing_snoc probes failed :
  trailing_failures (probes ++ [failed]) =
    if failed then trailing_failures probes + 1 else 0.
Proof. unfold trailing_failures. by rewrite foldl_app. Qed.

Lemma trailing_range probes : 0 <= trailing_failures probes <= Z.of_nat (length probes).
Proof.
  induction probes as [|b probes IH] using rev_ind; [done|].
  rewrite trailing_snoc, length_app. simpl. destruct b; lia.
Qed.

Lemma i64_small z : - 2 ^ 63 <= z < 2 ^ 63 -> i64 z = z.
Proof. intros. unfold i64. rewrite Z.mod_small; lia. Qed.

(** The checker's state after any probes, with calls that may fail: the failure
    counts, the flag as the checker believes it, and bypass never on below the
    threshold. *)
Lemma run_probes_state probes s c s' :
  setter_wf s -> flag s = false -> Z.of_nat (length probes) < 2 ^ 63 ->
  run_probes th probes (NewChecker, s) = (c, s') ->
  setter_wf s' /\ flag s' = bypassActive c /\
  consecutiveFailures c = trailing_failures probes /\
  probeFailures c = u64 (count_failures probes).
Proof.
  intros Hs Hf. revert c s'. unfold run_probes.
  induction probes as [|failed probes IH] using rev_ind; intros c s' Hlen.
  { by intros [= <- <-]. }
  rewrite foldl_app. simpl. rewrite length_app in Hlen. simpl in Hlen.
  destruct (foldl _ _ probes) as [c1 s1] eqn:E.
  destruct (IH c1 s1 ltac:(lia) eq_refl) as (Hw1&Hf1&Hc1&Hp1).
  pose proof (trailing_range probes) as Hr.
  assert (count_failures (probes ++ [failed]) =
    count_failures probes + (if failed then 1 else 0)) as Hcf.
  { unfold count_failures. rewrite List.filter_app, length_app. destruct failed; simpl; lia. }
  rewrite trailing_snoc, Hcf. unfold probeOnce, probe_decide.
  assert (u64 (u64 (count_failures probes) + 1) = u64 (count_failures probes + 1)) as Hu
    by (unfold u64; by rewrite Zplus_mod_idemp_l).
  destruct failed; rewrite ?Hc1, ?Hp1, ?i64_small, ?Hu, ?Z.add_0_r by lia; simpl.
  - destruct (_ && _); [|by intros [= <- <-]].
    destruct (set_bypass true s1) as [ok s2] eqn:Hset.
    apply set_bypass_ok in Hset as [? Hfl]; [|done].
    intros [= <- <-]. destruct ok; simpl; rewrite Hfl; split_and!; done.
  - destruct (bypassActive c1) eqn:Hb; [|by intros [= <- <-]].
    destruct (set_bypass false s1) as [ok s2] eqn:Hset.
    apply set_bypass_ok in Hset as [? Hfl]; [|done].
    intros [= <- <-]. destruct ok; simpl; rewrite Hfl; split_and!; done.
Qed.

Lemma run_probes_active probes s c s' :
  (forall on s, setter_wf s -> (set_bypass on s).1 = true) -> 0 < th ->
  setter_wf s -> flag s = false -> Z.of_nat (length probes) < 2 ^ 63 ->
  run_probes th probes (NewChecker, s) = (c, s') ->
  bypassActive c = (th <=? trailing_failures probes).
Proof.
  intros Hok Hth Hs Hf. revert c s'.
  induction probes as [|failed probes IH] using rev_ind; intros c s' Hlen E.
  { injection E as <- <-. unfold trailing_failures. simpl. symmetry. apply Z.leb_gt. lia. }
  unfold run_probes in *. rewrite foldl_app in E. rewrite length_app in Hlen. simpl in *.
  destruct (foldl _ _ probes) as [c1 s1] eqn:E1.
  specialize (IH c1 s1 ltac:(lia) eq_refl).
  destruct (run_probes_state probes s c1 s1) as (Hw1&_&Hc1&_); [done|done|lia|done|].
  pose proof (trailing_range probes) as Hr. rewrite trailing_snoc.
  unfold probeOnce, probe_decide in E. rewrite Hc1, IH in E.
  destruct failed; simpl in E.
  - rewrite i64_small in E by lia.
    destruct (Z.leb_spec th (trailing_failures probes)),
      (Z.leb_spec th (trailing_failures probes + 1)); try lia; simpl in E;
      try (injection E as <- <-; exact IH || (simpl; congruence)).
    pose proof (Hok true s1 Hw1) as Hk. destruct (set_bypass true s1) as [ok s2]. simpl in Hk. subst ok.
    by injection E as <- <-.
  - rewrite (proj2 (Z.leb_gt th 0)) by done.
    destruct (Z.leb_spec th (trailing_failures probes)); [|injection E as <- <-; done].
    pose proof (Hok false s1 Hw1) as Hk. destruct (set_bypass false s1) as [ok s2]. simpl in Hk. subst ok.
    by injection E as <- <-.
Qed.

(** C27. Hysteresis: with a setter that does not fail, after any sequence of
    probes the bypass flag is on exactly when the last [FailureThreshold] probes
    or more all failed: N failures in a row switch it on and one success off. *)
Theorem bypass_hysteresis probes s c s' :
  (forall on s, setter_wf s -> (set_bypass on s).1 = true) -> 0 < th ->
  setter_wf s -> flag s = false -> Z.of_nat (length probes) < 2 ^ 63 ->
  run_probes th probes (NewChecker, s) = (c, s') ->
  flag s' = (th <=? trailing_failures probes).
Proof.
  intros Hok Hth Hs Hf Hlen E.
  destruct (run_probes_state _ _ _ _ Hs Hf Hlen E) as (_&->&_). by eapply run_probes_active.
Qed.

(** Agreement: whichever [SetBypass] calls fail, the checker's record of the
    bypass state, which the metrics report, is the flag in the map, and its
    failure counters are exact. *)
Theorem bypass_agreement probes s c s' :
  setter_wf s -> flag s = false -> Z.of_nat (length probes) < 2 ^ 63 ->
  run_probes th probes (NewChecker, s) = (c, s') ->
  flag s' = bypassActive c /\ consecutiveFailures c = trailing_failures probes /\
  probeFailures c = u64 (count_failures probes).
Proof. intros Hs Hf Hlen E. by destruct (run_probes_state _ _ _ _ Hs Hf Hlen E) as (_&?). Qed.
End hysteresis.

(** ** Shutdown

    The checker's goroutine and the main goroutine after its signal:
    [main.go] waits for [checker.Done()] or five seconds, then calls
    [SetBypass(true)]. *)

Inductive checker_pc :=
  | Waiting                   (* in Run's select, or in a query *)
  | Calling (on : bool)       (* past the context check, about to call SetBypass *)
  | Stopped.                  (* Run has returned; Done() is closed *)

Inductive main_pc :=
  | Serving
  | Draining                  (* the signal came; waiting for Done() *)
  | DoneSeen | TimedOut       (* how the wait ended *)
  | TornDown (after_done ok : bool).  (* SetBypass(true) returned *)

Section shutdown.
Context {B : BypassSetter} {BO : BypassSetterOk B} (th : Z).

Record process := Process {
  p_checker : Checker; p_setter : setter; p_cpc : checker_pc; p_mpc : main_pc
}.

Definition cancelled (m : main_pc) : bool := match m with Serving => false | _ => true end.

Inductive process_step : process -> process -> Prop :=
  | do_probe c s m failed c' call :
      cancelled m = false -> probe_decide th failed c = (c', call) ->
      process_step (Process c s Waiting m)
        (Process c' s (match call with Some on => Calling on | None => Waiting end) m)
  | do_probe_cancelled c s m :          (* a probe returning after the signal *)
      cancelled m = true -> process_step (Process c s Waiting m) (Process c s Waiting m)
  | do_call c s m on ok s' :
      set_bypass on s = (ok, s') ->
      process_step (Process c s (Calling on) m) (Process (probe_apply on ok c) s' Waiting m)
  | do_stop c s m :
      cancelled m = true -> process_step (Process c s Waiting m) (Process c s Stopped m)
  | do_signal c s p : process_step (Process c s p Serving) (Process c s p Draining)
  | do_done c s : process_step (Process c s Stopped Draining) (Process c s Stopped DoneSeen)
  | do_timeout c s p : process_step (Process c s p Draining) (Process c s p TimedOut)
  | do_teardown c s p m ok s' :
      m = DoneSeen \/ m = TimedOut -> set_bypass true s = (ok, s') ->
      process_step (Process c s p m)
        (Process c s' p (TornDown (match m with DoneSeen => true | _ => false end) ok)).

(** Once main has seen Done(), the checker has stopped for good. *)
Definition teardown_ok (p : process) : Prop :=
  setter_wf (p_setter p) /\
  match p_mpc p with
  | DoneSeen => p_cpc p = Stopped
  | TornDown true ok => p_cpc p = Stopped /\ (ok = true -> flag (p_setter p) = true)
  | _ => True
  end.

Lemma process_step_ok p p' : teardown_ok p -> process_step p p' -> teardown_ok p'.
Proof.
  unfold teardown_ok.
  intros Hok Hs.
  destruct Hs as [c s m failed c' call Hm|c s m Hm|c s m on ok s' Hset|c s m Hm|c s pc|c s|c s pc
    |c s pc m ok s' Hm Hset]; destruct Hok as [Hw Hp]; simpl in *; try (split; [done|]); try done.
  - by destruct m.
  - apply set_bypass_ok in Hset as [? _]; [|done]. split; [done|].
    destruct m as [| | | |[]]; naive_solver.
  - destruct m as [| | | |[]]; naive_solver.
  - apply set_bypass_ok in Hset as [? Hfl]; [|done]. split; [done|].
    destruct Hm as [->| ->]; [|done]. split; [done|]. by intros ->.
Qed.

Lemma reachable_teardown_ok s0 p :
  setter_wf s0 -> rtc process_step (Process NewChecker s0 Waiting Serving) p -> teardown_ok p.
Proof.
  intros Hw Hr. assert (teardown_ok (Process NewChecker s0 Waiting Serving)) as H0 by by split.
  induction Hr; [done|]. eauto using process_step_ok.
Qed.

(** The teardown bypass sticks: in every interleaving of probes, their
    [SetBypass] calls and the shutdown, once main has seen the checker's Done()
    and its [SetBypass(true)] has succeeded, bypass is on, and stays on: no probe
    in flight when the signal came can switch the redirection back on. *)
Theorem teardown_bypass_sticks s0 p p' :
  setter_wf s0 ->
  rtc process_step (Process NewChecker s0 Waiting Serving) p ->
  p_mpc p = TornDown true true -> rtc process_step p p' -> flag (p_setter p') = true.
Proof.
  intros Hw H1 Hm H2.
  assert (p_mpc p' = TornDown true true) as Hm'.
  { clear H1. induction H2 as [|q1 q2 q3 Hs _ IH]; [done|]. apply IH.
    inversion Hs; subst; simpl in *; try done; naive_solver. }
  assert (teardown_ok p') as [_ Hok] by (eapply reachable_teardown_ok; [exact Hw|by etrans]).
  rewrite Hm' in Hok. by apply Hok.
Qed.
End shutdown.

(** ** The theorems on the loader *)

Definition health_loader : @setter LoaderSetter :=
  Loader [sample_config ACTION_HOST_RESOLVE] ∅ [] [].

(** Three failures, then two successes, then three failures, threshold 3. *)
Definition sample_probes : list bool := [true; true; true; false; false; true; true; true].

Lemma health_loader_wf : setter_wf health_loader.
Proof. by eexists. Qed.

Lemma ref_set_bypass on (s : loader) : setter_wf s -> (set_bypass on s).1 = true.
Proof. intros [c Hc]. simpl in *. unfold SetBypass. simpl. by rewrite Hc. Qed.

Lemma bypass_hysteresis_witness :
  let '(c, s') := run_probes 3 sample_probes (NewChecker, health_loader) in
  flag s' = true.
Proof.
  destruct (run_probes 3 sample_probes (NewChecker, health_loader)) as [c s'] eqn:E.
  refine (bypass_hysteresis 3 sample_probes health_loader c s' _ _ _ _ _ E).
  - exact ref_set_bypass.
  - lia.
  - exact health_loader_wf.
  - vm_compute; reflexivity.
  - vm_compute; reflexivity.
Defined.

Lemma bypass_agreement_witness :
  let '(c, s') := run_probes 3 sample_probes (NewChecker, health_loader) in
  flag s' = bypassActive c /\ consecutiveFailures c = 3 /\ probeFailures c = 6.
Proof.
  destruct (run_probes 3 sample_probes (NewChecker, health_loader)) as [c s'] eqn:E.
  refine (bypass_agreement 3 sample_probes health_loader c s' _ _ _ E).
  - exact health_loader_wf.
  - vm_compute; reflexivity.
  - vm_compute; reflexivity.
Defined.

(** With threshold 1: a failure switches bypass on, a recovery is about to clear
    it when the signal comes, and clears it; the checker stops and main's call
    follows. *)
Definition torn_down_early : process :=
  Process (MkChecker 0 false 1) (set_bypass true health_loader).2 Stopped (TornDown true true).

Lemma teardown_bypass_sticks_witness : flag (p_setter torn_down_early) = true.
Proof.
  eapply (teardown_bypass_sticks 1 health_loader torn_down_early).
  - exact health_loader_wf.
  - eapply rtc_l; [apply (do_probe 1 NewChecker health_loader Serving true); reflexivity|].
    eapply rtc_l; [apply do_call; reflexivity|].
    eapply rtc_l; [apply (do_probe 1 _ _ Serving false); reflexivity|].
    eapply rtc_l; [apply do_signal|].
    eapply rtc_l; [apply do_call; reflexivity|].
    eapply rtc_l; [apply do_stop; reflexivity|].
    eapply rtc_l; [apply do_done|].
    eapply rtc_l; [|apply rtc_refl].
    refine (do_teardown 1 _ _ _ DoneSeen true _ (or_introl eq_refl) _). reflexivity.
  - reflexivity.
  - apply rtc_refl.
Defined.

(** The wait for Done() matters: when it times out instead, a recovery decided
    before the signal can still clear the bypass flag after main's successful
    [SetBypass(true)]. *)
Theorem teardown_timeout_race :
  exists p : process,
    rtc (process_step 1) (Process NewChecker health_loader Waiting Serving) p /\
    p_mpc p = TornDown false true /\ flag (p_setter p) = false.
Proof.
  eexists. split; [|split].
  - eapply rtc_l; [apply (do_probe 1 NewChecker health_loader Serving true); reflexivity|].
    eapply rtc_l; [apply do_call; reflexivity|].
    eapply rtc_l; [apply (do_probe 1 _ _ Serving false); reflexivity|].
    eapply rtc_l; [apply do_signal|].
    eapply rtc_l; [apply do_timeout|].
    eapply rtc_l;
      [refine (do_teardown 1 _ _ _ TimedOut true _ (or_intror eq_refl) _); reflexivity|].
    eapply rtc_l; [apply do_call; reflexivity|]. apply rtc_refl.
  - reflexivity.
  - reflexivity.
Qed.
