(* ===== verification/Startup.v ===== *)
(** * [cmd/bpf-dns-gateway/main.go]: from the configuration to the maps

    Steps 1 and 3 of [run] and the checker's configuration of step 4: what a
    validated [Config] makes of the loader's maps.  Step 2, loading the object
    file, is the libraries'; the programs are attached only after these steps,
    so a failure here leaves the node's traffic alone. *)

From stdpp Require Import strings.
From S2P Require Import Prelude.
From S2P Require Import Types.
From S2P Require Import Kernel.
From S2P Require Import DnsName.
From S2P Require Import RefKernel.
From S2P Require Import Samples.
From S2P Require Import GoStrings.
From S2P Require Import GoNet.
From S2P Require Import Dnsenc.
From S2P Require Config.
From S2P Require Import Loader.
From S2P Require Import LoaderProps.
From S2P Require Import EndToEnd.
From S2P Require Import Health.

Definition toBPFAction (a : gostring) : Z :=
  if decide (a = Config.ActionHostResolve) then ActionHostResolve else ActionClusterResolve.

(** [net.ParseIP] as a slice: nil is empty. *)
Definition parse_ip (s : gostring) : list byte := default [] (ParseIP s).

Definition startup_config (c : Config.Config) : Config :=
  MkConfig (parse_ip (Config.CorednsServiceIP c)) (parse_ip (Config.HostResolverIP c)) false
    (toBPFAction (Config.DefaultAction c)).

Definition startup_rule (r : Config.Rule) : SuffixRule :=
  MkRule (Config.Pattern r) (toBPFAction (Config.Action r)).

Definition checker_config (c : Config.Config) : HealthConfig :=
  MkHealthConfig (parse_ip (Config.HostResolverIP c)) 0 []
    (Config.HealthCheckInterval c) (Config.HealthCheckTimeout c) (Config.HealthCheckThreshold c).

Inductive startup_error :=
  | PopulateConfigFailed (e : loader_error)
  | PopulateRulesFailed (e : loader_error).

Section startup.
Context {M : MapSyscalls} (ul : gostring -> gostring)
  (range : gmap suffix_key Z -> list (suffix_key * Z)).

(** Step 3 of [run]. *)
Definition populate_maps (c : Config.Config) (s : loader) : option startup_error * loader :=
  match PopulateConfig (startup_config c) s with
  | (Some e, s) => (Some (PopulateConfigFailed e), s)
  | (None, s) =>
      match PopulateSuffixRules ul range (map startup_rule (Config.Rules c)) s with
      | (Some e, s) => (Some (PopulateRulesFailed e), s)
      | (None, s) => (None, s)
      end
  end.
End startup.

(** ** What validation guarantees *)

Lemma toBPFAction_valid a :
  toBPFAction a = ActionHostResolve \/ toBPFAction a = ActionClusterResolve.
Proof. unfold toBPFAction. case_decide; auto. Qed.

Lemma toBPFAction_inj a b :
  Config.known_action a -> Config.known_action b -> toBPFAction a = toBPFAction b -> a = b.
Proof. intros [->| ->] [->| ->]; by vm_compute. Qed.

(** The address a usable text denotes. *)
Lemma usable_To4 s loop :
  Config.usable_ipv4 s loop -> exists v4, To4 (parse_ip s) = Some v4.
Proof. intros (ip&v4&Hip&H4&_). exists v4. unfold parse_ip. by rewrite Hip. Qed.

Lemma lower_byte_dot b : lower_byte b = DOT <-> b = DOT.
Proof.
  assert (Bool.eqb (bool_decide (lower_byte b = DOT)) (bool_decide (b = DOT)) = true) as E.
  { revert b. apply (byte_forall (fun b =>
      Bool.eqb (bool_decide (lower_byte b = DOT)) (bool_decide (b = DOT)))).
    vm_compute. reflexivity. }
  apply eqb_prop in E.
  split; intros Hb; apply (bool_decide_eq_true _); [rewrite <- E|rewrite E];
    by apply bool_decide_eq_true.
Qed.

Lemma SplitDot_lower s : SplitDot (map lower_byte s) = map (map lower_byte) (SplitDot s).
Proof.
  induction s as [|b s IH]; simpl; [done|]. rewrite IH.
  pose proof (lower_byte_dot b).
  destruct (decide (lower_byte b = DOT)), (decide (b = DOT)); try tauto.
  by destruct (SplitDot s).
Qed.

Lemma valid_name_lower ls : valid_name ls -> valid_name (map (map lower_byte) ls).
Proof.
  intros [Hne Hv]. split; [by destruct ls|]. apply Forall_fmap.
  eapply Forall_impl; [|exact Hv]. intros l. unfold valid_label. simpl. by rewrite length_map.
Qed.

Lemma valid_name_trim s : valid_name (SplitDot s) -> TrimSuffixDot s = s.
Proof.
  intros [Hne Hv]. rewrite <- (JoinDot_SplitDot s).
  apply TrimSuffixDot_JoinDot; [done|apply SplitDot_no_dot|].
  eapply Forall_impl; [|exact Hv]. intros l Hl ->. unfold valid_label in Hl. simpl in Hl. lia.
Qed.

Section rules.
Context (ul : gostring -> gostring).

(** A validated ASCII rule as the loader sees it: it encodes exactly when its
    suffix has at most 126 bytes. *)
Lemma validated_rule r :
  Config.rule_ok r -> is_ascii (Config.Pattern r) = true ->
  rule_labels ul (startup_rule r) = SplitDot (map lower_byte (drop 2 (Config.Pattern r))) /\
  (valid_rule ul (startup_rule r) <-> (length (Config.Pattern r) <= 128)%nat).
Proof.
  intros [(suffix&Hp&Hs&Hv) Ha] Hasc.
  assert (is_ascii suffix = true) as Hsuf.
  { rewrite is_ascii_spec, Hp, Forall_app in Hasc. apply is_ascii_spec, Hasc. }
  assert (ParsePattern (Config.Pattern r) = (suffix, true)) as E.
  { unfold ParsePattern. rewrite Hp, (proj2 (Config.HasPrefix_drop _ _)); done. }
  assert (ToLower ul (TrimSuffixDot suffix) = map lower_byte suffix) as El.
  { rewrite valid_name_trim by done. unfold ToLower. by rewrite Hsuf. }
  unfold rule_labels, valid_rule, rule_key. simpl. rewrite E. simpl. rewrite El.
  split; [by rewrite Hp|]. rewrite Hp, length_app. simpl. split.
  - intros (_&_&_&[k Hk]). destruct (EncodeSuffix ul suffix) as [|key] eqn:Ek; [done|].
    apply EncodeSuffix_iff in Ek as (_&Hl&_). rewrite El, length_map in Hl.
    unfold KEY_LEN in Hl. lia.
  - intros Hl. split; [apply toBPFAction_valid|]. split; [done|]. split.
    { exact (bool_decide_eq_false_2 _ Hs). }
    assert (EncodeSuffix ul suffix = inr (sk_name (name_key (SplitDot (map lower_byte suffix)))))
      as ->; [|by eexists].
    apply EncodeSuffix_iff. rewrite El, length_map. unfold KEY_LEN. split_and!; try done; [|lia].
    rewrite SplitDot_lower. by apply valid_name_lower.
Qed.

Lemma validated_key r :
  Config.rule_ok r -> is_ascii (Config.Pattern r) = true ->
  (length (Config.Pattern r) <= 128)%nat ->
  rule_key ul (startup_rule r) =
    Some (name_key (SplitDot (map lower_byte (drop 2 (Config.Pattern r))))).
Proof.
  intros Hr Ha Hl. destruct (validated_rule r Hr Ha) as [<- Hv].
  apply Hv in Hl as (_&_&_&[k Hk]). by rewrite Hk, (proj2 (proj2 (rule_key_labels _ _ _ Hk))).
Qed.

(** Rules that name one suffix, whatever the case of its letters, agree. *)
Definition no_conflict (rules : list Config.Rule) : Prop :=
  forall r r', r ∈ rules -> r' ∈ rules ->
    map lower_byte (Config.Pattern r) = map lower_byte (Config.Pattern r') ->
    Config.Action r = Config.Action r'.

Lemma validated_same_key r r' k :
  Config.rule_ok r -> Config.rule_ok r' ->
  is_ascii (Config.Pattern r) = true -> is_ascii (Config.Pattern r') = true ->
  rule_key ul (startup_rule r) = Some k -> rule_key ul (startup_rule r') = Some k ->
  map lower_byte (Config.Pattern r) = map lower_byte (Config.Pattern r').
Proof.
  intros Hr Hr' Ha Ha' ([_ Hv]&Hl&->)%rule_key_labels Hk'.
  apply rule_key_name in Hk'; [|done..].
  rewrite (proj1 (validated_rule r Hr Ha)), (proj1 (validated_rule r' Hr' Ha')) in Hk'.
  apply (f_equal JoinDot) in Hk'. rewrite !JoinDot_SplitDot in Hk'.
  destruct Hr as [(suf&E1&_) _]. destruct Hr' as [(suf'&E2&_) _].
  rewrite E1, E2 in *. simpl in Hk'. rewrite !drop_0 in Hk'. by rewrite !map_app, Hk'.
Qed.

(** Which validated rule sets the loader accepts. *)
Lemma validated_rules_accepted rules :
  Forall Config.rule_ok rules -> Forall (fun r => is_ascii (Config.Pattern r) = true) rules ->
  no_conflict rules ->
  (exists des, desired_rules ul (map startup_rule rules) ∅ = inr des) <->
  Forall (fun r => (length (Config.Pattern r) <= 128)%nat) rules.
Proof.
  intros Hok Ha Hc. rewrite desired_rules_accepts, Forall_fmap. unfold no_conflict in Hc.
  rewrite !List.Forall_forall in *. setoid_rewrite <- list_elem_of_In.
  setoid_rewrite <- list_elem_of_In in Hok. setoid_rewrite <- list_elem_of_In in Ha. split.
  - intros [Hv _] r Hr. apply (validated_rule r); auto. by apply Hv.
  - intros Hl. split; [intros r Hr; apply validated_rule; auto|].
    intros r1 r2 k (r&->&Hr)%list_elem_of_fmap (r'&->&Hr')%list_elem_of_fmap E1 E2.
    simpl. f_equal. apply Hc; try done. eapply validated_same_key; eauto.
Qed.
End rules.

Section theorems.
Context {M : MapSyscalls} {MO : MapSyscallsOk M}.
Context (ul : gostring -> gostring) (range : gmap suffix_key Z -> list (suffix_key * Z)).

Lemma populate_config_up up cap cfg s c4 h4 c0 :
  MapSyscallsUp M up cap -> up (Sys s) -> ConfigMap s = [c0] ->
  To4 (CorednsIP cfg) = Some c4 -> To4 (HostResolverIP cfg) = Some h4 ->
  DefaultAction cfg = ActionHostResolve \/ DefaultAction cfg = ActionClusterResolve ->
  exists s', PopulateConfig cfg s = (None, s') /\ up (Sys s') /\
    ConfigMap s' = [config_value c4 h4 (Bypass cfg) (DefaultAction cfg)] /\
    SuffixRules s' = SuffixRules s.
Proof.
  intros HU Hs Hc H4 H4' Ha. unfold PopulateConfig. rewrite H4, H4'.
  assert ((DefaultAction cfg =? 0) = false) as -> by by destruct Ha as [->| ->].
  assert (negb (DefaultAction cfg =? ActionHostResolve) &&
    negb (DefaultAction cfg =? ActionClusterResolve) = false) as -> by by destruct Ha as [->| ->].
  destruct (config_update _ _ _) as [[ok l] k] eqn:E. pose proof E as E'.
  apply config_update_ok in E'. apply up_config in E as [-> Hk]; [|done].
  eexists. split; [done|]. simpl. by rewrite E', Hc.
Qed.

(** C25. Startup: on a healthy kernel, every validated configuration with ASCII
    patterns of at most 128 bytes, no two of which contradict each other, and no
    more rules than [suffix_rules] can hold, is installed, whatever the pinned maps held: the configuration entry holds the
    two addresses and the default action with bypass off, [suffix_rules] holds
    exactly the configured suffixes, lower-cased, and the health checker
    accepts its parameters. *)
Theorem startup_installs up cap c s c0 :
  (forall m, range m ≡ₚ map_to_list m) -> MapSyscallsUp M up cap -> up (Sys s) ->
  ConfigMap s = [c0] -> Config.Validate c = None ->
  Forall (fun r => is_ascii (Config.Pattern r) = true /\ (length (Config.Pattern r) <= 128)%nat)
    (Config.Rules c) ->
  no_conflict (Config.Rules c) -> (length (Config.Rules c) <= cap)%nat ->
  exists s' c4 h4 k, populate_maps ul range c s = (None, s') /\
    To4 (parse_ip (Config.CorednsServiceIP c)) = Some c4 /\
    To4 (parse_ip (Config.HostResolverIP c)) = Some h4 /\
    ConfigMap s' = [config_value c4 h4 false (toBPFAction (Config.DefaultAction c))] /\
    (forall key a, sv_action <$> SuffixRules s' !! key = Some a <->
       exists r, r ∈ Config.Rules c /\ a = toBPFAction (Config.Action r) /\
         key = name_key (SplitDot (map lower_byte (drop 2 (Config.Pattern r))))) /\
    New (checker_config c) false = inr k.
Proof.
  intros Hr HU Hs Hc0 Hv Hpat Hcon Hcap. apply Config.Validate_iff in Hv as [Hcd Hrs Hda Hrules _ _ Hh _].
  destruct (usable_To4 _ _ Hcd) as [c4 H4], (usable_To4 _ _ Hrs) as [h4 H4'].
  assert (Forall (fun r => is_ascii (Config.Pattern r) = true) (Config.Rules c)) as Hasc
    by (eapply Forall_impl; [|exact Hpat]; by intros r [? _]).
  assert (Forall (fun r => (length (Config.Pattern r) <= 128)%nat) (Config.Rules c)) as Hlen
    by (eapply Forall_impl; [|exact Hpat]; by intros r [_ ?]).
  destruct (proj2 (validated_rules_accepted ul _ Hrules Hasc Hcon) Hlen) as [des Hdes].
  destruct (populate_config_up up cap (startup_config c) s c4 h4 c0) as (s1&Hp1&Hs1&Hcm&_);
    try done; [apply toBPFAction_valid|].
  destruct (populate_up ul range up cap (map startup_rule (Config.Rules c)) s1 des) as [s2 Hp2];
    try done.
  { apply desired_rules_size in Hdes. rewrite map_size_empty, length_map in Hdes. lia. }
  destruct (populate_outcome ul range Hr _ _ _ _ Hp2) as ([Hcm2 _]&Ho).
  rewrite Hdes in Ho. destruct Ho as (_&_&Ho). specialize (Ho eq_refl).
  destruct (New (checker_config c) false) as [e|k] eqn:Hnew.
  { exfalso. unfold New, checker_config in Hnew. simpl in Hnew. rewrite H4' in Hnew.
    destruct Hh as [[Ht Hti] Hth].
    rewrite (proj2 (Z.leb_gt _ _)), (proj2 (Z.leb_gt _ _)), (proj2 (Z.ltb_ge _ _)) in Hnew by lia.
    done. }
  exists s2, c4, h4, k. split.
  { unfold populate_maps. by rewrite Hp1, Hp2. }
  split_and!; try done; [by rewrite Hcm2, Hcm|].
  intros key a. rewrite <- lookup_fmap, Ho, (desired_rules_lookup _ _ _ _ Hdes).
  rewrite List.Forall_forall in Hpat, Hrules. setoid_rewrite <- list_elem_of_In in Hpat.
  setoid_rewrite <- list_elem_of_In in Hrules.
  assert (forall r, r ∈ Config.Rules c -> rule_key ul (startup_rule r) =
    Some (name_key (SplitDot (map lower_byte (drop 2 (Config.Pattern r)))))) as Hkey.
  { intros r Hin. destruct (Hpat r Hin). by apply validated_key; auto. }
  split.
  - intros [[]%lookup_empty_Some|(r'&(r&->&Hin)%list_elem_of_fmap&E&<-)]. exists r.
    rewrite (Hkey r Hin) in E. split_and!; [done|done|congruence].
  - intros (r&Hin&->&->). right. exists (startup_rule r). split; [|by rewrite Hkey].
    apply list_elem_of_fmap. by exists r.
Qed.
End theorems.

(** ** The theorem on the example configuration *)

Definition sample_yaml : Config.Config :=
  Config.applyDefaults (Config.MkConfig (Config.lit "10.100.0.10"%string)
    (Config.lit "169.254.169.253"%string) [] [Config.MkRule (Config.lit "*.s3.amazonaws.com"%string)
      Config.ActionHostResolve] [] (Config.MkHealthCheck None None None) []).

Lemma startup_installs_witness :
  exists s' c4 h4 k, populate_maps id map_to_list sample_yaml sample_loader = (None, s') /\
    To4 (parse_ip (Config.CorednsServiceIP sample_yaml)) = Some c4 /\
    To4 (parse_ip (Config.HostResolverIP sample_yaml)) = Some h4 /\
    ConfigMap s' = [config_value c4 h4 false ActionClusterResolve] /\
    (forall key a, sv_action <$> SuffixRules s' !! key = Some a <->
       exists r, r ∈ Config.Rules sample_yaml /\ a = toBPFAction (Config.Action r) /\
         key = name_key (SplitDot (map lower_byte (drop 2 (Config.Pattern r))))) /\
    New (checker_config sample_yaml) false = inr k.
Proof.
  apply (startup_installs id map_to_list _ SUFFIX_RULES_MAX sample_yaml sample_loader
    (sample_config 0) (fun _ => Permutation_refl _) RefSyscallsUp eq_refl eq_refl).
  - vm_compute. reflexivity.
  - repeat constructor; apply (bool_decide_unpack _); vm_compute; exact I.
  - intros r r' Hr%list_elem_of_singleton Hr'%list_elem_of_singleton _. congruence.
  - apply (bool_decide_unpack _). vm_compute. exact I.
Defined.
