(* ===== verification/Attach.v ===== *)
(** * [internal/ebpf/attach.go]: the attachments of the program pair

    [AttachManager] keeps a pair of TCX links per interface.  The links are the
    cilium library's and the kernel's: the class [TcxLinks].  The methods
    are called by one goroutine, the controller's, and each is a function here;
    [AttachSteps] takes them apart into their system calls. *)

From S2P Require Import Prelude.

Inductive direction := DirIngress | DirEgress.

#[export] Instance direction_eq_dec : EqDecision direction.
Proof. solve_decision. Defined.

(** ** TCX links *)

Class TcxLinks := {
  link : Type;
  link_eq_dec :: EqDecision link;
  link_countable :: Countable link;
  tcx : Type;
  (** [link.AttachTCX] of the program of a direction, and [Link.Close]. *)
  attach_tcx : tcx -> Z -> direction -> option link * tcx;
  close_link : tcx -> link -> bool * tcx;
  (** What the kernel knows: the interface and direction a link was made for,
      and the links through which packets run now. *)
  link_info : tcx -> gmap link (Z * direction);
  live : tcx -> gset link
}.

(** A successful attach makes a new live link, a failed one none; a successful
    close detaches, a failed one may not. *)
Class TcxLinksOk (T : TcxLinks) := {
  attach_tcx_ok k i d r k' :
    attach_tcx k i d = (r, k') ->
    match r with
    | Some l => link_info k !! l = None /\ link_info k' = <[l := (i, d)]> (link_info k) /\
                live k' = {[ l ]} ∪ live k
    | None => link_info k' = link_info k /\ live k' = live k
    end;
  close_link_ok k l ok k' :
    close_link k l = (ok, k') ->
    link_info k' = link_info k /\
    live k' = if ok then live k ∖ {[ l ]} else live k
}.

(** Closing a link does not fail. *)
Class TcxLinksUp (T : TcxLinks) :=
  close_link_up k l : (close_link k l).1 = true.

(** ** The manager *)

Section manager.
Context {T : TcxLinks}.

Record Attachment := MkAttachment {
  Ifindex : Z; Ingress : option link; Egress : option link
}.

Record AttachManager := MkManager { attachments : gmap Z Attachment; kernel : tcx }.

Inductive attach_error :=
  | InvalidIfindex (i : Z) | AttachIngress (i : Z) | AttachEgress (i : Z).

(** [NewAttachManager]. *)
Definition NewAttachManager (k : tcx) : AttachManager := MkManager ∅ k.

(** One side of [Attachment.Close]: a nil link is skipped; the result says
    whether an error was recorded. *)
Definition close_side (l : option link) (k : tcx) : bool * tcx :=
  match l with
  | None => (true, k)
  | Some l => close_link k l
  end.

(** [Attachment.Close]: the directions whose close failed. *)
Definition Close (a : Attachment) (k : tcx) : list direction * tcx :=
  let '(ok1, k) := close_side (Ingress a) k in
  let '(ok2, k) := close_side (Egress a) k in
  ((if ok1 then [] else [DirIngress]) ++ (if ok2 then [] else [DirEgress]), k).

Definition Attach (ifindex : Z) (m : AttachManager) : option attach_error * AttachManager :=
  if ifindex <=? 0 then (Some (InvalidIfindex ifindex), m)
  else match attachments m !! ifindex with
  | Some _ => (None, m)
  | None =>
      let '(r, k) := attach_tcx (kernel m) ifindex DirIngress in
      match r with
      | None => (Some (AttachIngress ifindex), MkManager (attachments m) k)
      | Some ingressLink =>
          let '(r, k) := attach_tcx k ifindex DirEgress in
          match r with
          | None =>
              let '(_, k) := close_link k ingressLink in
              (Some (AttachEgress ifindex), MkManager (attachments m) k)
          | Some egressLink =>
              (None, MkManager (<[ifindex := MkAttachment ifindex (Some ingressLink)
                                               (Some egressLink)]> (attachments m)) k)
          end
      end
  end.

Definition Detach (ifindex : Z) (m : AttachManager) : list direction * AttachManager :=
  match attachments m !! ifindex with
  | None => ([], m)
  | Some a =>
      let '(errs, k) := Close a (kernel m) in
      (errs, MkManager (delete ifindex (attachments m)) k)
  end.

(** The loop of [DetachAll]: every attachment is closed, whatever fails. *)
Fixpoint close_all (all : list (Z * Attachment)) (k : tcx) : list (Z * list direction) * tcx :=
  match all with
  | [] => ([], k)
  | (ifindex, a) :: all =>
      let '(errs, k) := Close a k in
      let '(rest, k) := close_all all k in
      (match errs with [] => rest | _ => (ifindex, errs) :: rest end, k)
  end.

(** [range]: Go's order of iteration over the map. *)
Definition DetachAll (range : gmap Z Attachment -> list (Z * Attachment)) (m : AttachManager)
  : list (Z * list direction) * AttachManager :=
  let '(errs, k) := close_all (range (attachments m)) (kernel m) in
  (errs, MkManager ∅ k).

Definition AttachedCount (m : AttachManager) : Z := Z.of_nat (size (attachments m)).
Definition IsAttached (ifindex : Z) (m : AttachManager) : bool :=
  bool_decide (is_Some (attachments m !! ifindex)).

(** An interface that goes away takes its links with it. *)
Definition iface_gone (i : Z) (k k' : tcx) : Prop :=
  link_info k' = link_info k /\
  forall l, l ∈ live k' <-> l ∈ live k /\ forall d, link_info k !! l <> Some (i, d).

Inductive manager_step (range : gmap Z Attachment -> list (Z * Attachment)) (m : AttachManager)
  : AttachManager -> Prop :=
  | step_attach i : manager_step range m (Attach i m).2
  | step_detach i : manager_step range m (Detach i m).2
  | step_detach_all : manager_step range m (DetachAll range m).2
  | step_iface_gone i k : iface_gone i (kernel m) k ->
      manager_step range m (MkManager (attachments m) k).
End manager.

(** ** Invariant *)

Section invariant.
Context {T : TcxLinks} {TO : TcxLinksOk T}.

Definition side (d : direction) (a : Attachment) : option link :=
  match d with DirIngress => Ingress a | DirEgress => Egress a end.

(** A link of the attachment of [i], on side [d]. *)
Definition owned (m : gmap Z Attachment) (i : Z) (d : direction) (l : link) : Prop :=
  exists a, m !! i = Some a /\ side d a = Some l.

(** The links of an attachment are its own, and there are two. *)
Record manager_ok (m : AttachManager) : Prop := {
  mgr_sides i a d : attachments m !! i = Some a ->
    exists l, side d a = Some l /\ link_info (kernel m) !! l = Some (i, d);
  mgr_ifindex i a : attachments m !! i = Some a -> Ifindex a = i /\ 0 < i;
  (** Both links of an interface are live, or none is. *)
  mgr_pair i l l' : owned (attachments m) i DirIngress l -> owned (attachments m) i DirEgress l' ->
    l ∈ live (kernel m) <-> l' ∈ live (kernel m);
  (** No link is live that the manager does not hold. *)
  mgr_no_leak l : l ∈ live (kernel m) -> exists i d, owned (attachments m) i d l
}.

Lemma owned_info m i d l :
  manager_ok m -> owned (attachments m) i d l -> link_info (kernel m) !! l = Some (i, d).
Proof.
  intros Hm (a&Ha&Hs). destruct (mgr_sides _ Hm _ _ d Ha) as (l'&Hl'&?). congruence.
Qed.

Lemma owned_side m i d :
  manager_ok m -> is_Some (attachments m !! i) -> exists l, owned (attachments m) i d l.
Proof.
  intros Hm [a Ha]. destruct (mgr_sides _ Hm _ _ d Ha) as (l&?&_). by exists l, a.
Qed.

Lemma live_info m l : manager_ok m -> l ∈ live (kernel m) -> is_Some (link_info (kernel m) !! l).
Proof.
  intros Hm (i&d&Ho)%mgr_no_leak; [|done]. rewrite (owned_info _ _ _ _ Hm Ho). by eexists.
Qed.

(** The kernel may learn of new links, if none of them stays live. *)
Lemma manager_ok_ext m k k' :
  link_info k ⊆ link_info k' -> live k' = live k ->
  manager_ok (MkManager m k) -> manager_ok (MkManager m k').
Proof.
  intros Hi Hl [Hs Hf Hp Hn]. split; simpl in *; rewrite ?Hl; try done.
  intros i a d Ha. destruct (Hs i a d Ha) as (l&?&?). exists l. split; [done|].
  by eapply lookup_weaken.
Qed.

Lemma close_side_spec o k ok k' :
  close_side o k = (ok, k') ->
  link_info k' = link_info k /\
  (forall l, l ∈ live k' <-> l ∈ live k /\ (ok = true -> o <> Some l)).
Proof.
  destruct o as [l0|]; simpl.
  - intros [Hi Hl]%close_link_ok. split; [done|]. intros l. rewrite Hl.
    destruct ok; [|naive_solver].
    rewrite elem_of_difference, elem_of_singleton. naive_solver congruence.
  - intros [= <- <-]. naive_solver.
Qed.

(** Closing an attachment leaves the links whose close failed. *)
Lemma Close_spec a k errs k' :
  Close a k = (errs, k') ->
  link_info k' = link_info k /\
  forall l, l ∈ live k' <-> l ∈ live k /\ forall d, side d a = Some l -> d ∈ errs.
Proof.
  unfold Close. destruct (close_side (Ingress a) k) as [ok1 k1] eqn:E1.
  destruct (close_side (Egress a) k1) as [ok2 k2] eqn:E2. intros [= <- <-].
  apply close_side_spec in E1 as (Hi1&Hl1). apply close_side_spec in E2 as (Hi2&Hl2).
  split; [congruence|]. intros l. rewrite Hl2, Hl1.
  assert (forall d, d ∈ (if ok1 then [] else [DirIngress]) ++ (if ok2 then [] else [DirEgress]) <->
    match d with DirIngress => ok1 = false | DirEgress => ok2 = false end) as Hd.
  { intros d. rewrite elem_of_app.
    destruct d, ok1, ok2; rewrite ?elem_of_nil, ?list_elem_of_singleton; naive_solver. }
  setoid_rewrite Hd. split.
  - intros [[? H1] H2]. split; [done|].
    intros [] Hs; simpl in Hs; [destruct ok1|destruct ok2]; naive_solver.
  - intros [? Hall]. pose proof (Hall DirIngress) as H1. pose proof (Hall DirEgress) as H2.
    simpl in *. split; [split; [done|]|]; intros ->; naive_solver.
Qed.

Lemma close_all_spec all k errs k' :
  close_all all k = (errs, k') ->
  link_info k' = link_info k /\
  forall l, l ∈ live k' ->
    l ∈ live k /\ forall i a d, (i, a) ∈ all -> side d a = Some l ->
      exists e, (i, e) ∈ errs /\ d ∈ e.
Proof.
  revert k errs. induction all as [|[i a] all IH]; intros k errs; simpl.
  { intros [= <- <-]. split; [done|]. intros l Hl. split; [done|].
    intros i a d Hin. by apply elem_of_nil in Hin. }
  destruct (Close a k) as [e k1] eqn:E1. destruct (close_all all k1) as [rest k2] eqn:E2.
  intros [= <- <-]. apply Close_spec in E1 as [Hi1 Hl1]. apply IH in E2 as [Hi2 Hl2].
  split; [congruence|]. intros l [[Hk Ha]%Hl1 Hrest]%Hl2. split; [done|].
  assert (forall x, x ∈ rest -> x ∈ match e with [] => rest | _ => (i, e) :: rest end) as Hw
    by (destruct e; [done|by right]).
  intros i' a' d [[= -> ->]|Hin]%elem_of_cons Hs.
  - apply Ha in Hs. exists e. split; [|done]. destruct e; [by apply elem_of_nil in Hs|by left].
  - destruct (Hrest _ _ _ Hin Hs) as (e'&?&?). eauto.
Qed.
End invariant.

(** ** Preservation, when closes do not fail *)

Section preservation.
Context {T : TcxLinks} {TO : TcxLinksOk T} {TU : TcxLinksUp T}.

Lemma Close_up a k : (Close a k).1 = [].
Proof.
  unfold Close. destruct (close_side (Ingress a) k) as [ok1 k1] eqn:E1.
  destruct (close_side (Egress a) k1) as [ok2 k2] eqn:E2. simpl.
  assert (forall o k, (close_side o k).1 = true) as Hup
    by (intros [l|] ?; [apply close_link_up|done]).
  pose proof (Hup (Ingress a) k) as H1. pose proof (Hup (Egress a) k1) as H2.
  rewrite E1 in H1. rewrite E2 in H2. simpl in *. by subst.
Qed.

Lemma close_all_up all k : (close_all all k).1 = [].
Proof.
  revert k. induction all as [|[i a] all IH]; intros k; simpl; [done|].
  pose proof (Close_up a k) as Hc. destruct (Close a k) as [e k1]. simpl in Hc. subst e.
  specialize (IH k1). by destruct (close_all all k1).
Qed.

Lemma new_manager_ok k : live k = ∅ -> manager_ok (NewAttachManager k).
Proof.
  intros Hl. split; simpl.
  - intros i a d Ha. by apply lookup_empty_Some in Ha.
  - intros i a Ha. by apply lookup_empty_Some in Ha.
  - intros i l l' (a&Ha&_). by apply lookup_empty_Some in Ha.
  - set_solver.
Qed.

(** A new pair, of two fresh links. *)
Lemma attach_pair_ok m k k' i l1 l2 :
  manager_ok (MkManager m k) -> 0 < i -> m !! i = None ->
  link_info k !! l1 = None -> link_info k !! l2 = None -> l1 <> l2 ->
  link_info k' = <[l2 := (i, DirEgress)]> (<[l1 := (i, DirIngress)]> (link_info k)) ->
  live k' = {[ l2 ]} ∪ ({[ l1 ]} ∪ live k) ->
  manager_ok (MkManager (<[i := MkAttachment i (Some l1) (Some l2)]> m) k').
Proof.
  intros Hm Hi Hnone Hf1 Hf2 Hne Hinfo Hlive.
  assert (forall j d l, owned (<[i := MkAttachment i (Some l1) (Some l2)]> m) j d l <->
    (j = i /\ l = match d with DirIngress => l1 | DirEgress => l2 end) \/
    (j <> i /\ owned m j d l)) as Howned.
  { intros j d l. unfold owned. destruct (decide (j = i)) as [->|Hj].
    - rewrite lookup_insert_eq. destruct d; naive_solver.
    - rewrite lookup_insert_ne by done. naive_solver. }
  assert (forall j d l, owned m j d l -> link_info k !! l = Some (j, d)) as Hoi
    by (intros j d l; exact (owned_info (MkManager m k) j d l Hm)).
  split; simpl; rewrite ?Hinfo, ?Hlive.
  - intros j a d [[<- <-]|[Hj Ha]]%lookup_insert_Some.
    + destruct d; simpl; eexists; (split; [done|]); [|by rewrite lookup_insert_eq].
      by rewrite lookup_insert_ne, lookup_insert_eq by done.
    + destruct (mgr_sides _ Hm j a d Ha) as (l&Hs&Hl). simpl in Hl. exists l. split; [done|].
      by rewrite !lookup_insert_ne by congruence.
  - intros j a [[<- <-]|[_ Ha]]%lookup_insert_Some; [done|]. by apply (mgr_ifindex _ Hm).
  - intros j l l' [[-> ->]|[Hj Ho]]%Howned [[? ->]|[? Ho']]%Howned; try done; [set_solver|].
    pose proof (mgr_pair _ Hm _ _ _ Ho Ho') as Hp. simpl in Hp.
    apply Hoi in Ho, Ho'. set_solver by congruence.
  - intros l Hl. setoid_rewrite Howned.
    assert (l = l2 \/ l = l1 \/ l ∈ live k) as [->|[->|Hk]] by set_solver.
    + exists i, DirEgress. by left.
    + exists i, DirIngress. by left.
    + destruct (mgr_no_leak _ Hm _ Hk) as (j&d&Ho). exists j, d. right. split; [|done].
      intros ->. destruct Ho as (a&Ha&_). simpl in Ha. congruence.
Qed.

Lemma attach_ok i m : manager_ok m -> manager_ok (Attach i m).2.
Proof.
  intros Hm. unfold Attach. destruct (Z.leb_spec i 0); [done|].
  destruct (attachments m !! i) as [a|] eqn:Hi; [done|].
  destruct (attach_tcx (kernel m) i DirIngress) as [r1 k1] eqn:E1. apply attach_tcx_ok in E1.
  destruct m as [att k]; simpl in *.
  destruct r1 as [l1|]; [|destruct E1 as [E _E]; apply (manager_ok_ext _ k); by rewrite ?E].
  destruct E1 as (Hn1&Hi1&Hl1).
  destruct (attach_tcx k1 i DirEgress) as [r2 k2] eqn:E2. apply attach_tcx_ok in E2.
  assert (l1 ∉ live k) as Hl1k
    by (intros Hl; apply (live_info _ _ Hm) in Hl as [? Hl]; simpl in Hl; congruence).
  destruct r2 as [l2|].
  - destruct E2 as (Hn2&Hi2&Hl2). rewrite Hi1 in Hn2. apply lookup_insert_None in Hn2 as [? ?].
    simpl. eapply attach_pair_ok; eauto; congruence.
  - destruct E2 as (Hi2&Hl2). pose proof (close_link_up k2 l1) as Hup.
    destruct (close_link k2 l1) as [ok k3] eqn:E3. simpl in Hup. subst ok.
    apply close_link_ok in E3 as [Hi3 Hl3]. simpl.
    apply (manager_ok_ext _ k); [|set_solver|done].
    rewrite Hi3, Hi2, Hi1. by apply insert_subseteq.
Qed.

Lemma detach_ok i m : manager_ok m -> manager_ok (Detach i m).2.
Proof.
  intros Hm. unfold Detach. destruct (attachments m !! i) as [a|] eqn:Ha; [|done].
  pose proof (Close_up a (kernel m)) as Hup.
  destruct (Close a (kernel m)) as [errs k] eqn:E. simpl in Hup. subst errs.
  apply Close_spec in E as [Hinfo Hlive].
  assert (forall j d l, owned (delete i (attachments m)) j d l <->
    j <> i /\ owned (attachments m) j d l) as Howned.
  { intros j d l. unfold owned. setoid_rewrite lookup_delete_Some. naive_solver. }
  assert (forall j d l, j <> i -> owned (attachments m) j d l -> l ∈ live k <-> l ∈ live (kernel m))
    as Hkeep.
  { intros j d l Hj Ho. rewrite Hlive. split; [tauto|]. intros Hl. split; [done|].
    intros d' Hs. pose proof (owned_info _ _ _ _ Hm Ho) as H1.
    assert (owned (attachments m) i d' l) as H2%owned_info by (by exists a); [|done]. congruence. }
  split; simpl; rewrite ?Hinfo.
  - intros j b d [_ Hb]%lookup_delete_Some. by apply (mgr_sides _ Hm).
  - intros j b [_ Hb]%lookup_delete_Some. by apply (mgr_ifindex _ Hm).
  - intros j l l' [Hj Ho]%Howned [_ Ho']%Howned.
    rewrite (Hkeep _ _ _ Hj Ho), (Hkeep _ _ _ Hj Ho'). by eapply mgr_pair.
  - intros l [Hl Hs]%Hlive. destruct (mgr_no_leak _ Hm _ Hl) as (j&d&Ho).
    exists j, d. apply Howned. split; [|done]. intros ->. destruct Ho as (b&Hb&Hside).
    assert (b = a) as -> by congruence. apply Hs in Hside. by apply elem_of_nil in Hside.
Qed.

Lemma iface_gone_ok i m k : manager_ok m -> iface_gone i (kernel m) k ->
  manager_ok (MkManager (attachments m) k).
Proof.
  intros Hm [Hinfo Hlive]. split; simpl; rewrite ?Hinfo.
  - apply (mgr_sides _ Hm).
  - apply (mgr_ifindex _ Hm).
  - intros j l l' Ho Ho'. rewrite !Hlive, (mgr_pair _ Hm _ _ _ Ho Ho').
    rewrite (owned_info _ _ _ _ Hm Ho), (owned_info _ _ _ _ Hm Ho'). naive_solver.
  - intros l [Hl _]%Hlive. by apply (mgr_no_leak _ Hm).
Qed.

Context (range : gmap Z Attachment -> list (Z * Attachment)).
Context (Hrange : forall m, range m ≡ₚ map_to_list m).

Lemma detach_all_empty m : manager_ok m -> live (kernel (DetachAll range m).2) = ∅.
Proof.
  intros Hm. unfold DetachAll. pose proof (close_all_up (range (attachments m)) (kernel m)) as Hup.
  destruct (close_all _ _) as [errs k] eqn:E. simpl in *. subst errs.
  apply close_all_spec in E as [_ Hlive]. apply set_eq. intros l. split; [|set_solver].
  intros [Hl Hall]%Hlive. destruct (mgr_no_leak _ Hm _ Hl) as (i&d&a&Ha&Hs).
  destruct (Hall i a d) as (e&He&_); [|done|by apply elem_of_nil in He].
  rewrite Hrange. by apply elem_of_map_to_list.
Qed.

Lemma manager_step_ok m m' : manager_ok m -> manager_step range m m' -> manager_ok m'.
Proof.
  intros Hm [i|i| |i k Hg].
  - by apply attach_ok.
  - by apply detach_ok.
  - pose proof (detach_all_empty m Hm) as Hl. unfold DetachAll in *.
    destruct (close_all _ _) as [errs k]. by apply new_manager_ok.
  - by eapply iface_gone_ok.
Qed.

Lemma reachable_manager_ok k0 m :
  live k0 = ∅ -> rtc (manager_step range) (NewAttachManager k0) m -> manager_ok m.
Proof.
  intros Hk Hr. apply new_manager_ok in Hk. induction Hr; [done|]. eauto using manager_step_ok.
Qed.
End preservation.

Section theorems.
Context {T : TcxLinks} {TO : TcxLinksOk T}.

(** The programs that run on an interface. *)
Definition attached_link (k : tcx) (i : Z) (d : direction) (l : link) : Prop :=
  l ∈ live k /\ link_info k !! l = Some (i, d).

(** C13. The programs come in pairs.  When closing a link does not fail ([Attach]
    ignores an error of the [Close] with which it undoes a half-made pair, and
    [Detach] has dropped the attachment before it closes), then between the
    manager's calls, after any attaches, failed attaches, detaches and
    interfaces going away, an interface has the ingress program exactly when it
    has the egress program; each at most once; and only interfaces the manager
    counts.  Within a call an interface may have one of the two. *)
Theorem attach_pairs {TU : TcxLinksUp T} range k0 m i :
  (forall m, range m ≡ₚ map_to_list m) ->
  live k0 = ∅ -> rtc (manager_step range) (NewAttachManager k0) m ->
  ((exists l, attached_link (kernel m) i DirIngress l) <->
   (exists l, attached_link (kernel m) i DirEgress l)) /\
  (forall d l, attached_link (kernel m) i d l -> IsAttached i m = true) /\
  (forall d l l', attached_link (kernel m) i d l -> attached_link (kernel m) i d l' -> l = l').
Proof.
  intros Hr Hk Hm. apply (reachable_manager_ok range Hr) in Hm; [|done].
  assert (forall d l, attached_link (kernel m) i d l -> owned (attachments m) i d l) as Ho.
  { intros d l [Hl Hi]. destruct (mgr_no_leak _ Hm _ Hl) as (j&d'&Ho).
    pose proof (owned_info _ _ _ _ Hm Ho). by simplify_eq. }
  assert (forall d d' l, attached_link (kernel m) i d l -> (forall l l',
    owned (attachments m) i d l -> owned (attachments m) i d' l' ->
    l ∈ live (kernel m) -> l' ∈ live (kernel m)) ->
    exists l', attached_link (kernel m) i d' l') as Hpair.
  { intros d d' l Hl Hp. destruct (Ho _ _ Hl) as (a&Ha&Hs).
    destruct (owned_side m i d' Hm) as [l' Ho']; [by eexists|]. exists l'.
    split; [|by apply owned_info]. apply (Hp l l'); [by exists a|done|apply Hl]. }
  split_and!.
  - split; intros [l Hl]; (eapply Hpair; [done|]); intros x y Hx Hy;
      [by rewrite (mgr_pair _ Hm _ _ _ Hx Hy)|by rewrite (mgr_pair _ Hm _ _ _ Hy Hx)].
  - intros d l (a&Ha&_)%Ho. unfold IsAttached. apply bool_decide_eq_true. eauto.
  - intros d l l' (a&Ha&Hs)%Ho (a'&Ha'&Hs')%Ho. congruence.
Qed.

(** Detaching everything: the manager ends empty, and from a consistent
    manager every link it fails to close is reported with its interface and
    direction; when closes do not fail, no program is left anywhere. *)
Theorem detach_all_clean range m errs m' :
  (forall m, range m ≡ₚ map_to_list m) ->
  manager_ok m -> DetachAll range m = (errs, m') ->
  AttachedCount m' = 0 /\
  (forall i d l, attached_link (kernel m') i d l ->
     attached_link (kernel m) i d l /\ exists e, (i, e) ∈ errs /\ d ∈ e) /\
  (TcxLinksUp T -> errs = [] /\ live (kernel m') = ∅).
Proof.
  intros Hr Hm E. split_and!.
  - unfold DetachAll in E. destruct (close_all _ _). injection E as <- <-. done.
  - unfold DetachAll in E. destruct (close_all _ _) as [e k] eqn:Ec. injection E as <- <-.
    apply close_all_spec in Ec as [Hinfo Hlive]. intros i d l [[Hl Hall]%Hlive Hi].
    simpl in Hi. rewrite Hinfo in Hi. split; [done|].
    destruct (mgr_no_leak _ Hm _ Hl) as (j&d'&Ho). pose proof (owned_info _ _ _ _ Hm Ho).
    simplify_eq. destruct Ho as (a&Ha&Hs). apply (Hall i a); [|done].
    rewrite Hr. by apply elem_of_map_to_list.
  - intros TU. split.
    + unfold DetachAll in E. pose proof (close_all_up (range (attachments m)) (kernel m)) as Hup.
      destruct (close_all _ _). by injection E as <- <-.
    + rewrite <- (detach_all_empty range Hr m Hm). by rewrite E.
Qed.
End theorems.

(** ** A concrete kernel: links are numbered; a script fails attaches *)

Record ref_tcx := RefTcxState {
  rt_info : gmap nat (Z * direction); rt_live : gset nat; rt_faults : list bool
}.

#[export] Instance RefTcx : TcxLinks := {|
  link := nat;
  tcx := ref_tcx;
  attach_tcx k i d :=
    if hd false (rt_faults k)
    then (None, RefTcxState (rt_info k) (rt_live k) (tl (rt_faults k)))
    else
      let l := fresh (dom (rt_info k)) in
      (Some l, RefTcxState (<[l := (i, d)]> (rt_info k)) ({[ l ]} ∪ rt_live k)
                 (tl (rt_faults k)));
  close_link k l :=
    (true, RefTcxState (rt_info k) (rt_live k ∖ {[ l ]}) (rt_faults k));
  link_info := rt_info;
  live := rt_live
|}.

#[export] Instance RefTcxOk : TcxLinksOk RefTcx.
Proof.
  split; simpl.
  - intros k i d r k'. destruct (hd false (rt_faults k)); intros [= <- <-]; [done|]. simpl.
    split; [|done]. apply not_elem_of_dom, is_fresh.
  - intros k l ok k' [= <- <-]. done.
Qed.

#[export] Instance RefTcxUp : TcxLinksUp RefTcx.
Proof. done. Qed.

(** The egress attach of interface 7 fails once; interface 8 is attached. *)
Definition tcx0 : @tcx RefTcx := RefTcxState ∅ ∅ [false; true].
Definition manager1 : AttachManager := (Attach 8 (Attach 7 (NewAttachManager tcx0)).2).2.

Lemma manager1_reachable : rtc (manager_step map_to_list) (NewAttachManager tcx0) manager1.
Proof.
  eapply rtc_l; [apply (step_attach _ _ 7)|]. eapply rtc_l; [apply (step_attach _ _ 8)|].
  apply rtc_refl.
Qed.

Lemma attach_pairs_witness :
  (exists l, attached_link (kernel manager1) 8 DirIngress l) <->
  (exists l, attached_link (kernel manager1) 8 DirEgress l).
Proof.
  destruct (attach_pairs map_to_list tcx0 manager1 8 (fun _ => Permutation_refl _) eq_refl
    manager1_reachable) as [Hp _].
  exact Hp.
Defined.

Lemma detach_all_clean_witness : AttachedCount (DetachAll map_to_list manager1).2 = 0.
Proof.
  destruct (detach_all_clean map_to_list manager1 (DetachAll map_to_list manager1).1
    (DetachAll map_to_list manager1).2 (fun _ => Permutation_refl _)
    (reachable_manager_ok map_to_list (fun _ => Permutation_refl _) tcx0 manager1 eq_refl
       manager1_reachable) (surjective_pairing _)) as [Hc _].
  exact Hc.
Defined.
