(* ===== verification/AttachSteps.v ===== *)
(** * The manager's methods, system call by system call

    [Attach] makes two [AttachTCX] calls, and [Detach] and [DetachAll] take their
    attachments off the map, release [mu] and then close the links one by one;
    packets, and an interface going away, can come between any two of these.  A
    [call] is where the one goroutine that calls the methods is in a method, and
    [call_next] its next system call; [method_steps] says that nothing in
    between gives the methods of [Attach]. *)

From S2P Require Import Prelude Attach.

Section calls.
Context {T : TcxLinks}.

Inductive call :=
  | CallIdle
  (** In [Attach], holding [mu]: the ingress link is made, the egress one next. *)
  | MidAttach (ifindex : Z) (ingressLink : link)
  (** In [Attach]: the egress attach failed, [ingressLink.Close()] is next. *)
  | MidUndo (ifindex : Z) (ingressLink : link)
  (** In the [Close] of an attachment that [Detach] has taken off the map. *)
  | Closing (links : list link)
  (** In the loop of [DetachAll], with which [Run] ends. *)
  | ClosingAll (links : list link).

(** The links of an attachment, in the order [Close] closes them. *)
Definition links_of (a : Attachment) : list link :=
  option_list (Ingress a) ++ option_list (Egress a).

(** [link.AttachTCX] on an interface that has gone fails: the kernel finds no
    device, and does not use its index again. *)
Definition attach_on (gone : gset Z) (k : tcx) (i : Z) (d : direction) : option link * tcx :=
  if decide (i ∈ gone) then (None, k) else attach_tcx k i d.

(** [Attach] up to its first system call. *)
Definition begin_attach (gone : gset Z) (ifindex : Z) (m : AttachManager) : AttachManager * call :=
  if ifindex <=? 0 then (m, CallIdle)
  else match attachments m !! ifindex with
  | Some _ => (m, CallIdle)
  | None =>
      let '(r, k) := attach_on gone (kernel m) ifindex DirIngress in
      (MkManager (attachments m) k,
       match r with None => CallIdle | Some ingressLink => MidAttach ifindex ingressLink end)
  end.

(** Its second one. *)
Definition attach_egress (gone : gset Z) (ifindex : Z) (ingressLink : link) (m : AttachManager)
  : AttachManager * call :=
  let '(r, k) := attach_on gone (kernel m) ifindex DirEgress in
  match r with
  | None => (MkManager (attachments m) k, MidUndo ifindex ingressLink)
  | Some egressLink =>
      (MkManager (<[ifindex := MkAttachment ifindex (Some ingressLink) (Some egressLink)]>
         (attachments m)) k, CallIdle)
  end.

(** [Close] of one link; its error is only recorded. *)
Definition close_one (l : link) (m : AttachManager) : AttachManager :=
  MkManager (attachments m) (close_link (kernel m) l).2.

Definition begin_detach (ifindex : Z) (m : AttachManager) : AttachManager * call :=
  match attachments m !! ifindex with
  | None => (m, CallIdle)
  | Some a => (MkManager (delete ifindex (attachments m)) (kernel m), Closing (links_of a))
  end.

Definition begin_detach_all (range : gmap Z Attachment -> list (Z * Attachment))
    (m : AttachManager) : AttachManager * call :=
  (MkManager ∅ (kernel m), ClosingAll (concat (map (fun p => links_of p.2) (range (attachments m))))).

(** The next system call of a method, or its return. *)
Definition call_next (gone : gset Z) (c : call) (m : AttachManager) : AttachManager * call :=
  match c with
  | CallIdle => (m, CallIdle)
  | MidAttach i l => attach_egress gone i l m
  | MidUndo _ l => (close_one l m, CallIdle)
  | Closing [] | ClosingAll [] => (m, CallIdle)
  | Closing (l :: ls) => (close_one l m, Closing ls)
  | ClosingAll (l :: ls) => (close_one l m, ClosingAll ls)
  end.

(** The steps a method has left. *)
Definition call_left (c : call) : nat :=
  match c with
  | CallIdle => 0
  | MidUndo _ _ => 1
  | MidAttach _ _ => 2
  | Closing ls | ClosingAll ls => S (length ls)
  end.

Lemma call_next_left gone c m :
  c <> CallIdle -> (call_left (call_next gone c m).2 < call_left c)%nat.
Proof.
  destruct c as [|i l|i l|[|l ls]|[|l ls]]; intros Hc; simpl; try done; try lia.
  unfold attach_egress. destruct (attach_on _ _ _ _) as [[] ?]; simpl; lia.
Qed.

(** All of them, with nothing in between. *)
Fixpoint finish (n : nat) (gone : gset Z) (mc : AttachManager * call) : AttachManager :=
  match n with
  | O => mc.1
  | S n => finish n gone (call_next gone mc.2 mc.1)
  end.

Definition finish_call (gone : gset Z) (mc : AttachManager * call) : AttachManager :=
  finish (call_left mc.2) gone mc.

Definition close_links (ls : list link) (k : tcx) : tcx :=
  foldl (fun k l => (close_link k l).2) k ls.

Lemma finish_closing gone ls m :
  finish_call gone (m, Closing ls) = MkManager (attachments m) (close_links ls (kernel m)) /\
  finish_call gone (m, ClosingAll ls) = MkManager (attachments m) (close_links ls (kernel m)).
Proof.
  unfold finish_call. cbn [snd call_left].
  revert m. induction ls as [|l ls IH]; intros m; [destruct m; by split|].
  change (length (l :: ls)) with (S (length ls)). cbn [finish fst snd call_next]. apply IH.
Qed.

Lemma close_links_of a k : close_links (links_of a) k = (Close a k).2.
Proof.
  unfold links_of, Close, close_links. rewrite foldl_app.
  assert (forall o k, foldl (fun k l => (close_link k l).2) k (option_list o) = (close_side o k).2) as E
    by (by intros [l|] k').
  rewrite !E. destruct (close_side (Ingress a) k) as [? k1]. simpl.
  by destruct (close_side (Egress a) k1).
Qed.

Lemma close_links_all all k :
  close_links (concat (map (fun p => links_of p.2) all)) k = (close_all all k).2.
Proof.
  revert k. induction all as [|[i a] all IH]; intros k; simpl; [done|].
  unfold close_links in *. rewrite foldl_app, IH. fold (close_links (links_of a) k).
  rewrite close_links_of. destruct (Close a k) as [errs k1]. simpl.
  by destruct (close_all all k1).
Qed.

(** The system calls of a method, made one after the other, are the method. *)
Theorem method_steps range gone i m :
  i ∉ gone ->
  finish_call gone (begin_attach gone i m) = (Attach i m).2 /\
  finish_call gone (begin_detach i m) = (Detach i m).2 /\
  finish_call gone (begin_detach_all range m) = (DetachAll range m).2.
Proof.
  intros Hi. split_and!.
  - unfold begin_attach, Attach, attach_on. destruct (i <=? 0); [done|].
    destruct (attachments m !! i); [done|]. rewrite decide_False by done.
    destruct (attach_tcx (kernel m) i DirIngress) as [[l|] k]; [|done].
    unfold finish_call. simpl. unfold attach_egress, attach_on. rewrite decide_False by done. simpl.
    destruct (attach_tcx k i DirEgress) as [[l'|] k']; [done|]. simpl. unfold close_one. simpl.
    by destruct (close_link k' l).
  - unfold begin_detach, Detach. destruct (attachments m !! i) as [a|]; [|done].
    rewrite (proj1 (finish_closing _ _ _)), close_links_of. simpl. by destruct (Close a (kernel m)).
  - unfold begin_detach_all, DetachAll. rewrite (proj2 (finish_closing _ _ _)), close_links_all. simpl.
    by destruct (close_all _ _).
Qed.
End calls.

(** ** What holds between any two system calls *)

Section invariant.
Context {T : TcxLinks} {TO : TcxLinksOk T}.
Implicit Types (m : AttachManager) (c : call).

(** The links that a call still has to deal with. *)
Definition in_flight (c : call) (l : link) : Prop :=
  match c with
  | CallIdle => False
  | MidAttach _ l' | MidUndo _ l' => l = l'
  | Closing ls | ClosingAll ls => l ∈ ls
  end.

(** The call in progress is about interface [i]. *)
Definition concerns (k : tcx) (c : call) (i : Z) : Prop :=
  exists l d, in_flight c l /\ link_info k !! l = Some (i, d).

Record call_ok (gone : gset Z) (m : AttachManager) (c : call) : Prop := {
  co_sides i a d : attachments m !! i = Some a ->
    exists l, side d a = Some l /\ link_info (kernel m) !! l = Some (i, d);
  co_pair i l l' : owned (attachments m) i DirIngress l -> owned (attachments m) i DirEgress l' ->
    l ∈ live (kernel m) <-> l' ∈ live (kernel m);
  co_no_leak l : l ∈ live (kernel m) -> in_flight c l \/ exists i d, owned (attachments m) i d l;
  co_flight l : in_flight c l -> exists i d,
    link_info (kernel m) !! l = Some (i, d) /\ attachments m !! i = None;
  co_mid i l : c = MidAttach i l -> link_info (kernel m) !! l = Some (i, DirIngress) /\
    (i ∉ gone -> l ∈ live (kernel m));
  co_all ls : c = ClosingAll ls -> attachments m = ∅
}.

Lemma co_owned_info gone m c i d l :
  call_ok gone m c -> owned (attachments m) i d l -> link_info (kernel m) !! l = Some (i, d).
Proof.
  intros Hm (a&Ha&Hs). destruct (co_sides _ _ _ Hm _ _ d Ha) as (l'&Hl'&?). congruence.
Qed.

Lemma new_call_ok k : live k = ∅ -> call_ok ∅ (NewAttachManager k) CallIdle.
Proof.
  intros Hl. split; simpl; try done.
  - intros i l l' (a&Ha&_). by apply lookup_empty_Some in Ha.
  - set_solver.
Qed.

(** With no link in flight and no attachment nothing is attached. *)
Lemma call_ok_empty gone m :
  call_ok gone m CallIdle -> attachments m = ∅ -> live (kernel m) = ∅.
Proof.
  intros Hm Ha. apply set_eq. intros l. split; [|set_solver].
  intros [[]|(i&d&a&Hi&_)]%(co_no_leak _ _ _ Hm). rewrite Ha in Hi. by apply lookup_empty_Some in Hi.
Qed.

Lemma iface_gone_call_ok gone m c i k :
  call_ok gone m c -> iface_gone i (kernel m) k ->
  call_ok ({[ i ]} ∪ gone) (MkManager (attachments m) k) c.
Proof.
  intros Hm [Hinfo Hlive]. split; simpl; rewrite ?Hinfo; try apply Hm.
  - intros j l l' Ho Ho'. rewrite !Hlive, (co_pair _ _ _ Hm _ _ _ Ho Ho').
    rewrite (co_owned_info _ _ _ _ _ _ Hm Ho), (co_owned_info _ _ _ _ _ _ Hm Ho'). naive_solver.
  - intros l [Hl _]%Hlive. by apply (co_no_leak _ _ _ Hm).
  - intros j l ->. destruct (co_mid _ _ _ Hm _ _ eq_refl) as [Hl Hlv]. split; [done|].
    intros Hj. apply Hlive. split; [apply Hlv; set_solver|]. intros d. rewrite Hl. set_solver.
Qed.

Context {TU : TcxLinksUp T}.

Lemma close_one_live l m :
  link_info (kernel (close_one l m)) = link_info (kernel m) /\
  live (kernel (close_one l m)) = live (kernel m) ∖ {[ l ]}.
Proof.
  unfold close_one. pose proof (close_link_up (kernel m) l) as Hup.
  destruct (close_link (kernel m) l) as [ok k] eqn:E. simpl in *. subst ok.
  by apply close_link_ok in E.
Qed.

(** One link in flight is closed. *)
Lemma close_one_ok gone m c c' l :
  call_ok gone m c -> in_flight c l -> (forall l', in_flight c' l' -> in_flight c l') ->
  (forall l', in_flight c l' -> l' = l \/ in_flight c' l') ->
  (forall i l', c' <> MidAttach i l') -> (forall ls, c' = ClosingAll ls -> attachments m = ∅) ->
  call_ok gone (close_one l m) c'.
Proof.
  intros Hm Hl Hsub Hcov Hmid Hall. destruct (close_one_live l m) as [Hinfo Hlive].
  destruct (co_flight _ _ _ Hm l Hl) as (i&d&Hli&Hnone).
  assert (forall j e l', owned (attachments m) j e l' -> l' <> l) as Hne.
  { intros j e l' Ho ->. pose proof (co_owned_info _ _ _ _ _ _ Hm Ho).
    destruct Ho as (a&Ha&_). congruence. }
  split; try rewrite Hinfo; try rewrite Hlive; simpl; try apply Hm; try done.
  - intros j x y Ho Ho'. pose proof (Hne _ _ _ Ho). pose proof (Hne _ _ _ Ho').
    pose proof (co_pair _ _ _ Hm _ _ _ Ho Ho'). set_solver.
  - intros x [Hx Hxl]%elem_of_difference.
    apply (co_no_leak _ _ _ Hm) in Hx as [Hx|Hx]; [|by right].
    left. destruct (Hcov x Hx); [set_solver|done].
  - intros x Hx. apply Hsub in Hx. apply (co_flight _ _ _ Hm x Hx).
  - intros j x ->. by destruct (Hmid j x).
Qed.

(** Attachments taken off the map: their links are in flight. *)
Lemma detached_ok gone att m c :
  call_ok gone m CallIdle -> att ⊆ attachments m ->
  (forall l, in_flight c l <->
     exists i d, owned (attachments m) i d l /\ att !! i = None) ->
  (forall i l, c <> MidAttach i l) -> (forall ls, c = ClosingAll ls -> att = ∅) ->
  call_ok gone (MkManager att (kernel m)) c.
Proof.
  intros Hm Hsub Hfl Hmid Hall.
  assert (forall i d l, owned att i d l -> owned (attachments m) i d l) as Ho
    by (intros i d l (a&Ha&Hs); exists a; split; [by eapply lookup_weaken|done]).
  split; simpl; try done.
  - intros i a d Ha. apply (co_sides _ _ _ Hm). by eapply lookup_weaken.
  - intros i l l' H1%Ho H2%Ho. by apply (co_pair _ _ _ Hm i).
  - intros l [[]|(i&d&H)]%(co_no_leak _ _ _ Hm).
    destruct (att !! i) as [a|] eqn:Ha; [right|left; apply Hfl; eauto].
    exists i, d, a. split; [done|]. destruct H as (a'&Ha'&Hs).
    eapply lookup_weaken in Ha; [|done]. congruence.
  - intros l (i&d&H&Hn)%Hfl. exists i, d. split; [|done]. by eapply co_owned_info.
  - intros i l ->. by destruct (Hmid i l).
Qed.

Lemma elem_of_links_of a l : l ∈ links_of a <-> exists d, side d a = Some l.
Proof.
  unfold links_of. rewrite elem_of_app.
  assert (forall o, l ∈ option_list o <-> o = Some l) as E.
  { intros [l'|]; simpl; [rewrite list_elem_of_singleton; naive_solver|].
    split; [by intros ?%elem_of_nil|done]. }
  rewrite !E. split; [intros [?|?]; [by exists DirIngress|by exists DirEgress]|].
  intros [[] ?]; [by left|by right].
Qed.

Lemma begin_detach_ok gone i m :
  call_ok gone m CallIdle -> call_ok gone (begin_detach i m).1 (begin_detach i m).2.
Proof.
  intros Hm. unfold begin_detach. destruct (attachments m !! i) as [a|] eqn:Ha; [|done].
  apply detached_ok; try done; [apply delete_subseteq|]. intros l. simpl.
  rewrite elem_of_links_of. setoid_rewrite lookup_delete_None. split.
  - intros [d Hd]. exists i, d. split; [by exists a|by left].
  - intros (j&d&(b&Hb&Hs)&[<-|Hn]); [|congruence]. exists d. congruence.
Qed.

Lemma begin_detach_all_ok range gone m :
  (forall a, range a ≡ₚ map_to_list a) -> call_ok gone m CallIdle ->
  call_ok gone (begin_detach_all range m).1 (begin_detach_all range m).2.
Proof.
  intros Hrange Hm. unfold begin_detach_all. simpl.
  apply detached_ok; try done; [apply map_empty_subseteq|]. intros l. simpl.
  rewrite list_elem_of_In, in_concat. setoid_rewrite in_map_iff. split.
  - intros (ls&((i&a)&<-&Hin)&Hl). rewrite <- !list_elem_of_In in *.
    rewrite Hrange in Hin. apply elem_of_map_to_list in Hin. apply elem_of_links_of in Hl as [d ?].
    exists i, d. split; [by exists a|apply lookup_empty].
  - intros (i&d&(a&Ha&Hs)&_). exists (links_of a). split.
    + exists (i, a). split; [done|]. apply list_elem_of_In. rewrite Hrange. by apply elem_of_map_to_list.
    + apply list_elem_of_In, elem_of_links_of. by exists d.
Qed.

Lemma attach_on_ok gone k i d r k' :
  attach_on gone k i d = (r, k') ->
  match r with
  | Some l => (i ∉ gone) /\ link_info k !! l = None /\
              link_info k' = <[l := (i, d)]> (link_info k) /\ live k' = {[ l ]} ∪ live k
  | None => link_info k' = link_info k /\ live k' = live k
  end.
Proof.
  unfold attach_on. case_decide; [by intros [= <- <-]|].
  intros E%attach_tcx_ok. by destruct r.
Qed.

(** A failed attach changes nothing that the invariant is about. *)
Lemma call_ok_ext gone m c c' k :
  link_info k = link_info (kernel m) -> live k = live (kernel m) ->
  (forall l, in_flight c' l <-> in_flight c l) -> (forall i l, c' <> MidAttach i l) ->
  (forall ls, c' = ClosingAll ls -> attachments m = ∅) ->
  call_ok gone m c -> call_ok gone (MkManager (attachments m) k) c'.
Proof.
  intros Hi Hl Hf Hmid Hall []. split; simpl; rewrite ?Hi, ?Hl; try done.
  - intros l Hx. rewrite Hf. by apply co_no_leak0.
  - intros l. rewrite Hf. apply co_flight0.
  - intros i l ->. by destruct (Hmid i l).
Qed.

Lemma call_ok_returned gone m c :
  call_ok gone m c -> (forall l, in_flight c l -> False) -> call_ok gone m CallIdle.
Proof.
  intros Hm Hc. destruct m as [att k]. apply (call_ok_ext gone (MkManager att k) c); try done.
  intros l. split; [done|apply Hc].
Qed.

(** A new link is none of the links of the map. *)
Lemma fresh_link gone m c l i d k :
  call_ok gone m c -> link_info (kernel m) !! l = None ->
  link_info k = <[l := (i, d)]> (link_info (kernel m)) -> live k = {[ l ]} ∪ live (kernel m) ->
  (forall j a e, attachments m !! j = Some a ->
     exists x, side e a = Some x /\ link_info k !! x = Some (j, e)) /\
  (forall j x y, owned (attachments m) j DirIngress x -> owned (attachments m) j DirEgress y ->
     x ∈ live k <-> y ∈ live k).
Proof.
  intros Hm Hfresh Hinfo Hlive. split.
  - intros j a e Ha. destruct (co_sides _ _ _ Hm j a e Ha) as (x&?&Hx). exists x.
    split; [done|]. rewrite Hinfo, lookup_insert_ne by congruence. done.
  - intros j x y Hx Hy. rewrite Hlive.
    pose proof (co_owned_info _ _ _ _ _ _ Hm Hx). pose proof (co_owned_info _ _ _ _ _ _ Hm Hy).
    assert (x <> l /\ y <> l) as [??] by (split; congruence).
    pose proof (co_pair _ _ _ Hm _ _ _ Hx Hy). set_solver.
Qed.

Lemma begin_attach_ok gone i m :
  call_ok gone m CallIdle -> call_ok gone (begin_attach gone i m).1 (begin_attach gone i m).2.
Proof.
  intros Hm. unfold begin_attach. destruct (i <=? 0); [done|].
  destruct (attachments m !! i) as [a|] eqn:Hi; [done|].
  destruct (attach_on gone (kernel m) i DirIngress) as [[l|] k] eqn:E; apply attach_on_ok in E; simpl.
  - destruct E as (Hgone&Hfresh&Hinfo&Hlive).
    destruct (fresh_link _ _ _ _ _ _ _ Hm Hfresh Hinfo Hlive) as [Hsides Hpair].
    split; simpl; rewrite ?Hinfo, ?Hlive; try done.
    + rewrite <- Hinfo. intros j a d. apply Hsides.
    + rewrite <- Hlive. apply Hpair.
    + intros x [->%elem_of_singleton|Hx]%elem_of_union; [by left|].
      apply (co_no_leak _ _ _ Hm) in Hx as [[]|?]. by right.
    + intros x ->. exists i, DirIngress. by rewrite lookup_insert_eq.
    + intros j x [= <- <-]. rewrite lookup_insert_eq. set_solver.
  - destruct E as [? ?]. by apply (call_ok_ext gone m CallIdle).
Qed.

Lemma attach_egress_ok gone i l m :
  call_ok gone m (MidAttach i l) ->
  call_ok gone (attach_egress gone i l m).1 (attach_egress gone i l m).2.
Proof.
  intros Hm. unfold attach_egress.
  destruct (attach_on gone (kernel m) i DirEgress) as [[l'|] k] eqn:E; apply attach_on_ok in E; simpl.
  - destruct E as (Hgone&Hfresh&Hinfo&Hlive).
    destruct (fresh_link _ _ _ _ _ _ _ Hm Hfresh Hinfo Hlive) as [Hsides Hpair].
    destruct (co_mid _ _ _ Hm _ _ eq_refl) as [Hli Hll]. specialize (Hll Hgone).
    destruct (co_flight _ _ _ Hm l eq_refl) as (i'&d'&Hli'&Hnone).
    assert (i' = i) as -> by congruence. assert (l <> l') as Hne by congruence.
    split; simpl; try done.
    + intros j a d [[<- <-]|[Hj Ha]]%lookup_insert_Some; [|by apply Hsides].
      rewrite Hinfo. destruct d; simpl; eexists; (split; [done|]); [|by rewrite lookup_insert_eq].
      by rewrite lookup_insert_ne.
    + intros j x y (a&Ha&Hx) (b&Hb&Hy).
      apply lookup_insert_Some in Ha as [[<- <-]|[Hj Ha]], Hb as [[? <-]|[? Hb]]; try done.
      * simpl in *. simplify_eq. rewrite Hlive. set_solver.
      * apply (Hpair j); [by exists a|by exists b].
    + rewrite Hlive. intros x Hx. right.
      assert (x = l' \/ x = l \/ x <> l /\ x ∈ live (kernel m)) as [->|[->|[Hxl Hxk]]]
        by (destruct (decide (x = l)); set_solver).
      * exists i, DirEgress. eexists. split; [by rewrite lookup_insert_eq|done].
      * exists i, DirIngress. eexists. split; [by rewrite lookup_insert_eq|done].
      * apply (co_no_leak _ _ _ Hm) in Hxk as [?|(j&d&a&Ha&Hs)]; [done|].
        exists j, d, a. by rewrite lookup_insert_ne by congruence.
  - destruct E as [? ?]. by apply (call_ok_ext gone m (MidAttach i l)).
Qed.

Lemma call_next_ok gone c m :
  call_ok gone m c -> call_ok gone (call_next gone c m).1 (call_next gone c m).2.
Proof.
  intros Hm. destruct c as [|i l|i l|[|l ls]|[|l ls]]; simpl; [done|by apply attach_egress_ok|..].
  - by apply (close_one_ok _ _ (MidUndo i l)); auto.
  - by apply (call_ok_returned gone m (Closing [])); [|intros l ?%elem_of_nil].
  - apply (close_one_ok _ _ (Closing (l :: ls))); simpl; try done; [by left|by right|].
    intros x [->|?]%elem_of_cons; auto.
  - by apply (call_ok_returned gone m (ClosingAll [])); [|intros l ?%elem_of_nil].
  - apply (close_one_ok _ _ (ClosingAll (l :: ls))); simpl; try done; [by left|by right| |].
    + intros x [->|?]%elem_of_cons; auto.
    + intros ls' _. by apply (co_all _ _ _ Hm (l :: ls)).
Qed.
End invariant.
