(* ===== verification/Monitor.v ===== *)
(** * [internal/netlinkmon/monitor.go]: veth events from netlink

    What [handle] and the resync goroutine do to the table of known interfaces
    and which event they go on to emit.  The updates are the netlink library's.
    The goroutines and the channel are in [Controller]. *)

From stdpp Require Import strings.
From S2P Require Import Prelude.
From S2P Require Import GoStrings.
From S2P Require Config.

(** ** Data *)

(** [netlink.Link] as far as the monitor reads it: [Type()] and [Attrs()]. *)
Record LinkAttrs := MkAttrs { Index : Z; LinkName : gostring }.
Record Link := MkLink { LinkType : gostring; Attrs : option LinkAttrs }.

Definition RTM_NEWLINK : Z := 16.
Definition RTM_DELLINK : Z := 17.

(** [netlink.LinkUpdate]: the header's type and the link, if any. *)
Record LinkUpdate := MkUpdate { HeaderType : Z; UpdateLink : option Link }.

Inductive EventType := EventAdd | EventRemove.

Record Event := MkEvent { EvType : EventType; EvIfindex : Z; EvName : gostring }.

Definition veth : gostring := Config.lit "veth"%string.

(** [m.known]. *)
Abbreviation known_map := (gmap Z gostring).

(** ** Operations *)

(** The test-and-set both goroutines do under [mu] for a veth: an interface that
    is not known yet becomes known, and an Add is to be emitted. *)
Definition learn (attrs : LinkAttrs) (known : known_map) : known_map * option Event :=
  match known !! Index attrs with
  | Some _ => (known, None)
  | None => (<[Index attrs := LinkName attrs]> known,
             Some (MkEvent EventAdd (Index attrs) (LinkName attrs)))
  end.

(** [handle], up to the emission. *)
Definition handle_update (u : LinkUpdate) (known : known_map) : known_map * option Event :=
  match UpdateLink u with
  | None => (known, None)
  | Some l =>
  match Attrs l with
  | None => (known, None)
  | Some attrs =>
      let ifindex := Index attrs in
      if HeaderType u =? RTM_NEWLINK then
        if negb (bool_decide (LinkType l = veth)) then (known, None)
        else learn attrs known
      else if HeaderType u =? RTM_DELLINK then
        match known !! ifindex with
        | None => (known, None)
        | Some name => (delete ifindex known, Some (MkEvent EventRemove ifindex name))
        end
      else (known, None)
  end end.

(** One link of the resync loop's list. *)
Definition resync_link (l : Link) (known : known_map) : known_map * option Event :=
  if negb (bool_decide (LinkType l = veth)) then (known, None)
  else match Attrs l with
       | None => (known, None)
       | Some attrs => learn attrs known
       end.

(** [KnownIfindexes], for an order of iteration. *)
Definition KnownIfindexes (range : known_map -> list (Z * gostring)) (known : known_map) : list Z :=
  map fst (range known).

(** ** Specification

    An interface is present when some update announced it as a veth and no later
    update removed it. *)

Definition announces (i : Z) (u : LinkUpdate) : Prop :=
  HeaderType u = RTM_NEWLINK /\
  exists l a, UpdateLink u = Some l /\ Attrs l = Some a /\ LinkType l = veth /\ Index a = i.

Definition withdraws (i : Z) (u : LinkUpdate) : Prop :=
  HeaderType u = RTM_DELLINK /\
  exists l a, UpdateLink u = Some l /\ Attrs l = Some a /\ Index a = i.

Definition present (i : Z) (us : list LinkUpdate) : Prop :=
  exists us1 u us2, us = us1 ++ u :: us2 /\ announces i u /\
    Forall (fun v => ~ withdraws i v) us2.

Lemma present_nil i : ~ present i [].
Proof. intros (us1&u&us2&E&_). by destruct us1. Qed.

Lemma present_snoc i us u :
  present i (us ++ [u]) <-> announces i u \/ (present i us /\ ~ withdraws i u).
Proof.
  split.
  - intros (us1&v&us2&E&Ha&Hf). destruct us2 as [|w us2 _] using rev_ind.
    + apply app_inj_tail in E as [-> ->]. by left.
    + rewrite app_comm_cons, app_assoc in E. apply app_inj_tail in E as [-> ->].
      apply Forall_app in Hf as [Hf [Hw _]%List.Forall_cons_iff]. right. split; [|exact Hw].
      by exists us1, v, us2.
  - intros [Ha|[(us1&v&us2&->&Ha&Hf) Hw]].
    + exists us, u, []. split_and!; [done|done|constructor].
    + exists us1, v, (us2 ++ [u]). rewrite <- app_assoc. split_and!; [done|done|].
      apply Forall_app. split; [done|]. by repeat constructor.
Qed.

(** The attributes of an update's link. *)
Definition update_attrs (u : LinkUpdate) : option (gostring * LinkAttrs) :=
  l ← UpdateLink u; a ← Attrs l; Some (LinkType l, a).

Lemma announces_attrs i u :
  announces i u <-> HeaderType u = RTM_NEWLINK /\
    exists a, update_attrs u = Some (veth, a) /\ Index a = i.
Proof.
  unfold announces, update_attrs. split.
  - intros (Hh&l&a&->&Ha&Ht&Hi). split; [done|]. simpl. rewrite Ha. simpl. exists a. by rewrite Ht.
  - intros (Hh&a&E&Hi). split; [done|]. destruct (UpdateLink u) as [l|]; [|done]. simpl in E.
    destruct (Attrs l) as [a'|] eqn:Ha; [|done]. injection E as Ht ->. by exists l, a.
Qed.

Lemma withdraws_attrs i u :
  withdraws i u <-> HeaderType u = RTM_DELLINK /\
    exists t a, update_attrs u = Some (t, a) /\ Index a = i.
Proof.
  unfold withdraws, update_attrs. split.
  - intros (Hh&l&a&->&Ha&Hi). split; [done|]. simpl. rewrite Ha. simpl. by exists (LinkType l), a.
  - intros (Hh&t&a&E&Hi). split; [done|]. destruct (UpdateLink u) as [l|]; [|done]. simpl in E.
    destruct (Attrs l) as [a'|] eqn:Ha; [|done]. injection E as _ ->. by exists l, a.
Qed.

Lemma handle_update_attrs u known :
  handle_update u known =
    match update_attrs u with
    | None => (known, None)
    | Some (t, a) =>
        if HeaderType u =? RTM_NEWLINK then
          if negb (bool_decide (t = veth)) then (known, None) else learn a known
        else if HeaderType u =? RTM_DELLINK then
          match known !! Index a with
          | None => (known, None)
          | Some name => (delete (Index a) known, Some (MkEvent EventRemove (Index a) name))
          end
        else (known, None)
    end.
Proof.
  unfold handle_update, update_attrs. destruct (UpdateLink u) as [l|]; [|done]. simpl.
  by destruct (Attrs l).
Qed.

(** What an event says about [i], [before] being what was so before it. *)
Definition event_effect (ev : option Event) (i : Z) (before : Prop) : Prop :=
  match ev with
  | Some e => if decide (EvIfindex e = i) then EvType e = EventAdd else before
  | None => before
  end.

(** [learn] and its event agree. *)
Lemma learn_spec a known known' ev i :
  learn a known = (known', ev) ->
  (is_Some (known' !! i) <-> Index a = i \/ is_Some (known !! i)) /\
  (is_Some (known' !! i) <-> event_effect ev i (is_Some (known !! i))).
Proof.
  unfold learn. destruct (known !! Index a) eqn:Hk; intros [= <- <-]; unfold event_effect; cbn [EvIfindex EvType].
  - split; [|done]. split; [by right|]. intros [<-|?]; [by eexists|done].
  - case_decide as Hi; [subst; rewrite lookup_insert_eq|rewrite lookup_insert_ne by done];
      naive_solver.
Qed.

(** The new table, and the event, in terms of what the update says. *)
Lemma handle_update_spec u known known' ev i :
  handle_update u known = (known', ev) ->
  (is_Some (known' !! i) <-> announces i u \/ (is_Some (known !! i) /\ ~ withdraws i u)) /\
  (is_Some (known' !! i) <-> event_effect ev i (is_Some (known !! i))).
Proof.
  rewrite handle_update_attrs, announces_attrs, withdraws_attrs.
  destruct (update_attrs u) as [[t a]|]; [|intros [= <- <-]; naive_solver].
  destruct (Z.eqb_spec (HeaderType u) RTM_NEWLINK) as [->|E].
  - assert (RTM_NEWLINK <> RTM_DELLINK) by done. case_bool_decide as Hv; simpl.
    + intros Hl. apply (learn_spec _ _ _ _ i) in Hl as [-> He]. split; [naive_solver|].
      by rewrite <- He.
    + intros [= <- <-]. naive_solver.
  - destruct (Z.eqb_spec (HeaderType u) RTM_DELLINK) as [->|E'];
      [|intros [= <- <-]; naive_solver].
    destruct (known !! Index a) eqn:Hk; intros [= <- <-]; unfold event_effect; cbn [EvIfindex EvType].
    + case_decide as Hi; [subst; rewrite lookup_delete_eq|rewrite lookup_delete_ne by done].
      * split; [|by split; [intros [? ?]|]]. split; [by intros [? ?]|]. naive_solver.
      * naive_solver.
    + split; [|done]. split; [|naive_solver]. intros Hi. right. split; [done|].
      intros (_&?&?&[= <- <-]&<-). rewrite Hk in Hi. by destruct Hi.
Qed.
