(* ===== verification/Controller.v ===== *)
(** * [internal/controller/controller.go] and the goroutines of the monitor

    The controller's handler over the attach manager, and the three goroutines
    that lead from netlink updates to attachments (the monitor's main loop, its
    resync loop, the controller's loop) as a step relation over the shared table
    of known interfaces and the event channel.  A goroutine that has an event to
    emit is in a state of its own, so that every order of the sends is a run; a
    call on the manager is one function, as its only caller sees it.  Then
    the controller's construction and its forwarding methods. *)

From stdpp Require Import strings.
From S2P Require Import Prelude.
From S2P Require Import GoStrings.
From S2P Require Import Attach.
From S2P Require Import Monitor.
From S2P Require Import Health.

(** The capacity of the event channel. *)
Definition EVENTS_CAP : nat := 32.

(** The monitor's main loop: in its select; sending an event; returned from the
    loop and waiting for the resync goroutine; the channel closed. *)
Inductive main_state := MainWait | MainEmit (ev : Event) | MainStop | MainClosed.

(** The resync goroutine: between two rounds; going through a list of links;
    sending an event; returned. *)
Inductive resync_state :=
  | ResyncWait | ResyncLinks (links : list Link) | ResyncEmit (ev : Event) (links : list Link)
  | ResyncDone.

Section controller.
Context {T : TcxLinks}.
Context (range : gmap Z Attachment -> list (Z * Attachment)).

(** [Controller.handle]; a failed attach or detach is only logged. *)
Definition handle (ev : Event) (m : AttachManager) : AttachManager :=
  match EvType ev with
  | EventAdd => (Attach (EvIfindex ev) m).2
  | EventRemove => (Detach (EvIfindex ev) m).2
  end.

(** How [Controller.Run] ends: when it sees the cancelled context, or the closed
    channel; in both cases it detaches from every interface. *)
Inductive run_error :=
  | DetachAllFailed (errs : list (Z * list direction))
  | MonitorExited (errs : list (Z * list direction)).

Definition detachAll (m : AttachManager) : option run_error * AttachManager :=
  (match (DetachAll range m).1 with [] => None | errs => Some (DetachAllFailed errs) end,
   (DetachAll range m).2).

Definition run_exit (channel_closed cancelled : bool) (m : AttachManager)
  : option run_error * AttachManager :=
  if channel_closed && negb cancelled
  then (Some (MonitorExited (DetachAll range m).1), (DetachAll range m).2)
  else detachAll m.

Record sys := Sys {
  seen : list LinkUpdate;      (* updates the main loop has received *)
  known : known_map;
  main : main_state;
  resync : resync_state;
  events : list Event;         (* the buffered channel *)
  interrupted : bool;          (* dumpInterrupted *)
  cancelled : bool;            (* ctx.Done() is closed *)
  ctl_done : bool;             (* the controller's Run has returned *)
  mgr : AttachManager
}.

Definition sys_init (k : tcx) : sys :=
  Sys [] ∅ MainWait ResyncWait [] false false false (NewAttachManager k).

Definition emit_main (ev : option Event) : main_state :=
  match ev with Some ev => MainEmit ev | None => MainWait end.
Definition emit_resync (ev : option Event) (links : list Link) : resync_state :=
  match ev with Some ev => ResyncEmit ev links | None => ResyncLinks links end.

(** [interrupts]: whether the initial dump may be reported as interrupted. *)
Inductive sys_step (interrupts : bool) : sys -> sys -> Prop :=
  (* Start's loop *)
  | main_update s_ k r es i c d m u k' ev :
      handle_update u k = (k', ev) ->
      sys_step interrupts (Sys s_ k MainWait r es i c d m)
        (Sys (s_ ++ [u]) k' (emit_main ev) r es i c d m)
  | main_send s_ k r es i c d m ev :
      (length es < EVENTS_CAP)%nat ->
      sys_step interrupts (Sys s_ k (MainEmit ev) r es i c d m)
        (Sys s_ k MainWait r (es ++ [ev]) i c d m)
  | main_cancel s_ k mn r es i d m :
      mn = MainWait \/ (exists ev, mn = MainEmit ev) ->
      sys_step interrupts (Sys s_ k mn r es i true d m) (Sys s_ k MainStop r es i true d m)
  | main_failed s_ k r es i c d m :       (* the updates channel was closed *)
      sys_step interrupts (Sys s_ k MainWait r es i c d m) (Sys s_ k MainStop r es i c d m)
  | main_close s_ k es i c d m :          (* <-resyncDone, then close(m.events) *)
      sys_step interrupts (Sys s_ k MainStop ResyncDone es i c d m)
        (Sys s_ k MainClosed ResyncDone es i c d m)
  (* the error callback *)
  | dump_interrupted s_ k mn r es i c d m :
      interrupts = true ->
      sys_step interrupts (Sys s_ k mn r es i c d m) (Sys s_ k mn r es true c d m)
  (* the resync goroutine *)
  | resync_list s_ k mn es c d m links :
      sys_step interrupts (Sys s_ k mn ResyncWait es true c d m)
        (Sys s_ k mn (ResyncLinks links) es false c d m)
  | resync_next s_ k mn es i c d m l links k' ev :
      resync_link l k = (k', ev) ->
      sys_step interrupts (Sys s_ k mn (ResyncLinks (l :: links)) es i c d m)
        (Sys s_ k' mn (emit_resync ev links) es i c d m)
  | resync_end s_ k mn es i c d m :
      sys_step interrupts (Sys s_ k mn (ResyncLinks []) es i c d m)
        (Sys s_ k mn ResyncWait es i c d m)
  | resync_send s_ k mn es i c d m ev links :
      (length es < EVENTS_CAP)%nat ->
      sys_step interrupts (Sys s_ k mn (ResyncEmit ev links) es i c d m)
        (Sys s_ k mn (ResyncLinks links) (es ++ [ev]) i c d m)
  | resync_stop s_ k mn r es i c d m :
      r = ResyncWait \/ (exists ev links, r = ResyncEmit ev links) ->
      c = true \/ mn = MainStop ->
      sys_step interrupts (Sys s_ k mn r es i c d m) (Sys s_ k mn ResyncDone es i c d m)
  (* the controller's loop *)
  | ctl_event s_ k mn r ev es i c m :
      sys_step interrupts (Sys s_ k mn r (ev :: es) i c false m)
        (Sys s_ k mn r es i c false (handle ev m))
  | ctl_cancel s_ k mn r es i m :
      sys_step interrupts (Sys s_ k mn r es i true false m)
        (Sys s_ k mn r es i true true (run_exit false true m).2)
  | ctl_closed s_ k r i c m :
      sys_step interrupts (Sys s_ k MainClosed r [] i c false m)
        (Sys s_ k MainClosed r [] i c true (run_exit true c m).2)
  (* the signal; the kernel *)
  | sys_cancel s_ k mn r es i c d m :
      sys_step interrupts (Sys s_ k mn r es i c d m) (Sys s_ k mn r es i true d m)
  | sys_iface_gone s_ k mn r es i c d m j kt :
      iface_gone j (kernel m) kt ->
      sys_step interrupts (Sys s_ k mn r es i c d m)
        (Sys s_ k mn r es i c d (MkManager (attachments m) kt)).
End controller.

(** ** The controller's other methods *)

Section facade.
Context {T : TcxLinks} {B : BypassSetter} {W : Type}.

Record controller := MkController { c_loader : setter; c_mgr : AttachManager; c_monitor : W }.

Inductive options_error := LoaderRequired | ManagerRequired | MonitorRequired.

(** [New]; an option that is missing is a nil pointer. *)
Definition NewController (loader : option setter) (manager : option AttachManager)
    (monitor : option W) : options_error + controller :=
  match loader, manager, monitor with
  | None, _, _ => inl LoaderRequired
  | _, None, _ => inl ManagerRequired
  | _, _, None => inl MonitorRequired
  | Some l, Some m, Some w => inr (MkController l m w)
  end.

(** [SetBypass] forwards to the loader; the error is wrapped. *)
Definition ControllerSetBypass (on : bool) (c : controller) : bool * controller :=
  let '(ok, l) := set_bypass on (c_loader c) in (ok, MkController l (c_mgr c) (c_monitor c)).

Definition ControllerAttachedCount (c : controller) : Z := AttachedCount (c_mgr c).
End facade.

(** ** The controller's attachments are the manager's runs *)

Lemma run_exit_detaches {T : TcxLinks} range closed cancelled m :
  (run_exit range closed cancelled m).2 = (DetachAll range m).2.
Proof. unfold run_exit. by destruct (_ && _). Qed.

Section manager.
Context {T : TcxLinks} {TO : TcxLinksOk T} {TU : TcxLinksUp T}.
Context (range : gmap Z Attachment -> list (Z * Attachment)).
Context (Hrange : forall m, range m ≡ₚ map_to_list m).

Lemma handle_step ev m : manager_step range m (handle ev m).
Proof. unfold handle. destruct (EvType ev); constructor. Qed.

(** What holds of the manager in every run, and what is left when the controller
    has returned. *)
Record sys_ok (s : sys) : Prop := {
  sys_mgr : manager_ok (mgr s);
  sys_done : ctl_done s = true -> attachments (mgr s) = ∅ /\ live (kernel (mgr s)) = ∅;
  sys_closed : main s = MainClosed -> resync s = ResyncDone
}.

Lemma detach_all_done m :
  manager_ok m -> attachments (DetachAll range m).2 = ∅ /\ live (kernel (DetachAll range m).2) = ∅.
Proof.
  intros Hm. split; [|by apply detach_all_empty].
  unfold DetachAll. by destruct (close_all _ _).
Qed.

Lemma sys_step_manager b s s' :
  sys_step range b s s' -> mgr s' = mgr s \/ manager_step range (mgr s) (mgr s').
Proof.
  intros Hs; destruct Hs; cbn [mgr]; rewrite ?run_exit_detaches; try (by left); right;
    first [apply handle_step|by eapply step_iface_gone|constructor].
Qed.

Lemma sys_step_ok b s s' : sys_ok s -> sys_step range b s s' -> sys_ok s'.
Proof.
  intros [Hm Hd Hc] Hs. split.
  - destruct (sys_step_manager _ _ _ Hs) as [->|?]; [done|]. by eapply manager_step_ok.
  - destruct Hs; cbn [mgr] in *; rewrite ?run_exit_detaches; simpl in *; try done;
      try (intros _; by apply detach_all_done).
    intros E. destruct (Hd E) as [? Hl]. split; [done|].
    destruct H as [_ Hlive]. apply set_eq. intros l. rewrite Hlive, Hl. set_solver.
  - destruct Hs; simpl in *; try done; try (by destruct ev); intros E; specialize (Hc E); try done.
Qed.

Lemma reachable_sys_ok b k s :
  live k = ∅ -> rtc (sys_step range b) (sys_init k) s -> sys_ok s.
Proof.
  intros Hk Hr. assert (sys_ok (sys_init k)) as H0 by (split; [by apply new_manager_ok|done..]).
  induction Hr; [done|]. eauto using sys_step_ok.
Qed.
End manager.

(** Even when links do not close: the map is empty once the controller has
    returned. *)
Lemma reachable_done_empty {T : TcxLinks} range b k s :
  rtc (sys_step range b) (sys_init k) s -> ctl_done s = true -> attachments (mgr s) = ∅.
Proof.
  assert (forall m, attachments (DetachAll range m).2 = ∅) as Hall
    by (intros m; unfold DetachAll; by destruct (close_all _ _)).
  intros Hr. remember (sys_init k) as s0 eqn:E0.
  assert (ctl_done s0 = true -> attachments (mgr s0) = ∅) as H0 by by rewrite E0.
  clear E0. induction Hr as [|x y z Hs _ IH]; [done|]. apply IH.
  destruct Hs; simpl in *; try done; intros; by rewrite run_exit_detaches.
Qed.

(** ** The attachments follow the updates *)

(** Attaching to an existing interface does not fail. *)
Class TcxAttachUp (T : TcxLinks) :=
  attach_tcx_up k i d : 0 < i -> is_Some (attach_tcx k i d).1.

(** What events still to be handled make of "[i] is attached". *)
Definition effect (evs : list Event) (i : Z) (before : Prop) : Prop :=
  foldl (fun P ev => event_effect (Some ev) i P) before evs.

Lemma effect_snoc evs ev i P : effect (evs ++ [ev]) i P = event_effect (Some ev) i (effect evs i P).
Proof. unfold effect. by rewrite foldl_app. Qed.

Lemma event_effect_mono ev i (P Q : Prop) : (P -> Q) -> event_effect ev i P -> event_effect ev i Q.
Proof. intros HPQ. destruct ev; simpl; [case_decide; auto|auto]. Qed.

Lemma effect_mono evs i (P Q : Prop) : (P -> Q) -> effect evs i P -> effect evs i Q.
Proof.
  revert P Q. induction evs as [|ev evs IH]; intros P Q HPQ; [exact HPQ|].
  apply IH. by apply event_effect_mono.
Qed.

Section tracking.
Context {T : TcxLinks} (range : gmap Z Attachment -> list (Z * Attachment)).

Definition attached (s : sys) (i : Z) : Prop := is_Some (attachments (mgr s) !! i).

(** The events on their way, in the order the controller will see them. *)
Definition pending (s : sys) : list Event :=
  events s ++ match main s with MainEmit ev => [ev] | _ => [] end.

Lemma handle_attached ev m i :
  is_Some (attachments (handle ev m) !! i) ->
  event_effect (Some ev) i (is_Some (attachments m !! i)).
Proof.
  unfold handle, event_effect. destruct ev as [t j name]. simpl. destruct t.
  - case_decide as Hj; [done|]. unfold Attach. destruct (j <=? 0); [done|].
    destruct (attachments m !! j); [done|]. destruct (attach_tcx _ _ _) as [[l|] k]; [|done].
    destruct (attach_tcx _ _ _) as [[l'|] k']; simpl; [by rewrite lookup_insert_ne|].
    by destruct (close_link _ _).
  - unfold Detach. destruct (attachments m !! j) as [a|] eqn:Ha.
    + destruct (Close _ _). simpl. case_decide as Hj.
      * subst. rewrite lookup_delete_eq. by intros [? ?].
      * by rewrite lookup_delete_ne.
    + simpl. case_decide as Hj; [|done]. subst. rewrite Ha. by intros [? ?].
Qed.

Lemma handle_attaches {TA : TcxAttachUp T} ev m i :
  0 < i -> event_effect (Some ev) i (is_Some (attachments m !! i)) ->
  is_Some (attachments (handle ev m) !! i).
Proof.
  unfold handle, event_effect. destruct ev as [t j name]. simpl. intros Hi. case_decide as Hj.
  - subst j. intros ->. unfold Attach. rewrite (proj2 (Z.leb_gt _ _)) by done.
    destruct (attachments m !! i) eqn:Ha; [by simpl; rewrite ?Ha; eexists|].
    pose proof (attach_tcx_up (kernel m) i DirIngress Hi) as H1.
    destruct (attach_tcx (kernel m) _ _) as [[l|] k]; [|by destruct H1].
    pose proof (attach_tcx_up k i DirEgress Hi) as H2.
    destruct (attach_tcx k _ _) as [[l'|] k']; [|by destruct H2]. simpl.
    by rewrite lookup_insert_eq.
  - intros Hm. destruct t.
    + unfold Attach. destruct (j <=? 0); [done|]. destruct (attachments m !! j); [done|].
      destruct (attach_tcx _ _ _) as [[l|] k]; [|done].
      destruct (attach_tcx _ _ _) as [[l'|] k']; simpl; [by rewrite lookup_insert_ne|].
      by destruct (close_link _ _).
    + unfold Detach. destruct (attachments m !! j) as [a|]; [|done]. destruct (Close _ _). simpl.
      by rewrite lookup_delete_ne.
Qed.

(** While nothing has been cancelled and no dump was interrupted. *)
Record tracks (s : sys) : Prop := {
  tr_resync : interrupted s = false /\ (resync s = ResyncWait \/ resync s = ResyncDone);
  tr_known i : is_Some (known s !! i) <-> present i (seen s);
  tr_sound i : cancelled s = false -> ctl_done s = false ->
    effect (pending s) i (attached s i) -> is_Some (known s !! i);
  tr_complete i : TcxAttachUp T -> 0 < i -> cancelled s = false -> ctl_done s = false ->
    is_Some (known s !! i) -> effect (pending s) i (attached s i)
}.

Lemma tracks_init k : tracks (sys_init k).
Proof.
  split; simpl; [by auto| |by intros i _ _ [? ?]|by intros i _ _ _ _ [? ?]].
  intros i. split; [by intros [? ?]|]. by intros ?%present_nil.
Qed.

(** An update: the event sent for it accounts for the change of the table. *)
Lemma tracks_update s_ k r es i c d m u k' ev :
  handle_update u k = (k', ev) -> tracks (Sys s_ k MainWait r es i c d m) ->
  tracks (Sys (s_ ++ [u]) k' (emit_main ev) r es i c d m).
Proof.
  intros Hu [Hr Hk Hs Hc].
  assert (forall j P, effect (pending (Sys (s_ ++ [u]) k' (emit_main ev) r es i c d m)) j P =
    event_effect ev j (effect es j P)) as Hpend.
  { intros j P. unfold pending. destruct ev as [ev|]; simpl; [apply effect_snoc|].
    by rewrite app_nil_r. }
  unfold pending in Hs, Hc. simpl in Hs, Hc. rewrite app_nil_r in Hs, Hc.
  split; simpl; [done| | |].
  - intros j. rewrite present_snoc. simpl in Hk. rewrite <- Hk.
    by apply (handle_update_spec _ _ _ _ j Hu).
  - intros j H1 H2. rewrite Hpend, (proj2 (handle_update_spec _ _ _ _ j Hu)).
    apply event_effect_mono. by apply Hs.
  - intros j HT Hj H1 H2. rewrite Hpend, (proj2 (handle_update_spec _ _ _ _ j Hu)).
    apply event_effect_mono. by apply Hc.
Qed.

(** An event handled: the manager is where the rest of the events start. *)
Lemma tracks_event s_ k mn r ev es i c m :
  tracks (Sys s_ k mn r (ev :: es) i c false m) ->
  tracks (Sys s_ k mn r es i c false (handle ev m)).
Proof.
  intros [Hr Hk Hs Hc]. split; simpl; [done|done| |].
  - intros j H1 H2 He. apply (Hs j H1 H2). unfold pending, attached in *. simpl in *.
    revert He. apply effect_mono, handle_attached.
  - intros j HT Hj H1 H2 He. specialize (Hc j HT Hj H1 H2 He).
    unfold pending, attached in *. simpl in *. revert Hc.
    apply effect_mono. by apply handle_attaches.
Qed.

Lemma tracks_step s s' : tracks s -> sys_step range false s s' -> tracks s'.
Proof.
  intros Ht Hs. destruct Hs; try (by apply tracks_event); try (by eapply tracks_update);
    destruct Ht as [[Hi Hr] Hk Hsd Hcm]; simpl in *; try done;
    try (by destruct Hr); try (by split; simpl; try done; auto).
  split; simpl; try done; intros j; unfold pending; simpl; rewrite app_nil_r; auto.
Qed.

Lemma reachable_tracks k s : rtc (sys_step range false) (sys_init k) s -> tracks s.
Proof.
  intros Hr. pose proof (tracks_init k) as H0. induction Hr; [done|]. eauto using tracks_step.
Qed.
End tracking.

Section theorems.
Context {T : TcxLinks} {TO : TcxLinksOk T}.
Context (range : gmap Z Attachment -> list (Z * Attachment)).

(** C12. The attachments follow the network: in every interleaving of the
    monitor's and the controller's goroutines without an interrupted dump, once
    the events are handled an attached interface is a veth that was announced
    and not withdrawn since, and when attaches do not fail every such veth is
    attached. *)
Theorem attachments_follow k s i :
  rtc (sys_step range false) (sys_init k) s ->
  cancelled s = false -> ctl_done s = false -> pending s = [] ->
  (IsAttached i (mgr s) = true -> present i (seen s)) /\
  (TcxAttachUp T -> 0 < i -> present i (seen s) -> IsAttached i (mgr s) = true).
Proof.
  intros Hr%reachable_tracks Hc Hd Hp. destruct Hr as [_ Hk Hs Hcm].
  unfold IsAttached. rewrite bool_decide_eq_true, <- Hk. split.
  - intros Ha. apply (Hs i Hc Hd). by rewrite Hp.
  - intros HT Hi Hkn. specialize (Hcm i HT Hi Hc Hd Hkn). by rewrite Hp in Hcm.
Qed.

(** When the controller's Run has returned, in whatever interleaving and
    whatever dumps were interrupted, no interface is attached and no program is
    left on any interface. *)
Theorem controller_leaves_nothing {TU : TcxLinksUp T} b k s :
  (forall m, range m ≡ₚ map_to_list m) -> live k = ∅ ->
  rtc (sys_step range b) (sys_init k) s -> ctl_done s = true ->
  AttachedCount (mgr s) = 0 /\ live (kernel (mgr s)) = ∅.
Proof.
  intros Hrange Hk Hr Hd. apply (reachable_sys_ok range Hrange) in Hr as [_ Hdone _]; [|done].
  destruct (Hdone Hd) as [Ha Hl]. split; [|done]. unfold AttachedCount. by rewrite Ha.
Qed.

(** Nothing is sent on the closed channel: when the main loop closes it the
    resync goroutine has returned. *)
Lemma no_send_after_close {TU : TcxLinksUp T} b k s s' :
  (forall m, range m ≡ₚ map_to_list m) -> live k = ∅ ->
  rtc (sys_step range b) (sys_init k) s -> main s = MainClosed -> sys_step range b s s' ->
  events s' `suffix_of` events s.
Proof.
  intros Hrange Hk Hr Hc Hs. apply (reachable_sys_ok range Hrange) in Hr as [_ _ Hres]; [|done].
  specialize (Hres Hc). destruct Hs; simpl in *; try done. by apply suffix_cons_r.
Qed.
End theorems.

(** ** Runs on a healthy kernel *)

(** As [RefTcx], with no failing attach. *)
#[local] Instance HealthyTcx : TcxLinks := {|
  link := nat;
  tcx := ref_tcx;
  attach_tcx k i d :=
    let l := fresh (dom (rt_info k)) in
    (Some l, RefTcxState (<[l := (i, d)]> (rt_info k)) ({[ l ]} ∪ rt_live k) []);
  close_link k l := (true, RefTcxState (rt_info k) (rt_live k ∖ {[ l ]}) []);
  link_info := rt_info;
  live := rt_live
|}.

#[local] Instance HealthyTcxOk : TcxLinksOk HealthyTcx.
Proof.
  split; simpl.
  - intros k i d r k' [= <- <-]. simpl. split; [|done]. apply not_elem_of_dom, is_fresh.
  - intros k l ok k' [= <- <-]. done.
Qed.

#[local] Instance HealthyTcxUp : TcxLinksUp HealthyTcx.
Proof. done. Qed.

#[local] Instance HealthyTcxAttachUp : TcxAttachUp HealthyTcx.
Proof. intros k i d _. by eexists. Qed.

Definition tcx1 : @tcx HealthyTcx := RefTcxState ∅ ∅ [].

Definition pod_veth : Link := MkLink veth (Some (MkAttrs 5 (Config.lit "eni5"%string))).
Definition new_pod : LinkUpdate := MkUpdate RTM_NEWLINK (Some pod_veth).
Definition del_pod : LinkUpdate := MkUpdate RTM_DELLINK (Some pod_veth).
Definition add_event : Event := MkEvent EventAdd 5 (Config.lit "eni5"%string).
Definition remove_event : Event := MkEvent EventRemove 5 (Config.lit "eni5"%string).
Definition pod_known : known_map := {[ 5 := Config.lit "eni5"%string ]}.

Definition pod_attached : sys :=
  Sys [new_pod] pod_known MainWait ResyncWait [] false false false
    (handle add_event (NewAttachManager tcx1)).

Lemma pod_attached_run b : rtc (sys_step map_to_list b) (sys_init tcx1) pod_attached.
Proof.
  eapply rtc_l; [apply (main_update _ _ _ _ _ _ _ _ _ _ new_pod pod_known (Some add_event));
    vm_compute; reflexivity|].
  eapply rtc_l; [apply main_send; vm_compute; lia|].
  eapply rtc_l; [apply ctl_event|]. apply rtc_refl.
Qed.

Lemma attachments_follow_witness : IsAttached 5 (mgr pod_attached) = true.
Proof.
  destruct (attachments_follow map_to_list tcx1 pod_attached 5 (pod_attached_run false))
    as [_ Hc]; [reflexivity..|].
  apply Hc; [exact HealthyTcxAttachUp|lia|].
  exists [], new_pod, []. split; [reflexivity|]. split; [|constructor].
  split; [reflexivity|]. eexists _, _. repeat split.
Defined.

(** The controller told to stop. *)
Definition pod_detached : sys :=
  Sys [new_pod] pod_known MainWait ResyncWait [] false true true
    (DetachAll map_to_list (mgr pod_attached)).2.

Lemma controller_leaves_nothing_witness :
  AttachedCount (mgr pod_detached) = 0 /\ live (kernel (mgr pod_detached)) = ∅.
Proof.
  apply (controller_leaves_nothing map_to_list false tcx1 pod_detached
    (fun _ => Permutation_refl _) eq_refl); [|reflexivity].
  etrans; [apply pod_attached_run|].
  eapply rtc_l; [apply sys_cancel|]. eapply rtc_l; [apply ctl_cancel|]. apply rtc_refl.
Defined.

(** C37. A resync can undo an attachment: the table is updated under the mutex but
    the events are sent outside it.  A veth is withdrawn; before the main loop
    has sent the Remove, the resync goroutine lists the veth, back with its
    index, and sends an Add; the Remove follows, and the update that announces
    the veth again finds it known.  The system is idle, no call has failed, the
    veth is present, and it is not attached. *)
Theorem resync_undoes_attachment :
  exists s, rtc (sys_step map_to_list true) (sys_init tcx1) s /\
    cancelled s = false /\ ctl_done s = false /\ interrupted s = false /\
    main s = MainWait /\ resync s = ResyncWait /\ events s = [] /\
    present 5 (seen s) /\ is_Some (known s !! 5) /\ IsAttached 5 (mgr s) = false.
Proof.
  eexists. split.
  - etrans; [apply pod_attached_run|].
    eapply rtc_l; [apply dump_interrupted; reflexivity|].
    eapply rtc_l; [apply (main_update _ _ _ _ _ _ _ _ _ _ del_pod ∅ (Some remove_event));
      vm_compute; reflexivity|].
    eapply rtc_l; [apply (resync_list _ _ _ _ _ _ _ _ _ [pod_veth])|].
    eapply rtc_l; [apply (resync_next _ _ _ _ _ _ _ _ _ _ pod_veth [] pod_known (Some add_event));
      vm_compute; reflexivity|].
    eapply rtc_l; [apply resync_send; vm_compute; lia|].
    eapply rtc_l; [apply resync_end|].
    eapply rtc_l; [apply main_send; vm_compute; lia|].
    eapply rtc_l; [apply ctl_event|]. eapply rtc_l; [apply ctl_event|].
    eapply rtc_l; [apply (main_update _ _ _ _ _ _ _ _ _ _ new_pod pod_known None);
      vm_compute; reflexivity|].
    apply rtc_refl.
  - split_and!; [reflexivity..| |by vm_compute; eexists|vm_compute; reflexivity].
    exists [new_pod; del_pod], new_pod, []. split; [reflexivity|]. split; [|constructor].
    split; [reflexivity|]. eexists _, _. repeat split.
Qed.
