(* ===== verification/Bindings.v ===== *)
(** * [internal/ebpf/dnsgateway_x86_bpfel.go]: the loaded objects

    The two programs and five maps the generated code loads, the names by which
    it asks for them, and how it closes them: in order, up to the first error.
    Closing a single descriptor is the cilium library's. *)

From stdpp Require Import strings.
From S2P Require Import Prelude.

(** ** Objects *)

(** The fields of [DnsGatewayPrograms] and [DnsGatewayMaps]. *)
Inductive object :=
  | DnsGatewayEgress | DnsGatewayIngress
  | ConfigMap | ConntrackMap | MetricsMap | ScratchMap | SuffixRules.

#[export] Instance object_eq_dec : EqDecision object.
Proof. solve_decision. Defined.

Definition DnsGatewayPrograms : list object := [DnsGatewayEgress; DnsGatewayIngress].

Definition DnsGatewayMaps : list object :=
  [ConfigMap; ConntrackMap; MetricsMap; ScratchMap; SuffixRules].

(** [DnsGatewayObjects] embeds both. *)
Definition DnsGatewayObjects : list object := DnsGatewayPrograms ++ DnsGatewayMaps.

(** The tags of the fields: the names of the programs and maps in the object
    file. *)
Definition ebpf_tag (o : object) : string :=
  match o with
  | DnsGatewayEgress => "dns_gateway_egress"
  | DnsGatewayIngress => "dns_gateway_ingress"
  | ConfigMap => "config_map"
  | ConntrackMap => "conntrack_map"
  | MetricsMap => "metrics_map"
  | ScratchMap => "scratch_map"
  | SuffixRules => "suffix_rules"
  end.

#[export] Instance object_countable : Countable object.
Proof.
  refine (inj_countable
    (fun o => match o with
       | DnsGatewayEgress => 0 | DnsGatewayIngress => 1 | ConfigMap => 2 | ConntrackMap => 3
       | MetricsMap => 4 | ScratchMap => 5 | SuffixRules => 6
       end%nat)
    (fun n => DnsGatewayObjects !! n) _).
  by intros [].
Defined.

Definition all_objects : gset object := list_to_set DnsGatewayObjects.

(** ** Close *)

Section close.
Context {E : Type} (close_object : E -> object -> bool * E).

(** [io.Closer]: whether the error is nil. *)
Definition Closer : Type := E -> bool * E.

Definition object_closer (o : object) : Closer := fun e => close_object e o.

(** [_DnsGatewayClose]: the closers after one that fails are not called. *)
Fixpoint DnsGatewayClose (closers : list Closer) : Closer := fun e =>
  match closers with
  | [] => (true, e)
  | closer :: closers =>
      let '(ok, e) := closer e in
      if ok then DnsGatewayClose closers e else (false, e)
  end.

Definition DnsGatewayPrograms_Close : Closer :=
  DnsGatewayClose [object_closer DnsGatewayEgress; object_closer DnsGatewayIngress].

Definition DnsGatewayMaps_Close : Closer :=
  DnsGatewayClose [object_closer ConfigMap; object_closer ConntrackMap;
    object_closer MetricsMap; object_closer ScratchMap; object_closer SuffixRules].

Definition DnsGatewayObjects_Close : Closer :=
  DnsGatewayClose [DnsGatewayPrograms_Close; DnsGatewayMaps_Close].
End close.

(** ** What a close does *)

Section facts.
Context {E : Type} (close_object : E -> object -> bool * E) (held : E -> gset object).
(** A successful close of an object releases it; a failed one may not. *)
Context (close_ok : forall e o ok e', close_object e o = (ok, e') ->
  held e' = (if ok then held e ∖ {[ o ]} else held e)).

Lemma DnsGatewayClose_app (cs1 cs2 : list (@Closer E)) e :
  DnsGatewayClose (cs1 ++ cs2) e =
  let '(ok, e') := DnsGatewayClose cs1 e in if ok then DnsGatewayClose cs2 e' else (false, e').
Proof.
  revert e. induction cs1 as [|c cs1 IH]; intros e; simpl; [by destruct (DnsGatewayClose cs2 e)|].
  destruct (c e) as [[] e']; [apply IH|done].
Qed.

(** The nesting of the three [Close] methods does not matter. *)
Lemma Objects_Close_flat e :
  DnsGatewayObjects_Close close_object e =
  DnsGatewayClose (map (object_closer close_object) DnsGatewayObjects) e.
Proof.
  change (map (object_closer close_object) DnsGatewayObjects) with
    (map (object_closer close_object) DnsGatewayPrograms ++
     map (object_closer close_object) DnsGatewayMaps).
  rewrite DnsGatewayClose_app. unfold DnsGatewayObjects_Close. cbn [DnsGatewayClose].
  unfold DnsGatewayPrograms_Close, DnsGatewayMaps_Close. cbn [map DnsGatewayPrograms DnsGatewayMaps].
  destruct (DnsGatewayClose _ e) as [[] e1]; [|done].
  by destruct (DnsGatewayClose _ e1) as [[] e2].
Qed.

Lemma close_list_spec os e ok e' :
  DnsGatewayClose (map (object_closer close_object) os) e = (ok, e') ->
  held e' ⊆ held e /\ (ok = true -> held e' = held e ∖ list_to_set os).
Proof.
  revert e. induction os as [|o os IH]; intros e; simpl.
  { intros [= <- <-]. split; [done|]. intros _. set_solver. }
  unfold object_closer at 1. destruct (close_object e o) as [ok1 e1] eqn:E1.
  apply close_ok in E1. destruct ok1.
  - intros [Hs Hok]%IH. rewrite E1 in *. split; [set_solver|]. intros H%Hok. set_solver.
  - intros [= <- <-]. by rewrite E1.
Qed.

Lemma Objects_Close_keeps (P : E -> Prop) e ok e' :
  (forall e o ok e', P e -> close_object e o = (ok, e') -> P e') ->
  P e -> DnsGatewayObjects_Close close_object e = (ok, e') -> P e'.
Proof.
  intros HP. rewrite Objects_Close_flat. generalize DnsGatewayObjects. intros os. revert e.
  induction os as [|o os IH]; intros e He; simpl; [by intros [= <- <-]|].
  unfold object_closer at 1. destruct (close_object e o) as [[] e1] eqn:E1;
    apply HP in E1; try done; [by apply IH|by intros [= <- <-]].
Qed.

(** A close without error releases everything. *)
(** A program that fails to close leaves everything open. *)
Lemma close_stops e e' :
  close_object e DnsGatewayEgress = (false, e') ->
  DnsGatewayObjects_Close close_object e = (false, e') /\ held e' = held e.
Proof.
  intros E1. split; [|by apply close_ok in E1]. rewrite Objects_Close_flat. simpl.
  unfold object_closer at 1. by rewrite E1.
Qed.

Lemma Objects_Close_spec e ok e' :
  DnsGatewayObjects_Close close_object e = (ok, e') ->
  held e' ⊆ held e /\ (ok = true -> held e ⊆ all_objects -> held e' = ∅).
Proof.
  rewrite Objects_Close_flat. intros [Hs Hok]%close_list_spec. split; [done|].
  intros E1 Hsub. rewrite (Hok E1). unfold all_objects in Hsub. set_solver.
Qed.

(** When closing what is held does not fail, everything is released. *)
Lemma Objects_Close_up e :
  (forall e o, o ∈ held e -> (close_object e o).1 = true) -> held e = all_objects ->
  (DnsGatewayObjects_Close close_object e).1 = true.
Proof.
  intros Hup He. rewrite Objects_Close_flat.
  assert (forall os e, NoDup os -> (forall o, o ∈ os -> o ∈ held e) ->
    (DnsGatewayClose (map (object_closer close_object) os) e).1 = true) as Hg.
  { induction os as [|o os IH]; intros e1 Hnd Hin; [done|]. simpl.
    apply list.NoDup_cons in Hnd as [Hno Hnd].
    unfold object_closer at 1. pose proof (Hup e1 o ltac:(set_solver)) as Ho.
    destruct (close_object e1 o) as [ok e2] eqn:E2. simpl in Ho. subst ok.
    apply close_ok in E2. apply IH; [done|]. intros o' Ho'. rewrite E2. set_solver. }
  apply Hg; [apply (bool_decide_unpack _); by vm_compute|].
  intros o Ho. rewrite He. by apply elem_of_list_to_set.
Qed.
End facts.
