(* ===== verification/Lifecycle.v ===== *)
(** * [internal/ebpf/loader.go] and the start of the process

    Loading the object file and pinning the maps, [Close] and [Unpin], and [run]
    of main.go from the configuration to the running process, with its clean-up
    on every error.  The object file and the file system are the class
    [LoadEnv]. *)

From stdpp Require Import strings.
From S2P Require Import Prelude GoStrings.
From S2P Require Config.
From S2P Require Import Bindings.
From S2P Require Import Types Loader Startup.
From S2P Require Health Attach Controller.

(** ** The environment of the loader *)

Inductive load_result := Loaded | VerifierRejected | LoadFailed.
Inductive dir_result := DirEntries (names : list gostring) | DirNotExist | DirError.
Inductive remove_result := Removed | NotExist | RemoveError.

Class LoadEnv := {
  env : Type;
  remove_memlock : env -> bool * env;
  (** [os.MkdirAll(pinDir)], [os.ReadDir(pinDir)], [os.Remove] of a file in it
      and of the directory. *)
  mkdir_all : env -> bool * env;
  read_dir : env -> dir_result * env;
  remove_file : env -> gostring -> bool * env;
  remove_dir : env -> remove_result * env;
  (** [LoadDnsGateway] and [spec.LoadAndAssign] with pinning by name. *)
  load_spec : env -> bool * env;
  load_and_assign : env -> load_result * env;
  (** [Close] of one program or map. *)
  close_object : env -> Bindings.object -> bool * env;
  (** What there is: the files of the pin directory, if it exists, and the
      objects whose descriptors the process has. *)
  pinned : env -> option (gset gostring);
  held : env -> gset Bindings.object
}.

(** Documented behaviour: a load gives all objects or none, a close without
    error releases its object, the directory is removed only when empty. *)
Class LoadEnvOk (L : LoadEnv) := {
  remove_memlock_ok e ok e' : remove_memlock e = (ok, e') ->
    pinned e' = pinned e /\ held e' = held e;
  mkdir_all_ok e ok e' : mkdir_all e = (ok, e') ->
    held e' = held e /\
    pinned e' = if ok then Some (default ∅ (pinned e)) else pinned e;
  read_dir_ok e r e' : read_dir e = (r, e') ->
    held e' = held e /\ pinned e' = pinned e /\
    match r with
    | DirEntries names => NoDup names /\ pinned e = Some (list_to_set names)
    | DirNotExist => pinned e = None
    | DirError => True
    end;
  remove_file_ok e name ok e' : remove_file e name = (ok, e') ->
    held e' = held e /\
    pinned e' = if ok then (fun s => s ∖ {[ name ]}) <$> pinned e else pinned e;
  remove_dir_ok e r e' : remove_dir e = (r, e') ->
    held e' = held e /\
    match r with
    | Removed => pinned e' = None
    | NotExist => pinned e = None /\ pinned e' = None
    | RemoveError => pinned e' = pinned e
    end;
  load_spec_ok e ok e' : load_spec e = (ok, e') -> pinned e' = pinned e /\ held e' = held e;
  load_and_assign_ok e r e' : load_and_assign e = (r, e') ->
    held e' = match r with Loaded => Bindings.all_objects | _ => held e end /\
    (pinned e' = None <-> pinned e = None);
  close_object_ok e o ok e' : close_object e o = (ok, e') ->
    pinned e' = pinned e /\ held e' = if ok then held e ∖ {[ o ]} else held e
}.

(** A machine that lets the process remove and close what it made. *)
Class LoadEnvUp (L : LoadEnv) := {
  up_read_dir e : (read_dir e).1 <> DirError;
  up_remove_file e name s : pinned e = Some s -> name ∈ s -> (remove_file e name).1 = true;
  up_remove_dir e : pinned e = Some ∅ -> (remove_dir e).1 <> RemoveError;
  up_close_object e o : o ∈ held e -> (close_object e o).1 = true
}.

(** ** loader.go *)

Section loader.
Context {L : LoadEnv}.

Inductive load_error :=
  | RemoveMemlock | CreatePinDir | LoadSpec | VerifierRejectedPrograms | LoadAndAssign.

(** [New]; on success the process holds the objects. *)
Definition New (e : env) : option load_error * env :=
  let '(ok, e) := remove_memlock e in
  if negb ok then (Some RemoveMemlock, e) else
  let '(ok, e) := mkdir_all e in
  if negb ok then (Some CreatePinDir, e) else
  let '(ok, e) := load_spec e in
  if negb ok then (Some LoadSpec, e) else
  let '(r, e) := load_and_assign e in
  match r with
  | VerifierRejected => (Some VerifierRejectedPrograms, e)
  | LoadFailed => (Some LoadAndAssign, e)
  | Loaded => (None, e)
  end.

Definition Close (e : env) : bool * env := Bindings.DnsGatewayObjects_Close close_object e.

Inductive unpin_error := ReadPinDir | RemovePinned (name : gostring) | RemovePinDir.

(** The loop of [Unpin]. *)
Fixpoint remove_all (names : list gostring) (e : env) : option unpin_error * env :=
  match names with
  | [] => (None, e)
  | name :: names =>
      let '(ok, e) := remove_file e name in
      if ok then remove_all names e else (Some (RemovePinned name), e)
  end.

Definition Unpin (e : env) : option unpin_error * env :=
  let '(r, e) := read_dir e in
  match r with
  | DirNotExist => (None, e)
  | DirError => (Some ReadPinDir, e)
  | DirEntries names =>
      match remove_all names e with
      | (Some err, e) => (Some err, e)
      | (None, e) =>
          let '(r, e) := remove_dir e in
          match r with
          | RemoveError => (Some RemovePinDir, e)
          | _ => (None, e)
          end
      end
  end.

(** [cleanupLoader] of main.go: both errors are ignored. *)
Definition cleanupLoader (e : env) : env :=
  let '(_, e) := Close e in
  let '(_, e) := Unpin e in
  e.
End loader.

(** ** main.go: startup *)

Section startup.
Context {L : LoadEnv} {M : MapSyscalls} {T : Attach.TcxLinks} (ul : gostring -> gostring)
  (range : gmap suffix_key Z -> list (suffix_key * Z)).

Inductive run_error :=
  | LoadEbpf (e : load_error) | Populate (e : startup_error)
  | NewController (e : Controller.options_error)
  | NewHealthChecker (e : Health.new_error) | RegisterCollector | StartMetricsServer.

(** Steps 2 to 5 of [run], for a configuration that loaded and a kernel with
    the links [k]: whether the collector registers and the listener binds are the
    libraries'.  The monitor has no state before it starts. *)
Definition startup (c : Config.Config) (registers binds : bool) (k : Attach.tcx) (e : env)
    (s : loader) : option run_error * env * loader :=
  match New e with
  | (Some err, e) => (Some (LoadEbpf err), e, s)
  | (None, e) =>
      match populate_maps ul range c s with
      | (Some err, s) => (Some (Populate err), cleanupLoader e, s)
      | (None, s) =>
          let mgr := Attach.NewAttachManager k in
          match Controller.NewController (B := Health.LoaderSetter) (Some s) (Some mgr) (Some tt) with
          | inl err => (Some (NewController err), cleanupLoader e, s)
          | inr _ =>
          match Health.New (checker_config c) false with
          | inl err => (Some (NewHealthChecker err), cleanupLoader e, s)
          | inr _ =>
              if negb registers then (Some RegisterCollector, cleanupLoader e, s)
              else if negb binds then (Some StartMetricsServer, cleanupLoader e, s)
              else (None, e, s)
          end end
      end
  end.
End startup.

(** ** The loader's operations *)

Section loader_facts.
Context {L : LoadEnv} {LO : LoadEnvOk L}.

Lemma New_held e r e' : New e = (r, e') -> held e = ∅ ->
  held e' = match r with None => Bindings.all_objects | Some _ => ∅ end.
Proof.
  unfold New. intros E H.
  destruct (remove_memlock e) as [ok1 e1] eqn:E1. apply remove_memlock_ok in E1 as [_ H1].
  destruct ok1; simpl in E; [|by simplify_eq; rewrite H1].
  destruct (mkdir_all e1) as [ok2 e2] eqn:E2. apply mkdir_all_ok in E2 as [H2 _].
  destruct ok2; simpl in E; [|by simplify_eq; rewrite H2, H1].
  destruct (load_spec e2) as [ok3 e3] eqn:E3. apply load_spec_ok in E3 as [_ H3].
  destruct ok3; simpl in E; [|by simplify_eq; rewrite H3, H2, H1].
  destruct (load_and_assign e3) as [r4 e4] eqn:E4. apply load_and_assign_ok in E4 as [H4 _].
  destruct r4; simplify_eq; rewrite H4; congruence.
Qed.

Lemma remove_all_spec names e err e' :
  remove_all names e = (err, e') ->
  held e' = held e /\
  (err = None -> pinned e' = (fun s => s ∖ list_to_set names) <$> pinned e).
Proof.
  revert e. induction names as [|name names IH]; intros e; simpl.
  { intros [= <- <-]. split; [done|]. intros _. destruct (pinned e); simpl; [|done].
    f_equal. set_solver. }
  destruct (remove_file e name) as [ok e1] eqn:E1. apply remove_file_ok in E1 as [H1 P1].
  destruct ok; [|by intros [= <- <-]].
  intros [H2 P2]%IH. split; [congruence|]. intros Hn. rewrite (P2 Hn), P1.
  destruct (pinned e); simpl; [|done]. f_equal. set_solver.
Qed.

Lemma remove_all_up {U : LoadEnvUp L} names e s err e' :
  remove_all names e = (err, e') -> NoDup names -> pinned e = Some s ->
  (forall n, n ∈ names -> n ∈ s) -> err = None.
Proof.
  revert e s. induction names as [|name names IH]; intros e s; simpl; [by intros [= <- <-]|].
  intros E [Hnin Hnd]%list.NoDup_cons Hp Hs.
  pose proof (up_remove_file e name s Hp (Hs name ltac:(by left))) as Hok.
  destruct (remove_file e name) as [ok e1] eqn:E1. apply remove_file_ok in E1 as [_ P1].
  simpl in Hok. subst ok. rewrite Hp in P1. simpl in P1.
  eapply IH; [exact E|done|exact P1|]. intros n Hn. set_solver.
Qed.

Lemma Unpin_spec e err e' :
  Unpin e = (err, e') -> held e' = held e /\ (err = None -> pinned e' = None).
Proof.
  unfold Unpin. destruct (read_dir e) as [r e1] eqn:E1. apply read_dir_ok in E1 as (H1 & P1 & Hr).
  destruct r as [names| |]; [|intros [= <- <-]; split; congruence|by intros [= <- <-]].
  destruct (remove_all names e1) as [[err2|] e2] eqn:E2; apply remove_all_spec in E2 as [H2 _];
    [intros [= <- <-]; split; congruence|].
  destruct (remove_dir e2) as [r3 e3] eqn:E3. apply remove_dir_ok in E3 as [H3 P3].
  destruct r3; intros [= <- <-]; split; try congruence; intros; by destruct P3.
Qed.

Lemma Unpin_up {U : LoadEnvUp L} e : (Unpin e).1 = None.
Proof.
  unfold Unpin. pose proof (up_read_dir e) as Hrd.
  destruct (read_dir e) as [r e1] eqn:E1. apply read_dir_ok in E1 as (_ & P1 & Hr).
  destruct r as [names| |]; [|done..]. destruct Hr as [Hnd Hp].
  destruct (remove_all names e1) as [err e2] eqn:E2.
  pose proof (remove_all_up names e1 (list_to_set names) err e2 E2 Hnd) as Hup.
  destruct err as [err|].
  { discriminate Hup; [congruence|]. intros n Hn. by apply elem_of_list_to_set. }
  apply remove_all_spec in E2 as [_ P2]. specialize (P2 eq_refl).
  rewrite P1, Hp in P2. simpl in P2. rewrite difference_diag_L in P2.
  pose proof (up_remove_dir e2 P2) as Hrm.
  destruct (remove_dir e2) as [[] e3]; done.
Qed.

Lemma loader_Close_spec e ok e' :
  Close e = (ok, e') ->
  pinned e' = pinned e /\ held e' ⊆ held e /\
  (ok = true -> held e ⊆ Bindings.all_objects -> held e' = ∅).
Proof.
  intros E. split; [|eapply Bindings.Objects_Close_spec, E].
  - by apply (Bindings.Objects_Close_keeps close_object (fun e1 => pinned e1 = pinned e)) in E;
      [|intros e1 o ok1 e2 <- [? _]%close_object_ok|].
  - intros e1 o ok1 e2 H%close_object_ok. apply H.
Qed.

Lemma loader_Close_up {U : LoadEnvUp L} e : held e = Bindings.all_objects -> (Close e).1 = true.
Proof.
  apply (Bindings.Objects_Close_up close_object held).
  - intros e1 o ok1 e2 H%close_object_ok. apply H.
  - intros e1 o. apply up_close_object.
Qed.

(** The clean-up of a start that got as far as loading. *)
Lemma cleanup_spec {U : LoadEnvUp L} e :
  held e = Bindings.all_objects -> held (cleanupLoader e) = ∅ /\ pinned (cleanupLoader e) = None.
Proof.
  intros He. unfold cleanupLoader. pose proof (loader_Close_up e He) as Hok.
  destruct (Close e) as [ok e1] eqn:E1. apply loader_Close_spec in E1 as (_ & _ & H1).
  simpl in Hok. specialize (H1 Hok). rewrite He in H1.
  pose proof (Unpin_up e1) as Hn. destruct (Unpin e1) as [err e2] eqn:E2.
  apply Unpin_spec in E2 as [H2 P2]. simpl in Hn. rewrite H2. auto.
Qed.
End loader_facts.

(** ** Properties *)

Section properties.
Context {L : LoadEnv} {LO : LoadEnvOk L}.

(** C18. A start that fails leaves nothing: when loading fails the process holds
    no program and no map; when a later step fails and what was made can be
    closed and removed, it holds none and the pin directory is gone, so the next
    start does not find old maps; a start that succeeds holds all the objects it
    goes on to attach. *)
Theorem startup_all_or_nothing {M : MapSyscalls} {T : Attach.TcxLinks} ul range c registers binds k
    e s err e' s' :
  held e = ∅ -> startup ul range c registers binds k e s = (err, e', s') ->
  match err with
  | None => held e' = all_objects /\ (populate_maps ul range c s).1 = None
  | Some (LoadEbpf _) => held e' = ∅
  | Some _ => LoadEnvUp L -> held e' = ∅ /\ pinned e' = None
  end.
Proof.
  intros He E. unfold startup in E.
  destruct (New e) as [[le|] e1] eqn:E1; apply New_held in E1; [|done| |done]; [by simplify_eq|].
  destruct (populate_maps ul range c s) as [[pe|] s1] eqn:E2;
    [simplify_eq; intros U; by apply cleanup_spec|].
  destruct (Controller.NewController _ _ _); [simplify_eq; intros U; by apply cleanup_spec|].
  destruct (Health.New _ _); [simplify_eq; intros U; by apply cleanup_spec|].
  destruct registers, binds; simpl in E; simplify_eq; auto; intros U; by apply cleanup_spec.
Qed.

End properties.

(** ** A concrete machine: every call succeeds *)

Record ref_machine := RefMachine { rm_pins : option (gset gostring); rm_held : gset object }.

Definition map_names : list gostring :=
  map (fun o => Config.lit (ebpf_tag o)) DnsGatewayMaps.

#[export] Instance RefEnv : LoadEnv := {|
  env := ref_machine;
  remove_memlock e := (true, e);
  mkdir_all e := (true, RefMachine (Some (default ∅ (rm_pins e))) (rm_held e));
  read_dir e :=
    (match rm_pins e with Some s => DirEntries (elements s) | None => DirNotExist end, e);
  remove_file e name := (true, RefMachine ((fun s => s ∖ {[ name ]}) <$> rm_pins e) (rm_held e));
  remove_dir e :=
    match rm_pins e with
    | None => (NotExist, e)
    | Some s => if decide (s = ∅) then (Removed, RefMachine None (rm_held e)) else (RemoveError, e)
    end;
  load_spec e := (true, e);
  load_and_assign e :=
    (Loaded, RefMachine ((fun s => s ∪ list_to_set map_names) <$> rm_pins e) all_objects);
  close_object e o := (true, RefMachine (rm_pins e) (rm_held e ∖ {[ o ]}));
  pinned := rm_pins;
  held := rm_held
|}.

#[export] Instance RefEnvOk : LoadEnvOk RefEnv.
Proof.
  split; simpl.
  - by intros e ok e' [= <- <-].
  - by intros e ok e' [= <- <-].
  - intros e r e' [= <- <-]. split; [done|]. split; [done|].
    destruct (rm_pins e); [|done]. split; [apply NoDup_elements|]. by rewrite list_to_set_elements_L.
  - by intros e name ok e' [= <- <-].
  - intros e r e' E. destruct (rm_pins e) eqn:Hp; [|by simplify_eq].
    case_decide; by simplify_eq.
  - by intros e ok e' [= <- <-].
  - intros e r e' [= <- <-]. simpl. split; [done|]. by destruct (rm_pins e).
  - by intros e o ok e' [= <- <-].
Qed.

#[export] Instance RefEnvUp : LoadEnvUp RefEnv.
Proof.
  split; simpl.
  - intros e. by destruct (rm_pins e).
  - done.
  - intros e Hp. by rewrite Hp, decide_True.
  - done.
Qed.

(** The listener's port is taken: nothing stays behind. *)
Lemma startup_all_or_nothing_witness :
  let e' := (startup (L := RefEnv) (T := Controller.HealthyTcx) id map_to_list sample_yaml true false Controller.tcx1 (RefMachine None ∅)
               LoaderProps.sample_loader).1.2 in
  held e' = ∅ /\ pinned e' = None.
Proof.
  destruct (startup (L := RefEnv) (T := Controller.HealthyTcx) id map_to_list sample_yaml true false Controller.tcx1 (RefMachine None ∅)
    LoaderProps.sample_loader) as [[err e'] s'] eqn:E.
  pose proof (startup_all_or_nothing (L := RefEnv) (T := Controller.HealthyTcx) id map_to_list sample_yaml true false Controller.tcx1 (RefMachine None ∅)
    LoaderProps.sample_loader err e' s' eq_refl E) as H.
  assert (err = Some StartMetricsServer) as ->.
  { apply (f_equal (fun r => r.1.1)) in E. vm_compute in E. symmetry. exact E. }
  exact (H RefEnvUp).
Defined.
