(* ===== verification/Shutdown.v ===== *)
(** * The running process and its shutdown

    Steps 6 to 9 of [run] in main.go as a step relation that runs the checker
    ([Health.process_step]) and the monitor and controller
    ([Controller.sys_step]) beside the main goroutine, from the process that
    [Lifecycle.startup] leaves to its exit, and the termination of the shutdown
    by a measure on what each goroutine has left to do. *)

From stdpp Require Import strings.
From S2P Require Import Prelude GoStrings Bindings Attach Monitor Controller Lifecycle.
From S2P Require Health LoaderProps.

(** ** main.go: shutdown *)

(** Where the main goroutine is once it has set the teardown bypass, before
    which it is where [Health.main_pc] says: how the wait for the controller
    ended, the loader closed, the maps unpinned. *)
Inductive tail_pc :=
  | BeforeTail
  | CtlSeen | CtlTimedOut
  | LoaderClosed (ctl_seen : bool)
  | Exited (ctl_seen : bool) (err : option unpin_error).

Section shutdown.
Context {L : LoadEnv} {T : TcxLinks} {B : Health.BypassSetter} (th : Z).
Context (range : gmap Z Attachment -> list (Z * Attachment)).

Record life := Life {
  l_ctl : sys; l_health : Health.process; l_env : env; l_tail : tail_pc
}.

Definition exited (t : tail_pc) : bool := match t with Exited _ _ => true | _ => false end.

Definition cancel (s : sys) : sys :=
  Sys (seen s) (known s) (main s) (resync s) (events s) (interrupted s) true (ctl_done s) (mgr s).

(** The goroutines of the monitor and the controller, the checker and the main
    goroutine, and the signal that cancels the context of all of them. *)
Inductive life_step : life -> life -> Prop :=
  | life_ctl s s' p e t :
      exited t = false -> sys_step range true s s' -> cancelled s' = cancelled s ->
      life_step (Life s p e t) (Life s' p e t)
  | life_health s p p' e t :
      exited t = false -> Health.process_step th p p' ->
      Health.cancelled (Health.p_mpc p') = Health.cancelled (Health.p_mpc p) ->
      life_step (Life s p e t) (Life s p' e t)
  | life_signal s c st pc e :
      life_step (Life s (Health.Process c st pc Health.Serving) e BeforeTail)
        (Life (cancel s) (Health.Process c st pc Health.Draining) e BeforeTail)
  | life_ctl_done s c st pc a ok e :
      ctl_done s = true ->
      life_step (Life s (Health.Process c st pc (Health.TornDown a ok)) e BeforeTail)
        (Life s (Health.Process c st pc (Health.TornDown a ok)) e CtlSeen)
  | life_ctl_timeout s c st pc a ok e :
      life_step (Life s (Health.Process c st pc (Health.TornDown a ok)) e BeforeTail)
        (Life s (Health.Process c st pc (Health.TornDown a ok)) e CtlTimedOut)
  | life_close s p e ok e' t :
      t = CtlSeen \/ t = CtlTimedOut -> Close e = (ok, e') ->
      life_step (Life s p e t)
        (Life s p e' (LoaderClosed (match t with CtlSeen => true | _ => false end)))
  | life_unpin s p e err e' b :
      Unpin e = (err, e') ->
      life_step (Life s p e (LoaderClosed b)) (Life s p e' (Exited b err)).

(** The process that [startup] leaves, with the setter's state [st]. *)
Definition life_init (k : tcx) (st : Health.setter) (e : env) : life :=
  Life (sys_init k) (Health.Process Health.NewChecker st Health.Waiting Health.Serving) e BeforeTail.
End shutdown.

(** ** Reachable states of the process *)

Lemma ctl_done_stays {T : TcxLinks} range b (s s' : sys) :
  sys_step range b s s' -> ctl_done s = true -> ctl_done s' = true.
Proof. intros Hs. by destruct Hs. Qed.

Lemma torn_down_stays {B : Health.BypassSetter} th p p' a ok :
  Health.process_step th p p' -> Health.p_mpc p = Health.TornDown a ok ->
  Health.p_mpc p' = Health.TornDown a ok.
Proof. intros Hs. destruct Hs; simpl; intros E; try done; naive_solver. Qed.

Section reachable.
Context {L : LoadEnv} {LO : LoadEnvOk L} {T : TcxLinks}.
Context {B : Health.BypassSetter} {BO : Health.BypassSetterOk B} (th : Z).
Context (range : gmap Z Attachment -> list (Z * Attachment)).
Context (k : tcx) (st : Health.setter).

(** Whether the main goroutine has seen the controller's Done(). *)
Definition ctl_seen (t : tail_pc) : bool :=
  match t with CtlSeen | LoaderClosed true | Exited true _ => true | _ => false end.

Definition closed (t : tail_pc) : bool :=
  match t with LoaderClosed _ | Exited _ _ => true | _ => false end.

(** The main goroutine is past the wait for the checker only when it has called
    [SetBypass(true)]. *)
Definition tail_ok (x : life) : Prop :=
  l_tail x = BeforeTail \/ exists a ok, Health.p_mpc (l_health x) = Health.TornDown a ok.

Lemma tail_ok_step x x' : tail_ok x -> life_step th range x x' -> tail_ok x'.
Proof.
  unfold tail_ok. intros Ht Hstep. destruct Hstep as
    [s s' p e t _ _ _|s p p' e t _ Hst _|s c st' pc e|s c st' pc a ok e _
    |s c st' pc a ok e|s p e ok e' t Ht' _|s p e err e' b _]; simpl in *;
    [done| |by left|right; by eexists _, _|right; by eexists _, _| |].
  - destruct Ht as [?|(a&ok&E)]; [by left|]. right. exists a, ok. by eapply torn_down_stays.
  - right. by destruct Ht as [->|?]; [destruct Ht'|].
  - right. by destruct Ht.
Qed.

(** A Done() that was seen was closed. *)
Lemma seen_step x x' :
  (ctl_seen (l_tail x) = true -> ctl_done (l_ctl x) = true) -> life_step th range x x' ->
  ctl_seen (l_tail x') = true -> ctl_done (l_ctl x') = true.
Proof.
  intros Hs Hstep. destruct Hstep as
    [s s' p e t _ Hst _| | | | |s p e ok e' t Ht' _|]; simpl in *; try done.
  - intros Hseen. by eapply ctl_done_stays; [exact Hst|apply Hs].
  - intros Hseen. apply Hs. by destruct Ht' as [->| ->].
Qed.

Record life_ok (x : life) : Prop := {
  lo_ctl : rtc (sys_step range true) (sys_init k) (l_ctl x);
  lo_health : Health.teardown_ok (l_health x);
  lo_held : closed (l_tail x) = false -> held (l_env x) = all_objects;
  lo_closed : LoadEnvUp L -> closed (l_tail x) = true -> held (l_env x) = ∅;
  lo_tail : tail_ok x;
  lo_seen : ctl_seen (l_tail x) = true -> ctl_done (l_ctl x) = true;
  lo_unpin b : l_tail x = Exited b None -> pinned (l_env x) = None
}.

Lemma life_step_ok x x' : life_ok x -> life_step th range x x' -> life_ok x'.
Proof.
  intros [Hc Hh Ho Hcl Ht Hs Hu] Hstep.
  pose proof (tail_ok_step _ _ Ht Hstep) as Ht'. pose proof (seen_step _ _ Hs Hstep) as Hs'.
  destruct Hstep as
    [s s' p e t Hx Hst _|s p p' e t Hx Hst _|s c st' pc e|s c st' pc a ok e Hd
    |s c st' pc a ok e|s p e ok e' t Hpc Hclose|s p e err e' b Hun]; simpl in *; split; simpl; try done.
  - by eapply rtc_r.
  - by eapply Health.process_step_ok.
  - eapply rtc_r; [exact Hc|]. destruct s. apply sys_cancel.
  - intros U _. assert (held e = all_objects) as He by (apply Ho; by destruct Hpc as [->| ->]).
    pose proof (loader_Close_up e He) as Hok. rewrite Hclose in Hok. simpl in Hok. subst ok.
    apply loader_Close_spec in Hclose as (_ & _ & Hc'). apply Hc'; [done|by rewrite He].
  - intros U _. apply Unpin_spec in Hun as [Hun _]. rewrite Hun. by apply Hcl.
  - intros b' [= _ ->]. apply Unpin_spec in Hun as [_ Hp]. by apply Hp.
Qed.

Lemma reachable_life_ok e x :
  Health.setter_wf st -> held e = all_objects ->
  rtc (life_step th range) (life_init k st e) x -> life_ok x.
Proof.
  intros Hw He Hr.
  assert (life_ok (life_init k st e)) as H0 by (split; simpl; try done; by left).
  induction Hr; [done|]. eauto using life_step_ok.
Qed.
End reachable.

(** ** Termination

    The steps that the process itself takes towards its end: a goroutine or the
    main goroutine moves, no netlink update is received, no new list of links is
    taken, and no wait is given up. *)

Section termination.
Context {L : LoadEnv} {LO : LoadEnvOk L} {T : TcxLinks}.
Context {B : Health.BypassSetter} {BO : Health.BypassSetterOk B} (th : Z).
Context (range : gmap Z Attachment -> list (Z * Attachment)).

Definition ctl_position (s : sys) := (main s, resync s, events s, ctl_done s).
Definition health_position (p : Health.process) := (Health.p_cpc p, Health.p_mpc p).
Definition position (x : life) :=
  (ctl_position (l_ctl x), health_position (l_health x), l_tail x).

(** A wait of the main goroutine has ended by its timeout. *)
Definition timed_out (x : life) : bool :=
  match Health.p_mpc (l_health x), l_tail x with
  | Health.TimedOut, _ | Health.TornDown false _, _ => true
  | _, CtlTimedOut | _, LoaderClosed false | _, Exited false _ => true
  | _, _ => false
  end.

Record quiet (s s' : sys) : Prop := {
  no_update : seen s' = seen s;
  no_listing : resync s = ResyncWait -> resync s' = ResyncWait \/ resync s' = ResyncDone
}.

Record own_step (x x' : life) : Prop := {
  own_is_step : life_step th range x x';
  own_moves : position x' <> position x;
  own_quiet : quiet (l_ctl x) (l_ctl x');
  own_patient : timed_out x' = false
}.

(** What is left to do.  Sending an event moves it to the channel, where
    handling it is one more step; a link of a list costs its look and at most
    one event. *)
Definition main_left (m : main_state) : nat :=
  match m with MainEmit _ => 4 | MainWait => 2 | MainStop => 1 | MainClosed => 0 end.

Definition resync_left (r : resync_state) : nat :=
  match r with
  | ResyncEmit _ links => 4 + 3 * length links
  | ResyncLinks links => 2 + 3 * length links
  | ResyncWait => 1
  | ResyncDone => 0
  end.

Definition ctl_left (s : sys) : nat :=
  main_left (main s) + resync_left (resync s) + length (events s) +
  (if ctl_done s then 0 else 1).

Definition health_left (p : Health.process) : nat :=
  match Health.p_cpc p with Health.Calling _ => 2 | Health.Waiting => 1 | Health.Stopped => 0 end +
  match Health.p_mpc p with
  | Health.Serving => 3 | Health.Draining => 2
  | Health.DoneSeen | Health.TimedOut => 1 | Health.TornDown _ _ => 0
  end.

Definition tail_left (t : tail_pc) : nat :=
  match t with
  | BeforeTail => 3 | CtlSeen | CtlTimedOut => 2 | LoaderClosed _ => 1 | Exited _ _ => 0
  end.

Definition left_to_do (x : life) : nat :=
  ctl_left (l_ctl x) + health_left (l_health x) + tail_left (l_tail x).

Lemma sys_step_left b s s' :
  sys_step range b s s' -> quiet s s' -> ctl_position s' <> ctl_position s ->
  (ctl_left s' < ctl_left s)%nat.
Proof.
  intros Hs [Hu Hl] Hp. unfold ctl_left.
  destruct Hs as [s_ k r es i c d m u k' ev Hh| |s_ k mn r es i d m Hm| | | |
    |s_ k mn es i c d m l links k' ev Hh| | |s_ k mn r es i c d m Hr Hc| | | | |];
    simpl in *; rewrite ?length_app; simpl; try lia; try (by destruct Hp).
  - exfalso. apply (f_equal length) in Hu. rewrite length_app in Hu. simpl in Hu. lia.
  - destruct Hm as [->|[ev ->]]; simpl; lia.
  - by destruct (Hl eq_refl).
  - destruct ev; simpl; lia.
  - destruct Hr as [->|(ev&links&->)]; simpl; lia.
Qed.

Lemma process_step_left p p' :
  Health.process_step th p p' -> Health.cancelled (Health.p_mpc p) = true ->
  health_position p' <> health_position p -> (health_left p' < health_left p)%nat.
Proof.
  intros Hs Hc Hp. unfold health_left. destruct Hs; simpl in *; try congruence; try lia;
    try (by destruct Hp).
  destruct H as [->| ->]; simpl; lia.
Qed.

(** The signal has come. *)
Record signalled (x : life) : Prop := {
  sig_main : Health.cancelled (Health.p_mpc (l_health x)) = true;
  sig_ctl : cancelled (l_ctl x) = true
}.

Lemma life_step_signalled x x' : signalled x -> life_step th range x x' -> signalled x'.
Proof.
  intros [Hm Hc] Hs. destruct Hs; split; simpl in *; congruence.
Qed.

Lemma own_step_left x x' :
  signalled x -> own_step x x' -> (left_to_do x' < left_to_do x)%nat.
Proof.
  intros [Hm _] [Hs Hp Hq _]. unfold left_to_do, position in *.
  destruct Hs as [s s' p e t _ Hst _|s p p' e t _ Hst _| | | |s p e ok e' t Ht _|];
    simpl in *; try lia; try done.
  - assert (ctl_position s' <> ctl_position s) as Hp' by congruence.
    pose proof (sys_step_left _ _ _ Hst Hq Hp'). lia.
  - assert (health_position p' <> health_position p) as Hp' by congruence.
    pose proof (process_step_left _ _ Hst Hm Hp'). lia.
  - destruct Ht as [->| ->]; simpl; lia.
Qed.

Lemma own_step_sn x : signalled x -> sn own_step x.
Proof.
  remember (left_to_do x) as n eqn:Hn. revert x Hn.
  induction n as [n IH] using lt_wf_ind. intros x -> Hx. constructor. intros x' Hs.
  eapply IH; [by apply own_step_left|done|]. eapply life_step_signalled; [done|apply Hs].
Qed.
(** The main goroutine has seen the checker and the controller stop, set the
    teardown bypass, closed the loader and unpinned the maps. *)
Record finished (x : life) : Prop := {
  fin_main : exists ok, Health.p_mpc (l_health x) = Health.TornDown true ok;
  fin_tail : exists err, l_tail x = Exited true err
}.

(** After the signal, as long as no wait was given up, the process can move
    until it has finished. *)
Lemma own_step_progress x :
  tail_ok x -> signalled x -> timed_out x = false ->
  finished x \/ exists x', own_step x x' /\ (ctl_done (l_ctl x) = true -> l_ctl x' = l_ctl x).
Proof.
  intros Htail [Hm Hc] Ht. unfold tail_ok in Htail.
  destruct x as [[s_ kn mn r es i c d m] [ck s pc mpc] e t]. unfold timed_out in *.
  simpl in *. subst c.
  assert (forall p' e' t', position (Life (Sys s_ kn mn r es i true d m) p' e' t') <>
      position (Life (Sys s_ kn mn r es i true d m) (Health.Process ck s pc mpc) e t) ->
    timed_out (Life (Sys s_ kn mn r es i true d m) p' e' t') = false ->
    life_step th range (Life (Sys s_ kn mn r es i true d m) (Health.Process ck s pc mpc) e t)
      (Life (Sys s_ kn mn r es i true d m) p' e' t') ->
    finished (Life (Sys s_ kn mn r es i true d m) (Health.Process ck s pc mpc) e t) \/
    exists x', own_step (Life (Sys s_ kn mn r es i true d m) (Health.Process ck s pc mpc) e t) x' /\
      (d = true -> l_ctl x' = Sys s_ kn mn r es i true d m)) as Hmove.
  { intros p' e' t' ???. right. exists (Life (Sys s_ kn mn r es i true d m) p' e' t'). split; [|done].
    split; [done..| |done]. split; simpl; tauto. }
  destruct mpc as [| | | |[] ok]; try done.
  - destruct Htail as [->|(?&?&?)]; [|done]. destruct pc as [|on|].
    + eapply Hmove, life_health; [..|by apply Health.do_stop|]; done.
    + destruct (Health.set_bypass on s) as [ok s'] eqn:E.
      eapply Hmove, life_health; [..|by apply Health.do_call|]; done.
    + eapply Hmove, life_health; [..|by apply Health.do_done|]; done.
  - destruct Htail as [->|(?&?&?)]; [|done].
    destruct (Health.set_bypass true s) as [ok s'] eqn:E.
    eapply Hmove, life_health; [..|eapply Health.do_teardown; [by left|exact E]|]; done.
  - destruct t as [| | |[]|[] err]; try done.
    + destruct d; [by eapply Hmove, life_ctl_done|]. right. eexists. split; [split|done];
        [by apply life_ctl; [| apply ctl_cancel|]|done|split; simpl; tauto|done].
    + destruct (Close e) as [ok' e'] eqn:E.
      by eapply Hmove, (life_close _ _ _ _ _ _ _ CtlSeen); [..|left|].
    + destruct (Unpin e) as [err e'] eqn:E. by eapply Hmove, life_unpin.
    + left. split; simpl; eauto.
Qed.




(** When the controller has returned, the rest of the process finishes without
    it. *)
Definition rest_step (x x' : life) : Prop := life_step th range x x' /\ l_ctl x' = l_ctl x.

Lemma rest_finishes x :
  tail_ok x -> signalled x -> timed_out x = false -> ctl_done (l_ctl x) = true ->
  exists x', rtc rest_step x x' /\ finished x'.
Proof.
  intros Hok Hs Ht Hd. pose proof (own_step_sn x Hs) as Hsn. induction Hsn as [x _ IH].
  destruct (own_step_progress x) as [?|(y&Hy&Hl)]; [done..|by exists x|]. specialize (Hl Hd).
  pose proof Hy as [Hstep _ _ Hp].
  destruct (IH y) as (x'&?&?); [done|by eapply tail_ok_step|by eapply life_step_signalled|done|by rewrite Hl|].
  exists x'. split; [|done]. eapply rtc_l; [by split|done].
Qed.

End termination.

(** ** Properties *)

Section properties.
Context {L : LoadEnv} {LO : LoadEnvOk L}.

(** C16. The shutdown is ordered.  In every interleaving of the monitor, the
    controller, the checker and the main goroutine: all programs and maps are
    held until the teardown bypass has been attempted and the wait for the
    controller is over, and then released when closing does not fail; if main
    saw the controller's Done(), the manager counts no interface from then on,
    and, when closing a link does not fail ([DetachAll] drops an attachment whose
    links do not close), no program is on any interface, before the maps are
    closed and unpinned; if it
    also saw the checker's Done() and its [SetBypass(true)] succeeded, the
    bypass flag is still on; and when [Unpin] succeeds the process ends with the
    pin directory gone. *)
Theorem ordered_shutdown {T : TcxLinks} {TO : TcxLinksOk T}
    {B : Health.BypassSetter} {BO : Health.BypassSetterOk B} th range k st e x :
  (forall m, range m ≡ₚ map_to_list m) -> live k = ∅ -> Health.setter_wf st ->
  held e = all_objects ->
  rtc (life_step th range) (life_init k st e) x ->
  (held (l_env x) = all_objects \/
   closed (l_tail x) = true /\ exists a ok, Health.p_mpc (l_health x) = Health.TornDown a ok) /\
  (LoadEnvUp L -> closed (l_tail x) = true -> held (l_env x) = ∅) /\
  (ctl_seen (l_tail x) = true ->
     AttachedCount (mgr (l_ctl x)) = 0 /\
     (TcxLinksUp T -> live (kernel (mgr (l_ctl x))) = ∅)) /\
  (Health.p_mpc (l_health x) = Health.TornDown true true ->
     Health.flag (Health.p_setter (l_health x)) = true) /\
  (forall b, l_tail x = Exited b None -> pinned (l_env x) = None).
Proof.
  intros Hrange Hk Hw He Hr. apply reachable_life_ok in Hr as [Hc Hh Ho Hcl Ht Hs Hu]; [|done..].
  split_and!; [|done| | |exact Hu].
  - destruct (closed (l_tail x)) eqn:E; [right|by left; apply Ho].
    split; [done|]. destruct Ht as [Ht|?]; [by rewrite Ht in E|done].
  - intros Hseen. specialize (Hs Hseen). split.
    + unfold AttachedCount. by rewrite (reachable_done_empty _ _ _ _ Hc Hs), map_size_empty.
    + intros TU. apply (reachable_sys_ok range Hrange) in Hc as [_ Hd _]; [|done]. by apply Hd.
  - intros Hm. destruct Hh as [_ Hok].
    rewrite Hm in Hok. by apply Hok.
Qed.

End properties.

(** ** The theorem on the concrete machine *)

#[local] Existing Instance LoaderProps.RefSyscallsOk.
#[local] Existing Instance Health.LoaderSetterOk.

(** A pod arrives, the signal comes, and the process shuts down. *)
Definition running_machine : ref_machine := RefMachine (Some (list_to_set map_names)) all_objects.

Definition shut_down (l : @Health.setter Health.LoaderSetter)
  : @life RefEnv HealthyTcx (Health.LoaderSetter (M := LoaderProps.RefSyscalls)) :=
  Life
    (Sys [new_pod] pod_known MainWait ResyncWait [] false true true
      (DetachAll map_to_list (mgr pod_attached)).2)
    (Health.Process Health.NewChecker (Health.set_bypass true l).2
      Health.Stopped (Health.TornDown true (Health.set_bypass true l).1))
    (RefMachine None ∅ : @env RefEnv) (Exited true None).

Lemma shut_down_run l :
  rtc (life_step (B := Health.LoaderSetter) 3 map_to_list)
    (life_init tcx1 l (running_machine : @env RefEnv)) (shut_down l).
Proof.
  eapply rtc_l; [apply life_ctl; [reflexivity|
    apply (main_update _ _ _ _ _ _ _ _ _ _ new_pod pod_known (Some add_event));
    vm_compute; reflexivity|reflexivity]|].
  eapply rtc_l; [apply life_ctl; [reflexivity|apply main_send; vm_compute; lia|reflexivity]|].
  eapply rtc_l; [apply life_ctl; [reflexivity|apply ctl_event|reflexivity]|].
  eapply rtc_l; [apply life_signal|].
  eapply rtc_l; [apply life_health; [reflexivity|apply Health.do_stop; reflexivity|reflexivity]|].
  eapply rtc_l; [apply life_health; [reflexivity|apply Health.do_done|reflexivity]|].
  eapply rtc_l; [apply life_health; [reflexivity|
    refine (Health.do_teardown 3 _ _ _ Health.DoneSeen _ _ (or_introl eq_refl) _);
    apply surjective_pairing|reflexivity]|].
  eapply rtc_l; [apply life_ctl; [reflexivity|apply ctl_cancel|reflexivity]|].
  eapply rtc_l; [apply life_ctl_done; reflexivity|].
  eapply rtc_l; [eapply (life_close _ _ _ _ _ true _ CtlSeen); [left; reflexivity|reflexivity]|].
  eapply rtc_l; [eapply (life_unpin _ _ _ _ _ None); vm_compute; reflexivity|].
  apply rtc_refl.
Qed.

Lemma ordered_shutdown_witness :
  let x := shut_down Health.health_loader in
  AttachedCount (mgr (l_ctl x)) = 0 /\ live (kernel (mgr (l_ctl x))) = ∅ /\
  Health.flag (Health.p_setter (l_health x)) = true /\ pinned (l_env x) = None.
Proof.
  destruct (ordered_shutdown (L := RefEnv) (T := HealthyTcx) (TO := HealthyTcxOk)
    (BO := Health.LoaderSetterOk (MO := LoaderProps.RefSyscallsOk)) 3 map_to_list tcx1
    Health.health_loader running_machine (shut_down Health.health_loader)
    (fun _ => Permutation_refl _) eq_refl Health.health_loader_wf eq_refl
    (shut_down_run Health.health_loader))
    as (_ & _ & Hd & Hb & Hu).
  split; [exact (proj1 (Hd eq_refl))|]. split; [exact (proj2 (Hd eq_refl) HealthyTcxUp)|].
  split; [exact (Hb eq_refl)|exact (Hu true eq_refl)].
Defined.


