(* ===== verification/Gateway.v ===== *)
(** * The gateway: the running control plane and the datapath together

    [System.node] and [Health.process] over one set of maps.  The loader that
    the health checker and the main goroutine call holds [config_map],
    [suffix_rules] and the per-CPU counters that the programs read and write;
    a step is a packet on some CPU, the delete of a run, an eviction, the kernel moving on, or a
    step of the checker or the main goroutine. *)

From S2P Require Import Prelude.
From S2P Require Import Types.
From S2P Require Import Kernel.
From S2P Require Import Ingress.
From S2P Require Import Egress.
From S2P Require Import Delayed.
From S2P Require Import DatapathSpec.
From S2P Require Import RefKernel.
From S2P Require Import Samples.
From S2P Require Import IngressProps.
From S2P Require Import EgressProps.
From S2P Require Import System.
From S2P Require Import Loader.
From S2P Require Import LoaderProps.
From S2P Require Import Health.

Section gateway.
Context {H : BpfHelpers} {M : MapSyscalls} (th : Z).

(** What a CPU has besides its counters, which are in the loader's map. *)
Definition slot_cpu (metrics : list Z) (slot : list scratch_buf * option conntrack_key) : cpu :=
  Cpu metrics slot.1 slot.2.
Definition cpu_slot (c : cpu) : list scratch_buf * option conntrack_key :=
  (cpu_scratch c, cpu_pending c).

(** The process, whose setter is the loader, and what else the programs use. *)
Record gateway := Gateway {
  g_proc : @process LoaderSetter;
  g_ct : ct_map;
  g_slots : list (list scratch_buf * option conntrack_key);    (* per CPU *)
  g_kern : kern
}.

Definition g_loader (g : gateway) : loader := p_setter (g_proc g).

(** The node the programs run on. *)
Definition g_node (g : gateway) : node :=
  Node (ConfigMap (g_loader g)) (SuffixRules (g_loader g)) (g_ct g)
    (zip_with slot_cpu (MetricsMap (g_loader g)) (g_slots g)) (g_kern g).

Definition with_setter (l : loader) (p : @process LoaderSetter) : @process LoaderSetter :=
  @Process LoaderSetter (p_checker p) l (p_cpc p) (p_mpc p).

(** The maps as a run of a program leaves them; [k] is what the process's next
    system calls depend on. *)
Definition set_node (n : node) (k : sysk) (g : gateway) : gateway :=
  Gateway
    (with_setter (Loader (nd_config n) (nd_rules n) (map cpu_metrics (nd_cpus n)) k) (g_proc g))
    (nd_ct n) (map cpu_slot (nd_cpus n)) (nd_kern n).

(** The kernel moves on. *)
Definition set_kern (kt : kern) (k : sysk) (g : gateway) : gateway :=
  Gateway (with_setter (Loader (ConfigMap (g_loader g)) (SuffixRules (g_loader g))
    (MetricsMap (g_loader g)) k) (g_proc g)) (g_ct g) (g_slots g) kt.

Definition calls (g : gateway) : sysk := Loader.Sys (g_loader g).

Inductive gw_step (g : gateway) : gateway -> Prop :=
  | gw_ingress i c p :
      nd_cpus (g_node g) !! i = Some c -> cpu_pending c = None -> skb_len p < 2 ^ 32 ->
      gw_step g (set_node (write_back (g_node g) i (ingress_part (cpu_view (g_node g) c p)))
        (calls g) g)
  | gw_egress i c p :
      nd_cpus (g_node g) !! i = Some c -> cpu_pending c = None -> skb_len p < 2 ^ 32 ->
      gw_step g (set_node (write_back (g_node g) i (egress_part (cpu_view (g_node g) c p)))
        (calls g) g)
  | gw_delete i c key :
      nd_cpus (g_node g) !! i = Some c -> cpu_pending c = Some key ->
      gw_step g (set_node (finish_delete (g_node g) i c key) (calls g) g)
  | gw_evict ct :
      ct ⊆ g_ct g -> gw_step g (Gateway (g_proc g) ct (g_slots g) (g_kern g))
  | gw_kern kt k : gw_step g (set_kern kt k g)
  | gw_process p' :
      process_step th (g_proc g) p' -> gw_step g (Gateway p' (g_ct g) (g_slots g) (g_kern g)).

(** The gateway when startup has attached the programs and made the checker,
    with bypass off. *)
Record gateway_init (cfg : gateway_config) (g : gateway) : Prop := {
  gi_node : node_init cfg (g_node g);
  gi_bypass : bypass cfg = 0;
  gi_proc : g_proc g = @Process LoaderSetter NewChecker (g_loader g) Waiting Serving
}.

Lemma zip_cpus (cs : list cpu) : zip_with slot_cpu (map cpu_metrics cs) (map cpu_slot cs) = cs.
Proof. induction cs as [|[] cs IH]; [done|]. simpl. by rewrite IH. Qed.

Lemma g_node_set_node n k g : g_node (set_node n k g) = n.
Proof. destruct n. unfold g_node. simpl. by rewrite zip_cpus. Qed.
End gateway.

(** ** A step of the gateway is a step of the node or none *)

Section refinement.
Context {H : BpfHelpers} {HK : BpfHelpersOk H} {M : MapSyscalls} {MO : MapSyscallsOk M} (th : Z).
Implicit Types (g : gateway) (p : @process LoaderSetter).

Definition same_maps (l l' : loader) : Prop :=
  ConfigMap l' = ConfigMap l /\ SuffixRules l' = SuffixRules l /\ MetricsMap l' = MetricsMap l.

(** The loader after a step of the process: as it was, or with the bypass flag
    rewritten. *)
Lemma process_step_maps c p p' :
  ConfigMap (p_setter p) = [c] -> process_step th p p' ->
  same_maps (p_setter p) (p_setter p') \/
  exists on : bool, ConfigMap (p_setter p') = [with_bypass (if on then 1 else 0) c] /\
    SuffixRules (p_setter p') = SuffixRules (p_setter p) /\
    MetricsMap (p_setter p') = MetricsMap (p_setter p).
Proof.
  intros Hc Hs.
  assert (forall on (s s' : loader) ok, ConfigMap s = [c] ->
    @set_bypass LoaderSetter on s = (ok, s') ->
    same_maps s s' \/ exists on : bool, ConfigMap s' = [with_bypass (if on then 1 else 0) c] /\
      SuffixRules s' = SuffixRules s /\ MetricsMap s' = MetricsMap s) as Hset.
  { intros on s s' ok Hs' E. simpl in E. destruct (SetBypass on s) as [e s1] eqn:Eb.
    injection E as _ <-. apply (set_bypass_frame _ _ _ _ c) in Eb as (Hr&Hm&Hcm); [|done].
    destruct e; [left; split; [congruence|done]|right; by eexists]. }
  destruct Hs; simpl in *; try (by left); eapply Hset; eassumption.
Qed.

Lemma gw_step_node cfg g g' :
  node_wf cfg (g_node g) -> gw_step th g g' ->
  g_node g' = g_node g \/ node_step (g_node g) (g_node g').
Proof.
  intros Hn [i c p Hc Hi Hp|i c p Hc Hi Hp|i c key Hc Hi|ct Hct|kt k|p' Hs]; rewrite ?g_node_set_node.
  - right. by apply step_ingress.
  - right. by apply step_egress.
  - right. by apply step_delete.
  - right. by apply (step_evict (g_node g)).
  - right. apply (step_kern (g_node g)).
  - destruct Hn as [(b&Hb&Hcfg) _ _ _].
    destruct (process_step_maps _ _ _ Hcfg Hs) as [(Hcm&Hr&Hm)|(on&Hcm&Hr&Hm)];
      unfold g_node, g_loader in *; simpl in *; rewrite Hr, Hm, Hcm; [by left|right].
    pose proof (step_set_bypass (g_node g) (if on then 1 else 0)) as Hstep.
    unfold g_node, g_loader in Hstep. simpl in Hstep. rewrite Hcfg in *. apply Hstep.
    by destruct on.
Qed.

Lemma gw_step_wf cfg g g' :
  node_wf cfg (g_node g) -> gw_step th g g' -> node_wf cfg (g_node g').
Proof.
  intros Hn Hs. destruct (gw_step_node _ _ _ Hn Hs) as [->|]; [done|]. by eapply node_step_wf.
Qed.

Lemma gw_steps_node cfg g g' :
  node_wf cfg (g_node g) -> rtc (gw_step th) g g' ->
  node_wf cfg (g_node g') /\ rtc node_step (g_node g) (g_node g').
Proof.
  intros Hn Hr. induction Hr as [g|g g1 g2 Hs _ IH]; [done|].
  destruct (IH (gw_step_wf _ _ _ Hn Hs)) as [? Hr]. split; [done|].
  destruct (gw_step_node _ _ _ Hn Hs) as [<-|]; [done|by eapply rtc_l].
Qed.
End refinement.

(** ** What the process makes of the flag *)

Section failover.
Context {H : BpfHelpers} {HK : BpfHelpersOk H} {M : MapSyscalls} {MO : MapSyscallsOk M} (th : Z).
Implicit Types (g : gateway) (p : @process LoaderSetter).

(** Before the signal, when no [SetBypass] fails: a call that the checker is
    about to make is the one that brings the flag in line with its count. *)
Definition in_line (c : Checker) (l : loader) (pc : checker_pc) : Prop :=
  @flag _ LoaderSetterOk l = bypassActive c /\
  match pc with
  | Waiting => bypassActive c = (th <=? consecutiveFailures c)
  | Calling on => on = (th <=? consecutiveFailures c) /\ bypassActive c = negb on
  | Stopped => False
  end.

Definition counted_to (k : Z) (c : Checker) : Prop := 0 <= consecutiveFailures c <= k.

Lemma probe_in_line k c l failed c' call :
  0 < th -> 0 <= k < 2 ^ 63 - 1 -> counted_to k c -> in_line c l Waiting ->
  probe_decide th failed c = (c', call) ->
  counted_to (k + 1) c' /\
  in_line c' l (match call with Some on => Calling on | None => Waiting end).
Proof.
  unfold counted_to. intros Hth Hk Hc [Hf Ha] E. unfold probe_decide in E. destruct failed.
  - rewrite i64_small in E by lia. cbn [consecutiveFailures bypassActive] in E.
    destruct (Z.leb_spec th (consecutiveFailures c)), (Z.leb_spec th (consecutiveFailures c + 1));
      try lia; rewrite Ha in E; cbn in E; injection E as <- <-; unfold in_line;
      cbn [bypassActive consecutiveFailures negb];
      (split; [lia|]); rewrite ?Hf, ?Ha; split_and!; try done;
      symmetry; first [by apply Z.leb_le|by apply Z.leb_gt].
  - destruct (bypassActive c) eqn:Hb; injection E as <- <-; unfold in_line;
      cbn [bypassActive consecutiveFailures negb];
      rewrite (proj2 (Z.leb_gt th 0)) by lia; rewrite ?Hb; (split; [lia|done]).
Qed.

Definition steady (k : Z) p : Prop :=
  counted_to k (p_checker p) /\ in_line (p_checker p) (p_setter p) (p_cpc p).

Lemma process_step_steady k p p' :
  (forall on (s : loader), @setter_wf _ LoaderSetterOk s ->
     (@set_bypass LoaderSetter on s).1 = true) ->
  0 < th -> 0 <= k < 2 ^ 63 - 1 -> @setter_wf _ LoaderSetterOk (p_setter p) ->
  (p_mpc p = Serving -> steady k p) -> process_step th p p' -> p_mpc p' = Serving ->
  steady (k + 1) p'.
Proof.
  intros Hup Hth Hk Hw Hst Hs Hm. unfold steady in *.
  destruct Hs as [c s m failed c' call _ E|c s m Hc|c s m on ok s' E|c s m Hc|c s pc|c s|c s pc
    |c s pc m ok s' _ E]; cbn [p_checker p_setter p_cpc p_mpc] in *; subst; try done.
  - destruct (Hst eq_refl). by eapply probe_in_line.
  - pose proof (Hup on s Hw) as Hok. destruct (@set_bypass_ok _ LoaderSetterOk _ _ _ _ Hw E) as [_ Hfl].
    rewrite E in Hok. cbn [fst] in Hok. subst ok. destruct (Hst eq_refl) as [[? ?] [_ [-> _]]].
    split; [unfold counted_to; simpl; lia|]. by split.
Qed.
(** The packets leave the configuration, the rules and the process as they are. *)
Lemma gw_step_frame cfg g g' :
  node_wf cfg (g_node g) -> gw_step th g g' ->
  SuffixRules (g_loader g') = SuffixRules (g_loader g) /\
  (process_step th (g_proc g) (g_proc g') \/
   exists l, g_proc g' = with_setter l (g_proc g) /\ ConfigMap l = ConfigMap (g_loader g)).
Proof.
  intros Hn [i c p Hc _ Hp|i c p Hc _ Hp|i c key _ _|ct Hct|kt k|p' Hs].
  - destruct (ingress_part_frame _ _ _ _ p Hn Hc Hp) as [Hpc Hpr]. split; [exact Hpr|right].
    eexists. split; [reflexivity|]. exact Hpc.
  - destruct (egress_part_frame _ _ _ _ p Hn Hc Hp) as [Hpc Hpr]. split; [exact Hpr|right].
    eexists. split; [reflexivity|]. exact Hpc.
  - unfold finish_delete. destruct (do_delete _ _ _). split; [done|right]. eexists. by split.
  - split; [done|right]. exists (g_loader g). unfold g_loader. simpl. by destruct (g_proc g).
  - split; [done|right]. eexists. by split.
  - split; [|by left]. destruct Hn as [(b&_&Hcfg) _ _ _].
    by destruct (process_step_maps _ _ _ _ Hcfg Hs) as [(_&?&_)|(?&_&?&_)].
Qed.

Lemma flag_config (l l' : loader) :
  ConfigMap l' = ConfigMap l -> @flag _ LoaderSetterOk l' = @flag _ LoaderSetterOk l.
Proof. intros E. simpl. by rewrite E. Qed.

Lemma flag_bypass (l : loader) c :
  ConfigMap l = [c] -> @flag _ LoaderSetterOk l = negb (bypass c =? 0).
Proof. intros E. simpl. by rewrite E. Qed.

Definition setter_up : Prop := forall on (s : loader),
  @setter_wf _ LoaderSetterOk s -> (@set_bypass LoaderSetter on s).1 = true.

Record gw_ok (cfg : gateway_config) (rules : rules_map) (k : Z) (g : gateway) : Prop := {
  go_wf : node_wf cfg (g_node g);
  go_rules : SuffixRules (g_loader g) = rules;
  go_teardown : teardown_ok (BO := LoaderSetterOk) (g_proc g);
  go_steady : setter_up -> p_mpc (g_proc g) = Serving -> steady k (g_proc g)
}.

Lemma steady_frame k p l :
  ConfigMap l = ConfigMap (p_setter p) -> steady k p -> steady (k + 1) (with_setter l p).
Proof.
  intros Hl [Hc [Hf Hpc]]. split; [unfold counted_to in *; simpl; lia|].
  split; [|done]. simpl p_setter. by rewrite (flag_config _ _ Hl).
Qed.

Lemma gw_ok_init cfg g : 0 < th -> gateway_init cfg g -> gw_ok cfg (SuffixRules (g_loader g)) 0 g.
Proof.
  intros Hth [Hn Hb Hp]. pose proof (init_config _ _ Hn) as Hcfg. simpl in Hcfg.
  split; [by apply node_init_wf|done| |].
  - rewrite Hp. split; [by eexists|done].
  - intros _ _. rewrite Hp. split; [by split|]. split; simpl.
    + by rewrite Hcfg, Hb.
    + symmetry. by apply Z.leb_gt.
Qed.

Lemma teardown_frame p (l : loader) :
  ConfigMap l = ConfigMap (p_setter p) -> teardown_ok (BO := LoaderSetterOk) p ->
  teardown_ok (BO := LoaderSetterOk) (with_setter l p).
Proof.
  intros Hl [[cf Hw] Ht]. split; [exists cf; simpl; by rewrite Hl|].
  simpl p_mpc. simpl p_setter. by rewrite (flag_config _ _ Hl).
Qed.

Lemma gw_ok_step cfg rules k g g' :
  0 < th -> 0 <= k < 2 ^ 63 - 1 -> gw_ok cfg rules k g -> gw_step th g g' ->
  gw_ok cfg rules (k + 1) g'.
Proof.
  intros Hth Hk [Hn Hr Ht Hst] Hs.
  destruct (gw_step_frame _ _ _ Hn Hs) as [Hr' [Hps|(l&Hp&Hl)]].
  - split; [by eapply gw_step_wf|by rewrite Hr'|by eapply process_step_ok|].
    intros Hup Hm. eapply process_step_steady; try done; [apply Ht|by apply Hst].
  - split; [by eapply gw_step_wf|by rewrite Hr'|rewrite Hp; by apply teardown_frame|].
    intros Hup Hm. rewrite Hp in *. by apply steady_frame, Hst.
Qed.

Lemma gw_ok_steps cfg rules k g g' :
  0 < th -> nsteps (gw_step th) k g g' -> forall j, gw_ok cfg rules (Z.of_nat j) g ->
  Z.of_nat (k + j) < 2 ^ 63 -> gw_ok cfg rules (Z.of_nat (k + j)) g'.
Proof.
  intros Hth. induction 1 as [g|k g1 g2 g3 Hs _ IH]; intros j Hg Hk; [done|].
  replace (S k + j)%nat with (k + S j)%nat in * by lia. apply IH; [|lia].
  rewrite Nat2Z.inj_succ, <- Z.add_1_r. eapply gw_ok_step; try done. lia.
Qed.

(** A packet on a node whose flag is on. *)
Lemma flagged_untouched cfg g i c sk :
  node_wf cfg (g_node g) -> @flag _ LoaderSetterOk (g_loader g) = true ->
  nd_cpus (g_node g) !! i = Some c -> skb_len sk < 2 ^ 32 ->
  let s := cpu_view (g_node g) c sk in
  same_but_scratch (run dns_gateway_ingress s).1
    (count [METRIC_TOTAL_PACKETS; METRIC_BYPASS_ACTIVE] s).
Proof.
  intros Hn Hf Hc Hp s. pose proof (view_wf _ _ _ _ _ Hn Hc Hp) as Hv.
  destruct Hn as [(b&_&Hcfg) _ _ _]. rewrite (flag_bypass _ _ Hcfg) in Hf.
  eapply ingress_bypass; [done|exact Hcfg|]. by apply negb_true_iff, Z.eqb_neq in Hf.
Qed.
End failover.

(** ** Properties *)

Section properties.
Context {H : BpfHelpers} {HK : BpfHelpersOk H} {M : MapSyscalls} {MO : MapSyscallsOk M}.

(** The gateway refines the node.  From the state that startup leaves, every
    run of the process beside the traffic, whatever map calls fail, is a run of
    [System.node] between the nodes that the programs see, so that what holds
    of reachable nodes holds of the running gateway; the rules stay as startup
    wrote them, and so does the configuration except for its bypass flag. *)
Theorem gateway_refines_node th cfg g0 g :
  gateway_init cfg g0 -> rtc (gw_step th) g0 g ->
  node_init cfg (g_node g0) /\ rtc node_step (g_node g0) (g_node g) /\
  nd_rules (g_node g) = nd_rules (g_node g0) /\
  exists b, is_u16 b /\ nd_config (g_node g) = [with_bypass b cfg].
Proof.
  intros [Hi _ _] Hr. pose proof (node_init_wf _ _ Hi) as Hn. split; [done|].
  split; [by eapply gw_steps_node|]. split; [|by eapply gw_steps_node].
  clear Hi. induction Hr as [g|g g1 g2 Hs _ IH]; [done|].
  rewrite IH by (by eapply gw_step_wf). simpl. by eapply gw_step_frame.
Qed.

(** C4. Failover.  In every interleaving of packets, evictions, probes, their
    [SetBypass] calls and the shutdown, up to [2^63] steps: when no call fails,
    between probes a checker that has counted [FailureThreshold] failures in a
    row has every packet pass the ingress program untouched, and below the
    threshold the program runs with exactly the configuration and the rules that
    startup wrote; and once main has seen the checker stop and its
    [SetBypass(true)] has succeeded, every packet passes untouched, whether or
    not earlier calls failed. *)
Theorem gateway_failover th cfg g0 g k i c p :
  0 < th -> gateway_init cfg g0 -> nsteps (gw_step th) k g0 g -> Z.of_nat k < 2 ^ 63 ->
  nd_cpus (g_node g) !! i = Some c -> skb_len p < 2 ^ 32 ->
  let s := cpu_view (g_node g) c p in
  let untouched := same_but_scratch (run dns_gateway_ingress s).1
    (count [METRIC_TOTAL_PACKETS; METRIC_BYPASS_ACTIVE] s) in
  (setter_up -> p_mpc (g_proc g) = Serving -> p_cpc (g_proc g) = Waiting ->
     if th <=? consecutiveFailures (p_checker (g_proc g)) then untouched
     else st_config s = [cfg] /\ st_rules s = SuffixRules (g_loader g0)) /\
  (p_mpc (g_proc g) = TornDown true true -> untouched).
Proof.
  intros Hth Hi Hs Hk Hc Hp s untouched.
  pose proof (gi_bypass _ _ Hi) as Hb. apply (gw_ok_init th) in Hi; [|done].
  pose proof (gw_ok_steps th _ _ _ _ _ Hth Hs 0 Hi ltac:(lia)) as [Hn Hr [_ Ht] Hst].
  split.
  - intros Hup Hm Hw. destruct (Hst Hup Hm) as [_ [Hf Hpc]]. rewrite Hw in Hpc.
    rewrite Hpc in Hf. destruct (th <=? _); [by eapply flagged_untouched|]. split; [|done].
    pose proof (node_config _ _ Hn) as (b&_&Hcfg). 
    rewrite (flag_bypass _ _ Hcfg) in Hf. apply negb_false_iff, Z.eqb_eq in Hf. simpl in Hf.
    simpl in Hcfg |- *. rewrite Hcfg, Hf, <- Hb. by destruct cfg.
  - intros Hm. rewrite Hm in Ht. eapply flagged_untouched; try done. by apply Ht.
Qed.
End properties.

(** ** The theorems on the reference machine *)

#[local] Existing Instance RefSyscallsOk.

Definition gateway0 : gateway (M := RefSyscalls) :=
  Gateway
    (@Process LoaderSetter NewChecker
      (Loader [sample_config ACTION_HOST_RESOLVE] ∅
         [replicate METRIC__MAX 0; replicate METRIC__MAX 0] []) Waiting Serving)
    ∅ [cpu_slot cpu_init; cpu_slot cpu_init] (RefKern [] 1000).

Lemma gateway0_init : gateway_init (sample_config ACTION_HOST_RESOLVE) gateway0.
Proof. split; [exact node0_init|reflexivity|reflexivity]. Qed.

(** A failing probe, its call, and then a query on CPU 0. *)
Definition gateway1 : gateway :=
  Gateway (@Process LoaderSetter (MkChecker 1 true 1)
      (SetBypass true (g_loader gateway0)).2 Waiting Serving)
    (g_ct gateway0) (g_slots gateway0) (g_kern gateway0).

Definition gateway2 : gateway :=
  set_node (write_back (g_node gateway1) 0
    (ingress_part (cpu_view (g_node gateway1) cpu_init query_skb)))
    (calls gateway1) gateway1.

Lemma gateway2_steps : nsteps (gw_step 1) 3 gateway0 gateway2.
Proof.
  eapply nsteps_l; [refine (gw_process 1 gateway0
    (@Process LoaderSetter (MkChecker 1 false 1) (g_loader gateway0) (Calling true) Serving) _);
    refine (do_probe (B := LoaderSetter) 1 NewChecker (g_loader gateway0) Serving true _
      (Some true) _ _); reflexivity|].
  apply (nsteps_l _ _ _ gateway1).
  - refine (gw_process 1 (Gateway _ _ _ _) _ _).
    refine (do_call (B := LoaderSetter) 1 _ (g_loader gateway0) Serving true true _ _).
    reflexivity.
  - apply nsteps_once. by apply (gw_ingress 1 gateway1 0 cpu_init query_skb).
Qed.

Lemma gateway_refines_node_witness :
  rtc node_step (g_node gateway0) (g_node gateway2) /\
  nd_config (g_node gateway2) = [with_bypass 1 (sample_config ACTION_HOST_RESOLVE)].
Proof.
  destruct (gateway_refines_node 1 (sample_config ACTION_HOST_RESOLVE) gateway0 gateway2
    gateway0_init (rtc_nsteps_2 _ _ _ gateway2_steps)) as (_&Hr&_).
  split; [exact Hr|vm_compute; reflexivity].
Defined.

Lemma gateway_failover_witness :
  let s := cpu_view (g_node gateway2) cpu_init query_skb in
  same_but_scratch (run dns_gateway_ingress s).1
    (count [METRIC_TOTAL_PACKETS; METRIC_BYPASS_ACTIVE] s).
Proof.
  refine (proj1 (gateway_failover 1 (sample_config ACTION_HOST_RESOLVE) gateway0 gateway2 3 1
    cpu_init query_skb eq_refl gateway0_init gateway2_steps eq_refl _ eq_refl) _ eq_refl eq_refl).
  - vm_compute; reflexivity.
  - exact ref_set_bypass.
Defined.
