(* ===== verification/Machine.v ===== *)
(** * The machine: interfaces, programs and the process

    [Gateway] and [Shutdown] put together.  A packet comes through an interface
    in one direction; it meets a program when the kernel has a live TCX link
    there, and passes as it is otherwise.  The links come and go with the
    controller's calls on the attach manager, which are made here one system call
    at a time ([AttachSteps]), so that every order of packets, deletes, netlink
    events, single attaches and closes, interfaces going away, probes and
    shutdown steps is a run. *)

From stdpp Require Import strings.
From S2P Require Import Prelude Types Kernel Ingress Egress Delayed DatapathSpec RefKernel Samples System.
From S2P Require Import Bindings Attach AttachSteps Monitor Controller Lifecycle.
From S2P Require Loader LoaderProps.
From S2P Require Import Health Gateway Shutdown.

(** ** Links *)

(** Whether packets of interface [i] in direction [d] run a program. *)
Definition hooked {T : TcxLinks} (k : tcx) (i : Z) (d : direction) : bool :=
  bool_decide (set_Exists (fun l => link_info k !! l = Some (i, d)) (live k)).

Lemma hooked_true {T : TcxLinks} k i d :
  hooked k i d = true <-> exists l, l ∈ live k /\ link_info k !! l = Some (i, d).
Proof. unfold hooked. by rewrite bool_decide_eq_true. Qed.

Lemma hooked_empty {T : TcxLinks} k i d : live k = ∅ -> hooked k i d = false.
Proof.
  intros Hk. apply not_true_is_false. intros (l&Hl&_)%hooked_true. rewrite Hk in Hl. set_solver.
Qed.

(** In terms of packets: a program runs on an interface only when the manager has
    it or a call is about it, and with the other one unless a call is. *)
Lemma hooked_held {T : TcxLinks} {TO : TcxLinksOk T} gone m c i d :
  call_ok gone m c -> hooked (Attach.kernel m) i d = true ->
  is_Some (attachments m !! i) \/ concerns (Attach.kernel m) c i.
Proof.
  intros Hm (l&Hl&Hi)%hooked_true.
  destruct (co_no_leak _ _ _ Hm _ Hl) as [Hf|(j&e&Ho)]; [right; by exists l, d|left].
  pose proof (co_owned_info _ _ _ _ _ _ Hm Ho) as Hj. assert (j = i) as -> by congruence.
  destruct Ho as (a&Ha&_). by eexists.
Qed.

Lemma hooked_both {T : TcxLinks} {TO : TcxLinksOk T} gone m c i d d' :
  call_ok gone m c -> ~ concerns (Attach.kernel m) c i ->
  hooked (Attach.kernel m) i d = true -> hooked (Attach.kernel m) i d' = true.
Proof.
  intros Hm Hc (l&Hl&Hi)%hooked_true.
  destruct (co_no_leak _ _ _ Hm _ Hl) as [Hf|(j&e&Ho)]; [destruct Hc; by exists l, d|].
  pose proof (co_owned_info _ _ _ _ _ _ Hm Ho) as Hj.
  assert (j = i /\ e = d) as [-> ->] by (split; congruence).
  pose proof Ho as (a&Ha&_). destruct (co_sides _ _ _ Hm i a d' Ha) as (l'&Hs'&Hi').
  assert (owned (attachments m) i d' l') as Ho' by by exists a.
  apply hooked_true. exists l'. split; [|done].
  destruct d, d'; [|by apply (co_pair _ _ _ Hm i l l')|by apply (co_pair _ _ _ Hm i l' l)|].
  all: destruct Ho as (a1&Ha1&Hs1), Ho' as (a2&Ha2&Hs2); by simplify_eq/=.
Qed.

Section machine.
Context {H : BpfHelpers} {M : Loader.MapSyscalls} {L : LoadEnv} {T : TcxLinks} (th : Z).
Context (range : gmap Z Attachment -> list (Z * Attachment)).

Record machine := Machine {
  m_life : @life L T LoaderSetter;
  m_call : call;                      (* where the controller is in a call on the manager *)
  m_gone : gset Z;                    (* the interfaces that have gone away *)
  m_ct : ct_map;
  m_slots : list (list scratch_buf * option conntrack_key);
  m_kern : kern
}.

Definition m_ctl (m : machine) : sys := l_ctl (m_life m).
Definition m_links (m : machine) : tcx := Attach.kernel (mgr (m_ctl m)).

Definition m_gateway (m : machine) : gateway :=
  Gateway (l_health (m_life m)) (m_ct m) (m_slots m) (m_kern m).

Definition with_gateway (g : gateway) (m : machine) : machine :=
  Machine (Life (m_ctl m) (g_proc g) (l_env (m_life m)) (l_tail (m_life m)))
    (m_call m) (m_gone m) (g_ct g) (g_slots g) (g_kern g).

Definition with_life (x : life) (m : machine) : machine :=
  Machine x (m_call m) (m_gone m) (m_ct m) (m_slots m) (m_kern m).

(** The controller's goroutine: what is left in the channel, whether [Run] has
    returned, the manager, and where the call on it is. *)
Definition with_ctl (es : list Event) (d : bool) (mc : AttachManager * call) (gone : gset Z)
    (m : machine) : machine :=
  let s := m_ctl m in
  Machine
    (Life (Sys (seen s) (known s) (main s) (resync s) es (interrupted s) (Controller.cancelled s) d mc.1)
       (l_health (m_life m)) (l_env (m_life m)) (l_tail (m_life m)))
    mc.2 gone (m_ct m) (m_slots m) (m_kern m).

Definition part (d : direction) : dp_state -> @dp_state (Delayed H) :=
  match d with DirIngress => ingress_part | DirEgress => egress_part end.

(** A packet on CPU [j]: what leaves, and the machine afterwards. *)
Definition packet (m : machine) (i : Z) (d : direction) (j : nat) (c : cpu) (p : skb)
  : skb * machine :=
  if hooked (m_links m) i d then
    let g := m_gateway m in
    let s := part d (cpu_view (g_node g) c p) in
    (st_skb s, with_gateway (set_node (write_back (g_node g) j s) (calls g) g) m)
  else (p, m).

(** [Controller.handle] up to its first system call. *)
Definition begin_handle (gone : gset Z) (ev : Event) (m : AttachManager) : AttachManager * call :=
  match EvType ev with
  | EventAdd => begin_attach gone (EvIfindex ev) m
  | EventRemove => begin_detach (EvIfindex ev) m
  end.

(** The steps of the process but for those of the controller's goroutine and of
    the kernel's links. *)
Definition beside_ctl (s s' : sys) : Prop :=
  mgr s' = mgr s /\ ctl_done s' = ctl_done s /\ (length (events s) <= length (events s'))%nat.

Inductive machine_step (m : machine) : machine -> Prop :=
  (* the traffic *)
  | mc_packet i d j c p :
      nd_cpus (g_node (m_gateway m)) !! j = Some c -> cpu_pending c = None -> skb_len p < 2 ^ 32 ->
      machine_step m (packet m i d j c p).2
  | mc_delete j c key :
      nd_cpus (g_node (m_gateway m)) !! j = Some c -> cpu_pending c = Some key ->
      machine_step m (with_gateway (set_node (finish_delete (g_node (m_gateway m)) j c key)
        (calls (m_gateway m)) (m_gateway m)) m)
  | mc_evict ct :
      ct ⊆ m_ct m ->
      machine_step m (Machine (m_life m) (m_call m) (m_gone m) ct (m_slots m) (m_kern m))
  | mc_kern kt k : machine_step m (with_gateway (set_kern kt k (m_gateway m)) m)
  (* the other goroutines and the signal *)
  | mc_life x :
      life_step th range (m_life m) x -> beside_ctl (m_ctl m) (l_ctl x) ->
      machine_step m (with_life x m)
  (* the controller's loop: an event is taken; the next system call of the call
     it makes; the loop is left and [DetachAll] entered; [Run] returns *)
  | mc_take ev es :
      exited (l_tail (m_life m)) = false -> ctl_done (m_ctl m) = false -> m_call m = CallIdle ->
      events (m_ctl m) = ev :: es ->
      machine_step m (with_ctl es false (begin_handle (m_gone m) ev (mgr (m_ctl m))) (m_gone m) m)
  | mc_call :
      exited (l_tail (m_life m)) = false -> m_call m <> CallIdle -> m_call m <> ClosingAll [] ->
      machine_step m (with_ctl (events (m_ctl m)) (ctl_done (m_ctl m))
        (call_next (m_gone m) (m_call m) (mgr (m_ctl m))) (m_gone m) m)
  | mc_leave :
      exited (l_tail (m_life m)) = false -> ctl_done (m_ctl m) = false -> m_call m = CallIdle ->
      Controller.cancelled (m_ctl m) = true \/ main (m_ctl m) = MainClosed /\ events (m_ctl m) = [] ->
      machine_step m (with_ctl (events (m_ctl m)) false
        (begin_detach_all range (mgr (m_ctl m))) (m_gone m) m)
  | mc_return :
      exited (l_tail (m_life m)) = false -> m_call m = ClosingAll [] ->
      machine_step m (with_ctl (events (m_ctl m)) true (mgr (m_ctl m), CallIdle) (m_gone m) m)
  (* the kernel *)
  | mc_iface_gone i kt :
      iface_gone i (m_links m) kt ->
      machine_step m (with_ctl (events (m_ctl m)) (ctl_done (m_ctl m))
        (MkManager (attachments (mgr (m_ctl m))) kt, m_call m) ({[ i ]} ∪ m_gone m) m).

(** The machine when startup is over: no program attached, bypass off. *)
Record machine_init (cfg : gateway_config) (k : tcx) (m : machine) : Prop := {
  mi_gateway : gateway_init cfg (m_gateway m);
  mi_life : exists l e, m_life m = life_init k l e /\ held e = all_objects;
  mi_links : live k = ∅;
  mi_call : m_call m = CallIdle;
  mi_gone : m_gone m = ∅
}.
End machine.

(** ** A step of the machine is a step of the gateway or none *)

Section refinement.
Context {H : BpfHelpers} {HK : BpfHelpersOk H} {M : Loader.MapSyscalls} {MO : Loader.MapSyscallsOk M}.
Context {L : LoadEnv} {T : TcxLinks} (th : Z).
Context (range : gmap Z Attachment -> list (Z * Attachment)).
Implicit Types (m : machine).

Lemma life_step_health (x x' : @life L T LoaderSetter) :
  life_step th range x x' ->
  l_health x' = l_health x \/ process_step th (l_health x) (l_health x').
Proof. intros Hs. destruct Hs; simpl; try (by left); right; [done|apply do_signal]. Qed.

Lemma machine_step_gateway m m' :
  machine_step th range m m' ->
  m_gateway m' = m_gateway m \/ gw_step th (m_gateway m) (m_gateway m').
Proof.
  intros [i d j c p Hc Hi Hp|j c key Hc Hi|ct Hct|kt k|x Hx _|ev es|?|?|?|i kt]; try (by left).
  - unfold packet. destruct (hooked _ _ _); [right|by left].
    destruct d; [by apply (gw_ingress th (m_gateway m))|by apply (gw_egress th (m_gateway m))].
  - right. by apply (gw_delete th (m_gateway m)).
  - right. by apply (gw_evict th (m_gateway m)).
  - right. apply (gw_kern th (m_gateway m)).
  - unfold m_gateway. simpl. destruct (life_step_health _ _ Hx) as [->|Hp]; [by left|right].
    by apply (gw_process th (m_gateway m)).
Qed.

(** What holds of reachable gateways holds under the machine. *)
Lemma machine_steps_gateway m m' :
  rtc (machine_step th range) m m' -> rtc (gw_step th) (m_gateway m) (m_gateway m').
Proof.
  intros Hr. induction Hr as [m|m1 m2 m3 Hs _ IH]; [done|].
  destruct (machine_step_gateway _ _ Hs) as [<-|]; [done|by eapply rtc_l].
Qed.
End refinement.

(** ** Reachable machines *)

Section invariant.
Context {H : BpfHelpers} {M : Loader.MapSyscalls} {L : LoadEnv}.
Context {T : TcxLinks} {TO : TcxLinksOk T} {TU : TcxLinksUp T} (th : Z).
Context (range : gmap Z Attachment -> list (Z * Attachment)).
Context (Hrange : forall a, range a ≡ₚ map_to_list a).
Implicit Types (m : machine).

Record machine_ok m : Prop := {
  mo_call : call_ok (m_gone m) (mgr (m_ctl m)) (m_call m);
  mo_done : ctl_done (m_ctl m) = true -> attachments (mgr (m_ctl m)) = ∅ /\ m_call m = CallIdle;
  mo_tail : tail_ok (m_life m);
  mo_seen : ctl_seen (l_tail (m_life m)) = true -> ctl_done (m_ctl m) = true
}.

Lemma machine_init_ok cfg k m : machine_init cfg k m -> machine_ok m.
Proof.
  intros [_ (l&e&Hl&_) Hk Hc Hg]. split; unfold m_ctl; rewrite ?Hl, ?Hc, ?Hg; try done.
  - by apply new_call_ok.
  - by left.
Qed.

(** A step that changes nothing of the process but its checker's map and the
    node. *)
Lemma machine_ok_traffic m g :
  p_mpc (g_proc g) = p_mpc (l_health (m_life m)) -> machine_ok m -> machine_ok (with_gateway g m).
Proof.
  intros Hp [? ? Ht ?]. split; try done. unfold tail_ok in *. simpl. by rewrite Hp.
Qed.

Lemma begin_handle_ok gone ev a :
  call_ok gone a CallIdle -> call_ok gone (begin_handle gone ev a).1 (begin_handle gone ev a).2.
Proof.
  intros Ha. unfold begin_handle. destruct (EvType ev);
    [by apply begin_attach_ok|by apply begin_detach_ok].
Qed.

(** A step of the controller's goroutine or of the links. *)
Lemma machine_ok_ctl m es d mc gone :
  call_ok gone mc.1 mc.2 -> (d = true -> attachments mc.1 = ∅ /\ mc.2 = CallIdle) ->
  (ctl_done (m_ctl m) = true -> d = true) -> machine_ok m -> machine_ok (with_ctl es d mc gone m).
Proof. intros Hc Hd Hm [_ _ Ht Hs]. split; [done..|]. intros ?. by apply Hm, Hs. Qed.

Lemma machine_step_ok m m' : machine_ok m -> machine_step th range m m' -> machine_ok m'.
Proof.
  intros Hm Hs. pose proof (mo_call _ Hm) as Hc. pose proof (mo_done _ Hm) as Hd.
  destruct Hs as [i d j c p Hcpu Hi Hp|j c key _ _|ct Hct|kt k|x Hx (Eg&Ed&_)|ev es _ Hdn Hcl _
    |_ Hnc Hna|_ Hdn Hcl _|_ Hcl|i kt Hg].
  - unfold packet. destruct (hooked _ _ _); [|done]. by apply machine_ok_traffic.
  - by apply machine_ok_traffic.
  - destruct Hm. by split.
  - by apply machine_ok_traffic.
  - destruct Hm as [_ _ Ht Hsn]. split; unfold m_ctl in *; simpl; rewrite ?Eg, ?Ed; try done.
    + by eapply tail_ok_step.
    + intros Hseen. rewrite <- Ed. by eapply seen_step.
  - rewrite Hcl in Hc. apply machine_ok_ctl; try done; [by apply begin_handle_ok|congruence].
  - apply machine_ok_ctl; try done; [by apply call_next_ok|].
    intros [_ ?]%Hd. done.
  - rewrite Hcl in Hc. apply machine_ok_ctl; try done; [by apply begin_detach_all_ok|congruence].
  - rewrite Hcl in Hc. apply machine_ok_ctl; try done.
    + by apply (call_ok_returned _ _ (ClosingAll [])); [|intros l ?%elem_of_nil].
    + intros _. split; [by apply (co_all _ _ _ Hc [])|done].
  - apply machine_ok_ctl; try done. by apply iface_gone_call_ok.
Qed.

Lemma machine_steps_ok m m' : machine_ok m -> rtc (machine_step th range) m m' -> machine_ok m'.
Proof. intros Hm Hr. induction Hr; eauto using machine_step_ok. Qed.

Lemma machine_steps_done m m' :
  machine_ok m -> rtc (machine_step th range) m m' ->
  ctl_done (m_ctl m) = true -> ctl_done (m_ctl m') = true.
Proof.
  intros Hm Hr. induction Hr as [|m1 m2 m3 Hs _ IH]; [done|]. intros Hd.
  apply IH; [by eapply machine_step_ok|]. clear IH. destruct Hs; simpl; try done; try congruence.
  - unfold packet. by destruct (hooked _ _ _).
  - unfold m_ctl. simpl. by destruct H1 as (_&->&_).
Qed.

(** Once the controller has returned, no packet meets a program. *)
Lemma done_untouched m i d j c p :
  machine_ok m -> ctl_done (m_ctl m) = true -> packet m i d j c p = (p, m).
Proof.
  intros Hm Hd. destruct (mo_done _ Hm Hd) as [Ha Hc]. pose proof (mo_call _ Hm) as Hok.
  rewrite Hc in Hok. unfold packet. by rewrite hooked_empty by (by eapply call_ok_empty).
Qed.

(** ** The shutdown of a machine *)

(** The steps that leave the process and the channel to the controller. *)
Definition settled m m' : Prop :=
  rtc (machine_step th range) m m' /\
  l_health (m_life m') = l_health (m_life m) /\ l_tail (m_life m') = l_tail (m_life m) /\
  Controller.cancelled (m_ctl m') = Controller.cancelled (m_ctl m).

Lemma settled_trans m1 m2 m3 : settled m1 m2 -> settled m2 m3 -> settled m1 m3.
Proof. intros (?&?&?&?) (?&?&?&?). split; [by etrans|]. split_and!; congruence. Qed.

(** [DetachAll] closes its links and [Run] returns. *)
Lemma detach_all_finishes ls m :
  exited (l_tail (m_life m)) = false -> m_call m = ClosingAll ls ->
  exists m', settled m m' /\ ctl_done (m_ctl m') = true.
Proof.
  revert m. induction ls as [|l ls IH]; intros m Hx Hc.
  - eexists. split; [split; [by apply rtc_once, mc_return|done]|done].
  - pose proof (mc_call th range m Hx) as Hs. rewrite Hc in Hs.
    set (m1 := with_ctl _ _ _ _ _) in Hs. destruct (IH m1 Hx eq_refl) as (m'&Hm&Hd).
    exists m'. split; [|done]. eapply settled_trans; [|exact Hm].
    split; [by apply rtc_once, Hs|done].
Qed.

(** A call comes to its end. *)
Lemma call_finishes m :
  exited (l_tail (m_life m)) = false ->
  exists m', settled m m' /\ (m_call m' = CallIdle \/ ctl_done (m_ctl m') = true).
Proof.
  remember (call_left (m_call m)) as n eqn:Hn. revert m Hn.
  induction n as [n IH] using lt_wf_ind. intros m -> Hx.
  assert (m_call m = CallIdle \/ (exists ls, m_call m = ClosingAll ls) \/
    m_call m <> CallIdle /\ m_call m <> ClosingAll []) as [Hc|[[ls Hc]|[Hi Ha]]]
    by (destruct (m_call m); eauto).
  { exists m. split; [by split|by left]. }
  { destruct (detach_all_finishes ls m Hx Hc) as (m'&?&?). exists m'. auto. }
  pose proof (mc_call th range m Hx Hi Ha) as Hs.
  set (m1 := with_ctl _ _ _ _ _) in Hs.
  destruct (IH _ (call_next_left (m_gone m) (m_call m) (mgr (m_ctl m)) Hi) m1 eq_refl Hx)
    as (m'&Hm&Hf).
  exists m'. split; [|done]. eapply settled_trans; [|exact Hm]. split; [by apply rtc_once|done].
Qed.

(** The controller leaves its loop and returns. *)
Lemma ctl_finishes m :
  exited (l_tail (m_life m)) = false -> Controller.cancelled (m_ctl m) = true ->
  exists m', settled m m' /\ ctl_done (m_ctl m') = true.
Proof.
  intros Hx Hc. destruct (call_finishes m Hx) as (m1&H1&Hi).
  destruct (ctl_done (m_ctl m1)) eqn:Hd; [by exists m1|]. destruct Hi as [Hi|]; [|done].
  pose proof H1 as (_&_&Ht&Hc1). assert (exited (l_tail (m_life m1)) = false) as Hx1 by congruence.
  set (m2 := with_ctl (events (m_ctl m1)) false (begin_detach_all range (mgr (m_ctl m1)))
    (m_gone m1) m1).
  assert (machine_step th range m1 m2) as Hs by (apply mc_leave; [done..|left; congruence]).
  destruct (detach_all_finishes _ m2 Hx1 eq_refl) as (m'&Hm&Hd').
  exists m'. split; [|done]. eapply settled_trans; [exact H1|]. eapply settled_trans; [|exact Hm].
  split; [by apply rtc_once|done].
Qed.

Lemma rest_steps_machine m x :
  rtc (rest_step th range) (m_life m) x -> rtc (machine_step th range) m (with_life x m).
Proof.
  remember (m_life m) as y eqn:Ey. intros Hr. revert m Ey.
  induction Hr as [y|y z x [Hs Hl] _ IH]; intros m ->; [by destruct m|].
  eapply rtc_l; [|exact (IH (with_life z m) eq_refl)].
  apply mc_life; [done|]. unfold beside_ctl, m_ctl. by rewrite Hl.
Qed.
End invariant.

Section shutdown.
Context {H : BpfHelpers} {M : Loader.MapSyscalls} {MO : Loader.MapSyscallsOk M} {L : LoadEnv}.
Context {T : TcxLinks} {TO : TcxLinksOk T} {TU : TcxLinksUp T} (th : Z).
Context (range : gmap Z Attachment -> list (Z * Attachment)).
Context (Hrange : forall a, range a ≡ₚ map_to_list a).

(** The machine can finish its shutdown from any point of a call. *)
Lemma machine_finishes (m : machine) :
  machine_ok m -> signalled (m_life m) -> timed_out (m_life m) = false ->
  exists m', rtc (machine_step th range) m m' /\ finished (m_life m').
Proof.
  intros Hm Hs Ht. destruct (ctl_done (m_ctl m)) eqn:Hd.
  - destruct (rest_finishes (B := LoaderSetter) th range (m_life m)) as (x&Hx&Hf); try done;
      [apply Hm|].
    exists (with_life x m). split; [by apply rest_steps_machine|done].
  - assert (exited (l_tail (m_life m)) = false) as Hx.
    { pose proof (mo_seen _ Hm) as Hseen. unfold timed_out in Ht.
      destruct (l_tail (m_life m)) as [| | | |[] err]; try done.
      - by rewrite Hseen in Hd.
      - by destruct (p_mpc _) as [| | | |[]]. }
    destruct (ctl_finishes th range m Hx (sig_ctl _ Hs)) as (m1&(Hr&Eh&Et&Ec)&Hd1).
    pose proof (machine_steps_ok th range Hrange _ _ Hm Hr) as Hm1.
    destruct (rest_finishes (B := LoaderSetter) th range (m_life m1)) as (x&Hx1&Hf); try done.
    + apply Hm1.
    + split; [by rewrite Eh; apply Hs|]. unfold m_ctl in Ec. rewrite Ec. apply Hs.
    + unfold timed_out in *. by rewrite Eh, Et.
    + exists (with_life x m1). split; [|done]. etrans; [exact Hr|]. by apply rest_steps_machine.
Qed.
End shutdown.

(** ** Properties *)

Section properties.
Context {H : BpfHelpers} {M : Loader.MapSyscalls} {MO : Loader.MapSyscallsOk M}.
Context {L : LoadEnv} {T : TcxLinks} {TO : TcxLinksOk T}.
Context (th : Z) (range : gmap Z Attachment -> list (Z * Attachment)).

(** C6. Where the programs run.  Between any two system calls, with packets,
    interfaces going away, probes and the shutdown at any moment, and when
    closing a link does not fail: a program runs on an interface only when the
    manager counts the interface as attached or the controller is in the middle
    of attaching to it or detaching from it; unless it is in the middle of that,
    the programs of both directions run on the interface or neither does; once
    main has seen the controller's Done(), whatever happens later, every packet
    of every interface leaves as it came and changes no map and no counter; and
    from every state after the signal in which no wait was given up, the middle
    of a call included, the process can get there and to its end. *)
Theorem traffic_restored cfg k m0 m :
  TcxLinksUp T -> (forall a, range a ≡ₚ map_to_list a) ->
  machine_init cfg k m0 -> rtc (machine_step th range) m0 m ->
  (forall i d, hooked (m_links m) i d = true ->
     IsAttached i (mgr (m_ctl m)) = true \/ concerns (m_links m) (m_call m) i) /\
  (forall i, ~ concerns (m_links m) (m_call m) i ->
     hooked (m_links m) i DirIngress = hooked (m_links m) i DirEgress) /\
  (ctl_seen (l_tail (m_life m)) = true ->
     forall m' i d j c p, rtc (machine_step th range) m m' -> packet m' i d j c p = (p, m')) /\
  (signalled (m_life m) -> timed_out (m_life m) = false ->
     exists m', rtc (machine_step th range) m m' /\ finished (m_life m') /\
       forall i d j c p, packet m' i d j c p = (p, m')).
Proof.
  intros TU Hrange Hi Hr. apply machine_init_ok in Hi.
  pose proof (machine_steps_ok th range Hrange _ _ Hi Hr) as Hok.
  pose proof (mo_call _ Hok) as Hc. split_and!.
  - intros i d Hd. destruct (hooked_held _ _ _ _ _ Hc Hd); [left|by right].
    by apply bool_decide_eq_true.
  - intros i Hn. apply eq_true_iff_eq. split; by eapply hooked_both.
  - intros Hseen m' i d j c p Hr'. apply done_untouched; [by eapply machine_steps_ok|].
    by eapply (machine_steps_done th range Hrange), (mo_seen _ Hok).
  - intros Hs Ht. destruct (machine_finishes th range Hrange m Hok Hs Ht) as (m'&Hr'&Hf).
    exists m'. split_and!; [done..|]. intros i d j c p.
    pose proof (machine_steps_ok th range Hrange _ _ Hok Hr') as Hok'.
    apply done_untouched; [done|]. apply (mo_seen _ Hok'). by destruct Hf as [_ [err ->]].
Qed.
End properties.

(** ** Runs on the reference machine *)

#[local] Existing Instance LoaderProps.RefSyscalls.
#[local] Existing Instance LoaderProps.RefSyscallsOk.
#[local] Existing Instance HealthyTcx.
#[local] Existing Instance HealthyTcxOk.
#[local] Existing Instance HealthyTcxUp.

Definition machine0 : machine (L := RefEnv) (T := HealthyTcx) :=
  Machine (life_init (L := RefEnv) (T := HealthyTcx) (B := LoaderSetter) tcx1 (g_loader gateway0)
      (running_machine : @env RefEnv))
    CallIdle ∅ (g_ct gateway0) (g_slots gateway0) (g_kern gateway0).

Lemma machine0_init : machine_init (sample_config ACTION_HOST_RESOLVE) tcx1 machine0.
Proof.
  split; [exact gateway0_init| |reflexivity..]. by eexists _, _.
Qed.

(** The process after the steps of the monitor and the controller to [s]. *)
Definition with_sys (s : sys) (m : machine (L := RefEnv) (T := HealthyTcx)) : machine :=
  Machine (Life s (l_health (m_life m)) (l_env (m_life m)) (l_tail (m_life m)))
    (m_call m) (m_gone m) (m_ct m) (m_slots m) (m_kern m).

Lemma with_sys_step m s :
  exited (l_tail (m_life m)) = false -> sys_step map_to_list true (m_ctl m) s ->
  Controller.cancelled s = Controller.cancelled (m_ctl m) -> beside_ctl (m_ctl m) s ->
  machine_step 3 map_to_list m (with_sys s m).
Proof.
  intros. destruct m as [[] ? ? ? ? ?]. apply (mc_life 3 map_to_list (Machine _ _ _ _ _ _) (Life s _ _ _));
    [by apply life_ctl|done].
Qed.

(** The signal arrives. *)
Definition signal (m : machine (L := RefEnv) (T := HealthyTcx)) : machine :=
  Machine (Life (cancel (l_ctl (m_life m)))
      (@Process LoaderSetter (p_checker (l_health (m_life m))) (p_setter (l_health (m_life m)))
         (p_cpc (l_health (m_life m))) Draining)
      (l_env (m_life m)) BeforeTail)
    (m_call m) (m_gone m) (m_ct m) (m_slots m) (m_kern m).

Lemma signal_step m :
  p_mpc (l_health (m_life m)) = Serving -> l_tail (m_life m) = BeforeTail ->
  machine_step 3 map_to_list m (signal m).
Proof.
  destruct m as [[s [c l pc mpc] e t] ca go ct sc kt]. simpl. intros -> ->.
  apply (mc_life 3 map_to_list (Machine _ _ _ _ _ _) (Life _ _ _ _));
    [apply (life_signal (B := LoaderSetter))|done].
Qed.

(** A pod arrives, sends a query, and the reply comes after the signal, when the
    controller has already gone. *)
Definition machine1 : machine := with_sys pod_attached machine0.
Definition machine2 : machine := (packet machine1 5 DirIngress 0 cpu_init query_skb).2.
Definition detached : sys :=
  Sys [new_pod] pod_known MainWait ResyncWait [] false true true
    (run_exit map_to_list false true (mgr pod_attached)).2.
Definition machine3 : machine := with_sys detached (signal machine2).

(** The update for the pod is received; its event is in the channel. *)
Definition pod_announced : sys :=
  Sys [new_pod] pod_known (MainEmit add_event) ResyncWait [] false false false (NewAttachManager tcx1).
Definition pod_event_sent : sys :=
  Sys [new_pod] pod_known MainWait ResyncWait [add_event] false false false (NewAttachManager tcx1).

(** The pod's event has been taken and the ingress program attached. *)
Definition machine_mid : machine :=
  let s := pod_event_sent in
  with_ctl [] false (begin_handle ∅ add_event (mgr s)) ∅ (with_sys s machine0).

Lemma machine_mid_run : rtc (machine_step 3 map_to_list) machine0 machine_mid.
Proof.
  eapply rtc_l; [apply (with_sys_step machine0 pod_announced); [reflexivity| |reflexivity|]|].
  { apply (main_update _ _ [] _ _ _ _ _ _ _ new_pod pod_known (Some add_event)).
    vm_compute; reflexivity. }
  { split; [reflexivity|]. split; [reflexivity|simpl; lia]. }
  eapply rtc_l; [apply (with_sys_step _ pod_event_sent); [reflexivity| |reflexivity|]|].
  { apply (main_send _ _ _ _ _ []). simpl. unfold EVENTS_CAP. lia. }
  { split; [reflexivity|]. split; [reflexivity|simpl; lia]. }
  apply rtc_once. apply (mc_take 3 map_to_list (with_sys pod_event_sent (with_sys pod_announced machine0)));
    reflexivity.
Qed.

Lemma machine1_run : rtc (machine_step 3 map_to_list) machine0 machine1.
Proof.
  eapply rtc_r; [exact machine_mid_run|].
  apply (mc_call 3 map_to_list machine_mid); [reflexivity|discriminate..].
Qed.

(** Between the two [AttachTCX] calls of one [Attach] the interface has the
    ingress program alone. *)
Theorem attach_window :
  rtc (machine_step 3 map_to_list) machine0 machine_mid /\
  hooked (m_links machine_mid) 5 DirIngress = true /\
  hooked (m_links machine_mid) 5 DirEgress = false.
Proof. split; [exact machine_mid_run|]. split; vm_compute; reflexivity. Qed.

Lemma machine2_shape :
  exists g, machine2 = with_gateway g machine1 /\ p_mpc (g_proc g) = Serving.
Proof.
  unfold machine2, packet. assert (hooked (m_links machine1) 5 DirIngress = true) as ->
    by (vm_compute; reflexivity).
  eexists. split; [reflexivity|]. reflexivity.
Qed.

(** The controller sees the cancelled context: it takes all attachments off the
    map, closes the two links, and returns. *)
Definition call_step (m : machine (L := RefEnv) (T := HealthyTcx)) : machine :=
  with_ctl (events (m_ctl m)) (ctl_done (m_ctl m)) (call_next (m_gone m) (m_call m) (mgr (m_ctl m)))
    (m_gone m) m.

Lemma detach_steps p e t ct sl kt :
  exited t = false ->
  let m := Machine (Life (cancel pod_attached) p e t) CallIdle ∅ ct sl kt in
  rtc (machine_step 3 map_to_list) m (with_sys detached m).
Proof.
  intros Ht m1.
  set (m2 := with_ctl [] false (begin_detach_all map_to_list (mgr (m_ctl m1))) ∅ m1).
  set (m3 := call_step m2). set (m4 := call_step m3).
  assert (mgr (m_ctl m4) = mgr detached) as E by (vm_compute; reflexivity).
  assert (with_ctl [] true (mgr (m_ctl m4), CallIdle) ∅ m4 = with_sys detached m1) as <-
    by (rewrite E; reflexivity).
  apply (rtc_l _ _ m2); [apply (mc_leave 3 map_to_list m1); [done|reflexivity..|by left]|].
  apply (rtc_l _ _ m3); [apply (mc_call 3 map_to_list m2); [done|discriminate..]|].
  apply (rtc_l _ _ m4); [apply (mc_call 3 map_to_list m3); [done|discriminate..]|].
  apply rtc_once, (mc_return 3 map_to_list m4); [done|reflexivity].
Qed.

Lemma machine3_steps : rtc (machine_step 3 map_to_list) machine2 machine3.
Proof.
  destruct machine2_shape as (g&E&Hg). unfold machine3. rewrite E.
  eapply rtc_l; [by apply signal_step|]. unfold signal, with_gateway.
  change (m_call machine1) with CallIdle. change (m_gone machine1) with (∅ : gset Z).
  by apply (detach_steps _ _ BeforeTail).
Qed.

Lemma machine3_run : rtc (machine_step 3 map_to_list) machine0 machine3.
Proof.
  etrans; [exact machine1_run|].
  apply (rtc_l _ _ machine2); [by apply (mc_packet 3 map_to_list machine1)|exact machine3_steps].
Qed.

(** C36. The detach does not wait for the drain.  The controller leaves on the
    signal itself, beside the main goroutine: a query of a pod is redirected,
    the signal comes, and the controller detaches before the checker has
    stopped, before bypass is set and with no wait given up; the reply, which the
    egress program would have restored to the CoreDNS address, reaches the pod
    from the host resolver. *)
Theorem detach_races_drain :
  let q := packet machine1 5 DirIngress 0 cpu_init query_skb in
  rtc (machine_step 3 map_to_list) machine0 machine1 /\
  dg_daddr <$> parse_dgram (data query_skb) = Some (addr COREDNS) /\
  dg_daddr <$> parse_dgram (data q.1) = Some (addr RESOLVER) /\
  dg_saddr <$> parse_dgram (data (packet q.2 5 DirEgress 1 cpu_init reply_skb).1) =
    Some (addr COREDNS) /\
  rtc (machine_step 3 map_to_list) q.2 machine3 /\
  timed_out (m_life machine3) = false /\ p_mpc (l_health (m_life machine3)) = Draining /\
  flag (BypassSetterOk := LoaderSetterOk) (p_setter (l_health (m_life machine3))) = false /\
  dg_saddr <$> parse_dgram (data reply_skb) = Some (addr RESOLVER) /\
  forall c, packet machine3 5 DirEgress 1 c reply_skb = (reply_skb, machine3).
Proof.
  intros q.
  repeat split; [exact machine1_run|try (vm_compute; reflexivity)..|].
  exact machine3_steps.
Qed.

(** The same run, and then the rest of the shutdown. *)
Lemma traffic_restored_witness :
  (IsAttached 5 (mgr (m_ctl machine_mid)) = true \/
   concerns (m_links machine_mid) (m_call machine_mid) 5) /\
  exists m', rtc (machine_step 3 map_to_list) machine3 m' /\
    finished (m_life m') /\ packet m' 5 DirEgress 0 cpu_init reply_skb = (reply_skb, m').
Proof.
  split.
  - destruct (traffic_restored 3 map_to_list _ _ _ machine_mid HealthyTcxUp
      (fun _ => Permutation_refl _) machine0_init machine_mid_run) as (Hh&_).
    apply (Hh 5 DirIngress). vm_compute. reflexivity.
  - destruct (traffic_restored 3 map_to_list _ _ _ machine3 HealthyTcxUp
      (fun _ => Permutation_refl _) machine0_init machine3_run) as (_&_&_&Hf).
    destruct Hf as (m'&Hr&Hfin&Hp); [split; reflexivity|reflexivity|].
    exists m'. split; [exact Hr|]. split; [exact Hfin|]. apply Hp.
Defined.
