(* ===== verification/Scrape.v ===== *)
(** * A scrape beside the traffic

    [ReadMetrics] looks the counters up one by one, so packets fall between its
    lookups.  A lookup is one step of [scrape_step], beside the steps of the
    node; a lookup that fails ends the scrape with an error and no values. *)

From S2P Require Import Prelude Types Kernel Ingress Egress DatapathSpec Reports Samples RefKernel.
From S2P Require Import IngressProps EgressProps System Loader LoaderProps.

Section scrape.
Context {H : BpfHelpers} {M : MapSyscalls}.

(** The counters still to be looked up, and the sums so far. *)
Record scrape := Scrape { sc_left : list nat; sc_snap : list Z }.

Definition scrape_init : scrape := Scrape (seq 0 METRIC__MAX) (replicate METRIC__MAX 0).

Inductive scrape_step : node * scrape -> node * scrape -> Prop :=
  | sc_node n n' r : node_step n n' -> scrape_step (n, r) (n', r)
  | sc_lookup n k id ids snap perCPU :
      metrics_lookup k (map cpu_metrics (nd_cpus n)) id = Some perCPU ->
      scrape_step (n, Scrape (id :: ids) snap)
        (n, Scrape ids (<[id := foldl (fun sum v => u64 (sum + v)) 0 perCPU]> snap)).

(** With no step of the node in between, the steps are [ReadMetrics]. *)
Lemma read_metrics_steps n ids s snap snap' :
  MetricsMap s = map cpu_metrics (nd_cpus n) ->
  read_metrics ids s snap = (None, snap') ->
  nsteps scrape_step (length ids) (n, Scrape ids snap) (n, Scrape [] snap').
Proof.
  intros Hs. revert snap. induction ids as [|id ids IH]; intros snap; simpl.
  { intros [= ->]. constructor. }
  rewrite Hs. destruct (metrics_lookup _ _ _) as [vs|] eqn:Hl; [|done].
  intros E. eapply nsteps_l; [by eapply sc_lookup|by apply IH].
Qed.

Lemma scrape_alone n s snap :
  MetricsMap s = map cpu_metrics (nd_cpus n) -> ReadMetrics s = (None, snap) ->
  nsteps scrape_step METRIC__MAX (n, scrape_init) (n, Scrape [] snap).
Proof. intros Hs Hr. exact (read_metrics_steps n (seq 0 METRIC__MAX) _ _ _ Hs Hr). Qed.
End scrape.

(** ** Counters only grow *)

Section growth.
Context {H : BpfHelpers} {HK : BpfHelpersOk H}.
Implicit Types (n : node).

Lemma total_bound m n0 k n :
  ledger n0 k n ->
  total m n0 <= total m n <= total m n0 + k * Z.of_nat (length (nd_cpus n0)).
Proof.
  intros Hl. assert (Forall2 (fun c0 c => metric (cpu_metrics c0) m <= metric (cpu_metrics c) m <=
    metric (cpu_metrics c0) m + k) (nd_cpus n0) (nd_cpus n)) as Hc.
  { apply Forall2_same_length_lookup_2; [by rewrite (led_cpus _ _ _ Hl)|].
    intros i c0 c H0 Hc. by eapply led_bound. }
  unfold total. clear Hl. induction Hc as [|c0 c l0 l Hc _ IH]; simpl; lia.
Qed.

(** A step from where no counter is about to overflow. *)
Lemma total_step cfg m n0 k n n' :
  0 <= k -> room n0 (k + 1) -> node_wf cfg n -> ledger n0 k n -> node_step n n' ->
  total m n <= total m n'.
Proof.
  intros Hk Hroom Hn Hl Hs. apply (total_bound m n 1).
  apply (ledger_step cfg n 0 n n'); try done; [|apply ledger_init].
  intros c a Hc. apply list_elem_of_lookup_1 in Hc as [i Hc].
  destruct (lookup_lt_is_Some_2 (nd_cpus n0) i) as [c0 H0].
  { rewrite <- (led_cpus _ _ _ Hl). by eapply lookup_lt_Some. }
  pose proof (led_bound _ _ _ Hl _ _ _ a H0 Hc).
  specialize (Hroom c0 a ltac:(by eapply list_elem_of_lookup_2)). lia.
Qed.

Lemma metric_nonneg c m : cpu_wf c -> 0 <= metric (cpu_metrics c) m.
Proof.
  intros [_ Hw _ _]. unfold metric. destruct (_ !! _) as [v|] eqn:Hv; [|done]. simpl.
  eapply Forall_lookup_1 in Hw; [|done]. unfold is_u64 in *. lia.
Qed.

Lemma total_nonneg n m : Forall cpu_wf (nd_cpus n) -> 0 <= total m n.
Proof.
  unfold total. intros Hw. induction Hw as [|c l Hc _ IH]; simpl; [done|].
  pose proof (metric_nonneg c m Hc). lia.
Qed.

Lemma total_member n c m :
  Forall cpu_wf (nd_cpus n) -> c ∈ nd_cpus n -> metric (cpu_metrics c) m <= total m n.
Proof.
  unfold total. intros Hw. induction Hw as [|c' l Hc' Hl IH]; intros Hin; [by apply elem_of_nil in Hin|].
  pose proof (total_nonneg (Node [] ∅ ∅ l (nd_kern n)) m Hl) as H0. unfold total in H0. simpl in H0.
  pose proof (metric_nonneg c' m Hc'). apply elem_of_cons in Hin as [->|Hin]; simpl; [lia|].
  specialize (IH Hin). lia.
Qed.

(** Enough room in the sums is enough in each counter. *)
Lemma total_room n k :
  Forall cpu_wf (nd_cpus n) -> 0 <= k ->
  (forall m, total m n + k * Z.of_nat (length (nd_cpus n)) < 2 ^ 64) -> room n k.
Proof.
  intros Hw Hk Ht c m Hc. pose proof (total_member n c m Hw Hc). specialize (Ht m).
  assert (1 <= Z.of_nat (length (nd_cpus n))); [|nia].
  apply list_elem_of_lookup_1 in Hc as [i Hc%lookup_lt_Some]. lia.
Qed.
End growth.

(** ** What a scrape reads *)

Section reading.
Context {H : BpfHelpers} {HK : BpfHelpersOk H} {M : MapSyscalls} {MO : MapSyscallsOk M}.
Implicit Types (n : node) (r : scrape) (m : metric_id).

Lemma lookup_total n k m vs :
  metrics_lookup k (map cpu_metrics (nd_cpus n)) (metric_index m) = Some vs ->
  foldl (fun sum v => u64 (sum + v)) 0 vs = u64 (total m n).
Proof.
  intros Hl. apply metrics_lookup_ok in Hl as ->. rewrite (sum_u64 _ 0). f_equal.
  unfold total, metric. generalize (nd_cpus n). intros l.
  induction l as [|c l IH]; simpl; [done|]. lia.
Qed.

Definition sums (f : metric_id -> Z) (ms : list metric_id) : Z := foldr (fun a z => f a + z) 0 ms.

Lemma sums_le f g ms : (forall a, a ∈ ms -> f a <= g a) -> sums f ms <= sums g ms.
Proof.
  induction ms as [|a ms IH]; intros Hfg; simpl; [done|].
  pose proof (Hfg a ltac:(by left)). assert (sums f ms <= sums g ms); [|lia].
  apply IH. intros b Hb. apply Hfg. by right.
Qed.

(** What a snapshot shows since [n0]. *)
Definition since (n0 : node) (snap : list Z) m : Z := metric snap m - total m n0.

(** One counter bounds a sum of others in what they gain. *)
Definition bounded_by (ms : list metric_id) (b : metric_id) : Prop :=
  forall n0 k n, ledger n0 k n -> sums (grown n0 n) ms <= grown n0 n b.

(** The scrape has read the counters below [d], [k] steps of the node after [n0];
    it started on [n1]. *)
Record scraped (cfg : gateway_config) (n0 n1 : node) (k : Z) (d : nat) n r : Prop := {
  sd_node : node_wf cfg n;
  sd_ledger : ledger n0 k n;
  sd_left : sc_left r = seq d (METRIC__MAX - d);
  sd_snap : length (sc_snap r) = METRIC__MAX;
  sd_grown m : total m n1 <= total m n;
  sd_read m : (metric_index m < d)%nat ->
    total m n1 <= metric (sc_snap r) m <= total m n;
  sd_order ms b : bounded_by ms b -> (forall a, a ∈ ms -> (metric_index a < metric_index b)%nat) ->
    (metric_index b < d)%nat -> sums (since n0 (sc_snap r)) ms <= since n0 (sc_snap r) b
}.

Lemma scraped_init cfg n0 k n :
  node_wf cfg n -> ledger n0 k n -> scraped cfg n0 n k 0 n scrape_init.
Proof. intros. split; try done; intros; simpl in *; lia. Qed.

Lemma scraped_node cfg n0 n1 k d n n' r :
  0 <= k -> room n0 (k + 1) -> scraped cfg n0 n1 k d n r -> node_step n n' ->
  scraped cfg n0 n1 (k + 1) d n' r.
Proof.
  intros Hk Hroom [] Hs.
  assert (forall m, total m n <= total m n') as Ht by (intros m; by eapply total_step).
  split; try done.
  - by eapply node_step_wf.
  - by eapply ledger_step.
  - intros m. pose proof (Ht m). specialize (sd_grown0 m). lia.
  - intros m Hm. pose proof (Ht m). specialize (sd_read0 m Hm). lia.
Qed.

Lemma metric_insert snap m d v :
  (d < length snap)%nat ->
  metric (<[d := v]> snap) m = if decide (metric_index m = d) then v else metric snap m.
Proof.
  intros Hd. unfold metric. case_decide as E.
  - by rewrite E, list_lookup_insert_eq.
  - by rewrite list_lookup_insert_ne.
Qed.

Lemma scraped_lookup cfg n0 n1 k d n id ids snap ks vs :
  node_wf cfg n0 ->
  (forall m, total m n0 + k * Z.of_nat (length (nd_cpus n0)) < 2 ^ 64) ->
  metrics_lookup ks (map cpu_metrics (nd_cpus n)) id = Some vs ->
  scraped cfg n0 n1 k d n (Scrape (id :: ids) snap) ->
  scraped cfg n0 n1 k (S d) n (Scrape ids (<[id := foldl (fun sum v => u64 (sum + v)) 0 vs]> snap)).
Proof.
  intros Hw0 Hk Hl [Hw Hled Hleft Hlen Hg Hread Hord]. simpl in *.
  assert (d < METRIC__MAX)%nat as Hd.
  { destruct (decide (d < METRIC__MAX)%nat); [done|].
    replace (METRIC__MAX - d)%nat with 0%nat in Hleft by lia. done. }
  replace (METRIC__MAX - d)%nat with (S (METRIC__MAX - S d)) in Hleft by lia.
  injection Hleft as -> ->.
  assert (forall m, metric_index m = d ->
    foldl (fun sum v => u64 (sum + v)) 0 vs = total m n) as Hnew.
  { intros m <-. rewrite (lookup_total _ _ _ _ Hl). apply u64_small.
    pose proof (total_bound m n0 k n Hled) as Hb. specialize (Hk m).
    pose proof (total_nonneg n0 m (node_cpus _ _ Hw0)). unfold is_u64. lia. }
  split; simpl; try done.
  - by rewrite length_insert.
  - intros m Hm. rewrite metric_insert by lia. case_decide as E.
    + rewrite (Hnew m E). specialize (Hg m). lia.
    + apply Hread. lia.
  - intros ms b Hms Ha Hb. unfold since at 2. rewrite (metric_insert snap b) by lia.
    assert (sums (since n0 (<[d:=foldl (fun sum v => u64 (sum + v)) 0 vs]> snap)) ms <=
      sums (since n0 snap) ms) as Hsame.
    { apply sums_le. intros a Hin. unfold since. rewrite metric_insert by lia.
      rewrite decide_False; [done|]. specialize (Ha a Hin). lia. }
    etrans; [exact Hsame|]. case_decide as E.
    + rewrite (Hnew b E). etrans; [|by apply (Hms n0 k n)]. apply sums_le. intros a Hin.
      unfold since, grown. specialize (Ha a Hin). specialize (Hread a ltac:(lia)). lia.
    + apply Hord; [done..|lia].
Qed.

Lemma scraped_steps cfg n0 n1 j s s' :
  node_wf cfg n0 -> nsteps scrape_step j s s' ->
  forall k d, scraped cfg n0 n1 k d s.1 s.2 -> 0 <= k ->
  (forall m, total m n0 + (k + Z.of_nat j) * Z.of_nat (length (nd_cpus n0)) < 2 ^ 64) ->
  exists k' d', scraped cfg n0 n1 k' d' s'.1 s'.2.
Proof.
  intros Hw0. induction 1 as [s|j s1 s2 s3 Hs _ IH]; intros k d Hsc Hk Hj; [by exists k, d|].
  assert (forall i, 0 <= i <= Z.of_nat (S j) ->
    forall m, total m n0 + (k + i) * Z.of_nat (length (nd_cpus n0)) < 2 ^ 64) as Hroom
    by (intros i Hi m; specialize (Hj m); nia).
  destruct Hs as [n n' r Hs|n ks id ids snap vs Hl]; simpl in *.
  - eapply (IH (k + 1)); [eapply scraped_node; [done| |done..]|lia|].
    + apply total_room; [apply Hw0|lia|apply Hroom; lia].
    + intros m. specialize (Hj m). lia.
  - eapply (IH k); [eapply scraped_lookup; [done| |done..]|done|].
    + intros m. specialize (Hroom 0 ltac:(lia) m). by rewrite Z.add_0_r in Hroom.
    + intros m. specialize (Hroom (Z.of_nat j) ltac:(lia) m). lia.
Qed.
End reading.

(** ** Properties *)

Section properties.
Context {H : BpfHelpers} {HK : BpfHelpersOk H} {M : MapSyscalls} {MO : MapSyscallsOk M}.

(** C34. A scrape beside the traffic is consistent.  Whatever packets, deletes,
    writes and evictions fall between the thirteen lookups, as long as no sum
    over the CPUs can reach [2^64] (the total at start-up, and one count per CPU
    for each step of the node or the scrape): each exported counter is between
    its total over the CPUs when the scrape began and when it ended, so that
    from one scrape to the next no counter goes down; and because the lookups go
    in the order of the ids, the replies restored and the replies missed since
    start-up are together never more than the packets seen on egress, although
    the counters are read at different moments. *)
Theorem scrape_consistent cfg n0 n1 n2 k j snap :
  node_init cfg n0 -> nsteps node_step k n0 n1 ->
  nsteps scrape_step j (n1, scrape_init) (n2, Scrape [] snap) ->
  (forall m, total m n0 + Z.of_nat (k + j) * Z.of_nat (length (nd_cpus n0)) < 2 ^ 64) ->
  length snap = METRIC__MAX /\
  (forall m, total m n1 <= metric snap m <= total m n2) /\
  since n0 snap METRIC_EGRESS_SNAT + since n0 snap METRIC_EGRESS_CONNTRACK_MISS <=
    since n0 snap METRIC_EGRESS_TOTAL.
Proof.
  intros Hi Hn Hs Hk. pose proof (node_init_wf _ _ Hi) as Hw0. rewrite Nat2Z.inj_add in Hk.
  assert (node_wf cfg n1) as Hw by (apply (reachable_wf cfg n0); [done|by eapply rtc_nsteps_2]).
  assert (ledger n0 (Z.of_nat k) n1) as Hl.
  { rewrite <- (Nat.add_0_r k). eapply ledger_steps; [done..|apply ledger_init|].
    apply total_room; [apply Hw0|lia|]. intros m. specialize (Hk m). rewrite Nat.add_0_r. nia. }
  destruct (scraped_steps cfg n0 n1 j _ _ Hw0 Hs _ _ (scraped_init _ _ _ _ Hw Hl)) as (k'&d&Hsc);
    [lia|done|]. destruct Hsc as [_ _ Hleft Hlen _ Hread Hord]. simpl in *.
  assert (METRIC__MAX <= d)%nat as Hd.
  { apply Nat.sub_0_le. by rewrite <- (length_seq (METRIC__MAX - d) d), <- Hleft. }
  split_and!; [done| |].
  - intros m. apply Hread. pose proof (metric_index_lt m). lia.
  - assert (sums (since n0 snap) [METRIC_EGRESS_SNAT; METRIC_EGRESS_CONNTRACK_MISS] <=
      since n0 snap METRIC_EGRESS_TOTAL) as Hle.
    { apply Hord; [|by intros a [->| ->%list_elem_of_singleton]%elem_of_cons; simpl; lia
        |unfold METRIC__MAX in *; simpl; lia].
      intros n i n' []. simpl. lia. }
    simpl in Hle. lia.
Qed.
End properties.

(** ** A query in the middle of a scrape *)

#[local] Existing Instance RefSyscalls.
#[local] Existing Instance RefSyscallsOk.

Definition loader1 : loader := Loader (nd_config node1) (nd_rules node1)
  (map cpu_metrics (nd_cpus node1)) (@nil bool).

(** The first lookup on [node0], the other twelve on [node1]. *)
Definition skewed : list Z := (read_metrics (seq 1 12) loader1 (replicate METRIC__MAX 0)).2.

Lemma skewed_run :
  nsteps scrape_step 14 (node0, scrape_init) (node1, Scrape [] skewed).
Proof.
  eapply nsteps_l; [eapply (sc_lookup (M := RefSyscalls) node0 (@nil bool)); reflexivity|].
  eapply nsteps_l; [apply sc_node; exact node1_step|].
  apply (read_metrics_steps node1 (seq 1 12) loader1); [reflexivity|].
  apply fst_snd. vm_compute. reflexivity.
Qed.

Lemma scrape_consistent_witness :
  total METRIC_REDIRECTED node0 <= metric skewed METRIC_REDIRECTED <= total METRIC_REDIRECTED node1 /\
  metric skewed METRIC_REDIRECTED = 1.
Proof.
  destruct (scrape_consistent (sample_config ACTION_HOST_RESOLVE) node0 node0 node1 0 14 skewed
    node0_init ltac:(constructor) skewed_run ltac:(by intros []))
    as (_&Hle&_).
  split; [exact (Hle METRIC_REDIRECTED)|vm_compute; reflexivity].
Defined.

(** The other inequalities of the ledger need not survive: the query is counted
    among the DNS queries of this scrape and not among its packets. *)
Theorem scrape_skew :
  rtc scrape_step (node0, scrape_init) (node1, Scrape [] skewed) /\
  metric skewed METRIC_TOTAL_PACKETS < metric skewed METRIC_DNS_QUERIES.
Proof. split; [eapply rtc_nsteps_2, skewed_run|vm_compute; reflexivity]. Qed.
