(* ===== verification/Collector.v ===== *)
(** * [internal/metrics/collector.go]: the Prometheus collector

    The table from counter ids to exported names, [New], [Describe] and
    [Collect].  The three sources are the classes [DatapathSource],
    [AttachSource] and [HealthSource], which the loader, the attach manager and
    the health checker implement.  A descriptor is its name and help text; the
    library's [BuildFQName] is a parameter.  A scrape is the list of values
    sent on the channel, or [None] where the code would panic.  The last theorem
    is about the three sources as they are. *)

From stdpp Require Import strings.
From S2P Require Import Prelude Types.
From S2P Require Import Kernel System Samples RefKernel.
From S2P Require Loader LoaderProps Attach Health.

(** ** Metric ids (maps.go) *)

Definition MetricTotalPackets : nat := 0.
Definition MetricDNSQueries : nat := 1.
Definition MetricSuffixMatch : nat := 2.
Definition MetricSuffixNoMatch : nat := 3.
Definition MetricBypassActive : nat := 4.
Definition MetricParseError : nat := 5.
Definition MetricEgressSnat : nat := 6.
Definition MetricEgressConntrackMiss : nat := 7.
Definition MetricEgressTotal : nat := 8.
Definition MetricNatError : nat := 9.
Definition MetricNatRevertFail : nat := 10.
Definition MetricRedirected : nat := 11.
Definition MetricClusterResolved : nat := 12.
Definition metricMax : nat := 13.

(** ** Sources *)

Class DatapathSource (S : Type) := {
  ReadMetrics : S -> bool * list Z;        (* whether err is nil, the snapshot *)
  CountSuffixRules : S -> option Z         (* None: an error *)
}.
Class DatapathSourceOk (S : Type) `{DatapathSource S} := {
  (** The snapshot is an array. *)
  ReadMetrics_length s : length (ReadMetrics s).2 = metricMax
}.
Class AttachSource (A : Type) := { AttachedCount : A -> Z }.
Class HealthSource (B : Type) := { ProbeFailures : B -> Z; BypassActive : B -> bool }.

#[export] Instance loader_source `{M : Loader.MapSyscalls} : DatapathSource Loader.loader := {
  ReadMetrics s :=
    let '(err, snap) := Loader.ReadMetrics s in
    (match err with None => true | Some _ => false end, snap);
  CountSuffixRules s :=
    match Loader.CountSuffixRules s with inr n => Some n | inl _ => None end
}.

Lemma read_metrics_length `{M : Loader.MapSyscalls} ids s snap :
  length (Loader.read_metrics ids s snap).2 = length snap.
Proof.
  revert snap. induction ids as [|id ids IH]; intros snap; simpl; [done|].
  destruct (Loader.metrics_lookup _ _ _); simpl; [|done].
  by rewrite IH, length_insert.
Qed.

#[export] Instance loader_source_ok `{M : Loader.MapSyscalls} :
  DatapathSourceOk Loader.loader.
Proof.
  split. intros s. simpl.
  pose proof (read_metrics_length (seq 0 METRIC__MAX) s (replicate METRIC__MAX 0)) as E.
  unfold Loader.ReadMetrics. destruct (Loader.read_metrics _ _ _) as [err snap]. exact E.
Qed.

#[export] Instance attach_source `{T : Attach.TcxLinks} : AttachSource Attach.AttachManager :=
  { AttachedCount := Attach.AttachedCount }.

#[export] Instance health_source : HealthSource Health.Checker :=
  { ProbeFailures := Health.probeFailures; BypassActive := Health.bypassActive }.

(** ** Descriptors and values *)

Record Desc := MkDesc { fqName : string; help : string }.
Inductive ValueType := CounterValue | GaugeValue.
Record Metric := MkMetric { desc : Desc; kind : ValueType; value : Z }.

(** [float64(n)] of a non-negative integer: 53 significant bits, rounded to
    nearest, ties to even.  The value is an integer. *)
Definition float64 (n : Z) : Z :=
  if n <? 2 ^ 53 then n
  else
    let e := Z.log2 n - 52 in
    let q := Z.shiftr n e in
    let r := n - Z.shiftl q e in
    let half := Z.shiftl 1 (e - 1) in
    let q := if (half <? r) || ((r =? half) && Z.odd q) then q + 1 else q in
    Z.shiftl q e.

Record datapathMetric := MkDatapathMetric { id : nat; name : string; help_text : string }.

Definition datapathMetrics : list datapathMetric := [
  MkDatapathMetric MetricTotalPackets "ingress_total_packets" "Total packets seen on TC ingress.";
  MkDatapathMetric MetricDNSQueries "dns_queries_total" "DNS queries to CoreDNS observed on ingress.";
  MkDatapathMetric MetricSuffixMatch "suffix_match_total" "DNS queries that matched a suffix rule (either action).";
  MkDatapathMetric MetricSuffixNoMatch "suffix_no_match_total" "DNS queries matching no rule (default action applied).";
  MkDatapathMetric MetricRedirected "redirected_total" "DNS queries DNAT'd to the VPC resolver (rule or default action).";
  MkDatapathMetric MetricClusterResolved "cluster_resolved_total" "DNS queries deliberately kept on CoreDNS (rule or default action).";
  MkDatapathMetric MetricBypassActive "bypass_packets_total" "Packets passed through because the bypass flag was set.";
  MkDatapathMetric MetricParseError "parse_errors_total" "DNS parse failures (compression ptr, QDCOUNT!=1, malformed).";
  MkDatapathMetric MetricEgressSnat "egress_snat_total" "Response packets SNAT'd back to CoreDNS.";
  MkDatapathMetric MetricEgressConntrackMiss "egress_conntrack_miss_total" "VPC-DNS responses with no/expired conntrack entry.";
  MkDatapathMetric MetricEgressTotal "egress_total_packets" "Total packets seen on TC egress.";
  MkDatapathMetric MetricNatError "nat_errors_total" "NAT rewrite helper failures; packet reverted and passed through unmodified.";
  MkDatapathMetric MetricNatRevertFail "nat_revert_failures_total" "NAT failures where the revert also failed (packet possibly inconsistent). Should stay 0."
].

Definition namespace : string := "bpf_dns_gateway".

(** ** The collector *)

Section collector.
Context {S A B : Type} `{DatapathSource S} `{AttachSource A} `{HealthSource B}.
Context (BuildFQName : string -> string -> string -> string).
(** Go's iteration order over a map. *)
Context (range : gmap nat Desc -> list (nat * Desc)).

Record Collector := MkCollector {
  datapath : S;
  attach : option A;
  health : option B;
  datapathDescs : gmap nat Desc;
  attachedVeths : Desc;
  bypassActive : Desc;
  suffixRules : Desc;
  healthFailures : Desc;
  scrapeErrorsDesc : Desc;
  scrapeErrors : Z
}.

Definition NewDesc (n h : string) : Desc := MkDesc (BuildFQName namespace EmptyString n) h.

Definition New (dp : S) (at_ : option A) (he : option B) : Collector := {|
  datapath := dp;
  attach := at_;
  health := he;
  datapathDescs :=
    fold_left (fun descs m => <[id m := NewDesc (name m) (help_text m)]> descs) datapathMetrics ∅;
  attachedVeths := NewDesc "attached_veths" "Number of veth interfaces our programs are attached to.";
  bypassActive := NewDesc "bypass_active" "Whether bypass is currently active (1) or not (0).";
  suffixRules := NewDesc "suffix_rules_loaded" "Number of suffix rules loaded into the BPF map.";
  healthFailures := NewDesc "health_check_failures" "Cumulative count of failed VPC DNS health probes.";
  scrapeErrorsDesc :=
    NewDesc "scrape_errors_total" "Cumulative count of errors reading BPF maps during a scrape.";
  scrapeErrors := 0
|}.

Definition Describe (c : Collector) : list Desc :=
  (range (datapathDescs c)).*2 ++
  [attachedVeths c; bypassActive c; suffixRules c; healthFailures c; scrapeErrorsDesc c].

Definition recordScrapeError (c : Collector) : Collector :=
  MkCollector (datapath c) (attach c) (health c) (datapathDescs c) (attachedVeths c)
    (bypassActive c) (suffixRules c) (healthFailures c) (scrapeErrorsDesc c) (scrapeErrors c + 1).

(** The loop over [datapathMetrics]: a nil descriptor or an index outside the
    snapshot panics. *)
Definition datapath_values (descs : gmap nat Desc) (snap : list Z) : option (list Metric) :=
  mapM (fun m =>
    d ← descs !! id m;
    v ← snap !! id m;
    Some (MkMetric d CounterValue (float64 v))) datapathMetrics.

Definition collectDatapath (c : Collector) : option (list Metric) * Collector :=
  let '(ok, snap) := ReadMetrics (datapath c) in
  if (ok : bool) then (datapath_values (datapathDescs c) snap, c)
  else (Some [], recordScrapeError c).

Definition collectController (c : Collector) : list Metric * Collector :=
  let '(rules, c) :=
    match CountSuffixRules (datapath c) with
    | None => ([], recordScrapeError c)
    | Some n => ([MkMetric (suffixRules c) GaugeValue (float64 n)], c)
    end in
  let veths :=
    match attach c with
    | Some a => [MkMetric (attachedVeths c) GaugeValue (float64 (AttachedCount a))]
    | None => []
    end in
  let state :=
    match health c with
    | Some h =>
        [MkMetric (bypassActive c) GaugeValue (if BypassActive h then 1 else 0);
         MkMetric (healthFailures c) CounterValue (float64 (ProbeFailures h))]
    | None => []
    end in
  (rules ++ veths ++ state, c).

Definition Collect (c : Collector) : option (list Metric) * Collector :=
  let '(ms, c) := collectDatapath c in
  match ms with
  | None => (None, c)
  | Some ms =>
      let '(ms', c) := collectController c in
      (Some (ms ++ ms' ++ [MkMetric (scrapeErrorsDesc c) CounterValue (scrapeErrors c)]), c)
  end.

Definition with_errors (n : Z) (c : Collector) : Collector :=
  MkCollector (datapath c) (attach c) (health c) (datapathDescs c) (attachedVeths c)
    (bypassActive c) (suffixRules c) (healthFailures c) (scrapeErrorsDesc c) n.
End collector.

(** ** Lemmas *)

Lemma float64_exact n : n < 2 ^ 53 -> float64 n = n.
Proof. intros H. unfold float64. by rewrite (proj2 (Z.ltb_lt _ _) H). Qed.

Lemma NoDup_map_inj {X Y} (f : X -> Y) (l : list X) x y :
  NoDup (map f l) -> x ∈ l -> y ∈ l -> f x = f y -> x = y.
Proof.
  intros Hnd Hx Hy E. apply list_elem_of_lookup in Hx as [i Hi], Hy as [j Hj].
  assert (i = j) as ->; [|congruence].
  apply (NoDup_lookup (map f l) i j (f x) Hnd).
  - change (map f l) with (f <$> l). by rewrite list_lookup_fmap, Hi.
  - change (map f l) with (f <$> l). by rewrite list_lookup_fmap, Hj, E.
Qed.

Section facts.
Context {S A B : Type} `{HD : DatapathSource S} `{HA : AttachSource A} `{HB : HealthSource B}.

(** The descriptors after those of the table, in the order of a scrape. *)
Definition other_descs (c : @Collector S A B) : list Desc :=
  [suffixRules c; attachedVeths c; bypassActive c; healthFailures c; scrapeErrorsDesc c].

(** The part of a scrape that does not come from the counters. *)
Lemma collect_controller_sends (c : @Collector S A B) :
  exists ms c', collectController c = (ms, c') /\
    map desc ms `sublist_of` [suffixRules c; attachedVeths c; bypassActive c; healthFailures c] /\
    scrapeErrorsDesc c' = scrapeErrorsDesc c /\
    scrapeErrors c' =
      scrapeErrors c + match CountSuffixRules (datapath c) with Some _ => 0 | None => 1 end /\
    (forall v, CountSuffixRules (datapath c) = Some v ->
     MkMetric (suffixRules c) GaugeValue (float64 v) ∈ ms) /\
    (forall a, attach c = Some a ->
     MkMetric (attachedVeths c) GaugeValue (float64 (AttachedCount a)) ∈ ms) /\
    (forall h, health c = Some h ->
     MkMetric (bypassActive c) GaugeValue (if BypassActive h then 1 else 0) ∈ ms /\
     MkMetric (healthFailures c) CounterValue (float64 (ProbeFailures h)) ∈ ms).
Proof.
  unfold collectController.
  destruct (CountSuffixRules (datapath c)) as [v|]; simpl;
    destruct (attach c) as [a|], (health c) as [h|]; simpl;
    eexists _, _; split; try reflexivity; simpl;
    (split; [repeat (apply sublist_skip || apply sublist_cons || apply sublist_nil)|]);
    split_and!; try done; try lia; intros; simplify_eq; set_solver.
Qed.

Context (BuildFQName : string -> string -> string -> string).
Context (range : gmap nat Desc -> list (nat * Desc)).
Context (Hrange : forall m, range m ≡ₚ map_to_list m).
(** Documented: the non-empty parts joined by underscores. *)
Context (HFQ : forall ns n, ns <> EmptyString -> n <> EmptyString ->
  BuildFQName ns EmptyString n = (ns ++ "_" ++ n)%string).

Abbreviation row_desc m := (NewDesc BuildFQName (name m) (help_text m)).

(** The value exported for a row of the table. *)
Definition row_metric (snap : list Z) (m : datapathMetric) : Metric :=
  MkMetric (row_desc m) CounterValue (float64 (snap !!! id m)).

Lemma new_descs dp at_ he :
  datapathDescs (New BuildFQName dp at_ he : @Collector S A B) =
  list_to_map (map (fun m => (id m, row_desc m)) datapathMetrics).
Proof. reflexivity. Qed.

Lemma table_ids : NoDup (map id datapathMetrics).
Proof. apply (bool_decide_unpack _). vm_compute. done. Qed.

Lemma table_bounds : Forall (fun m => (id m < metricMax)%nat) datapathMetrics.
Proof. unfold metricMax, lt. simpl. repeat constructor. Qed.

Lemma new_descs_list dp at_ he :
  (range (datapathDescs (New BuildFQName dp at_ he : @Collector S A B))).*2 ≡ₚ
  map (fun m => row_desc m) datapathMetrics.
Proof.
  rewrite Hrange, new_descs, map_to_list_to_map; [reflexivity|].
  exact table_ids.
Qed.

Lemma new_desc_lookup dp at_ he m :
  m ∈ datapathMetrics ->
  datapathDescs (New BuildFQName dp at_ he : @Collector S A B) !! id m = Some (row_desc m).
Proof.
  intros Hm. rewrite new_descs. apply elem_of_list_to_map; [exact table_ids|].
  apply list_elem_of_fmap. by exists m.
Qed.

Lemma datapath_values_new dp at_ he snap :
  length snap = metricMax ->
  datapath_values (datapathDescs (New BuildFQName dp at_ he : @Collector S A B)) snap =
  Some (map (row_metric snap) datapathMetrics).
Proof.
  intros Hl. apply mapM_Some_2. apply Forall2_fmap_r, Forall_Forall2_diag.
  apply List.Forall_forall. intros m Hm%list_elem_of_In. rewrite new_desc_lookup by done.
  assert (id m < length snap)%nat as Hlt.
  { rewrite Hl. apply list_elem_of_In in Hm. revert m Hm. by apply List.Forall_forall, table_bounds. }
  apply lookup_lt_is_Some in Hlt as [v Hv]. simpl. rewrite Hv. simpl.
  unfold row_metric. by rewrite (list_lookup_total_correct _ _ _ Hv).
Qed.

(** All exported names, in the order of a scrape. *)
Definition exported_names : list string :=
  map name datapathMetrics ++
  ["suffix_rules_loaded"; "attached_veths"; "bypass_active"; "health_check_failures";
   "scrape_errors_total"]%string.

Lemma exported_fqnames dp at_ he :
  map fqName (map (fun m => row_desc m) datapathMetrics ++
              other_descs (New BuildFQName dp at_ he : @Collector S A B)) =
  map (fun n => namespace ++ "_" ++ n)%string exported_names.
Proof. cbn. unfold NewDesc. rewrite !HFQ by done. reflexivity. Qed.

Lemma exported_names_distinct :
  NoDup (map (fun n => namespace ++ "_" ++ n)%string exported_names).
Proof. apply (bool_decide_unpack _). vm_compute. done. Qed.

Lemma collect_datapath_sends n dp at_ he :
  length (ReadMetrics dp).2 = metricMax ->
  let c := with_errors n (New BuildFQName dp at_ he : @Collector S A B) in
  collectDatapath c =
    (Some (if (ReadMetrics dp).1 then map (row_metric (ReadMetrics dp).2) datapathMetrics else []),
     with_errors (n + if (ReadMetrics dp).1 then 0 else 1) (New BuildFQName dp at_ he)).
Proof.
  intros Hl c. unfold collectDatapath. change (datapath c) with dp.
  destruct (ReadMetrics dp) as [[] snap] eqn:E; cbn [fst snd] in *; [|done].
  change (datapathDescs c) with (datapathDescs (New BuildFQName dp at_ he : @Collector S A B)).
  rewrite datapath_values_new by done. by rewrite Z.add_0_r.
Qed.

Lemma describe_perm n dp at_ he :
  let c := with_errors n (New BuildFQName dp at_ he : @Collector S A B) in
  Describe range c ≡ₚ map (fun m => row_desc m) datapathMetrics ++ other_descs c.
Proof.
  intros c. unfold Describe. f_equiv; [apply (new_descs_list dp at_ he)|].
  unfold other_descs. solve_Permutation.
Qed.

Lemma all_descs_distinct n dp at_ he :
  let c := with_errors n (New BuildFQName dp at_ he : @Collector S A B) in
  NoDup (map fqName (map (fun m => row_desc m) datapathMetrics ++ other_descs c)).
Proof.
  intros c. change (other_descs c) with
    (other_descs (New BuildFQName dp at_ he : @Collector S A B)).
  rewrite exported_fqnames. apply exported_names_distinct.
Qed.

(** A counter has exactly one row in the table. *)
Lemma table_row (k : metric_id) :
  exists row, row ∈ datapathMetrics /\ id row = metric_index k /\
    (forall row', row' ∈ datapathMetrics -> id row' = metric_index k -> row' = row).
Proof.
  assert (metric_index k ∈ map id datapathMetrics) as Hk
    by (apply list_elem_of_In; destruct k; vm_compute; tauto).
  apply list_elem_of_fmap in Hk as (row & Hid & Hin).
  exists row. split; [done|]. split; [done|]. intros row' Hin' Hid'.
  apply (NoDup_map_inj id datapathMetrics); [exact table_ids|done..|congruence].
Qed.
End facts.

(** ** Properties *)

Section properties.
Context {S A B : Type} `{HS : DatapathSourceOk S} `{HA : AttachSource A} `{HB : HealthSource B}.
Context (BuildFQName : string -> string -> string -> string).
Context (range : gmap nat Desc -> list (nat * Desc)).

(** What a scrape sends, whatever the sources answer. *)
Lemma collect_sends
    (Hrange : forall m, range m ≡ₚ map_to_list m)
    (HFQ : forall ns n, ns <> EmptyString -> n <> EmptyString ->
       BuildFQName ns EmptyString n = (ns ++ "_" ++ n)%string)
    n dp (at_ : option A) (he : option B) :
  let c := with_errors n (New BuildFQName dp at_ he) in
  exists ms c', Collect c = (Some ms, c') /\
    NoDup (map fqName (Describe range c)) /\
    NoDup (map (fun m => fqName (desc m)) ms) /\
    (forall m, m ∈ ms -> desc m ∈ Describe range c) /\
    (forall k : metric_id, (ReadMetrics dp).1 = true ->
       exists row, row ∈ datapathMetrics /\ id row = metric_index k /\
         (forall row', row' ∈ datapathMetrics -> id row' = metric_index k -> row' = row) /\
         MkMetric (NewDesc BuildFQName (name row) (help_text row)) CounterValue
           (float64 ((ReadMetrics dp).2 !!! metric_index k)) ∈ ms) /\
    (forall v, CountSuffixRules dp = Some v ->
       MkMetric (suffixRules c) GaugeValue (float64 v) ∈ ms) /\
    (forall a, at_ = Some a ->
       MkMetric (attachedVeths c) GaugeValue (float64 (AttachedCount a)) ∈ ms) /\
    (forall h, he = Some h ->
       MkMetric (bypassActive c) GaugeValue (if BypassActive h then 1 else 0) ∈ ms /\
       MkMetric (healthFailures c) CounterValue (float64 (ProbeFailures h)) ∈ ms) /\
    scrapeErrors c' = n + (if (ReadMetrics dp).1 then 0 else 1) +
      (match CountSuffixRules dp with Some _ => 0 | None => 1 end).
Proof.
  intros c. pose proof (collect_datapath_sends BuildFQName n dp at_ he (ReadMetrics_length dp)) as Ed.
  destruct (collect_controller_sends
    (with_errors (n + if (ReadMetrics dp).1 then 0 else 1) (New BuildFQName dp at_ he)))
    as (ms & c' & Ec & Hsub & Hdesc & Herr & Hrules & Hveths & Hstate).
  set (snap := (ReadMetrics dp).2) in *.
  set (cs := if (ReadMetrics dp).1 then map (row_metric BuildFQName snap) datapathMetrics else [])
    in *.
  set (last := MkMetric (scrapeErrorsDesc c) CounterValue (scrapeErrors c')).
  assert (map desc (cs ++ ms ++ [last]) `sublist_of`
    map (fun m => NewDesc BuildFQName (name m) (help_text m)) datapathMetrics ++ other_descs c)
    as Hall.
  { rewrite !map_app. apply sublist_app; [unfold cs; destruct (ReadMetrics dp).1; [reflexivity|]|].
    - apply sublist_nil_l.
    - change (other_descs c) with
        ([suffixRules c; attachedVeths c; bypassActive c; healthFailures c] ++ [desc last]).
      by apply sublist_app. }
  pose proof (describe_perm BuildFQName range Hrange n dp at_ he) as Hdescr.
  cbv zeta in Hdescr. fold c in Hdescr.
  pose proof (all_descs_distinct BuildFQName HFQ n dp at_ he) as Hnd.
  exists (cs ++ ms ++ [last]), c'. split_and!.
  - unfold Collect, c. cbv zeta in Ed. rewrite Ed, Ec, Hdesc. done.
  - rewrite (Permutation_map fqName Hdescr). exact Hnd.
  - rewrite <- (map_map desc fqName). eapply sublist_NoDup; [exact Hnd|].
    by apply (fmap_sublist fqName).
  - intros m Hm. rewrite Hdescr. eapply elem_of_sublist; [|exact Hall].
    apply list_elem_of_fmap. by exists m.
  - intros k Hok. destruct (table_row k) as (row & Hin & Hid & Huniq).
    exists row. split_and!; try done. apply elem_of_app. left. unfold cs. rewrite Hok.
    apply list_elem_of_fmap. exists row. unfold row_metric. by rewrite Hid.
  - intros v Hv. apply elem_of_app. right. apply elem_of_app. left. by apply Hrules.
  - intros a Ha. apply elem_of_app. right. apply elem_of_app. left. by apply Hveths.
  - intros h Hh. destruct (Hstate h Hh). set_solver.
  - exact Herr.
Qed.
End properties.

Section exports.
Context {H : BpfHelpers} {M : Loader.MapSyscalls} {MO : Loader.MapSyscallsOk M} {T : Attach.TcxLinks}.
Context (BuildFQName : string -> string -> string -> string).
Context (range : gmap nat Desc -> list (nat * Desc)).

(** C35. A scrape exports the state of the gateway.  Beside the loader, the attach
    manager and the health checker it never panics, and the registry accepts
    it: the described names are distinct, a scrape sends no name twice and
    nothing that is not described.  When the counters can be read, each of the
    13 counters of the datapath is exported, under the one name the table gives
    it, with its sum over the CPUs of the node (modulo [2^64], as the nearest
    float64); when the rules can be counted their number is; the gauges carry
    the number of attachments and the state of the checker; and the scrape-error
    counter grows by one for each of the two reads that failed, while the other
    values are still sent. *)
Theorem collect_exports
    (Hrange : forall m, range m ≡ₚ map_to_list m)
    (HFQ : forall ns n, ns <> EmptyString -> n <> EmptyString ->
       BuildFQName ns EmptyString n = (ns ++ "_" ++ n)%string)
    n nd (dp : Loader.loader) (at_ : option Attach.AttachManager) (he : option Health.Checker) :
  Loader.MetricsMap dp = map cpu_metrics (nd_cpus nd) ->
  let c := with_errors n (New BuildFQName dp at_ he) in
  exists ms c', Collect c = (Some ms, c') /\
    NoDup (map fqName (Describe range c)) /\
    NoDup (map (fun m => fqName (desc m)) ms) /\
    (forall m, m ∈ ms -> desc m ∈ Describe range c) /\
    (forall k : metric_id, (Loader.ReadMetrics dp).1 = None ->
       exists row, row ∈ datapathMetrics /\ id row = metric_index k /\
         (forall row', row' ∈ datapathMetrics -> id row' = metric_index k -> row' = row) /\
         MkMetric (NewDesc BuildFQName (name row) (help_text row)) CounterValue
           (float64 (u64 (total k nd))) ∈ ms) /\
    (forall v, Loader.CountSuffixRules dp = inr v ->
       MkMetric (suffixRules c) GaugeValue (float64 (Z.of_nat (size (Loader.SuffixRules dp)))) ∈ ms) /\
    (forall a, at_ = Some a ->
       MkMetric (attachedVeths c) GaugeValue
         (float64 (Z.of_nat (size (Attach.attachments a)))) ∈ ms) /\
    (forall h, he = Some h ->
       MkMetric (bypassActive c) GaugeValue (if Health.bypassActive h then 1 else 0) ∈ ms /\
       MkMetric (healthFailures c) CounterValue (float64 (Health.probeFailures h)) ∈ ms) /\
    scrapeErrors c' = n + (match (Loader.ReadMetrics dp).1 with None => 0 | Some _ => 1 end) +
      (match Loader.CountSuffixRules dp with inr _ => 0 | inl _ => 1 end).
Proof.
  intros Hm c. destruct (collect_sends BuildFQName range Hrange HFQ n dp at_ he)
    as (ms&c'&E&Hd&Hnd&Hsub&Hdp&Hrules&Hat&Hhe&Herr).
  exists ms, c'. split; [exact E|]. split; [exact Hd|]. split; [exact Hnd|]. split; [exact Hsub|].
  unfold ReadMetrics, CountSuffixRules, loader_source in Hdp, Hrules, Herr.
  destruct (Loader.ReadMetrics dp) as [err snap] eqn:Er. cbn [fst snd] in *.
  split; [|split; [|split; [exact Hat|split; [exact Hhe|]]]].
  - intros k ->. destruct (Hdp k eq_refl) as (row&?&?&?&Hin). exists row. split_and!; try done.
    destruct (LoaderProps.read_metrics_total nd dp snap k Hm Er) as [_ Hk].
    by rewrite (list_lookup_total_correct _ _ _ Hk) in Hin.
  - intros v Hv. apply Hrules. unfold Loader.CountSuffixRules in *.
    destruct (Loader.rules_iterate _ _) as [entries []] eqn:Hit; [|done].
    apply Loader.rules_iterate_ok in Hit. by rewrite Hit, length_map_to_list.
  - rewrite Herr. destruct err; by destruct (Loader.CountSuffixRules dp).
Qed.
End exports.

#[local] Existing Instance LoaderProps.RefSyscalls.
#[local] Existing Instance LoaderProps.RefSyscallsOk.

(** A scrape of a loader that counted three redirects on each of two CPUs, with
    one veth pair attached and the resolver down. *)
Definition sample_cpu : cpu :=
  Cpu (<[metric_index METRIC_REDIRECTED := 3]> (replicate METRIC__MAX 0)) [] None.
Definition sample_counted : node := Node [] ∅ ∅ [sample_cpu; sample_cpu] (RefKern [] 1000).
Definition sample_source : @Loader.loader LoaderProps.RefSyscalls :=
  @Loader.Loader LoaderProps.RefSyscalls [] ∅ (map cpu_metrics (nd_cpus sample_counted)) [].

Definition join_fq (ns sub n : string) : string := (ns ++ "_" ++ n)%string.

Lemma collect_exports_witness :
  exists ms c', Collect (with_errors 0 (New join_fq sample_source (Some Attach.manager1)
      (Some (Health.MkChecker 4 true 4)))) = (Some ms, c') /\
    MkMetric (NewDesc join_fq "redirected_total" "DNS queries DNAT'd to the VPC resolver (rule or default action).")
      CounterValue 6 ∈ ms /\
    scrapeErrors c' = 0.
Proof.
  destruct (collect_exports join_fq map_to_list (fun _ => Permutation_refl _)
    (fun _ _ _ _ => eq_refl) 0 sample_counted sample_source (Some Attach.manager1)
    (Some (Health.MkChecker 4 true 4)) eq_refl)
    as (ms & c' & E & _ & _ & _ & Hrow & _ & _ & _ & Herr).
  exists ms, c'. split; [exact E|]. split; [|exact Herr].
  destruct (Hrow METRIC_REDIRECTED eq_refl) as (row & _ & _ & Huniq & Hin).
  rewrite <- (Huniq (MkDatapathMetric MetricRedirected "redirected_total"
    "DNS queries DNAT'd to the VPC resolver (rule or default action).")) in Hin; [exact Hin| |done].
  apply list_elem_of_lookup_2 with (i := 4%nat). reflexivity.
Defined.
