(* ===== verification/CLayout.v ===== *)
(** * C declarations and their layout

    A description of C types as declarations write them, and the layout the
    x86-64 ABI gives them: sizes, alignments, the place of every member and
    bit-field.  The declarations of headers/vmlinux.h and bpf/dns_gateway.h are
    values of [ctype] in the [Vm] files and [Abi].  An object is the integer
    whose little-endian bytes it has, so that a bit-field is a range of bits. *)

From stdpp Require Import strings.
From S2P Require Import Prelude.

#[local] Set Warnings "-register-all".

(** ** Types

    A pointer records the text of its target: the layout does not depend on it
    and the target may be declared later.  A member is its name (empty for an
    anonymous one), its type, and the width of a bit-field. *)

Inductive ctype :=
  | CInt (size : Z) (signed : bool)
  | CPtr (target : string)
  | CEnum (tag : string) (enumerators : list (string * Z))
  | CArray (elem : ctype) (n : Z)
  | CRecord (union packed : bool) (tag : string) (members : list (string * ctype * option Z)).

Definition cmember : Type := string * ctype * option Z.

(** Declarations, as they read; an anonymous type has no tag. *)
Definition no_tag : string := EmptyString.
Definition struct (tag : string) (ms : list cmember) : ctype := CRecord false false tag ms.
Definition packed_struct (tag : string) (ms : list cmember) : ctype := CRecord false true tag ms.
Definition union (tag : string) (ms : list cmember) : ctype := CRecord true false tag ms.
Definition fld (t : ctype) (name : string) : cmember := (name, t, None).
Definition bits (t : ctype) (name : string) (w : Z) : cmember := (name, t, Some w).
Definition anon (t : ctype) : cmember := (EmptyString, t, None).
Definition pad (t : ctype) (w : Z) : cmember := (EmptyString, t, Some w).
Definition arr (t : ctype) (n : Z) : ctype := CArray t n.
Definition ptr (target : string) : ctype := CPtr target.
(** A pointer to a function. *)
Definition fptr (result parameters : string) : ctype :=
  CPtr (result ++ " (" ++ parameters ++ ")")%string.
Definition enum (tag : string) (es : list (string * Z)) : ctype := CEnum tag es.
Definition ev (name : string) (value : Z) : string * Z := (name, value).

Definition c_char := CInt 1 true.
Definition c_schar := CInt 1 true.
Definition c_uchar := CInt 1 false.
Definition c_short := CInt 2 true.
Definition c_ushort := CInt 2 false.
Definition c_int := CInt 4 true.
Definition c_uint := CInt 4 false.
Definition c_long := CInt 8 true.
Definition c_ulong := CInt 8 false.
Definition c_llong := CInt 8 true.
Definition c_ullong := CInt 8 false.
Definition c_bool := CInt 1 false.
Definition c_int128 := CInt 16 true.
Definition c_uint128 := CInt 16 false.

(** ** Layout *)

Definition round_up (x a : Z) : Z := (x + a - 1) / a * a.
Definition bytes_of_bits (n : Z) : Z := round_up n 8 / 8.

(** An enumeration is an [int] unless a value needs 64 bits. *)
Definition enum_size (es : list (string * Z)) : Z :=
  if forallb (fun '(_, v) => (- 2 ^ 31 <=? v) && (v <? 2 ^ 32)) es then 4 else 8.

Definition is_pad (m : cmember) : bool :=
  let '(name, _, w) := m in
  bool_decide (name = EmptyString) && match w with Some _ => true | None => false end.

Fixpoint calign (t : ctype) : Z :=
  match t with
  | CInt s _ => s
  | CPtr _ => 8
  | CEnum _ es => enum_size es
  | CArray t _ => calign t
  | CRecord _ packed _ ms =>
      if packed then 1
      else fold_right (fun '(name, t, w) a =>
             if is_pad (name, t, w) then a else Z.max (calign t) a) 1 ms
  end.

(** Where a member of size [sz] and alignment [al] bytes starts, in bits, when
    the members before it end at [off]: a bit-field does not straddle units of
    its type. *)
Definition place (packed : bool) (off sz al : Z) (w : option Z) : Z :=
  match w with
  | None => round_up off (8 * (if packed then 1 else al))
  | Some w =>
      if packed then off
      else if w =? 0 then round_up off (8 * al)
      else if off / (8 * sz) =? (off + w - 1) / (8 * sz) then off
      else round_up off (8 * sz)
  end.

Definition width (sz : Z) (w : option Z) : Z := default (8 * sz) w.

Fixpoint csize (t : ctype) : Z :=
  match t with
  | CInt s _ => s
  | CPtr _ => 8
  | CEnum _ es => enum_size es
  | CArray t n => csize t * n
  | CRecord true _ _ ms =>
      round_up (fold_right (fun '(_, t, w) s => Z.max (bytes_of_bits (width (csize t) w)) s) 0 ms)
        (calign t)
  | CRecord false packed _ ms =>
      round_up (bytes_of_bits
        (fold_left (fun off '(_, t, w) =>
           let sz := csize t in
           place packed off sz (calign t) w + width sz w) ms 0)) (calign t)
  end.

(** The bit offsets of the members of a record. *)
Fixpoint starts (un packed : bool) (off : Z) (ms : list cmember) : list Z :=
  match ms with
  | [] => []
  | (_, t, w) :: ms =>
      let sz := csize t in
      let s := if un then 0 else place packed off sz (calign t) w in
      s :: starts un packed (s + width sz w) ms
  end.

(** The named fields, those of anonymous members included: name, first bit,
    width. *)
Fixpoint fields_at (t : ctype) (base : Z) : list (string * Z * Z) :=
  match t with
  | CRecord un packed _ ms =>
      (fix go (off : Z) (ms : list cmember) : list (string * Z * Z) :=
         match ms with
         | [] => []
         | (name, t, w) :: ms =>
             let sz := csize t in
             let s := if un then 0 else place packed off sz (calign t) w in
             (if bool_decide (name = EmptyString)
              then match w with Some _ => [] | None => fields_at t (base + s) end
              else [(name, base + s, width sz w)]) ++
             go (s + width sz w) ms
         end) 0 ms
  | _ => []
  end.

Definition fields (t : ctype) : list (string * Z * Z) := fields_at t 0.

(** The first bit and the width of a field. *)
Definition field_bits (t : ctype) (name : string) : option (Z * Z) :=
  (fun '(_, (_, o, w)) => (o, w)) <$> list_find (fun f => f.1.1 = name) (fields t).

Definition offsetof (t : ctype) (name : string) : option Z :=
  (fun '(o, _) => o / 8) <$> field_bits t name.

(** The value of an enumerator. *)
Definition enumerator (t : ctype) (name : string) : option Z :=
  match t with
  | CEnum _ es => (fun '(_, (_, v)) => v) <$> list_find (fun e => e.1 = name) es
  | _ => None
  end.

(** ** Objects *)

Definition get_bits (off w obj : Z) : Z := Z.land (Z.shiftr obj off) (Z.ones w).
Definition set_bits (off w v obj : Z) : Z :=
  Z.lor (Z.ldiff obj (Z.shiftl (Z.ones w) off)) (Z.shiftl (Z.land v (Z.ones w)) off).

Definition cget (t : ctype) (name : string) (obj : Z) : option Z :=
  (fun '(o, w) => get_bits o w obj) <$> field_bits t name.
Definition cset (t : ctype) (name : string) (v obj : Z) : option Z :=
  (fun '(o, w) => set_bits o w v obj) <$> field_bits t name.

(** ** Well-formed declarations *)

Definition int_like (t : ctype) : bool :=
  match t with CInt _ _ | CEnum _ _ => true | _ => false end.

Fixpoint ctype_ok (t : ctype) : bool :=
  match t with
  | CInt s _ => bool_decide (s ∈ [1; 2; 4; 8; 16])
  | CPtr _ => true
  | CEnum _ es => bool_decide (NoDup es.*1)
  | CArray t n => (0 <=? n) && ctype_ok t
  | CRecord _ _ _ ms =>
      forallb (fun '(name, t, w) =>
        ctype_ok t &&
        match w with
        | Some w => int_like t && (0 <=? w) && (w <=? 8 * csize t)
        | None => true
        end) ms
  end.

(** Field names are unique, those of anonymous members included. *)
Definition declaration_ok (t : ctype) : bool :=
  ctype_ok t && bool_decide (NoDup (fields t).*1.*1).
