(* ===== verification/CLayoutProps.v ===== *)
(** * Facts about C layouts

    [ctype_sound]: what the layout of a well-formed type guarantees.  Then the
    get-set laws of objects, and the reading of a field from little-endian
    bytes. *)

From stdpp Require Import strings.
From S2P Require Import Prelude CLayout.

(** ** Rounding *)

Lemma round_up_spec x a :
  0 < a -> x <= round_up x a < x + a /\ (a | round_up x a).
Proof.
  intros Ha. unfold round_up. split; [|by apply Z.divide_factor_r].
  pose proof (Z.div_mod (x + a - 1) a ltac:(lia)).
  pose proof (Z.mod_pos_bound (x + a - 1) a Ha). nia.
Qed.

Lemma round_up_ge x a : 0 < a -> x <= round_up x a.
Proof. intros H. apply (round_up_spec x a H). Qed.

Lemma round_up_mult x a : 0 < a -> (a | round_up x a).
Proof. intros H. apply (round_up_spec x a H). Qed.

Lemma bytes_of_bits_ge n : n <= 8 * bytes_of_bits n.
Proof.
  unfold bytes_of_bits. pose proof (round_up_spec n 8 ltac:(lia)) as [? [k E]].
  rewrite E in *. rewrite Z.div_mul by lia. lia.
Qed.

(** ** Induction on types *)

Section ctype_ind.
Context (P : ctype -> Prop)
  (Pint : forall s b, P (CInt s b)) (Pptr : forall t, P (CPtr t))
  (Penum : forall tag es, P (CEnum tag es))
  (Parr : forall t n, P t -> P (CArray t n))
  (Prec : forall un packed tag ms,
     Forall (fun m : cmember => P m.1.2) ms -> P (CRecord un packed tag ms)).

Fixpoint ctype_members_ind (t : ctype) : P t :=
  match t with
  | CInt s b => Pint s b
  | CPtr s => Pptr s
  | CEnum tag es => Penum tag es
  | CArray t n => Parr t n (ctype_members_ind t)
  | CRecord un packed tag ms =>
      Prec un packed tag ms
        ((fix go (ms : list cmember) : Forall (fun m => P m.1.2) ms :=
            match ms with
            | [] => List.Forall_nil _
            | (name, t, w) :: ms =>
                @List.Forall_cons _ (fun m : cmember => P m.1.2) (name, t, w) ms
                  (ctype_members_ind t) (go ms)
            end) ms)
  end.
End ctype_ind.

(** A well-formed member. *)
Definition member_ok (m : cmember) : bool :=
  let '(_, t, w) := m in
  ctype_ok t &&
  match w with
  | Some w => int_like t && (0 <=? w) && (w <=? 8 * csize t)
  | None => true
  end.

Lemma record_ok un packed tag ms :
  ctype_ok (CRecord un packed tag ms) = true -> Forall (fun m => member_ok m = true) ms.
Proof.
  simpl. intros H. apply List.Forall_forall. intros m Hm.
  rewrite forallb_forall in H. specialize (H m Hm). by destruct m as [[? ?] ?].
Qed.

Lemma member_type_ok name t w : member_ok (name, t, w) = true -> ctype_ok t = true.
Proof. unfold member_ok. intros H. by apply andb_true_iff in H as [? _]. Qed.

(** ** Alignment and size *)

Definition is_align (a : Z) : Prop := a = 1 \/ a = 2 \/ a = 4 \/ a = 8 \/ a = 16.

Lemma is_align_pos a : is_align a -> 0 < a.
Proof. unfold is_align. lia. Qed.

Lemma int_size_align s : bool_decide (s ∈ [1; 2; 4; 8; 16]) = true -> is_align s.
Proof. intros H%bool_decide_eq_true. unfold is_align. set_solver. Qed.

Lemma is_align_max a b : is_align a -> is_align b -> is_align (Z.max a b).
Proof. intros. destruct (Z.max_spec a b) as [[_ ->]|[_ ->]]; done. Qed.

Lemma calign_is_align t : ctype_ok t = true -> is_align (calign t).
Proof.
  induction t as [s b|s|tag es|t n IH|un packed tag ms IH] using ctype_members_ind;
    intros Hok; [| | | |apply record_ok in Hok]; simpl in *.
  - by apply int_size_align.
  - unfold is_align. lia.
  - unfold enum_size, is_align. case_match; lia.
  - apply IH. by apply andb_true_iff in Hok as [_ ?].
  - destruct packed; [unfold is_align; lia|].
    induction ms as [|[[name t] w] ms IHms]; simpl; [unfold is_align; lia|].
    apply List.Forall_cons_iff in IH as [Ht IH]. apply List.Forall_cons_iff in Hok as [Hm Hok].
    specialize (IHms IH Hok). unfold member_ok in Hm.
    apply andb_true_iff in Hm as [Hm _].
    destruct (_ && _); [done|]. by apply is_align_max, IHms; apply Ht.
Qed.

Lemma calign_pos t : ctype_ok t = true -> 0 < calign t.
Proof. intros H. by apply is_align_pos, calign_is_align. Qed.

Lemma enum_size_pos es : 0 < enum_size es.
Proof. unfold enum_size. case_match; lia. Qed.

(** What [place] and [width] need of a member. *)
Definition placeable (sz al : Z) (w : option Z) : Prop :=
  0 <= sz /\ 0 < al /\ match w with Some w => 0 < sz /\ 0 <= w <= 8 * sz | None => True end.

Lemma width_nonneg sz al w : placeable sz al w -> 0 <= width sz w.
Proof. unfold placeable, width. destruct w; simpl; lia. Qed.

Lemma place_ge packed off sz al w : placeable sz al w -> off <= place packed off sz al w.
Proof.
  intros (? & ? & Hw). unfold place. destruct w as [w|], packed; try lia.
  - case_match; [|case_match; [lia|]]; apply round_up_ge; lia.
  - apply round_up_ge. lia.
  - apply round_up_ge. lia.
Qed.

(** A plain member is aligned, a bit-field stays in a unit of its type. *)
Lemma place_aligned off sz al w :
  placeable sz al w ->
  let s := place false off sz al w in
  match w with
  | None => (8 * al | s)
  | Some w => 0 < w -> s / (8 * sz) = (s + w - 1) / (8 * sz)
  end.
Proof.
  intros (? & ? & Hw). unfold place. destruct w as [w|]; [|apply round_up_mult; lia].
  intros Hpos. destruct (w =? 0) eqn:E; [lia|].
  destruct (off / (8 * sz) =? (off + w - 1) / (8 * sz)) eqn:E'; [lia|].
  destruct (round_up_mult off (8 * sz) ltac:(lia)) as [k ->].
  replace (k * (8 * sz) + w - 1) with (w - 1 + k * (8 * sz)) by lia.
  rewrite Z.div_mul, Z.div_add, (Z.div_small (w - 1)) by lia. lia.
Qed.

(** ** Members of a record *)

Definition member_placeable (m : cmember) : Prop :=
  let '(_, t, w) := m in placeable (csize t) (calign t) w.

Definition struct_end (packed : bool) (off : Z) (ms : list cmember) : Z :=
  fold_left (fun off '(_, t, w) =>
    let sz := csize t in place packed off sz (calign t) w + width sz w) ms off.

Lemma csize_struct packed tag ms :
  csize (CRecord false packed tag ms) =
  round_up (bytes_of_bits (struct_end packed 0 ms)) (calign (CRecord false packed tag ms)).
Proof. done. Qed.

Lemma struct_end_ge packed ms off :
  Forall member_placeable ms -> off <= struct_end packed off ms.
Proof.
  intros H. revert off. induction H as [|[[name t] w] ms Hm _ IH]; intros off; simpl; [lia|].
  pose proof (place_ge packed off _ _ _ Hm). pose proof (width_nonneg _ _ _ Hm).
  specialize (IH (place packed off (csize t) (calign t) w + width (csize t) w)). lia.
Qed.

Lemma struct_starts packed ms off i name t w s :
  Forall member_placeable ms ->
  ms !! i = Some (name, t, w) -> starts false packed off ms !! i = Some s ->
  off <= s /\ s + width (csize t) w <= struct_end packed off ms /\
  (packed = false ->
   match w with
   | None => (8 * calign t | s)
   | Some w => 0 < w -> s / (8 * csize t) = (s + w - 1) / (8 * csize t)
   end).
Proof.
  intros H. revert off i. induction H as [|[[name' t'] w'] ms Hm Hms IH];
    intros off i Hi Hs; [done|].
  pose proof (place_ge packed off _ _ _ Hm). pose proof (width_nonneg _ _ _ Hm).
  destruct i as [|i]; simpl in *.
  - simplify_eq. split; [lia|]. split; [by apply struct_end_ge|].
    intros ->. by apply place_aligned.
  - destruct (IH _ _ Hi Hs) as (? & ? & ?). split; [lia|done].
Qed.

Lemma length_starts un packed off ms : length (starts un packed off ms) = length ms.
Proof.
  revert off. induction ms as [|[[name t] w] ms IH]; intros off; simpl; [done|]. by rewrite IH.
Qed.

Lemma struct_starts_ordered packed ms off i j name t w s s' :
  Forall member_placeable ms -> (i < j)%nat ->
  ms !! i = Some (name, t, w) -> starts false packed off ms !! i = Some s ->
  starts false packed off ms !! j = Some s' -> s + width (csize t) w <= s'.
Proof.
  intros H. revert off i j. induction H as [|[[name' t'] w'] ms Hm Hms IH];
    intros off i j Hij Hi Hs Hs'; [done|].
  destruct j as [|j]; [lia|].
  destruct i as [|i]; simpl in *; [|apply (IH _ i j ltac:(lia) Hi Hs Hs')].
  simplify_eq. pose proof (lookup_lt_Some _ _ _ Hs') as Hj. rewrite length_starts in Hj.
  apply lookup_lt_is_Some in Hj as [[[n2 t2] w2] Hj].
  by apply (struct_starts packed ms _ j n2 t2 w2 s' Hms Hj) in Hs' as (? & _).
Qed.

Definition union_end (ms : list cmember) : Z :=
  fold_right (fun '(_, t, w) s => Z.max (bytes_of_bits (width (csize t) w)) s) 0 ms.

Lemma union_end_nonneg ms : 0 <= union_end ms.
Proof. induction ms as [|[[name t] w] ms IH]; simpl; lia. Qed.

Lemma union_end_ge ms i name t w :
  ms !! i = Some (name, t, w) -> width (csize t) w <= 8 * union_end ms.
Proof.
  revert i. induction ms as [|[[name' t'] w'] ms IH]; intros i Hi; [done|].
  destruct i as [|i]; simpl in *.
  - simplify_eq. pose proof (bytes_of_bits_ge (width (csize t) w)). lia.
  - pose proof (IH i Hi). lia.
Qed.

Lemma int_like_size t : ctype_ok t = true -> int_like t = true -> 0 < csize t.
Proof.
  destruct t; simpl; intros Hok Hi; try done; [|apply enum_size_pos].
  by apply is_align_pos, int_size_align.
Qed.

Lemma member_ok_placeable_of (name : string) t w :
  member_ok (name, t, w) = true -> 0 <= csize t -> member_placeable (name, t, w).
Proof.
  unfold member_ok, member_placeable. intros Hm Hs.
  apply andb_true_iff in Hm as [Hm Hw]. split; [done|].
  split; [by apply calign_pos|]. destruct w as [w|]; [|done].
  apply andb_true_iff in Hw as [Hw ?]. apply andb_true_iff in Hw as [Hi ?].
  pose proof (int_like_size t Hm Hi). lia.
Qed.

Lemma csize_ok t : ctype_ok t = true -> 0 <= csize t /\ (calign t | csize t).
Proof.
  induction t as [s b|s|tag es|t n IH|un packed tag ms IH] using ctype_members_ind; intros Hok.
  - simpl in *. apply int_size_align, is_align_pos in Hok. split; [lia|done].
  - by simpl.
  - simpl. pose proof (enum_size_pos es). split; [lia|done].
  - simpl in *. apply andb_true_iff in Hok as [? Hok]. destruct (IH Hok).
    split; [nia|by apply Z.divide_mul_l].
  - pose proof (calign_pos _ Hok) as Hal.
    assert (forall x, 0 <= x ->
      0 <= round_up x (calign (CRecord un packed tag ms)) /\
      (calign (CRecord un packed tag ms) | round_up x (calign (CRecord un packed tag ms)))) as Hr.
    { intros x Hx. pose proof (round_up_ge x _ Hal). split; [lia|]. by apply round_up_mult. }
    destruct un; [apply Hr, union_end_nonneg|]. rewrite csize_struct. apply Hr.
    pose proof (bytes_of_bits_ge (struct_end packed 0 ms)).
    assert (0 <= struct_end packed 0 ms); [|lia].
    apply struct_end_ge. apply record_ok in Hok. clear -IH Hok. induction ms as [|[[name t] w] ms IHms]; [done|].
    apply List.Forall_cons_iff in IH as [Ht IH]. apply List.Forall_cons_iff in Hok as [Hm Hok].
    constructor; [|by apply IHms]. apply member_ok_placeable_of; [done|].
    apply Ht. by apply member_type_ok in Hm.
Qed.

Lemma member_ok_placeable m : member_ok m = true -> member_placeable m.
Proof.
  destruct m as [[name t] w]. intros Hm. apply member_ok_placeable_of; [done|].
  apply csize_ok. by apply member_type_ok in Hm.
Qed.

(** ** Fields *)

(** The fields a member contributes at bit [s] of the record's type. *)
Definition member_fields (m : cmember) (s : Z) : list (string * Z * Z) :=
  let '(name, t, w) := m in
  if bool_decide (name = EmptyString)
  then match w with Some _ => [] | None => fields_at t s end
  else [(name, s, width (csize t) w)].

Lemma fields_at_record un packed tag ms base :
  fields_at (CRecord un packed tag ms) base =
  concat (zip_with (fun m s => member_fields m (base + s)) ms (starts un packed 0 ms)).
Proof.
  simpl. generalize 0 at 4 5. induction ms as [|[[name t] w] ms IH]; intros off; [done|].
  simpl. by rewrite IH.
Qed.

Lemma union_starts packed off ms i s :
  starts true packed off ms !! i = Some s -> s = 0.
Proof.
  revert off i. induction ms as [|[[name t] w] ms IH]; intros off i; [done|].
  destruct i; simpl; [by intros [= <-]|apply IH].
Qed.

(** Every member lies inside its record. *)
Lemma member_inside un packed tag ms i name t w s :
  ctype_ok (CRecord un packed tag ms) = true ->
  ms !! i = Some (name, t, w) -> starts un packed 0 ms !! i = Some s ->
  0 <= s /\ 0 <= width (csize t) w /\
  s + width (csize t) w <= 8 * csize (CRecord un packed tag ms).
Proof.
  intros Hok Hi Hs. pose proof (calign_pos _ Hok) as Hal.
  pose proof (record_ok _ _ _ _ Hok) as Hms.
  assert (Forall member_placeable ms) as Hpl
    by (eapply List.Forall_impl; [apply member_ok_placeable|done]).
  assert (0 <= width (csize t) w).
  { rewrite Forall_lookup in Hpl. apply (width_nonneg _ (calign t)), (Hpl _ _ Hi). }
  destruct un.
  - apply union_starts in Hs as ->. split; [lia|]. split; [done|].
    pose proof (union_end_ge ms i _ _ _ Hi).
    pose proof (round_up_ge (union_end ms) _ Hal).
    change (csize (CRecord true packed tag ms)) with
      (round_up (union_end ms) (calign (CRecord true packed tag ms))). lia.
  - destruct (struct_starts packed ms 0 i _ _ _ _ Hpl Hi Hs) as (? & ? & _).
    rewrite csize_struct. split; [done|]. split; [done|].
    pose proof (bytes_of_bits_ge (struct_end packed 0 ms)).
    pose proof (round_up_ge (bytes_of_bits (struct_end packed 0 ms)) _ Hal). lia.
Qed.

Lemma fields_at_inside t base name o w :
  ctype_ok t = true -> (name, o, w) ∈ fields_at t base ->
  base <= o /\ 0 <= w /\ o + w <= base + 8 * csize t.
Proof.
  revert base. induction t as [| | | |un packed tag ms IH] using ctype_members_ind;
    intros base Hok Hin; [set_solver..|].
  rewrite fields_at_record in Hin.
  apply list_elem_of_In, in_concat in Hin as (l & Hl & Hin).
  apply list_elem_of_In, list_elem_of_lookup in Hl as [i Hl].
  apply lookup_zip_with_Some in Hl as ([[n t] w'] & s & -> & Hi & Hs).
  destruct (member_inside un packed tag ms i n t w' s Hok Hi Hs) as (? & ? & ?).
  unfold member_fields in Hin. case_bool_decide.
  - destruct w' as [w'|]; [done|]. rewrite Forall_lookup in IH.
    assert (ctype_ok t = true) as Ht.
    { pose proof (record_ok _ _ _ _ Hok) as Hms. rewrite Forall_lookup in Hms.
      eapply member_type_ok, (Hms _ _ Hi). }
    apply list_elem_of_In in Hin. destruct (IH i _ Hi (base + s) Ht Hin) as (? & ? & ?).
    unfold width in *. simpl in *. lia.
  - destruct Hin as [[= <- <- <-]|[]]. lia.
Qed.

(** ** Soundness *)

(** The layout of a type: its size is a multiple of its alignment, its fields
    are inside it, the members of a struct come in order without overlapping,
    aligned as their types ask, a bit-field within one unit of its type, and
    those of a union start together. *)
Record ctype_sound (t : ctype) : Prop := {
  sound_size : 0 <= csize t;
  sound_align : 0 < calign t /\ (calign t | csize t);
  sound_fields name o w :
    (name, o, w) ∈ fields t -> 0 <= o /\ 0 <= w /\ o + w <= 8 * csize t;
  sound_order packed tag ms i j name t' w s s' :
    t = CRecord false packed tag ms -> (i < j)%nat ->
    ms !! i = Some (name, t', w) ->
    starts false packed 0 ms !! i = Some s -> starts false packed 0 ms !! j = Some s' ->
    s + width (csize t') w <= s';
  sound_place tag ms i name t' w s :
    t = CRecord false false tag ms ->
    ms !! i = Some (name, t', w) -> starts false false 0 ms !! i = Some s ->
    match w with
    | None => (8 * calign t' | s)
    | Some w => 0 < w -> s / (8 * csize t') = (s + w - 1) / (8 * csize t')
    end;
  sound_union packed tag ms i s :
    t = CRecord true packed tag ms -> starts true packed 0 ms !! i = Some s -> s = 0
}.

Lemma ctype_ok_sound t : ctype_ok t = true -> ctype_sound t.
Proof.
  intros Hok.
  assert (forall un packed tag ms, t = CRecord un packed tag ms -> Forall member_placeable ms)
    as Hpl.
  { intros un packed tag ms ->. apply record_ok in Hok.
    eapply List.Forall_impl; [apply member_ok_placeable|done]. }
  split.
  - by apply csize_ok.
  - split; [by apply calign_pos|by apply csize_ok].
  - intros name o w Hin. apply fields_at_inside in Hin; [lia|done].
  - intros packed tag ms i j name t' w s s' E Hij Hi Hs Hs'.
    exact (struct_starts_ordered packed ms 0 i j _ _ _ _ _ (Hpl _ _ _ _ E) Hij Hi Hs Hs').
  - intros tag ms i name t' w s E Hi Hs.
    by apply (struct_starts false ms 0 i _ _ _ _ (Hpl _ _ _ _ E) Hi Hs).
  - intros packed tag ms i s _. apply union_starts.
Qed.

(** ** Objects *)

Lemma get_bits_mod o w obj : 0 <= o -> 0 <= w -> get_bits o w obj = obj / 2 ^ o mod 2 ^ w.
Proof. intros. unfold get_bits. by rewrite Z.shiftr_div_pow2, Z.land_ones by done. Qed.

Lemma testbit_get_bits o w obj n :
  0 <= o -> 0 <= w -> 0 <= n -> Z.testbit (get_bits o w obj) n = Z.testbit obj (o + n) && (n <? w).
Proof.
  intros. unfold get_bits. rewrite Z.land_spec, Z.shiftr_spec, Z.testbit_ones_nonneg by lia.
  by rewrite Z.add_comm.
Qed.

Lemma testbit_set_bits o w v obj n :
  0 <= o -> 0 <= w -> 0 <= n ->
  Z.testbit (set_bits o w v obj) n =
  if (o <=? n) && (n <? o + w) then Z.testbit v (n - o) else Z.testbit obj n.
Proof.
  intros. unfold set_bits.
  rewrite Z.lor_spec, Z.ldiff_spec, !Z.shiftl_spec by lia.
  destruct (o <=? n) eqn:E1; simpl.
  - rewrite Z.land_spec, Z.testbit_ones_nonneg by lia.
    destruct (n <? o + w) eqn:E2; simpl.
    + rewrite (proj2 (Z.ltb_lt (n - o) w)) by lia. simpl.
      by rewrite andb_false_r, andb_true_r.
    + rewrite (proj2 (Z.ltb_ge (n - o) w)) by lia. simpl.
      by rewrite andb_true_r, andb_false_r, orb_false_r.
  - rewrite !(Z.testbit_neg_r _ (n - o)) by lia. simpl. by rewrite andb_true_r, orb_false_r.
Qed.

Lemma get_set_bits o w v obj :
  0 <= o -> 0 <= w -> get_bits o w (set_bits o w v obj) = v mod 2 ^ w.
Proof.
  intros. rewrite <- Z.land_ones by done. apply Z.bits_inj'. intros n Hn.
  rewrite testbit_get_bits, testbit_set_bits, Z.land_spec, Z.testbit_ones_nonneg by lia.
  destruct (Z.ltb_spec n w); [|by rewrite !andb_false_r].
  rewrite (proj2 (Z.leb_le _ _)), (proj2 (Z.ltb_lt (o + n) _)) by lia. simpl.
  by replace (o + n - o) with n by lia.
Qed.

Lemma get_set_bits_disjoint o w v obj o' w' :
  0 <= o -> 0 <= w -> 0 <= o' -> 0 <= w' -> o + w <= o' \/ o' + w' <= o ->
  get_bits o' w' (set_bits o w v obj) = get_bits o' w' obj.
Proof.
  intros. apply Z.bits_inj'. intros n Hn. rewrite !testbit_get_bits by lia.
  destruct (Z.ltb_spec n w'); [|by rewrite !andb_false_r].
  rewrite testbit_set_bits by lia.
  destruct (Z.leb_spec o (o' + n)), (Z.ltb_spec (o' + n) (o + w)); try done; lia.
Qed.

Lemma set_get_bits o w obj : 0 <= o -> 0 <= w -> set_bits o w (get_bits o w obj) obj = obj.
Proof.
  intros. apply Z.bits_inj'. intros n Hn. rewrite testbit_set_bits by lia.
  destruct (Z.leb_spec o n), (Z.ltb_spec n (o + w)); simpl; try done.
  rewrite testbit_get_bits by lia. rewrite (proj2 (Z.ltb_lt (n - o) w)) by lia.
  rewrite andb_true_r. f_equal. lia.
Qed.

Lemma set_bits_range o w v obj n :
  0 <= o -> 0 <= w -> o + w <= n -> 0 <= obj < 2 ^ n -> 0 <= set_bits o w v obj < 2 ^ n.
Proof.
  intros ? ? Hn Hobj. assert (set_bits o w v obj = set_bits o w v obj mod 2 ^ n) as ->;
    [|apply Z.mod_pos_bound; lia].
  rewrite <- Z.land_ones by lia. apply Z.bits_inj'. intros i Hi.
  rewrite Z.land_spec, Z.testbit_ones_nonneg by lia.
  destruct (Z.ltb_spec i n); [by rewrite andb_true_r|]. rewrite andb_false_r.
  rewrite testbit_set_bits by lia.
  rewrite (proj2 (Z.ltb_ge i (o + w))) by lia. rewrite andb_false_r.
  rewrite <- (Z.mod_small obj (2 ^ n)) by done. apply Z.mod_pow2_bits_high. lia.
Qed.

Lemma field_bits_fields t name o w :
  field_bits t name = Some (o, w) -> (name, o, w) ∈ fields t.
Proof.
  unfold field_bits. intros H.
  apply fmap_Some in H as ([i [[n o'] w']] & Hf & [= -> ->]).
  apply list_find_Some in Hf as (Hi & E & _). simpl in E. subst.
  by eapply list_elem_of_lookup_2.
Qed.

(** What assigning a field does to an object of a sound type. *)
Lemma cset_laws t name o w v obj :
  ctype_sound t -> field_bits t name = Some (o, w) -> 0 <= obj < 2 ^ (8 * csize t) ->
  exists obj', cset t name v obj = Some obj' /\ 0 <= obj' < 2 ^ (8 * csize t) /\
    cget t name obj' = Some (v mod 2 ^ w) /\
    (cget t name obj = Some v -> obj' = obj) /\
    (forall other o' w', field_bits t other = Some (o', w') ->
       o + w <= o' \/ o' + w' <= o -> cget t other obj' = cget t other obj).
Proof.
  intros Hs Hf Hobj.
  destruct (sound_fields t Hs name o w (field_bits_fields _ _ _ _ Hf)) as (? & ? & ?).
  exists (set_bits o w v obj). unfold cget, cset. rewrite Hf. simpl.
  split; [done|]. split; [by apply set_bits_range|].
  split; [by rewrite get_set_bits|]. split.
  - intros [= <-]. by apply set_get_bits.
  - intros other o' w' Ho Hd. rewrite Ho. simpl.
    destruct (sound_fields t Hs other o' w' (field_bits_fields _ _ _ _ Ho)) as (? & ? & ?).
    f_equal. by apply get_set_bits_disjoint.
Qed.

(** ** Fields of whole bytes *)

Lemma le_combine_drop k bs : le_combine (drop k bs) = le_combine bs / 256 ^ Z.of_nat k.
Proof.
  revert bs. induction k as [|k IH]; intros bs; [by rewrite Z.div_1_r|].
  destruct bs as [|b bs]; simpl; [by rewrite le_combine_nil, Z.div_0_l by lia|].
  rewrite IH, le_combine_cons, Nat2Z.inj_succ, Z.pow_succ_r by lia.
  rewrite <- Z.div_div by lia. f_equal. pose proof (ub_range b).
  rewrite Z.mul_comm, Z.div_add, Z.div_small by lia. lia.
Qed.

Lemma le_combine_take n bs : le_combine (take n bs) = le_combine bs mod 256 ^ Z.of_nat n.
Proof.
  revert bs. induction n as [|n IH]; intros bs; [by rewrite Z.mod_1_r|].
  destruct bs as [|b bs]; simpl; [by rewrite le_combine_nil|].
  rewrite !le_combine_cons, IH, Nat2Z.inj_succ, Z.pow_succ_r by lia.
  pose proof (ub_range b). rewrite Z.rem_mul_r by lia.
  rewrite (Z.mul_comm 256 (le_combine bs)), Z.mod_add, (Z.mod_small (ub b) 256), Z.div_add, (Z.div_small (ub b)) by lia.
  by rewrite Z.add_0_l.
Qed.

Lemma get_bits_bytes off n bs :
  0 <= off -> 0 <= n ->
  get_bits (8 * off) (8 * n) (le_combine bs) = le_combine (slice off n bs).
Proof.
  intros. rewrite get_bits_mod by lia. unfold slice.
  rewrite le_combine_take, le_combine_drop, !Z2Nat.id by lia.
  by rewrite !Z.pow_mul_r by lia.
Qed.

Lemma get_bits_in o w o' w' obj :
  0 <= o -> 0 <= o' -> 0 <= w' -> o' + w' <= w ->
  get_bits o' w' (get_bits o w obj) = get_bits (o + o') w' obj.
Proof.
  intros. apply Z.bits_inj'. intros n Hn. rewrite !testbit_get_bits by lia.
  rewrite Z.add_assoc. destruct (Z.ltb_spec n w'); [|by rewrite !andb_false_r].
  by rewrite (proj2 (Z.ltb_lt (o' + n) w)), andb_true_r by lia.
Qed.

(** ** The layout as the ABI states it

    [placed off ms ss e]: the members [ms] of an unpacked struct, after the first
    [off] bits, can start at the bits [ss] and end at [e]: in order, a plain
    member and a zero-width bit-field on their type's alignment, a bit-field
    within one unit of its type. *)

Definition fits (t : ctype) (w : option Z) (s : Z) : Prop :=
  match w with
  | None => (8 * calign t | s)
  | Some w =>
      if w =? 0 then (8 * calign t | s)
      else s / (8 * csize t) = (s + w - 1) / (8 * csize t)
  end.

Inductive placed : Z -> list cmember -> list Z -> Z -> Prop :=
  | placed_nil off : placed off [] [] off
  | placed_cons off name t w ms s ss e :
      off <= s -> fits t w s -> placed (s + width (csize t) w) ms ss e ->
      placed off ((name, t, w) :: ms) (s :: ss) e.

Lemma round_up_least x a s : 0 < a -> x <= s -> (a | s) -> round_up x a <= s.
Proof.
  intros Ha Hx [k ->]. destruct (round_up_spec x a Ha) as [[_ Hlt] [j E]]. rewrite E in *.
  assert (j < k + 1) by (apply (Z.mul_lt_mono_pos_r a); [done|]; rewrite Z.mul_add_distr_r; lia).
  apply Z.mul_le_mono_nonneg_r; lia.
Qed.

(** [place] is the first bit that fits. *)
Lemma place_least off t w s :
  placeable (csize t) (calign t) w -> off <= s -> fits t w s ->
  place false off (csize t) (calign t) w <= s.
Proof.
  intros (? & ? & Hw) Hs. unfold fits, place.
  destruct w as [w|]; [|apply round_up_least; lia].
  destruct (w =? 0) eqn:E; [apply round_up_least; lia|].
  set (u := 8 * csize t). assert (0 < u) by (unfold u; lia). intros Hfit.
  destruct (off / u =? (off + w - 1) / u) eqn:E'; [done|].
  destruct (round_up_spec off u ltac:(lia)) as [Hr [k Hk]].
  destruct (Z.le_gt_cases (round_up off u) s); [done|exfalso].
  rewrite Hk in *.
  assert (forall x, k * u - u <= x < k * u -> x / u = k - 1) as Hq.
  { intros x Hx. symmetry. apply (Z.div_unique _ _ _ (x - (k * u - u))); [lia|ring]. }
  pose proof (Hq s ltac:(lia)). pose proof (Hq off ltac:(lia)).
  assert ((off + w - 1) / u <= (s + w - 1) / u) by (apply Z.div_le_mono; lia).
  assert (off / u <= (off + w - 1) / u) by (apply Z.div_le_mono; lia). lia.
Qed.

Lemma place_fits off t w :
  placeable (csize t) (calign t) w -> fits t w (place false off (csize t) (calign t) w).
Proof.
  intros Hp. pose proof (place_aligned off _ _ _ Hp) as Ha. unfold fits. cbv zeta in Ha.
  destruct w as [w|]; [|done]. destruct Hp as (? & ? & ?).
  destruct (w =? 0) eqn:E; [|apply Ha; lia].
  unfold place. rewrite E. apply round_up_mult. lia.
Qed.

Lemma starts_placed ms off :
  Forall member_placeable ms -> placed off ms (starts false false off ms) (struct_end false off ms).
Proof.
  intros H. revert off. induction H as [|[[name t] w] ms Hm _ IH]; intros off; [constructor|].
  simpl. constructor; [by apply place_ge|by apply place_fits|apply IH].
Qed.

Lemma starts_least ms off off' ss e :
  Forall member_placeable ms -> off <= off' -> placed off' ms ss e ->
  Forall2 Z.le (starts false false off ms) ss /\ struct_end false off ms <= e.
Proof.
  intros H. revert off off' ss. induction H as [|[[name t] w] ms Hm _ IH];
    intros off off' ss Hoff Hp; inversion Hp; subst; [by split|].
  simpl. set (p := place _ _ _ _ _).
  assert (p <= s) by (apply place_least; [done|lia|done]).
  destruct (IH (p + width (csize t) w) (s + width (csize t) w) ss0) as [? ?]; [lia|done|].
  split; [by constructor|done].
Qed.

Lemma bytes_of_bits_least n b : n <= 8 * b -> bytes_of_bits n <= b.
Proof.
  intros H. unfold bytes_of_bits. pose proof (round_up_least n 8 (8 * b) ltac:(lia) H) as Hr.
  assert (round_up n 8 / 8 <= 8 * b / 8) as Hd
    by (apply Z.div_le_mono; [lia|apply Hr, Z.divide_factor_l]).
  rewrite (Z.mul_comm 8 b), Z.div_mul in Hd by lia. exact Hd.
Qed.

(** A struct's layout is a placement, the first for each member and the
    smallest. *)
Lemma struct_layout_least tag ms :
  ctype_ok (CRecord false false tag ms) = true ->
  let t := CRecord false false tag ms in
  placed 0 ms (starts false false 0 ms) (struct_end false 0 ms) /\
  struct_end false 0 ms <= 8 * csize t /\
  (forall ss e size, placed 0 ms ss e -> e <= 8 * size -> (calign t | size) ->
     Forall2 Z.le (starts false false 0 ms) ss /\ csize t <= size).
Proof.
  intros Hok t. pose proof (calign_pos t Hok) as Hal.
  assert (Forall member_placeable ms) as Hpl
    by (eapply List.Forall_impl; [apply member_ok_placeable|by eapply record_ok]).
  split; [by apply starts_placed|]. unfold t. rewrite csize_struct. split.
  - pose proof (bytes_of_bits_ge (struct_end false 0 ms)).
    pose proof (round_up_ge (bytes_of_bits (struct_end false 0 ms)) _ Hal). fold t. lia.
  - intros ss e size Hp He Hd.
    destruct (starts_least ms 0 0 ss e Hpl ltac:(lia) Hp) as [? ?]. split; [done|].
    apply round_up_least; [done| |done]. apply bytes_of_bits_least. lia.
Qed.
