(* ===== verification/VmLayouts.v ===== *)
(** * The layouts of the declarations, as numbers

    For every declaration of the [Vm] files, in their order, what a C compiler
    for x86-64 gives for headers/vmlinux.h: the size and the alignment in bytes,
    and each named field with its first bit and its width in bits ([offsetof] and
    [sizeof]; for a bit-field, the bits that change when it is set); then the
    same for the structs of bpf/dns_gateway.h and for the Go structs that
    bpf2go generated.  [AbiProps] compares the computed layouts with these. *)

From stdpp Require Import strings.
From S2P Require Import CLayout.

#[local] Open Scope string_scope.
#[local] Open Scope Z_scope.

(** Size, alignment, fields. *)
Definition layout : Type := Z * Z * list (string * Z * Z).

Definition layout_of (t : ctype) : layout := (csize t, calign t, fields t).

Definition VmBase_layouts : list layout := [
  (* typedef __u16 *) (2, 2, []);
  (* typedef __be16 *) (2, 2, []);
  (* typedef __u8 *) (1, 1, []);
  (* typedef __u32 *) (4, 4, []);
  (* typedef __be32 *) (4, 4, []);
  (* struct in6_addr *) (16, 4, [("in6_u", 0, 128)]);
  (* typedef __u64 *) (8, 8, []);
  (* struct rb_node *) (24, 8, [("__rb_parent_color", 0, 64); ("rb_right", 64, 64);
    ("rb_left", 128, 64)]);
  (* struct list_head *) (16, 8, [("next", 0, 64); ("prev", 64, 64)]);
  (* typedef __s64 *) (8, 8, []);
  (* typedef s64 *) (8, 8, []);
  (* typedef ktime_t *) (8, 8, []);
  (* typedef u64 *) (8, 8, []);
  (* typedef atomic_t *) (4, 4, [("counter", 0, 32)]);
  (* struct refcount_struct *) (4, 4, [("refs", 0, 32)]);
  (* typedef refcount_t *) (4, 4, [("refs", 0, 32)]);
  (* typedef u32 *) (4, 4, []);
  (* typedef u16 *) (2, 2, []);
  (* enum bpf_map_type *) (4, 4, []);
  (* enum bpf_prog_type *) (4, 4, []);
  (* enum bpf_attach_type *) (4, 4, []);
  (* enum bpf_link_type *) (4, 4, []);
  (* typedef __s16 *) (2, 2, []);
  (* typedef __s32 *) (4, 4, []);
  (* struct bpf_insn *) (8, 4, [("code", 0, 8); ("dst_reg", 8, 4); ("src_reg", 12, 4); ("off", 16, 16);
    ("imm", 32, 32)]);
  (* struct bpf_map_memory *) (16, 8, [("pages", 0, 32); ("user", 64, 64)]);
  (* typedef bool *) (1, 1, []);
  (* typedef atomic64_t *) (8, 8, [("counter", 0, 64)]);
  (* typedef atomic_long_t *) (8, 8, [("counter", 0, 64)]);
  (* typedef work_func_t *) (8, 8, []);
  (* struct work_struct *) (32, 8, [("data", 0, 64); ("entry", 64, 128); ("func", 192, 64)]);
  (* struct callback_head *) (16, 8, [("next", 0, 64); ("func", 64, 64)]);
  (* typedef u8 *) (1, 1, []);
  (* struct qspinlock *) (4, 4, [("val", 0, 32); ("locked", 0, 8); ("pending", 8, 8);
    ("locked_pending", 0, 16); ("tail", 16, 16)]);
  (* typedef arch_spinlock_t *) (4, 4, [("val", 0, 32); ("locked", 0, 8); ("pending", 8, 8);
    ("locked_pending", 0, 16); ("tail", 16, 16)]);
  (* struct raw_spinlock *) (4, 4, [("raw_lock", 0, 32)]);
  (* struct spinlock *) (4, 4, [("rlock", 0, 32)]);
  (* typedef spinlock_t *) (4, 4, [("rlock", 0, 32)]);
  (* struct optimistic_spin_queue *) (4, 4, [("tail", 0, 32)]);
  (* struct mutex *) (32, 8, [("owner", 0, 64); ("wait_lock", 64, 32); ("osq", 96, 32);
    ("wait_list", 128, 128)]);
  (* struct bpf_map *) (256, 8, [("ops", 0, 64); ("inner_map_meta", 64, 64); ("security", 128, 64);
    ("map_type", 192, 32); ("key_size", 224, 32); ("value_size", 256, 32); ("max_entries", 288, 32);
    ("map_flags", 320, 32); ("spin_lock_off", 352, 32); ("id", 384, 32); ("numa_node", 416, 32);
    ("btf_key_type_id", 448, 32); ("btf_value_type_id", 480, 32); ("btf", 512, 64); ("memory", 576, 128);
    ("name", 704, 128); ("btf_vmlinux_value_type_id", 832, 32); ("bypass_spec_v1", 864, 8);
    ("frozen", 872, 8); ("refcnt", 1024, 64); ("usercnt", 1088, 64); ("work", 1152, 256);
    ("rcu", 1152, 128); ("freeze_mutex", 1408, 256); ("writecnt", 1664, 64);
    ("free_after_mult_rcu_gp", 1728, 8)]);
  (* typedef raw_spinlock_t *) (4, 4, [("raw_lock", 0, 32)]);
  (* struct hlist_nulls_node *) (16, 8, [("next", 0, 64); ("pprev", 64, 64)]);
  (* struct hlist_node *) (16, 8, [("next", 0, 64); ("pprev", 64, 64)]);
  (* typedef __kernel_ulong_t *) (8, 8, []);
  (* typedef __kernel_size_t *) (8, 8, []);
  (* typedef size_t *) (8, 8, []);
  (* enum bpf_reg_type *) (4, 4, []);
  (* struct btf_func_model *) (14, 1, [("ret_size", 0, 8); ("nr_args", 8, 8); ("arg_size", 16, 96)]);
  (* struct hlist_head *) (8, 8, [("first", 0, 64)]);
  (* struct nlmsghdr *) (16, 4, [("nlmsg_len", 0, 32); ("nlmsg_type", 32, 16); ("nlmsg_flags", 48, 16);
    ("nlmsg_seq", 64, 32); ("nlmsg_pid", 96, 32)]);
  (* typedef netdev_features_t *) (8, 8, []);
  (* struct timer_list *) (40, 8, [("entry", 0, 128); ("expires", 128, 64); ("function", 192, 64);
    ("flags", 256, 32)]);
  (* typedef possible_net_t *) (8, 8, [("net", 0, 64)]);
  (* struct kref *) (4, 4, [("refcount", 0, 32)]);
  (* struct kobject *) (64, 8, [("name", 0, 64); ("entry", 64, 128); ("parent", 192, 64);
    ("kset", 256, 64); ("ktype", 320, 64); ("sd", 384, 64); ("kref", 448, 32);
    ("state_initialized", 480, 1); ("state_in_sysfs", 481, 1); ("state_add_uevent_sent", 482, 1);
    ("state_remove_uevent_sent", 483, 1); ("uevent_suppress", 484, 1)]);
  (* struct timerqueue_node *) (32, 8, [("node", 0, 192); ("expires", 192, 64)]);
  (* struct hrtimer *) (64, 8, [("node", 0, 256); ("_softexpires", 256, 64); ("function", 320, 64);
    ("base", 384, 64); ("state", 448, 8); ("is_rel", 456, 8); ("is_soft", 464, 8); ("is_hard", 472, 8)]);
  (* struct wait_queue_head *) (24, 8, [("lock", 0, 32); ("head", 64, 128)]);
  (* typedef wait_queue_head_t *) (24, 8, [("lock", 0, 32); ("head", 64, 128)]);
  (* typedef __kernel_dev_t *) (4, 4, []);
  (* typedef dev_t *) (4, 4, []);
  (* typedef s16 *) (2, 2, []);
  (* struct sk_buff_head *) (24, 8, [("next", 0, 64); ("prev", 64, 64); ("qlen", 128, 32);
    ("lock", 160, 32)]);
  (* struct seqcount *) (4, 4, [("sequence", 0, 32)]);
  (* typedef seqcount_t *) (4, 4, [("sequence", 0, 32)]);
  (* struct netlink_callback *) (128, 8, [("skb", 0, 64); ("nlh", 64, 64); ("dump", 128, 64);
    ("done", 192, 64); ("data", 256, 64); ("module", 320, 64); ("extack", 384, 64); ("family", 448, 16);
    ("answer_flags", 464, 16); ("min_dump_alloc", 480, 32); ("prev_seq", 512, 32); ("seq", 544, 32);
    ("strict_check", 576, 8); ("ctx", 640, 384); ("args", 640, 384)]);
  (* struct rw_semaphore *) (40, 8, [("count", 0, 64); ("owner", 64, 64); ("osq", 128, 32);
    ("wait_lock", 160, 32); ("wait_list", 192, 128)]);
  (* struct llist_node *) (8, 8, [("next", 0, 64)]);
  (* struct __call_single_node *) (16, 8, [("llist", 0, 64); ("u_flags", 64, 32); ("a_flags", 64, 32);
    ("src", 96, 16); ("dst", 112, 16)]);
  (* typedef u_int8_t *) (1, 1, []);
  (* struct percpu_counter *) (40, 8, [("lock", 0, 32); ("count", 64, 64); ("list", 128, 128);
    ("counters", 256, 64)]);
  (* struct dst_ops *) (192, 8, [("family", 0, 16); ("gc_thresh", 32, 32); ("gc", 64, 64);
    ("check", 128, 64); ("default_advmss", 192, 64); ("mtu", 256, 64); ("cow_metrics", 320, 64);
    ("destroy", 384, 64); ("ifdown", 448, 64); ("negative_advice", 512, 64); ("link_failure", 576, 64);
    ("update_pmtu", 640, 64); ("redirect", 704, 64); ("local_out", 768, 64); ("neigh_lookup", 832, 64);
    ("confirm_neigh", 896, 64); ("kmem_cachep", 960, 64); ("pcpuc_entries", 1024, 320)]);
  (* struct qrwlock *) (8, 4, [("cnts", 0, 32); ("wlocked", 0, 8); ("__lstate", 8, 24);
    ("wait_lock", 32, 32)]);
  (* typedef arch_rwlock_t *) (8, 4, [("cnts", 0, 32); ("wlocked", 0, 8); ("__lstate", 8, 24);
    ("wait_lock", 32, 32)]);
  (* typedef rwlock_t *) (8, 4, [("raw_lock", 0, 64)]);
  (* struct seqcount_spinlock *) (4, 4, [("seqcount", 0, 32)]);
  (* typedef seqcount_spinlock_t *) (4, 4, [("seqcount", 0, 32)]);
  (* typedef seqlock_t *) (8, 4, [("seqcount", 0, 32); ("lock", 32, 32)]);
  (* struct delayed_work *) (88, 8, [("work", 0, 256); ("timer", 256, 320); ("wq", 576, 64);
    ("cpu", 640, 32)]);
  (* struct fib_nh_common *) (72, 8, [("nhc_dev", 0, 64); ("nhc_oif", 64, 32); ("nhc_scope", 96, 8);
    ("nhc_family", 104, 8); ("nhc_gw_family", 112, 8); ("nhc_flags", 120, 8); ("nhc_lwtstate", 128, 64);
    ("nhc_gw", 192, 128); ("nhc_weight", 320, 32); ("nhc_upper_bound", 352, 32);
    ("nhc_pcpu_rth_output", 384, 64); ("nhc_rth_input", 448, 64); ("nhc_exceptions", 512, 64)]);
  (* struct local_ports *) (20, 4, [("lock", 0, 64); ("range", 64, 64); ("warned", 128, 8)]);
  (* struct inet_timewait_death_row *) (128, 8, [("tw_count", 0, 32); ("hashinfo", 512, 64);
    ("sysctl_max_tw_buckets", 576, 32)]);
  (* typedef __kernel_gid32_t *) (4, 4, []);
  (* typedef gid_t *) (4, 4, []);
  (* typedef kgid_t *) (4, 4, [("val", 0, 32)]);
  (* struct ping_group_range *) (16, 4, [("lock", 0, 64); ("range", 64, 64)]);
  (* typedef siphash_key_t *) (16, 8, [("key", 0, 128)]);
  (* struct netns_ipv4 *) (832, 8, [("forw_hdr", 0, 64); ("frags_hdr", 64, 64); ("ipv4_hdr", 128, 64);
    ("route_hdr", 192, 64); ("xfrm4_hdr", 256, 64); ("devconf_all", 320, 64); ("devconf_dflt", 384, 64);
    ("ra_chain", 448, 64); ("ra_mutex", 512, 256); ("rules_ops", 768, 64);
    ("fib_has_custom_rules", 832, 8); ("fib_rules_require_fldissect", 864, 32); ("fib_main", 896, 64);
    ("fib_default", 960, 64); ("fib_has_custom_local_routes", 1024, 8);
    ("fib_num_tclassid_users", 1056, 32); ("fib_table_hash", 1088, 64);
    ("fib_offload_disabled", 1152, 8); ("fibnl", 1216, 64); ("icmp_sk", 1280, 64);
    ("mc_autojoin_sk", 1344, 64); ("peers", 1408, 64); ("fqdir", 1472, 64); ("iptable_filter", 1536, 64);
    ("iptable_mangle", 1600, 64); ("iptable_raw", 1664, 64); ("arptable_filter", 1728, 64);
    ("iptable_security", 1792, 64); ("nat_table", 1856, 64); ("sysctl_icmp_echo_ignore_all", 1920, 8);
    ("sysctl_icmp_echo_ignore_broadcasts", 1928, 8);
    ("sysctl_icmp_ignore_bogus_error_responses", 1936, 8);
    ("sysctl_icmp_errors_use_inbound_ifaddr", 1944, 8); ("sysctl_icmp_ratelimit", 1952, 32);
    ("sysctl_icmp_ratemask", 1984, 32); ("ip_local_ports", 2016, 160); ("sysctl_tcp_ecn", 2176, 8);
    ("sysctl_tcp_ecn_fallback", 2184, 8); ("sysctl_ip_default_ttl", 2192, 8);
    ("sysctl_ip_no_pmtu_disc", 2200, 8); ("sysctl_ip_fwd_use_pmtu", 2208, 8);
    ("sysctl_ip_fwd_update_priority", 2216, 8); ("sysctl_ip_nonlocal_bind", 2224, 8);
    ("sysctl_ip_autobind_reuse", 2232, 8); ("sysctl_ip_dynaddr", 2240, 8);
    ("sysctl_ip_early_demux", 2248, 8); ("sysctl_raw_l3mdev_accept", 2256, 8);
    ("sysctl_tcp_early_demux", 2264, 8); ("sysctl_udp_early_demux", 2272, 8);
    ("sysctl_nexthop_compat_mode", 2280, 8); ("sysctl_fwmark_reflect", 2288, 8);
    ("sysctl_tcp_fwmark_accept", 2296, 8); ("sysctl_tcp_l3mdev_accept", 2304, 8);
    ("sysctl_tcp_mtu_probing", 2312, 8); ("sysctl_tcp_mtu_probe_floor", 2336, 32);
    ("sysctl_tcp_base_mss", 2368, 32); ("sysctl_tcp_min_snd_mss", 2400, 32);
    ("sysctl_tcp_probe_threshold", 2432, 32); ("sysctl_tcp_probe_interval", 2464, 32);
    ("sysctl_tcp_keepalive_time", 2496, 32); ("sysctl_tcp_keepalive_intvl", 2528, 32);
    ("sysctl_tcp_keepalive_probes", 2560, 8); ("sysctl_tcp_syn_retries", 2568, 8);
    ("sysctl_tcp_synack_retries", 2576, 8); ("sysctl_tcp_syncookies", 2584, 8);
    ("sysctl_tcp_migrate_req", 2592, 8); ("sysctl_tcp_reordering", 2624, 32);
    ("sysctl_tcp_retries1", 2656, 8); ("sysctl_tcp_retries2", 2664, 8);
    ("sysctl_tcp_orphan_retries", 2672, 8); ("sysctl_tcp_tw_reuse", 2680, 8);
    ("sysctl_tcp_fin_timeout", 2688, 32); ("sysctl_tcp_notsent_lowat", 2720, 32);
    ("sysctl_tcp_sack", 2752, 8); ("sysctl_tcp_window_scaling", 2760, 8);
    ("sysctl_tcp_timestamps", 2768, 8); ("sysctl_tcp_early_retrans", 2776, 8);
    ("sysctl_tcp_recovery", 2784, 8); ("sysctl_tcp_thin_linear_timeouts", 2792, 8);
    ("sysctl_tcp_slow_start_after_idle", 2800, 8); ("sysctl_tcp_retrans_collapse", 2808, 8);
    ("sysctl_tcp_stdurg", 2816, 8); ("sysctl_tcp_rfc1337", 2824, 8);
    ("sysctl_tcp_abort_on_overflow", 2832, 8); ("sysctl_tcp_fack", 2840, 8);
    ("sysctl_tcp_max_reordering", 2848, 32); ("sysctl_tcp_adv_win_scale", 2880, 32);
    ("sysctl_tcp_dsack", 2912, 8); ("sysctl_tcp_app_win", 2920, 8); ("sysctl_tcp_frto", 2928, 8);
    ("sysctl_tcp_nometrics_save", 2936, 8); ("sysctl_tcp_no_ssthresh_metrics_save", 2944, 8);
    ("sysctl_tcp_moderate_rcvbuf", 2952, 8); ("sysctl_tcp_tso_win_divisor", 2960, 8);
    ("sysctl_tcp_workaround_signed_windows", 2968, 8); ("sysctl_tcp_limit_output_bytes", 2976, 32);
    ("sysctl_tcp_challenge_ack_limit", 3008, 32); ("sysctl_tcp_min_rtt_wlen", 3040, 32);
    ("sysctl_tcp_min_tso_segs", 3072, 8); ("sysctl_tcp_autocorking", 3080, 8);
    ("sysctl_tcp_reflect_tos", 3088, 8); ("sysctl_tcp_invalid_ratelimit", 3104, 32);
    ("sysctl_tcp_pacing_ss_ratio", 3136, 32); ("sysctl_tcp_pacing_ca_ratio", 3168, 32);
    ("sysctl_tcp_wmem", 3200, 96); ("sysctl_tcp_rmem", 3296, 96); ("sysctl_tcp_comp_sack_nr", 3392, 32);
    ("sysctl_tcp_comp_sack_delay_ns", 3456, 64); ("sysctl_tcp_comp_sack_slack_ns", 3520, 64);
    ("tcp_death_row", 3584, 1024); ("sysctl_max_syn_backlog", 4608, 32);
    ("sysctl_tcp_fastopen", 4640, 32); ("tcp_congestion_control", 4672, 64);
    ("tcp_fastopen_ctx", 4736, 64); ("tcp_fastopen_ctx_lock", 4800, 32);
    ("sysctl_tcp_fastopen_blackhole_timeout", 4832, 32); ("tfo_active_disable_times", 4864, 32);
    ("tfo_active_disable_stamp", 4928, 64); ("sysctl_tcp_plb_enabled", 4992, 8);
    ("sysctl_tcp_plb_cong_thresh", 5024, 32); ("sysctl_tcp_plb_idle_rehash_rounds", 5056, 8);
    ("sysctl_tcp_plb_rehash_rounds", 5064, 8); ("sysctl_tcp_plb_suspend_rto_sec", 5072, 8);
    ("sysctl_udp_wmem_min", 5088, 32); ("sysctl_udp_rmem_min", 5120, 32);
    ("sysctl_udp_l3mdev_accept", 5152, 32); ("sysctl_igmp_max_memberships", 5184, 32);
    ("sysctl_igmp_max_msf", 5216, 32); ("sysctl_igmp_llm_reports", 5248, 32);
    ("sysctl_igmp_qrv", 5280, 32); ("ping_group_range", 5312, 128); ("dev_addr_genid", 5440, 32);
    ("sysctl_local_reserved_ports", 5504, 64); ("sysctl_ip_prot_sock", 5568, 32);
    ("mr_tables", 5632, 128); ("mr_rules_ops", 5760, 64); ("sysctl_fib_multipath_use_neigh", 5824, 32);
    ("sysctl_fib_multipath_hash_policy", 5856, 32); ("notifier_ops", 5888, 64); ("fib_seq", 5952, 32);
    ("ipmr_notifier_ops", 6016, 64); ("ipmr_seq", 6080, 32); ("rt_genid", 6112, 32);
    ("ip_id_key", 6144, 128)]);
  (* typedef __addrpair *) (8, 8, []);
  (* typedef __portpair *) (4, 4, []);
  (* struct sock_common *) (136, 8, [("skc_addrpair", 0, 64); ("skc_daddr", 0, 32);
    ("skc_rcv_saddr", 32, 32); ("skc_hash", 64, 32); ("skc_u16hashes", 64, 32); ("skc_portpair", 96, 32);
    ("skc_dport", 96, 16); ("skc_num", 112, 16); ("skc_family", 128, 16); ("skc_state", 144, 8);
    ("skc_reuse", 152, 4); ("skc_reuseport", 156, 1); ("skc_ipv6only", 157, 1);
    ("skc_net_refcnt", 158, 1); ("skc_bound_dev_if", 160, 32); ("skc_bind_node", 192, 128);
    ("skc_portaddr_node", 192, 128); ("skc_prot", 320, 64); ("skc_net", 384, 64);
    ("skc_v6_daddr", 448, 128); ("skc_v6_rcv_saddr", 576, 128); ("skc_cookie", 704, 64);
    ("skc_flags", 768, 64); ("skc_listener", 768, 64); ("skc_tw_dr", 768, 64);
    ("skc_dontcopy_begin", 832, 0); ("skc_node", 832, 128); ("skc_nulls_node", 832, 128);
    ("skc_tx_queue_mapping", 960, 16); ("skc_rx_queue_mapping", 976, 16); ("skc_incoming_cpu", 992, 32);
    ("skc_rcv_wnd", 992, 32); ("skc_tw_rcv_nxt", 992, 32); ("skc_refcnt", 1024, 32);
    ("skc_dontcopy_end", 1056, 0); ("skc_rxhash", 1056, 32); ("skc_window_clamp", 1056, 32);
    ("skc_tw_snd_nxt", 1056, 32)]);
  (* typedef socket_lock_t *) (32, 8, [("slock", 0, 32); ("owned", 32, 32); ("wq", 64, 192)]);
  (* struct rb_root *) (8, 8, [("rb_node", 0, 64)]);
  (* struct page_frag *) (16, 8, [("page", 0, 64); ("offset", 64, 32); ("size", 96, 32)]);
  (* typedef gfp_t *) (4, 4, []);
  (* typedef __kernel_uid32_t *) (4, 4, []);
  (* typedef uid_t *) (4, 4, []);
  (* typedef kuid_t *) (4, 4, [("val", 0, 32)]);
  (* struct sock_cgroup_data *) (16, 8, [("cgroup", 0, 64); ("classid", 64, 32); ("prioidx", 96, 16)]);
  (* struct sock *) (768, 8, [("__sk_common", 0, 1088); ("sk_lock", 1088, 256); ("sk_drops", 1344, 32);
    ("sk_rcvlowat", 1376, 32); ("sk_error_queue", 1408, 192); ("sk_rx_skb_cache", 1600, 64);
    ("sk_receive_queue", 1664, 192); ("sk_backlog", 1856, 192); ("sk_forward_alloc", 2048, 32);
    ("sk_ll_usec", 2080, 32); ("sk_napi_id", 2112, 32); ("sk_rcvbuf", 2144, 32);
    ("sk_wait_pending", 2176, 32); ("sk_filter", 2240, 64); ("sk_wq", 2304, 64); ("sk_wq_raw", 2304, 64);
    ("sk_policy", 2368, 128); ("sk_rx_dst", 2496, 64); ("sk_dst_cache", 2560, 64);
    ("sk_omem_alloc", 2624, 32); ("sk_sndbuf", 2656, 32); ("sk_wmem_queued", 2688, 32);
    ("sk_wmem_alloc", 2720, 32); ("sk_tsq_flags", 2752, 64); ("sk_send_head", 2816, 64);
    ("tcp_rtx_queue", 2816, 64); ("sk_tx_skb_cache", 2880, 64); ("sk_write_queue", 2944, 192);
    ("sk_peek_off", 3136, 32); ("sk_write_pending", 3168, 32); ("sk_dst_pending_confirm", 3200, 32);
    ("sk_pacing_status", 3232, 32); ("sk_sndtimeo", 3264, 64); ("sk_timer", 3328, 320);
    ("sk_priority", 3648, 32); ("sk_mark", 3680, 32); ("sk_pacing_rate", 3712, 64);
    ("sk_max_pacing_rate", 3776, 64); ("sk_frag", 3840, 128); ("sk_route_caps", 3968, 64);
    ("sk_route_nocaps", 4032, 64); ("sk_route_forced_caps", 4096, 64); ("sk_gso_type", 4160, 32);
    ("sk_gso_max_size", 4192, 32); ("sk_allocation", 4224, 32); ("sk_txhash", 4256, 32);
    ("sk_padding", 4288, 1); ("sk_kern_sock", 4289, 1); ("sk_no_check_tx", 4290, 1);
    ("sk_no_check_rx", 4291, 1); ("sk_userlocks", 4292, 4); ("sk_pacing_shift", 4296, 8);
    ("sk_type", 4304, 16); ("sk_protocol", 4320, 16); ("sk_gso_max_segs", 4336, 16);
    ("sk_lingertime", 4352, 64); ("sk_prot_creator", 4416, 64); ("sk_callback_lock", 4480, 64);
    ("sk_err", 4544, 32); ("sk_err_soft", 4576, 32); ("sk_ack_backlog", 4608, 32);
    ("sk_max_ack_backlog", 4640, 32); ("sk_uid", 4672, 32); ("sk_peer_lock", 4704, 32);
    ("sk_peer_pid", 4736, 64); ("sk_peer_cred", 4800, 64); ("sk_rcvtimeo", 4864, 64);
    ("sk_stamp", 4928, 64); ("sk_tsflags", 4992, 16); ("sk_shutdown", 5008, 8); ("sk_tskey", 5024, 32);
    ("sk_zckey", 5056, 32); ("sk_clockid", 5088, 8); ("sk_txtime_deadline_mode", 5096, 1);
    ("sk_txtime_report_errors", 5097, 1); ("sk_txtime_unused", 5098, 6); ("sk_socket", 5120, 64);
    ("sk_user_data", 5184, 64); ("sk_security", 5248, 64); ("sk_cgrp_data", 5312, 128);
    ("sk_memcg", 5440, 64); ("sk_state_change", 5504, 64); ("sk_data_ready", 5568, 64);
    ("sk_write_space", 5632, 64); ("sk_error_report", 5696, 64); ("sk_backlog_rcv", 5760, 64);
    ("sk_destruct", 5824, 64); ("sk_reuseport_cb", 5888, 64); ("sk_bpf_storage", 5952, 64);
    ("sk_rcu", 6016, 128)]);
  (* struct inet_cork *) (56, 8, [("flags", 0, 32); ("addr", 32, 32); ("opt", 64, 64);
    ("fragsize", 128, 32); ("length", 160, 32); ("dst", 192, 64); ("tx_flags", 256, 8); ("ttl", 264, 8);
    ("tos", 272, 16); ("priority", 288, 8); ("gso_size", 304, 16); ("transmit_time", 320, 64);
    ("mark", 384, 32)]);
  (* typedef __be64 *) (8, 8, []);
  (* struct flowi_tunnel *) (8, 8, [("tun_id", 0, 64)]);
  (* struct flowi_common *) (40, 8, [("flowic_oif", 0, 32); ("flowic_iif", 32, 32);
    ("flowic_l3mdev", 64, 32); ("flowic_mark", 96, 32); ("flowic_tos", 128, 8); ("flowic_scope", 136, 8);
    ("flowic_proto", 144, 8); ("flowic_flags", 152, 8); ("flowic_secid", 160, 32);
    ("flowic_uid", 192, 32); ("flowic_multipath_hash", 224, 32); ("flowic_tun_key", 256, 64)]);
  (* union flowi_uli *) (4, 4, [("ports", 0, 32); ("icmpt", 0, 16); ("spi", 0, 32); ("gre_key", 0, 32);
    ("mht", 0, 8)]);
  (* struct flowi4 *) (56, 8, [("__fl_common", 0, 320); ("saddr", 320, 32); ("daddr", 352, 32);
    ("uli", 384, 32)]);
  (* struct flowi6 *) (88, 8, [("__fl_common", 0, 320); ("daddr", 320, 128); ("saddr", 448, 128);
    ("flowlabel", 576, 32); ("uli", 608, 32); ("mp_hash", 640, 32)]);
  (* struct flowi *) (88, 8, [("u", 0, 704)]);
  (* struct inet_cork_full *) (144, 8, [("base", 0, 448); ("fl", 448, 704)]);
  (* struct inet_sock *) (976, 8, [("sk", 0, 6144); ("pinet6", 6144, 64); ("inet_saddr", 6208, 32);
    ("uc_ttl", 6240, 16); ("cmsg_flags", 6256, 16); ("inet_sport", 6272, 16); ("inet_id", 6288, 16);
    ("inet_opt", 6336, 64); ("rx_dst_ifindex", 6400, 32); ("tos", 6432, 8); ("min_ttl", 6440, 8);
    ("mc_ttl", 6448, 8); ("pmtudisc", 6456, 8); ("recverr", 6464, 1); ("is_icsk", 6465, 1);
    ("freebind", 6466, 1); ("hdrincl", 6467, 1); ("mc_loop", 6468, 1); ("transparent", 6469, 1);
    ("mc_all", 6470, 1); ("nodefrag", 6471, 1); ("bind_address_no_port", 6472, 1);
    ("recverr_rfc4884", 6473, 1); ("defer_connect", 6474, 1); ("rcv_tos", 6480, 8);
    ("convert_csum", 6488, 8); ("uc_index", 6496, 32); ("mc_index", 6528, 32); ("mc_addr", 6560, 32);
    ("mc_list", 6592, 64); ("cork", 6656, 1152)]);
  (* struct xarray *) (16, 8, [("xa_lock", 0, 32); ("xa_flags", 32, 32); ("xa_head", 64, 64)]);
  (* typedef time64_t *) (8, 8, [])].

Definition VmPacket_layouts : list layout := [
  (* struct ethhdr *) (14, 2, [("h_dest", 0, 48); ("h_source", 48, 48); ("h_proto", 96, 16)]);
  (* struct vlan_ethhdr *) (18, 2, [("h_dest", 0, 48); ("h_source", 48, 48); ("h_vlan_proto", 96, 16);
    ("h_vlan_TCI", 112, 16); ("h_vlan_encapsulated_proto", 128, 16)]);
  (* typedef __sum16 *) (2, 2, []);
  (* struct iphdr *) (20, 4, [("ihl", 0, 4); ("version", 4, 4); ("tos", 8, 8); ("tot_len", 16, 16);
    ("id", 32, 16); ("frag_off", 48, 16); ("ttl", 64, 8); ("protocol", 72, 8); ("check", 80, 16);
    ("saddr", 96, 32); ("daddr", 128, 32); ("addrs", 96, 64)]);
  (* struct udphdr *) (8, 2, [("source", 0, 16); ("dest", 16, 16); ("len", 32, 16); ("check", 48, 16)]);
  (* struct tcphdr *) (20, 4, [("source", 0, 16); ("dest", 16, 16); ("seq", 32, 32); ("ack_seq", 64, 32);
    ("res1", 96, 4); ("doff", 100, 4); ("fin", 104, 1); ("syn", 105, 1); ("rst", 106, 1); ("psh", 107, 1);
    ("ack", 108, 1); ("urg", 109, 1); ("ece", 110, 1); ("cwr", 111, 1); ("window", 112, 16);
    ("check", 128, 16); ("urg_ptr", 144, 16)]);
  (* struct ipv6hdr *) (40, 4, [("priority", 0, 4); ("version", 4, 4); ("flow_lbl", 8, 24);
    ("payload_len", 32, 16); ("nexthdr", 48, 8); ("hop_limit", 56, 8); ("saddr", 64, 128);
    ("daddr", 192, 128); ("addrs", 64, 256)]);
  (* struct icmphdr *) (8, 4, [("type", 0, 8); ("code", 8, 8); ("checksum", 16, 16); ("un", 32, 32)]);
  (* struct __sk_buff *) (184, 8, [("len", 0, 32); ("pkt_type", 32, 32); ("mark", 64, 32);
    ("queue_mapping", 96, 32); ("protocol", 128, 32); ("vlan_present", 160, 32); ("vlan_tci", 192, 32);
    ("vlan_proto", 224, 32); ("priority", 256, 32); ("ingress_ifindex", 288, 32); ("ifindex", 320, 32);
    ("tc_index", 352, 32); ("cb", 384, 160); ("hash", 544, 32); ("tc_classid", 576, 32); ("data", 608, 32);
    ("data_end", 640, 32); ("napi_id", 672, 32); ("family", 704, 32); ("remote_ip4", 736, 32);
    ("local_ip4", 768, 32); ("remote_ip6", 800, 128); ("local_ip6", 928, 128); ("remote_port", 1056, 32);
    ("local_port", 1088, 32); ("data_meta", 1120, 32); ("flow_keys", 1152, 64); ("tstamp", 1216, 64);
    ("wire_len", 1280, 32); ("gso_segs", 1312, 32); ("sk", 1344, 64); ("gso_size", 1408, 32)]);
  (* typedef __wsum *) (4, 4, []);
  (* typedef sk_buff_data_t *) (4, 4, []);
  (* struct sk_buff *) (224, 8, [("next", 0, 64); ("prev", 64, 64); ("dev", 128, 64);
    ("dev_scratch", 128, 64); ("rbnode", 0, 192); ("list", 0, 128); ("sk", 192, 64); ("tstamp", 256, 64);
    ("skb_mstamp_ns", 256, 64); ("cb", 320, 384); ("_skb_refdst", 704, 64); ("destructor", 768, 64);
    ("tcp_tsorted_anchor", 704, 128); ("_nfct", 832, 64); ("len", 896, 32); ("data_len", 928, 32);
    ("mac_len", 960, 16); ("hdr_len", 976, 16); ("queue_mapping", 992, 16); ("__cloned_offset", 1008, 0);
    ("cloned", 1008, 1); ("nohdr", 1009, 1); ("fclone", 1010, 2); ("peeked", 1012, 1);
    ("head_frag", 1013, 1); ("pfmemalloc", 1014, 1); ("active_extensions", 1016, 8);
    ("headers_start", 1024, 0); ("__pkt_type_offset", 1024, 0); ("pkt_type", 1024, 3);
    ("ignore_df", 1027, 1); ("nf_trace", 1028, 1); ("ip_summed", 1029, 2); ("ooo_okay", 1031, 1);
    ("l4_hash", 1032, 1); ("sw_hash", 1033, 1); ("wifi_acked_valid", 1034, 1); ("wifi_acked", 1035, 1);
    ("no_fcs", 1036, 1); ("encapsulation", 1037, 1); ("encap_hdr_csum", 1038, 1); ("csum_valid", 1039, 1);
    ("__pkt_vlan_present_offset", 1040, 0); ("vlan_present", 1040, 1); ("csum_complete_sw", 1041, 1);
    ("csum_level", 1042, 2); ("csum_not_inet", 1044, 1); ("dst_pending_confirm", 1045, 1);
    ("ndisc_nodetype", 1046, 2); ("ipvs_property", 1048, 1); ("inner_protocol_type", 1049, 1);
    ("remcsum_offload", 1050, 1); ("tc_skip_classify", 1051, 1); ("tc_at_ingress", 1052, 1);
    ("redirected", 1053, 1); ("from_ingress", 1054, 1); ("scm_io_uring", 1055, 1); ("tc_index", 1056, 16);
    ("csum", 1088, 32); ("csum_start", 1088, 16); ("csum_offset", 1104, 16); ("priority", 1120, 32);
    ("skb_iif", 1152, 32); ("hash", 1184, 32); ("vlan_proto", 1216, 16); ("vlan_tci", 1232, 16);
    ("napi_id", 1248, 32); ("sender_cpu", 1248, 32); ("secmark", 1280, 32); ("mark", 1312, 32);
    ("reserved_tailroom", 1312, 32); ("inner_protocol", 1344, 16); ("inner_ipproto", 1344, 8);
    ("inner_transport_header", 1360, 16); ("inner_network_header", 1376, 16);
    ("inner_mac_header", 1392, 16); ("protocol", 1408, 16); ("transport_header", 1424, 16);
    ("network_header", 1440, 16); ("mac_header", 1456, 16); ("headers_end", 1472, 0); ("tail", 1472, 32);
    ("end", 1504, 32); ("head", 1536, 64); ("data", 1600, 64); ("truesize", 1664, 32); ("users", 1696, 32);
    ("extensions", 1728, 64)]);
  (* struct skb_shared_hwtstamps *) (8, 8, [("hwtstamp", 0, 64)]);
  (* struct bio_vec *) (16, 8, [("bv_page", 0, 64); ("bv_len", 64, 32); ("bv_offset", 96, 32)]);
  (* typedef skb_frag_t *) (16, 8, [("bv_page", 0, 64); ("bv_len", 64, 32); ("bv_offset", 96, 32)]);
  (* struct skb_shared_info *) (320, 8, [("__unused", 0, 8); ("meta_len", 8, 8); ("nr_frags", 16, 8);
    ("tx_flags", 24, 8); ("gso_size", 32, 16); ("gso_segs", 48, 16); ("frag_list", 64, 64);
    ("hwtstamps", 128, 64); ("gso_type", 192, 32); ("tskey", 224, 32); ("dataref", 256, 32);
    ("destructor_arg", 320, 64); ("frags", 384, 2176)]);
  (* struct qdisc_skb_cb *) (32, 4, [("pkt_len", 0, 32); ("slave_dev_queue_mapping", 32, 16);
    ("tc_classid", 48, 16); ("data", 64, 160); ("mru", 224, 16)]);
  (* struct bpf_skb_data_end *) (48, 8, [("qdisc_cb", 0, 256); ("data_meta", 256, 64);
    ("data_end", 320, 64)]);
  (* struct bpf_flow_keys *) (56, 4, [("nhoff", 0, 16); ("thoff", 16, 16); ("addr_proto", 32, 16);
    ("is_frag", 48, 8); ("is_first_frag", 56, 8); ("is_encap", 64, 8); ("ip_proto", 72, 8);
    ("n_proto", 80, 16); ("sport", 96, 16); ("dport", 112, 16); ("ipv4_src", 128, 32);
    ("ipv4_dst", 160, 32); ("ipv6_src", 128, 128); ("ipv6_dst", 256, 128); ("flags", 384, 32);
    ("flow_label", 416, 32)]);
  (* struct bpf_nh_params *) (20, 4, [("nh_family", 0, 32); ("ipv4_nh", 32, 32); ("ipv6_nh", 32, 128)]);
  (* struct bpf_redirect_info *) (48, 8, [("flags", 0, 32); ("tgt_index", 32, 32);
    ("tgt_value", 64, 64); ("map", 128, 64); ("kern_flags", 192, 32); ("nh", 224, 160)])].

Definition VmBpfUapi_layouts : list layout := [
  (* enum bpf_func_id *) (4, 4, []);
  (* enum bpf_cmd *) (4, 4, []);
  (* enum bpf_ret_code *) (4, 4, []);
  (* enum *) (4, 4, []);
  (* enum *) (4, 4, []);
  (* enum *) (4, 4, []);
  (* enum *) (4, 4, []);
  (* enum *) (4, 4, []);
  (* enum *) (4, 4, []);
  (* enum *) (4, 4, []);
  (* enum *) (4, 4, []);
  (* enum *) (4, 4, []);
  (* enum *) (4, 4, []);
  (* enum *) (4, 4, []);
  (* enum *) (4, 4, []);
  (* union bpf_attr *) (120, 8, [("map_type", 0, 32); ("key_size", 32, 32); ("value_size", 64, 32);
    ("max_entries", 96, 32); ("map_flags", 128, 32); ("inner_map_fd", 160, 32); ("numa_node", 192, 32);
    ("map_name", 224, 128); ("map_ifindex", 352, 32); ("btf_fd", 384, 32); ("btf_key_type_id", 416, 32);
    ("btf_value_type_id", 448, 32); ("btf_vmlinux_value_type_id", 480, 32); ("map_fd", 0, 32);
    ("key", 64, 64); ("value", 128, 64); ("next_key", 128, 64); ("flags", 192, 64); ("batch", 0, 448);
    ("prog_type", 0, 32); ("insn_cnt", 32, 32); ("insns", 64, 64); ("license", 128, 64);
    ("log_level", 192, 32); ("log_size", 224, 32); ("log_buf", 256, 64); ("kern_version", 320, 32);
    ("prog_flags", 352, 32); ("prog_name", 384, 128); ("prog_ifindex", 512, 32);
    ("expected_attach_type", 544, 32); ("prog_btf_fd", 576, 32); ("func_info_rec_size", 608, 32);
    ("func_info", 640, 64); ("func_info_cnt", 704, 32); ("line_info_rec_size", 736, 32);
    ("line_info", 768, 64); ("line_info_cnt", 832, 32); ("attach_btf_id", 864, 32);
    ("attach_prog_fd", 896, 32); ("pathname", 0, 64); ("bpf_fd", 64, 32); ("file_flags", 96, 32);
    ("target_fd", 0, 32); ("attach_bpf_fd", 32, 32); ("attach_type", 64, 32); ("attach_flags", 96, 32);
    ("replace_bpf_fd", 128, 32); ("test", 0, 576); ("start_id", 0, 32); ("prog_id", 0, 32);
    ("map_id", 0, 32); ("btf_id", 0, 32); ("link_id", 0, 32); ("next_id", 32, 32); ("open_flags", 64, 32);
    ("info", 0, 128); ("query", 0, 256); ("raw_tracepoint", 0, 128); ("btf", 0, 64);
    ("btf_log_buf", 64, 64); ("btf_size", 128, 32); ("btf_log_size", 160, 32); ("btf_log_level", 192, 32);
    ("task_fd_query", 0, 384); ("link_create", 0, 256); ("link_update", 0, 128); ("link_detach", 0, 32);
    ("enable_stats", 0, 32); ("iter_create", 0, 64); ("prog_bind_map", 0, 96)]);
  (* struct bpf_map_info *) (80, 8, [("type", 0, 32); ("id", 32, 32); ("key_size", 64, 32);
    ("value_size", 96, 32); ("max_entries", 128, 32); ("map_flags", 160, 32); ("name", 192, 128);
    ("ifindex", 320, 32); ("btf_vmlinux_value_type_id", 352, 32); ("netns_dev", 384, 64);
    ("netns_ino", 448, 64); ("btf_id", 512, 32); ("btf_key_type_id", 544, 32);
    ("btf_value_type_id", 576, 32)]);
  (* struct bpf_prog_info *) (208, 8, [("type", 0, 32); ("id", 32, 32); ("tag", 64, 64);
    ("jited_prog_len", 128, 32); ("xlated_prog_len", 160, 32); ("jited_prog_insns", 192, 64);
    ("xlated_prog_insns", 256, 64); ("load_time", 320, 64); ("created_by_uid", 384, 32);
    ("nr_map_ids", 416, 32); ("map_ids", 448, 64); ("name", 512, 128); ("ifindex", 640, 32);
    ("gpl_compatible", 672, 1); ("netns_dev", 704, 64); ("netns_ino", 768, 64);
    ("nr_jited_ksyms", 832, 32); ("nr_jited_func_lens", 864, 32); ("jited_ksyms", 896, 64);
    ("jited_func_lens", 960, 64); ("btf_id", 1024, 32); ("func_info_rec_size", 1056, 32);
    ("func_info", 1088, 64); ("nr_func_info", 1152, 32); ("nr_line_info", 1184, 32);
    ("line_info", 1216, 64); ("jited_line_info", 1280, 64); ("nr_jited_line_info", 1344, 32);
    ("line_info_rec_size", 1376, 32); ("jited_line_info_rec_size", 1408, 32);
    ("nr_prog_tags", 1440, 32); ("prog_tags", 1472, 64); ("run_time_ns", 1536, 64);
    ("run_cnt", 1600, 64)]);
  (* struct bpf_link_info *) (32, 8, [("type", 0, 32); ("id", 32, 32); ("prog_id", 64, 32);
    ("raw_tracepoint", 128, 128); ("tracing", 128, 32); ("cgroup", 128, 128); ("iter", 128, 128);
    ("netns", 128, 64); ("xdp", 128, 32)])].

Definition VmBpfMaps_layouts : list layout := [
  (* struct bpf_array *) (320, 8, [("map", 0, 2048); ("elem_size", 2048, 32); ("index_mask", 2080, 32);
    ("aux", 2112, 64); ("value", 2176, 0); ("ptrs", 2176, 0); ("pptrs", 2176, 0)]);
  (* struct pcpu_freelist_head *) (16, 8, [("first", 0, 64); ("lock", 64, 32)]);
  (* struct pcpu_freelist *) (24, 8, [("freelist", 0, 64); ("extralist", 64, 128)]);
  (* struct bpf_lru_list *) (128, 8, [("lists", 0, 384); ("counts", 384, 64);
    ("next_inactive_rotation", 448, 64); ("lock", 512, 32)]);
  (* struct bpf_common_lru *) (192, 8, [("lru_list", 0, 1024); ("local_list", 1024, 64)]);
  (* typedef del_from_htab_func *) (8, 8, []);
  (* struct bpf_lru *) (256, 8, [("common_lru", 0, 1536); ("percpu_lru", 0, 64);
    ("del_from_htab", 1536, 64); ("del_arg", 1600, 64); ("hash_offset", 1664, 32); ("nr_scans", 1696, 32);
    ("percpu", 1728, 8)]);
  (* struct bpf_htab *) (640, 8, [("map", 0, 2048); ("buckets", 2048, 64); ("elems", 2112, 64);
    ("freelist", 2560, 192); ("lru", 2560, 2048); ("extra_elems", 4608, 64); ("count", 4672, 32);
    ("n_buckets", 4704, 32); ("elem_size", 4736, 32); ("hashrnd", 4768, 32)]);
  (* struct pcpu_freelist_node *) (8, 8, [("next", 0, 64)]);
  (* struct bpf_lru_node *) (24, 8, [("list", 0, 128); ("cpu", 128, 16); ("type", 144, 8);
    ("ref", 152, 8)]);
  (* struct htab_elem *) (48, 8, [("hash_node", 0, 128); ("padding", 0, 64); ("htab", 64, 64);
    ("fnode", 64, 64); ("batch_flink", 64, 64); ("rcu", 128, 128); ("lru_node", 128, 192);
    ("hash", 320, 32); ("key", 384, 0)]);
  (* struct bpf_map_ops *) (296, 8, [("map_alloc_check", 0, 64); ("map_alloc", 64, 64);
    ("map_release", 128, 64); ("map_free", 192, 64); ("map_get_next_key", 256, 64);
    ("map_release_uref", 320, 64); ("map_lookup_elem_sys_only", 384, 64); ("map_lookup_batch", 448, 64);
    ("map_lookup_and_delete_batch", 512, 64); ("map_update_batch", 576, 64);
    ("map_delete_batch", 640, 64); ("map_lookup_elem", 704, 64); ("map_update_elem", 768, 64);
    ("map_delete_elem", 832, 64); ("map_push_elem", 896, 64); ("map_pop_elem", 960, 64);
    ("map_peek_elem", 1024, 64); ("map_fd_get_ptr", 1088, 64); ("map_fd_put_ptr", 1152, 64);
    ("map_gen_lookup", 1216, 64); ("map_fd_sys_lookup_elem", 1280, 64); ("map_seq_show_elem", 1344, 64);
    ("map_check_btf", 1408, 64); ("map_poke_track", 1472, 64); ("map_poke_untrack", 1536, 64);
    ("map_poke_run", 1600, 64); ("map_direct_value_addr", 1664, 64);
    ("map_direct_value_meta", 1728, 64); ("map_mmap", 1792, 64); ("map_poll", 1856, 64);
    ("map_local_storage_charge", 1920, 64); ("map_local_storage_uncharge", 1984, 64);
    ("map_owner_storage_ptr", 2048, 64); ("map_meta_equal", 2112, 64); ("map_btf_name", 2176, 64);
    ("map_btf_id", 2240, 64); ("iter_seq_info", 2304, 64)]);
  (* struct sock_filter *) (8, 4, [("code", 0, 16); ("jt", 16, 8); ("jf", 24, 8); ("k", 32, 32)]);
  (* struct bpf_prog *) (56, 8, [("pages", 0, 16); ("jited", 16, 1); ("jit_requested", 17, 1);
    ("gpl_compatible", 18, 1); ("cb_access", 19, 1); ("dst_needed", 20, 1); ("blinded", 21, 1);
    ("is_func", 22, 1); ("kprobe_override", 23, 1); ("has_callchain_buf", 24, 1);
    ("enforce_expected_attach_type", 25, 1); ("call_get_stack", 26, 1); ("type", 32, 32);
    ("expected_attach_type", 64, 32); ("len", 96, 32); ("jited_len", 128, 32); ("tag", 160, 64);
    ("aux", 256, 64); ("orig_prog", 320, 64); ("bpf_func", 384, 64); ("insns", 448, 0); ("insnsi", 448, 0)]);
  (* struct latch_tree_node *) (48, 8, [("node", 0, 384)]);
  (* struct bpf_ksym *) (216, 8, [("start", 0, 64); ("end", 64, 64); ("name", 128, 1024);
    ("lnode", 1152, 128); ("tnode", 1280, 384); ("prog", 1664, 8)]);
  (* struct bpf_prog_aux *) (632, 8, [("refcnt", 0, 64); ("used_map_cnt", 64, 32);
    ("max_ctx_offset", 96, 32); ("max_pkt_offset", 128, 32); ("max_tp_access", 160, 32);
    ("stack_depth", 192, 32); ("id", 224, 32); ("func_cnt", 256, 32); ("func_idx", 288, 32);
    ("attach_btf_id", 320, 32); ("ctx_arg_info_size", 352, 32); ("max_rdonly_access", 384, 32);
    ("max_rdwr_access", 416, 32); ("ctx_arg_info", 448, 64); ("dst_mutex", 512, 256);
    ("dst_prog", 768, 64); ("dst_trampoline", 832, 64); ("saved_dst_prog_type", 896, 32);
    ("saved_dst_attach_type", 928, 32); ("verifier_zext", 960, 8); ("offload_requested", 968, 8);
    ("attach_btf_trace", 976, 8); ("func_proto_unreliable", 984, 8); ("sleepable", 992, 8);
    ("tail_call_reachable", 1000, 8); ("tramp_hlist", 1024, 128); ("attach_func_proto", 1152, 64);
    ("attach_func_name", 1216, 64); ("func", 1280, 64); ("jit_data", 1344, 64); ("poke_tab", 1408, 64);
    ("size_poke_tab", 1472, 32); ("ksym", 1536, 1728); ("ops", 3264, 64); ("used_maps", 3328, 64);
    ("used_maps_mutex", 3392, 256); ("prog", 3648, 64); ("user", 3712, 64); ("load_time", 3776, 64);
    ("cgroup_storage", 3840, 128); ("name", 3968, 128); ("security", 4096, 64); ("offload", 4160, 64);
    ("btf", 4224, 64); ("func_info", 4288, 64); ("func_info_aux", 4352, 64); ("linfo", 4416, 64);
    ("jited_linfo", 4480, 64); ("func_info_cnt", 4544, 32); ("nr_linfo", 4576, 32);
    ("linfo_idx", 4608, 32); ("num_exentries", 4640, 32); ("extable", 4672, 64); ("stats", 4736, 64);
    ("work", 4800, 256); ("rcu", 4800, 128)]);
  (* struct bpf_link *) (64, 8, [("refcnt", 0, 64); ("id", 64, 32); ("type", 96, 32); ("ops", 128, 64);
    ("prog", 192, 64); ("work", 256, 256)]);
  (* struct bpf_verifier_log *) (1048, 8, [("level", 0, 32); ("kbuf", 32, 8192); ("ubuf", 8256, 64);
    ("len_used", 8320, 32); ("len_total", 8352, 32)]);
  (* struct bpf_subprog_info *) (16, 4, [("start", 0, 32); ("linfo_idx", 32, 32);
    ("stack_depth", 64, 16); ("has_tail_call", 80, 8); ("tail_call_reachable", 88, 8);
    ("has_ld_abs", 96, 8)]);
  (* struct bpf_id_pair *) (8, 4, [("old", 0, 32); ("cur", 32, 32)]);
  (* struct bpf_verifier_env *) (6504, 8, [("insn_idx", 0, 32); ("prev_insn_idx", 32, 32);
    ("prog", 64, 64); ("ops", 128, 64); ("head", 192, 64); ("stack_size", 256, 32);
    ("strict_alignment", 288, 8); ("test_state_freq", 296, 8); ("cur_state", 320, 64);
    ("explored_states", 384, 64); ("free_list", 448, 64); ("used_maps", 512, 4096);
    ("used_map_cnt", 4608, 32); ("id_gen", 4640, 32); ("explore_alu_limits", 4672, 8);
    ("allow_ptr_leaks", 4680, 8); ("allow_uninit_stack", 4688, 8); ("allow_ptr_to_map_access", 4696, 8);
    ("bpf_capable", 4704, 8); ("bypass_spec_v1", 4712, 8); ("bypass_spec_v4", 4720, 8);
    ("seen_direct_write", 4728, 8); ("insn_aux_data", 4736, 64); ("prev_linfo", 4800, 64);
    ("log", 4864, 8384); ("subprog_info", 13248, 32896); ("idmap_scratch", 46144, 4800);
    ("cfg", 50944, 192); ("pass_cnt", 51136, 32); ("subprog_cnt", 51168, 32);
    ("prev_insn_processed", 51200, 32); ("insn_processed", 51232, 32);
    ("prev_jmps_processed", 51264, 32); ("jmps_processed", 51296, 32); ("verification_time", 51328, 64);
    ("max_states_per_insn", 51392, 32); ("total_states", 51424, 32); ("peak_states", 51456, 32);
    ("longest_mark_read_walk", 51488, 32); ("type_str_buf", 51520, 512)]);
  (* enum bpf_return_type *) (4, 4, []);
  (* enum bpf_arg_type *) (4, 4, []);
  (* struct bpf_func_proto *) (96, 8, [("func", 0, 64); ("gpl_only", 64, 8); ("pkt_access", 72, 8);
    ("ret_type", 96, 32); ("arg1_type", 128, 32); ("arg2_type", 160, 32); ("arg3_type", 192, 32);
    ("arg4_type", 224, 32); ("arg5_type", 256, 32); ("arg_type", 128, 160); ("arg1_btf_id", 320, 64);
    ("arg2_btf_id", 384, 64); ("arg3_btf_id", 448, 64); ("arg4_btf_id", 512, 64);
    ("arg5_btf_id", 576, 64); ("arg_btf_id", 320, 320); ("arg1_size", 320, 64); ("arg2_size", 384, 64);
    ("arg3_size", 448, 64); ("arg4_size", 512, 64); ("arg5_size", 576, 64); ("arg_size", 320, 320);
    ("ret_btf_id", 640, 64); ("allowed", 704, 64)]);
  (* typedef s32 *) (4, 4, []);
  (* struct tnum *) (16, 8, [("value", 0, 64); ("mask", 64, 64)]);
  (* enum bpf_reg_liveness *) (4, 4, []);
  (* struct bpf_reg_state *) (120, 8, [("type", 0, 32); ("range", 64, 32); ("map_ptr", 64, 64);
    ("btf_id", 64, 32); ("mem_size", 64, 32); ("raw", 64, 64); ("off", 128, 32); ("id", 160, 32);
    ("ref_obj_id", 192, 32); ("var_off", 256, 128); ("smin_value", 384, 64); ("smax_value", 448, 64);
    ("umin_value", 512, 64); ("umax_value", 576, 64); ("s32_min_value", 640, 32);
    ("s32_max_value", 672, 32); ("u32_min_value", 704, 32); ("u32_max_value", 736, 32);
    ("parent", 768, 64); ("frameno", 832, 32); ("subreg_def", 864, 32); ("live", 896, 32);
    ("precise", 928, 8)]);
  (* struct bpf_prog_ops *) (8, 8, [("test_run", 0, 64)]);
  (* struct bpf_verifier_ops *) (48, 8, [("get_func_proto", 0, 64); ("is_valid_access", 64, 64);
    ("gen_prologue", 128, 64); ("gen_ld_abs", 192, 64); ("convert_ctx_access", 256, 64);
    ("btf_struct_access", 320, 64)]);
  (* struct bpf_link_ops *) (48, 8, [("release", 0, 64); ("dealloc", 64, 64); ("detach", 128, 64);
    ("update_prog", 192, 64); ("show_fdinfo", 256, 64); ("fill_link_info", 320, 64)]);
  (* struct bpf_trampoline *) (160, 8, [("hlist", 0, 128); ("mutex", 128, 256); ("refcnt", 384, 32);
    ("key", 448, 64); ("func", 512, 256); ("extension_prog", 768, 64); ("progs_hlist", 832, 192);
    ("progs_cnt", 1024, 96); ("cur_image", 1152, 64); ("selector", 1216, 64)]);
  (* struct bpf_dispatcher_prog *) (16, 8, [("prog", 0, 64); ("users", 64, 32)]);
  (* struct bpf_dispatcher *) (1048, 8, [("mutex", 0, 256); ("func", 256, 64); ("progs", 320, 6144);
    ("num_progs", 6464, 32); ("image", 6528, 64); ("image_off", 6592, 32); ("ksym", 6656, 1728)])].

Definition VmNetdev_layouts : list layout := [
  (* enum net_device_flags *) (4, 4, []);
  (* enum *) (4, 4, []);
  (* enum *) (4, 4, []);
  (* struct ifinfomsg *) (16, 4, [("ifi_family", 0, 8); ("__ifi_pad", 8, 8); ("ifi_type", 16, 16);
    ("ifi_index", 32, 32); ("ifi_flags", 64, 32); ("ifi_change", 96, 32)]);
  (* struct rtattr *) (4, 2, [("rta_len", 0, 16); ("rta_type", 16, 16)]);
  (* struct net_device_stats *) (184, 8, [("rx_packets", 0, 64); ("__rx_packets", 0, 64);
    ("tx_packets", 64, 64); ("__tx_packets", 64, 64); ("rx_bytes", 128, 64); ("__rx_bytes", 128, 64);
    ("tx_bytes", 192, 64); ("__tx_bytes", 192, 64); ("rx_errors", 256, 64); ("__rx_errors", 256, 64);
    ("tx_errors", 320, 64); ("__tx_errors", 320, 64); ("rx_dropped", 384, 64); ("__rx_dropped", 384, 64);
    ("tx_dropped", 448, 64); ("__tx_dropped", 448, 64); ("multicast", 512, 64); ("__multicast", 512, 64);
    ("collisions", 576, 64); ("__collisions", 576, 64); ("rx_length_errors", 640, 64);
    ("__rx_length_errors", 640, 64); ("rx_over_errors", 704, 64); ("__rx_over_errors", 704, 64);
    ("rx_crc_errors", 768, 64); ("__rx_crc_errors", 768, 64); ("rx_frame_errors", 832, 64);
    ("__rx_frame_errors", 832, 64); ("rx_fifo_errors", 896, 64); ("__rx_fifo_errors", 896, 64);
    ("rx_missed_errors", 960, 64); ("__rx_missed_errors", 960, 64); ("tx_aborted_errors", 1024, 64);
    ("__tx_aborted_errors", 1024, 64); ("tx_carrier_errors", 1088, 64);
    ("__tx_carrier_errors", 1088, 64); ("tx_fifo_errors", 1152, 64); ("__tx_fifo_errors", 1152, 64);
    ("tx_heartbeat_errors", 1216, 64); ("__tx_heartbeat_errors", 1216, 64);
    ("tx_window_errors", 1280, 64); ("__tx_window_errors", 1280, 64); ("rx_compressed", 1344, 64);
    ("__rx_compressed", 1344, 64); ("tx_compressed", 1408, 64); ("__tx_compressed", 1408, 64)]);
  (* struct netdev_hw_addr_list *) (24, 8, [("list", 0, 128); ("count", 128, 32)]);
  (* enum netdev_ml_priv_type *) (4, 4, []);
  (* enum dl_dev_state *) (4, 4, []);
  (* struct dev_links_info *) (72, 8, [("suppliers", 0, 128); ("consumers", 128, 128);
    ("needs_suppliers", 256, 128); ("defer_hook", 384, 128); ("need_for_probe", 512, 8);
    ("status", 544, 32)]);
  (* struct pm_message *) (4, 4, [("event", 0, 32)]);
  (* typedef pm_message_t *) (4, 4, [("event", 0, 32)]);
  (* struct swait_queue_head *) (24, 8, [("lock", 0, 32); ("task_list", 64, 128)]);
  (* struct completion *) (32, 8, [("done", 0, 32); ("wait", 64, 192)]);
  (* enum rpm_request *) (4, 4, []);
  (* enum rpm_status *) (4, 4, []);
  (* struct dev_pm_info *) (304, 8, [("power_state", 0, 32); ("can_wakeup", 32, 1);
    ("async_suspend", 33, 1); ("in_dpm_list", 34, 1); ("is_prepared", 35, 1); ("is_suspended", 36, 1);
    ("is_noirq_suspended", 37, 1); ("is_late_suspended", 38, 1); ("no_pm", 39, 1); ("early_init", 40, 1);
    ("direct_complete", 41, 1); ("driver_flags", 64, 32); ("lock", 96, 32); ("entry", 128, 128);
    ("completion", 256, 256); ("wakeup", 512, 64); ("wakeup_path", 576, 1); ("syscore", 577, 1);
    ("no_pm_callbacks", 578, 1); ("must_resume", 579, 1); ("may_skip_resume", 580, 1);
    ("suspend_timer", 640, 512); ("timer_expires", 1152, 64); ("work", 1216, 256);
    ("wait_queue", 1472, 192); ("wakeirq", 1664, 64); ("usage_count", 1728, 32);
    ("child_count", 1760, 32); ("disable_depth", 1792, 3); ("idle_notification", 1795, 1);
    ("request_pending", 1796, 1); ("deferred_resume", 1797, 1); ("needs_force_resume", 1798, 1);
    ("runtime_auto", 1799, 1); ("ignore_children", 1800, 1); ("no_callbacks", 1801, 1);
    ("irq_safe", 1802, 1); ("use_autosuspend", 1803, 1); ("timer_autosuspends", 1804, 1);
    ("memalloc_noio", 1805, 1); ("links_count", 1824, 32); ("request", 1856, 32);
    ("runtime_status", 1888, 32); ("runtime_error", 1920, 32); ("autosuspend_delay", 1952, 32);
    ("last_busy", 1984, 64); ("active_time", 2048, 64); ("suspended_time", 2112, 64);
    ("accounting_timestamp", 2176, 64); ("subsys_data", 2240, 64); ("set_latency_tolerance", 2304, 64);
    ("qos", 2368, 64)]);
  (* struct dev_archdata *) (0, 1, []);
  (* enum device_removable *) (4, 4, []);
  (* struct device *) (736, 8, [("kobj", 0, 512); ("parent", 512, 64); ("p", 576, 64);
    ("init_name", 640, 64); ("type", 704, 64); ("bus", 768, 64); ("driver", 832, 64);
    ("platform_data", 896, 64); ("driver_data", 960, 64); ("mutex", 1024, 256); ("links", 1280, 576);
    ("power", 1856, 2432); ("pm_domain", 4288, 64); ("msi_domain", 4352, 64); ("msi_lock", 4416, 32);
    ("msi_list", 4480, 128); ("dma_ops", 4608, 64); ("dma_mask", 4672, 64);
    ("coherent_dma_mask", 4736, 64); ("bus_dma_limit", 4800, 64); ("dma_range_map", 4864, 64);
    ("dma_parms", 4928, 64); ("dma_pools", 4992, 128); ("archdata", 5120, 0); ("of_node", 5120, 64);
    ("fwnode", 5184, 64); ("numa_node", 5248, 32); ("devt", 5280, 32); ("id", 5312, 32);
    ("devres_lock", 5344, 32); ("devres_head", 5376, 128); ("class", 5504, 64); ("groups", 5568, 64);
    ("release", 5632, 64); ("iommu_group", 5696, 64); ("iommu", 5760, 64); ("removable", 5824, 32);
    ("offline_disabled", 5856, 1); ("offline", 5857, 1); ("of_node_reused", 5858, 1);
    ("state_synced", 5859, 1)]);
  (* struct netdev_tc_txq *) (4, 2, [("count", 0, 16); ("offset", 16, 16)]);
  (* struct bpf_xdp_entity *) (16, 8, [("prog", 0, 64); ("link", 64, 64)]);
  (* struct net_device *) (2368, 8, [("name", 0, 128); ("name_node", 128, 64); ("ifalias", 192, 64);
    ("mem_end", 256, 64); ("mem_start", 320, 64); ("base_addr", 384, 64); ("irq", 448, 32);
    ("state", 512, 64); ("dev_list", 576, 128); ("napi_list", 704, 128); ("unreg_list", 832, 128);
    ("close_list", 960, 128); ("ptype_all", 1088, 128); ("ptype_specific", 1216, 128);
    ("adj_list", 1344, 256); ("features", 1600, 64); ("hw_features", 1664, 64);
    ("wanted_features", 1728, 64); ("vlan_features", 1792, 64); ("hw_enc_features", 1856, 64);
    ("mpls_features", 1920, 64); ("gso_partial_features", 1984, 64); ("ifindex", 2048, 32);
    ("group", 2080, 32); ("stats", 2112, 1472); ("rx_dropped", 3584, 64); ("tx_dropped", 3648, 64);
    ("rx_nohandler", 3712, 64); ("carrier_up_count", 3776, 32); ("carrier_down_count", 3808, 32);
    ("netdev_ops", 3840, 64); ("ethtool_ops", 3904, 64); ("l3mdev_ops", 3968, 64);
    ("ndisc_ops", 4032, 64); ("xfrmdev_ops", 4096, 64); ("header_ops", 4160, 64); ("flags", 4224, 32);
    ("priv_flags", 4256, 32); ("gflags", 4288, 16); ("padded", 4304, 16); ("operstate", 4320, 8);
    ("link_mode", 4328, 8); ("if_port", 4336, 8); ("dma", 4344, 8); ("mtu", 4352, 32);
    ("min_mtu", 4384, 32); ("max_mtu", 4416, 32); ("type", 4448, 16); ("hard_header_len", 4464, 16);
    ("min_header_len", 4480, 8); ("name_assign_type", 4488, 8); ("needed_headroom", 4496, 16);
    ("needed_tailroom", 4512, 16); ("perm_addr", 4528, 256); ("addr_assign_type", 4784, 8);
    ("addr_len", 4792, 8); ("upper_level", 4800, 8); ("lower_level", 4808, 8);
    ("neigh_priv_len", 4816, 16); ("dev_id", 4832, 16); ("dev_port", 4848, 16);
    ("addr_list_lock", 4864, 32); ("uc", 4928, 192); ("mc", 5120, 192); ("dev_addrs", 5312, 192);
    ("queues_kset", 5504, 64); ("promiscuity", 5568, 32); ("allmulti", 5600, 32); ("uc_promisc", 5632, 8);
    ("vlan_info", 5696, 64); ("tipc_ptr", 5760, 64); ("ip_ptr", 5824, 64); ("ip6_ptr", 5888, 64);
    ("ieee80211_ptr", 5952, 64); ("ieee802154_ptr", 6016, 64); ("mpls_ptr", 6080, 64);
    ("dev_addr", 6144, 64); ("_rx", 6208, 64); ("num_rx_queues", 6272, 32);
    ("real_num_rx_queues", 6304, 32); ("xdp_prog", 6336, 64); ("gro_flush_timeout", 6400, 64);
    ("napi_defer_hard_irqs", 6464, 32); ("rx_handler", 6528, 64); ("rx_handler_data", 6592, 64);
    ("miniq_ingress", 6656, 64); ("ingress_queue", 6720, 64); ("nf_hooks_ingress", 6784, 64);
    ("broadcast", 6848, 256); ("rx_cpu_rmap", 7104, 64); ("index_hlist", 7168, 128); ("_tx", 7680, 64);
    ("num_tx_queues", 7744, 32); ("real_num_tx_queues", 7776, 32); ("qdisc", 7808, 64);
    ("tx_queue_len", 7872, 32); ("tx_global_lock", 7904, 32); ("xdp_bulkq", 7936, 64);
    ("xps_cpus_map", 8000, 64); ("xps_rxqs_map", 8064, 64); ("miniq_egress", 8128, 64);
    ("qdisc_hash", 8192, 1024); ("watchdog_timer", 9216, 320); ("watchdog_timeo", 9536, 32);
    ("proto_down_reason", 9568, 32); ("todo_list", 9600, 128); ("pcpu_refcnt", 9728, 64);
    ("link_watch_list", 9792, 128); ("reg_state", 9920, 8); ("dismantle", 9928, 8);
    ("rtnl_link_state", 9936, 16); ("needs_free_netdev", 9952, 8); ("priv_destructor", 9984, 64);
    ("npinfo", 10048, 64); ("nd_net", 10112, 64); ("ml_priv", 10176, 64); ("ml_priv_type", 10240, 32);
    ("lstats", 10304, 64); ("tstats", 10304, 64); ("dstats", 10304, 64); ("garp_port", 10368, 64);
    ("mrp_port", 10432, 64); ("dev", 10496, 5888); ("sysfs_groups", 16384, 256);
    ("sysfs_rx_queue_group", 16640, 64); ("rtnl_link_ops", 16704, 64); ("gso_max_size", 16768, 32);
    ("gso_max_segs", 16800, 16); ("dcbnl_ops", 16832, 64); ("num_tc", 16896, 16);
    ("tc_to_txq", 16912, 512); ("prio_tc_map", 17424, 128); ("priomap", 17600, 64); ("phydev", 17664, 64);
    ("sfp_bus", 17728, 64); ("qdisc_tx_busylock", 17792, 64); ("qdisc_running_key", 17856, 64);
    ("proto_down", 17920, 8); ("wol_enabled", 17928, 1); ("net_notifier_list", 17984, 128);
    ("udp_tunnel_nic_info", 18112, 64); ("udp_tunnel_nic", 18176, 64); ("xdp_state", 18240, 384)]);
  (* struct net_device_ops *) (600, 8, [("ndo_init", 0, 64); ("ndo_uninit", 64, 64);
    ("ndo_open", 128, 64); ("ndo_stop", 192, 64); ("ndo_start_xmit", 256, 64);
    ("ndo_features_check", 320, 64); ("ndo_select_queue", 384, 64); ("ndo_change_rx_flags", 448, 64);
    ("ndo_set_rx_mode", 512, 64); ("ndo_set_mac_address", 576, 64); ("ndo_validate_addr", 640, 64);
    ("ndo_do_ioctl", 704, 64); ("ndo_set_config", 768, 64); ("ndo_change_mtu", 832, 64);
    ("ndo_neigh_setup", 896, 64); ("ndo_tx_timeout", 960, 64); ("ndo_get_stats64", 1024, 64);
    ("ndo_has_offload_stats", 1088, 64); ("ndo_get_offload_stats", 1152, 64);
    ("ndo_get_stats", 1216, 64); ("ndo_vlan_rx_add_vid", 1280, 64); ("ndo_vlan_rx_kill_vid", 1344, 64);
    ("ndo_poll_controller", 1408, 64); ("ndo_netpoll_setup", 1472, 64);
    ("ndo_netpoll_cleanup", 1536, 64); ("ndo_set_vf_mac", 1600, 64); ("ndo_set_vf_vlan", 1664, 64);
    ("ndo_set_vf_rate", 1728, 64); ("ndo_set_vf_spoofchk", 1792, 64); ("ndo_set_vf_trust", 1856, 64);
    ("ndo_get_vf_config", 1920, 64); ("ndo_set_vf_link_state", 1984, 64);
    ("ndo_get_vf_stats", 2048, 64); ("ndo_set_vf_port", 2112, 64); ("ndo_get_vf_port", 2176, 64);
    ("ndo_get_vf_guid", 2240, 64); ("ndo_set_vf_guid", 2304, 64); ("ndo_set_vf_rss_query_en", 2368, 64);
    ("ndo_setup_tc", 2432, 64); ("ndo_fcoe_get_wwn", 2496, 64); ("ndo_rx_flow_steer", 2560, 64);
    ("ndo_add_slave", 2624, 64); ("ndo_del_slave", 2688, 64); ("ndo_get_xmit_slave", 2752, 64);
    ("ndo_fix_features", 2816, 64); ("ndo_set_features", 2880, 64); ("ndo_neigh_construct", 2944, 64);
    ("ndo_neigh_destroy", 3008, 64); ("ndo_fdb_add", 3072, 64); ("ndo_fdb_del", 3136, 64);
    ("ndo_fdb_del_bulk", 3200, 64); ("ndo_fdb_dump", 3264, 64); ("ndo_fdb_get", 3328, 64);
    ("ndo_bridge_setlink", 3392, 64); ("ndo_bridge_getlink", 3456, 64);
    ("ndo_bridge_dellink", 3520, 64); ("ndo_change_carrier", 3584, 64);
    ("ndo_get_phys_port_id", 3648, 64); ("ndo_get_port_parent_id", 3712, 64);
    ("ndo_get_phys_port_name", 3776, 64); ("ndo_udp_tunnel_add", 3840, 64);
    ("ndo_udp_tunnel_del", 3904, 64); ("ndo_dfwd_add_station", 3968, 64);
    ("ndo_dfwd_del_station", 4032, 64); ("ndo_set_tx_maxrate", 4096, 64); ("ndo_get_iflink", 4160, 64);
    ("ndo_change_proto_down", 4224, 64); ("ndo_fill_metadata_dst", 4288, 64);
    ("ndo_set_rx_headroom", 4352, 64); ("ndo_bpf", 4416, 64); ("ndo_xdp_xmit", 4480, 64);
    ("ndo_xsk_wakeup", 4544, 64); ("ndo_get_devlink_port", 4608, 64); ("ndo_tunnel_ctl", 4672, 64);
    ("ndo_get_peer_dev", 4736, 64)]);
  (* struct rtnl_link_stats64 *) (192, 8, [("rx_packets", 0, 64); ("tx_packets", 64, 64);
    ("rx_bytes", 128, 64); ("tx_bytes", 192, 64); ("rx_errors", 256, 64); ("tx_errors", 320, 64);
    ("rx_dropped", 384, 64); ("tx_dropped", 448, 64); ("multicast", 512, 64); ("collisions", 576, 64);
    ("rx_length_errors", 640, 64); ("rx_over_errors", 704, 64); ("rx_crc_errors", 768, 64);
    ("rx_frame_errors", 832, 64); ("rx_fifo_errors", 896, 64); ("rx_missed_errors", 960, 64);
    ("tx_aborted_errors", 1024, 64); ("tx_carrier_errors", 1088, 64); ("tx_fifo_errors", 1152, 64);
    ("tx_heartbeat_errors", 1216, 64); ("tx_window_errors", 1280, 64); ("rx_compressed", 1344, 64);
    ("tx_compressed", 1408, 64); ("rx_nohandler", 1472, 64)]);
  (* struct rtnl_link_ops *) (200, 8, [("list", 0, 128); ("kind", 128, 64); ("priv_size", 192, 64);
    ("setup", 256, 64); ("netns_refund", 320, 8); ("maxtype", 352, 32); ("policy", 384, 64);
    ("validate", 448, 64); ("newlink", 512, 64); ("changelink", 576, 64); ("dellink", 640, 64);
    ("get_size", 704, 64); ("fill_info", 768, 64); ("get_xstats_size", 832, 64); ("fill_xstats", 896, 64);
    ("get_num_tx_queues", 960, 64); ("get_num_rx_queues", 1024, 64); ("slave_maxtype", 1088, 32);
    ("slave_policy", 1152, 64); ("slave_changelink", 1216, 64); ("get_slave_size", 1280, 64);
    ("fill_slave_info", 1344, 64); ("get_link_net", 1408, 64); ("get_linkxstats_size", 1472, 64);
    ("fill_linkxstats", 1536, 64)]);
  (* struct header_ops *) (48, 8, [("create", 0, 64); ("parse", 64, 64); ("cache", 128, 64);
    ("cache_update", 192, 64); ("validate", 256, 64); ("parse_protocol", 320, 64)]);
  (* struct qdisc_skb_head *) (24, 8, [("head", 0, 64); ("tail", 64, 64); ("qlen", 128, 32);
    ("lock", 160, 32)]);
  (* struct gnet_stats_basic_packed *) (16, 8, [("bytes", 0, 64); ("packets", 64, 64)]);
  (* struct gnet_stats_queue *) (20, 4, [("qlen", 0, 32); ("backlog", 32, 32); ("drops", 64, 32);
    ("requeues", 96, 32); ("overlimits", 128, 32)]);
  (* struct Qdisc *) (320, 8, [("enqueue", 0, 64); ("dequeue", 64, 64); ("flags", 128, 32);
    ("limit", 160, 32); ("ops", 192, 64); ("stab", 256, 64); ("hash", 320, 128); ("handle", 448, 32);
    ("parent", 480, 32); ("dev_queue", 512, 64); ("rate_est", 576, 64); ("cpu_bstats", 640, 64);
    ("cpu_qstats", 704, 64); ("pad", 768, 32); ("refcnt", 800, 32); ("gso_skb", 1024, 192);
    ("q", 1216, 192); ("bstats", 1408, 128); ("running", 1536, 32); ("qstats", 1568, 160);
    ("state", 1728, 64); ("next_sched", 1792, 64); ("skb_bad_txq", 1856, 192); ("busylock", 2048, 32);
    ("seqlock", 2080, 32); ("empty", 2112, 8); ("rcu", 2176, 128); ("privdata", 2560, 0)]);
  (* struct mini_Qdisc *) (48, 8, [("filter_list", 0, 64); ("block", 64, 64); ("cpu_bstats", 128, 64);
    ("cpu_qstats", 192, 64); ("rcu", 256, 128)]);
  (* struct tcf_proto *) (104, 8, [("next", 0, 64); ("root", 64, 64); ("classify", 128, 64);
    ("protocol", 192, 16); ("prio", 224, 32); ("data", 256, 64); ("ops", 320, 64); ("chain", 384, 64);
    ("lock", 448, 32); ("deleting", 480, 8); ("refcnt", 512, 32); ("rcu", 576, 128);
    ("destroy_ht_node", 704, 128)]);
  (* struct nla_policy *) (16, 8, [("type", 0, 8); ("validation_type", 8, 8); ("len", 16, 16);
    ("bitfield32_valid", 64, 32); ("mask", 64, 32); ("reject_message", 64, 64); ("nested_policy", 64, 64);
    ("range", 64, 64); ("range_signed", 64, 64); ("min", 64, 16); ("max", 80, 16); ("validate", 64, 64);
    ("strict_start_type", 64, 16)])].

Definition VmQueue_layouts : list layout := [
  (* struct gro_list *) (24, 8, [("list", 0, 128); ("count", 128, 32)]);
  (* struct napi_struct *) (392, 8, [("poll_list", 0, 128); ("state", 128, 64); ("weight", 192, 32);
    ("defer_hard_irqs_count", 224, 32); ("gro_bitmask", 256, 64); ("poll", 320, 64);
    ("poll_owner", 384, 32); ("dev", 448, 64); ("gro_hash", 512, 1536); ("skb", 2048, 64);
    ("rx_list", 2112, 128); ("rx_count", 2240, 32); ("timer", 2304, 512); ("dev_list", 2816, 128);
    ("napi_hash_node", 2944, 128); ("napi_id", 3072, 32)]);
  (* struct dql *) (128, 8, [("num_queued", 0, 32); ("adj_limit", 32, 32); ("last_obj_cnt", 64, 32);
    ("limit", 512, 32); ("num_completed", 544, 32); ("prev_ovlimit", 576, 32);
    ("prev_num_queued", 608, 32); ("prev_last_obj_cnt", 640, 32); ("lowest_slack", 672, 32);
    ("slack_start_time", 704, 64); ("max_limit", 768, 32); ("min_limit", 800, 32);
    ("slack_hold_time", 832, 32)]);
  (* struct netdev_queue *) (320, 8, [("dev", 0, 64); ("qdisc", 64, 64); ("qdisc_sleeping", 128, 64);
    ("kobj", 192, 512); ("numa_node", 704, 32); ("tx_maxrate", 768, 64); ("trans_timeout", 832, 64);
    ("sb_dev", 896, 64); ("pool", 960, 64); ("_xmit_lock", 1024, 32); ("xmit_lock_owner", 1056, 32);
    ("trans_start", 1088, 64); ("state", 1152, 64); ("dql", 1536, 1024)]);
  (* struct Qdisc_ops *) (176, 8, [("next", 0, 64); ("cl_ops", 64, 64); ("id", 128, 128);
    ("priv_size", 256, 32); ("static_flags", 288, 32); ("enqueue", 320, 64); ("dequeue", 384, 64);
    ("peek", 448, 64); ("init", 512, 64); ("reset", 576, 64); ("destroy", 640, 64); ("change", 704, 64);
    ("attach", 768, 64); ("change_tx_queue_len", 832, 64); ("change_real_num_tx", 896, 64);
    ("dump", 960, 64); ("dump_stats", 1024, 64); ("ingress_block_set", 1088, 64);
    ("egress_block_set", 1152, 64); ("ingress_block_get", 1216, 64); ("egress_block_get", 1280, 64);
    ("owner", 1344, 64)]);
  (* struct tcf_proto_ops *) (192, 8, [("head", 0, 128); ("kind", 128, 128); ("classify", 256, 64);
    ("init", 320, 64); ("destroy", 384, 64); ("get", 448, 64); ("put", 512, 64); ("change", 576, 64);
    ("delete", 640, 64); ("delete_empty", 704, 64); ("walk", 768, 64); ("reoffload", 832, 64);
    ("hw_add", 896, 64); ("hw_del", 960, 64); ("bind_class", 1024, 64); ("tmplt_create", 1088, 64);
    ("tmplt_destroy", 1152, 64); ("dump", 1216, 64); ("terse_dump", 1280, 64); ("tmplt_dump", 1344, 64);
    ("owner", 1408, 64); ("flags", 1472, 32)]);
  (* struct flow_block *) (16, 8, [("cb_list", 0, 128)]);
  (* struct tcf_block *) (1264, 8, [("lock", 0, 256); ("chain_list", 256, 128); ("index", 384, 32);
    ("classid", 416, 32); ("refcnt", 448, 32); ("net", 512, 64); ("q", 576, 64); ("cb_lock", 640, 320);
    ("flow_block", 960, 128); ("owner_list", 1088, 128); ("keep_dst", 1216, 8); ("offloadcnt", 1248, 32);
    ("nooffloaddevcnt", 1280, 32); ("lockeddevcnt", 1312, 32); ("chain0", 1344, 192); ("rcu", 1536, 128);
    ("proto_destroy_ht", 1664, 8192); ("proto_destroy_lock", 9856, 256)]);
  (* struct tcf_chain *) (112, 8, [("filter_chain_lock", 0, 256); ("filter_chain", 256, 64);
    ("list", 320, 128); ("block", 448, 64); ("index", 512, 32); ("refcnt", 544, 32);
    ("action_refcnt", 576, 32); ("explicitly_created", 608, 8); ("flushing", 616, 8);
    ("tmplt_ops", 640, 64); ("tmplt_priv", 704, 64); ("rcu", 768, 128)]);
  (* struct tcf_result *) (16, 8, [("class", 0, 64); ("classid", 64, 32); ("goto_tp", 0, 64);
    ("ingress", 0, 8); ("qstats", 64, 64)]);
  (* struct tcmsg *) (20, 4, [("tcm_family", 0, 8); ("tcm__pad1", 8, 8); ("tcm__pad2", 16, 16);
    ("tcm_ifindex", 32, 32); ("tcm_handle", 64, 32); ("tcm_parent", 96, 32); ("tcm_info", 128, 32)]);
  (* struct xdp_md *) (24, 4, [("data", 0, 32); ("data_end", 32, 32); ("data_meta", 64, 32);
    ("ingress_ifindex", 96, 32); ("rx_queue_index", 128, 32); ("egress_ifindex", 160, 32)]);
  (* struct xdp_buff *) (56, 8, [("data", 0, 64); ("data_end", 64, 64); ("data_meta", 128, 64);
    ("data_hard_start", 192, 64); ("rxq", 256, 64); ("txq", 320, 64); ("frame_sz", 384, 32)]);
  (* typedef smp_call_func_t *) (8, 8, []);
  (* struct __call_single_data *) (32, 8, [("node", 0, 128); ("llist", 0, 64); ("flags", 64, 32);
    ("src", 96, 16); ("dst", 112, 16); ("func", 128, 64); ("info", 192, 64)]);
  (* typedef call_single_data_t *) (32, 8, [("node", 0, 128); ("llist", 0, 64); ("flags", 64, 32);
    ("src", 96, 16); ("dst", 112, 16); ("func", 128, 64); ("info", 192, 64)]);
  (* struct softnet_data *) (704, 8, [("poll_list", 0, 128); ("process_queue", 128, 192);
    ("processed", 320, 32); ("time_squeeze", 352, 32); ("received_rps", 384, 32);
    ("rps_ipi_list", 448, 64); ("flow_limit", 512, 64); ("output_queue", 576, 64);
    ("output_queue_tailp", 640, 64); ("completion_queue", 704, 64); ("xfrm_backlog", 768, 192);
    ("xmit", 960, 32); ("input_queue_head", 1024, 32); ("csd", 1536, 256); ("rps_ipi_next", 1792, 64);
    ("cpu", 1856, 32); ("input_queue_tail", 1888, 32); ("dropped", 1920, 32);
    ("input_pkt_queue", 1984, 192); ("backlog", 2176, 3136)]);
  (* struct bpf_prog_array_item *) (24, 8, [("prog", 0, 64); ("cgroup_storage", 64, 128)]);
  (* struct bpf_prog_array *) (16, 8, [("rcu", 0, 128); ("items", 128, 0)]);
  (* struct bpf_cgroup_storage_key *) (16, 8, [("cgroup_inode_id", 0, 64); ("attach_type", 64, 32)]);
  (* struct bpf_cgroup_storage *) (104, 8, [("buf", 0, 64); ("percpu_buf", 0, 64); ("map", 64, 64);
    ("key", 128, 128); ("list_map", 256, 128); ("list_cg", 384, 128); ("node", 512, 192);
    ("rcu", 704, 128)]);
  (* struct bpf_sock *) (80, 4, [("bound_dev_if", 0, 32); ("family", 32, 32); ("type", 64, 32);
    ("protocol", 96, 32); ("mark", 128, 32); ("priority", 160, 32); ("src_ip4", 192, 32);
    ("src_ip6", 224, 128); ("src_port", 352, 32); ("dst_port", 384, 16); ("dst_ip4", 416, 32);
    ("dst_ip6", 448, 128); ("state", 576, 32); ("rx_queue_mapping", 608, 32)]);
  (* struct bpf_tunnel_key *) (28, 4, [("tunnel_id", 0, 32); ("remote_ipv4", 32, 32);
    ("remote_ipv6", 32, 128); ("tunnel_tos", 160, 8); ("tunnel_ttl", 168, 8); ("tunnel_ext", 176, 16);
    ("tunnel_label", 192, 32)]);
  (* struct in_addr *) (4, 4, [("s_addr", 0, 32)]);
  (* union nf_inet_addr *) (16, 4, [("all", 0, 128); ("ip", 0, 32); ("ip6", 0, 128); ("in", 0, 32);
    ("in6", 0, 128)]);
  (* union nf_conntrack_man_proto *) (2, 2, [("all", 0, 16); ("tcp", 0, 16); ("udp", 0, 16);
    ("icmp", 0, 16); ("dccp", 0, 16); ("sctp", 0, 16); ("gre", 0, 16)]);
  (* typedef u_int16_t *) (2, 2, []);
  (* struct nf_conntrack_man *) (20, 4, [("u3", 0, 128); ("u", 128, 16); ("l3num", 144, 16)]);
  (* struct nf_conntrack_tuple *) (40, 4, [("src", 0, 160); ("dst", 160, 160)]);
  (* struct nlattr *) (4, 2, [("nla_len", 0, 16); ("nla_type", 16, 16)]);
  (* struct nlmsgerr *) (20, 4, [("error", 0, 32); ("msg", 32, 128)]);
  (* struct netlink_ext_ack *) (48, 8, [("_msg", 0, 64); ("bad_attr", 64, 64); ("policy", 128, 64);
    ("cookie", 192, 160); ("cookie_len", 352, 8)]);
  (* typedef __kernel_sa_family_t *) (2, 2, []);
  (* struct sockaddr_nl *) (12, 4, [("nl_family", 0, 16); ("nl_pad", 16, 16); ("nl_pid", 32, 32);
    ("nl_groups", 64, 32)]);
  (* struct rtnl_link_ifmap *) (32, 8, [("mem_start", 0, 64); ("mem_end", 64, 64);
    ("base_addr", 128, 64); ("irq", 192, 16); ("dma", 208, 8); ("port", 216, 8)])].

Definition VmRouting_layouts : list layout := [
  (* struct dst_entry *) (112, 8, [("dev", 0, 64); ("dev_rcu", 0, 64); ("ops", 64, 64);
    ("_metrics", 128, 64); ("expires", 192, 64); ("xfrm", 256, 64); ("input", 320, 64); ("output", 384, 64);
    ("flags", 448, 16); ("obsolete", 464, 16); ("header_len", 480, 16); ("trailer_len", 496, 16);
    ("__refcnt", 512, 32); ("__use", 544, 32); ("lastuse", 576, 64); ("lwtstate", 640, 64);
    ("callback_head", 704, 128); ("error", 832, 16); ("__pad", 848, 16); ("tclassid", 864, 32)]);
  (* struct rtable *) (176, 8, [("dst", 0, 896); ("rt_genid", 896, 32); ("rt_flags", 928, 32);
    ("rt_type", 960, 16); ("rt_is_input", 976, 8); ("rt_uses_gateway", 984, 8); ("rt_iif", 992, 32);
    ("rt_gw_family", 1024, 8); ("rt_gw4", 1056, 32); ("rt_gw6", 1056, 128); ("rt_mtu_locked", 1184, 1);
    ("rt_pmtu", 1185, 31); ("rt_uncached", 1216, 128); ("rt_uncached_list", 1344, 64)]);
  (* struct hh_cache *) (48, 8, [("hh_len", 0, 32); ("hh_lock", 32, 64); ("hh_data", 128, 256)]);
  (* struct neighbour *) (288, 8, [("next", 0, 64); ("tbl", 64, 64); ("parms", 128, 64);
    ("confirmed", 192, 64); ("updated", 256, 64); ("lock", 320, 64); ("refcnt", 384, 32);
    ("arp_queue_len_bytes", 416, 32); ("arp_queue", 448, 192); ("timer", 640, 320); ("used", 960, 64);
    ("probes", 1024, 32); ("flags", 1056, 8); ("nud_state", 1064, 8); ("type", 1072, 8); ("dead", 1080, 8);
    ("protocol", 1088, 8); ("ha_lock", 1120, 64); ("ha", 1216, 256); ("hh", 1472, 384);
    ("output", 1856, 64); ("ops", 1920, 64); ("gc_list", 1984, 128); ("rcu", 2112, 128); ("dev", 2240, 64);
    ("primary_key", 2304, 0)]);
  (* struct neigh_parms *) (144, 8, [("net", 0, 64); ("dev", 64, 64); ("list", 128, 128);
    ("neigh_setup", 256, 64); ("tbl", 320, 64); ("sysctl_table", 384, 64); ("dead", 448, 32);
    ("refcnt", 480, 32); ("callback_head", 512, 128); ("reachable_time", 640, 32); ("data", 672, 416);
    ("data_state", 1088, 64)]);
  (* struct neigh_table *) (488, 8, [("family", 0, 32); ("entry_size", 32, 32); ("key_len", 64, 32);
    ("protocol", 96, 16); ("hash", 128, 64); ("key_eq", 192, 64); ("constructor", 256, 64);
    ("pconstructor", 320, 64); ("pdestructor", 384, 64); ("proxy_redo", 448, 64);
    ("is_multicast", 512, 64); ("allow_add", 576, 64); ("id", 640, 64); ("parms", 704, 1152);
    ("parms_list", 1856, 128); ("gc_interval", 1984, 32); ("gc_thresh1", 2016, 32);
    ("gc_thresh2", 2048, 32); ("gc_thresh3", 2080, 32); ("last_flush", 2112, 64); ("gc_work", 2176, 704);
    ("proxy_timer", 2880, 320); ("proxy_queue", 3200, 192); ("entries", 3392, 32);
    ("gc_entries", 3424, 32); ("gc_list", 3456, 128); ("lock", 3584, 64); ("last_rand", 3648, 64);
    ("stats", 3712, 64); ("nht", 3776, 64); ("phash_buckets", 3840, 64)]);
  (* struct ipv4_devconf *) (144, 8, [("sysctl", 0, 64); ("data", 64, 1024); ("state", 1088, 64)]);
  (* struct in_device *) (352, 8, [("dev", 0, 64); ("refcnt", 64, 32); ("dead", 96, 32);
    ("ifa_list", 128, 64); ("mc_list", 192, 64); ("mc_hash", 256, 64); ("mc_count", 320, 32);
    ("mc_tomb_lock", 352, 32); ("mc_tomb", 384, 64); ("mr_v1_seen", 448, 64); ("mr_v2_seen", 512, 64);
    ("mr_maxdelay", 576, 64); ("mr_qi", 640, 64); ("mr_qri", 704, 64); ("mr_qrv", 768, 8);
    ("mr_gq_running", 776, 8); ("mr_ifc_count", 800, 32); ("mr_gq_timer", 832, 320);
    ("mr_ifc_timer", 1152, 320); ("arp_parms", 1472, 64); ("cnf", 1536, 1152);
    ("callback_head", 2688, 128)]);
  (* struct fib_nh *) (112, 8, [("nh_common", 0, 576); ("nh_hash", 576, 128); ("nh_parent", 704, 64);
    ("nh_tclassid", 768, 32); ("nh_saddr", 800, 32); ("nh_saddr_genid", 832, 32)]);
  (* struct fib_info *) (128, 8, [("fib_hash", 0, 128); ("fib_lhash", 128, 128); ("nh_list", 256, 128);
    ("fib_net", 384, 64); ("fib_treeref", 448, 32); ("fib_clntref", 480, 32); ("fib_flags", 512, 32);
    ("fib_dead", 544, 8); ("fib_protocol", 552, 8); ("fib_scope", 560, 8); ("fib_type", 568, 8);
    ("fib_prefsrc", 576, 32); ("fib_tb_id", 608, 32); ("fib_priority", 640, 32); ("fib_metrics", 704, 64);
    ("fib_nhs", 768, 32); ("fib_nh_is_v6", 800, 8); ("nh_updated", 808, 8); ("pfsrc_removed", 816, 8);
    ("nh", 832, 64); ("rcu", 896, 128); ("fib_nh", 1024, 0)]);
  (* struct bpf_fib_lookup *) (64, 4, [("family", 0, 8); ("l4_protocol", 8, 8); ("sport", 16, 16);
    ("dport", 32, 16); ("tot_len", 48, 16); ("ifindex", 64, 32); ("tos", 96, 8); ("flowinfo", 96, 32);
    ("rt_metric", 96, 32); ("ipv4_src", 128, 32); ("ipv6_src", 128, 128); ("ipv4_dst", 256, 32);
    ("ipv6_dst", 256, 128); ("h_vlan_proto", 384, 16); ("h_vlan_TCI", 400, 16); ("smac", 416, 48);
    ("dmac", 464, 48)]);
  (* struct rtmsg *) (12, 4, [("rtm_family", 0, 8); ("rtm_dst_len", 8, 8); ("rtm_src_len", 16, 8);
    ("rtm_tos", 24, 8); ("rtm_table", 32, 8); ("rtm_protocol", 40, 8); ("rtm_scope", 48, 8);
    ("rtm_type", 56, 8); ("rtm_flags", 64, 32)]);
  (* struct ndmsg *) (12, 4, [("ndm_family", 0, 8); ("ndm_pad1", 8, 8); ("ndm_pad2", 16, 16);
    ("ndm_ifindex", 32, 32); ("ndm_state", 64, 16); ("ndm_flags", 80, 8); ("ndm_type", 88, 8)])].

Definition VmSock_layouts : list layout := [
  (* typedef slab_flags_t *) (4, 4, []);
  (* struct proto *) (424, 8, [("close", 0, 64); ("pre_connect", 64, 64); ("connect", 128, 64);
    ("disconnect", 192, 64); ("accept", 256, 64); ("ioctl", 320, 64); ("init", 384, 64);
    ("destroy", 448, 64); ("shutdown", 512, 64); ("setsockopt", 576, 64); ("getsockopt", 640, 64);
    ("keepalive", 704, 64); ("compat_ioctl", 768, 64); ("sendmsg", 832, 64); ("recvmsg", 896, 64);
    ("sendpage", 960, 64); ("bind", 1024, 64); ("bind_add", 1088, 64); ("backlog_rcv", 1152, 64);
    ("bpf_bypass_getsockopt", 1216, 64); ("release_cb", 1280, 64); ("hash", 1344, 64);
    ("unhash", 1408, 64); ("rehash", 1472, 64); ("get_port", 1536, 64); ("inuse_idx", 1600, 32);
    ("stream_memory_free", 1664, 64); ("sock_is_readable", 1728, 64);
    ("enter_memory_pressure", 1792, 64); ("leave_memory_pressure", 1856, 64);
    ("memory_allocated", 1920, 64); ("sockets_allocated", 1984, 64); ("memory_pressure", 2048, 64);
    ("sysctl_mem", 2112, 64); ("sysctl_wmem", 2176, 64); ("sysctl_rmem", 2240, 64);
    ("sysctl_wmem_offset", 2304, 32); ("sysctl_rmem_offset", 2336, 32); ("max_header", 2368, 32);
    ("no_autobind", 2400, 8); ("slab", 2432, 64); ("obj_size", 2496, 32); ("slab_flags", 2528, 32);
    ("useroffset", 2560, 32); ("usersize", 2592, 32); ("orphan_count", 2624, 64); ("rsk_prot", 2688, 64);
    ("twsk_prot", 2752, 64); ("h", 2816, 64); ("owner", 2880, 64); ("name", 2944, 256); ("node", 3200, 128);
    ("diag_destroy", 3328, 64)]);
  (* struct udp_sock *) (1152, 8, [("inet", 0, 7808); ("pending", 7808, 32); ("corkflag", 7840, 32);
    ("encap_type", 7872, 8); ("no_check6_tx", 7880, 1); ("no_check6_rx", 7881, 1);
    ("encap_enabled", 7882, 1); ("gro_enabled", 7883, 1); ("accept_udp_l4", 7884, 1);
    ("accept_udp_fraglist", 7885, 1); ("len", 7888, 16); ("gso_size", 7904, 16); ("pcslen", 7920, 16);
    ("pcrlen", 7936, 16); ("pcflag", 7952, 8); ("unused", 7960, 24); ("encap_rcv", 8000, 64);
    ("encap_err_lookup", 8064, 64); ("encap_destroy", 8128, 64); ("gro_receive", 8192, 64);
    ("gro_complete", 8256, 64); ("reader_queue", 8704, 192); ("forward_deficit", 8896, 32)])].

Definition VmNetns_layouts : list layout := [
  (* struct idr *) (24, 8, [("idr_rt", 0, 128); ("idr_base", 128, 32); ("idr_next", 160, 32)]);
  (* struct ns_common *) (24, 8, [("stashed", 0, 64); ("ops", 64, 64); ("inum", 128, 32)]);
  (* struct ctl_table_header *) (80, 8, [("ctl_table", 0, 64); ("used", 64, 32); ("count", 96, 32);
    ("nreg", 128, 32); ("rcu", 0, 128); ("unregistering", 192, 64); ("ctl_table_arg", 256, 64);
    ("root", 320, 64); ("set", 384, 64); ("parent", 448, 64); ("node", 512, 64); ("inodes", 576, 64)]);
  (* struct ctl_dir *) (88, 8, [("header", 0, 640); ("root", 640, 64)]);
  (* struct ctl_table_set *) (96, 8, [("is_seen", 0, 64); ("dir", 64, 704)]);
  (* struct raw_notifier_head *) (8, 8, [("head", 0, 64)]);
  (* struct netns_core *) (32, 8, [("sysctl_hdr", 0, 64); ("sysctl_somaxconn", 64, 32);
    ("sock_inuse", 128, 64); ("prot_inuse", 192, 64)]);
  (* struct netns_mib *) (128, 8, [("tcp_statistics", 0, 64); ("ip_statistics", 64, 64);
    ("net_statistics", 128, 64); ("udp_statistics", 192, 64); ("udplite_statistics", 256, 64);
    ("icmp_statistics", 320, 64); ("icmpmsg_statistics", 384, 64); ("proc_net_devsnmp6", 448, 64);
    ("udp_stats_in6", 512, 64); ("udplite_stats_in6", 576, 64); ("ipv6_statistics", 640, 64);
    ("icmpv6_statistics", 704, 64); ("icmpv6msg_statistics", 768, 64); ("xfrm_statistics", 832, 64);
    ("tls_statistics", 896, 64); ("mptcp_statistics", 960, 64)]);
  (* struct netns_packet *) (40, 8, [("sklist_lock", 0, 256); ("sklist", 256, 64)]);
  (* struct netns_unix *) (16, 8, [("sysctl_max_dgram_qlen", 0, 32); ("ctl", 64, 64)]);
  (* struct blocking_notifier_head *) (48, 8, [("rwsem", 0, 320); ("head", 320, 64)]);
  (* struct netns_nexthop *) (72, 8, [("rb_root", 0, 64); ("devhash", 64, 64); ("seq", 128, 32);
    ("last_id_allocated", 160, 32); ("notifier_chain", 192, 384)]);
  (* struct netns_sysctl_ipv6 *) (200, 8, [("hdr", 0, 64); ("route_hdr", 64, 64); ("icmp_hdr", 128, 64);
    ("frags_hdr", 192, 64); ("xfrm6_hdr", 256, 64); ("bindv6only", 320, 32); ("flush_delay", 352, 32);
    ("ip6_rt_max_size", 384, 32); ("ip6_rt_gc_min_interval", 416, 32); ("ip6_rt_gc_timeout", 448, 32);
    ("ip6_rt_gc_interval", 480, 32); ("ip6_rt_gc_elasticity", 512, 32); ("ip6_rt_mtu_expires", 544, 32);
    ("ip6_rt_min_advmss", 576, 32); ("multipath_hash_policy", 608, 32);
    ("flowlabel_consistency", 640, 32); ("auto_flowlabels", 672, 32); ("icmpv6_time", 704, 32);
    ("icmpv6_echo_ignore_all", 736, 32); ("icmpv6_echo_ignore_multicast", 768, 32);
    ("icmpv6_echo_ignore_anycast", 800, 32); ("icmpv6_ratemask", 832, 256);
    ("icmpv6_ratemask_ptr", 1088, 64); ("anycast_src_echo_reply", 1152, 32);
    ("ip_nonlocal_bind", 1184, 32); ("fwmark_reflect", 1216, 32); ("idgen_retries", 1248, 32);
    ("idgen_delay", 1280, 32); ("flowlabel_state_ranges", 1312, 32); ("flowlabel_reflect", 1344, 32);
    ("max_dst_opts_cnt", 1376, 32); ("max_hbh_opts_cnt", 1408, 32); ("max_dst_opts_len", 1440, 32);
    ("max_hbh_opts_len", 1472, 32); ("seg6_flowlabel", 1504, 32); ("skip_notify_on_dev_down", 1536, 8)]);
  (* struct netns_ipv6 *) (768, 8, [("sysctl", 0, 1600); ("devconf_all", 1600, 64);
    ("devconf_dflt", 1664, 64); ("peers", 1728, 64); ("fqdir", 1792, 64); ("ip6table_filter", 1856, 64);
    ("ip6table_mangle", 1920, 64); ("ip6table_raw", 1984, 64); ("ip6table_security", 2048, 64);
    ("ip6table_nat", 2112, 64); ("fib6_null_entry", 2176, 64); ("ip6_null_entry", 2240, 64);
    ("rt6_stats", 2304, 64); ("ip6_fib_timer", 2368, 320); ("fib_table_hash", 2688, 64);
    ("fib6_main_tbl", 2752, 64); ("fib6_walkers", 2816, 128); ("ip6_dst_ops", 3072, 1536);
    ("fib6_walker_lock", 4608, 64); ("fib6_gc_lock", 4672, 32); ("ip6_rt_gc_expire", 4704, 32);
    ("ip6_rt_last_gc", 4736, 64); ("flowlabel_has_excl", 4800, 8); ("fib6_has_custom_rules", 4808, 8);
    ("fib6_rules_require_fldissect", 4832, 32); ("fib6_routes_require_src", 4864, 32);
    ("ip6_prohibit_entry", 4928, 64); ("ip6_blk_hole_entry", 4992, 64); ("fib6_local_tbl", 5056, 64);
    ("fib6_rules_ops", 5120, 64); ("icmp_sk", 5184, 64); ("ndisc_sk", 5248, 64); ("tcp_sk", 5312, 64);
    ("igmp_sk", 5376, 64); ("mc_autojoin_sk", 5440, 64); ("mr6_tables", 5504, 128);
    ("mr6_rules_ops", 5632, 64); ("dev_addr_genid", 5696, 32); ("fib6_sernum", 5728, 32);
    ("seg6_data", 5760, 64); ("notifier_ops", 5824, 64); ("ip6mr_notifier_ops", 5888, 64);
    ("ipmr_seq", 5952, 32); ("ip6addrlbl_table", 6016, 128)]);
  (* struct netns_sctp *) (264, 8, [("sctp_statistics", 0, 64); ("proc_net_sctp", 64, 64);
    ("sysctl_header", 128, 64); ("ctl_sock", 192, 64); ("local_addr_list", 256, 128);
    ("addr_waitq", 384, 128); ("addr_wq_timer", 512, 320); ("auto_asconf_splist", 832, 128);
    ("addr_wq_lock", 960, 32); ("local_addr_lock", 992, 32); ("rto_initial", 1024, 32);
    ("rto_min", 1056, 32); ("rto_max", 1088, 32); ("rto_alpha", 1120, 32); ("rto_beta", 1152, 32);
    ("max_burst", 1184, 32); ("cookie_preserve_enable", 1216, 32); ("sctp_hmac_alg", 1280, 64);
    ("valid_cookie_life", 1344, 32); ("sack_timeout", 1376, 32); ("hb_interval", 1408, 32);
    ("max_retrans_association", 1440, 32); ("max_retrans_path", 1472, 32);
    ("max_retrans_init", 1504, 32); ("pf_retrans", 1536, 32); ("ps_retrans", 1568, 32);
    ("pf_enable", 1600, 32); ("pf_expose", 1632, 32); ("sndbuf_policy", 1664, 32);
    ("rcvbuf_policy", 1696, 32); ("default_auto_asconf", 1728, 32); ("addip_enable", 1760, 32);
    ("addip_noauth", 1792, 32); ("prsctp_enable", 1824, 32); ("reconf_enable", 1856, 32);
    ("auth_enable", 1888, 32); ("intl_enable", 1920, 32); ("ecn_enable", 1952, 32);
    ("scope_policy", 1984, 32); ("rwnd_upd_shift", 2016, 32); ("max_autoclose", 2048, 64)]);
  (* struct netns_dccp *) (16, 8, [("v4_ctl_sk", 0, 64); ("v6_ctl_sk", 64, 64)]);
  (* struct netns_nf *) (280, 8, [("proc_netfilter", 0, 64); ("queue_handler", 64, 64);
    ("nf_loggers", 128, 832); ("nf_log_dir_header", 960, 64); ("hooks_ipv4", 1024, 320);
    ("hooks_ipv6", 1344, 320); ("hooks_arp", 1664, 192); ("hooks_bridge", 1856, 320);
    ("defrag_ipv4", 2176, 8); ("defrag_ipv6", 2184, 8)]);
  (* struct netns_xt *) (240, 8, [("tables", 0, 1664); ("notrack_deprecated_warning", 1664, 8);
    ("clusterip_deprecated_warning", 1672, 8); ("broute_table", 1728, 64); ("frame_filter", 1792, 64);
    ("frame_nat", 1856, 64)]);
  (* struct nf_generic_net *) (4, 4, [("timeout", 0, 32)]);
  (* struct nf_tcp_net *) (68, 4, [("timeouts", 0, 448); ("tcp_loose", 448, 32);
    ("tcp_be_liberal", 480, 32); ("tcp_max_retrans", 512, 32)]);
  (* struct nf_udp_net *) (8, 4, [("timeouts", 0, 64)]);
  (* struct nf_icmp_net *) (4, 4, [("timeout", 0, 32)]);
  (* struct nf_dccp_net *) (44, 4, [("dccp_loose", 0, 32); ("dccp_timeout", 32, 320)]);
  (* struct nf_sctp_net *) (40, 4, [("timeouts", 0, 320)]);
  (* struct nf_gre_net *) (24, 8, [("keymap_list", 0, 128); ("timeouts", 128, 64)]);
  (* struct nf_ip_net *) (200, 8, [("generic", 0, 32); ("tcp", 32, 544); ("udp", 576, 64);
    ("icmp", 640, 32); ("icmpv6", 672, 32); ("dccp", 704, 352); ("sctp", 1056, 320); ("gre", 1408, 192)]);
  (* struct netns_ct *) (376, 8, [("count", 0, 32); ("expect_count", 32, 32); ("ecache_dwork", 64, 704);
    ("ecache_dwork_pending", 768, 8); ("auto_assign_helper_warned", 776, 8); ("sysctl_header", 832, 64);
    ("sysctl_log_invalid", 896, 32); ("sysctl_events", 928, 32); ("sysctl_acct", 960, 32);
    ("sysctl_auto_assign_helper", 992, 32); ("sysctl_tstamp", 1024, 32); ("sysctl_checksum", 1056, 32);
    ("pcpu_lists", 1088, 64); ("stat", 1152, 64); ("nf_conntrack_event_cb", 1216, 64);
    ("nf_expect_event_cb", 1280, 64); ("nf_ct_proto", 1344, 1600); ("labels_used", 2944, 32)]);
  (* struct netns_nftables *) (1, 1, [("gencursor", 0, 8)]);
  (* struct netns_nf_frag *) (8, 8, [("fqdir", 0, 64)]);
  (* struct netns_bpf *) (64, 8, [("run_array", 0, 128); ("progs", 128, 128); ("links", 256, 256)]);
  (* struct xfrm_policy_hash *) (16, 8, [("table", 0, 64); ("hmask", 64, 32); ("dbits4", 96, 8);
    ("sbits4", 104, 8); ("dbits6", 112, 8); ("sbits6", 120, 8)]);
  (* struct xfrm_policy_hthresh *) (48, 8, [("work", 0, 256); ("lock", 256, 64); ("lbits4", 320, 8);
    ("rbits4", 328, 8); ("lbits6", 336, 8); ("rbits6", 344, 8)]);
  (* struct netns_xfrm *) (832, 8, [("state_all", 0, 128); ("state_bydst", 128, 64);
    ("state_bysrc", 192, 64); ("state_byspi", 256, 64); ("state_hmask", 320, 32); ("state_num", 352, 32);
    ("state_hash_work", 384, 256); ("policy_all", 640, 128); ("policy_byidx", 768, 64);
    ("policy_idx_hmask", 832, 32); ("idx_generator", 864, 32); ("policy_inexact", 896, 192);
    ("policy_bydst", 1088, 384); ("policy_count", 1472, 192); ("policy_hash_work", 1664, 256);
    ("policy_hthresh", 1920, 384); ("inexact_bins", 2304, 128); ("nlsk", 2432, 64);
    ("nlsk_stash", 2496, 64); ("sysctl_aevent_etime", 2560, 32); ("sysctl_aevent_rseqth", 2592, 32);
    ("sysctl_larval_drop", 2624, 32); ("sysctl_acq_expires", 2656, 32); ("policy_default", 2688, 24);
    ("sysctl_hdr", 2752, 64); ("xfrm4_dst_ops", 3072, 1536); ("xfrm6_dst_ops", 4608, 1536);
    ("xfrm_state_lock", 6144, 32); ("xfrm_state_hash_generation", 6176, 32);
    ("xfrm_policy_hash_generation", 6208, 32); ("xfrm_policy_lock", 6240, 32);
    ("xfrm_cfg_mutex", 6272, 256)]);
  (* struct netns_mpls *) (32, 8, [("ip_ttl_propagate", 0, 32); ("default_ttl", 32, 32);
    ("platform_labels", 64, 64); ("platform_label", 128, 64); ("ctl", 192, 64)]);
  (* struct netns_can *) (160, 8, [("proc_dir", 0, 64); ("pde_stats", 64, 64);
    ("pde_reset_stats", 128, 64); ("pde_rcvlist_all", 192, 64); ("pde_rcvlist_fil", 256, 64);
    ("pde_rcvlist_inv", 320, 64); ("pde_rcvlist_sff", 384, 64); ("pde_rcvlist_eff", 448, 64);
    ("pde_rcvlist_err", 512, 64); ("bcmproc_dir", 576, 64); ("rx_alldev_list", 640, 64);
    ("rcvlists_lock", 704, 32); ("stattimer", 768, 320); ("pkg_stats", 1088, 64);
    ("rcv_lists_stats", 1152, 64); ("cgw_list", 1216, 64)]);
  (* struct netns_xdp *) (40, 8, [("lock", 0, 256); ("list", 256, 64)]);
  (* struct net *) (4800, 8, [("passive", 0, 32); ("count", 32, 32); ("rules_mod_lock", 64, 32);
    ("dev_unreg_count", 96, 32); ("dev_base_seq", 128, 32); ("ifindex", 160, 32); ("nsid_lock", 192, 32);
    ("fnhe_genid", 224, 32); ("list", 256, 128); ("exit_list", 384, 128); ("defer_free_list", 512, 64);
    ("cleanup_list", 576, 64); ("key_domain", 640, 64); ("user_ns", 704, 64); ("ucounts", 768, 64);
    ("netns_ids", 832, 192); ("ns", 1024, 192); ("dev_base_head", 1216, 128); ("proc_net", 1344, 64);
    ("proc_net_stat", 1408, 64); ("sysctls", 1472, 768); ("rtnl", 2240, 64); ("genl_sock", 2304, 64);
    ("uevent_sock", 2368, 64); ("dev_name_head", 2432, 64); ("dev_index_head", 2496, 64);
    ("netdev_chain", 2560, 64); ("hash_mix", 2624, 32); ("loopback_dev", 2688, 64);
    ("rules_ops", 2752, 128); ("core", 2880, 256); ("mib", 3136, 1024); ("packet", 4160, 320);
    ("unx", 4480, 128); ("nexthop", 4608, 576); ("ipv4", 5632, 6656); ("ipv6", 12288, 6144);
    ("sctp", 18432, 2112); ("dccp", 20544, 128); ("nf", 20672, 2240); ("xt", 22912, 1920);
    ("ct", 24832, 3008); ("nft", 27840, 8); ("nf_frag", 27904, 64); ("nf_frag_frags_hdr", 27968, 64);
    ("nfnl", 28032, 64); ("nfnl_stash", 28096, 64); ("nfnl_acct_list", 28160, 128);
    ("nfct_timeout_list", 28288, 128); ("gen", 28416, 64); ("bpf", 28480, 512); ("xfrm", 29184, 6656);
    ("net_cookie", 35840, 64); ("ipvs", 35904, 64); ("mpls", 35968, 256); ("can", 36224, 1280);
    ("xdp", 37504, 320); ("crypto_nlsk", 37824, 64); ("diag_nlsk", 37888, 64)]);
  (* struct fastopen_queue *) (40, 8, [("rskq_rst_head", 0, 64); ("rskq_rst_tail", 64, 64);
    ("lock", 128, 32); ("qlen", 160, 32); ("max_qlen", 192, 32); ("ctx", 256, 64)]);
  (* struct request_sock_queue *) (80, 8, [("rskq_lock", 0, 32); ("rskq_defer_accept", 32, 8);
    ("synflood_warned", 64, 32); ("qlen", 96, 32); ("young", 128, 32); ("rskq_accept_head", 192, 64);
    ("rskq_accept_tail", 256, 64); ("fastopenq", 320, 320)]);
  (* struct inet_connection_sock *) (1520, 8, [("icsk_inet", 0, 7808);
    ("icsk_accept_queue", 7808, 640); ("icsk_bind_hash", 8448, 64); ("icsk_timeout", 8512, 64);
    ("icsk_retransmit_timer", 8576, 320); ("icsk_delack_timer", 8896, 320); ("icsk_rto", 9216, 32);
    ("icsk_rto_min", 9248, 32); ("icsk_delack_max", 9280, 32); ("icsk_pmtu_cookie", 9312, 32);
    ("icsk_ca_ops", 9344, 64); ("icsk_af_ops", 9408, 64); ("icsk_ulp_ops", 9472, 64);
    ("icsk_ulp_data", 9536, 64); ("icsk_clean_acked", 9600, 64);
    ("icsk_listen_portaddr_node", 9664, 128); ("icsk_sync_mss", 9792, 64); ("icsk_ca_state", 9856, 5);
    ("icsk_ca_initialized", 9861, 1); ("icsk_ca_setsockopt", 9862, 1); ("icsk_ca_dst_locked", 9863, 1);
    ("icsk_retransmits", 9864, 8); ("icsk_pending", 9872, 8); ("icsk_backoff", 9880, 8);
    ("icsk_syn_retries", 9888, 8); ("icsk_probes_out", 9896, 8); ("icsk_ext_hdr_len", 9904, 16);
    ("icsk_ack", 9920, 192); ("icsk_mtup", 10112, 160); ("icsk_probes_tstamp", 10272, 32);
    ("icsk_user_timeout", 10304, 32); ("icsk_ca_priv", 10368, 1792)]);
  (* struct tcp_rack *) (24, 8, [("mstamp", 0, 64); ("rtt_us", 64, 32); ("end_seq", 96, 32);
    ("last_delivered", 128, 32); ("reo_wnd_steps", 160, 8); ("reo_wnd_persist", 168, 5);
    ("dsack_seen", 173, 1); ("advanced", 174, 1)]);
  (* struct minmax_sample *) (8, 4, [("t", 0, 32); ("v", 32, 32)]);
  (* struct minmax *) (24, 4, [("s", 0, 192)]);
  (* struct tcp_options_received *) (24, 4, [("ts_recent_stamp", 0, 32); ("ts_recent", 32, 32);
    ("rcv_tsval", 64, 32); ("rcv_tsecr", 96, 32); ("saw_tstamp", 128, 1); ("tstamp_ok", 129, 1);
    ("dsack", 130, 1); ("wscale_ok", 131, 1); ("sack_ok", 132, 3); ("smc_ok", 135, 1);
    ("snd_wscale", 136, 4); ("rcv_wscale", 140, 4); ("saw_unknown", 144, 1); ("unused", 145, 7);
    ("num_sacks", 152, 8); ("user_mss", 160, 16); ("mss_clamp", 176, 16)]);
  (* struct tcp_sack_block *) (8, 4, [("start_seq", 0, 32); ("end_seq", 32, 32)]);
  (* struct tcp_sock *) (2352, 8, [("inet_conn", 0, 12160); ("tcp_header_len", 12160, 16);
    ("gso_segs", 12176, 16); ("pred_flags", 12192, 32); ("bytes_received", 12224, 64);
    ("segs_in", 12288, 32); ("data_segs_in", 12320, 32); ("rcv_nxt", 12352, 32);
    ("copied_seq", 12384, 32); ("rcv_wup", 12416, 32); ("snd_nxt", 12448, 32); ("segs_out", 12480, 32);
    ("data_segs_out", 12512, 32); ("bytes_sent", 12544, 64); ("bytes_acked", 12608, 64);
    ("dsack_dups", 12672, 32); ("snd_una", 12704, 32); ("snd_sml", 12736, 32); ("rcv_tstamp", 12768, 32);
    ("lsndtime", 12800, 32); ("last_oow_ack_time", 12832, 32); ("compressed_ack_rcv_nxt", 12864, 32);
    ("tsoffset", 12896, 32); ("tsq_node", 12928, 128); ("tsorted_sent_queue", 13056, 128);
    ("snd_wl1", 13184, 32); ("snd_wnd", 13216, 32); ("max_window", 13248, 32); ("mss_cache", 13280, 32);
    ("window_clamp", 13312, 32); ("rcv_ssthresh", 13344, 32); ("rack", 13376, 192); ("advmss", 13568, 16);
    ("compressed_ack", 13584, 8); ("dup_ack_counter", 13592, 2); ("tlp_retrans", 13594, 1);
    ("fast_ack_mode", 13595, 2); ("unused", 13597, 3); ("chrono_start", 13600, 32);
    ("chrono_stat", 13632, 96); ("chrono_type", 13728, 2); ("rate_app_limited", 13730, 1);
    ("fastopen_connect", 13731, 1); ("fastopen_no_cookie", 13732, 1); ("is_sack_reneg", 13733, 1);
    ("fastopen_client_fail", 13734, 2); ("nonagle", 13736, 4); ("thin_lto", 13740, 1);
    ("recvmsg_inq", 13741, 1); ("repair", 13742, 1); ("frto", 13743, 1); ("repair_queue", 13744, 8);
    ("save_syn", 13752, 2); ("syn_data", 13754, 1); ("syn_fastopen", 13755, 1);
    ("syn_fastopen_exp", 13756, 1); ("syn_fastopen_ch", 13757, 1); ("syn_data_acked", 13758, 1);
    ("is_cwnd_limited", 13759, 1); ("tlp_high_seq", 13760, 32); ("tcp_tx_delay", 13792, 32);
    ("tcp_wstamp_ns", 13824, 64); ("tcp_clock_cache", 13888, 64); ("tcp_mstamp", 13952, 64);
    ("srtt_us", 14016, 32); ("mdev_us", 14048, 32); ("mdev_max_us", 14080, 32); ("rttvar_us", 14112, 32);
    ("rtt_seq", 14144, 32); ("rtt_min", 14176, 192); ("packets_out", 14368, 32);
    ("retrans_out", 14400, 32); ("max_packets_out", 14432, 32); ("cwnd_usage_seq", 14464, 32);
    ("urg_data", 14496, 16); ("ecn_flags", 14512, 8); ("keepalive_probes", 14520, 8);
    ("reordering", 14528, 32); ("reord_seen", 14560, 32); ("snd_up", 14592, 32); ("rx_opt", 14624, 192);
    ("snd_ssthresh", 14816, 32); ("snd_cwnd", 14848, 32); ("snd_cwnd_cnt", 14880, 32);
    ("snd_cwnd_clamp", 14912, 32); ("snd_cwnd_used", 14944, 32); ("snd_cwnd_stamp", 14976, 32);
    ("prior_cwnd", 15008, 32); ("prr_delivered", 15040, 32); ("prr_out", 15072, 32);
    ("delivered", 15104, 32); ("delivered_ce", 15136, 32); ("lost", 15168, 32);
    ("app_limited", 15200, 32); ("first_tx_mstamp", 15232, 64); ("delivered_mstamp", 15296, 64);
    ("rate_delivered", 15360, 32); ("rate_interval_us", 15392, 32); ("rcv_wnd", 15424, 32);
    ("write_seq", 15456, 32); ("notsent_lowat", 15488, 32); ("pushed_seq", 15520, 32);
    ("lost_out", 15552, 32); ("sacked_out", 15584, 32); ("pacing_timer", 15616, 512);
    ("compressed_ack_timer", 16128, 512); ("lost_skb_hint", 16640, 64);
    ("retransmit_skb_hint", 16704, 64); ("out_of_order_queue", 16768, 64); ("ooo_last_skb", 16832, 64);
    ("duplicate_sack", 16896, 64); ("selective_acks", 16960, 256); ("recv_sack_cache", 17216, 256);
    ("highest_sack", 17472, 64); ("lost_cnt_hint", 17536, 32); ("prior_ssthresh", 17568, 32);
    ("high_seq", 17600, 32); ("retrans_stamp", 17632, 32); ("undo_marker", 17664, 32);
    ("undo_retrans", 17696, 32); ("bytes_retrans", 17728, 64); ("total_retrans", 17792, 32);
    ("urg_seq", 17824, 32); ("keepalive_time", 17856, 32); ("keepalive_intvl", 17888, 32);
    ("linger2", 17920, 32); ("bpf_sock_ops_cb_flags", 17952, 8); ("timeout_rehash", 17968, 16);
    ("rcv_ooopack", 17984, 32); ("rcv_rtt_last_tsecr", 18016, 32); ("rcv_rtt_est", 18048, 128);
    ("rcvq_space", 18176, 128); ("mtu_probe", 18304, 64); ("mtu_info", 18368, 32); ("is_mptcp", 18400, 8);
    ("af_specific", 18432, 64); ("md5sig_info", 18496, 64); ("fastopen_req", 18560, 64);
    ("fastopen_rsk", 18624, 64); ("saved_syn", 18688, 64); ("ecn_rehash", 18752, 16)]);
  (* typedef xfrm_address_t *) (16, 4, [("a4", 0, 32); ("a6", 0, 128); ("in6", 0, 128)]);
  (* struct xfrm_id *) (24, 4, [("daddr", 0, 128); ("spi", 128, 32); ("proto", 160, 8)]);
  (* struct xfrm_selector *) (56, 4, [("daddr", 0, 128); ("saddr", 128, 128); ("dport", 256, 16);
    ("dport_mask", 272, 16); ("sport", 288, 16); ("sport_mask", 304, 16); ("family", 320, 16);
    ("prefixlen_d", 336, 8); ("prefixlen_s", 344, 8); ("proto", 352, 8); ("ifindex", 384, 32);
    ("user", 416, 32)]);
  (* struct xfrm_mark *) (8, 4, [("v", 0, 32); ("m", 32, 32)]);
  (* struct xfrm_state_walk *) (32, 8, [("all", 0, 128); ("state", 128, 8); ("dying", 136, 8);
    ("proto", 144, 8); ("seq", 160, 32); ("filter", 192, 64)]);
  (* struct xfrm_lifetime_cfg *) (64, 8, [("soft_byte_limit", 0, 64); ("hard_byte_limit", 64, 64);
    ("soft_packet_limit", 128, 64); ("hard_packet_limit", 192, 64);
    ("soft_add_expires_seconds", 256, 64); ("hard_add_expires_seconds", 320, 64);
    ("soft_use_expires_seconds", 384, 64); ("hard_use_expires_seconds", 448, 64)]);
  (* struct xfrm_replay_state *) (12, 4, [("oseq", 0, 32); ("seq", 32, 32); ("bitmap", 64, 32)]);
  (* struct xfrm_stats *) (12, 4, [("replay_window", 0, 32); ("replay", 32, 32);
    ("integrity_failed", 64, 32)]);
  (* struct xfrm_lifetime_cur *) (32, 8, [("bytes", 0, 64); ("packets", 64, 64); ("add_time", 128, 64);
    ("use_time", 192, 64)]);
  (* struct xfrm_dev_offload *) (32, 8, [("dev", 0, 64); ("real_dev", 64, 64);
    ("offload_handle", 128, 64); ("num_exthdrs", 192, 32); ("flags", 224, 8); ("dir", 232, 2)]);
  (* struct xfrm_mode *) (3, 1, [("encap", 0, 8); ("family", 8, 8); ("flags", 16, 8)]);
  (* struct xfrm_state *) (736, 8, [("xs_net", 0, 64); ("gclist", 64, 128); ("bydst", 64, 128);
    ("bysrc", 192, 128); ("byspi", 320, 128); ("refcnt", 448, 32); ("lock", 480, 32); ("id", 512, 192);
    ("sel", 704, 448); ("mark", 1152, 64); ("if_id", 1216, 32); ("tfcpad", 1248, 32); ("genid", 1280, 32);
    ("km", 1344, 256); ("props", 1600, 384); ("lft", 1984, 512); ("aalg", 2496, 64); ("ealg", 2560, 64);
    ("calg", 2624, 64); ("aead", 2688, 64); ("geniv", 2752, 64); ("new_mapping_sport", 2816, 16);
    ("new_mapping", 2848, 32); ("mapping_maxage", 2880, 32); ("encap", 2944, 64); ("encap_sk", 3008, 64);
    ("coaddr", 3072, 64); ("tunnel", 3136, 64); ("tunnel_users", 3200, 32); ("replay", 3232, 96);
    ("replay_esn", 3328, 64); ("preplay", 3392, 96); ("preplay_esn", 3520, 64); ("repl", 3584, 64);
    ("xflags", 3648, 32); ("replay_maxage", 3680, 32); ("replay_maxdiff", 3712, 32);
    ("rtimer", 3776, 320); ("stats", 4096, 96); ("curlft", 4224, 256); ("mtimer", 4480, 512);
    ("xso", 4992, 256); ("saved_tmo", 5248, 64); ("lastused", 5312, 64); ("xfrag", 5376, 128);
    ("type", 5504, 64); ("inner_mode", 5568, 24); ("inner_mode_iaf", 5592, 24); ("outer_mode", 5616, 24);
    ("type_offload", 5696, 64); ("security", 5760, 64); ("data", 5824, 64)]);
  (* struct rt6key *) (20, 4, [("addr", 0, 128); ("plen", 128, 32)]);
  (* struct fib6_nh *) (96, 8, [("nh_common", 0, 576); ("last_probe", 576, 64); ("rt6i_pcpu", 640, 64);
    ("rt6i_exception_bucket", 704, 64)]);
  (* struct fib6_info *) (160, 8, [("fib6_table", 0, 64); ("fib6_next", 64, 64); ("fib6_node", 128, 64);
    ("fib6_siblings", 192, 128); ("nh_list", 192, 128); ("fib6_nsiblings", 320, 32);
    ("fib6_ref", 352, 32); ("expires", 384, 64); ("fib6_metrics", 448, 64); ("fib6_dst", 512, 160);
    ("fib6_flags", 672, 32); ("fib6_src", 704, 160); ("fib6_prefsrc", 864, 160);
    ("fib6_metric", 1024, 32); ("fib6_protocol", 1056, 8); ("fib6_type", 1064, 8);
    ("should_flush", 1072, 1); ("dst_nocount", 1073, 1); ("dst_nopolicy", 1074, 1);
    ("fib6_destroying", 1075, 1); ("offload", 1076, 1); ("trap", 1077, 1); ("unused", 1078, 2);
    ("rcu", 1088, 128); ("nh", 1216, 64); ("fib6_nh", 1280, 0)]);
  (* struct ipv6_stable_secret *) (20, 4, [("initialized", 0, 8); ("secret", 32, 128)]);
  (* struct ipv6_devconf *) (240, 8, [("forwarding", 0, 32); ("hop_limit", 32, 32); ("mtu6", 64, 32);
    ("accept_ra", 96, 32); ("accept_redirects", 128, 32); ("autoconf", 160, 32);
    ("dad_transmits", 192, 32); ("rtr_solicits", 224, 32); ("rtr_solicit_interval", 256, 32);
    ("rtr_solicit_max_interval", 288, 32); ("rtr_solicit_delay", 320, 32);
    ("force_mld_version", 352, 32); ("mldv1_unsolicited_report_interval", 384, 32);
    ("mldv2_unsolicited_report_interval", 416, 32); ("use_tempaddr", 448, 32);
    ("temp_valid_lft", 480, 32); ("temp_prefered_lft", 512, 32); ("regen_max_retry", 544, 32);
    ("max_desync_factor", 576, 32); ("max_addresses", 608, 32); ("accept_ra_defrtr", 640, 32);
    ("accept_ra_min_hop_limit", 672, 32); ("accept_ra_min_lft", 704, 32); ("accept_ra_pinfo", 736, 32);
    ("ignore_routes_with_linkdown", 768, 32); ("accept_ra_rtr_pref", 800, 32);
    ("rtr_probe_interval", 832, 32); ("accept_ra_rt_info_min_plen", 864, 32);
    ("accept_ra_rt_info_max_plen", 896, 32); ("proxy_ndp", 928, 32); ("accept_source_route", 960, 32);
    ("accept_ra_from_local", 992, 32); ("optimistic_dad", 1024, 32); ("use_optimistic", 1056, 32);
    ("mc_forwarding", 1088, 32); ("disable_ipv6", 1120, 32); ("drop_unicast_in_l2_multicast", 1152, 32);
    ("accept_dad", 1184, 32); ("force_tllao", 1216, 32); ("ndisc_notify", 1248, 32);
    ("suppress_frag_ndisc", 1280, 32); ("accept_ra_mtu", 1312, 32); ("drop_unsolicited_na", 1344, 32);
    ("stable_secret", 1376, 160); ("use_oif_addrs_only", 1536, 32); ("keep_addr_on_down", 1568, 32);
    ("seg6_enabled", 1600, 32); ("seg6_require_hmac", 1632, 32); ("enhanced_dad", 1664, 32);
    ("addr_gen_mode", 1696, 32); ("disable_policy", 1728, 32); ("ndisc_tclass", 1760, 32);
    ("rpl_seg_enabled", 1792, 32); ("sysctl_header", 1856, 64)]);
  (* struct ipv6_devstat *) (32, 8, [("proc_dir_entry", 0, 64); ("ipv6", 64, 64);
    ("icmpv6dev", 128, 64); ("icmpv6msgdev", 192, 64)]);
  (* struct inet6_dev *) (616, 8, [("dev", 0, 64); ("addr_list", 64, 128); ("mc_list", 192, 64);
    ("mc_tomb", 256, 64); ("mc_lock", 320, 32); ("mc_qrv", 352, 8); ("mc_gq_running", 360, 8);
    ("mc_ifc_count", 368, 8); ("mc_dad_count", 376, 8); ("mc_v1_seen", 384, 64); ("mc_qi", 448, 64);
    ("mc_qri", 512, 64); ("mc_maxdelay", 576, 64); ("mc_gq_timer", 640, 320); ("mc_ifc_timer", 960, 320);
    ("mc_dad_timer", 1280, 320); ("ac_list", 1600, 64); ("lock", 1664, 64); ("refcnt", 1728, 32);
    ("if_flags", 1760, 32); ("dead", 1792, 32); ("desync_factor", 1824, 32); ("tempaddr_list", 1856, 128);
    ("token", 1984, 128); ("nd_parms", 2112, 64); ("cnf", 2176, 1920); ("stats", 4096, 256);
    ("rs_timer", 4352, 320); ("rs_interval", 4672, 32); ("rs_probes", 4704, 8); ("tstamp", 4736, 64);
    ("rcu", 4800, 128)]);
  (* struct rhash_head *) (8, 8, [("next", 0, 64)]);
  (* struct netlink_sock *) (1072, 8, [("sk", 0, 6144); ("portid", 6144, 32); ("dst_portid", 6176, 32);
    ("dst_group", 6208, 32); ("flags", 6240, 32); ("subscriptions", 6272, 32); ("ngroups", 6304, 32);
    ("groups", 6336, 64); ("state", 6400, 64); ("max_recvmsg_len", 6464, 64); ("wait", 6528, 192);
    ("bound", 6720, 8); ("cb_running", 6728, 8); ("dump_done_errno", 6752, 32); ("cb", 6784, 1024);
    ("cb_mutex", 7808, 64); ("cb_def_mutex", 7872, 256); ("netlink_rcv", 8128, 64);
    ("netlink_bind", 8192, 64); ("netlink_unbind", 8256, 64); ("module", 8320, 64); ("node", 8384, 64);
    ("rcu", 8448, 128)]);
  (* struct ethtool_ops *) (488, 8, [("supported_coalesce_params", 0, 32); ("get_drvinfo", 64, 64);
    ("get_regs_len", 128, 64); ("get_regs", 192, 64); ("get_wol", 256, 64); ("set_wol", 320, 64);
    ("get_msglevel", 384, 64); ("set_msglevel", 448, 64); ("nway_reset", 512, 64); ("get_link", 576, 64);
    ("get_link_ext_state", 640, 64); ("get_eeprom_len", 704, 64); ("get_eeprom", 768, 64);
    ("set_eeprom", 832, 64); ("get_coalesce", 896, 64); ("set_coalesce", 960, 64);
    ("get_ringparam", 1024, 64); ("set_ringparam", 1088, 64); ("get_pause_stats", 1152, 64);
    ("get_pauseparam", 1216, 64); ("set_pauseparam", 1280, 64); ("self_test", 1344, 64);
    ("get_strings", 1408, 64); ("set_phys_id", 1472, 64); ("get_ethtool_stats", 1536, 64);
    ("begin", 1600, 64); ("complete", 1664, 64); ("get_priv_flags", 1728, 64);
    ("set_priv_flags", 1792, 64); ("get_sset_count", 1856, 64); ("get_rxnfc", 1920, 64);
    ("set_rxnfc", 1984, 64); ("flash_device", 2048, 64); ("reset", 2112, 64);
    ("get_rxfh_key_size", 2176, 64); ("get_rxfh_indir_size", 2240, 64); ("get_rxfh", 2304, 64);
    ("set_rxfh", 2368, 64); ("get_rxfh_context", 2432, 64); ("set_rxfh_context", 2496, 64);
    ("get_channels", 2560, 64); ("set_channels", 2624, 64); ("get_dump_flag", 2688, 64);
    ("get_dump_data", 2752, 64); ("set_dump", 2816, 64); ("get_ts_info", 2880, 64);
    ("get_module_info", 2944, 64); ("get_module_eeprom", 3008, 64); ("get_eee", 3072, 64);
    ("set_eee", 3136, 64); ("get_tunable", 3200, 64); ("set_tunable", 3264, 64);
    ("get_per_queue_coalesce", 3328, 64); ("set_per_queue_coalesce", 3392, 64);
    ("get_link_ksettings", 3456, 64); ("set_link_ksettings", 3520, 64); ("get_fecparam", 3584, 64);
    ("set_fecparam", 3648, 64); ("get_ethtool_phy_stats", 3712, 64); ("get_phy_tunable", 3776, 64);
    ("set_phy_tunable", 3840, 64)]);
  (* typedef dma_addr_t *) (8, 8, []);
  (* struct scatterlist *) (32, 8, [("page_link", 0, 64); ("offset", 64, 32); ("length", 96, 32);
    ("dma_address", 128, 64); ("dma_length", 192, 32)]);
  (* struct sk_msg_sg *) (640, 8, [("start", 0, 32); ("curr", 32, 32); ("end", 64, 32); ("size", 96, 32);
    ("copybreak", 128, 32); ("copy", 192, 64); ("data", 256, 4864)]);
  (* struct sk_msg *) (712, 8, [("sg", 0, 5120); ("data", 5120, 64); ("data_end", 5184, 64);
    ("apply_bytes", 5248, 32); ("cork_bytes", 5280, 32); ("flags", 5312, 32); ("skb", 5376, 64);
    ("sk_redir", 5440, 64); ("sk", 5504, 64); ("list", 5568, 128)]);
  (* enum dma_data_direction *) (4, 4, []);
  (* struct page_pool_params *) (40, 8, [("flags", 0, 32); ("order", 32, 32); ("pool_size", 64, 32);
    ("nid", 96, 32); ("dev", 128, 64); ("dma_dir", 192, 32); ("max_len", 224, 32); ("offset", 256, 32)]);
  (* struct pp_alloc_cache *) (1032, 8, [("count", 0, 32); ("cache", 64, 8192)]);
  (* struct ptr_ring *) (192, 8, [("producer", 0, 32); ("producer_lock", 32, 32);
    ("consumer_head", 512, 32); ("consumer_tail", 544, 32); ("consumer_lock", 576, 32);
    ("size", 1024, 32); ("batch", 1056, 32); ("queue", 1088, 64)]);
  (* struct page_pool *) (1536, 8, [("p", 0, 320); ("release_dw", 320, 704); ("disconnect", 1024, 64);
    ("defer_start", 1088, 64); ("defer_warn", 1152, 64); ("pages_state_hold_cnt", 1216, 32);
    ("alloc", 1536, 8256); ("ring", 10240, 1536); ("pages_state_release_cnt", 11776, 32);
    ("user_cnt", 11808, 32); ("destroy_cnt", 11840, 64)]);
  (* struct xdp_mem_info *) (8, 4, [("type", 0, 32); ("id", 32, 32)]);
  (* struct xdp_frame *) (32, 8, [("data", 0, 64); ("len", 64, 16); ("headroom", 80, 16);
    ("metasize", 96, 8); ("frame_sz", 104, 24); ("mem", 128, 64); ("dev_rx", 192, 64)]);
  (* struct bpf_tcp_sock *) (112, 8, [("snd_cwnd", 0, 32); ("srtt_us", 32, 32); ("rtt_min", 64, 32);
    ("snd_ssthresh", 96, 32); ("rcv_nxt", 128, 32); ("snd_nxt", 160, 32); ("snd_una", 192, 32);
    ("mss_cache", 224, 32); ("ecn_flags", 256, 32); ("rate_delivered", 288, 32);
    ("rate_interval_us", 320, 32); ("packets_out", 352, 32); ("retrans_out", 384, 32);
    ("total_retrans", 416, 32); ("segs_in", 448, 32); ("data_segs_in", 480, 32); ("segs_out", 512, 32);
    ("data_segs_out", 544, 32); ("lost_out", 576, 32); ("sacked_out", 608, 32);
    ("bytes_received", 640, 64); ("bytes_acked", 704, 64); ("dsack_dups", 768, 32);
    ("delivered", 800, 32); ("delivered_ce", 832, 32); ("icsk_retransmits", 864, 32)]);
  (* struct bpf_sock_tuple *) (36, 4, [("ipv4", 0, 96); ("ipv6", 0, 288)]);
  (* struct genl_info *) (72, 8, [("snd_seq", 0, 32); ("snd_portid", 32, 32); ("nlhdr", 64, 64);
    ("genlhdr", 128, 64); ("userhdr", 192, 64); ("attrs", 256, 64); ("_net", 320, 64);
    ("user_ptr", 384, 128); ("extack", 512, 64)]);
  (* struct tcf_exts *) (32, 8, [("type", 0, 32); ("nr_actions", 32, 32); ("actions", 64, 64);
    ("net", 128, 64); ("action", 192, 32); ("police", 224, 32)]);
  (* struct nf_hook_state *) (48, 8, [("hook", 0, 32); ("pf", 32, 8); ("in", 64, 64); ("out", 128, 64);
    ("sk", 192, 64); ("net", 256, 64); ("okfn", 320, 64)]);
  (* struct request_sock *) (224, 8, [("__req_common", 0, 1088); ("dl_next", 1088, 64);
    ("mss", 1152, 16); ("num_retrans", 1168, 8); ("syncookie", 1176, 1); ("num_timeout", 1177, 7);
    ("ts_recent", 1184, 32); ("rsk_timer", 1216, 320); ("rsk_ops", 1536, 64); ("sk", 1600, 64);
    ("saved_syn", 1664, 64); ("secid", 1728, 32); ("peer_secid", 1760, 32)]);
  (* typedef socket_state *) (4, 4, []);
  (* struct socket_wq *) (64, 8, [("wait", 0, 192); ("fasync_list", 192, 64); ("flags", 256, 64);
    ("rcu", 320, 128)]);
  (* struct socket *) (128, 8, [("state", 0, 32); ("type", 32, 16); ("flags", 64, 64); ("file", 128, 64);
    ("sk", 192, 64); ("ops", 256, 64); ("wq", 512, 512)]);
  (* struct iov_iter *) (48, 8, [("type", 0, 32); ("iov_offset", 64, 64); ("count", 128, 64);
    ("iov", 192, 64); ("kvec", 192, 64); ("bvec", 192, 64); ("pipe", 192, 64); ("nr_segs", 256, 64);
    ("head", 256, 32); ("start_head", 288, 32); ("truncated", 320, 64)]);
  (* struct msghdr *) (104, 8, [("msg_name", 0, 64); ("msg_namelen", 64, 32); ("msg_iter", 128, 384);
    ("msg_control", 512, 64); ("msg_control_user", 512, 64); ("msg_control_is_user", 576, 1);
    ("msg_controllen", 640, 64); ("msg_flags", 704, 32); ("msg_iocb", 768, 64)]);
  (* struct proto_ops *) (224, 8, [("family", 0, 32); ("owner", 64, 64); ("release", 128, 64);
    ("bind", 192, 64); ("connect", 256, 64); ("socketpair", 320, 64); ("accept", 384, 64);
    ("getname", 448, 64); ("poll", 512, 64); ("ioctl", 576, 64); ("compat_ioctl", 640, 64);
    ("gettstamp", 704, 64); ("listen", 768, 64); ("shutdown", 832, 64); ("setsockopt", 896, 64);
    ("getsockopt", 960, 64); ("show_fdinfo", 1024, 64); ("sendmsg", 1088, 64); ("recvmsg", 1152, 64);
    ("mmap", 1216, 64); ("sendpage", 1280, 64); ("splice_read", 1344, 64); ("set_peek_off", 1408, 64);
    ("peek_len", 1472, 64); ("read_sock", 1536, 64); ("sendpage_locked", 1600, 64);
    ("sendmsg_locked", 1664, 64); ("set_rcvlowat", 1728, 64)])].

Definition VmFs_layouts : list layout := [
  (* typedef __kernel_loff_t *) (8, 8, []);
  (* typedef loff_t *) (8, 8, []);
  (* struct hlist_bl_head *) (8, 8, [("first", 0, 64)]);
  (* typedef qsize_t *) (8, 8, []);
  (* struct mem_dqinfo *) (72, 8, [("dqi_format", 0, 64); ("dqi_fmt_id", 64, 32);
    ("dqi_dirty_list", 128, 128); ("dqi_flags", 256, 64); ("dqi_bgrace", 320, 32);
    ("dqi_igrace", 352, 32); ("dqi_max_spc_limit", 384, 64); ("dqi_max_ino_limit", 448, 64);
    ("dqi_priv", 512, 64)]);
  (* struct quota_info *) (312, 8, [("flags", 0, 32); ("dqio_sem", 64, 320); ("files", 384, 192);
    ("info", 576, 1728); ("ops", 2304, 192)]);
  (* struct rcu_sync *) (48, 8, [("gp_state", 0, 32); ("gp_count", 32, 32); ("gp_wait", 64, 192);
    ("cb_head", 256, 128)]);
  (* struct rcuwait *) (8, 8, [("task", 0, 64)]);
  (* struct percpu_rw_semaphore *) (96, 8, [("rss", 0, 384); ("read_count", 384, 64);
    ("writer", 448, 64); ("waiters", 512, 192); ("block", 704, 32)]);
  (* struct sb_writers *) (320, 8, [("frozen", 0, 32); ("wait_unfrozen", 64, 192);
    ("rw_sem", 256, 2304)]);
  (* typedef uuid_t *) (16, 1, [("b", 0, 128)]);
  (* typedef fmode_t *) (4, 4, []);
  (* struct shrinker *) (64, 8, [("count_objects", 0, 64); ("scan_objects", 64, 64); ("batch", 128, 64);
    ("seeks", 192, 32); ("flags", 224, 32); ("list", 256, 128); ("id", 384, 32); ("nr_deferred", 448, 64)]);
  (* typedef errseq_t *) (4, 4, []);
  (* struct list_lru *) (32, 8, [("node", 0, 64); ("list", 64, 128); ("shrinker_id", 192, 32);
    ("memcg_aware", 224, 8)]);
  (* struct super_block *) (1408, 8, [("s_list", 0, 128); ("s_dev", 128, 32);
    ("s_blocksize_bits", 160, 8); ("s_blocksize", 192, 64); ("s_maxbytes", 256, 64); ("s_type", 320, 64);
    ("s_op", 384, 64); ("dq_op", 448, 64); ("s_qcop", 512, 64); ("s_export_op", 576, 64);
    ("s_flags", 640, 64); ("s_iflags", 704, 64); ("s_magic", 768, 64); ("s_root", 832, 64);
    ("s_umount", 896, 320); ("s_count", 1216, 32); ("s_active", 1248, 32); ("s_security", 1280, 64);
    ("s_xattr", 1344, 64); ("s_cop", 1408, 64); ("s_master_keys", 1472, 64); ("s_roots", 1536, 64);
    ("s_mounts", 1600, 128); ("s_bdev", 1728, 64); ("s_bdi", 1792, 64); ("s_mtd", 1856, 64);
    ("s_instances", 1920, 128); ("s_quota_types", 2048, 32); ("s_dquot", 2112, 2496);
    ("s_writers", 4608, 2560); ("s_fs_info", 7168, 64); ("s_time_gran", 7232, 32);
    ("s_time_min", 7296, 64); ("s_time_max", 7360, 64); ("s_fsnotify_mask", 7424, 32);
    ("s_fsnotify_marks", 7488, 64); ("s_id", 7552, 256); ("s_uuid", 7808, 128); ("s_max_links", 7936, 32);
    ("s_mode", 7968, 32); ("s_vfs_rename_mutex", 8000, 256); ("s_subtype", 8256, 64);
    ("s_d_op", 8320, 64); ("cleancache_poolid", 8384, 32); ("s_shrink", 8448, 512);
    ("s_remove_count", 8960, 64); ("s_fsnotify_connectors", 9024, 64); ("s_readonly_remount", 9088, 32);
    ("s_wb_err", 9120, 32); ("s_dio_done_wq", 9152, 64); ("s_pins", 9216, 64); ("s_user_ns", 9280, 64);
    ("s_dentry_lru", 9344, 256); ("s_inode_lru", 9600, 256); ("rcu", 9856, 128);
    ("destroy_work", 9984, 256); ("s_sync_lock", 10240, 256); ("s_stack_depth", 10496, 32);
    ("s_inode_list_lock", 10752, 32); ("s_inodes", 10816, 128); ("s_inode_wblist_lock", 10944, 32);
    ("s_inodes_wb", 11008, 128)]);
  (* typedef umode_t *) (2, 2, []);
  (* struct timespec64 *) (16, 8, [("tv_sec", 0, 64); ("tv_nsec", 64, 64)]);
  (* typedef blkcnt_t *) (8, 8, []);
  (* struct rb_root_cached *) (16, 8, [("rb_root", 0, 64); ("rb_leftmost", 64, 64)]);
  (* struct address_space *) (160, 8, [("host", 0, 64); ("i_pages", 64, 128); ("gfp_mask", 192, 32);
    ("i_mmap_writable", 224, 32); ("i_mmap", 256, 128); ("i_mmap_rwsem", 384, 320); ("nrpages", 704, 64);
    ("nrexceptional", 768, 64); ("writeback_index", 832, 64); ("a_ops", 896, 64); ("flags", 960, 64);
    ("wb_err", 1024, 32); ("private_lock", 1056, 32); ("private_list", 1088, 128);
    ("private_data", 1216, 64)]);
  (* struct inode *) (592, 8, [("i_mode", 0, 16); ("i_opflags", 16, 16); ("i_uid", 32, 32);
    ("i_gid", 64, 32); ("i_flags", 96, 32); ("i_acl", 128, 64); ("i_default_acl", 192, 64);
    ("i_op", 256, 64); ("i_sb", 320, 64); ("i_mapping", 384, 64); ("i_security", 448, 64);
    ("i_ino", 512, 64); ("i_nlink", 576, 32); ("__i_nlink", 576, 32); ("i_rdev", 608, 32);
    ("i_size", 640, 64); ("i_atime", 704, 128); ("i_mtime", 832, 128); ("i_ctime", 960, 128);
    ("i_lock", 1088, 32); ("i_bytes", 1120, 16); ("i_blkbits", 1136, 8); ("i_write_hint", 1144, 8);
    ("i_blocks", 1152, 64); ("i_state", 1216, 64); ("i_rwsem", 1280, 320); ("dirtied_when", 1600, 64);
    ("dirtied_time_when", 1664, 64); ("i_hash", 1728, 128); ("i_io_list", 1856, 128); ("i_wb", 1984, 64);
    ("i_wb_frn_winner", 2048, 32); ("i_wb_frn_avg_time", 2080, 16); ("i_wb_frn_history", 2096, 16);
    ("i_lru", 2112, 128); ("i_sb_list", 2240, 128); ("i_wb_list", 2368, 128); ("i_dentry", 2496, 64);
    ("i_rcu", 2496, 128); ("i_version", 2624, 64); ("i_sequence", 2688, 64); ("i_count", 2752, 32);
    ("i_dio_count", 2784, 32); ("i_writecount", 2816, 32); ("i_readcount", 2848, 32); ("i_fop", 2880, 64);
    ("free_inode", 2880, 64); ("i_flctx", 2944, 64); ("i_data", 3008, 1280); ("i_devices", 4288, 128);
    ("i_pipe", 4416, 64); ("i_bdev", 4416, 64); ("i_cdev", 4416, 64); ("i_link", 4416, 64);
    ("i_dir_seq", 4416, 32); ("i_generation", 4480, 32); ("i_fsnotify_mask", 4512, 32);
    ("i_fsnotify_marks", 4544, 64); ("i_crypt_info", 4608, 64); ("i_private", 4672, 64)]);
  (* struct hlist_bl_node *) (16, 8, [("next", 0, 64); ("pprev", 64, 64)]);
  (* struct qstr *) (16, 8, [("hash", 0, 32); ("len", 32, 32); ("hash_len", 0, 64); ("name", 64, 64)]);
  (* struct lockref *) (8, 8, [("lock_count", 0, 64); ("lock", 0, 32); ("count", 32, 32)]);
  (* struct dentry *) (192, 8, [("d_flags", 0, 32); ("d_seq", 32, 32); ("d_hash", 64, 128);
    ("d_parent", 192, 64); ("d_name", 256, 128); ("d_inode", 384, 64); ("d_iname", 448, 256);
    ("d_lockref", 704, 64); ("d_op", 768, 64); ("d_sb", 832, 64); ("d_time", 896, 64);
    ("d_fsdata", 960, 64); ("d_lru", 1024, 128); ("d_wait", 1024, 64); ("d_child", 1152, 128);
    ("d_subdirs", 1280, 128); ("d_u", 1408, 128)]);
  (* struct path *) (16, 8, [("mnt", 0, 64); ("dentry", 64, 64)]);
  (* enum rw_hint *) (4, 4, []);
  (* enum pid_type *) (4, 4, []);
  (* struct fown_struct *) (32, 8, [("lock", 0, 64); ("pid", 64, 64); ("pid_type", 128, 32);
    ("uid", 160, 32); ("euid", 192, 32); ("signum", 224, 32)]);
  (* struct file_ra_state *) (32, 8, [("start", 0, 64); ("size", 64, 32); ("async_size", 96, 32);
    ("ra_pages", 128, 32); ("mmap_miss", 160, 32); ("prev_pos", 192, 64)]);
  (* struct file *) (256, 8, [("f_u", 0, 128); ("f_path", 128, 128); ("f_inode", 256, 64);
    ("f_op", 320, 64); ("f_lock", 384, 32); ("f_write_hint", 416, 32); ("f_count", 448, 64);
    ("f_flags", 512, 32); ("f_mode", 544, 32); ("f_pos_lock", 576, 256); ("f_pos", 832, 64);
    ("f_owner", 896, 256); ("f_cred", 1152, 64); ("f_ra", 1216, 256); ("f_version", 1472, 64);
    ("f_security", 1536, 64); ("private_data", 1600, 64); ("f_ep_links", 1664, 128);
    ("f_tfile_llink", 1792, 128); ("f_mapping", 1920, 64); ("f_wb_err", 1984, 32);
    ("f_sb_err", 2016, 32)]);
  (* struct file_operations *) (264, 8, [("owner", 0, 64); ("llseek", 64, 64); ("read", 128, 64);
    ("write", 192, 64); ("read_iter", 256, 64); ("write_iter", 320, 64); ("iopoll", 384, 64);
    ("iterate", 448, 64); ("iterate_shared", 512, 64); ("poll", 576, 64); ("unlocked_ioctl", 640, 64);
    ("compat_ioctl", 704, 64); ("mmap", 768, 64); ("mmap_supported_flags", 832, 64); ("open", 896, 64);
    ("flush", 960, 64); ("release", 1024, 64); ("fsync", 1088, 64); ("fasync", 1152, 64);
    ("lock", 1216, 64); ("sendpage", 1280, 64); ("get_unmapped_area", 1344, 64);
    ("check_flags", 1408, 64); ("flock", 1472, 64); ("splice_write", 1536, 64); ("splice_read", 1600, 64);
    ("setlease", 1664, 64); ("fallocate", 1728, 64); ("show_fdinfo", 1792, 64);
    ("copy_file_range", 1856, 64); ("remap_file_range", 1920, 64); ("fadvise", 1984, 64);
    ("may_pollfree", 2048, 8)]);
  (* struct inode_operations *) (192, 8, [("lookup", 0, 64); ("get_link", 64, 64);
    ("permission", 128, 64); ("get_acl", 192, 64); ("readlink", 256, 64); ("create", 320, 64);
    ("link", 384, 64); ("unlink", 448, 64); ("symlink", 512, 64); ("mkdir", 576, 64); ("rmdir", 640, 64);
    ("mknod", 704, 64); ("rename", 768, 64); ("setattr", 832, 64); ("getattr", 896, 64);
    ("listxattr", 960, 64); ("fiemap", 1024, 64); ("update_time", 1088, 64); ("atomic_open", 1152, 64);
    ("tmpfile", 1216, 64); ("set_acl", 1280, 64)]);
  (* struct p_log *) (16, 8, [("prefix", 0, 64); ("log", 64, 64)]);
  (* enum fs_context_purpose *) (4, 4, []);
  (* enum fs_context_phase *) (4, 4, []);
  (* struct fs_context *) (152, 8, [("ops", 0, 64); ("uapi_mutex", 64, 256); ("fs_type", 320, 64);
    ("fs_private", 384, 64); ("sget_key", 448, 64); ("root", 512, 64); ("user_ns", 576, 64);
    ("net_ns", 640, 64); ("cred", 704, 64); ("log", 768, 128); ("source", 896, 64); ("security", 960, 64);
    ("s_fs_info", 1024, 64); ("sb_flags", 1088, 32); ("sb_flags_mask", 1120, 32); ("s_iflags", 1152, 32);
    ("purpose", 1184, 8); ("phase", 1192, 8); ("need_free", 1200, 1); ("global", 1201, 1);
    ("oldapi", 1202, 1)]);
  (* struct bpf_mount_opts *) (2, 2, [("mode", 0, 16)]);
  (* struct seq_file *) (120, 8, [("buf", 0, 64); ("size", 64, 64); ("from", 128, 64); ("count", 192, 64);
    ("pad_until", 256, 64); ("index", 320, 64); ("read_pos", 384, 64); ("lock", 448, 256); ("op", 704, 64);
    ("poll_event", 768, 32); ("file", 832, 64); ("private", 896, 64)]);
  (* struct thread_info *) (16, 8, [("flags", 0, 64); ("status", 64, 32)]);
  (* struct load_weight *) (16, 8, [("weight", 0, 64); ("inv_weight", 64, 32)]);
  (* struct sched_statistics *) (216, 8, [("wait_start", 0, 64); ("wait_max", 64, 64);
    ("wait_count", 128, 64); ("wait_sum", 192, 64); ("iowait_count", 256, 64); ("iowait_sum", 320, 64);
    ("sleep_start", 384, 64); ("sleep_max", 448, 64); ("sum_sleep_runtime", 512, 64);
    ("block_start", 576, 64); ("block_max", 640, 64); ("exec_max", 704, 64); ("slice_max", 768, 64);
    ("nr_migrations_cold", 832, 64); ("nr_failed_migrations_affine", 896, 64);
    ("nr_failed_migrations_running", 960, 64); ("nr_failed_migrations_hot", 1024, 64);
    ("nr_forced_migrations", 1088, 64); ("nr_wakeups", 1152, 64); ("nr_wakeups_sync", 1216, 64);
    ("nr_wakeups_migrate", 1280, 64); ("nr_wakeups_local", 1344, 64); ("nr_wakeups_remote", 1408, 64);
    ("nr_wakeups_affine", 1472, 64); ("nr_wakeups_affine_attempts", 1536, 64);
    ("nr_wakeups_passive", 1600, 64); ("nr_wakeups_idle", 1664, 64)]);
  (* struct util_est *) (8, 4, [("enqueued", 0, 32); ("ewma", 32, 32)]);
  (* struct sched_avg *) (64, 8, [("last_update_time", 0, 64); ("load_sum", 64, 64);
    ("runnable_sum", 128, 64); ("util_sum", 192, 32); ("period_contrib", 224, 32); ("load_avg", 256, 64);
    ("runnable_avg", 320, 64); ("util_avg", 384, 64); ("util_est", 448, 64)]);
  (* struct sched_entity *) (448, 8, [("load", 0, 128); ("run_node", 128, 192);
    ("group_node", 320, 128); ("on_rq", 448, 32); ("exec_start", 512, 64); ("sum_exec_runtime", 576, 64);
    ("vruntime", 640, 64); ("prev_sum_exec_runtime", 704, 64); ("nr_migrations", 768, 64);
    ("statistics", 832, 1728); ("depth", 2560, 32); ("parent", 2624, 64); ("cfs_rq", 2688, 64);
    ("my_q", 2752, 64); ("runnable_weight", 2816, 64); ("avg", 3072, 512)]);
  (* struct sched_rt_entity *) (72, 8, [("run_list", 0, 128); ("timeout", 128, 64);
    ("watchdog_stamp", 192, 64); ("time_slice", 256, 32); ("on_rq", 288, 16); ("on_list", 304, 16);
    ("back", 320, 64); ("parent", 384, 64); ("rt_rq", 448, 64); ("my_q", 512, 64)]);
  (* struct sched_dl_entity *) (224, 8, [("rb_node", 0, 192); ("dl_runtime", 192, 64);
    ("dl_deadline", 256, 64); ("dl_period", 320, 64); ("dl_bw", 384, 64); ("dl_density", 448, 64);
    ("runtime", 512, 64); ("deadline", 576, 64); ("flags", 640, 32); ("dl_throttled", 672, 1);
    ("dl_yielded", 673, 1); ("dl_non_contending", 674, 1); ("dl_overrun", 675, 1); ("dl_timer", 704, 512);
    ("inactive_timer", 1216, 512); ("pi_se", 1728, 64)]);
  (* struct cpumask *) (1024, 8, [("bits", 0, 8192)]);
  (* typedef cpumask_t *) (1024, 8, [("bits", 0, 8192)]);
  (* union rcu_special *) (4, 4, [("b", 0, 32); ("s", 0, 32)]);
  (* struct sched_info *) (32, 8, [("pcount", 0, 64); ("run_delay", 64, 64); ("last_arrival", 128, 64);
    ("last_queued", 192, 64)]);
  (* struct plist_node *) (40, 8, [("prio", 0, 32); ("prio_list", 64, 128); ("node_list", 192, 128)]);
  (* struct vmacache *) (40, 8, [("seqnum", 0, 64); ("vmas", 64, 256)]);
  (* struct task_rss_stat *) (20, 4, [("events", 0, 32); ("count", 32, 128)]);
  (* typedef __kernel_clockid_t *) (4, 4, []);
  (* typedef clockid_t *) (4, 4, []);
  (* enum timespec_type *) (4, 4, []);
  (* struct restart_block *) (48, 8, [("fn", 0, 64); ("futex", 64, 320); ("nanosleep", 64, 192);
    ("poll", 64, 256)]);
  (* typedef __kernel_pid_t *) (4, 4, []);
  (* typedef pid_t *) (4, 4, []);
  (* struct prev_cputime *) (24, 8, [("utime", 0, 64); ("stime", 64, 64); ("lock", 128, 32)]);
  (* struct timerqueue_head *) (16, 8, [("rb_root", 0, 128)]);
  (* struct posix_cputimer_base *) (24, 8, [("nextevt", 0, 64); ("tqhead", 64, 128)]);
  (* struct posix_cputimers *) (80, 8, [("bases", 0, 576); ("timers_active", 576, 32);
    ("expiry_active", 608, 32)]);
  (* struct posix_cputimers_work *) (56, 8, [("work", 0, 128); ("mutex", 128, 256);
    ("scheduled", 384, 32)]);
  (* struct sysv_sem *) (8, 8, [("undo_list", 0, 64)]);
  (* struct sysv_shm *) (16, 8, [("shm_clist", 0, 128)]);
  (* typedef sigset_t *) (8, 8, [("sig", 0, 64)]);
  (* struct sigpending *) (24, 8, [("list", 0, 128); ("signal", 128, 64)]);
  (* struct seccomp *) (16, 8, [("mode", 0, 32); ("filter_count", 32, 32); ("filter", 64, 64)]);
  (* struct wake_q_node *) (8, 8, [("next", 0, 64)]);
  (* struct task_io_accounting *) (56, 8, [("rchar", 0, 64); ("wchar", 64, 64); ("syscr", 128, 64);
    ("syscw", 192, 64); ("read_bytes", 256, 64); ("write_bytes", 320, 64);
    ("cancelled_write_bytes", 384, 64)]);
  (* typedef nodemask_t *) (128, 8, [("bits", 0, 1024)]);
  (* struct arch_tlbflush_unmap_batch *) (1024, 8, [("cpumask", 0, 8192)]);
  (* struct tlbflush_unmap_batch *) (1032, 8, [("arch", 0, 8192); ("flush_required", 8192, 8);
    ("writable", 8200, 8)]);
  (* struct latency_record *) (120, 8, [("backtrace", 0, 768); ("count", 768, 32); ("time", 832, 64);
    ("max", 896, 64)]);
  (* struct desc_struct *) (8, 2, [("limit0", 0, 16); ("base0", 16, 16); ("base1", 32, 8);
    ("type", 40, 4); ("s", 44, 1); ("dpl", 45, 2); ("p", 47, 1); ("limit1", 48, 4); ("avl", 52, 1);
    ("l", 53, 1); ("d", 54, 1); ("g", 55, 1); ("base2", 56, 8)]);
  (* struct fregs_state *) (112, 4, [("cwd", 0, 32); ("swd", 32, 32); ("twd", 64, 32); ("fip", 96, 32);
    ("fcs", 128, 32); ("foo", 160, 32); ("fos", 192, 32); ("st_space", 224, 640); ("status", 864, 32)]);
  (* struct fxregs_state *) (512, 8, [("cwd", 0, 16); ("swd", 16, 16); ("twd", 32, 16); ("fop", 48, 16);
    ("rip", 64, 64); ("rdp", 128, 64); ("fip", 64, 32); ("fcs", 96, 32); ("foo", 128, 32); ("fos", 160, 32);
    ("mxcsr", 192, 32); ("mxcsr_mask", 224, 32); ("st_space", 256, 1024); ("xmm_space", 1280, 2048);
    ("padding", 3328, 384); ("padding1", 3712, 384); ("sw_reserved", 3712, 384)]);
  (* struct swregs_state *) (136, 8, [("cwd", 0, 32); ("swd", 32, 32); ("twd", 64, 32); ("fip", 96, 32);
    ("fcs", 128, 32); ("foo", 160, 32); ("fos", 192, 32); ("st_space", 224, 640); ("ftop", 864, 8);
    ("changed", 872, 8); ("lookahead", 880, 8); ("no_update", 888, 8); ("rm", 896, 8); ("alimit", 904, 8);
    ("info", 960, 64); ("entry_eip", 1024, 32)]);
  (* struct xstate_header *) (64, 8, [("xfeatures", 0, 64); ("xcomp_bv", 64, 64);
    ("reserved", 128, 384)]);
  (* struct xregs_state *) (576, 8, [("i387", 0, 4096); ("header", 4096, 512);
    ("extended_state_area", 4608, 0)]);
  (* union fpregs_state *) (4096, 8, [("fsave", 0, 896); ("fxsave", 0, 4096); ("soft", 0, 1088);
    ("xsave", 0, 4608); ("__padding", 0, 32768)]);
  (* struct fpu *) (4160, 8, [("last_cpu", 0, 32); ("avx512_timestamp", 64, 64); ("state", 512, 32768)]);
  (* struct thread_struct *) (4352, 8, [("tls_array", 0, 192); ("sp", 192, 64); ("es", 256, 16);
    ("ds", 272, 16); ("fsindex", 288, 16); ("gsindex", 304, 16); ("fsbase", 320, 64); ("gsbase", 384, 64);
    ("ptrace_bps", 448, 256); ("virtual_dr6", 704, 64); ("ptrace_dr7", 768, 64); ("cr2", 832, 64);
    ("trap_nr", 896, 64); ("error_code", 960, 64); ("io_bitmap", 1024, 64); ("iopl_emul", 1088, 64);
    ("iopl_warn", 1152, 1); ("fpu", 1536, 33280)]);
  (* struct task_struct *) (13312, 8, [("thread_info", 0, 128); ("state", 128, 64); ("stack", 192, 64);
    ("usage", 256, 32); ("flags", 288, 32); ("ptrace", 320, 32); ("on_cpu", 352, 32);
    ("wake_entry", 384, 128); ("cpu", 512, 32); ("wakee_flips", 544, 32);
    ("wakee_flip_decay_ts", 576, 64); ("last_wakee", 640, 64); ("recent_used_cpu", 704, 32);
    ("wake_cpu", 736, 32); ("on_rq", 768, 32); ("prio", 800, 32); ("static_prio", 832, 32);
    ("normal_prio", 864, 32); ("rt_priority", 896, 32); ("sched_class", 960, 64); ("se", 1024, 3584);
    ("rt", 4608, 576); ("sched_task_group", 5184, 64); ("dl", 5248, 1792);
    ("preempt_notifiers", 7040, 64); ("btrace_seq", 7104, 32); ("policy", 7136, 32);
    ("nr_cpus_allowed", 7168, 32); ("cpus_ptr", 7232, 64); ("cpus_mask", 7296, 8192);
    ("trc_reader_nesting", 15488, 32); ("trc_ipi_to_cpu", 15520, 32); ("trc_reader_special", 15552, 32);
    ("trc_reader_checked", 15584, 8); ("trc_holdout_list", 15616, 128); ("sched_info", 15744, 256);
    ("tasks", 16000, 128); ("pushable_tasks", 16128, 320); ("pushable_dl_tasks", 16448, 192);
    ("mm", 16640, 64); ("active_mm", 16704, 64); ("vmacache", 16768, 320); ("rss_stat", 17088, 160);
    ("exit_state", 17248, 32); ("exit_code", 17280, 32); ("exit_signal", 17312, 32);
    ("pdeath_signal", 17344, 32); ("jobctl", 17408, 64); ("personality", 17472, 32);
    ("sched_reset_on_fork", 17504, 1); ("sched_contributes_to_load", 17505, 1);
    ("sched_migrated", 17506, 1); ("sched_psi_wake_requeue", 17507, 1);
    ("sched_remote_wakeup", 17536, 1); ("in_execve", 17537, 1); ("in_iowait", 17538, 1);
    ("restore_sigmask", 17539, 1); ("in_user_fault", 17540, 1); ("no_cgroup_migration", 17541, 1);
    ("frozen", 17542, 1); ("use_memdelay", 17543, 1); ("in_memstall", 17544, 1);
    ("atomic_flags", 17600, 64); ("restart_block", 17664, 384); ("pid", 18048, 32); ("tgid", 18080, 32);
    ("stack_canary", 18112, 64); ("real_parent", 18176, 64); ("parent", 18240, 64);
    ("children", 18304, 128); ("sibling", 18432, 128); ("group_leader", 18560, 64);
    ("ptraced", 18624, 128); ("ptrace_entry", 18752, 128); ("thread_pid", 18880, 64);
    ("pid_links", 18944, 512); ("thread_group", 19456, 128); ("thread_node", 19584, 128);
    ("vfork_done", 19712, 64); ("set_child_tid", 19776, 64); ("clear_child_tid", 19840, 64);
    ("pf_io_worker", 19904, 64); ("utime", 19968, 64); ("stime", 20032, 64); ("gtime", 20096, 64);
    ("prev_cputime", 20160, 192); ("nvcsw", 20352, 64); ("nivcsw", 20416, 64); ("start_time", 20480, 64);
    ("start_boottime", 20544, 64); ("min_flt", 20608, 64); ("maj_flt", 20672, 64);
    ("posix_cputimers", 20736, 640); ("posix_cputimers_work", 21376, 448); ("ptracer_cred", 21824, 64);
    ("real_cred", 21888, 64); ("cred", 21952, 64); ("cached_requested_key", 22016, 64);
    ("comm", 22080, 128); ("nameidata", 22208, 64); ("sysvsem", 22272, 64); ("sysvshm", 22336, 128);
    ("last_switch_count", 22464, 64); ("last_switch_time", 22528, 64); ("fs", 22592, 64);
    ("files", 22656, 64); ("io_uring", 22720, 64); ("nsproxy", 22784, 64); ("signal", 22848, 64);
    ("sighand", 22912, 64); ("blocked", 22976, 64); ("real_blocked", 23040, 64);
    ("saved_sigmask", 23104, 64); ("pending", 23168, 192); ("sas_ss_sp", 23360, 64);
    ("sas_ss_size", 23424, 64); ("sas_ss_flags", 23488, 32); ("task_works", 23552, 64);
    ("audit_context", 23616, 64); ("loginuid", 23680, 32); ("sessionid", 23712, 32);
    ("seccomp", 23744, 128); ("parent_exec_id", 23872, 64); ("self_exec_id", 23936, 64);
    ("alloc_lock", 24000, 32); ("pi_lock", 24032, 32); ("wake_q", 24064, 64); ("pi_waiters", 24128, 128);
    ("pi_top_task", 24256, 64); ("pi_blocked_on", 24320, 64); ("journal_info", 24384, 64);
    ("bio_list", 24448, 64); ("plug", 24512, 64); ("reclaim_state", 24576, 64);
    ("backing_dev_info", 24640, 64); ("io_context", 24704, 64); ("capture_control", 24768, 64);
    ("ptrace_message", 24832, 64); ("last_siginfo", 24896, 64); ("ioac", 24960, 448);
    ("psi_flags", 25408, 32); ("acct_rss_mem1", 25472, 64); ("acct_vm_mem1", 25536, 64);
    ("acct_timexpd", 25600, 64); ("mems_allowed", 25664, 1024); ("mems_allowed_seq", 26688, 32);
    ("cpuset_mem_spread_rotor", 26720, 32); ("cpuset_slab_spread_rotor", 26752, 32);
    ("cgroups", 26816, 64); ("cg_list", 26880, 128); ("robust_list", 27008, 64);
    ("compat_robust_list", 27072, 64); ("pi_state_list", 27136, 128); ("pi_state_cache", 27264, 64);
    ("futex_exit_mutex", 27328, 256); ("futex_state", 27584, 32); ("perf_event_ctxp", 27648, 128);
    ("perf_event_mutex", 27776, 256); ("perf_event_list", 28032, 128); ("mempolicy", 28160, 64);
    ("il_prev", 28224, 16); ("pref_node_fork", 28240, 16); ("numa_scan_seq", 28256, 32);
    ("numa_scan_period", 28288, 32); ("numa_scan_period_max", 28320, 32);
    ("numa_preferred_nid", 28352, 32); ("numa_migrate_retry", 28416, 64); ("node_stamp", 28480, 64);
    ("last_task_numa_placement", 28544, 64); ("last_sum_exec_runtime", 28608, 64);
    ("numa_work", 28672, 128); ("numa_group", 28800, 64); ("numa_faults", 28864, 64);
    ("total_numa_faults", 28928, 64); ("numa_faults_locality", 28992, 192);
    ("numa_pages_migrated", 29184, 64); ("rseq", 29248, 64); ("rseq_sig", 29312, 32);
    ("rseq_event_mask", 29376, 64); ("tlb_ubc", 29440, 8256); ("rcu_users", 37696, 32);
    ("rcu", 37696, 128); ("splice_pipe", 37824, 64); ("task_frag", 37888, 128); ("delays", 38016, 64);
    ("make_it_fail", 38080, 32); ("fail_nth", 38112, 32); ("nr_dirtied", 38144, 32);
    ("nr_dirtied_pause", 38176, 32); ("dirty_paused_when", 38208, 64);
    ("latency_record_count", 38272, 32); ("latency_record", 38336, 30720);
    ("timer_slack_ns", 69056, 64); ("default_timer_slack_ns", 69120, 64); ("curr_ret_stack", 69184, 32);
    ("curr_ret_depth", 69216, 32); ("ret_stack", 69248, 64); ("ftrace_timestamp", 69312, 64);
    ("trace_overrun", 69376, 32); ("tracing_graph_pause", 69408, 32); ("trace", 69440, 64);
    ("trace_recursion", 69504, 64); ("memcg_in_oom", 69568, 64); ("memcg_oom_gfp_mask", 69632, 32);
    ("memcg_oom_order", 69664, 32); ("memcg_nr_pages_over_high", 69696, 32);
    ("active_memcg", 69760, 64); ("throttle_queue", 69824, 64); ("utask", 69888, 64);
    ("sequential_io", 69952, 32); ("sequential_io_avg", 69984, 32); ("pagefault_disabled", 70016, 32);
    ("oom_reaper_list", 70080, 64); ("oom_reaper_timer", 70144, 320); ("stack_vm_area", 70464, 64);
    ("stack_refcount", 70528, 32); ("patch_state", 70560, 32); ("security", 70592, 64);
    ("mce_vaddr", 70656, 64); ("mce_kflags", 70720, 64); ("mce_addr", 70784, 64); ("mce_ripv", 70848, 1);
    ("mce_whole_page", 70849, 1); ("__mce_reserved", 70850, 62); ("mce_kill_me", 70912, 128);
    ("mce_count", 71040, 32); ("l1d_flush_kill", 71104, 128); ("thread", 71680, 34816)]);
  (* struct mm_rss_stat *) (32, 8, [("count", 0, 256)]);
  (* typedef mm_context_t *) (80, 8, [("ctx_id", 0, 64); ("tlb_gen", 64, 64); ("ia32_compat", 128, 16);
    ("lock", 192, 256); ("vdso", 448, 64); ("vdso_image", 512, 64); ("perf_rdpmc_allowed", 576, 32);
    ("pkey_allocation_map", 608, 16); ("execute_only_pkey", 624, 16)]);
  (* struct uprobes_state *) (8, 8, [("xol_area", 0, 64)]);
  (* struct mm_struct *) (984, 8, [("mmap", 0, 64); ("mm_rb", 64, 64); ("vmacache_seqnum", 128, 64);
    ("get_unmapped_area", 192, 64); ("mmap_base", 256, 64); ("mmap_legacy_base", 320, 64);
    ("mmap_compat_base", 384, 64); ("mmap_compat_legacy_base", 448, 64); ("task_size", 512, 64);
    ("highest_vm_end", 576, 64); ("pgd", 640, 64); ("membarrier_state", 704, 32); ("mm_users", 736, 32);
    ("mm_count", 768, 32); ("has_pinned", 800, 32); ("pgtables_bytes", 832, 64); ("map_count", 896, 32);
    ("page_table_lock", 928, 32); ("mmap_lock", 960, 320); ("mmlist", 1280, 128);
    ("hiwater_rss", 1408, 64); ("hiwater_vm", 1472, 64); ("total_vm", 1536, 64); ("locked_vm", 1600, 64);
    ("pinned_vm", 1664, 64); ("data_vm", 1728, 64); ("exec_vm", 1792, 64); ("stack_vm", 1856, 64);
    ("def_flags", 1920, 64); ("write_protect_seq", 1984, 32); ("arg_lock", 2016, 32);
    ("start_code", 2048, 64); ("end_code", 2112, 64); ("start_data", 2176, 64); ("end_data", 2240, 64);
    ("start_brk", 2304, 64); ("brk", 2368, 64); ("start_stack", 2432, 64); ("arg_start", 2496, 64);
    ("arg_end", 2560, 64); ("env_start", 2624, 64); ("env_end", 2688, 64); ("saved_auxv", 2752, 2944);
    ("rss_stat", 5696, 256); ("binfmt", 5952, 64); ("context", 6016, 640); ("flags", 6656, 64);
    ("core_state", 6720, 64); ("ioctx_lock", 6784, 32); ("ioctx_table", 6848, 64); ("owner", 6912, 64);
    ("user_ns", 6976, 64); ("exe_file", 7040, 64); ("notifier_subscriptions", 7104, 64);
    ("numa_next_scan", 7168, 64); ("numa_scan_offset", 7232, 64); ("numa_scan_seq", 7296, 32);
    ("tlb_flush_pending", 7328, 32); ("tlb_flush_batched", 7360, 8); ("uprobes_state", 7424, 64);
    ("hugetlb_usage", 7488, 64); ("async_put_work", 7552, 256); ("pasid", 7808, 32);
    ("cpu_bitmap", 7872, 0)]);
  (* typedef pgprotval_t *) (8, 8, []);
  (* struct pgprot *) (8, 8, [("pgprot", 0, 64)]);
  (* typedef pgprot_t *) (8, 8, [("pgprot", 0, 64)]);
  (* struct vm_userfaultfd_ctx *) (8, 8, [("ctx", 0, 64)]);
  (* struct vm_area_struct *) (200, 8, [("vm_start", 0, 64); ("vm_end", 64, 64); ("vm_next", 128, 64);
    ("vm_prev", 192, 64); ("vm_rb", 256, 192); ("rb_subtree_gap", 448, 64); ("vm_mm", 512, 64);
    ("vm_page_prot", 576, 64); ("vm_flags", 640, 64); ("shared", 704, 256); ("anon_vma_chain", 960, 128);
    ("anon_vma", 1088, 64); ("vm_ops", 1152, 64); ("vm_pgoff", 1216, 64); ("vm_file", 1280, 64);
    ("vm_private_data", 1344, 64); ("swap_readahead_info", 1408, 64); ("vm_policy", 1472, 64);
    ("vm_userfaultfd_ctx", 1536, 64)]);
  (* struct btf_header *) (24, 4, [("magic", 0, 16); ("version", 16, 8); ("flags", 24, 8);
    ("hdr_len", 32, 32); ("type_off", 64, 32); ("type_len", 96, 32); ("str_off", 128, 32);
    ("str_len", 160, 32)]);
  (* struct btf *) (112, 8, [("data", 0, 64); ("types", 64, 64); ("resolved_ids", 128, 64);
    ("resolved_sizes", 192, 64); ("strings", 256, 64); ("nohdr_data", 320, 64); ("hdr", 384, 192);
    ("nr_types", 576, 32); ("types_size", 608, 32); ("data_size", 640, 32); ("refcnt", 672, 32);
    ("id", 704, 32); ("rcu", 768, 128)]);
  (* struct bpf_local_storage_map *) (320, 8, [("map", 0, 2048); ("buckets", 2048, 64);
    ("bucket_log", 2112, 32); ("elem_size", 2144, 16); ("cache_idx", 2160, 16)]);
  (* struct bpf_struct_ops *) (976, 8, [("verifier_ops", 0, 64); ("init", 64, 64);
    ("check_member", 128, 64); ("init_member", 192, 64); ("reg", 256, 64); ("unreg", 320, 64);
    ("type", 384, 64); ("value_type", 448, 64); ("name", 512, 64); ("func_models", 576, 7168);
    ("type_id", 7744, 32); ("value_id", 7776, 32)]);
  (* typedef bpf_iter_attach_target_t *) (8, 8, []);
  (* typedef bpf_iter_detach_target_t *) (8, 8, []);
  (* typedef bpf_iter_show_fdinfo_t *) (8, 8, []);
  (* typedef bpf_iter_fill_link_info_t *) (8, 8, []);
  (* struct bpf_ctx_arg_aux *) (12, 4, [("offset", 0, 32); ("reg_type", 32, 32); ("btf_id", 64, 32)]);
  (* struct bpf_iter_reg *) (80, 8, [("target", 0, 64); ("attach_target", 64, 64);
    ("detach_target", 128, 64); ("show_fdinfo", 192, 64); ("fill_link_info", 256, 64);
    ("ctx_arg_info_size", 320, 32); ("ctx_arg_info", 352, 192); ("seq_info", 576, 64)]);
  (* struct percpu_ref *) (16, 8, [("percpu_count_ptr", 0, 64); ("data", 64, 64)]);
  (* struct rcu_work *) (56, 8, [("work", 0, 256); ("rcu", 256, 128); ("wq", 384, 64)]);
  (* struct cgroup_subsys_state *) (200, 8, [("cgroup", 0, 64); ("ss", 64, 64); ("refcnt", 128, 128);
    ("sibling", 256, 128); ("children", 384, 128); ("rstat_css_node", 512, 128); ("id", 640, 32);
    ("flags", 672, 32); ("serial_nr", 704, 64); ("online_cnt", 768, 32); ("destroy_work", 832, 256);
    ("destroy_rwork", 1088, 448); ("parent", 1536, 64)]);
  (* struct cgroup_file *) (56, 8, [("kn", 0, 64); ("notified_at", 64, 64); ("notify_timer", 128, 320)]);
  (* struct task_cputime *) (24, 8, [("stime", 0, 64); ("utime", 64, 64);
    ("sum_exec_runtime", 128, 64)]);
  (* struct cgroup_base_stat *) (24, 8, [("cputime", 0, 192)]);
  (* struct psi_group *) (600, 8, [("avgs_lock", 0, 256); ("pcpu", 256, 64); ("avg_total", 320, 320);
    ("avg_last_update", 640, 64); ("avg_next_update", 704, 64); ("avgs_work", 768, 704);
    ("total", 1472, 640); ("avg", 2112, 960); ("poll_task", 3072, 64); ("poll_timer", 3136, 320);
    ("poll_wait", 3456, 192); ("poll_wakeup", 3648, 32); ("trigger_lock", 3712, 256);
    ("triggers", 3968, 128); ("nr_triggers", 4096, 160); ("poll_states", 4256, 32);
    ("poll_min_period", 4288, 64); ("polling_total", 4352, 320); ("polling_next_update", 4672, 64);
    ("polling_until", 4736, 64)]);
  (* struct cgroup_bpf *) (1224, 8, [("effective", 0, 2624); ("progs", 2624, 5248);
    ("flags", 7872, 1312); ("storages", 9216, 128); ("inactive", 9344, 64); ("refcnt", 9408, 128);
    ("release_work", 9536, 256)]);
  (* struct cgroup_freezer_state *) (16, 4, [("freeze", 0, 8); ("e_freeze", 32, 32);
    ("nr_frozen_descendants", 64, 32); ("nr_frozen_tasks", 96, 32)]);
  (* struct cgroup *) (2752, 8, [("self", 0, 1600); ("flags", 1600, 64); ("level", 1664, 32);
    ("max_depth", 1696, 32); ("nr_descendants", 1728, 32); ("nr_dying_descendants", 1760, 32);
    ("max_descendants", 1792, 32); ("nr_populated_csets", 1824, 32);
    ("nr_populated_domain_children", 1856, 32); ("nr_populated_threaded_children", 1888, 32);
    ("nr_threaded_children", 1920, 32); ("kn", 1984, 64); ("procs_file", 2048, 448);
    ("events_file", 2496, 448); ("subtree_control", 2944, 16); ("subtree_ss_mask", 2960, 16);
    ("old_subtree_control", 2976, 16); ("old_subtree_ss_mask", 2992, 16); ("subsys", 3008, 768);
    ("root", 3776, 64); ("cset_links", 3840, 128); ("e_csets", 3968, 1536); ("dom_cgrp", 5504, 64);
    ("old_dom_cgrp", 5568, 64); ("rstat_cpu", 5632, 64); ("rstat_css_list", 5696, 128);
    ("last_bstat", 5824, 192); ("bstat", 6016, 192); ("prev_cputime", 6208, 192); ("pidlists", 6400, 128);
    ("pidlist_mutex", 6528, 256); ("offline_waitq", 6784, 192); ("release_agent_work", 6976, 256);
    ("psi", 7232, 4800); ("bpf", 12032, 9792); ("congestion_count", 21824, 32); ("freezer", 21856, 128);
    ("ancestor_ids", 22016, 0)]);
  (* enum perf_event_state *) (4, 4, []);
  (* typedef local_t *) (8, 8, [("a", 0, 64)]);
  (* typedef local64_t *) (8, 8, [("a", 0, 64)]);
  (* struct perf_event_attr *) (120, 8, [("type", 0, 32); ("size", 32, 32); ("config", 64, 64);
    ("sample_period", 128, 64); ("sample_freq", 128, 64); ("sample_type", 192, 64);
    ("read_format", 256, 64); ("disabled", 320, 1); ("inherit", 321, 1); ("pinned", 322, 1);
    ("exclusive", 323, 1); ("exclude_user", 324, 1); ("exclude_kernel", 325, 1); ("exclude_hv", 326, 1);
    ("exclude_idle", 327, 1); ("mmap", 328, 1); ("comm", 329, 1); ("freq", 330, 1);
    ("inherit_stat", 331, 1); ("enable_on_exec", 332, 1); ("task", 333, 1); ("watermark", 334, 1);
    ("precise_ip", 335, 2); ("mmap_data", 337, 1); ("sample_id_all", 338, 1); ("exclude_host", 339, 1);
    ("exclude_guest", 340, 1); ("exclude_callchain_kernel", 341, 1); ("exclude_callchain_user", 342, 1);
    ("mmap2", 343, 1); ("comm_exec", 344, 1); ("use_clockid", 345, 1); ("context_switch", 346, 1);
    ("write_backward", 347, 1); ("namespaces", 348, 1); ("ksymbol", 349, 1); ("bpf_event", 350, 1);
    ("aux_output", 351, 1); ("cgroup", 352, 1); ("text_poke", 353, 1); ("__reserved_1", 354, 30);
    ("wakeup_events", 384, 32); ("wakeup_watermark", 384, 32); ("bp_type", 416, 32); ("bp_addr", 448, 64);
    ("kprobe_func", 448, 64); ("uprobe_path", 448, 64); ("config1", 448, 64); ("bp_len", 512, 64);
    ("kprobe_addr", 512, 64); ("probe_offset", 512, 64); ("config2", 512, 64);
    ("branch_sample_type", 576, 64); ("sample_regs_user", 640, 64); ("sample_stack_user", 704, 32);
    ("clockid", 736, 32); ("sample_regs_intr", 768, 64); ("aux_watermark", 832, 32);
    ("sample_max_stack", 864, 16); ("__reserved_2", 880, 16); ("aux_sample_size", 896, 32);
    ("__reserved_3", 928, 32)]);
  (* struct hw_perf_event_extra *) (24, 8, [("config", 0, 64); ("reg", 64, 32); ("alloc", 96, 32);
    ("idx", 128, 32)]);
  (* struct arch_hw_breakpoint *) (24, 8, [("address", 0, 64); ("mask", 64, 64); ("len", 128, 8);
    ("type", 136, 8)]);
  (* struct hw_perf_event *) (192, 8, [("config", 0, 64); ("last_tag", 64, 64);
    ("config_base", 128, 64); ("event_base", 192, 64); ("event_base_rdpmc", 256, 32); ("idx", 288, 32);
    ("last_cpu", 320, 32); ("flags", 352, 32); ("extra_reg", 384, 192); ("branch_reg", 576, 192);
    ("hrtimer", 0, 512); ("tp_list", 0, 128); ("pwr_acc", 0, 64); ("ptsc", 64, 64); ("info", 0, 192);
    ("bp_list", 192, 128); ("iommu_bank", 0, 8); ("iommu_cntr", 8, 8); ("padding", 16, 16);
    ("conf", 64, 64); ("conf1", 128, 64); ("target", 768, 64); ("addr_filters", 832, 64);
    ("addr_filters_gen", 896, 64); ("state", 960, 32); ("prev_count", 1024, 64);
    ("sample_period", 1088, 64); ("last_period", 1152, 64); ("period_left", 1216, 64);
    ("saved_metric", 1152, 64); ("saved_slots", 1216, 64); ("interrupts_seq", 1280, 64);
    ("interrupts", 1344, 64); ("freq_time_stamp", 1408, 64); ("freq_count_stamp", 1472, 64)]);
  (* struct irq_work *) (24, 8, [("node", 0, 128); ("llnode", 0, 64); ("flags", 64, 32);
    ("func", 128, 64)]);
  (* struct perf_addr_filters_head *) (24, 8, [("list", 0, 128); ("lock", 128, 32);
    ("nr_file_filters", 160, 32)]);
  (* typedef perf_overflow_handler_t *) (8, 8, []);
  (* typedef ftrace_func_t *) (8, 8, []);
  (* struct ftrace_ops_hash *) (48, 8, [("notrace_hash", 0, 64); ("filter_hash", 64, 64);
    ("regex_lock", 128, 256)]);
  (* struct ftrace_ops *) (176, 8, [("func", 0, 64); ("next", 64, 64); ("flags", 128, 64);
    ("private", 192, 64); ("saved_func", 256, 64); ("local_hash", 320, 384); ("func_hash", 704, 64);
    ("old_hash", 768, 384); ("trampoline", 1152, 64); ("trampoline_size", 1216, 64); ("list", 1280, 128)]);
  (* struct perf_event *) (1176, 8, [("event_entry", 0, 128); ("sibling_list", 128, 128);
    ("active_list", 256, 128); ("group_node", 384, 192); ("group_index", 576, 64);
    ("migrate_entry", 640, 128); ("hlist_entry", 768, 128); ("active_entry", 896, 128);
    ("nr_siblings", 1024, 32); ("event_caps", 1056, 32); ("group_caps", 1088, 32);
    ("group_generation", 1120, 32); ("group_leader", 1152, 64); ("pmu", 1216, 64);
    ("pmu_private", 1280, 64); ("state", 1344, 32); ("attach_state", 1376, 32); ("count", 1408, 64);
    ("child_count", 1472, 64); ("total_time_enabled", 1536, 64); ("total_time_running", 1600, 64);
    ("tstamp", 1664, 64); ("attr", 1728, 960); ("header_size", 2688, 16); ("id_header_size", 2704, 16);
    ("read_size", 2720, 16); ("hw", 2752, 1536); ("ctx", 4288, 64); ("refcount", 4352, 64);
    ("child_total_time_enabled", 4416, 64); ("child_total_time_running", 4480, 64);
    ("child_mutex", 4544, 256); ("child_list", 4800, 128); ("parent", 4928, 64); ("oncpu", 4992, 32);
    ("cpu", 5024, 32); ("owner_entry", 5056, 128); ("owner", 5184, 64); ("mmap_mutex", 5248, 256);
    ("mmap_count", 5504, 32); ("rb", 5568, 64); ("rb_entry", 5632, 128); ("rcu_batches", 5760, 64);
    ("rcu_pending", 5824, 32); ("waitq", 5888, 192); ("fasync", 6080, 64); ("pending_wakeup", 6144, 32);
    ("pending_kill", 6176, 32); ("pending_disable", 6208, 32); ("pending", 6272, 192);
    ("event_limit", 6464, 32); ("addr_filters", 6528, 192); ("addr_filter_ranges", 6720, 64);
    ("addr_filters_gen", 6784, 64); ("aux_event", 6848, 64); ("destroy", 6912, 64);
    ("callback_head", 6976, 128); ("ns", 7104, 64); ("id", 7168, 64); ("lost_samples", 7232, 64);
    ("clock", 7296, 64); ("overflow_handler", 7360, 64); ("overflow_handler_context", 7424, 64);
    ("orig_overflow_handler", 7488, 64); ("prog", 7552, 64); ("tp_event", 7616, 64); ("filter", 7680, 64);
    ("ftrace_ops", 7744, 1408); ("cgrp", 9152, 64); ("security", 9216, 64); ("sb_list", 9280, 128)])].

(** The structs of dns_gateway.h. *)
Definition gateway_layouts : list layout := [
  (* struct conntrack_key *) (8, 4, [("pod_ip", 0, 32); ("pod_port", 32, 16); ("txid", 48, 16)]);
  (* struct conntrack_value *) (16, 8, [("coredns_ip", 0, 32); ("_pad", 32, 32);
    ("timestamp_ns", 64, 64)]);
  (* struct gateway_config *) (16, 4, [("coredns_ip", 0, 32); ("host_resolver_ip", 32, 32);
    ("dns_port", 64, 16); ("bypass", 80, 16); ("default_action", 96, 32)]);
  (* struct scratch_buf *) (256, 1, [("qname", 0, 1024); ("lookup", 1024, 1024)]);
  (* struct suffix_key *) (128, 1, [("name", 0, 1024)]);
  (* struct suffix_value *) (8, 4, [("action", 0, 32); ("_pad", 32, 32)])].

(** The structs of dnsgateway_x86_bpfel.go. *)
Definition go_layouts : list layout := [
  (* DnsGatewayConntrackKey *) (8, 4, [("PodIp", 0, 32); ("PodPort", 32, 16); ("Txid", 48, 16)]);
  (* DnsGatewayConntrackValue *) (16, 8, [("CorednsIp", 0, 32); ("Pad", 32, 32);
    ("TimestampNs", 64, 64)]);
  (* DnsGatewayGatewayConfig *) (16, 4, [("CorednsIp", 0, 32); ("HostResolverIp", 32, 32);
    ("DnsPort", 64, 16); ("Bypass", 80, 16); ("DefaultAction", 96, 32)]);
  (* DnsGatewayScratchBuf *) (256, 1, [("Qname", 0, 1024); ("Lookup", 1024, 1024)]);
  (* DnsGatewaySuffixKey *) (128, 1, [("Name", 0, 1024)]);
  (* DnsGatewaySuffixValue *) (8, 4, [("Action", 0, 32); ("Pad", 32, 32)])].

Definition all_layouts : list layout :=
  VmBase_layouts ++ VmPacket_layouts ++ VmBpfUapi_layouts ++
  VmBpfMaps_layouts ++ VmNetdev_layouts ++ VmQueue_layouts ++ VmRouting_layouts ++
  VmSock_layouts ++ VmNetns_layouts ++ VmFs_layouts ++
  gateway_layouts ++ go_layouts.
