(* ===== verification/VmBase.v ===== *)
(** * Kernel types shared by the other Vm files

    Declarations of headers/vmlinux.h, one definition per declaration and one
    line per member, in the order of use: the integer names, lists, locks,
    reference counts and the structures that several of the other files
    contain. *)

From stdpp Require Import strings.
From S2P Require Import CLayout.

#[local] Open Scope string_scope.

Definition __u16 := c_ushort.

Definition __be16 := __u16.

Definition __u8 := c_uchar.

Definition __u32 := c_uint.

Definition __be32 := __u32.

Definition struct_in6_addr := struct "in6_addr" [
  fld (union no_tag [
    fld (arr __u8 16) "u6_addr8";
    fld (arr __be16 8) "u6_addr16";
    fld (arr __be32 4) "u6_addr32"]) "in6_u"].

Definition __u64 := c_ullong.

Definition struct_rb_node := struct "rb_node" [
  fld c_ulong "__rb_parent_color";
  fld (ptr "struct rb_node") "rb_right";
  fld (ptr "struct rb_node") "rb_left"].

Definition struct_list_head := struct "list_head" [
  fld (ptr "struct list_head") "next";
  fld (ptr "struct list_head") "prev"].

Definition __s64 := c_llong.

Definition s64 := __s64.

Definition ktime_t := s64.

Definition u64 := __u64.

Definition atomic_t := struct no_tag [
    fld c_int "counter"].

Definition struct_refcount_struct := struct "refcount_struct" [
  fld atomic_t "refs"].

Definition refcount_t := struct_refcount_struct.

Definition u32 := __u32.

Definition u16 := __u16.

Definition enum_bpf_map_type := enum "bpf_map_type" [
  ev "BPF_MAP_TYPE_UNSPEC" 0;
  ev "BPF_MAP_TYPE_HASH" 1;
  ev "BPF_MAP_TYPE_ARRAY" 2;
  ev "BPF_MAP_TYPE_PROG_ARRAY" 3;
  ev "BPF_MAP_TYPE_PERF_EVENT_ARRAY" 4;
  ev "BPF_MAP_TYPE_PERCPU_HASH" 5;
  ev "BPF_MAP_TYPE_PERCPU_ARRAY" 6;
  ev "BPF_MAP_TYPE_STACK_TRACE" 7;
  ev "BPF_MAP_TYPE_CGROUP_ARRAY" 8;
  ev "BPF_MAP_TYPE_LRU_HASH" 9;
  ev "BPF_MAP_TYPE_LRU_PERCPU_HASH" 10;
  ev "BPF_MAP_TYPE_LPM_TRIE" 11;
  ev "BPF_MAP_TYPE_ARRAY_OF_MAPS" 12;
  ev "BPF_MAP_TYPE_HASH_OF_MAPS" 13;
  ev "BPF_MAP_TYPE_DEVMAP" 14;
  ev "BPF_MAP_TYPE_SOCKMAP" 15;
  ev "BPF_MAP_TYPE_CPUMAP" 16;
  ev "BPF_MAP_TYPE_XSKMAP" 17;
  ev "BPF_MAP_TYPE_SOCKHASH" 18;
  ev "BPF_MAP_TYPE_CGROUP_STORAGE" 19;
  ev "BPF_MAP_TYPE_REUSEPORT_SOCKARRAY" 20;
  ev "BPF_MAP_TYPE_PERCPU_CGROUP_STORAGE" 21;
  ev "BPF_MAP_TYPE_QUEUE" 22;
  ev "BPF_MAP_TYPE_STACK" 23;
  ev "BPF_MAP_TYPE_SK_STORAGE" 24;
  ev "BPF_MAP_TYPE_DEVMAP_HASH" 25;
  ev "BPF_MAP_TYPE_STRUCT_OPS" 26;
  ev "BPF_MAP_TYPE_RINGBUF" 27;
  ev "BPF_MAP_TYPE_INODE_STORAGE" 28;
  ev "BPF_MAP_TYPE_TASK_STORAGE" 29].

Definition enum_bpf_prog_type := enum "bpf_prog_type" [
  ev "BPF_PROG_TYPE_UNSPEC" 0;
  ev "BPF_PROG_TYPE_SOCKET_FILTER" 1;
  ev "BPF_PROG_TYPE_KPROBE" 2;
  ev "BPF_PROG_TYPE_SCHED_CLS" 3;
  ev "BPF_PROG_TYPE_SCHED_ACT" 4;
  ev "BPF_PROG_TYPE_TRACEPOINT" 5;
  ev "BPF_PROG_TYPE_XDP" 6;
  ev "BPF_PROG_TYPE_PERF_EVENT" 7;
  ev "BPF_PROG_TYPE_CGROUP_SKB" 8;
  ev "BPF_PROG_TYPE_CGROUP_SOCK" 9;
  ev "BPF_PROG_TYPE_LWT_IN" 10;
  ev "BPF_PROG_TYPE_LWT_OUT" 11;
  ev "BPF_PROG_TYPE_LWT_XMIT" 12;
  ev "BPF_PROG_TYPE_SOCK_OPS" 13;
  ev "BPF_PROG_TYPE_SK_SKB" 14;
  ev "BPF_PROG_TYPE_CGROUP_DEVICE" 15;
  ev "BPF_PROG_TYPE_SK_MSG" 16;
  ev "BPF_PROG_TYPE_RAW_TRACEPOINT" 17;
  ev "BPF_PROG_TYPE_CGROUP_SOCK_ADDR" 18;
  ev "BPF_PROG_TYPE_LWT_SEG6LOCAL" 19;
  ev "BPF_PROG_TYPE_LIRC_MODE2" 20;
  ev "BPF_PROG_TYPE_SK_REUSEPORT" 21;
  ev "BPF_PROG_TYPE_FLOW_DISSECTOR" 22;
  ev "BPF_PROG_TYPE_CGROUP_SYSCTL" 23;
  ev "BPF_PROG_TYPE_RAW_TRACEPOINT_WRITABLE" 24;
  ev "BPF_PROG_TYPE_CGROUP_SOCKOPT" 25;
  ev "BPF_PROG_TYPE_TRACING" 26;
  ev "BPF_PROG_TYPE_STRUCT_OPS" 27;
  ev "BPF_PROG_TYPE_EXT" 28;
  ev "BPF_PROG_TYPE_LSM" 29;
  ev "BPF_PROG_TYPE_SK_LOOKUP" 30].

Definition enum_bpf_attach_type := enum "bpf_attach_type" [
  ev "BPF_CGROUP_INET_INGRESS" 0;
  ev "BPF_CGROUP_INET_EGRESS" 1;
  ev "BPF_CGROUP_INET_SOCK_CREATE" 2;
  ev "BPF_CGROUP_SOCK_OPS" 3;
  ev "BPF_SK_SKB_STREAM_PARSER" 4;
  ev "BPF_SK_SKB_STREAM_VERDICT" 5;
  ev "BPF_CGROUP_DEVICE" 6;
  ev "BPF_SK_MSG_VERDICT" 7;
  ev "BPF_CGROUP_INET4_BIND" 8;
  ev "BPF_CGROUP_INET6_BIND" 9;
  ev "BPF_CGROUP_INET4_CONNECT" 10;
  ev "BPF_CGROUP_INET6_CONNECT" 11;
  ev "BPF_CGROUP_INET4_POST_BIND" 12;
  ev "BPF_CGROUP_INET6_POST_BIND" 13;
  ev "BPF_CGROUP_UDP4_SENDMSG" 14;
  ev "BPF_CGROUP_UDP6_SENDMSG" 15;
  ev "BPF_LIRC_MODE2" 16;
  ev "BPF_FLOW_DISSECTOR" 17;
  ev "BPF_CGROUP_SYSCTL" 18;
  ev "BPF_CGROUP_UDP4_RECVMSG" 19;
  ev "BPF_CGROUP_UDP6_RECVMSG" 20;
  ev "BPF_CGROUP_GETSOCKOPT" 21;
  ev "BPF_CGROUP_SETSOCKOPT" 22;
  ev "BPF_TRACE_RAW_TP" 23;
  ev "BPF_TRACE_FENTRY" 24;
  ev "BPF_TRACE_FEXIT" 25;
  ev "BPF_MODIFY_RETURN" 26;
  ev "BPF_LSM_MAC" 27;
  ev "BPF_TRACE_ITER" 28;
  ev "BPF_CGROUP_INET4_GETPEERNAME" 29;
  ev "BPF_CGROUP_INET6_GETPEERNAME" 30;
  ev "BPF_CGROUP_INET4_GETSOCKNAME" 31;
  ev "BPF_CGROUP_INET6_GETSOCKNAME" 32;
  ev "BPF_XDP_DEVMAP" 33;
  ev "BPF_CGROUP_INET_SOCK_RELEASE" 34;
  ev "BPF_XDP_CPUMAP" 35;
  ev "BPF_SK_LOOKUP" 36;
  ev "BPF_XDP" 37;
  ev "BPF_SK_SKB_VERDICT" 38;
  ev "BPF_SK_REUSEPORT_SELECT" 39;
  ev "BPF_SK_REUSEPORT_SELECT_OR_MIGRATE" 40;
  ev "__MAX_BPF_ATTACH_TYPE" 41].

Definition enum_bpf_link_type := enum "bpf_link_type" [
  ev "BPF_LINK_TYPE_UNSPEC" 0;
  ev "BPF_LINK_TYPE_RAW_TRACEPOINT" 1;
  ev "BPF_LINK_TYPE_TRACING" 2;
  ev "BPF_LINK_TYPE_CGROUP" 3;
  ev "BPF_LINK_TYPE_ITER" 4;
  ev "BPF_LINK_TYPE_NETNS" 5;
  ev "BPF_LINK_TYPE_XDP" 6;
  ev "MAX_BPF_LINK_TYPE" 7].

Definition __s16 := c_short.

Definition __s32 := c_int.

Definition struct_bpf_insn := struct "bpf_insn" [
  fld __u8 "code";
  bits __u8 "dst_reg" 4;
  bits __u8 "src_reg" 4;
  fld __s16 "off";
  fld __s32 "imm"].

Definition struct_bpf_map_memory := struct "bpf_map_memory" [
  fld u32 "pages";
  fld (ptr "struct user_struct") "user"].

Definition bool_ := c_bool.

Definition atomic64_t := struct no_tag [
    fld s64 "counter"].

Definition atomic_long_t := atomic64_t.

Definition work_func_t := fptr "void" "struct work_struct *".

Definition struct_work_struct := struct "work_struct" [
  fld atomic_long_t "data";
  fld struct_list_head "entry";
  fld work_func_t "func"].

Definition struct_callback_head := struct "callback_head" [
  fld (ptr "struct callback_head") "next";
  fld (fptr "void" "struct callback_head *") "func"].

Definition u8 := __u8.

Definition struct_qspinlock := struct "qspinlock" [
  anon (union no_tag [
    fld atomic_t "val";
    anon (struct no_tag [
      fld u8 "locked";
      fld u8 "pending"]);
    anon (struct no_tag [
      fld u16 "locked_pending";
      fld u16 "tail"])])].

Definition arch_spinlock_t := struct_qspinlock.

Definition struct_raw_spinlock := struct "raw_spinlock" [
  fld arch_spinlock_t "raw_lock"].

Definition struct_spinlock := struct "spinlock" [
  anon (union no_tag [
    fld struct_raw_spinlock "rlock"])].

Definition spinlock_t := struct_spinlock.

Definition struct_optimistic_spin_queue := struct "optimistic_spin_queue" [
  fld atomic_t "tail"].

Definition struct_mutex := struct "mutex" [
  fld atomic_long_t "owner";
  fld spinlock_t "wait_lock";
  fld struct_optimistic_spin_queue "osq";
  fld struct_list_head "wait_list"].

Definition struct_bpf_map := struct "bpf_map" [
  fld (ptr "const struct bpf_map_ops") "ops";
  fld (ptr "struct bpf_map") "inner_map_meta";
  fld (ptr "void") "security";
  fld enum_bpf_map_type "map_type";
  fld u32 "key_size";
  fld u32 "value_size";
  fld u32 "max_entries";
  fld u32 "map_flags";
  fld c_int "spin_lock_off";
  fld u32 "id";
  fld c_int "numa_node";
  fld u32 "btf_key_type_id";
  fld u32 "btf_value_type_id";
  fld (ptr "struct btf") "btf";
  fld struct_bpf_map_memory "memory";
  fld (arr c_char 16) "name";
  fld u32 "btf_vmlinux_value_type_id";
  fld bool_ "bypass_spec_v1";
  fld bool_ "frozen";
  pad c_long 64;
  pad c_long 64;
  fld atomic64_t "refcnt";
  fld atomic64_t "usercnt";
  anon (union no_tag [
    fld struct_work_struct "work";
    fld struct_callback_head "rcu"]);
  fld struct_mutex "freeze_mutex";
  fld atomic64_t "writecnt";
  fld bool_ "free_after_mult_rcu_gp";
  pad c_long 64;
  pad c_long 64;
  pad c_long 64;
  pad c_long 64].

Definition raw_spinlock_t := struct_raw_spinlock.

Definition struct_hlist_nulls_node := struct "hlist_nulls_node" [
  fld (ptr "struct hlist_nulls_node") "next";
  fld (ptr "struct hlist_nulls_node **") "pprev"].

Definition struct_hlist_node := struct "hlist_node" [
  fld (ptr "struct hlist_node") "next";
  fld (ptr "struct hlist_node **") "pprev"].

Definition __kernel_ulong_t := c_ulong.

Definition __kernel_size_t := __kernel_ulong_t.

Definition size_t := __kernel_size_t.

Definition enum_bpf_reg_type := enum "bpf_reg_type" [
  ev "NOT_INIT" 0;
  ev "SCALAR_VALUE" 1;
  ev "PTR_TO_CTX" 2;
  ev "CONST_PTR_TO_MAP" 3;
  ev "PTR_TO_MAP_VALUE" 4;
  ev "PTR_TO_MAP_KEY" 5;
  ev "PTR_TO_STACK" 6;
  ev "PTR_TO_PACKET_META" 7;
  ev "PTR_TO_PACKET" 8;
  ev "PTR_TO_PACKET_END" 9;
  ev "PTR_TO_FLOW_KEYS" 10;
  ev "PTR_TO_SOCKET" 11;
  ev "PTR_TO_SOCK_COMMON" 12;
  ev "PTR_TO_TCP_SOCK" 13;
  ev "PTR_TO_TP_BUFFER" 14;
  ev "PTR_TO_XDP_SOCK" 15;
  ev "PTR_TO_BTF_ID" 16;
  ev "PTR_TO_MEM" 17;
  ev "PTR_TO_BUF" 18;
  ev "PTR_TO_PERCPU_BTF_ID" 19;
  ev "__BPF_REG_TYPE_MAX" 20;
  ev "PTR_TO_MAP_VALUE_OR_NULL" 260;
  ev "PTR_TO_SOCKET_OR_NULL" 267;
  ev "PTR_TO_SOCK_COMMON_OR_NULL" 268;
  ev "PTR_TO_TCP_SOCK_OR_NULL" 269;
  ev "PTR_TO_BTF_ID_OR_NULL" 272;
  ev "__BPF_REG_TYPE_LIMIT" 134217727].

Definition struct_btf_func_model := struct "btf_func_model" [
  fld u8 "ret_size";
  fld u8 "nr_args";
  fld (arr u8 12) "arg_size"].

Definition struct_hlist_head := struct "hlist_head" [
  fld (ptr "struct hlist_node") "first"].

Definition struct_nlmsghdr := struct "nlmsghdr" [
  fld __u32 "nlmsg_len";
  fld __u16 "nlmsg_type";
  fld __u16 "nlmsg_flags";
  fld __u32 "nlmsg_seq";
  fld __u32 "nlmsg_pid"].

Definition netdev_features_t := u64.

Definition struct_timer_list := struct "timer_list" [
  fld struct_hlist_node "entry";
  fld c_ulong "expires";
  fld (fptr "void" "struct timer_list *") "function";
  fld u32 "flags"].

Definition possible_net_t := struct no_tag [
    fld (ptr "struct net") "net"].

Definition struct_kref := struct "kref" [
  fld refcount_t "refcount"].

Definition struct_kobject := struct "kobject" [
  fld (ptr "const char") "name";
  fld struct_list_head "entry";
  fld (ptr "struct kobject") "parent";
  fld (ptr "struct kset") "kset";
  fld (ptr "struct kobj_type") "ktype";
  fld (ptr "struct kernfs_node") "sd";
  fld struct_kref "kref";
  bits c_uint "state_initialized" 1;
  bits c_uint "state_in_sysfs" 1;
  bits c_uint "state_add_uevent_sent" 1;
  bits c_uint "state_remove_uevent_sent" 1;
  bits c_uint "uevent_suppress" 1].

Definition struct_timerqueue_node := struct "timerqueue_node" [
  fld struct_rb_node "node";
  fld ktime_t "expires"].

Definition struct_hrtimer := struct "hrtimer" [
  fld struct_timerqueue_node "node";
  fld ktime_t "_softexpires";
  fld (fptr "enum hrtimer_restart" "struct hrtimer *") "function";
  fld (ptr "struct hrtimer_clock_base") "base";
  fld u8 "state";
  fld u8 "is_rel";
  fld u8 "is_soft";
  fld u8 "is_hard"].

Definition struct_wait_queue_head := struct "wait_queue_head" [
  fld spinlock_t "lock";
  fld struct_list_head "head"].

Definition wait_queue_head_t := struct_wait_queue_head.

Definition __kernel_dev_t := u32.

Definition dev_t := __kernel_dev_t.

Definition s16 := __s16.

Definition struct_sk_buff_head := struct "sk_buff_head" [
  fld (ptr "struct sk_buff") "next";
  fld (ptr "struct sk_buff") "prev";
  fld __u32 "qlen";
  fld spinlock_t "lock"].

Definition struct_seqcount := struct "seqcount" [
  fld c_uint "sequence"].

Definition seqcount_t := struct_seqcount.

Definition struct_netlink_callback := struct "netlink_callback" [
  fld (ptr "struct sk_buff") "skb";
  fld (ptr "const struct nlmsghdr") "nlh";
  fld (fptr "int" "struct sk_buff *, struct netlink_callback *") "dump";
  fld (fptr "int" "struct netlink_callback *") "done";
  fld (ptr "void") "data";
  fld (ptr "struct module") "module";
  fld (ptr "struct netlink_ext_ack") "extack";
  fld u16 "family";
  fld u16 "answer_flags";
  fld u32 "min_dump_alloc";
  fld c_uint "prev_seq";
  fld c_uint "seq";
  fld bool_ "strict_check";
  anon (union no_tag [
    fld (arr u8 48) "ctx";
    fld (arr c_long 6) "args"])].

Definition struct_rw_semaphore := struct "rw_semaphore" [
  fld atomic_long_t "count";
  fld atomic_long_t "owner";
  fld struct_optimistic_spin_queue "osq";
  fld raw_spinlock_t "wait_lock";
  fld struct_list_head "wait_list"].

Definition struct_llist_node := struct "llist_node" [
  fld (ptr "struct llist_node") "next"].

Definition struct___call_single_node := struct "__call_single_node" [
  fld struct_llist_node "llist";
  anon (union no_tag [
    fld c_uint "u_flags";
    fld atomic_t "a_flags"]);
  fld u16 "src";
  fld u16 "dst"].

Definition u_int8_t := u8.

Definition struct_percpu_counter := struct "percpu_counter" [
  fld raw_spinlock_t "lock";
  fld s64 "count";
  fld struct_list_head "list";
  fld (ptr "s32") "counters"].

Definition struct_dst_ops := struct "dst_ops" [
  fld c_ushort "family";
  fld c_uint "gc_thresh";
  fld (fptr "void" "struct dst_ops *") "gc";
  fld (fptr "struct dst_entry *" "struct dst_entry *, __u32") "check";
  fld (fptr "unsigned int" "const struct dst_entry *") "default_advmss";
  fld (fptr "unsigned int" "const struct dst_entry *") "mtu";
  fld (fptr "u32 *" "struct dst_entry *, long unsigned int") "cow_metrics";
  fld (fptr "void" "struct dst_entry *") "destroy";
  fld (fptr "void" "struct dst_entry *, struct net_device *, int") "ifdown";
  fld (fptr "void" "struct sock *, struct dst_entry *") "negative_advice";
  fld (fptr "void" "struct sk_buff *") "link_failure";
  fld (fptr "void" "struct dst_entry *, struct sock *, struct sk_buff *, u32, bool") "update_pmtu";
  fld (fptr "void" "struct dst_entry *, struct sock *, struct sk_buff *") "redirect";
  fld (fptr "int" "struct net *, struct sock *, struct sk_buff *") "local_out";
  fld (fptr "struct neighbour *" "const struct dst_entry *, struct sk_buff *, const void *") "neigh_lookup";
  fld (fptr "void" "const struct dst_entry *, const void *") "confirm_neigh";
  fld (ptr "struct kmem_cache") "kmem_cachep";
  fld struct_percpu_counter "pcpuc_entries";
  pad c_long 64;
  pad c_long 64;
  pad c_long 64].

Definition struct_qrwlock := struct "qrwlock" [
  anon (union no_tag [
    fld atomic_t "cnts";
    anon (struct no_tag [
      fld u8 "wlocked";
      fld (arr u8 3) "__lstate"])]);
  fld arch_spinlock_t "wait_lock"].

Definition arch_rwlock_t := struct_qrwlock.

Definition rwlock_t := struct no_tag [
    fld arch_rwlock_t "raw_lock"].

Definition struct_seqcount_spinlock := struct "seqcount_spinlock" [
  fld seqcount_t "seqcount"].

Definition seqcount_spinlock_t := struct_seqcount_spinlock.

Definition seqlock_t := struct no_tag [
    fld seqcount_spinlock_t "seqcount";
    fld spinlock_t "lock"].

Definition struct_delayed_work := struct "delayed_work" [
  fld struct_work_struct "work";
  fld struct_timer_list "timer";
  fld (ptr "struct workqueue_struct") "wq";
  fld c_int "cpu"].

Definition struct_fib_nh_common := struct "fib_nh_common" [
  fld (ptr "struct net_device") "nhc_dev";
  fld c_int "nhc_oif";
  fld c_uchar "nhc_scope";
  fld u8 "nhc_family";
  fld u8 "nhc_gw_family";
  fld c_uchar "nhc_flags";
  fld (ptr "struct lwtunnel_state") "nhc_lwtstate";
  fld (union no_tag [
    fld __be32 "ipv4";
    fld struct_in6_addr "ipv6"]) "nhc_gw";
  fld c_int "nhc_weight";
  fld atomic_t "nhc_upper_bound";
  fld (ptr "struct rtable **") "nhc_pcpu_rth_output";
  fld (ptr "struct rtable") "nhc_rth_input";
  fld (ptr "struct fnhe_hash_bucket") "nhc_exceptions"].

Definition struct_local_ports := struct "local_ports" [
  fld seqlock_t "lock";
  fld (arr c_int 2) "range";
  fld bool_ "warned"].

Definition struct_inet_timewait_death_row := struct "inet_timewait_death_row" [
  fld atomic_t "tw_count";
  pad c_long 64;
  pad c_long 64;
  pad c_long 64;
  pad c_long 64;
  pad c_long 64;
  pad c_long 64;
  pad c_long 64;
  fld (ptr "struct inet_hashinfo") "hashinfo";
  fld c_int "sysctl_max_tw_buckets";
  pad c_long 64;
  pad c_long 64;
  pad c_long 64;
  pad c_long 64;
  pad c_long 64;
  pad c_long 64].

Definition __kernel_gid32_t := c_uint.

Definition gid_t := __kernel_gid32_t.

Definition kgid_t := struct no_tag [
    fld gid_t "val"].

Definition struct_ping_group_range := struct "ping_group_range" [
  fld seqlock_t "lock";
  fld (arr kgid_t 2) "range"].

Definition siphash_key_t := struct no_tag [
    fld (arr u64 2) "key"].

Definition struct_netns_ipv4 := struct "netns_ipv4" [
  fld (ptr "struct ctl_table_header") "forw_hdr";
  fld (ptr "struct ctl_table_header") "frags_hdr";
  fld (ptr "struct ctl_table_header") "ipv4_hdr";
  fld (ptr "struct ctl_table_header") "route_hdr";
  fld (ptr "struct ctl_table_header") "xfrm4_hdr";
  fld (ptr "struct ipv4_devconf") "devconf_all";
  fld (ptr "struct ipv4_devconf") "devconf_dflt";
  fld (ptr "struct ip_ra_chain") "ra_chain";
  fld struct_mutex "ra_mutex";
  fld (ptr "struct fib_rules_ops") "rules_ops";
  fld bool_ "fib_has_custom_rules";
  fld c_uint "fib_rules_require_fldissect";
  fld (ptr "struct fib_table") "fib_main";
  fld (ptr "struct fib_table") "fib_default";
  fld bool_ "fib_has_custom_local_routes";
  fld atomic_t "fib_num_tclassid_users";
  fld (ptr "struct hlist_head") "fib_table_hash";
  fld bool_ "fib_offload_disabled";
  fld (ptr "struct sock") "fibnl";
  fld (ptr "struct sock **") "icmp_sk";
  fld (ptr "struct sock") "mc_autojoin_sk";
  fld (ptr "struct inet_peer_base") "peers";
  fld (ptr "struct fqdir") "fqdir";
  fld (ptr "struct xt_table") "iptable_filter";
  fld (ptr "struct xt_table") "iptable_mangle";
  fld (ptr "struct xt_table") "iptable_raw";
  fld (ptr "struct xt_table") "arptable_filter";
  fld (ptr "struct xt_table") "iptable_security";
  fld (ptr "struct xt_table") "nat_table";
  fld u8 "sysctl_icmp_echo_ignore_all";
  fld u8 "sysctl_icmp_echo_ignore_broadcasts";
  fld u8 "sysctl_icmp_ignore_bogus_error_responses";
  fld u8 "sysctl_icmp_errors_use_inbound_ifaddr";
  fld c_int "sysctl_icmp_ratelimit";
  fld c_int "sysctl_icmp_ratemask";
  fld struct_local_ports "ip_local_ports";
  fld u8 "sysctl_tcp_ecn";
  fld u8 "sysctl_tcp_ecn_fallback";
  fld u8 "sysctl_ip_default_ttl";
  fld u8 "sysctl_ip_no_pmtu_disc";
  fld u8 "sysctl_ip_fwd_use_pmtu";
  fld u8 "sysctl_ip_fwd_update_priority";
  fld u8 "sysctl_ip_nonlocal_bind";
  fld u8 "sysctl_ip_autobind_reuse";
  fld u8 "sysctl_ip_dynaddr";
  fld u8 "sysctl_ip_early_demux";
  fld u8 "sysctl_raw_l3mdev_accept";
  fld u8 "sysctl_tcp_early_demux";
  fld u8 "sysctl_udp_early_demux";
  fld u8 "sysctl_nexthop_compat_mode";
  fld u8 "sysctl_fwmark_reflect";
  fld u8 "sysctl_tcp_fwmark_accept";
  fld u8 "sysctl_tcp_l3mdev_accept";
  fld u8 "sysctl_tcp_mtu_probing";
  fld c_int "sysctl_tcp_mtu_probe_floor";
  fld c_int "sysctl_tcp_base_mss";
  fld c_int "sysctl_tcp_min_snd_mss";
  fld c_int "sysctl_tcp_probe_threshold";
  fld u32 "sysctl_tcp_probe_interval";
  fld c_int "sysctl_tcp_keepalive_time";
  fld c_int "sysctl_tcp_keepalive_intvl";
  fld u8 "sysctl_tcp_keepalive_probes";
  fld u8 "sysctl_tcp_syn_retries";
  fld u8 "sysctl_tcp_synack_retries";
  fld u8 "sysctl_tcp_syncookies";
  fld u8 "sysctl_tcp_migrate_req";
  fld c_int "sysctl_tcp_reordering";
  fld u8 "sysctl_tcp_retries1";
  fld u8 "sysctl_tcp_retries2";
  fld u8 "sysctl_tcp_orphan_retries";
  fld u8 "sysctl_tcp_tw_reuse";
  fld c_int "sysctl_tcp_fin_timeout";
  fld c_uint "sysctl_tcp_notsent_lowat";
  fld u8 "sysctl_tcp_sack";
  fld u8 "sysctl_tcp_window_scaling";
  fld u8 "sysctl_tcp_timestamps";
  fld u8 "sysctl_tcp_early_retrans";
  fld u8 "sysctl_tcp_recovery";
  fld u8 "sysctl_tcp_thin_linear_timeouts";
  fld u8 "sysctl_tcp_slow_start_after_idle";
  fld u8 "sysctl_tcp_retrans_collapse";
  fld u8 "sysctl_tcp_stdurg";
  fld u8 "sysctl_tcp_rfc1337";
  fld u8 "sysctl_tcp_abort_on_overflow";
  fld u8 "sysctl_tcp_fack";
  fld c_int "sysctl_tcp_max_reordering";
  fld c_int "sysctl_tcp_adv_win_scale";
  fld u8 "sysctl_tcp_dsack";
  fld u8 "sysctl_tcp_app_win";
  fld u8 "sysctl_tcp_frto";
  fld u8 "sysctl_tcp_nometrics_save";
  fld u8 "sysctl_tcp_no_ssthresh_metrics_save";
  fld u8 "sysctl_tcp_moderate_rcvbuf";
  fld u8 "sysctl_tcp_tso_win_divisor";
  fld u8 "sysctl_tcp_workaround_signed_windows";
  fld c_int "sysctl_tcp_limit_output_bytes";
  fld c_int "sysctl_tcp_challenge_ack_limit";
  fld c_int "sysctl_tcp_min_rtt_wlen";
  fld u8 "sysctl_tcp_min_tso_segs";
  fld u8 "sysctl_tcp_autocorking";
  fld u8 "sysctl_tcp_reflect_tos";
  fld c_int "sysctl_tcp_invalid_ratelimit";
  fld c_int "sysctl_tcp_pacing_ss_ratio";
  fld c_int "sysctl_tcp_pacing_ca_ratio";
  fld (arr c_int 3) "sysctl_tcp_wmem";
  fld (arr c_int 3) "sysctl_tcp_rmem";
  fld c_int "sysctl_tcp_comp_sack_nr";
  fld c_ulong "sysctl_tcp_comp_sack_delay_ns";
  fld c_ulong "sysctl_tcp_comp_sack_slack_ns";
  fld struct_inet_timewait_death_row "tcp_death_row";
  fld c_int "sysctl_max_syn_backlog";
  fld c_int "sysctl_tcp_fastopen";
  fld (ptr "const struct tcp_congestion_ops") "tcp_congestion_control";
  fld (ptr "struct tcp_fastopen_context") "tcp_fastopen_ctx";
  fld spinlock_t "tcp_fastopen_ctx_lock";
  fld c_uint "sysctl_tcp_fastopen_blackhole_timeout";
  fld atomic_t "tfo_active_disable_times";
  fld c_ulong "tfo_active_disable_stamp";
  fld u8 "sysctl_tcp_plb_enabled";
  fld c_int "sysctl_tcp_plb_cong_thresh";
  fld u8 "sysctl_tcp_plb_idle_rehash_rounds";
  fld u8 "sysctl_tcp_plb_rehash_rounds";
  fld u8 "sysctl_tcp_plb_suspend_rto_sec";
  fld c_int "sysctl_udp_wmem_min";
  fld c_int "sysctl_udp_rmem_min";
  fld c_int "sysctl_udp_l3mdev_accept";
  fld c_int "sysctl_igmp_max_memberships";
  fld c_int "sysctl_igmp_max_msf";
  fld c_int "sysctl_igmp_llm_reports";
  fld c_int "sysctl_igmp_qrv";
  fld struct_ping_group_range "ping_group_range";
  fld atomic_t "dev_addr_genid";
  fld (ptr "long unsigned int") "sysctl_local_reserved_ports";
  fld c_int "sysctl_ip_prot_sock";
  fld struct_list_head "mr_tables";
  fld (ptr "struct fib_rules_ops") "mr_rules_ops";
  fld c_int "sysctl_fib_multipath_use_neigh";
  fld c_int "sysctl_fib_multipath_hash_policy";
  fld (ptr "struct fib_notifier_ops") "notifier_ops";
  fld c_uint "fib_seq";
  fld (ptr "struct fib_notifier_ops") "ipmr_notifier_ops";
  fld c_uint "ipmr_seq";
  fld atomic_t "rt_genid";
  fld siphash_key_t "ip_id_key";
  pad c_long 64;
  pad c_long 64;
  pad c_long 64;
  pad c_long 64;
  pad c_long 64;
  pad c_long 64].

Definition __addrpair := __u64.

Definition __portpair := __u32.

Definition struct_sock_common := struct "sock_common" [
  anon (union no_tag [
    fld __addrpair "skc_addrpair";
    anon (struct no_tag [
      fld __be32 "skc_daddr";
      fld __be32 "skc_rcv_saddr"])]);
  anon (union no_tag [
    fld c_uint "skc_hash";
    fld (arr __u16 2) "skc_u16hashes"]);
  anon (union no_tag [
    fld __portpair "skc_portpair";
    anon (struct no_tag [
      fld __be16 "skc_dport";
      fld __u16 "skc_num"])]);
  fld c_ushort "skc_family";
  fld c_uchar "skc_state";
  bits c_uchar "skc_reuse" 4;
  bits c_uchar "skc_reuseport" 1;
  bits c_uchar "skc_ipv6only" 1;
  bits c_uchar "skc_net_refcnt" 1;
  fld c_int "skc_bound_dev_if";
  anon (union no_tag [
    fld struct_hlist_node "skc_bind_node";
    fld struct_hlist_node "skc_portaddr_node"]);
  fld (ptr "struct proto") "skc_prot";
  fld possible_net_t "skc_net";
  fld struct_in6_addr "skc_v6_daddr";
  fld struct_in6_addr "skc_v6_rcv_saddr";
  fld atomic64_t "skc_cookie";
  anon (union no_tag [
    fld c_ulong "skc_flags";
    fld (ptr "struct sock") "skc_listener";
    fld (ptr "struct inet_timewait_death_row") "skc_tw_dr"]);
  fld (arr c_int 0) "skc_dontcopy_begin";
  anon (union no_tag [
    fld struct_hlist_node "skc_node";
    fld struct_hlist_nulls_node "skc_nulls_node"]);
  fld c_ushort "skc_tx_queue_mapping";
  fld c_ushort "skc_rx_queue_mapping";
  anon (union no_tag [
    fld c_int "skc_incoming_cpu";
    fld u32 "skc_rcv_wnd";
    fld u32 "skc_tw_rcv_nxt"]);
  fld refcount_t "skc_refcnt";
  fld (arr c_int 0) "skc_dontcopy_end";
  anon (union no_tag [
    fld u32 "skc_rxhash";
    fld u32 "skc_window_clamp";
    fld u32 "skc_tw_snd_nxt"])].

Definition socket_lock_t := struct no_tag [
    fld spinlock_t "slock";
    fld c_int "owned";
    fld wait_queue_head_t "wq"].

Definition struct_rb_root := struct "rb_root" [
  fld (ptr "struct rb_node") "rb_node"].

Definition struct_page_frag := struct "page_frag" [
  fld (ptr "struct page") "page";
  fld __u32 "offset";
  fld __u32 "size"].

Definition gfp_t := c_uint.

Definition __kernel_uid32_t := c_uint.

Definition uid_t := __kernel_uid32_t.

Definition kuid_t := struct no_tag [
    fld uid_t "val"].

Definition struct_sock_cgroup_data := struct "sock_cgroup_data" [
  fld (ptr "struct cgroup") "cgroup";
  fld u32 "classid";
  fld u16 "prioidx"].

Definition struct_sock := struct "sock" [
  fld struct_sock_common "__sk_common";
  fld socket_lock_t "sk_lock";
  fld atomic_t "sk_drops";
  fld c_int "sk_rcvlowat";
  fld struct_sk_buff_head "sk_error_queue";
  fld (ptr "struct sk_buff") "sk_rx_skb_cache";
  fld struct_sk_buff_head "sk_receive_queue";
  fld (struct no_tag [
    fld atomic_t "rmem_alloc";
    fld c_int "len";
    fld (ptr "struct sk_buff") "head";
    fld (ptr "struct sk_buff") "tail"]) "sk_backlog";
  fld c_int "sk_forward_alloc";
  fld c_uint "sk_ll_usec";
  fld c_uint "sk_napi_id";
  fld c_int "sk_rcvbuf";
  fld c_int "sk_wait_pending";
  fld (ptr "struct sk_filter") "sk_filter";
  anon (union no_tag [
    fld (ptr "struct socket_wq") "sk_wq";
    fld (ptr "struct socket_wq") "sk_wq_raw"]);
  fld (arr (ptr "struct xfrm_policy") 2) "sk_policy";
  fld (ptr "struct dst_entry") "sk_rx_dst";
  fld (ptr "struct dst_entry") "sk_dst_cache";
  fld atomic_t "sk_omem_alloc";
  fld c_int "sk_sndbuf";
  fld c_int "sk_wmem_queued";
  fld refcount_t "sk_wmem_alloc";
  fld c_ulong "sk_tsq_flags";
  anon (union no_tag [
    fld (ptr "struct sk_buff") "sk_send_head";
    fld struct_rb_root "tcp_rtx_queue"]);
  fld (ptr "struct sk_buff") "sk_tx_skb_cache";
  fld struct_sk_buff_head "sk_write_queue";
  fld __s32 "sk_peek_off";
  fld c_int "sk_write_pending";
  fld __u32 "sk_dst_pending_confirm";
  fld u32 "sk_pacing_status";
  fld c_long "sk_sndtimeo";
  fld struct_timer_list "sk_timer";
  fld __u32 "sk_priority";
  fld __u32 "sk_mark";
  fld c_ulong "sk_pacing_rate";
  fld c_ulong "sk_max_pacing_rate";
  fld struct_page_frag "sk_frag";
  fld netdev_features_t "sk_route_caps";
  fld netdev_features_t "sk_route_nocaps";
  fld netdev_features_t "sk_route_forced_caps";
  fld c_int "sk_gso_type";
  fld c_uint "sk_gso_max_size";
  fld gfp_t "sk_allocation";
  fld __u32 "sk_txhash";
  bits u8 "sk_padding" 1;
  bits u8 "sk_kern_sock" 1;
  bits u8 "sk_no_check_tx" 1;
  bits u8 "sk_no_check_rx" 1;
  bits u8 "sk_userlocks" 4;
  fld u8 "sk_pacing_shift";
  fld u16 "sk_type";
  fld u16 "sk_protocol";
  fld u16 "sk_gso_max_segs";
  fld c_ulong "sk_lingertime";
  fld (ptr "struct proto") "sk_prot_creator";
  fld rwlock_t "sk_callback_lock";
  fld c_int "sk_err";
  fld c_int "sk_err_soft";
  fld u32 "sk_ack_backlog";
  fld u32 "sk_max_ack_backlog";
  fld kuid_t "sk_uid";
  fld spinlock_t "sk_peer_lock";
  fld (ptr "struct pid") "sk_peer_pid";
  fld (ptr "const struct cred") "sk_peer_cred";
  fld c_long "sk_rcvtimeo";
  fld ktime_t "sk_stamp";
  fld u16 "sk_tsflags";
  fld u8 "sk_shutdown";
  fld u32 "sk_tskey";
  fld atomic_t "sk_zckey";
  fld u8 "sk_clockid";
  bits u8 "sk_txtime_deadline_mode" 1;
  bits u8 "sk_txtime_report_errors" 1;
  bits u8 "sk_txtime_unused" 6;
  fld (ptr "struct socket") "sk_socket";
  fld (ptr "void") "sk_user_data";
  fld (ptr "void") "sk_security";
  fld struct_sock_cgroup_data "sk_cgrp_data";
  fld (ptr "struct mem_cgroup") "sk_memcg";
  fld (fptr "void" "struct sock *") "sk_state_change";
  fld (fptr "void" "struct sock *") "sk_data_ready";
  fld (fptr "void" "struct sock *") "sk_write_space";
  fld (fptr "void" "struct sock *") "sk_error_report";
  fld (fptr "int" "struct sock *, struct sk_buff *") "sk_backlog_rcv";
  fld (fptr "void" "struct sock *") "sk_destruct";
  fld (ptr "struct sock_reuseport") "sk_reuseport_cb";
  fld (ptr "struct bpf_local_storage") "sk_bpf_storage";
  fld struct_callback_head "sk_rcu"].

Definition struct_inet_cork := struct "inet_cork" [
  fld c_uint "flags";
  fld __be32 "addr";
  fld (ptr "struct ip_options") "opt";
  fld c_uint "fragsize";
  fld c_int "length";
  fld (ptr "struct dst_entry") "dst";
  fld u8 "tx_flags";
  fld __u8 "ttl";
  fld __s16 "tos";
  fld c_char "priority";
  fld __u16 "gso_size";
  fld u64 "transmit_time";
  fld u32 "mark"].

Definition __be64 := __u64.

Definition struct_flowi_tunnel := struct "flowi_tunnel" [
  fld __be64 "tun_id"].

Definition struct_flowi_common := struct "flowi_common" [
  fld c_int "flowic_oif";
  fld c_int "flowic_iif";
  fld c_int "flowic_l3mdev";
  fld __u32 "flowic_mark";
  fld __u8 "flowic_tos";
  fld __u8 "flowic_scope";
  fld __u8 "flowic_proto";
  fld __u8 "flowic_flags";
  fld __u32 "flowic_secid";
  fld kuid_t "flowic_uid";
  fld __u32 "flowic_multipath_hash";
  fld struct_flowi_tunnel "flowic_tun_key"].

Definition union_flowi_uli := union "flowi_uli" [
  fld (struct no_tag [
    fld __be16 "dport";
    fld __be16 "sport"]) "ports";
  fld (struct no_tag [
    fld __u8 "type";
    fld __u8 "code"]) "icmpt";
  fld __be32 "spi";
  fld __be32 "gre_key";
  fld (struct no_tag [
    fld __u8 "type"]) "mht"].

Definition struct_flowi4 := struct "flowi4" [
  fld struct_flowi_common "__fl_common";
  fld __be32 "saddr";
  fld __be32 "daddr";
  fld union_flowi_uli "uli"].

Definition struct_flowi6 := struct "flowi6" [
  fld struct_flowi_common "__fl_common";
  fld struct_in6_addr "daddr";
  fld struct_in6_addr "saddr";
  fld __be32 "flowlabel";
  fld union_flowi_uli "uli";
  fld __u32 "mp_hash"].

Definition struct_flowi := struct "flowi" [
  fld (union no_tag [
    fld struct_flowi_common "__fl_common";
    fld struct_flowi4 "ip4";
    fld struct_flowi6 "ip6"]) "u"].

Definition struct_inet_cork_full := struct "inet_cork_full" [
  fld struct_inet_cork "base";
  fld struct_flowi "fl"].

Definition struct_inet_sock := struct "inet_sock" [
  fld struct_sock "sk";
  fld (ptr "struct ipv6_pinfo") "pinet6";
  fld __be32 "inet_saddr";
  fld __s16 "uc_ttl";
  fld __u16 "cmsg_flags";
  fld __be16 "inet_sport";
  fld __u16 "inet_id";
  fld (ptr "struct ip_options_rcu") "inet_opt";
  fld c_int "rx_dst_ifindex";
  fld __u8 "tos";
  fld __u8 "min_ttl";
  fld __u8 "mc_ttl";
  fld __u8 "pmtudisc";
  bits __u8 "recverr" 1;
  bits __u8 "is_icsk" 1;
  bits __u8 "freebind" 1;
  bits __u8 "hdrincl" 1;
  bits __u8 "mc_loop" 1;
  bits __u8 "transparent" 1;
  bits __u8 "mc_all" 1;
  bits __u8 "nodefrag" 1;
  bits __u8 "bind_address_no_port" 1;
  bits __u8 "recverr_rfc4884" 1;
  bits __u8 "defer_connect" 1;
  fld __u8 "rcv_tos";
  fld __u8 "convert_csum";
  fld c_int "uc_index";
  fld c_int "mc_index";
  fld __be32 "mc_addr";
  fld (ptr "struct ip_mc_socklist") "mc_list";
  fld struct_inet_cork_full "cork"].

Definition struct_xarray := struct "xarray" [
  fld spinlock_t "xa_lock";
  fld gfp_t "xa_flags";
  fld (ptr "void") "xa_head"].

Definition time64_t := __s64.

(** The declarations of the file. *)
Definition declarations : list ctype := [
  __u16; __be16; __u8; __u32; __be32; struct_in6_addr; __u64; struct_rb_node;
  struct_list_head; __s64; s64; ktime_t; u64; atomic_t; struct_refcount_struct; refcount_t;
  u32; u16; enum_bpf_map_type; enum_bpf_prog_type; enum_bpf_attach_type; enum_bpf_link_type;
  __s16; __s32; struct_bpf_insn; struct_bpf_map_memory; bool_; atomic64_t; atomic_long_t;
  work_func_t; struct_work_struct; struct_callback_head; u8; struct_qspinlock;
  arch_spinlock_t; struct_raw_spinlock; struct_spinlock; spinlock_t;
  struct_optimistic_spin_queue; struct_mutex; struct_bpf_map; raw_spinlock_t;
  struct_hlist_nulls_node; struct_hlist_node; __kernel_ulong_t; __kernel_size_t; size_t;
  enum_bpf_reg_type; struct_btf_func_model; struct_hlist_head; struct_nlmsghdr;
  netdev_features_t; struct_timer_list; possible_net_t; struct_kref; struct_kobject;
  struct_timerqueue_node; struct_hrtimer; struct_wait_queue_head; wait_queue_head_t;
  __kernel_dev_t; dev_t; s16; struct_sk_buff_head; struct_seqcount; seqcount_t;
  struct_netlink_callback; struct_rw_semaphore; struct_llist_node; struct___call_single_node;
  u_int8_t; struct_percpu_counter; struct_dst_ops; struct_qrwlock; arch_rwlock_t; rwlock_t;
  struct_seqcount_spinlock; seqcount_spinlock_t; seqlock_t; struct_delayed_work;
  struct_fib_nh_common; struct_local_ports; struct_inet_timewait_death_row; __kernel_gid32_t;
  gid_t; kgid_t; struct_ping_group_range; siphash_key_t; struct_netns_ipv4; __addrpair;
  __portpair; struct_sock_common; socket_lock_t; struct_rb_root; struct_page_frag; gfp_t;
  __kernel_uid32_t; uid_t; kuid_t; struct_sock_cgroup_data; struct_sock; struct_inet_cork;
  __be64; struct_flowi_tunnel; struct_flowi_common; union_flowi_uli; struct_flowi4;
  struct_flowi6; struct_flowi; struct_inet_cork_full; struct_inet_sock; struct_xarray;
  time64_t].
