(* ===== verification/VmPacket.v ===== *)
(** * Packet headers and the socket-buffer context

    Declarations of headers/vmlinux.h, one definition per declaration and one
    line per member, in the order of use: the packet headers the programs
    parse, the [__sk_buff] context they are given, and the kernel structures
    behind it. *)

From stdpp Require Import strings.
From S2P Require Import CLayout VmBase.

#[local] Open Scope string_scope.

Definition struct_ethhdr := struct "ethhdr" [
  fld (arr c_uchar 6) "h_dest";
  fld (arr c_uchar 6) "h_source";
  fld __be16 "h_proto"].

Definition struct_vlan_ethhdr := struct "vlan_ethhdr" [
  fld (arr c_uchar 6) "h_dest";
  fld (arr c_uchar 6) "h_source";
  fld __be16 "h_vlan_proto";
  fld __be16 "h_vlan_TCI";
  fld __be16 "h_vlan_encapsulated_proto"].

Definition __sum16 := __u16.

Definition struct_iphdr := struct "iphdr" [
  bits __u8 "ihl" 4;
  bits __u8 "version" 4;
  fld __u8 "tos";
  fld __be16 "tot_len";
  fld __be16 "id";
  fld __be16 "frag_off";
  fld __u8 "ttl";
  fld __u8 "protocol";
  fld __sum16 "check";
  anon (union no_tag [
    anon (struct no_tag [
      fld __be32 "saddr";
      fld __be32 "daddr"]);
    fld (struct no_tag [
      fld __be32 "saddr";
      fld __be32 "daddr"]) "addrs"])].

Definition struct_udphdr := struct "udphdr" [
  fld __be16 "source";
  fld __be16 "dest";
  fld __be16 "len";
  fld __sum16 "check"].

Definition struct_tcphdr := struct "tcphdr" [
  fld __be16 "source";
  fld __be16 "dest";
  fld __be32 "seq";
  fld __be32 "ack_seq";
  bits __u16 "res1" 4;
  bits __u16 "doff" 4;
  bits __u16 "fin" 1;
  bits __u16 "syn" 1;
  bits __u16 "rst" 1;
  bits __u16 "psh" 1;
  bits __u16 "ack" 1;
  bits __u16 "urg" 1;
  bits __u16 "ece" 1;
  bits __u16 "cwr" 1;
  fld __be16 "window";
  fld __sum16 "check";
  fld __be16 "urg_ptr"].

Definition struct_ipv6hdr := struct "ipv6hdr" [
  bits __u8 "priority" 4;
  bits __u8 "version" 4;
  fld (arr __u8 3) "flow_lbl";
  fld __be16 "payload_len";
  fld __u8 "nexthdr";
  fld __u8 "hop_limit";
  anon (union no_tag [
    anon (struct no_tag [
      fld struct_in6_addr "saddr";
      fld struct_in6_addr "daddr"]);
    fld (struct no_tag [
      fld struct_in6_addr "saddr";
      fld struct_in6_addr "daddr"]) "addrs"])].

Definition struct_icmphdr := struct "icmphdr" [
  fld __u8 "type";
  fld __u8 "code";
  fld __sum16 "checksum";
  fld (union no_tag [
    fld (struct no_tag [
      fld __be16 "id";
      fld __be16 "sequence"]) "echo";
    fld __be32 "gateway";
    fld (struct no_tag [
      fld __be16 "__unused";
      fld __be16 "mtu"]) "frag";
    fld (arr __u8 4) "reserved"]) "un"].

Definition struct___sk_buff := struct "__sk_buff" [
  fld __u32 "len";
  fld __u32 "pkt_type";
  fld __u32 "mark";
  fld __u32 "queue_mapping";
  fld __u32 "protocol";
  fld __u32 "vlan_present";
  fld __u32 "vlan_tci";
  fld __u32 "vlan_proto";
  fld __u32 "priority";
  fld __u32 "ingress_ifindex";
  fld __u32 "ifindex";
  fld __u32 "tc_index";
  fld (arr __u32 5) "cb";
  fld __u32 "hash";
  fld __u32 "tc_classid";
  fld __u32 "data";
  fld __u32 "data_end";
  fld __u32 "napi_id";
  fld __u32 "family";
  fld __u32 "remote_ip4";
  fld __u32 "local_ip4";
  fld (arr __u32 4) "remote_ip6";
  fld (arr __u32 4) "local_ip6";
  fld __u32 "remote_port";
  fld __u32 "local_port";
  fld __u32 "data_meta";
  anon (union no_tag [
    fld (ptr "struct bpf_flow_keys") "flow_keys"]);
  fld __u64 "tstamp";
  fld __u32 "wire_len";
  fld __u32 "gso_segs";
  anon (union no_tag [
    fld (ptr "struct bpf_sock") "sk"]);
  fld __u32 "gso_size"].

Definition __wsum := __u32.

Definition sk_buff_data_t := c_uint.

Definition struct_sk_buff := struct "sk_buff" [
  anon (union no_tag [
    anon (struct no_tag [
      fld (ptr "struct sk_buff") "next";
      fld (ptr "struct sk_buff") "prev";
      anon (union no_tag [
        fld (ptr "struct net_device") "dev";
        fld c_ulong "dev_scratch"])]);
    fld struct_rb_node "rbnode";
    fld struct_list_head "list"]);
  fld (ptr "struct sock") "sk";
  anon (union no_tag [
    fld ktime_t "tstamp";
    fld u64 "skb_mstamp_ns"]);
  fld (arr c_char 48) "cb";
  anon (union no_tag [
    anon (struct no_tag [
      fld c_ulong "_skb_refdst";
      fld (fptr "void" "struct sk_buff *") "destructor"]);
    fld struct_list_head "tcp_tsorted_anchor"]);
  fld c_ulong "_nfct";
  fld c_uint "len";
  fld c_uint "data_len";
  fld __u16 "mac_len";
  fld __u16 "hdr_len";
  fld __u16 "queue_mapping";
  fld (arr __u8 0) "__cloned_offset";
  bits __u8 "cloned" 1;
  bits __u8 "nohdr" 1;
  bits __u8 "fclone" 2;
  bits __u8 "peeked" 1;
  bits __u8 "head_frag" 1;
  bits __u8 "pfmemalloc" 1;
  fld __u8 "active_extensions";
  fld (arr __u32 0) "headers_start";
  fld (arr __u8 0) "__pkt_type_offset";
  bits __u8 "pkt_type" 3;
  bits __u8 "ignore_df" 1;
  bits __u8 "nf_trace" 1;
  bits __u8 "ip_summed" 2;
  bits __u8 "ooo_okay" 1;
  bits __u8 "l4_hash" 1;
  bits __u8 "sw_hash" 1;
  bits __u8 "wifi_acked_valid" 1;
  bits __u8 "wifi_acked" 1;
  bits __u8 "no_fcs" 1;
  bits __u8 "encapsulation" 1;
  bits __u8 "encap_hdr_csum" 1;
  bits __u8 "csum_valid" 1;
  fld (arr __u8 0) "__pkt_vlan_present_offset";
  bits __u8 "vlan_present" 1;
  bits __u8 "csum_complete_sw" 1;
  bits __u8 "csum_level" 2;
  bits __u8 "csum_not_inet" 1;
  bits __u8 "dst_pending_confirm" 1;
  bits __u8 "ndisc_nodetype" 2;
  bits __u8 "ipvs_property" 1;
  bits __u8 "inner_protocol_type" 1;
  bits __u8 "remcsum_offload" 1;
  bits __u8 "tc_skip_classify" 1;
  bits __u8 "tc_at_ingress" 1;
  bits __u8 "redirected" 1;
  bits __u8 "from_ingress" 1;
  bits __u8 "scm_io_uring" 1;
  fld __u16 "tc_index";
  anon (union no_tag [
    fld __wsum "csum";
    anon (struct no_tag [
      fld __u16 "csum_start";
      fld __u16 "csum_offset"])]);
  fld __u32 "priority";
  fld c_int "skb_iif";
  fld __u32 "hash";
  fld __be16 "vlan_proto";
  fld __u16 "vlan_tci";
  anon (union no_tag [
    fld c_uint "napi_id";
    fld c_uint "sender_cpu"]);
  fld __u32 "secmark";
  anon (union no_tag [
    fld __u32 "mark";
    fld __u32 "reserved_tailroom"]);
  anon (union no_tag [
    fld __be16 "inner_protocol";
    fld __u8 "inner_ipproto"]);
  fld __u16 "inner_transport_header";
  fld __u16 "inner_network_header";
  fld __u16 "inner_mac_header";
  fld __be16 "protocol";
  fld __u16 "transport_header";
  fld __u16 "network_header";
  fld __u16 "mac_header";
  fld (arr __u32 0) "headers_end";
  fld sk_buff_data_t "tail";
  fld sk_buff_data_t "end";
  fld (ptr "unsigned char") "head";
  fld (ptr "unsigned char") "data";
  fld c_uint "truesize";
  fld refcount_t "users";
  fld (ptr "struct skb_ext") "extensions"].

Definition struct_skb_shared_hwtstamps := struct "skb_shared_hwtstamps" [
  fld ktime_t "hwtstamp"].

Definition struct_bio_vec := struct "bio_vec" [
  fld (ptr "struct page") "bv_page";
  fld c_uint "bv_len";
  fld c_uint "bv_offset"].

Definition skb_frag_t := struct_bio_vec.

Definition struct_skb_shared_info := struct "skb_shared_info" [
  fld __u8 "__unused";
  fld __u8 "meta_len";
  fld __u8 "nr_frags";
  fld __u8 "tx_flags";
  fld c_ushort "gso_size";
  fld c_ushort "gso_segs";
  fld (ptr "struct sk_buff") "frag_list";
  fld struct_skb_shared_hwtstamps "hwtstamps";
  fld c_uint "gso_type";
  fld u32 "tskey";
  fld atomic_t "dataref";
  fld (ptr "void") "destructor_arg";
  fld (arr skb_frag_t 17) "frags"].

Definition struct_qdisc_skb_cb := struct "qdisc_skb_cb" [
  anon (struct no_tag [
    fld c_uint "pkt_len";
    fld u16 "slave_dev_queue_mapping";
    fld u16 "tc_classid"]);
  fld (arr c_uchar 20) "data";
  fld u16 "mru"].

Definition struct_bpf_skb_data_end := struct "bpf_skb_data_end" [
  fld struct_qdisc_skb_cb "qdisc_cb";
  fld (ptr "void") "data_meta";
  fld (ptr "void") "data_end"].

Definition struct_bpf_flow_keys := struct "bpf_flow_keys" [
  fld __u16 "nhoff";
  fld __u16 "thoff";
  fld __u16 "addr_proto";
  fld __u8 "is_frag";
  fld __u8 "is_first_frag";
  fld __u8 "is_encap";
  fld __u8 "ip_proto";
  fld __be16 "n_proto";
  fld __be16 "sport";
  fld __be16 "dport";
  anon (union no_tag [
    anon (struct no_tag [
      fld __be32 "ipv4_src";
      fld __be32 "ipv4_dst"]);
    anon (struct no_tag [
      fld (arr __u32 4) "ipv6_src";
      fld (arr __u32 4) "ipv6_dst"])]);
  fld __u32 "flags";
  fld __be32 "flow_label"].

Definition struct_bpf_nh_params := struct "bpf_nh_params" [
  fld u32 "nh_family";
  anon (union no_tag [
    fld u32 "ipv4_nh";
    fld struct_in6_addr "ipv6_nh"])].

Definition struct_bpf_redirect_info := struct "bpf_redirect_info" [
  fld u32 "flags";
  fld u32 "tgt_index";
  fld (ptr "void") "tgt_value";
  fld (ptr "struct bpf_map") "map";
  fld u32 "kern_flags";
  fld struct_bpf_nh_params "nh"].

(** The declarations of the file. *)
Definition declarations : list ctype := [
  struct_ethhdr; struct_vlan_ethhdr; __sum16; struct_iphdr; struct_udphdr; struct_tcphdr;
  struct_ipv6hdr; struct_icmphdr; struct___sk_buff; __wsum; sk_buff_data_t; struct_sk_buff;
  struct_skb_shared_hwtstamps; struct_bio_vec; skb_frag_t; struct_skb_shared_info;
  struct_qdisc_skb_cb; struct_bpf_skb_data_end; struct_bpf_flow_keys; struct_bpf_nh_params;
  struct_bpf_redirect_info].
