(* ===== verification/VmBpfUapi.v ===== *)
(** * The bpf system call

    Declarations of headers/vmlinux.h, one definition per declaration and one
    line per member, in the order of use: the map and program types, helper
    numbers, attach points, flags and the argument union of bpf(2), and the
    information structures it returns. *)

From stdpp Require Import strings.
From S2P Require Import CLayout VmBase.

#[local] Open Scope string_scope.

Definition enum_bpf_func_id := enum "bpf_func_id" [
  ev "BPF_FUNC_unspec" 0;
  ev "BPF_FUNC_map_lookup_elem" 1;
  ev "BPF_FUNC_map_update_elem" 2;
  ev "BPF_FUNC_map_delete_elem" 3;
  ev "BPF_FUNC_probe_read" 4;
  ev "BPF_FUNC_ktime_get_ns" 5;
  ev "BPF_FUNC_trace_printk" 6;
  ev "BPF_FUNC_get_prandom_u32" 7;
  ev "BPF_FUNC_get_smp_processor_id" 8;
  ev "BPF_FUNC_skb_store_bytes" 9;
  ev "BPF_FUNC_l3_csum_replace" 10;
  ev "BPF_FUNC_l4_csum_replace" 11;
  ev "BPF_FUNC_tail_call" 12;
  ev "BPF_FUNC_clone_redirect" 13;
  ev "BPF_FUNC_get_current_pid_tgid" 14;
  ev "BPF_FUNC_get_current_uid_gid" 15;
  ev "BPF_FUNC_get_current_comm" 16;
  ev "BPF_FUNC_get_cgroup_classid" 17;
  ev "BPF_FUNC_skb_vlan_push" 18;
  ev "BPF_FUNC_skb_vlan_pop" 19;
  ev "BPF_FUNC_skb_get_tunnel_key" 20;
  ev "BPF_FUNC_skb_set_tunnel_key" 21;
  ev "BPF_FUNC_perf_event_read" 22;
  ev "BPF_FUNC_redirect" 23;
  ev "BPF_FUNC_get_route_realm" 24;
  ev "BPF_FUNC_perf_event_output" 25;
  ev "BPF_FUNC_skb_load_bytes" 26;
  ev "BPF_FUNC_get_stackid" 27;
  ev "BPF_FUNC_csum_diff" 28;
  ev "BPF_FUNC_skb_get_tunnel_opt" 29;
  ev "BPF_FUNC_skb_set_tunnel_opt" 30;
  ev "BPF_FUNC_skb_change_proto" 31;
  ev "BPF_FUNC_skb_change_type" 32;
  ev "BPF_FUNC_skb_under_cgroup" 33;
  ev "BPF_FUNC_get_hash_recalc" 34;
  ev "BPF_FUNC_get_current_task" 35;
  ev "BPF_FUNC_probe_write_user" 36;
  ev "BPF_FUNC_current_task_under_cgroup" 37;
  ev "BPF_FUNC_skb_change_tail" 38;
  ev "BPF_FUNC_skb_pull_data" 39;
  ev "BPF_FUNC_csum_update" 40;
  ev "BPF_FUNC_set_hash_invalid" 41;
  ev "BPF_FUNC_get_numa_node_id" 42;
  ev "BPF_FUNC_skb_change_head" 43;
  ev "BPF_FUNC_xdp_adjust_head" 44;
  ev "BPF_FUNC_probe_read_str" 45;
  ev "BPF_FUNC_get_socket_cookie" 46;
  ev "BPF_FUNC_get_socket_uid" 47;
  ev "BPF_FUNC_set_hash" 48;
  ev "BPF_FUNC_setsockopt" 49;
  ev "BPF_FUNC_skb_adjust_room" 50;
  ev "BPF_FUNC_redirect_map" 51;
  ev "BPF_FUNC_sk_redirect_map" 52;
  ev "BPF_FUNC_sock_map_update" 53;
  ev "BPF_FUNC_xdp_adjust_meta" 54;
  ev "BPF_FUNC_perf_event_read_value" 55;
  ev "BPF_FUNC_perf_prog_read_value" 56;
  ev "BPF_FUNC_getsockopt" 57;
  ev "BPF_FUNC_override_return" 58;
  ev "BPF_FUNC_sock_ops_cb_flags_set" 59;
  ev "BPF_FUNC_msg_redirect_map" 60;
  ev "BPF_FUNC_msg_apply_bytes" 61;
  ev "BPF_FUNC_msg_cork_bytes" 62;
  ev "BPF_FUNC_msg_pull_data" 63;
  ev "BPF_FUNC_bind" 64;
  ev "BPF_FUNC_xdp_adjust_tail" 65;
  ev "BPF_FUNC_skb_get_xfrm_state" 66;
  ev "BPF_FUNC_get_stack" 67;
  ev "BPF_FUNC_skb_load_bytes_relative" 68;
  ev "BPF_FUNC_fib_lookup" 69;
  ev "BPF_FUNC_sock_hash_update" 70;
  ev "BPF_FUNC_msg_redirect_hash" 71;
  ev "BPF_FUNC_sk_redirect_hash" 72;
  ev "BPF_FUNC_lwt_push_encap" 73;
  ev "BPF_FUNC_lwt_seg6_store_bytes" 74;
  ev "BPF_FUNC_lwt_seg6_adjust_srh" 75;
  ev "BPF_FUNC_lwt_seg6_action" 76;
  ev "BPF_FUNC_rc_repeat" 77;
  ev "BPF_FUNC_rc_keydown" 78;
  ev "BPF_FUNC_skb_cgroup_id" 79;
  ev "BPF_FUNC_get_current_cgroup_id" 80;
  ev "BPF_FUNC_get_local_storage" 81;
  ev "BPF_FUNC_sk_select_reuseport" 82;
  ev "BPF_FUNC_skb_ancestor_cgroup_id" 83;
  ev "BPF_FUNC_sk_lookup_tcp" 84;
  ev "BPF_FUNC_sk_lookup_udp" 85;
  ev "BPF_FUNC_sk_release" 86;
  ev "BPF_FUNC_map_push_elem" 87;
  ev "BPF_FUNC_map_pop_elem" 88;
  ev "BPF_FUNC_map_peek_elem" 89;
  ev "BPF_FUNC_msg_push_data" 90;
  ev "BPF_FUNC_msg_pop_data" 91;
  ev "BPF_FUNC_rc_pointer_rel" 92;
  ev "BPF_FUNC_spin_lock" 93;
  ev "BPF_FUNC_spin_unlock" 94;
  ev "BPF_FUNC_sk_fullsock" 95;
  ev "BPF_FUNC_tcp_sock" 96;
  ev "BPF_FUNC_skb_ecn_set_ce" 97;
  ev "BPF_FUNC_get_listener_sock" 98;
  ev "BPF_FUNC_skc_lookup_tcp" 99;
  ev "BPF_FUNC_tcp_check_syncookie" 100;
  ev "BPF_FUNC_sysctl_get_name" 101;
  ev "BPF_FUNC_sysctl_get_current_value" 102;
  ev "BPF_FUNC_sysctl_get_new_value" 103;
  ev "BPF_FUNC_sysctl_set_new_value" 104;
  ev "BPF_FUNC_strtol" 105;
  ev "BPF_FUNC_strtoul" 106;
  ev "BPF_FUNC_sk_storage_get" 107;
  ev "BPF_FUNC_sk_storage_delete" 108;
  ev "BPF_FUNC_send_signal" 109;
  ev "BPF_FUNC_tcp_gen_syncookie" 110;
  ev "BPF_FUNC_skb_output" 111;
  ev "BPF_FUNC_probe_read_user" 112;
  ev "BPF_FUNC_probe_read_kernel" 113;
  ev "BPF_FUNC_probe_read_user_str" 114;
  ev "BPF_FUNC_probe_read_kernel_str" 115;
  ev "BPF_FUNC_tcp_send_ack" 116;
  ev "BPF_FUNC_send_signal_thread" 117;
  ev "BPF_FUNC_jiffies64" 118;
  ev "BPF_FUNC_read_branch_records" 119;
  ev "BPF_FUNC_get_ns_current_pid_tgid" 120;
  ev "BPF_FUNC_xdp_output" 121;
  ev "BPF_FUNC_get_netns_cookie" 122;
  ev "BPF_FUNC_get_current_ancestor_cgroup_id" 123;
  ev "BPF_FUNC_sk_assign" 124;
  ev "BPF_FUNC_ktime_get_boot_ns" 125;
  ev "BPF_FUNC_seq_printf" 126;
  ev "BPF_FUNC_seq_write" 127;
  ev "BPF_FUNC_sk_cgroup_id" 128;
  ev "BPF_FUNC_sk_ancestor_cgroup_id" 129;
  ev "BPF_FUNC_ringbuf_output" 130;
  ev "BPF_FUNC_ringbuf_reserve" 131;
  ev "BPF_FUNC_ringbuf_submit" 132;
  ev "BPF_FUNC_ringbuf_discard" 133;
  ev "BPF_FUNC_ringbuf_query" 134;
  ev "BPF_FUNC_csum_level" 135;
  ev "BPF_FUNC_skc_to_tcp6_sock" 136;
  ev "BPF_FUNC_skc_to_tcp_sock" 137;
  ev "BPF_FUNC_skc_to_tcp_timewait_sock" 138;
  ev "BPF_FUNC_skc_to_tcp_request_sock" 139;
  ev "BPF_FUNC_skc_to_udp6_sock" 140;
  ev "BPF_FUNC_get_task_stack" 141;
  ev "BPF_FUNC_load_hdr_opt" 142;
  ev "BPF_FUNC_store_hdr_opt" 143;
  ev "BPF_FUNC_reserve_hdr_opt" 144;
  ev "BPF_FUNC_inode_storage_get" 145;
  ev "BPF_FUNC_inode_storage_delete" 146;
  ev "BPF_FUNC_d_path" 147;
  ev "BPF_FUNC_copy_from_user" 148;
  ev "BPF_FUNC_snprintf_btf" 149;
  ev "BPF_FUNC_seq_printf_btf" 150;
  ev "BPF_FUNC_skb_cgroup_classid" 151;
  ev "BPF_FUNC_redirect_neigh" 152;
  ev "BPF_FUNC_per_cpu_ptr" 153;
  ev "BPF_FUNC_this_cpu_ptr" 154;
  ev "BPF_FUNC_redirect_peer" 155;
  ev "BPF_FUNC_task_storage_get" 156;
  ev "BPF_FUNC_task_storage_delete" 157;
  ev "BPF_FUNC_get_current_task_btf" 158;
  ev "__BPF_FUNC_MAX_ID" 159].

Definition enum_bpf_cmd := enum "bpf_cmd" [
  ev "BPF_MAP_CREATE" 0;
  ev "BPF_MAP_LOOKUP_ELEM" 1;
  ev "BPF_MAP_UPDATE_ELEM" 2;
  ev "BPF_MAP_DELETE_ELEM" 3;
  ev "BPF_MAP_GET_NEXT_KEY" 4;
  ev "BPF_PROG_LOAD" 5;
  ev "BPF_OBJ_PIN" 6;
  ev "BPF_OBJ_GET" 7;
  ev "BPF_PROG_ATTACH" 8;
  ev "BPF_PROG_DETACH" 9;
  ev "BPF_PROG_TEST_RUN" 10;
  ev "BPF_PROG_GET_NEXT_ID" 11;
  ev "BPF_MAP_GET_NEXT_ID" 12;
  ev "BPF_PROG_GET_FD_BY_ID" 13;
  ev "BPF_MAP_GET_FD_BY_ID" 14;
  ev "BPF_OBJ_GET_INFO_BY_FD" 15;
  ev "BPF_PROG_QUERY" 16;
  ev "BPF_RAW_TRACEPOINT_OPEN" 17;
  ev "BPF_BTF_LOAD" 18;
  ev "BPF_BTF_GET_FD_BY_ID" 19;
  ev "BPF_TASK_FD_QUERY" 20;
  ev "BPF_MAP_LOOKUP_AND_DELETE_ELEM" 21;
  ev "BPF_MAP_FREEZE" 22;
  ev "BPF_BTF_GET_NEXT_ID" 23;
  ev "BPF_MAP_LOOKUP_BATCH" 24;
  ev "BPF_MAP_LOOKUP_AND_DELETE_BATCH" 25;
  ev "BPF_MAP_UPDATE_BATCH" 26;
  ev "BPF_MAP_DELETE_BATCH" 27;
  ev "BPF_LINK_CREATE" 28;
  ev "BPF_LINK_UPDATE" 29;
  ev "BPF_LINK_GET_FD_BY_ID" 30;
  ev "BPF_LINK_GET_NEXT_ID" 31;
  ev "BPF_ENABLE_STATS" 32;
  ev "BPF_ITER_CREATE" 33;
  ev "BPF_LINK_DETACH" 34;
  ev "BPF_PROG_BIND_MAP" 35].

Definition enum_bpf_ret_code := enum "bpf_ret_code" [
  ev "BPF_OK" 0;
  ev "BPF_DROP" 2;
  ev "BPF_REDIRECT" 7;
  ev "BPF_LWT_REROUTE" 128].

Definition enum_BPF_ANY := enum no_tag [
  ev "BPF_ANY" 0;
  ev "BPF_NOEXIST" 1;
  ev "BPF_EXIST" 2;
  ev "BPF_F_LOCK" 4].

Definition enum_BPF_F_NO_PREALLOC := enum no_tag [
  ev "BPF_F_NO_PREALLOC" 1;
  ev "BPF_F_NO_COMMON_LRU" 2;
  ev "BPF_F_NUMA_NODE" 4;
  ev "BPF_F_RDONLY" 8;
  ev "BPF_F_WRONLY" 16;
  ev "BPF_F_STACK_BUILD_ID" 32;
  ev "BPF_F_ZERO_SEED" 64;
  ev "BPF_F_RDONLY_PROG" 128;
  ev "BPF_F_WRONLY_PROG" 256;
  ev "BPF_F_CLONE" 512;
  ev "BPF_F_MMAPABLE" 1024;
  ev "BPF_F_PRESERVE_ELEMS" 2048;
  ev "BPF_F_INNER_MAP" 4096].

Definition enum_BPF_F_RECOMPUTE_CSUM := enum no_tag [
  ev "BPF_F_RECOMPUTE_CSUM" 1;
  ev "BPF_F_INVALIDATE_HASH" 2].

Definition enum_BPF_F_HDR_FIELD_MASK := enum no_tag [
  ev "BPF_F_HDR_FIELD_MASK" 15].

Definition enum_BPF_F_PSEUDO_HDR := enum no_tag [
  ev "BPF_F_PSEUDO_HDR" 16;
  ev "BPF_F_MARK_MANGLED_0" 32;
  ev "BPF_F_MARK_ENFORCE" 64;
  ev "BPF_F_IPV6" 128].

Definition enum_BPF_F_INGRESS := enum no_tag [
  ev "BPF_F_INGRESS" 1].

Definition enum_BPF_F_TUNINFO_IPV6 := enum no_tag [
  ev "BPF_F_TUNINFO_IPV6" 1].

Definition enum_BPF_F_ZERO_CSUM_TX := enum no_tag [
  ev "BPF_F_ZERO_CSUM_TX" 2;
  ev "BPF_F_DONT_FRAGMENT" 4;
  ev "BPF_F_SEQ_NUMBER" 8].

Definition enum_BPF_CSUM_LEVEL_QUERY := enum no_tag [
  ev "BPF_CSUM_LEVEL_QUERY" 0;
  ev "BPF_CSUM_LEVEL_INC" 1;
  ev "BPF_CSUM_LEVEL_DEC" 2;
  ev "BPF_CSUM_LEVEL_RESET" 3].

Definition enum_BPF_F_ADJ_ROOM_FIXED_GSO := enum no_tag [
  ev "BPF_F_ADJ_ROOM_FIXED_GSO" 1;
  ev "BPF_F_ADJ_ROOM_ENCAP_L3_IPV4" 2;
  ev "BPF_F_ADJ_ROOM_ENCAP_L3_IPV6" 4;
  ev "BPF_F_ADJ_ROOM_ENCAP_L4_GRE" 8;
  ev "BPF_F_ADJ_ROOM_ENCAP_L4_UDP" 16;
  ev "BPF_F_ADJ_ROOM_NO_CSUM_RESET" 32].

Definition enum_BPF_ADJ_ROOM_ENCAP_L2_MASK := enum no_tag [
  ev "BPF_ADJ_ROOM_ENCAP_L2_MASK" 255;
  ev "BPF_ADJ_ROOM_ENCAP_L2_SHIFT" 56].

Definition enum_BPF_SK_LOOKUP_F_REPLACE := enum no_tag [
  ev "BPF_SK_LOOKUP_F_REPLACE" 1;
  ev "BPF_SK_LOOKUP_F_NO_REUSEPORT" 2].

Definition union_bpf_attr := union "bpf_attr" [
  anon (struct no_tag [
    fld __u32 "map_type";
    fld __u32 "key_size";
    fld __u32 "value_size";
    fld __u32 "max_entries";
    fld __u32 "map_flags";
    fld __u32 "inner_map_fd";
    fld __u32 "numa_node";
    fld (arr c_char 16) "map_name";
    fld __u32 "map_ifindex";
    fld __u32 "btf_fd";
    fld __u32 "btf_key_type_id";
    fld __u32 "btf_value_type_id";
    fld __u32 "btf_vmlinux_value_type_id"]);
  anon (struct no_tag [
    fld __u32 "map_fd";
    fld __u64 "key";
    anon (union no_tag [
      fld __u64 "value";
      fld __u64 "next_key"]);
    fld __u64 "flags"]);
  fld (struct no_tag [
    fld __u64 "in_batch";
    fld __u64 "out_batch";
    fld __u64 "keys";
    fld __u64 "values";
    fld __u32 "count";
    fld __u32 "map_fd";
    fld __u64 "elem_flags";
    fld __u64 "flags"]) "batch";
  anon (struct no_tag [
    fld __u32 "prog_type";
    fld __u32 "insn_cnt";
    fld __u64 "insns";
    fld __u64 "license";
    fld __u32 "log_level";
    fld __u32 "log_size";
    fld __u64 "log_buf";
    fld __u32 "kern_version";
    fld __u32 "prog_flags";
    fld (arr c_char 16) "prog_name";
    fld __u32 "prog_ifindex";
    fld __u32 "expected_attach_type";
    fld __u32 "prog_btf_fd";
    fld __u32 "func_info_rec_size";
    fld __u64 "func_info";
    fld __u32 "func_info_cnt";
    fld __u32 "line_info_rec_size";
    fld __u64 "line_info";
    fld __u32 "line_info_cnt";
    fld __u32 "attach_btf_id";
    fld __u32 "attach_prog_fd"]);
  anon (struct no_tag [
    fld __u64 "pathname";
    fld __u32 "bpf_fd";
    fld __u32 "file_flags"]);
  anon (struct no_tag [
    fld __u32 "target_fd";
    fld __u32 "attach_bpf_fd";
    fld __u32 "attach_type";
    fld __u32 "attach_flags";
    fld __u32 "replace_bpf_fd"]);
  fld (struct no_tag [
    fld __u32 "prog_fd";
    fld __u32 "retval";
    fld __u32 "data_size_in";
    fld __u32 "data_size_out";
    fld __u64 "data_in";
    fld __u64 "data_out";
    fld __u32 "repeat";
    fld __u32 "duration";
    fld __u32 "ctx_size_in";
    fld __u32 "ctx_size_out";
    fld __u64 "ctx_in";
    fld __u64 "ctx_out";
    fld __u32 "flags";
    fld __u32 "cpu"]) "test";
  anon (struct no_tag [
    anon (union no_tag [
      fld __u32 "start_id";
      fld __u32 "prog_id";
      fld __u32 "map_id";
      fld __u32 "btf_id";
      fld __u32 "link_id"]);
    fld __u32 "next_id";
    fld __u32 "open_flags"]);
  fld (struct no_tag [
    fld __u32 "bpf_fd";
    fld __u32 "info_len";
    fld __u64 "info"]) "info";
  fld (struct no_tag [
    fld __u32 "target_fd";
    fld __u32 "attach_type";
    fld __u32 "query_flags";
    fld __u32 "attach_flags";
    fld __u64 "prog_ids";
    fld __u32 "prog_cnt"]) "query";
  fld (struct no_tag [
    fld __u64 "name";
    fld __u32 "prog_fd"]) "raw_tracepoint";
  anon (struct no_tag [
    fld __u64 "btf";
    fld __u64 "btf_log_buf";
    fld __u32 "btf_size";
    fld __u32 "btf_log_size";
    fld __u32 "btf_log_level"]);
  fld (struct no_tag [
    fld __u32 "pid";
    fld __u32 "fd";
    fld __u32 "flags";
    fld __u32 "buf_len";
    fld __u64 "buf";
    fld __u32 "prog_id";
    fld __u32 "fd_type";
    fld __u64 "probe_offset";
    fld __u64 "probe_addr"]) "task_fd_query";
  fld (struct no_tag [
    fld __u32 "prog_fd";
    anon (union no_tag [
      fld __u32 "target_fd";
      fld __u32 "target_ifindex"]);
    fld __u32 "attach_type";
    fld __u32 "flags";
    anon (union no_tag [
      fld __u32 "target_btf_id";
      anon (struct no_tag [
        fld __u64 "iter_info";
        fld __u32 "iter_info_len"])])]) "link_create";
  fld (struct no_tag [
    fld __u32 "link_fd";
    fld __u32 "new_prog_fd";
    fld __u32 "flags";
    fld __u32 "old_prog_fd"]) "link_update";
  fld (struct no_tag [
    fld __u32 "link_fd"]) "link_detach";
  fld (struct no_tag [
    fld __u32 "type"]) "enable_stats";
  fld (struct no_tag [
    fld __u32 "link_fd";
    fld __u32 "flags"]) "iter_create";
  fld (struct no_tag [
    fld __u32 "prog_fd";
    fld __u32 "map_fd";
    fld __u32 "flags"]) "prog_bind_map"].

Definition struct_bpf_map_info := struct "bpf_map_info" [
  fld __u32 "type";
  fld __u32 "id";
  fld __u32 "key_size";
  fld __u32 "value_size";
  fld __u32 "max_entries";
  fld __u32 "map_flags";
  fld (arr c_char 16) "name";
  fld __u32 "ifindex";
  fld __u32 "btf_vmlinux_value_type_id";
  fld __u64 "netns_dev";
  fld __u64 "netns_ino";
  fld __u32 "btf_id";
  fld __u32 "btf_key_type_id";
  fld __u32 "btf_value_type_id"].

Definition struct_bpf_prog_info := struct "bpf_prog_info" [
  fld __u32 "type";
  fld __u32 "id";
  fld (arr __u8 8) "tag";
  fld __u32 "jited_prog_len";
  fld __u32 "xlated_prog_len";
  fld __u64 "jited_prog_insns";
  fld __u64 "xlated_prog_insns";
  fld __u64 "load_time";
  fld __u32 "created_by_uid";
  fld __u32 "nr_map_ids";
  fld __u64 "map_ids";
  fld (arr c_char 16) "name";
  fld __u32 "ifindex";
  bits __u32 "gpl_compatible" 1;
  fld __u64 "netns_dev";
  fld __u64 "netns_ino";
  fld __u32 "nr_jited_ksyms";
  fld __u32 "nr_jited_func_lens";
  fld __u64 "jited_ksyms";
  fld __u64 "jited_func_lens";
  fld __u32 "btf_id";
  fld __u32 "func_info_rec_size";
  fld __u64 "func_info";
  fld __u32 "nr_func_info";
  fld __u32 "nr_line_info";
  fld __u64 "line_info";
  fld __u64 "jited_line_info";
  fld __u32 "nr_jited_line_info";
  fld __u32 "line_info_rec_size";
  fld __u32 "jited_line_info_rec_size";
  fld __u32 "nr_prog_tags";
  fld __u64 "prog_tags";
  fld __u64 "run_time_ns";
  fld __u64 "run_cnt"].

Definition struct_bpf_link_info := struct "bpf_link_info" [
  fld __u32 "type";
  fld __u32 "id";
  fld __u32 "prog_id";
  anon (union no_tag [
    fld (struct no_tag [
      fld __u64 "tp_name";
      fld __u32 "tp_name_len"]) "raw_tracepoint";
    fld (struct no_tag [
      fld __u32 "attach_type"]) "tracing";
    fld (struct no_tag [
      fld __u64 "cgroup_id";
      fld __u32 "attach_type"]) "cgroup";
    fld (struct no_tag [
      fld __u64 "target_name";
      fld __u32 "target_name_len";
      anon (union no_tag [
        fld (struct no_tag [
          fld __u32 "map_id"]) "map"])]) "iter";
    fld (struct no_tag [
      fld __u32 "netns_ino";
      fld __u32 "attach_type"]) "netns";
    fld (struct no_tag [
      fld __u32 "ifindex"]) "xdp"])].

(** The declarations of the file. *)
Definition declarations : list ctype := [
  enum_bpf_func_id; enum_bpf_cmd; enum_bpf_ret_code; enum_BPF_ANY; enum_BPF_F_NO_PREALLOC;
  enum_BPF_F_RECOMPUTE_CSUM; enum_BPF_F_HDR_FIELD_MASK; enum_BPF_F_PSEUDO_HDR;
  enum_BPF_F_INGRESS; enum_BPF_F_TUNINFO_IPV6; enum_BPF_F_ZERO_CSUM_TX;
  enum_BPF_CSUM_LEVEL_QUERY; enum_BPF_F_ADJ_ROOM_FIXED_GSO; enum_BPF_ADJ_ROOM_ENCAP_L2_MASK;
  enum_BPF_SK_LOOKUP_F_REPLACE; union_bpf_attr; struct_bpf_map_info; struct_bpf_prog_info;
  struct_bpf_link_info].
