(* ===== verification/VmBpfMaps.v ===== *)
(** * Maps and programs in the kernel

    Declarations of headers/vmlinux.h, one definition per declaration and one
    line per member, in the order of use: the kernel objects behind the array,
    per-CPU array, hash and LRU hash maps, the programs, links and the
    verifier. *)

From stdpp Require Import strings.
From S2P Require Import CLayout VmBase.

#[local] Open Scope string_scope.

Definition struct_bpf_array := struct "bpf_array" [
  fld struct_bpf_map "map";
  fld u32 "elem_size";
  fld u32 "index_mask";
  fld (ptr "struct bpf_array_aux") "aux";
  anon (union no_tag [
    fld (arr c_char 0) "value";
    fld (arr (ptr "void") 0) "ptrs";
    fld (arr (ptr "void") 0) "pptrs"]);
  pad c_long 64;
  pad c_long 64;
  pad c_long 64;
  pad c_long 64;
  pad c_long 64;
  pad c_long 64].

Definition struct_pcpu_freelist_head := struct "pcpu_freelist_head" [
  fld (ptr "struct pcpu_freelist_node") "first";
  fld raw_spinlock_t "lock"].

Definition struct_pcpu_freelist := struct "pcpu_freelist" [
  fld (ptr "struct pcpu_freelist_head") "freelist";
  fld struct_pcpu_freelist_head "extralist"].

Definition struct_bpf_lru_list := struct "bpf_lru_list" [
  fld (arr struct_list_head 3) "lists";
  fld (arr c_uint 2) "counts";
  fld (ptr "struct list_head") "next_inactive_rotation";
  fld raw_spinlock_t "lock";
  pad c_long 64;
  pad c_long 64;
  pad c_long 64;
  pad c_long 64;
  pad c_long 64;
  pad c_long 64;
  pad c_long 64].

Definition struct_bpf_common_lru := struct "bpf_common_lru" [
  fld struct_bpf_lru_list "lru_list";
  fld (ptr "struct bpf_lru_locallist") "local_list";
  pad c_long 64;
  pad c_long 64;
  pad c_long 64;
  pad c_long 64;
  pad c_long 64;
  pad c_long 64;
  pad c_long 64].

Definition del_from_htab_func := fptr "bool" "void *, struct bpf_lru_node *".

Definition struct_bpf_lru := struct "bpf_lru" [
  anon (union no_tag [
    fld struct_bpf_common_lru "common_lru";
    fld (ptr "struct bpf_lru_list") "percpu_lru"]);
  fld del_from_htab_func "del_from_htab";
  fld (ptr "void") "del_arg";
  fld c_uint "hash_offset";
  fld c_uint "nr_scans";
  fld bool_ "percpu";
  pad c_long 64;
  pad c_long 64;
  pad c_long 64;
  pad c_long 64].

Definition struct_bpf_htab := struct "bpf_htab" [
  fld struct_bpf_map "map";
  fld (ptr "struct bucket") "buckets";
  fld (ptr "void") "elems";
  pad c_long 64;
  pad c_long 64;
  pad c_long 64;
  pad c_long 64;
  pad c_long 64;
  pad c_long 64;
  anon (union no_tag [
    fld struct_pcpu_freelist "freelist";
    fld struct_bpf_lru "lru"]);
  fld (ptr "struct htab_elem **") "extra_elems";
  fld atomic_t "count";
  fld u32 "n_buckets";
  fld u32 "elem_size";
  fld u32 "hashrnd";
  pad c_long 64;
  pad c_long 64;
  pad c_long 64;
  pad c_long 64;
  pad c_long 64].

Definition struct_pcpu_freelist_node := struct "pcpu_freelist_node" [
  fld (ptr "struct pcpu_freelist_node") "next"].

Definition struct_bpf_lru_node := struct "bpf_lru_node" [
  fld struct_list_head "list";
  fld u16 "cpu";
  fld u8 "type";
  fld u8 "ref"].

Definition struct_htab_elem := struct "htab_elem" [
  anon (union no_tag [
    fld struct_hlist_nulls_node "hash_node";
    anon (struct no_tag [
      fld (ptr "void") "padding";
      anon (union no_tag [
        fld (ptr "struct bpf_htab") "htab";
        fld struct_pcpu_freelist_node "fnode";
        fld (ptr "struct htab_elem") "batch_flink"])])]);
  anon (union no_tag [
    fld struct_callback_head "rcu";
    fld struct_bpf_lru_node "lru_node"]);
  fld u32 "hash";
  pad c_long 0;
  fld (arr c_char 0) "key"].

Definition struct_bpf_map_ops := struct "bpf_map_ops" [
  fld (fptr "int" "union bpf_attr *") "map_alloc_check";
  fld (fptr "struct bpf_map *" "union bpf_attr *") "map_alloc";
  fld (fptr "void" "struct bpf_map *, struct file *") "map_release";
  fld (fptr "void" "struct bpf_map *") "map_free";
  fld (fptr "int" "struct bpf_map *, void *, void *") "map_get_next_key";
  fld (fptr "void" "struct bpf_map *") "map_release_uref";
  fld (fptr "void *" "struct bpf_map *, void *") "map_lookup_elem_sys_only";
  fld (fptr "int" "struct bpf_map *, const union bpf_attr *, union bpf_attr *") "map_lookup_batch";
  fld (fptr "int" "struct bpf_map *, const union bpf_attr *, union bpf_attr *") "map_lookup_and_delete_batch";
  fld (fptr "int" "struct bpf_map *, const union bpf_attr *, union bpf_attr *") "map_update_batch";
  fld (fptr "int" "struct bpf_map *, const union bpf_attr *, union bpf_attr *") "map_delete_batch";
  fld (fptr "void *" "struct bpf_map *, void *") "map_lookup_elem";
  fld (fptr "int" "struct bpf_map *, void *, void *, u64") "map_update_elem";
  fld (fptr "int" "struct bpf_map *, void *") "map_delete_elem";
  fld (fptr "int" "struct bpf_map *, void *, u64") "map_push_elem";
  fld (fptr "int" "struct bpf_map *, void *") "map_pop_elem";
  fld (fptr "int" "struct bpf_map *, void *") "map_peek_elem";
  fld (fptr "void *" "struct bpf_map *, struct file *, int") "map_fd_get_ptr";
  fld (fptr "void" "struct bpf_map *, void *, bool") "map_fd_put_ptr";
  fld (fptr "int" "struct bpf_map *, struct bpf_insn *") "map_gen_lookup";
  fld (fptr "u32" "void *") "map_fd_sys_lookup_elem";
  fld (fptr "void" "struct bpf_map *, void *, struct seq_file *") "map_seq_show_elem";
  fld (fptr "int" "const struct bpf_map *, const struct btf *, const struct btf_type *, const struct btf_type *") "map_check_btf";
  fld (fptr "int" "struct bpf_map *, struct bpf_prog_aux *") "map_poke_track";
  fld (fptr "void" "struct bpf_map *, struct bpf_prog_aux *") "map_poke_untrack";
  fld (fptr "void" "struct bpf_map *, u32, struct bpf_prog *, struct bpf_prog *") "map_poke_run";
  fld (fptr "int" "const struct bpf_map *, u64 *, u32") "map_direct_value_addr";
  fld (fptr "int" "const struct bpf_map *, u64, u32 *") "map_direct_value_meta";
  fld (fptr "int" "struct bpf_map *, struct vm_area_struct *") "map_mmap";
  fld (fptr "__poll_t" "struct bpf_map *, struct file *, struct poll_table_struct *") "map_poll";
  fld (fptr "int" "struct bpf_local_storage_map *, void *, u32") "map_local_storage_charge";
  fld (fptr "void" "struct bpf_local_storage_map *, void *, u32") "map_local_storage_uncharge";
  fld (fptr "struct bpf_local_storage **" "void *") "map_owner_storage_ptr";
  fld (fptr "bool" "const struct bpf_map *, const struct bpf_map *") "map_meta_equal";
  fld (ptr "const char") "map_btf_name";
  fld (ptr "int") "map_btf_id";
  fld (ptr "const struct bpf_iter_seq_info") "iter_seq_info"].

Definition struct_sock_filter := struct "sock_filter" [
  fld __u16 "code";
  fld __u8 "jt";
  fld __u8 "jf";
  fld __u32 "k"].

Definition struct_bpf_prog := struct "bpf_prog" [
  fld u16 "pages";
  bits u16 "jited" 1;
  bits u16 "jit_requested" 1;
  bits u16 "gpl_compatible" 1;
  bits u16 "cb_access" 1;
  bits u16 "dst_needed" 1;
  bits u16 "blinded" 1;
  bits u16 "is_func" 1;
  bits u16 "kprobe_override" 1;
  bits u16 "has_callchain_buf" 1;
  bits u16 "enforce_expected_attach_type" 1;
  bits u16 "call_get_stack" 1;
  fld enum_bpf_prog_type "type";
  fld enum_bpf_attach_type "expected_attach_type";
  fld u32 "len";
  fld u32 "jited_len";
  fld (arr u8 8) "tag";
  fld (ptr "struct bpf_prog_aux") "aux";
  fld (ptr "struct sock_fprog_kern") "orig_prog";
  fld (fptr "unsigned int" "const void *, const struct bpf_insn *") "bpf_func";
  fld (arr struct_sock_filter 0) "insns";
  fld (arr struct_bpf_insn 0) "insnsi"].

Definition struct_latch_tree_node := struct "latch_tree_node" [
  fld (arr struct_rb_node 2) "node"].

Definition struct_bpf_ksym := struct "bpf_ksym" [
  fld c_ulong "start";
  fld c_ulong "end";
  fld (arr c_char 128) "name";
  fld struct_list_head "lnode";
  fld struct_latch_tree_node "tnode";
  fld bool_ "prog"].

Definition struct_bpf_prog_aux := struct "bpf_prog_aux" [
  fld atomic64_t "refcnt";
  fld u32 "used_map_cnt";
  fld u32 "max_ctx_offset";
  fld u32 "max_pkt_offset";
  fld u32 "max_tp_access";
  fld u32 "stack_depth";
  fld u32 "id";
  fld u32 "func_cnt";
  fld u32 "func_idx";
  fld u32 "attach_btf_id";
  fld u32 "ctx_arg_info_size";
  fld u32 "max_rdonly_access";
  fld u32 "max_rdwr_access";
  fld (ptr "const struct bpf_ctx_arg_aux") "ctx_arg_info";
  fld struct_mutex "dst_mutex";
  fld (ptr "struct bpf_prog") "dst_prog";
  fld (ptr "struct bpf_trampoline") "dst_trampoline";
  fld enum_bpf_prog_type "saved_dst_prog_type";
  fld enum_bpf_attach_type "saved_dst_attach_type";
  fld bool_ "verifier_zext";
  fld bool_ "offload_requested";
  fld bool_ "attach_btf_trace";
  fld bool_ "func_proto_unreliable";
  fld bool_ "sleepable";
  fld bool_ "tail_call_reachable";
  fld struct_hlist_node "tramp_hlist";
  fld (ptr "const struct btf_type") "attach_func_proto";
  fld (ptr "const char") "attach_func_name";
  fld (ptr "struct bpf_prog **") "func";
  fld (ptr "void") "jit_data";
  fld (ptr "struct bpf_jit_poke_descriptor") "poke_tab";
  fld u32 "size_poke_tab";
  fld struct_bpf_ksym "ksym";
  fld (ptr "const struct bpf_prog_ops") "ops";
  fld (ptr "struct bpf_map **") "used_maps";
  fld struct_mutex "used_maps_mutex";
  fld (ptr "struct bpf_prog") "prog";
  fld (ptr "struct user_struct") "user";
  fld u64 "load_time";
  fld (arr (ptr "struct bpf_map") 2) "cgroup_storage";
  fld (arr c_char 16) "name";
  fld (ptr "void") "security";
  fld (ptr "struct bpf_prog_offload") "offload";
  fld (ptr "struct btf") "btf";
  fld (ptr "struct bpf_func_info") "func_info";
  fld (ptr "struct bpf_func_info_aux") "func_info_aux";
  fld (ptr "struct bpf_line_info") "linfo";
  fld (ptr "void **") "jited_linfo";
  fld u32 "func_info_cnt";
  fld u32 "nr_linfo";
  fld u32 "linfo_idx";
  fld u32 "num_exentries";
  fld (ptr "struct exception_table_entry") "extable";
  fld (ptr "struct bpf_prog_stats") "stats";
  anon (union no_tag [
    fld struct_work_struct "work";
    fld struct_callback_head "rcu"])].

Definition struct_bpf_link := struct "bpf_link" [
  fld atomic64_t "refcnt";
  fld u32 "id";
  fld enum_bpf_link_type "type";
  fld (ptr "const struct bpf_link_ops") "ops";
  fld (ptr "struct bpf_prog") "prog";
  fld struct_work_struct "work"].

Definition struct_bpf_verifier_log := struct "bpf_verifier_log" [
  fld u32 "level";
  fld (arr c_char 1024) "kbuf";
  fld (ptr "char") "ubuf";
  fld u32 "len_used";
  fld u32 "len_total"].

Definition struct_bpf_subprog_info := struct "bpf_subprog_info" [
  fld u32 "start";
  fld u32 "linfo_idx";
  fld u16 "stack_depth";
  fld bool_ "has_tail_call";
  fld bool_ "tail_call_reachable";
  fld bool_ "has_ld_abs"].

Definition struct_bpf_id_pair := struct "bpf_id_pair" [
  fld u32 "old";
  fld u32 "cur"].

Definition struct_bpf_verifier_env := struct "bpf_verifier_env" [
  fld u32 "insn_idx";
  fld u32 "prev_insn_idx";
  fld (ptr "struct bpf_prog") "prog";
  fld (ptr "const struct bpf_verifier_ops") "ops";
  fld (ptr "struct bpf_verifier_stack_elem") "head";
  fld c_int "stack_size";
  fld bool_ "strict_alignment";
  fld bool_ "test_state_freq";
  fld (ptr "struct bpf_verifier_state") "cur_state";
  fld (ptr "struct bpf_verifier_state_list **") "explored_states";
  fld (ptr "struct bpf_verifier_state_list") "free_list";
  fld (arr (ptr "struct bpf_map") 64) "used_maps";
  fld u32 "used_map_cnt";
  fld u32 "id_gen";
  fld bool_ "explore_alu_limits";
  fld bool_ "allow_ptr_leaks";
  fld bool_ "allow_uninit_stack";
  fld bool_ "allow_ptr_to_map_access";
  fld bool_ "bpf_capable";
  fld bool_ "bypass_spec_v1";
  fld bool_ "bypass_spec_v4";
  fld bool_ "seen_direct_write";
  fld (ptr "struct bpf_insn_aux_data") "insn_aux_data";
  fld (ptr "const struct bpf_line_info") "prev_linfo";
  fld struct_bpf_verifier_log "log";
  fld (arr struct_bpf_subprog_info 257) "subprog_info";
  fld (arr struct_bpf_id_pair 75) "idmap_scratch";
  fld (struct no_tag [
    fld (ptr "int") "insn_state";
    fld (ptr "int") "insn_stack";
    fld c_int "cur_stack"]) "cfg";
  fld u32 "pass_cnt";
  fld u32 "subprog_cnt";
  fld u32 "prev_insn_processed";
  fld u32 "insn_processed";
  fld u32 "prev_jmps_processed";
  fld u32 "jmps_processed";
  fld u64 "verification_time";
  fld u32 "max_states_per_insn";
  fld u32 "total_states";
  fld u32 "peak_states";
  fld u32 "longest_mark_read_walk";
  fld (arr c_char 64) "type_str_buf"].

Definition enum_bpf_return_type := enum "bpf_return_type" [
  ev "RET_INTEGER" 0;
  ev "RET_VOID" 1;
  ev "RET_PTR_TO_MAP_VALUE" 2;
  ev "RET_PTR_TO_SOCKET" 3;
  ev "RET_PTR_TO_TCP_SOCK" 4;
  ev "RET_PTR_TO_SOCK_COMMON" 5;
  ev "RET_PTR_TO_ALLOC_MEM" 6;
  ev "RET_PTR_TO_MEM_OR_BTF_ID" 7;
  ev "RET_PTR_TO_BTF_ID" 8;
  ev "__BPF_RET_TYPE_MAX" 9;
  ev "RET_PTR_TO_MAP_VALUE_OR_NULL" 258;
  ev "RET_PTR_TO_SOCKET_OR_NULL" 259;
  ev "RET_PTR_TO_TCP_SOCK_OR_NULL" 260;
  ev "RET_PTR_TO_SOCK_COMMON_OR_NULL" 261;
  ev "RET_PTR_TO_ALLOC_MEM_OR_NULL" 1286;
  ev "RET_PTR_TO_BTF_ID_OR_NULL" 264;
  ev "__BPF_RET_TYPE_LIMIT" 134217727].

Definition enum_bpf_arg_type := enum "bpf_arg_type" [
  ev "ARG_DONTCARE" 0;
  ev "ARG_CONST_MAP_PTR" 1;
  ev "ARG_PTR_TO_MAP_KEY" 2;
  ev "ARG_PTR_TO_MAP_VALUE" 3;
  ev "ARG_PTR_TO_MEM" 4;
  ev "ARG_CONST_SIZE" 5;
  ev "ARG_CONST_SIZE_OR_ZERO" 6;
  ev "ARG_PTR_TO_CTX" 7;
  ev "ARG_ANYTHING" 8;
  ev "ARG_PTR_TO_SPIN_LOCK" 9;
  ev "ARG_PTR_TO_SOCK_COMMON" 10;
  ev "ARG_PTR_TO_SOCKET" 11;
  ev "ARG_PTR_TO_BTF_ID" 12;
  ev "ARG_PTR_TO_ALLOC_MEM" 13;
  ev "ARG_CONST_ALLOC_SIZE_OR_ZERO" 14;
  ev "ARG_PTR_TO_BTF_ID_SOCK_COMMON" 15;
  ev "ARG_PTR_TO_PERCPU_BTF_ID" 16;
  ev "__BPF_ARG_TYPE_MAX" 17;
  ev "ARG_PTR_TO_MAP_VALUE_OR_NULL" 259;
  ev "ARG_PTR_TO_MEM_OR_NULL" 260;
  ev "ARG_PTR_TO_CTX_OR_NULL" 263;
  ev "ARG_PTR_TO_SOCKET_OR_NULL" 267;
  ev "ARG_PTR_TO_ALLOC_MEM_OR_NULL" 269;
  ev "ARG_PTR_TO_UNINIT_MEM" 67110916;
  ev "ARG_PTR_TO_FIXED_SIZE_MEM" 4100;
  ev "__BPF_ARG_TYPE_LIMIT" 134217727].

Definition struct_bpf_func_proto := struct "bpf_func_proto" [
  fld (fptr "u64" "u64, u64, u64, u64, u64") "func";
  fld bool_ "gpl_only";
  fld bool_ "pkt_access";
  fld enum_bpf_return_type "ret_type";
  anon (union no_tag [
    anon (struct no_tag [
      fld enum_bpf_arg_type "arg1_type";
      fld enum_bpf_arg_type "arg2_type";
      fld enum_bpf_arg_type "arg3_type";
      fld enum_bpf_arg_type "arg4_type";
      fld enum_bpf_arg_type "arg5_type"]);
    fld (arr enum_bpf_arg_type 5) "arg_type"]);
  anon (union no_tag [
    anon (struct no_tag [
      fld (ptr "u32") "arg1_btf_id";
      fld (ptr "u32") "arg2_btf_id";
      fld (ptr "u32") "arg3_btf_id";
      fld (ptr "u32") "arg4_btf_id";
      fld (ptr "u32") "arg5_btf_id"]);
    fld (arr (ptr "u32") 5) "arg_btf_id";
    anon (struct no_tag [
      fld size_t "arg1_size";
      fld size_t "arg2_size";
      fld size_t "arg3_size";
      fld size_t "arg4_size";
      fld size_t "arg5_size"]);
    fld (arr size_t 5) "arg_size"]);
  fld (ptr "int") "ret_btf_id";
  fld (fptr "bool" "const struct bpf_prog *") "allowed"].

Definition s32 := __s32.

Definition struct_tnum := struct "tnum" [
  fld u64 "value";
  fld u64 "mask"].

Definition enum_bpf_reg_liveness := enum "bpf_reg_liveness" [
  ev "REG_LIVE_NONE" 0;
  ev "REG_LIVE_READ32" 1;
  ev "REG_LIVE_READ64" 2;
  ev "REG_LIVE_READ" 3;
  ev "REG_LIVE_WRITTEN" 4;
  ev "REG_LIVE_DONE" 8].

Definition struct_bpf_reg_state := struct "bpf_reg_state" [
  fld enum_bpf_reg_type "type";
  anon (union no_tag [
    fld c_int "range";
    fld (ptr "struct bpf_map") "map_ptr";
    fld u32 "btf_id";
    fld u32 "mem_size";
    fld c_ulong "raw"]);
  fld s32 "off";
  fld u32 "id";
  fld u32 "ref_obj_id";
  fld struct_tnum "var_off";
  fld s64 "smin_value";
  fld s64 "smax_value";
  fld u64 "umin_value";
  fld u64 "umax_value";
  fld s32 "s32_min_value";
  fld s32 "s32_max_value";
  fld u32 "u32_min_value";
  fld u32 "u32_max_value";
  fld (ptr "struct bpf_reg_state") "parent";
  fld u32 "frameno";
  fld s32 "subreg_def";
  fld enum_bpf_reg_liveness "live";
  fld bool_ "precise"].

Definition struct_bpf_prog_ops := struct "bpf_prog_ops" [
  fld (fptr "int" "struct bpf_prog *, const union bpf_attr *, union bpf_attr *") "test_run"].

Definition struct_bpf_verifier_ops := struct "bpf_verifier_ops" [
  fld (fptr "const struct bpf_func_proto *" "enum bpf_func_id, const struct bpf_prog *") "get_func_proto";
  fld (fptr "bool" "int, int, enum bpf_access_type, const struct bpf_prog *, struct bpf_insn_access_aux *") "is_valid_access";
  fld (fptr "int" "struct bpf_insn *, bool, const struct bpf_prog *") "gen_prologue";
  fld (fptr "int" "const struct bpf_insn *, struct bpf_insn *") "gen_ld_abs";
  fld (fptr "u32" "enum bpf_access_type, const struct bpf_insn *, struct bpf_insn *, struct bpf_prog *, u32 *") "convert_ctx_access";
  fld (fptr "int" "struct bpf_verifier_log *, const struct btf_type *, int, int, enum bpf_access_type, u32 *") "btf_struct_access"].

Definition struct_bpf_link_ops := struct "bpf_link_ops" [
  fld (fptr "void" "struct bpf_link *") "release";
  fld (fptr "void" "struct bpf_link *") "dealloc";
  fld (fptr "int" "struct bpf_link *") "detach";
  fld (fptr "int" "struct bpf_link *, struct bpf_prog *, struct bpf_prog *") "update_prog";
  fld (fptr "void" "const struct bpf_link *, struct seq_file *") "show_fdinfo";
  fld (fptr "int" "const struct bpf_link *, struct bpf_link_info *") "fill_link_info"].

Definition struct_bpf_trampoline := struct "bpf_trampoline" [
  fld struct_hlist_node "hlist";
  fld struct_mutex "mutex";
  fld refcount_t "refcnt";
  fld u64 "key";
  fld (struct no_tag [
    fld struct_btf_func_model "model";
    fld (ptr "void") "addr";
    fld bool_ "ftrace_managed"]) "func";
  fld (ptr "struct bpf_prog") "extension_prog";
  fld (arr struct_hlist_head 3) "progs_hlist";
  fld (arr c_int 3) "progs_cnt";
  fld (ptr "struct bpf_tramp_image") "cur_image";
  fld u64 "selector"].

Definition struct_bpf_dispatcher_prog := struct "bpf_dispatcher_prog" [
  fld (ptr "struct bpf_prog") "prog";
  fld refcount_t "users"].

Definition struct_bpf_dispatcher := struct "bpf_dispatcher" [
  fld struct_mutex "mutex";
  fld (ptr "void") "func";
  fld (arr struct_bpf_dispatcher_prog 48) "progs";
  fld c_int "num_progs";
  fld (ptr "void") "image";
  fld u32 "image_off";
  fld struct_bpf_ksym "ksym"].

(** The declarations of the file. *)
Definition declarations : list ctype := [
  struct_bpf_array; struct_pcpu_freelist_head; struct_pcpu_freelist; struct_bpf_lru_list;
  struct_bpf_common_lru; del_from_htab_func; struct_bpf_lru; struct_bpf_htab;
  struct_pcpu_freelist_node; struct_bpf_lru_node; struct_htab_elem; struct_bpf_map_ops;
  struct_sock_filter; struct_bpf_prog; struct_latch_tree_node; struct_bpf_ksym;
  struct_bpf_prog_aux; struct_bpf_link; struct_bpf_verifier_log; struct_bpf_subprog_info;
  struct_bpf_id_pair; struct_bpf_verifier_env; enum_bpf_return_type; enum_bpf_arg_type;
  struct_bpf_func_proto; s32; struct_tnum; enum_bpf_reg_liveness; struct_bpf_reg_state;
  struct_bpf_prog_ops; struct_bpf_verifier_ops; struct_bpf_link_ops; struct_bpf_trampoline;
  struct_bpf_dispatcher_prog; struct_bpf_dispatcher].
