(* ===== verification/VmNetdev.v ===== *)
(** * Network devices and netlink

    Declarations of headers/vmlinux.h, one definition per declaration and one
    line per member, in the order of use: the devices the programs are attached
    to, their TCX and queueing hooks, and the rtnetlink messages the monitor
    reads. *)

From stdpp Require Import strings.
From S2P Require Import CLayout VmBase.

#[local] Open Scope string_scope.

Definition enum_net_device_flags := enum "net_device_flags" [
  ev "IFF_UP" 1;
  ev "IFF_BROADCAST" 2;
  ev "IFF_DEBUG" 4;
  ev "IFF_LOOPBACK" 8;
  ev "IFF_POINTOPOINT" 16;
  ev "IFF_NOTRAILERS" 32;
  ev "IFF_RUNNING" 64;
  ev "IFF_NOARP" 128;
  ev "IFF_PROMISC" 256;
  ev "IFF_ALLMULTI" 512;
  ev "IFF_MASTER" 1024;
  ev "IFF_SLAVE" 2048;
  ev "IFF_MULTICAST" 4096;
  ev "IFF_PORTSEL" 8192;
  ev "IFF_AUTOMEDIA" 16384;
  ev "IFF_DYNAMIC" 32768;
  ev "IFF_LOWER_UP" 65536;
  ev "IFF_DORMANT" 131072;
  ev "IFF_ECHO" 262144].

Definition enum_RTM_BASE := enum no_tag [
  ev "RTM_BASE" 16;
  ev "RTM_NEWLINK" 16;
  ev "RTM_DELLINK" 17;
  ev "RTM_GETLINK" 18;
  ev "RTM_SETLINK" 19;
  ev "RTM_NEWADDR" 20;
  ev "RTM_DELADDR" 21;
  ev "RTM_GETADDR" 22;
  ev "RTM_NEWROUTE" 24;
  ev "RTM_DELROUTE" 25;
  ev "RTM_GETROUTE" 26;
  ev "RTM_NEWNEIGH" 28;
  ev "RTM_DELNEIGH" 29;
  ev "RTM_GETNEIGH" 30;
  ev "RTM_NEWRULE" 32;
  ev "RTM_DELRULE" 33;
  ev "RTM_GETRULE" 34;
  ev "RTM_NEWQDISC" 36;
  ev "RTM_DELQDISC" 37;
  ev "RTM_GETQDISC" 38;
  ev "RTM_NEWTCLASS" 40;
  ev "RTM_DELTCLASS" 41;
  ev "RTM_GETTCLASS" 42;
  ev "RTM_NEWTFILTER" 44;
  ev "RTM_DELTFILTER" 45;
  ev "RTM_GETTFILTER" 46;
  ev "RTM_NEWACTION" 48;
  ev "RTM_DELACTION" 49;
  ev "RTM_GETACTION" 50;
  ev "RTM_NEWPREFIX" 52;
  ev "RTM_GETMULTICAST" 58;
  ev "RTM_GETANYCAST" 62;
  ev "RTM_NEWNEIGHTBL" 64;
  ev "RTM_GETNEIGHTBL" 66;
  ev "RTM_SETNEIGHTBL" 67;
  ev "RTM_NEWNDUSEROPT" 68;
  ev "RTM_NEWADDRLABEL" 72;
  ev "RTM_DELADDRLABEL" 73;
  ev "RTM_GETADDRLABEL" 74;
  ev "RTM_GETDCB" 78;
  ev "RTM_SETDCB" 79;
  ev "RTM_NEWNETCONF" 80;
  ev "RTM_DELNETCONF" 81;
  ev "RTM_GETNETCONF" 82;
  ev "RTM_NEWMDB" 84;
  ev "RTM_DELMDB" 85;
  ev "RTM_GETMDB" 86;
  ev "RTM_NEWNSID" 88;
  ev "RTM_DELNSID" 89;
  ev "RTM_GETNSID" 90;
  ev "RTM_NEWSTATS" 92;
  ev "RTM_GETSTATS" 94;
  ev "RTM_NEWCACHEREPORT" 96;
  ev "RTM_NEWCHAIN" 100;
  ev "RTM_DELCHAIN" 101;
  ev "RTM_GETCHAIN" 102;
  ev "RTM_NEWNEXTHOP" 104;
  ev "RTM_DELNEXTHOP" 105;
  ev "RTM_GETNEXTHOP" 106;
  ev "RTM_NEWLINKPROP" 108;
  ev "RTM_DELLINKPROP" 109;
  ev "RTM_GETLINKPROP" 110;
  ev "RTM_NEWVLAN" 112;
  ev "RTM_DELVLAN" 113;
  ev "RTM_GETVLAN" 114;
  ev "__RTM_MAX" 115].

Definition enum_IFLA_UNSPEC := enum no_tag [
  ev "IFLA_UNSPEC" 0;
  ev "IFLA_ADDRESS" 1;
  ev "IFLA_BROADCAST" 2;
  ev "IFLA_IFNAME" 3;
  ev "IFLA_MTU" 4;
  ev "IFLA_LINK" 5;
  ev "IFLA_QDISC" 6;
  ev "IFLA_STATS" 7;
  ev "IFLA_COST" 8;
  ev "IFLA_PRIORITY" 9;
  ev "IFLA_MASTER" 10;
  ev "IFLA_WIRELESS" 11;
  ev "IFLA_PROTINFO" 12;
  ev "IFLA_TXQLEN" 13;
  ev "IFLA_MAP" 14;
  ev "IFLA_WEIGHT" 15;
  ev "IFLA_OPERSTATE" 16;
  ev "IFLA_LINKMODE" 17;
  ev "IFLA_LINKINFO" 18;
  ev "IFLA_NET_NS_PID" 19;
  ev "IFLA_IFALIAS" 20;
  ev "IFLA_NUM_VF" 21;
  ev "IFLA_VFINFO_LIST" 22;
  ev "IFLA_STATS64" 23;
  ev "IFLA_VF_PORTS" 24;
  ev "IFLA_PORT_SELF" 25;
  ev "IFLA_AF_SPEC" 26;
  ev "IFLA_GROUP" 27;
  ev "IFLA_NET_NS_FD" 28;
  ev "IFLA_EXT_MASK" 29;
  ev "IFLA_PROMISCUITY" 30;
  ev "IFLA_NUM_TX_QUEUES" 31;
  ev "IFLA_NUM_RX_QUEUES" 32;
  ev "IFLA_CARRIER" 33;
  ev "IFLA_PHYS_PORT_ID" 34;
  ev "IFLA_CARRIER_CHANGES" 35;
  ev "IFLA_PHYS_SWITCH_ID" 36;
  ev "IFLA_LINK_NETNSID" 37;
  ev "IFLA_PHYS_PORT_NAME" 38;
  ev "IFLA_PROTO_DOWN" 39;
  ev "IFLA_GSO_MAX_SEGS" 40;
  ev "IFLA_GSO_MAX_SIZE" 41;
  ev "IFLA_PAD" 42;
  ev "IFLA_XDP" 43;
  ev "IFLA_EVENT" 44;
  ev "IFLA_NEW_NETNSID" 45;
  ev "IFLA_IF_NETNSID" 46;
  ev "IFLA_TARGET_NETNSID" 46;
  ev "IFLA_CARRIER_UP_COUNT" 47;
  ev "IFLA_CARRIER_DOWN_COUNT" 48;
  ev "IFLA_NEW_IFINDEX" 49;
  ev "IFLA_MIN_MTU" 50;
  ev "IFLA_MAX_MTU" 51;
  ev "IFLA_PROP_LIST" 52;
  ev "IFLA_ALT_IFNAME" 53;
  ev "IFLA_PERM_ADDRESS" 54;
  ev "IFLA_PROTO_DOWN_REASON" 55;
  ev "__IFLA_MAX" 56].

Definition struct_ifinfomsg := struct "ifinfomsg" [
  fld c_uchar "ifi_family";
  fld c_uchar "__ifi_pad";
  fld c_ushort "ifi_type";
  fld c_int "ifi_index";
  fld c_uint "ifi_flags";
  fld c_uint "ifi_change"].

Definition struct_rtattr := struct "rtattr" [
  fld c_ushort "rta_len";
  fld c_ushort "rta_type"].

Definition struct_net_device_stats := struct "net_device_stats" [
  anon (union no_tag [
    fld c_ulong "rx_packets";
    fld atomic_long_t "__rx_packets"]);
  anon (union no_tag [
    fld c_ulong "tx_packets";
    fld atomic_long_t "__tx_packets"]);
  anon (union no_tag [
    fld c_ulong "rx_bytes";
    fld atomic_long_t "__rx_bytes"]);
  anon (union no_tag [
    fld c_ulong "tx_bytes";
    fld atomic_long_t "__tx_bytes"]);
  anon (union no_tag [
    fld c_ulong "rx_errors";
    fld atomic_long_t "__rx_errors"]);
  anon (union no_tag [
    fld c_ulong "tx_errors";
    fld atomic_long_t "__tx_errors"]);
  anon (union no_tag [
    fld c_ulong "rx_dropped";
    fld atomic_long_t "__rx_dropped"]);
  anon (union no_tag [
    fld c_ulong "tx_dropped";
    fld atomic_long_t "__tx_dropped"]);
  anon (union no_tag [
    fld c_ulong "multicast";
    fld atomic_long_t "__multicast"]);
  anon (union no_tag [
    fld c_ulong "collisions";
    fld atomic_long_t "__collisions"]);
  anon (union no_tag [
    fld c_ulong "rx_length_errors";
    fld atomic_long_t "__rx_length_errors"]);
  anon (union no_tag [
    fld c_ulong "rx_over_errors";
    fld atomic_long_t "__rx_over_errors"]);
  anon (union no_tag [
    fld c_ulong "rx_crc_errors";
    fld atomic_long_t "__rx_crc_errors"]);
  anon (union no_tag [
    fld c_ulong "rx_frame_errors";
    fld atomic_long_t "__rx_frame_errors"]);
  anon (union no_tag [
    fld c_ulong "rx_fifo_errors";
    fld atomic_long_t "__rx_fifo_errors"]);
  anon (union no_tag [
    fld c_ulong "rx_missed_errors";
    fld atomic_long_t "__rx_missed_errors"]);
  anon (union no_tag [
    fld c_ulong "tx_aborted_errors";
    fld atomic_long_t "__tx_aborted_errors"]);
  anon (union no_tag [
    fld c_ulong "tx_carrier_errors";
    fld atomic_long_t "__tx_carrier_errors"]);
  anon (union no_tag [
    fld c_ulong "tx_fifo_errors";
    fld atomic_long_t "__tx_fifo_errors"]);
  anon (union no_tag [
    fld c_ulong "tx_heartbeat_errors";
    fld atomic_long_t "__tx_heartbeat_errors"]);
  anon (union no_tag [
    fld c_ulong "tx_window_errors";
    fld atomic_long_t "__tx_window_errors"]);
  anon (union no_tag [
    fld c_ulong "rx_compressed";
    fld atomic_long_t "__rx_compressed"]);
  anon (union no_tag [
    fld c_ulong "tx_compressed";
    fld atomic_long_t "__tx_compressed"])].

Definition struct_netdev_hw_addr_list := struct "netdev_hw_addr_list" [
  fld struct_list_head "list";
  fld c_int "count"].

Definition enum_netdev_ml_priv_type := enum "netdev_ml_priv_type" [
  ev "ML_PRIV_NONE" 0;
  ev "ML_PRIV_CAN" 1].

Definition enum_dl_dev_state := enum "dl_dev_state" [
  ev "DL_DEV_NO_DRIVER" 0;
  ev "DL_DEV_PROBING" 1;
  ev "DL_DEV_DRIVER_BOUND" 2;
  ev "DL_DEV_UNBINDING" 3].

Definition struct_dev_links_info := struct "dev_links_info" [
  fld struct_list_head "suppliers";
  fld struct_list_head "consumers";
  fld struct_list_head "needs_suppliers";
  fld struct_list_head "defer_hook";
  fld bool_ "need_for_probe";
  fld enum_dl_dev_state "status"].

Definition struct_pm_message := struct "pm_message" [
  fld c_int "event"].

Definition pm_message_t := struct_pm_message.

Definition struct_swait_queue_head := struct "swait_queue_head" [
  fld raw_spinlock_t "lock";
  fld struct_list_head "task_list"].

Definition struct_completion := struct "completion" [
  fld c_uint "done";
  fld struct_swait_queue_head "wait"].

Definition enum_rpm_request := enum "rpm_request" [
  ev "RPM_REQ_NONE" 0;
  ev "RPM_REQ_IDLE" 1;
  ev "RPM_REQ_SUSPEND" 2;
  ev "RPM_REQ_AUTOSUSPEND" 3;
  ev "RPM_REQ_RESUME" 4].

Definition enum_rpm_status := enum "rpm_status" [
  ev "RPM_ACTIVE" 0;
  ev "RPM_RESUMING" 1;
  ev "RPM_SUSPENDED" 2;
  ev "RPM_SUSPENDING" 3].

Definition struct_dev_pm_info := struct "dev_pm_info" [
  fld pm_message_t "power_state";
  bits c_uint "can_wakeup" 1;
  bits c_uint "async_suspend" 1;
  bits bool_ "in_dpm_list" 1;
  bits bool_ "is_prepared" 1;
  bits bool_ "is_suspended" 1;
  bits bool_ "is_noirq_suspended" 1;
  bits bool_ "is_late_suspended" 1;
  bits bool_ "no_pm" 1;
  bits bool_ "early_init" 1;
  bits bool_ "direct_complete" 1;
  fld u32 "driver_flags";
  fld spinlock_t "lock";
  fld struct_list_head "entry";
  fld struct_completion "completion";
  fld (ptr "struct wakeup_source") "wakeup";
  bits bool_ "wakeup_path" 1;
  bits bool_ "syscore" 1;
  bits bool_ "no_pm_callbacks" 1;
  bits c_uint "must_resume" 1;
  bits c_uint "may_skip_resume" 1;
  fld struct_hrtimer "suspend_timer";
  fld u64 "timer_expires";
  fld struct_work_struct "work";
  fld wait_queue_head_t "wait_queue";
  fld (ptr "struct wake_irq") "wakeirq";
  fld atomic_t "usage_count";
  fld atomic_t "child_count";
  bits c_uint "disable_depth" 3;
  bits c_uint "idle_notification" 1;
  bits c_uint "request_pending" 1;
  bits c_uint "deferred_resume" 1;
  bits c_uint "needs_force_resume" 1;
  bits c_uint "runtime_auto" 1;
  bits bool_ "ignore_children" 1;
  bits c_uint "no_callbacks" 1;
  bits c_uint "irq_safe" 1;
  bits c_uint "use_autosuspend" 1;
  bits c_uint "timer_autosuspends" 1;
  bits c_uint "memalloc_noio" 1;
  fld c_uint "links_count";
  fld enum_rpm_request "request";
  fld enum_rpm_status "runtime_status";
  fld c_int "runtime_error";
  fld c_int "autosuspend_delay";
  fld u64 "last_busy";
  fld u64 "active_time";
  fld u64 "suspended_time";
  fld u64 "accounting_timestamp";
  fld (ptr "struct pm_subsys_data") "subsys_data";
  fld (fptr "void" "struct device *, s32") "set_latency_tolerance";
  fld (ptr "struct dev_pm_qos") "qos"].

Definition struct_dev_archdata := struct "dev_archdata" [].

Definition enum_device_removable := enum "device_removable" [
  ev "DEVICE_REMOVABLE_NOT_SUPPORTED" 0;
  ev "DEVICE_REMOVABLE_UNKNOWN" 1;
  ev "DEVICE_FIXED" 2;
  ev "DEVICE_REMOVABLE" 3].

Definition struct_device := struct "device" [
  fld struct_kobject "kobj";
  fld (ptr "struct device") "parent";
  fld (ptr "struct device_private") "p";
  fld (ptr "const char") "init_name";
  fld (ptr "const struct device_type") "type";
  fld (ptr "struct bus_type") "bus";
  fld (ptr "struct device_driver") "driver";
  fld (ptr "void") "platform_data";
  fld (ptr "void") "driver_data";
  fld struct_mutex "mutex";
  fld struct_dev_links_info "links";
  fld struct_dev_pm_info "power";
  fld (ptr "struct dev_pm_domain") "pm_domain";
  fld (ptr "struct irq_domain") "msi_domain";
  fld raw_spinlock_t "msi_lock";
  fld struct_list_head "msi_list";
  fld (ptr "const struct dma_map_ops") "dma_ops";
  fld (ptr "u64") "dma_mask";
  fld u64 "coherent_dma_mask";
  fld u64 "bus_dma_limit";
  fld (ptr "const struct bus_dma_region") "dma_range_map";
  fld (ptr "struct device_dma_parameters") "dma_parms";
  fld struct_list_head "dma_pools";
  fld struct_dev_archdata "archdata";
  fld (ptr "struct device_node") "of_node";
  fld (ptr "struct fwnode_handle") "fwnode";
  fld c_int "numa_node";
  fld dev_t "devt";
  fld u32 "id";
  fld spinlock_t "devres_lock";
  fld struct_list_head "devres_head";
  fld (ptr "struct class") "class";
  fld (ptr "const struct attribute_group **") "groups";
  fld (fptr "void" "struct device *") "release";
  fld (ptr "struct iommu_group") "iommu_group";
  fld (ptr "struct dev_iommu") "iommu";
  fld enum_device_removable "removable";
  bits bool_ "offline_disabled" 1;
  bits bool_ "offline" 1;
  bits bool_ "of_node_reused" 1;
  bits bool_ "state_synced" 1].

Definition struct_netdev_tc_txq := struct "netdev_tc_txq" [
  fld u16 "count";
  fld u16 "offset"].

Definition struct_bpf_xdp_entity := struct "bpf_xdp_entity" [
  fld (ptr "struct bpf_prog") "prog";
  fld (ptr "struct bpf_xdp_link") "link"].

Definition struct_net_device := struct "net_device" [
  fld (arr c_char 16) "name";
  fld (ptr "struct netdev_name_node") "name_node";
  fld (ptr "struct dev_ifalias") "ifalias";
  fld c_ulong "mem_end";
  fld c_ulong "mem_start";
  fld c_ulong "base_addr";
  fld c_int "irq";
  fld c_ulong "state";
  fld struct_list_head "dev_list";
  fld struct_list_head "napi_list";
  fld struct_list_head "unreg_list";
  fld struct_list_head "close_list";
  fld struct_list_head "ptype_all";
  fld struct_list_head "ptype_specific";
  fld (struct no_tag [
    fld struct_list_head "upper";
    fld struct_list_head "lower"]) "adj_list";
  fld netdev_features_t "features";
  fld netdev_features_t "hw_features";
  fld netdev_features_t "wanted_features";
  fld netdev_features_t "vlan_features";
  fld netdev_features_t "hw_enc_features";
  fld netdev_features_t "mpls_features";
  fld netdev_features_t "gso_partial_features";
  fld c_int "ifindex";
  fld c_int "group";
  fld struct_net_device_stats "stats";
  fld atomic_long_t "rx_dropped";
  fld atomic_long_t "tx_dropped";
  fld atomic_long_t "rx_nohandler";
  fld atomic_t "carrier_up_count";
  fld atomic_t "carrier_down_count";
  fld (ptr "const struct net_device_ops") "netdev_ops";
  fld (ptr "const struct ethtool_ops") "ethtool_ops";
  fld (ptr "const struct l3mdev_ops") "l3mdev_ops";
  fld (ptr "const struct ndisc_ops") "ndisc_ops";
  fld (ptr "const struct xfrmdev_ops") "xfrmdev_ops";
  fld (ptr "const struct header_ops") "header_ops";
  fld c_uint "flags";
  fld c_uint "priv_flags";
  fld c_ushort "gflags";
  fld c_ushort "padded";
  fld c_uchar "operstate";
  fld c_uchar "link_mode";
  fld c_uchar "if_port";
  fld c_uchar "dma";
  fld c_uint "mtu";
  fld c_uint "min_mtu";
  fld c_uint "max_mtu";
  fld c_ushort "type";
  fld c_ushort "hard_header_len";
  fld c_uchar "min_header_len";
  fld c_uchar "name_assign_type";
  fld c_ushort "needed_headroom";
  fld c_ushort "needed_tailroom";
  fld (arr c_uchar 32) "perm_addr";
  fld c_uchar "addr_assign_type";
  fld c_uchar "addr_len";
  fld c_uchar "upper_level";
  fld c_uchar "lower_level";
  fld c_ushort "neigh_priv_len";
  fld c_ushort "dev_id";
  fld c_ushort "dev_port";
  fld spinlock_t "addr_list_lock";
  fld struct_netdev_hw_addr_list "uc";
  fld struct_netdev_hw_addr_list "mc";
  fld struct_netdev_hw_addr_list "dev_addrs";
  fld (ptr "struct kset") "queues_kset";
  fld c_uint "promiscuity";
  fld c_uint "allmulti";
  fld bool_ "uc_promisc";
  fld (ptr "struct vlan_info") "vlan_info";
  fld (ptr "struct tipc_bearer") "tipc_ptr";
  fld (ptr "struct in_device") "ip_ptr";
  fld (ptr "struct inet6_dev") "ip6_ptr";
  fld (ptr "struct wireless_dev") "ieee80211_ptr";
  fld (ptr "struct wpan_dev") "ieee802154_ptr";
  fld (ptr "struct mpls_dev") "mpls_ptr";
  fld (ptr "unsigned char") "dev_addr";
  fld (ptr "struct netdev_rx_queue") "_rx";
  fld c_uint "num_rx_queues";
  fld c_uint "real_num_rx_queues";
  fld (ptr "struct bpf_prog") "xdp_prog";
  fld c_ulong "gro_flush_timeout";
  fld c_int "napi_defer_hard_irqs";
  fld (ptr "rx_handler_func_t") "rx_handler";
  fld (ptr "void") "rx_handler_data";
  fld (ptr "struct mini_Qdisc") "miniq_ingress";
  fld (ptr "struct netdev_queue") "ingress_queue";
  fld (ptr "struct nf_hook_entries") "nf_hooks_ingress";
  fld (arr c_uchar 32) "broadcast";
  fld (ptr "struct cpu_rmap") "rx_cpu_rmap";
  fld struct_hlist_node "index_hlist";
  pad c_long 64;
  pad c_long 64;
  pad c_long 64;
  pad c_long 64;
  pad c_long 64;
  pad c_long 64;
  fld (ptr "struct netdev_queue") "_tx";
  fld c_uint "num_tx_queues";
  fld c_uint "real_num_tx_queues";
  fld (ptr "struct Qdisc") "qdisc";
  fld c_uint "tx_queue_len";
  fld spinlock_t "tx_global_lock";
  fld (ptr "struct xdp_dev_bulk_queue") "xdp_bulkq";
  fld (ptr "struct xps_dev_maps") "xps_cpus_map";
  fld (ptr "struct xps_dev_maps") "xps_rxqs_map";
  fld (ptr "struct mini_Qdisc") "miniq_egress";
  fld (arr struct_hlist_head 16) "qdisc_hash";
  fld struct_timer_list "watchdog_timer";
  fld c_int "watchdog_timeo";
  fld u32 "proto_down_reason";
  fld struct_list_head "todo_list";
  fld (ptr "int") "pcpu_refcnt";
  fld struct_list_head "link_watch_list";
  bits (enum no_tag [
    ev "NETREG_UNINITIALIZED" 0;
    ev "NETREG_REGISTERED" 1;
    ev "NETREG_UNREGISTERING" 2;
    ev "NETREG_UNREGISTERED" 3;
    ev "NETREG_RELEASED" 4;
    ev "NETREG_DUMMY" 5]) "reg_state" 8;
  fld bool_ "dismantle";
  bits (enum no_tag [
    ev "RTNL_LINK_INITIALIZED" 0;
    ev "RTNL_LINK_INITIALIZING" 1]) "rtnl_link_state" 16;
  fld bool_ "needs_free_netdev";
  fld (fptr "void" "struct net_device *") "priv_destructor";
  fld (ptr "struct netpoll_info") "npinfo";
  fld possible_net_t "nd_net";
  fld (ptr "void") "ml_priv";
  fld enum_netdev_ml_priv_type "ml_priv_type";
  anon (union no_tag [
    fld (ptr "struct pcpu_lstats") "lstats";
    fld (ptr "struct pcpu_sw_netstats") "tstats";
    fld (ptr "struct pcpu_dstats") "dstats"]);
  fld (ptr "struct garp_port") "garp_port";
  fld (ptr "struct mrp_port") "mrp_port";
  fld struct_device "dev";
  fld (arr (ptr "const struct attribute_group") 4) "sysfs_groups";
  fld (ptr "const struct attribute_group") "sysfs_rx_queue_group";
  fld (ptr "const struct rtnl_link_ops") "rtnl_link_ops";
  fld c_uint "gso_max_size";
  fld u16 "gso_max_segs";
  fld (ptr "const struct dcbnl_rtnl_ops") "dcbnl_ops";
  fld s16 "num_tc";
  fld (arr struct_netdev_tc_txq 16) "tc_to_txq";
  fld (arr u8 16) "prio_tc_map";
  fld (ptr "struct netprio_map") "priomap";
  fld (ptr "struct phy_device") "phydev";
  fld (ptr "struct sfp_bus") "sfp_bus";
  fld (ptr "struct lock_class_key") "qdisc_tx_busylock";
  fld (ptr "struct lock_class_key") "qdisc_running_key";
  fld bool_ "proto_down";
  bits c_uint "wol_enabled" 1;
  fld struct_list_head "net_notifier_list";
  fld (ptr "const struct udp_tunnel_nic_info") "udp_tunnel_nic_info";
  fld (ptr "struct udp_tunnel_nic") "udp_tunnel_nic";
  fld (arr struct_bpf_xdp_entity 3) "xdp_state";
  pad c_long 64;
  pad c_long 64;
  pad c_long 64;
  pad c_long 64;
  pad c_long 64].

Definition struct_net_device_ops := struct "net_device_ops" [
  fld (fptr "int" "struct net_device *") "ndo_init";
  fld (fptr "void" "struct net_device *") "ndo_uninit";
  fld (fptr "int" "struct net_device *") "ndo_open";
  fld (fptr "int" "struct net_device *") "ndo_stop";
  fld (fptr "netdev_tx_t" "struct sk_buff *, struct net_device *") "ndo_start_xmit";
  fld (fptr "netdev_features_t" "struct sk_buff *, struct net_device *, netdev_features_t") "ndo_features_check";
  fld (fptr "u16" "struct net_device *, struct sk_buff *, struct net_device *") "ndo_select_queue";
  fld (fptr "void" "struct net_device *, int") "ndo_change_rx_flags";
  fld (fptr "void" "struct net_device *") "ndo_set_rx_mode";
  fld (fptr "int" "struct net_device *, void *") "ndo_set_mac_address";
  fld (fptr "int" "struct net_device *") "ndo_validate_addr";
  fld (fptr "int" "struct net_device *, struct ifreq *, int") "ndo_do_ioctl";
  fld (fptr "int" "struct net_device *, struct ifmap *") "ndo_set_config";
  fld (fptr "int" "struct net_device *, int") "ndo_change_mtu";
  fld (fptr "int" "struct net_device *, struct neigh_parms *") "ndo_neigh_setup";
  fld (fptr "void" "struct net_device *, unsigned int") "ndo_tx_timeout";
  fld (fptr "void" "struct net_device *, struct rtnl_link_stats64 *") "ndo_get_stats64";
  fld (fptr "bool" "const struct net_device *, int") "ndo_has_offload_stats";
  fld (fptr "int" "int, const struct net_device *, void *") "ndo_get_offload_stats";
  fld (fptr "struct net_device_stats *" "struct net_device *") "ndo_get_stats";
  fld (fptr "int" "struct net_device *, __be16, u16") "ndo_vlan_rx_add_vid";
  fld (fptr "int" "struct net_device *, __be16, u16") "ndo_vlan_rx_kill_vid";
  fld (fptr "void" "struct net_device *") "ndo_poll_controller";
  fld (fptr "int" "struct net_device *, struct netpoll_info *") "ndo_netpoll_setup";
  fld (fptr "void" "struct net_device *") "ndo_netpoll_cleanup";
  fld (fptr "int" "struct net_device *, int, u8 *") "ndo_set_vf_mac";
  fld (fptr "int" "struct net_device *, int, u16, u8, __be16") "ndo_set_vf_vlan";
  fld (fptr "int" "struct net_device *, int, int, int") "ndo_set_vf_rate";
  fld (fptr "int" "struct net_device *, int, bool") "ndo_set_vf_spoofchk";
  fld (fptr "int" "struct net_device *, int, bool") "ndo_set_vf_trust";
  fld (fptr "int" "struct net_device *, int, struct ifla_vf_info *") "ndo_get_vf_config";
  fld (fptr "int" "struct net_device *, int, int") "ndo_set_vf_link_state";
  fld (fptr "int" "struct net_device *, int, struct ifla_vf_stats *") "ndo_get_vf_stats";
  fld (fptr "int" "struct net_device *, int, struct nlattr **") "ndo_set_vf_port";
  fld (fptr "int" "struct net_device *, int, struct sk_buff *") "ndo_get_vf_port";
  fld (fptr "int" "struct net_device *, int, struct ifla_vf_guid *, struct ifla_vf_guid *") "ndo_get_vf_guid";
  fld (fptr "int" "struct net_device *, int, u64, int") "ndo_set_vf_guid";
  fld (fptr "int" "struct net_device *, int, bool") "ndo_set_vf_rss_query_en";
  fld (fptr "int" "struct net_device *, enum tc_setup_type, void *") "ndo_setup_tc";
  fld (fptr "int" "struct net_device *, u64 *, int") "ndo_fcoe_get_wwn";
  fld (fptr "int" "struct net_device *, const struct sk_buff *, u16, u32") "ndo_rx_flow_steer";
  fld (fptr "int" "struct net_device *, struct net_device *, struct netlink_ext_ack *") "ndo_add_slave";
  fld (fptr "int" "struct net_device *, struct net_device *") "ndo_del_slave";
  fld (fptr "struct net_device *" "struct net_device *, struct sk_buff *, bool") "ndo_get_xmit_slave";
  fld (fptr "netdev_features_t" "struct net_device *, netdev_features_t") "ndo_fix_features";
  fld (fptr "int" "struct net_device *, netdev_features_t") "ndo_set_features";
  fld (fptr "int" "struct net_device *, struct neighbour *") "ndo_neigh_construct";
  fld (fptr "void" "struct net_device *, struct neighbour *") "ndo_neigh_destroy";
  fld (fptr "int" "struct ndmsg *, struct nlattr **, struct net_device *, const unsigned char *, u16, u16, struct netlink_ext_ack *") "ndo_fdb_add";
  fld (fptr "int" "struct ndmsg *, struct nlattr **, struct net_device *, const unsigned char *, u16") "ndo_fdb_del";
  fld (fptr "int" "struct ndmsg *, struct nlattr **, struct net_device *, u16, struct netlink_ext_ack *") "ndo_fdb_del_bulk";
  fld (fptr "int" "struct sk_buff *, struct netlink_callback *, struct net_device *, struct net_device *, int *") "ndo_fdb_dump";
  fld (fptr "int" "struct sk_buff *, struct nlattr **, struct net_device *, const unsigned char *, u16, u32, u32, struct netlink_ext_ack *") "ndo_fdb_get";
  fld (fptr "int" "struct net_device *, struct nlmsghdr *, u16, struct netlink_ext_ack *") "ndo_bridge_setlink";
  fld (fptr "int" "struct sk_buff *, u32, u32, struct net_device *, u32, int") "ndo_bridge_getlink";
  fld (fptr "int" "struct net_device *, struct nlmsghdr *, u16") "ndo_bridge_dellink";
  fld (fptr "int" "struct net_device *, bool") "ndo_change_carrier";
  fld (fptr "int" "struct net_device *, struct netdev_phys_item_id *") "ndo_get_phys_port_id";
  fld (fptr "int" "struct net_device *, struct netdev_phys_item_id *") "ndo_get_port_parent_id";
  fld (fptr "int" "struct net_device *, char *, size_t") "ndo_get_phys_port_name";
  fld (fptr "void" "struct net_device *, struct udp_tunnel_info *") "ndo_udp_tunnel_add";
  fld (fptr "void" "struct net_device *, struct udp_tunnel_info *") "ndo_udp_tunnel_del";
  fld (fptr "void *" "struct net_device *, struct net_device *") "ndo_dfwd_add_station";
  fld (fptr "void" "struct net_device *, void *") "ndo_dfwd_del_station";
  fld (fptr "int" "struct net_device *, int, u32") "ndo_set_tx_maxrate";
  fld (fptr "int" "const struct net_device *") "ndo_get_iflink";
  fld (fptr "int" "struct net_device *, bool") "ndo_change_proto_down";
  fld (fptr "int" "struct net_device *, struct sk_buff *") "ndo_fill_metadata_dst";
  fld (fptr "void" "struct net_device *, int") "ndo_set_rx_headroom";
  fld (fptr "int" "struct net_device *, struct netdev_bpf *") "ndo_bpf";
  fld (fptr "int" "struct net_device *, int, struct xdp_frame **, u32") "ndo_xdp_xmit";
  fld (fptr "int" "struct net_device *, u32, u32") "ndo_xsk_wakeup";
  fld (fptr "struct devlink_port *" "struct net_device *") "ndo_get_devlink_port";
  fld (fptr "int" "struct net_device *, struct ip_tunnel_parm *, int") "ndo_tunnel_ctl";
  fld (fptr "struct net_device *" "struct net_device *") "ndo_get_peer_dev"].

Definition struct_rtnl_link_stats64 := struct "rtnl_link_stats64" [
  fld __u64 "rx_packets";
  fld __u64 "tx_packets";
  fld __u64 "rx_bytes";
  fld __u64 "tx_bytes";
  fld __u64 "rx_errors";
  fld __u64 "tx_errors";
  fld __u64 "rx_dropped";
  fld __u64 "tx_dropped";
  fld __u64 "multicast";
  fld __u64 "collisions";
  fld __u64 "rx_length_errors";
  fld __u64 "rx_over_errors";
  fld __u64 "rx_crc_errors";
  fld __u64 "rx_frame_errors";
  fld __u64 "rx_fifo_errors";
  fld __u64 "rx_missed_errors";
  fld __u64 "tx_aborted_errors";
  fld __u64 "tx_carrier_errors";
  fld __u64 "tx_fifo_errors";
  fld __u64 "tx_heartbeat_errors";
  fld __u64 "tx_window_errors";
  fld __u64 "rx_compressed";
  fld __u64 "tx_compressed";
  fld __u64 "rx_nohandler"].

Definition struct_rtnl_link_ops := struct "rtnl_link_ops" [
  fld struct_list_head "list";
  fld (ptr "const char") "kind";
  fld size_t "priv_size";
  fld (fptr "void" "struct net_device *") "setup";
  fld bool_ "netns_refund";
  fld c_uint "maxtype";
  fld (ptr "const struct nla_policy") "policy";
  fld (fptr "int" "struct nlattr **, struct nlattr **, struct netlink_ext_ack *") "validate";
  fld (fptr "int" "struct net *, struct net_device *, struct nlattr **, struct nlattr **, struct netlink_ext_ack *") "newlink";
  fld (fptr "int" "struct net_device *, struct nlattr **, struct nlattr **, struct netlink_ext_ack *") "changelink";
  fld (fptr "void" "struct net_device *, struct list_head *") "dellink";
  fld (fptr "size_t" "const struct net_device *") "get_size";
  fld (fptr "int" "struct sk_buff *, const struct net_device *") "fill_info";
  fld (fptr "size_t" "const struct net_device *") "get_xstats_size";
  fld (fptr "int" "struct sk_buff *, const struct net_device *") "fill_xstats";
  fld (fptr "unsigned int" "void") "get_num_tx_queues";
  fld (fptr "unsigned int" "void") "get_num_rx_queues";
  fld c_uint "slave_maxtype";
  fld (ptr "const struct nla_policy") "slave_policy";
  fld (fptr "int" "struct net_device *, struct net_device *, struct nlattr **, struct nlattr **, struct netlink_ext_ack *") "slave_changelink";
  fld (fptr "size_t" "const struct net_device *, const struct net_device *") "get_slave_size";
  fld (fptr "int" "struct sk_buff *, const struct net_device *, const struct net_device *") "fill_slave_info";
  fld (fptr "struct net *" "const struct net_device *") "get_link_net";
  fld (fptr "size_t" "const struct net_device *, int") "get_linkxstats_size";
  fld (fptr "int" "struct sk_buff *, const struct net_device *, int *, int") "fill_linkxstats"].

Definition struct_header_ops := struct "header_ops" [
  fld (fptr "int" "struct sk_buff *, struct net_device *, short unsigned int, const void *, const void *, unsigned int") "create";
  fld (fptr "int" "const struct sk_buff *, unsigned char *") "parse";
  fld (fptr "int" "const struct neighbour *, struct hh_cache *, __be16") "cache";
  fld (fptr "void" "struct hh_cache *, const struct net_device *, const unsigned char *") "cache_update";
  fld (fptr "bool" "const char *, unsigned int") "validate";
  fld (fptr "__be16" "const struct sk_buff *") "parse_protocol"].

Definition struct_qdisc_skb_head := struct "qdisc_skb_head" [
  fld (ptr "struct sk_buff") "head";
  fld (ptr "struct sk_buff") "tail";
  fld __u32 "qlen";
  fld spinlock_t "lock"].

Definition struct_gnet_stats_basic_packed := struct "gnet_stats_basic_packed" [
  fld __u64 "bytes";
  fld __u64 "packets"].

Definition struct_gnet_stats_queue := struct "gnet_stats_queue" [
  fld __u32 "qlen";
  fld __u32 "backlog";
  fld __u32 "drops";
  fld __u32 "requeues";
  fld __u32 "overlimits"].

Definition struct_Qdisc := struct "Qdisc" [
  fld (fptr "int" "struct sk_buff *, struct Qdisc *, struct sk_buff **") "enqueue";
  fld (fptr "struct sk_buff *" "struct Qdisc *") "dequeue";
  fld c_uint "flags";
  fld u32 "limit";
  fld (ptr "const struct Qdisc_ops") "ops";
  fld (ptr "struct qdisc_size_table") "stab";
  fld struct_hlist_node "hash";
  fld u32 "handle";
  fld u32 "parent";
  fld (ptr "struct netdev_queue") "dev_queue";
  fld (ptr "struct net_rate_estimator") "rate_est";
  fld (ptr "struct gnet_stats_basic_cpu") "cpu_bstats";
  fld (ptr "struct gnet_stats_queue") "cpu_qstats";
  fld c_int "pad";
  fld refcount_t "refcnt";
  pad c_long 64;
  pad c_long 64;
  pad c_long 64;
  fld struct_sk_buff_head "gso_skb";
  fld struct_qdisc_skb_head "q";
  fld struct_gnet_stats_basic_packed "bstats";
  fld seqcount_t "running";
  fld struct_gnet_stats_queue "qstats";
  fld c_ulong "state";
  fld (ptr "struct Qdisc") "next_sched";
  fld struct_sk_buff_head "skb_bad_txq";
  fld spinlock_t "busylock";
  fld spinlock_t "seqlock";
  fld bool_ "empty";
  fld struct_callback_head "rcu";
  pad c_long 64;
  pad c_long 64;
  pad c_long 64;
  pad c_long 64;
  fld (arr c_long 0) "privdata"].

Definition struct_mini_Qdisc := struct "mini_Qdisc" [
  fld (ptr "struct tcf_proto") "filter_list";
  fld (ptr "struct tcf_block") "block";
  fld (ptr "struct gnet_stats_basic_cpu") "cpu_bstats";
  fld (ptr "struct gnet_stats_queue") "cpu_qstats";
  fld struct_callback_head "rcu"].

Definition struct_tcf_proto := struct "tcf_proto" [
  fld (ptr "struct tcf_proto") "next";
  fld (ptr "void") "root";
  fld (fptr "int" "struct sk_buff *, const struct tcf_proto *, struct tcf_result *") "classify";
  fld __be16 "protocol";
  fld u32 "prio";
  fld (ptr "void") "data";
  fld (ptr "const struct tcf_proto_ops") "ops";
  fld (ptr "struct tcf_chain") "chain";
  fld spinlock_t "lock";
  fld bool_ "deleting";
  fld refcount_t "refcnt";
  fld struct_callback_head "rcu";
  fld struct_hlist_node "destroy_ht_node"].

Definition struct_nla_policy := struct "nla_policy" [
  fld u8 "type";
  fld u8 "validation_type";
  fld u16 "len";
  anon (union no_tag [
    fld u32 "bitfield32_valid";
    fld u32 "mask";
    fld (ptr "const char") "reject_message";
    fld (ptr "const struct nla_policy") "nested_policy";
    fld (ptr "struct netlink_range_validation") "range";
    fld (ptr "struct netlink_range_validation_signed") "range_signed";
    anon (struct no_tag [
      fld s16 "min";
      fld s16 "max"]);
    fld (fptr "int" "const struct nlattr *, struct netlink_ext_ack *") "validate";
    fld u16 "strict_start_type"])].

(** The declarations of the file. *)
Definition declarations : list ctype := [
  enum_net_device_flags; enum_RTM_BASE; enum_IFLA_UNSPEC; struct_ifinfomsg; struct_rtattr;
  struct_net_device_stats; struct_netdev_hw_addr_list; enum_netdev_ml_priv_type;
  enum_dl_dev_state; struct_dev_links_info; struct_pm_message; pm_message_t;
  struct_swait_queue_head; struct_completion; enum_rpm_request; enum_rpm_status;
  struct_dev_pm_info; struct_dev_archdata; enum_device_removable; struct_device;
  struct_netdev_tc_txq; struct_bpf_xdp_entity; struct_net_device; struct_net_device_ops;
  struct_rtnl_link_stats64; struct_rtnl_link_ops; struct_header_ops; struct_qdisc_skb_head;
  struct_gnet_stats_basic_packed; struct_gnet_stats_queue; struct_Qdisc; struct_mini_Qdisc;
  struct_tcf_proto; struct_nla_policy].
