(* ===== verification/VmQueue.v ===== *)
(** * Queueing, classification and receive paths

    Declarations of headers/vmlinux.h, one definition per declaration and one
    line per member, in the order of use: the queues, traffic-control blocks
    and classifiers on the path of a packet, the XDP context, and the conntrack
    tuple of netfilter. *)

From stdpp Require Import strings.
From S2P Require Import CLayout VmBase.

#[local] Open Scope string_scope.

Definition struct_gro_list := struct "gro_list" [
  fld struct_list_head "list";
  fld c_int "count"].

Definition struct_napi_struct := struct "napi_struct" [
  fld struct_list_head "poll_list";
  fld c_ulong "state";
  fld c_int "weight";
  fld c_int "defer_hard_irqs_count";
  fld c_ulong "gro_bitmask";
  fld (fptr "int" "struct napi_struct *, int") "poll";
  fld c_int "poll_owner";
  fld (ptr "struct net_device") "dev";
  fld (arr struct_gro_list 8) "gro_hash";
  fld (ptr "struct sk_buff") "skb";
  fld struct_list_head "rx_list";
  fld c_int "rx_count";
  fld struct_hrtimer "timer";
  fld struct_list_head "dev_list";
  fld struct_hlist_node "napi_hash_node";
  fld c_uint "napi_id"].

Definition struct_dql := struct "dql" [
  fld c_uint "num_queued";
  fld c_uint "adj_limit";
  fld c_uint "last_obj_cnt";
  pad c_long 64;
  pad c_long 64;
  pad c_long 64;
  pad c_long 64;
  pad c_long 64;
  pad c_long 64;
  fld c_uint "limit";
  fld c_uint "num_completed";
  fld c_uint "prev_ovlimit";
  fld c_uint "prev_num_queued";
  fld c_uint "prev_last_obj_cnt";
  fld c_uint "lowest_slack";
  fld c_ulong "slack_start_time";
  fld c_uint "max_limit";
  fld c_uint "min_limit";
  fld c_uint "slack_hold_time";
  pad c_long 64;
  pad c_long 64].

Definition struct_netdev_queue := struct "netdev_queue" [
  fld (ptr "struct net_device") "dev";
  fld (ptr "struct Qdisc") "qdisc";
  fld (ptr "struct Qdisc") "qdisc_sleeping";
  fld struct_kobject "kobj";
  fld c_int "numa_node";
  fld c_ulong "tx_maxrate";
  fld c_ulong "trans_timeout";
  fld (ptr "struct net_device") "sb_dev";
  fld (ptr "struct xsk_buff_pool") "pool";
  fld spinlock_t "_xmit_lock";
  fld c_int "xmit_lock_owner";
  fld c_ulong "trans_start";
  fld c_ulong "state";
  pad c_long 64;
  pad c_long 64;
  pad c_long 64;
  pad c_long 64;
  pad c_long 64;
  fld struct_dql "dql"].

Definition struct_Qdisc_ops := struct "Qdisc_ops" [
  fld (ptr "struct Qdisc_ops") "next";
  fld (ptr "const struct Qdisc_class_ops") "cl_ops";
  fld (arr c_char 16) "id";
  fld c_int "priv_size";
  fld c_uint "static_flags";
  fld (fptr "int" "struct sk_buff *, struct Qdisc *, struct sk_buff **") "enqueue";
  fld (fptr "struct sk_buff *" "struct Qdisc *") "dequeue";
  fld (fptr "struct sk_buff *" "struct Qdisc *") "peek";
  fld (fptr "int" "struct Qdisc *, struct nlattr *, struct netlink_ext_ack *") "init";
  fld (fptr "void" "struct Qdisc *") "reset";
  fld (fptr "void" "struct Qdisc *") "destroy";
  fld (fptr "int" "struct Qdisc *, struct nlattr *, struct netlink_ext_ack *") "change";
  fld (fptr "void" "struct Qdisc *") "attach";
  fld (fptr "int" "struct Qdisc *, unsigned int") "change_tx_queue_len";
  fld (fptr "void" "struct Qdisc *, unsigned int") "change_real_num_tx";
  fld (fptr "int" "struct Qdisc *, struct sk_buff *") "dump";
  fld (fptr "int" "struct Qdisc *, struct gnet_dump *") "dump_stats";
  fld (fptr "void" "struct Qdisc *, u32") "ingress_block_set";
  fld (fptr "void" "struct Qdisc *, u32") "egress_block_set";
  fld (fptr "u32" "struct Qdisc *") "ingress_block_get";
  fld (fptr "u32" "struct Qdisc *") "egress_block_get";
  fld (ptr "struct module") "owner"].

Definition struct_tcf_proto_ops := struct "tcf_proto_ops" [
  fld struct_list_head "head";
  fld (arr c_char 16) "kind";
  fld (fptr "int" "struct sk_buff *, const struct tcf_proto *, struct tcf_result *") "classify";
  fld (fptr "int" "struct tcf_proto *") "init";
  fld (fptr "void" "struct tcf_proto *, bool, struct netlink_ext_ack *") "destroy";
  fld (fptr "void *" "struct tcf_proto *, u32") "get";
  fld (fptr "void" "struct tcf_proto *, void *") "put";
  fld (fptr "int" "struct net *, struct sk_buff *, struct tcf_proto *, long unsigned int, u32, struct nlattr **, void **, bool, bool, struct netlink_ext_ack *") "change";
  fld (fptr "int" "struct tcf_proto *, void *, bool *, bool, struct netlink_ext_ack *") "delete";
  fld (fptr "bool" "struct tcf_proto *") "delete_empty";
  fld (fptr "void" "struct tcf_proto *, struct tcf_walker *, bool") "walk";
  fld (fptr "int" "struct tcf_proto *, bool, flow_setup_cb_t *, void *, struct netlink_ext_ack *") "reoffload";
  fld (fptr "void" "struct tcf_proto *, void *") "hw_add";
  fld (fptr "void" "struct tcf_proto *, void *") "hw_del";
  fld (fptr "void" "void *, u32, long unsigned int, void *, long unsigned int") "bind_class";
  fld (fptr "void *" "struct net *, struct tcf_chain *, struct nlattr **, struct netlink_ext_ack *") "tmplt_create";
  fld (fptr "void" "void *") "tmplt_destroy";
  fld (fptr "int" "struct net *, struct tcf_proto *, void *, struct sk_buff *, struct tcmsg *, bool") "dump";
  fld (fptr "int" "struct net *, struct tcf_proto *, void *, struct sk_buff *, struct tcmsg *, bool") "terse_dump";
  fld (fptr "int" "struct sk_buff *, struct net *, void *") "tmplt_dump";
  fld (ptr "struct module") "owner";
  fld c_int "flags"].

Definition struct_flow_block := struct "flow_block" [
  fld struct_list_head "cb_list"].

Definition struct_tcf_block := struct "tcf_block" [
  fld struct_mutex "lock";
  fld struct_list_head "chain_list";
  fld u32 "index";
  fld u32 "classid";
  fld refcount_t "refcnt";
  fld (ptr "struct net") "net";
  fld (ptr "struct Qdisc") "q";
  fld struct_rw_semaphore "cb_lock";
  fld struct_flow_block "flow_block";
  fld struct_list_head "owner_list";
  fld bool_ "keep_dst";
  fld atomic_t "offloadcnt";
  fld c_uint "nooffloaddevcnt";
  fld c_uint "lockeddevcnt";
  fld (struct no_tag [
    fld (ptr "struct tcf_chain") "chain";
    fld struct_list_head "filter_chain_list"]) "chain0";
  fld struct_callback_head "rcu";
  fld (arr struct_hlist_head 128) "proto_destroy_ht";
  fld struct_mutex "proto_destroy_lock"].

Definition struct_tcf_chain := struct "tcf_chain" [
  fld struct_mutex "filter_chain_lock";
  fld (ptr "struct tcf_proto") "filter_chain";
  fld struct_list_head "list";
  fld (ptr "struct tcf_block") "block";
  fld u32 "index";
  fld c_uint "refcnt";
  fld c_uint "action_refcnt";
  fld bool_ "explicitly_created";
  fld bool_ "flushing";
  fld (ptr "const struct tcf_proto_ops") "tmplt_ops";
  fld (ptr "void") "tmplt_priv";
  fld struct_callback_head "rcu"].

Definition struct_tcf_result := struct "tcf_result" [
  anon (union no_tag [
    anon (struct no_tag [
      fld c_ulong "class";
      fld u32 "classid"]);
    fld (ptr "const struct tcf_proto") "goto_tp";
    anon (struct no_tag [
      fld bool_ "ingress";
      fld (ptr "struct gnet_stats_queue") "qstats"])])].

Definition struct_tcmsg := struct "tcmsg" [
  fld c_uchar "tcm_family";
  fld c_uchar "tcm__pad1";
  fld c_ushort "tcm__pad2";
  fld c_int "tcm_ifindex";
  fld __u32 "tcm_handle";
  fld __u32 "tcm_parent";
  fld __u32 "tcm_info"].

Definition struct_xdp_md := struct "xdp_md" [
  fld __u32 "data";
  fld __u32 "data_end";
  fld __u32 "data_meta";
  fld __u32 "ingress_ifindex";
  fld __u32 "rx_queue_index";
  fld __u32 "egress_ifindex"].

Definition struct_xdp_buff := struct "xdp_buff" [
  fld (ptr "void") "data";
  fld (ptr "void") "data_end";
  fld (ptr "void") "data_meta";
  fld (ptr "void") "data_hard_start";
  fld (ptr "struct xdp_rxq_info") "rxq";
  fld (ptr "struct xdp_txq_info") "txq";
  fld u32 "frame_sz"].

Definition smp_call_func_t := fptr "void" "void *".

Definition struct___call_single_data := struct "__call_single_data" [
  anon (union no_tag [
    fld struct___call_single_node "node";
    anon (struct no_tag [
      fld struct_llist_node "llist";
      fld c_uint "flags";
      fld u16 "src";
      fld u16 "dst"])]);
  fld smp_call_func_t "func";
  fld (ptr "void") "info"].

Definition call_single_data_t := struct___call_single_data.

Definition struct_softnet_data := struct "softnet_data" [
  fld struct_list_head "poll_list";
  fld struct_sk_buff_head "process_queue";
  fld c_uint "processed";
  fld c_uint "time_squeeze";
  fld c_uint "received_rps";
  fld (ptr "struct softnet_data") "rps_ipi_list";
  fld (ptr "struct sd_flow_limit") "flow_limit";
  fld (ptr "struct Qdisc") "output_queue";
  fld (ptr "struct Qdisc **") "output_queue_tailp";
  fld (ptr "struct sk_buff") "completion_queue";
  fld struct_sk_buff_head "xfrm_backlog";
  fld (struct no_tag [
    fld u16 "recursion";
    fld u8 "more"]) "xmit";
  pad c_long 0;
  fld c_uint "input_queue_head";
  pad c_long 64;
  pad c_long 64;
  pad c_long 64;
  pad c_long 64;
  pad c_long 64;
  pad c_long 64;
  pad c_long 64;
  fld call_single_data_t "csd";
  fld (ptr "struct softnet_data") "rps_ipi_next";
  fld c_uint "cpu";
  fld c_uint "input_queue_tail";
  fld c_uint "dropped";
  fld struct_sk_buff_head "input_pkt_queue";
  fld struct_napi_struct "backlog";
  pad c_long 64;
  pad c_long 64;
  pad c_long 64;
  pad c_long 64;
  pad c_long 64].

Definition struct_bpf_prog_array_item := struct "bpf_prog_array_item" [
  fld (ptr "struct bpf_prog") "prog";
  fld (arr (ptr "struct bpf_cgroup_storage") 2) "cgroup_storage"].

Definition struct_bpf_prog_array := struct "bpf_prog_array" [
  fld struct_callback_head "rcu";
  fld (arr struct_bpf_prog_array_item 0) "items"].

Definition struct_bpf_cgroup_storage_key := struct "bpf_cgroup_storage_key" [
  fld __u64 "cgroup_inode_id";
  fld __u32 "attach_type"].

Definition struct_bpf_cgroup_storage := struct "bpf_cgroup_storage" [
  anon (union no_tag [
    fld (ptr "struct bpf_storage_buffer") "buf";
    fld (ptr "void") "percpu_buf"]);
  fld (ptr "struct bpf_cgroup_storage_map") "map";
  fld struct_bpf_cgroup_storage_key "key";
  fld struct_list_head "list_map";
  fld struct_list_head "list_cg";
  fld struct_rb_node "node";
  fld struct_callback_head "rcu"].

Definition struct_bpf_sock := struct "bpf_sock" [
  fld __u32 "bound_dev_if";
  fld __u32 "family";
  fld __u32 "type";
  fld __u32 "protocol";
  fld __u32 "mark";
  fld __u32 "priority";
  fld __u32 "src_ip4";
  fld (arr __u32 4) "src_ip6";
  fld __u32 "src_port";
  fld __be16 "dst_port";
  fld __u32 "dst_ip4";
  fld (arr __u32 4) "dst_ip6";
  fld __u32 "state";
  fld __s32 "rx_queue_mapping"].

Definition struct_bpf_tunnel_key := struct "bpf_tunnel_key" [
  fld __u32 "tunnel_id";
  anon (union no_tag [
    fld __u32 "remote_ipv4";
    fld (arr __u32 4) "remote_ipv6"]);
  fld __u8 "tunnel_tos";
  fld __u8 "tunnel_ttl";
  fld __u16 "tunnel_ext";
  fld __u32 "tunnel_label"].

Definition struct_in_addr := struct "in_addr" [
  fld __be32 "s_addr"].

Definition union_nf_inet_addr := union "nf_inet_addr" [
  fld (arr __u32 4) "all";
  fld __be32 "ip";
  fld (arr __be32 4) "ip6";
  fld struct_in_addr "in";
  fld struct_in6_addr "in6"].

Definition union_nf_conntrack_man_proto := union "nf_conntrack_man_proto" [
  fld __be16 "all";
  fld (struct no_tag [
    fld __be16 "port"]) "tcp";
  fld (struct no_tag [
    fld __be16 "port"]) "udp";
  fld (struct no_tag [
    fld __be16 "id"]) "icmp";
  fld (struct no_tag [
    fld __be16 "port"]) "dccp";
  fld (struct no_tag [
    fld __be16 "port"]) "sctp";
  fld (struct no_tag [
    fld __be16 "key"]) "gre"].

Definition u_int16_t := u16.

Definition struct_nf_conntrack_man := struct "nf_conntrack_man" [
  fld union_nf_inet_addr "u3";
  fld union_nf_conntrack_man_proto "u";
  fld u_int16_t "l3num"].

Definition struct_nf_conntrack_tuple := struct "nf_conntrack_tuple" [
  fld struct_nf_conntrack_man "src";
  fld (struct no_tag [
    fld union_nf_inet_addr "u3";
    fld (union no_tag [
      fld __be16 "all";
      fld (struct no_tag [
        fld __be16 "port"]) "tcp";
      fld (struct no_tag [
        fld __be16 "port"]) "udp";
      fld (struct no_tag [
        fld u_int8_t "type";
        fld u_int8_t "code"]) "icmp";
      fld (struct no_tag [
        fld __be16 "port"]) "dccp";
      fld (struct no_tag [
        fld __be16 "port"]) "sctp";
      fld (struct no_tag [
        fld __be16 "key"]) "gre"]) "u";
    fld u_int8_t "protonum";
    fld u_int8_t "dir"]) "dst"].

Definition struct_nlattr := struct "nlattr" [
  fld __u16 "nla_len";
  fld __u16 "nla_type"].

Definition struct_nlmsgerr := struct "nlmsgerr" [
  fld c_int "error";
  fld struct_nlmsghdr "msg"].

Definition struct_netlink_ext_ack := struct "netlink_ext_ack" [
  fld (ptr "const char") "_msg";
  fld (ptr "const struct nlattr") "bad_attr";
  fld (ptr "const struct nla_policy") "policy";
  fld (arr u8 20) "cookie";
  fld u8 "cookie_len"].

Definition __kernel_sa_family_t := c_ushort.

Definition struct_sockaddr_nl := struct "sockaddr_nl" [
  fld __kernel_sa_family_t "nl_family";
  fld c_ushort "nl_pad";
  fld __u32 "nl_pid";
  fld __u32 "nl_groups"].

Definition struct_rtnl_link_ifmap := struct "rtnl_link_ifmap" [
  fld __u64 "mem_start";
  fld __u64 "mem_end";
  fld __u64 "base_addr";
  fld __u16 "irq";
  fld __u8 "dma";
  fld __u8 "port"].

(** The declarations of the file. *)
Definition declarations : list ctype := [
  struct_gro_list; struct_napi_struct; struct_dql; struct_netdev_queue; struct_Qdisc_ops;
  struct_tcf_proto_ops; struct_flow_block; struct_tcf_block; struct_tcf_chain;
  struct_tcf_result; struct_tcmsg; struct_xdp_md; struct_xdp_buff; smp_call_func_t;
  struct___call_single_data; call_single_data_t; struct_softnet_data;
  struct_bpf_prog_array_item; struct_bpf_prog_array; struct_bpf_cgroup_storage_key;
  struct_bpf_cgroup_storage; struct_bpf_sock; struct_bpf_tunnel_key; struct_in_addr;
  union_nf_inet_addr; union_nf_conntrack_man_proto; u_int16_t; struct_nf_conntrack_man;
  struct_nf_conntrack_tuple; struct_nlattr; struct_nlmsgerr; struct_netlink_ext_ack;
  __kernel_sa_family_t; struct_sockaddr_nl; struct_rtnl_link_ifmap].
