(* ===== verification/VmRouting.v ===== *)
(** * Routing and neighbours

    Declarations of headers/vmlinux.h, one definition per declaration and one
    line per member, in the order of use: the route of a rewritten packet:
    destinations, neighbours, the IPv4 part of a network namespace. *)

From stdpp Require Import strings.
From S2P Require Import CLayout VmBase.

#[local] Open Scope string_scope.

Definition struct_dst_entry := struct "dst_entry" [
  anon (union no_tag [
    fld (ptr "struct net_device") "dev";
    fld (ptr "struct net_device") "dev_rcu"]);
  fld (ptr "struct dst_ops") "ops";
  fld c_ulong "_metrics";
  fld c_ulong "expires";
  fld (ptr "struct xfrm_state") "xfrm";
  fld (fptr "int" "struct sk_buff *") "input";
  fld (fptr "int" "struct net *, struct sock *, struct sk_buff *") "output";
  fld c_ushort "flags";
  fld c_short "obsolete";
  fld c_ushort "header_len";
  fld c_ushort "trailer_len";
  fld atomic_t "__refcnt";
  fld c_int "__use";
  fld c_ulong "lastuse";
  fld (ptr "struct lwtunnel_state") "lwtstate";
  fld struct_callback_head "callback_head";
  fld c_short "error";
  fld c_short "__pad";
  fld __u32 "tclassid"].

Definition struct_rtable := struct "rtable" [
  fld struct_dst_entry "dst";
  fld c_int "rt_genid";
  fld c_uint "rt_flags";
  fld __u16 "rt_type";
  fld __u8 "rt_is_input";
  fld __u8 "rt_uses_gateway";
  fld c_int "rt_iif";
  fld u8 "rt_gw_family";
  anon (union no_tag [
    fld __be32 "rt_gw4";
    fld struct_in6_addr "rt_gw6"]);
  bits u32 "rt_mtu_locked" 1;
  bits u32 "rt_pmtu" 31;
  fld struct_list_head "rt_uncached";
  fld (ptr "struct uncached_list") "rt_uncached_list"].

Definition struct_hh_cache := struct "hh_cache" [
  fld c_uint "hh_len";
  fld seqlock_t "hh_lock";
  fld (arr c_ulong 4) "hh_data"].

Definition struct_neighbour := struct "neighbour" [
  fld (ptr "struct neighbour") "next";
  fld (ptr "struct neigh_table") "tbl";
  fld (ptr "struct neigh_parms") "parms";
  fld c_ulong "confirmed";
  fld c_ulong "updated";
  fld rwlock_t "lock";
  fld refcount_t "refcnt";
  fld c_uint "arp_queue_len_bytes";
  fld struct_sk_buff_head "arp_queue";
  fld struct_timer_list "timer";
  fld c_ulong "used";
  fld atomic_t "probes";
  fld __u8 "flags";
  fld __u8 "nud_state";
  fld __u8 "type";
  fld __u8 "dead";
  fld u8 "protocol";
  fld seqlock_t "ha_lock";
  pad c_long 0;
  fld (arr c_uchar 32) "ha";
  fld struct_hh_cache "hh";
  fld (fptr "int" "struct neighbour *, struct sk_buff *") "output";
  fld (ptr "const struct neigh_ops") "ops";
  fld struct_list_head "gc_list";
  fld struct_callback_head "rcu";
  fld (ptr "struct net_device") "dev";
  fld (arr u8 0) "primary_key"].

Definition struct_neigh_parms := struct "neigh_parms" [
  fld possible_net_t "net";
  fld (ptr "struct net_device") "dev";
  fld struct_list_head "list";
  fld (fptr "int" "struct neighbour *") "neigh_setup";
  fld (ptr "struct neigh_table") "tbl";
  fld (ptr "void") "sysctl_table";
  fld c_int "dead";
  fld refcount_t "refcnt";
  fld struct_callback_head "callback_head";
  fld c_int "reachable_time";
  fld (arr c_int 13) "data";
  fld (arr c_ulong 1) "data_state"].

Definition struct_neigh_table := struct "neigh_table" [
  fld c_int "family";
  fld c_uint "entry_size";
  fld c_uint "key_len";
  fld __be16 "protocol";
  fld (fptr "__u32" "const void *, const struct net_device *, __u32 *") "hash";
  fld (fptr "bool" "const struct neighbour *, const void *") "key_eq";
  fld (fptr "int" "struct neighbour *") "constructor";
  fld (fptr "int" "struct pneigh_entry *") "pconstructor";
  fld (fptr "void" "struct pneigh_entry *") "pdestructor";
  fld (fptr "void" "struct sk_buff *") "proxy_redo";
  fld (fptr "int" "const void *") "is_multicast";
  fld (fptr "bool" "const struct net_device *, struct netlink_ext_ack *") "allow_add";
  fld (ptr "char") "id";
  fld struct_neigh_parms "parms";
  fld struct_list_head "parms_list";
  fld c_int "gc_interval";
  fld c_int "gc_thresh1";
  fld c_int "gc_thresh2";
  fld c_int "gc_thresh3";
  fld c_ulong "last_flush";
  fld struct_delayed_work "gc_work";
  fld struct_timer_list "proxy_timer";
  fld struct_sk_buff_head "proxy_queue";
  fld atomic_t "entries";
  fld atomic_t "gc_entries";
  fld struct_list_head "gc_list";
  fld rwlock_t "lock";
  fld c_ulong "last_rand";
  fld (ptr "struct neigh_statistics") "stats";
  fld (ptr "struct neigh_hash_table") "nht";
  fld (ptr "struct pneigh_entry **") "phash_buckets"].

Definition struct_ipv4_devconf := struct "ipv4_devconf" [
  fld (ptr "void") "sysctl";
  fld (arr c_int 32) "data";
  fld (arr c_ulong 1) "state"].

Definition struct_in_device := struct "in_device" [
  fld (ptr "struct net_device") "dev";
  fld refcount_t "refcnt";
  fld c_int "dead";
  fld (ptr "struct in_ifaddr") "ifa_list";
  fld (ptr "struct ip_mc_list") "mc_list";
  fld (ptr "struct ip_mc_list **") "mc_hash";
  fld c_int "mc_count";
  fld spinlock_t "mc_tomb_lock";
  fld (ptr "struct ip_mc_list") "mc_tomb";
  fld c_ulong "mr_v1_seen";
  fld c_ulong "mr_v2_seen";
  fld c_ulong "mr_maxdelay";
  fld c_ulong "mr_qi";
  fld c_ulong "mr_qri";
  fld c_uchar "mr_qrv";
  fld c_uchar "mr_gq_running";
  fld u32 "mr_ifc_count";
  fld struct_timer_list "mr_gq_timer";
  fld struct_timer_list "mr_ifc_timer";
  fld (ptr "struct neigh_parms") "arp_parms";
  fld struct_ipv4_devconf "cnf";
  fld struct_callback_head "callback_head"].

Definition struct_fib_nh := struct "fib_nh" [
  fld struct_fib_nh_common "nh_common";
  fld struct_hlist_node "nh_hash";
  fld (ptr "struct fib_info") "nh_parent";
  fld __u32 "nh_tclassid";
  fld __be32 "nh_saddr";
  fld c_int "nh_saddr_genid"].

Definition struct_fib_info := struct "fib_info" [
  fld struct_hlist_node "fib_hash";
  fld struct_hlist_node "fib_lhash";
  fld struct_list_head "nh_list";
  fld (ptr "struct net") "fib_net";
  fld c_int "fib_treeref";
  fld refcount_t "fib_clntref";
  fld c_uint "fib_flags";
  fld c_uchar "fib_dead";
  fld c_uchar "fib_protocol";
  fld c_uchar "fib_scope";
  fld c_uchar "fib_type";
  fld __be32 "fib_prefsrc";
  fld u32 "fib_tb_id";
  fld u32 "fib_priority";
  fld (ptr "struct dst_metrics") "fib_metrics";
  fld c_int "fib_nhs";
  fld bool_ "fib_nh_is_v6";
  fld bool_ "nh_updated";
  fld bool_ "pfsrc_removed";
  fld (ptr "struct nexthop") "nh";
  fld struct_callback_head "rcu";
  fld (arr struct_fib_nh 0) "fib_nh"].

Definition struct_bpf_fib_lookup := struct "bpf_fib_lookup" [
  fld __u8 "family";
  fld __u8 "l4_protocol";
  fld __be16 "sport";
  fld __be16 "dport";
  fld __u16 "tot_len";
  fld __u32 "ifindex";
  anon (union no_tag [
    fld __u8 "tos";
    fld __be32 "flowinfo";
    fld __u32 "rt_metric"]);
  anon (union no_tag [
    fld __be32 "ipv4_src";
    fld (arr __u32 4) "ipv6_src"]);
  anon (union no_tag [
    fld __be32 "ipv4_dst";
    fld (arr __u32 4) "ipv6_dst"]);
  fld __be16 "h_vlan_proto";
  fld __be16 "h_vlan_TCI";
  fld (arr __u8 6) "smac";
  fld (arr __u8 6) "dmac"].

Definition struct_rtmsg := struct "rtmsg" [
  fld c_uchar "rtm_family";
  fld c_uchar "rtm_dst_len";
  fld c_uchar "rtm_src_len";
  fld c_uchar "rtm_tos";
  fld c_uchar "rtm_table";
  fld c_uchar "rtm_protocol";
  fld c_uchar "rtm_scope";
  fld c_uchar "rtm_type";
  fld c_uint "rtm_flags"].

Definition struct_ndmsg := struct "ndmsg" [
  fld __u8 "ndm_family";
  fld __u8 "ndm_pad1";
  fld __u16 "ndm_pad2";
  fld __s32 "ndm_ifindex";
  fld __u16 "ndm_state";
  fld __u8 "ndm_flags";
  fld __u8 "ndm_type"].

(** The declarations of the file. *)
Definition declarations : list ctype := [
  struct_dst_entry; struct_rtable; struct_hh_cache; struct_neighbour; struct_neigh_parms;
  struct_neigh_table; struct_ipv4_devconf; struct_in_device; struct_fib_nh; struct_fib_info;
  struct_bpf_fib_lookup; struct_rtmsg; struct_ndmsg].
