(* ===== verification/VmSock.v ===== *)
(** * Sockets

    Declarations of headers/vmlinux.h, one definition per declaration and one
    line per member, in the order of use: the sockets a packet belongs to. *)

From stdpp Require Import strings.
From S2P Require Import CLayout VmBase.

#[local] Open Scope string_scope.

Definition slab_flags_t := c_uint.

Definition struct_proto := struct "proto" [
  fld (fptr "void" "struct sock *, long int") "close";
  fld (fptr "int" "struct sock *, struct sockaddr *, int") "pre_connect";
  fld (fptr "int" "struct sock *, struct sockaddr *, int") "connect";
  fld (fptr "int" "struct sock *, int") "disconnect";
  fld (fptr "struct sock *" "struct sock *, int, int *, bool") "accept";
  fld (fptr "int" "struct sock *, int, long unsigned int") "ioctl";
  fld (fptr "int" "struct sock *") "init";
  fld (fptr "void" "struct sock *") "destroy";
  fld (fptr "void" "struct sock *, int") "shutdown";
  fld (fptr "int" "struct sock *, int, int, sockptr_t, unsigned int") "setsockopt";
  fld (fptr "int" "struct sock *, int, int, char *, int *") "getsockopt";
  fld (fptr "void" "struct sock *, int") "keepalive";
  fld (fptr "int" "struct sock *, unsigned int, long unsigned int") "compat_ioctl";
  fld (fptr "int" "struct sock *, struct msghdr *, size_t") "sendmsg";
  fld (fptr "int" "struct sock *, struct msghdr *, size_t, int, int, int *") "recvmsg";
  fld (fptr "int" "struct sock *, struct page *, int, size_t, int") "sendpage";
  fld (fptr "int" "struct sock *, struct sockaddr *, int") "bind";
  fld (fptr "int" "struct sock *, struct sockaddr *, int") "bind_add";
  fld (fptr "int" "struct sock *, struct sk_buff *") "backlog_rcv";
  fld (fptr "bool" "int, int") "bpf_bypass_getsockopt";
  fld (fptr "void" "struct sock *") "release_cb";
  fld (fptr "int" "struct sock *") "hash";
  fld (fptr "void" "struct sock *") "unhash";
  fld (fptr "void" "struct sock *") "rehash";
  fld (fptr "int" "struct sock *, short unsigned int") "get_port";
  fld c_uint "inuse_idx";
  fld (fptr "bool" "const struct sock *, int") "stream_memory_free";
  fld (fptr "bool" "struct sock *") "sock_is_readable";
  fld (fptr "void" "struct sock *") "enter_memory_pressure";
  fld (fptr "void" "struct sock *") "leave_memory_pressure";
  fld (ptr "atomic_long_t") "memory_allocated";
  fld (ptr "struct percpu_counter") "sockets_allocated";
  fld (ptr "long unsigned int") "memory_pressure";
  fld (ptr "long int") "sysctl_mem";
  fld (ptr "int") "sysctl_wmem";
  fld (ptr "int") "sysctl_rmem";
  fld u32 "sysctl_wmem_offset";
  fld u32 "sysctl_rmem_offset";
  fld c_int "max_header";
  fld bool_ "no_autobind";
  fld (ptr "struct kmem_cache") "slab";
  fld c_uint "obj_size";
  fld slab_flags_t "slab_flags";
  fld c_uint "useroffset";
  fld c_uint "usersize";
  fld (ptr "unsigned int") "orphan_count";
  fld (ptr "struct request_sock_ops") "rsk_prot";
  fld (ptr "struct timewait_sock_ops") "twsk_prot";
  fld (union no_tag [
    fld (ptr "struct inet_hashinfo") "hashinfo";
    fld (ptr "struct udp_table") "udp_table";
    fld (ptr "struct raw_hashinfo") "raw_hash";
    fld (ptr "struct smc_hashinfo") "smc_hash"]) "h";
  fld (ptr "struct module") "owner";
  fld (arr c_char 32) "name";
  fld struct_list_head "node";
  fld (fptr "int" "struct sock *, int") "diag_destroy"].

Definition struct_udp_sock := struct "udp_sock" [
  fld struct_inet_sock "inet";
  fld c_int "pending";
  fld c_uint "corkflag";
  fld __u8 "encap_type";
  bits c_uchar "no_check6_tx" 1;
  bits c_uchar "no_check6_rx" 1;
  bits c_uchar "encap_enabled" 1;
  bits c_uchar "gro_enabled" 1;
  bits c_uchar "accept_udp_l4" 1;
  bits c_uchar "accept_udp_fraglist" 1;
  fld __u16 "len";
  fld __u16 "gso_size";
  fld __u16 "pcslen";
  fld __u16 "pcrlen";
  fld __u8 "pcflag";
  fld (arr __u8 3) "unused";
  fld (fptr "int" "struct sock *, struct sk_buff *") "encap_rcv";
  fld (fptr "int" "struct sock *, struct sk_buff *") "encap_err_lookup";
  fld (fptr "void" "struct sock *") "encap_destroy";
  fld (fptr "struct sk_buff *" "struct sock *, struct list_head *, struct sk_buff *") "gro_receive";
  fld (fptr "int" "struct sock *, struct sk_buff *, int") "gro_complete";
  pad c_long 64;
  pad c_long 64;
  pad c_long 64;
  pad c_long 64;
  pad c_long 64;
  pad c_long 64;
  fld struct_sk_buff_head "reader_queue";
  fld c_int "forward_deficit";
  pad c_long 64;
  pad c_long 64;
  pad c_long 64;
  pad c_long 64].

(** The declarations of the file. *)
Definition declarations : list ctype := [
  slab_flags_t; struct_proto; struct_udp_sock].
