(* ===== verification/VmNetns.v ===== *)
(** * Network namespaces and transport

    Declarations of headers/vmlinux.h, one definition per declaration and one
    line per member, in the order of use: the namespace a pod's veth lives in,
    with its tables, IPv6, and the sockets and pages behind a TCP or netlink
    connection. *)

From stdpp Require Import strings.
From S2P Require Import CLayout VmBase.

#[local] Open Scope string_scope.

Definition struct_idr := struct "idr" [
  fld struct_xarray "idr_rt";
  fld c_uint "idr_base";
  fld c_uint "idr_next"].

Definition struct_ns_common := struct "ns_common" [
  fld atomic_long_t "stashed";
  fld (ptr "const struct proc_ns_operations") "ops";
  fld c_uint "inum"].

Definition struct_ctl_table_header := struct "ctl_table_header" [
  anon (union no_tag [
    anon (struct no_tag [
      fld (ptr "struct ctl_table") "ctl_table";
      fld c_int "used";
      fld c_int "count";
      fld c_int "nreg"]);
    fld struct_callback_head "rcu"]);
  fld (ptr "struct completion") "unregistering";
  fld (ptr "struct ctl_table") "ctl_table_arg";
  fld (ptr "struct ctl_table_root") "root";
  fld (ptr "struct ctl_table_set") "set";
  fld (ptr "struct ctl_dir") "parent";
  fld (ptr "struct ctl_node") "node";
  fld struct_hlist_head "inodes"].

Definition struct_ctl_dir := struct "ctl_dir" [
  fld struct_ctl_table_header "header";
  fld struct_rb_root "root"].

Definition struct_ctl_table_set := struct "ctl_table_set" [
  fld (fptr "int" "struct ctl_table_set *") "is_seen";
  fld struct_ctl_dir "dir"].

Definition struct_raw_notifier_head := struct "raw_notifier_head" [
  fld (ptr "struct notifier_block") "head"].

Definition struct_netns_core := struct "netns_core" [
  fld (ptr "struct ctl_table_header") "sysctl_hdr";
  fld c_int "sysctl_somaxconn";
  fld (ptr "int") "sock_inuse";
  fld (ptr "struct prot_inuse") "prot_inuse"].

Definition struct_netns_mib := struct "netns_mib" [
  fld (ptr "struct tcp_mib") "tcp_statistics";
  fld (ptr "struct ipstats_mib") "ip_statistics";
  fld (ptr "struct linux_mib") "net_statistics";
  fld (ptr "struct udp_mib") "udp_statistics";
  fld (ptr "struct udp_mib") "udplite_statistics";
  fld (ptr "struct icmp_mib") "icmp_statistics";
  fld (ptr "struct icmpmsg_mib") "icmpmsg_statistics";
  fld (ptr "struct proc_dir_entry") "proc_net_devsnmp6";
  fld (ptr "struct udp_mib") "udp_stats_in6";
  fld (ptr "struct udp_mib") "udplite_stats_in6";
  fld (ptr "struct ipstats_mib") "ipv6_statistics";
  fld (ptr "struct icmpv6_mib") "icmpv6_statistics";
  fld (ptr "struct icmpv6msg_mib") "icmpv6msg_statistics";
  fld (ptr "struct linux_xfrm_mib") "xfrm_statistics";
  fld (ptr "struct linux_tls_mib") "tls_statistics";
  fld (ptr "struct mptcp_mib") "mptcp_statistics"].

Definition struct_netns_packet := struct "netns_packet" [
  fld struct_mutex "sklist_lock";
  fld struct_hlist_head "sklist"].

Definition struct_netns_unix := struct "netns_unix" [
  fld c_int "sysctl_max_dgram_qlen";
  fld (ptr "struct ctl_table_header") "ctl"].

Definition struct_blocking_notifier_head := struct "blocking_notifier_head" [
  fld struct_rw_semaphore "rwsem";
  fld (ptr "struct notifier_block") "head"].

Definition struct_netns_nexthop := struct "netns_nexthop" [
  fld struct_rb_root "rb_root";
  fld (ptr "struct hlist_head") "devhash";
  fld c_uint "seq";
  fld u32 "last_id_allocated";
  fld struct_blocking_notifier_head "notifier_chain"].

Definition struct_netns_sysctl_ipv6 := struct "netns_sysctl_ipv6" [
  fld (ptr "struct ctl_table_header") "hdr";
  fld (ptr "struct ctl_table_header") "route_hdr";
  fld (ptr "struct ctl_table_header") "icmp_hdr";
  fld (ptr "struct ctl_table_header") "frags_hdr";
  fld (ptr "struct ctl_table_header") "xfrm6_hdr";
  fld c_int "bindv6only";
  fld c_int "flush_delay";
  fld c_int "ip6_rt_max_size";
  fld c_int "ip6_rt_gc_min_interval";
  fld c_int "ip6_rt_gc_timeout";
  fld c_int "ip6_rt_gc_interval";
  fld c_int "ip6_rt_gc_elasticity";
  fld c_int "ip6_rt_mtu_expires";
  fld c_int "ip6_rt_min_advmss";
  fld c_int "multipath_hash_policy";
  fld c_int "flowlabel_consistency";
  fld c_int "auto_flowlabels";
  fld c_int "icmpv6_time";
  fld c_int "icmpv6_echo_ignore_all";
  fld c_int "icmpv6_echo_ignore_multicast";
  fld c_int "icmpv6_echo_ignore_anycast";
  fld (arr c_ulong 4) "icmpv6_ratemask";
  fld (ptr "long unsigned int") "icmpv6_ratemask_ptr";
  fld c_int "anycast_src_echo_reply";
  fld c_int "ip_nonlocal_bind";
  fld c_int "fwmark_reflect";
  fld c_int "idgen_retries";
  fld c_int "idgen_delay";
  fld c_int "flowlabel_state_ranges";
  fld c_int "flowlabel_reflect";
  fld c_int "max_dst_opts_cnt";
  fld c_int "max_hbh_opts_cnt";
  fld c_int "max_dst_opts_len";
  fld c_int "max_hbh_opts_len";
  fld c_int "seg6_flowlabel";
  fld bool_ "skip_notify_on_dev_down"].

Definition struct_netns_ipv6 := struct "netns_ipv6" [
  fld struct_netns_sysctl_ipv6 "sysctl";
  fld (ptr "struct ipv6_devconf") "devconf_all";
  fld (ptr "struct ipv6_devconf") "devconf_dflt";
  fld (ptr "struct inet_peer_base") "peers";
  fld (ptr "struct fqdir") "fqdir";
  fld (ptr "struct xt_table") "ip6table_filter";
  fld (ptr "struct xt_table") "ip6table_mangle";
  fld (ptr "struct xt_table") "ip6table_raw";
  fld (ptr "struct xt_table") "ip6table_security";
  fld (ptr "struct xt_table") "ip6table_nat";
  fld (ptr "struct fib6_info") "fib6_null_entry";
  fld (ptr "struct rt6_info") "ip6_null_entry";
  fld (ptr "struct rt6_statistics") "rt6_stats";
  fld struct_timer_list "ip6_fib_timer";
  fld (ptr "struct hlist_head") "fib_table_hash";
  fld (ptr "struct fib6_table") "fib6_main_tbl";
  fld struct_list_head "fib6_walkers";
  pad c_long 64;
  pad c_long 64;
  fld struct_dst_ops "ip6_dst_ops";
  fld rwlock_t "fib6_walker_lock";
  fld spinlock_t "fib6_gc_lock";
  fld atomic_t "ip6_rt_gc_expire";
  fld c_ulong "ip6_rt_last_gc";
  fld c_uchar "flowlabel_has_excl";
  fld bool_ "fib6_has_custom_rules";
  fld c_uint "fib6_rules_require_fldissect";
  fld c_uint "fib6_routes_require_src";
  fld (ptr "struct rt6_info") "ip6_prohibit_entry";
  fld (ptr "struct rt6_info") "ip6_blk_hole_entry";
  fld (ptr "struct fib6_table") "fib6_local_tbl";
  fld (ptr "struct fib_rules_ops") "fib6_rules_ops";
  fld (ptr "struct sock **") "icmp_sk";
  fld (ptr "struct sock") "ndisc_sk";
  fld (ptr "struct sock") "tcp_sk";
  fld (ptr "struct sock") "igmp_sk";
  fld (ptr "struct sock") "mc_autojoin_sk";
  fld struct_list_head "mr6_tables";
  fld (ptr "struct fib_rules_ops") "mr6_rules_ops";
  fld atomic_t "dev_addr_genid";
  fld atomic_t "fib6_sernum";
  fld (ptr "struct seg6_pernet_data") "seg6_data";
  fld (ptr "struct fib_notifier_ops") "notifier_ops";
  fld (ptr "struct fib_notifier_ops") "ip6mr_notifier_ops";
  fld c_uint "ipmr_seq";
  fld (struct no_tag [
    fld struct_hlist_head "head";
    fld spinlock_t "lock";
    fld u32 "seq"]) "ip6addrlbl_table"].

Definition struct_netns_sctp := struct "netns_sctp" [
  fld (ptr "struct sctp_mib") "sctp_statistics";
  fld (ptr "struct proc_dir_entry") "proc_net_sctp";
  fld (ptr "struct ctl_table_header") "sysctl_header";
  fld (ptr "struct sock") "ctl_sock";
  fld struct_list_head "local_addr_list";
  fld struct_list_head "addr_waitq";
  fld struct_timer_list "addr_wq_timer";
  fld struct_list_head "auto_asconf_splist";
  fld spinlock_t "addr_wq_lock";
  fld spinlock_t "local_addr_lock";
  fld c_uint "rto_initial";
  fld c_uint "rto_min";
  fld c_uint "rto_max";
  fld c_int "rto_alpha";
  fld c_int "rto_beta";
  fld c_int "max_burst";
  fld c_int "cookie_preserve_enable";
  fld (ptr "char") "sctp_hmac_alg";
  fld c_uint "valid_cookie_life";
  fld c_uint "sack_timeout";
  fld c_uint "hb_interval";
  fld c_int "max_retrans_association";
  fld c_int "max_retrans_path";
  fld c_int "max_retrans_init";
  fld c_int "pf_retrans";
  fld c_int "ps_retrans";
  fld c_int "pf_enable";
  fld c_int "pf_expose";
  fld c_int "sndbuf_policy";
  fld c_int "rcvbuf_policy";
  fld c_int "default_auto_asconf";
  fld c_int "addip_enable";
  fld c_int "addip_noauth";
  fld c_int "prsctp_enable";
  fld c_int "reconf_enable";
  fld c_int "auth_enable";
  fld c_int "intl_enable";
  fld c_int "ecn_enable";
  fld c_int "scope_policy";
  fld c_int "rwnd_upd_shift";
  fld c_ulong "max_autoclose"].

Definition struct_netns_dccp := struct "netns_dccp" [
  fld (ptr "struct sock") "v4_ctl_sk";
  fld (ptr "struct sock") "v6_ctl_sk"].

Definition struct_netns_nf := struct "netns_nf" [
  fld (ptr "struct proc_dir_entry") "proc_netfilter";
  fld (ptr "const struct nf_queue_handler") "queue_handler";
  fld (arr (ptr "const struct nf_logger") 13) "nf_loggers";
  fld (ptr "struct ctl_table_header") "nf_log_dir_header";
  fld (arr (ptr "struct nf_hook_entries") 5) "hooks_ipv4";
  fld (arr (ptr "struct nf_hook_entries") 5) "hooks_ipv6";
  fld (arr (ptr "struct nf_hook_entries") 3) "hooks_arp";
  fld (arr (ptr "struct nf_hook_entries") 5) "hooks_bridge";
  fld bool_ "defrag_ipv4";
  fld bool_ "defrag_ipv6"].

Definition struct_netns_xt := struct "netns_xt" [
  fld (arr struct_list_head 13) "tables";
  fld bool_ "notrack_deprecated_warning";
  fld bool_ "clusterip_deprecated_warning";
  fld (ptr "struct ebt_table") "broute_table";
  fld (ptr "struct ebt_table") "frame_filter";
  fld (ptr "struct ebt_table") "frame_nat"].

Definition struct_nf_generic_net := struct "nf_generic_net" [
  fld c_uint "timeout"].

Definition struct_nf_tcp_net := struct "nf_tcp_net" [
  fld (arr c_uint 14) "timeouts";
  fld c_int "tcp_loose";
  fld c_int "tcp_be_liberal";
  fld c_int "tcp_max_retrans"].

Definition struct_nf_udp_net := struct "nf_udp_net" [
  fld (arr c_uint 2) "timeouts"].

Definition struct_nf_icmp_net := struct "nf_icmp_net" [
  fld c_uint "timeout"].

Definition struct_nf_dccp_net := struct "nf_dccp_net" [
  fld c_int "dccp_loose";
  fld (arr c_uint 10) "dccp_timeout"].

Definition struct_nf_sctp_net := struct "nf_sctp_net" [
  fld (arr c_uint 10) "timeouts"].

Definition struct_nf_gre_net := struct "nf_gre_net" [
  fld struct_list_head "keymap_list";
  fld (arr c_uint 2) "timeouts"].

Definition struct_nf_ip_net := struct "nf_ip_net" [
  fld struct_nf_generic_net "generic";
  fld struct_nf_tcp_net "tcp";
  fld struct_nf_udp_net "udp";
  fld struct_nf_icmp_net "icmp";
  fld struct_nf_icmp_net "icmpv6";
  fld struct_nf_dccp_net "dccp";
  fld struct_nf_sctp_net "sctp";
  fld struct_nf_gre_net "gre"].

Definition struct_netns_ct := struct "netns_ct" [
  fld atomic_t "count";
  fld c_uint "expect_count";
  fld struct_delayed_work "ecache_dwork";
  fld bool_ "ecache_dwork_pending";
  fld bool_ "auto_assign_helper_warned";
  fld (ptr "struct ctl_table_header") "sysctl_header";
  fld c_uint "sysctl_log_invalid";
  fld c_int "sysctl_events";
  fld c_int "sysctl_acct";
  fld c_int "sysctl_auto_assign_helper";
  fld c_int "sysctl_tstamp";
  fld c_int "sysctl_checksum";
  fld (ptr "struct ct_pcpu") "pcpu_lists";
  fld (ptr "struct ip_conntrack_stat") "stat";
  fld (ptr "struct nf_ct_event_notifier") "nf_conntrack_event_cb";
  fld (ptr "struct nf_exp_event_notifier") "nf_expect_event_cb";
  fld struct_nf_ip_net "nf_ct_proto";
  fld c_uint "labels_used"].

Definition struct_netns_nftables := struct "netns_nftables" [
  fld u8 "gencursor"].

Definition struct_netns_nf_frag := struct "netns_nf_frag" [
  fld (ptr "struct fqdir") "fqdir"].

Definition struct_netns_bpf := struct "netns_bpf" [
  fld (arr (ptr "struct bpf_prog_array") 2) "run_array";
  fld (arr (ptr "struct bpf_prog") 2) "progs";
  fld (arr struct_list_head 2) "links"].

Definition struct_xfrm_policy_hash := struct "xfrm_policy_hash" [
  fld (ptr "struct hlist_head") "table";
  fld c_uint "hmask";
  fld u8 "dbits4";
  fld u8 "sbits4";
  fld u8 "dbits6";
  fld u8 "sbits6"].

Definition struct_xfrm_policy_hthresh := struct "xfrm_policy_hthresh" [
  fld struct_work_struct "work";
  fld seqlock_t "lock";
  fld u8 "lbits4";
  fld u8 "rbits4";
  fld u8 "lbits6";
  fld u8 "rbits6"].

Definition struct_netns_xfrm := struct "netns_xfrm" [
  fld struct_list_head "state_all";
  fld (ptr "struct hlist_head") "state_bydst";
  fld (ptr "struct hlist_head") "state_bysrc";
  fld (ptr "struct hlist_head") "state_byspi";
  fld c_uint "state_hmask";
  fld c_uint "state_num";
  fld struct_work_struct "state_hash_work";
  fld struct_list_head "policy_all";
  fld (ptr "struct hlist_head") "policy_byidx";
  fld c_uint "policy_idx_hmask";
  fld c_uint "idx_generator";
  fld (arr struct_hlist_head 3) "policy_inexact";
  fld (arr struct_xfrm_policy_hash 3) "policy_bydst";
  fld (arr c_uint 6) "policy_count";
  fld struct_work_struct "policy_hash_work";
  fld struct_xfrm_policy_hthresh "policy_hthresh";
  fld struct_list_head "inexact_bins";
  fld (ptr "struct sock") "nlsk";
  fld (ptr "struct sock") "nlsk_stash";
  fld u32 "sysctl_aevent_etime";
  fld u32 "sysctl_aevent_rseqth";
  fld c_int "sysctl_larval_drop";
  fld u32 "sysctl_acq_expires";
  fld (arr u8 3) "policy_default";
  fld (ptr "struct ctl_table_header") "sysctl_hdr";
  pad c_long 64;
  pad c_long 64;
  pad c_long 64;
  pad c_long 64;
  fld struct_dst_ops "xfrm4_dst_ops";
  fld struct_dst_ops "xfrm6_dst_ops";
  fld spinlock_t "xfrm_state_lock";
  fld seqcount_t "xfrm_state_hash_generation";
  fld seqcount_spinlock_t "xfrm_policy_hash_generation";
  fld spinlock_t "xfrm_policy_lock";
  fld struct_mutex "xfrm_cfg_mutex";
  pad c_long 64;
  pad c_long 64].

Definition struct_netns_mpls := struct "netns_mpls" [
  fld c_int "ip_ttl_propagate";
  fld c_int "default_ttl";
  fld size_t "platform_labels";
  fld (ptr "struct mpls_route **") "platform_label";
  fld (ptr "struct ctl_table_header") "ctl"].

Definition struct_netns_can := struct "netns_can" [
  fld (ptr "struct proc_dir_entry") "proc_dir";
  fld (ptr "struct proc_dir_entry") "pde_stats";
  fld (ptr "struct proc_dir_entry") "pde_reset_stats";
  fld (ptr "struct proc_dir_entry") "pde_rcvlist_all";
  fld (ptr "struct proc_dir_entry") "pde_rcvlist_fil";
  fld (ptr "struct proc_dir_entry") "pde_rcvlist_inv";
  fld (ptr "struct proc_dir_entry") "pde_rcvlist_sff";
  fld (ptr "struct proc_dir_entry") "pde_rcvlist_eff";
  fld (ptr "struct proc_dir_entry") "pde_rcvlist_err";
  fld (ptr "struct proc_dir_entry") "bcmproc_dir";
  fld (ptr "struct can_dev_rcv_lists") "rx_alldev_list";
  fld spinlock_t "rcvlists_lock";
  fld struct_timer_list "stattimer";
  fld (ptr "struct can_pkg_stats") "pkg_stats";
  fld (ptr "struct can_rcv_lists_stats") "rcv_lists_stats";
  fld struct_hlist_head "cgw_list"].

Definition struct_netns_xdp := struct "netns_xdp" [
  fld struct_mutex "lock";
  fld struct_hlist_head "list"].

Definition struct_net := struct "net" [
  fld refcount_t "passive";
  fld refcount_t "count";
  fld spinlock_t "rules_mod_lock";
  fld c_uint "dev_unreg_count";
  fld c_uint "dev_base_seq";
  fld c_int "ifindex";
  fld spinlock_t "nsid_lock";
  fld atomic_t "fnhe_genid";
  fld struct_list_head "list";
  fld struct_list_head "exit_list";
  fld struct_llist_node "defer_free_list";
  fld struct_llist_node "cleanup_list";
  fld (ptr "struct key_tag") "key_domain";
  fld (ptr "struct user_namespace") "user_ns";
  fld (ptr "struct ucounts") "ucounts";
  fld struct_idr "netns_ids";
  fld struct_ns_common "ns";
  fld struct_list_head "dev_base_head";
  fld (ptr "struct proc_dir_entry") "proc_net";
  fld (ptr "struct proc_dir_entry") "proc_net_stat";
  fld struct_ctl_table_set "sysctls";
  fld (ptr "struct sock") "rtnl";
  fld (ptr "struct sock") "genl_sock";
  fld (ptr "struct uevent_sock") "uevent_sock";
  fld (ptr "struct hlist_head") "dev_name_head";
  fld (ptr "struct hlist_head") "dev_index_head";
  fld struct_raw_notifier_head "netdev_chain";
  fld u32 "hash_mix";
  fld (ptr "struct net_device") "loopback_dev";
  fld struct_list_head "rules_ops";
  fld struct_netns_core "core";
  fld struct_netns_mib "mib";
  fld struct_netns_packet "packet";
  fld struct_netns_unix "unx";
  fld struct_netns_nexthop "nexthop";
  pad c_long 64;
  pad c_long 64;
  pad c_long 64;
  pad c_long 64;
  pad c_long 64;
  pad c_long 64;
  pad c_long 64;
  fld struct_netns_ipv4 "ipv4";
  fld struct_netns_ipv6 "ipv6";
  fld struct_netns_sctp "sctp";
  fld struct_netns_dccp "dccp";
  fld struct_netns_nf "nf";
  fld struct_netns_xt "xt";
  fld struct_netns_ct "ct";
  fld struct_netns_nftables "nft";
  fld struct_netns_nf_frag "nf_frag";
  fld (ptr "struct ctl_table_header") "nf_frag_frags_hdr";
  fld (ptr "struct sock") "nfnl";
  fld (ptr "struct sock") "nfnl_stash";
  fld struct_list_head "nfnl_acct_list";
  fld struct_list_head "nfct_timeout_list";
  fld (ptr "struct net_generic") "gen";
  fld struct_netns_bpf "bpf";
  pad c_long 64;
  pad c_long 64;
  pad c_long 64;
  fld struct_netns_xfrm "xfrm";
  fld atomic64_t "net_cookie";
  fld (ptr "struct netns_ipvs") "ipvs";
  fld struct_netns_mpls "mpls";
  fld struct_netns_can "can";
  fld struct_netns_xdp "xdp";
  fld (ptr "struct sock") "crypto_nlsk";
  fld (ptr "struct sock") "diag_nlsk";
  pad c_long 64;
  pad c_long 64;
  pad c_long 64;
  pad c_long 64;
  pad c_long 64;
  pad c_long 64;
  pad c_long 64].

Definition struct_fastopen_queue := struct "fastopen_queue" [
  fld (ptr "struct request_sock") "rskq_rst_head";
  fld (ptr "struct request_sock") "rskq_rst_tail";
  fld spinlock_t "lock";
  fld c_int "qlen";
  fld c_int "max_qlen";
  fld (ptr "struct tcp_fastopen_context") "ctx"].

Definition struct_request_sock_queue := struct "request_sock_queue" [
  fld spinlock_t "rskq_lock";
  fld u8 "rskq_defer_accept";
  fld u32 "synflood_warned";
  fld atomic_t "qlen";
  fld atomic_t "young";
  fld (ptr "struct request_sock") "rskq_accept_head";
  fld (ptr "struct request_sock") "rskq_accept_tail";
  fld struct_fastopen_queue "fastopenq"].

Definition struct_inet_connection_sock := struct "inet_connection_sock" [
  fld struct_inet_sock "icsk_inet";
  fld struct_request_sock_queue "icsk_accept_queue";
  fld (ptr "struct inet_bind_bucket") "icsk_bind_hash";
  fld c_ulong "icsk_timeout";
  fld struct_timer_list "icsk_retransmit_timer";
  fld struct_timer_list "icsk_delack_timer";
  fld __u32 "icsk_rto";
  fld __u32 "icsk_rto_min";
  fld __u32 "icsk_delack_max";
  fld __u32 "icsk_pmtu_cookie";
  fld (ptr "const struct tcp_congestion_ops") "icsk_ca_ops";
  fld (ptr "const struct inet_connection_sock_af_ops") "icsk_af_ops";
  fld (ptr "const struct tcp_ulp_ops") "icsk_ulp_ops";
  fld (ptr "void") "icsk_ulp_data";
  fld (fptr "void" "struct sock *, u32") "icsk_clean_acked";
  fld struct_hlist_node "icsk_listen_portaddr_node";
  fld (fptr "unsigned int" "struct sock *, u32") "icsk_sync_mss";
  bits __u8 "icsk_ca_state" 5;
  bits __u8 "icsk_ca_initialized" 1;
  bits __u8 "icsk_ca_setsockopt" 1;
  bits __u8 "icsk_ca_dst_locked" 1;
  fld __u8 "icsk_retransmits";
  fld __u8 "icsk_pending";
  fld __u8 "icsk_backoff";
  fld __u8 "icsk_syn_retries";
  fld __u8 "icsk_probes_out";
  fld __u16 "icsk_ext_hdr_len";
  fld (struct no_tag [
    fld __u8 "pending";
    fld __u8 "quick";
    fld __u8 "pingpong";
    fld __u8 "retry";
    fld __u32 "ato";
    fld c_ulong "timeout";
    fld __u32 "lrcvtime";
    fld __u16 "last_seg_size";
    fld __u16 "rcv_mss"]) "icsk_ack";
  fld (struct no_tag [
    fld c_int "enabled";
    fld c_int "search_high";
    fld c_int "search_low";
    fld c_int "probe_size";
    fld u32 "probe_timestamp"]) "icsk_mtup";
  fld u32 "icsk_probes_tstamp";
  fld u32 "icsk_user_timeout";
  fld (arr u64 28) "icsk_ca_priv"].

Definition struct_tcp_rack := struct "tcp_rack" [
  fld u64 "mstamp";
  fld u32 "rtt_us";
  fld u32 "end_seq";
  fld u32 "last_delivered";
  fld u8 "reo_wnd_steps";
  bits u8 "reo_wnd_persist" 5;
  bits u8 "dsack_seen" 1;
  bits u8 "advanced" 1].

Definition struct_minmax_sample := struct "minmax_sample" [
  fld u32 "t";
  fld u32 "v"].

Definition struct_minmax := struct "minmax" [
  fld (arr struct_minmax_sample 3) "s"].

Definition struct_tcp_options_received := struct "tcp_options_received" [
  fld c_int "ts_recent_stamp";
  fld u32 "ts_recent";
  fld u32 "rcv_tsval";
  fld u32 "rcv_tsecr";
  bits u16 "saw_tstamp" 1;
  bits u16 "tstamp_ok" 1;
  bits u16 "dsack" 1;
  bits u16 "wscale_ok" 1;
  bits u16 "sack_ok" 3;
  bits u16 "smc_ok" 1;
  bits u16 "snd_wscale" 4;
  bits u16 "rcv_wscale" 4;
  bits u8 "saw_unknown" 1;
  bits u8 "unused" 7;
  fld u8 "num_sacks";
  fld u16 "user_mss";
  fld u16 "mss_clamp"].

Definition struct_tcp_sack_block := struct "tcp_sack_block" [
  fld u32 "start_seq";
  fld u32 "end_seq"].

Definition struct_tcp_sock := struct "tcp_sock" [
  fld struct_inet_connection_sock "inet_conn";
  fld u16 "tcp_header_len";
  fld u16 "gso_segs";
  fld __be32 "pred_flags";
  fld u64 "bytes_received";
  fld u32 "segs_in";
  fld u32 "data_segs_in";
  fld u32 "rcv_nxt";
  fld u32 "copied_seq";
  fld u32 "rcv_wup";
  fld u32 "snd_nxt";
  fld u32 "segs_out";
  fld u32 "data_segs_out";
  fld u64 "bytes_sent";
  fld u64 "bytes_acked";
  fld u32 "dsack_dups";
  fld u32 "snd_una";
  fld u32 "snd_sml";
  fld u32 "rcv_tstamp";
  fld u32 "lsndtime";
  fld u32 "last_oow_ack_time";
  fld u32 "compressed_ack_rcv_nxt";
  fld u32 "tsoffset";
  fld struct_list_head "tsq_node";
  fld struct_list_head "tsorted_sent_queue";
  fld u32 "snd_wl1";
  fld u32 "snd_wnd";
  fld u32 "max_window";
  fld u32 "mss_cache";
  fld u32 "window_clamp";
  fld u32 "rcv_ssthresh";
  fld struct_tcp_rack "rack";
  fld u16 "advmss";
  fld u8 "compressed_ack";
  bits u8 "dup_ack_counter" 2;
  bits u8 "tlp_retrans" 1;
  bits u8 "fast_ack_mode" 2;
  bits u8 "unused" 3;
  fld u32 "chrono_start";
  fld (arr u32 3) "chrono_stat";
  bits u8 "chrono_type" 2;
  bits u8 "rate_app_limited" 1;
  bits u8 "fastopen_connect" 1;
  bits u8 "fastopen_no_cookie" 1;
  bits u8 "is_sack_reneg" 1;
  bits u8 "fastopen_client_fail" 2;
  bits u8 "nonagle" 4;
  bits u8 "thin_lto" 1;
  bits u8 "recvmsg_inq" 1;
  bits u8 "repair" 1;
  bits u8 "frto" 1;
  fld u8 "repair_queue";
  bits u8 "save_syn" 2;
  bits u8 "syn_data" 1;
  bits u8 "syn_fastopen" 1;
  bits u8 "syn_fastopen_exp" 1;
  bits u8 "syn_fastopen_ch" 1;
  bits u8 "syn_data_acked" 1;
  bits u8 "is_cwnd_limited" 1;
  fld u32 "tlp_high_seq";
  fld u32 "tcp_tx_delay";
  fld u64 "tcp_wstamp_ns";
  fld u64 "tcp_clock_cache";
  fld u64 "tcp_mstamp";
  fld u32 "srtt_us";
  fld u32 "mdev_us";
  fld u32 "mdev_max_us";
  fld u32 "rttvar_us";
  fld u32 "rtt_seq";
  fld struct_minmax "rtt_min";
  fld u32 "packets_out";
  fld u32 "retrans_out";
  fld u32 "max_packets_out";
  fld u32 "cwnd_usage_seq";
  fld u16 "urg_data";
  fld u8 "ecn_flags";
  fld u8 "keepalive_probes";
  fld u32 "reordering";
  fld u32 "reord_seen";
  fld u32 "snd_up";
  fld struct_tcp_options_received "rx_opt";
  fld u32 "snd_ssthresh";
  fld u32 "snd_cwnd";
  fld u32 "snd_cwnd_cnt";
  fld u32 "snd_cwnd_clamp";
  fld u32 "snd_cwnd_used";
  fld u32 "snd_cwnd_stamp";
  fld u32 "prior_cwnd";
  fld u32 "prr_delivered";
  fld u32 "prr_out";
  fld u32 "delivered";
  fld u32 "delivered_ce";
  fld u32 "lost";
  fld u32 "app_limited";
  fld u64 "first_tx_mstamp";
  fld u64 "delivered_mstamp";
  fld u32 "rate_delivered";
  fld u32 "rate_interval_us";
  fld u32 "rcv_wnd";
  fld u32 "write_seq";
  fld u32 "notsent_lowat";
  fld u32 "pushed_seq";
  fld u32 "lost_out";
  fld u32 "sacked_out";
  fld struct_hrtimer "pacing_timer";
  fld struct_hrtimer "compressed_ack_timer";
  fld (ptr "struct sk_buff") "lost_skb_hint";
  fld (ptr "struct sk_buff") "retransmit_skb_hint";
  fld struct_rb_root "out_of_order_queue";
  fld (ptr "struct sk_buff") "ooo_last_skb";
  fld (arr struct_tcp_sack_block 1) "duplicate_sack";
  fld (arr struct_tcp_sack_block 4) "selective_acks";
  fld (arr struct_tcp_sack_block 4) "recv_sack_cache";
  fld (ptr "struct sk_buff") "highest_sack";
  fld c_int "lost_cnt_hint";
  fld u32 "prior_ssthresh";
  fld u32 "high_seq";
  fld u32 "retrans_stamp";
  fld u32 "undo_marker";
  fld c_int "undo_retrans";
  fld u64 "bytes_retrans";
  fld u32 "total_retrans";
  fld u32 "urg_seq";
  fld c_uint "keepalive_time";
  fld c_uint "keepalive_intvl";
  fld c_int "linger2";
  fld u8 "bpf_sock_ops_cb_flags";
  fld u16 "timeout_rehash";
  fld u32 "rcv_ooopack";
  fld u32 "rcv_rtt_last_tsecr";
  fld (struct no_tag [
    fld u32 "rtt_us";
    fld u32 "seq";
    fld u64 "time"]) "rcv_rtt_est";
  fld (struct no_tag [
    fld u32 "space";
    fld u32 "seq";
    fld u64 "time"]) "rcvq_space";
  fld (struct no_tag [
    fld u32 "probe_seq_start";
    fld u32 "probe_seq_end"]) "mtu_probe";
  fld u32 "mtu_info";
  fld bool_ "is_mptcp";
  fld (ptr "const struct tcp_sock_af_ops") "af_specific";
  fld (ptr "struct tcp_md5sig_info") "md5sig_info";
  fld (ptr "struct tcp_fastopen_request") "fastopen_req";
  fld (ptr "struct request_sock") "fastopen_rsk";
  fld (ptr "struct saved_syn") "saved_syn";
  fld u16 "ecn_rehash"].

Definition xfrm_address_t := union no_tag [
    fld __be32 "a4";
    fld (arr __be32 4) "a6";
    fld struct_in6_addr "in6"].

Definition struct_xfrm_id := struct "xfrm_id" [
  fld xfrm_address_t "daddr";
  fld __be32 "spi";
  fld __u8 "proto"].

Definition struct_xfrm_selector := struct "xfrm_selector" [
  fld xfrm_address_t "daddr";
  fld xfrm_address_t "saddr";
  fld __be16 "dport";
  fld __be16 "dport_mask";
  fld __be16 "sport";
  fld __be16 "sport_mask";
  fld __u16 "family";
  fld __u8 "prefixlen_d";
  fld __u8 "prefixlen_s";
  fld __u8 "proto";
  fld c_int "ifindex";
  fld __kernel_uid32_t "user"].

Definition struct_xfrm_mark := struct "xfrm_mark" [
  fld __u32 "v";
  fld __u32 "m"].

Definition struct_xfrm_state_walk := struct "xfrm_state_walk" [
  fld struct_list_head "all";
  fld u8 "state";
  fld u8 "dying";
  fld u8 "proto";
  fld u32 "seq";
  fld (ptr "struct xfrm_address_filter") "filter"].

Definition struct_xfrm_lifetime_cfg := struct "xfrm_lifetime_cfg" [
  fld __u64 "soft_byte_limit";
  fld __u64 "hard_byte_limit";
  fld __u64 "soft_packet_limit";
  fld __u64 "hard_packet_limit";
  fld __u64 "soft_add_expires_seconds";
  fld __u64 "hard_add_expires_seconds";
  fld __u64 "soft_use_expires_seconds";
  fld __u64 "hard_use_expires_seconds"].

Definition struct_xfrm_replay_state := struct "xfrm_replay_state" [
  fld __u32 "oseq";
  fld __u32 "seq";
  fld __u32 "bitmap"].

Definition struct_xfrm_stats := struct "xfrm_stats" [
  fld __u32 "replay_window";
  fld __u32 "replay";
  fld __u32 "integrity_failed"].

Definition struct_xfrm_lifetime_cur := struct "xfrm_lifetime_cur" [
  fld __u64 "bytes";
  fld __u64 "packets";
  fld __u64 "add_time";
  fld __u64 "use_time"].

Definition struct_xfrm_dev_offload := struct "xfrm_dev_offload" [
  fld (ptr "struct net_device") "dev";
  fld (ptr "struct net_device") "real_dev";
  fld c_ulong "offload_handle";
  fld c_uint "num_exthdrs";
  fld u8 "flags";
  bits u8 "dir" 2].

Definition struct_xfrm_mode := struct "xfrm_mode" [
  fld u8 "encap";
  fld u8 "family";
  fld u8 "flags"].

Definition struct_xfrm_state := struct "xfrm_state" [
  fld possible_net_t "xs_net";
  anon (union no_tag [
    fld struct_hlist_node "gclist";
    fld struct_hlist_node "bydst"]);
  fld struct_hlist_node "bysrc";
  fld struct_hlist_node "byspi";
  fld refcount_t "refcnt";
  fld spinlock_t "lock";
  fld struct_xfrm_id "id";
  fld struct_xfrm_selector "sel";
  fld struct_xfrm_mark "mark";
  fld u32 "if_id";
  fld u32 "tfcpad";
  fld u32 "genid";
  fld struct_xfrm_state_walk "km";
  fld (struct no_tag [
    fld u32 "reqid";
    fld u8 "mode";
    fld u8 "replay_window";
    fld u8 "aalgo";
    fld u8 "ealgo";
    fld u8 "calgo";
    fld u8 "flags";
    fld u16 "family";
    fld xfrm_address_t "saddr";
    fld c_int "header_len";
    fld c_int "trailer_len";
    fld u32 "extra_flags";
    fld struct_xfrm_mark "smark"]) "props";
  fld struct_xfrm_lifetime_cfg "lft";
  fld (ptr "struct xfrm_algo_auth") "aalg";
  fld (ptr "struct xfrm_algo") "ealg";
  fld (ptr "struct xfrm_algo") "calg";
  fld (ptr "struct xfrm_algo_aead") "aead";
  fld (ptr "const char") "geniv";
  fld __be16 "new_mapping_sport";
  fld u32 "new_mapping";
  fld u32 "mapping_maxage";
  fld (ptr "struct xfrm_encap_tmpl") "encap";
  fld (ptr "struct sock") "encap_sk";
  fld (ptr "xfrm_address_t") "coaddr";
  fld (ptr "struct xfrm_state") "tunnel";
  fld atomic_t "tunnel_users";
  fld struct_xfrm_replay_state "replay";
  fld (ptr "struct xfrm_replay_state_esn") "replay_esn";
  fld struct_xfrm_replay_state "preplay";
  fld (ptr "struct xfrm_replay_state_esn") "preplay_esn";
  fld (ptr "const struct xfrm_replay") "repl";
  fld u32 "xflags";
  fld u32 "replay_maxage";
  fld u32 "replay_maxdiff";
  fld struct_timer_list "rtimer";
  fld struct_xfrm_stats "stats";
  fld struct_xfrm_lifetime_cur "curlft";
  fld struct_hrtimer "mtimer";
  fld struct_xfrm_dev_offload "xso";
  fld c_long "saved_tmo";
  fld time64_t "lastused";
  fld struct_page_frag "xfrag";
  fld (ptr "const struct xfrm_type") "type";
  fld struct_xfrm_mode "inner_mode";
  fld struct_xfrm_mode "inner_mode_iaf";
  fld struct_xfrm_mode "outer_mode";
  fld (ptr "const struct xfrm_type_offload") "type_offload";
  fld (ptr "struct xfrm_sec_ctx") "security";
  fld (ptr "void") "data"].

Definition struct_rt6key := struct "rt6key" [
  fld struct_in6_addr "addr";
  fld c_int "plen"].

Definition struct_fib6_nh := struct "fib6_nh" [
  fld struct_fib_nh_common "nh_common";
  fld c_ulong "last_probe";
  fld (ptr "struct rt6_info **") "rt6i_pcpu";
  fld (ptr "struct rt6_exception_bucket") "rt6i_exception_bucket"].

Definition struct_fib6_info := struct "fib6_info" [
  fld (ptr "struct fib6_table") "fib6_table";
  fld (ptr "struct fib6_info") "fib6_next";
  fld (ptr "struct fib6_node") "fib6_node";
  anon (union no_tag [
    fld struct_list_head "fib6_siblings";
    fld struct_list_head "nh_list"]);
  fld c_uint "fib6_nsiblings";
  fld refcount_t "fib6_ref";
  fld c_ulong "expires";
  fld (ptr "struct dst_metrics") "fib6_metrics";
  fld struct_rt6key "fib6_dst";
  fld u32 "fib6_flags";
  fld struct_rt6key "fib6_src";
  fld struct_rt6key "fib6_prefsrc";
  fld u32 "fib6_metric";
  fld u8 "fib6_protocol";
  fld u8 "fib6_type";
  bits u8 "should_flush" 1;
  bits u8 "dst_nocount" 1;
  bits u8 "dst_nopolicy" 1;
  bits u8 "fib6_destroying" 1;
  bits u8 "offload" 1;
  bits u8 "trap" 1;
  bits u8 "unused" 2;
  fld struct_callback_head "rcu";
  fld (ptr "struct nexthop") "nh";
  fld (arr struct_fib6_nh 0) "fib6_nh"].

Definition struct_ipv6_stable_secret := struct "ipv6_stable_secret" [
  fld bool_ "initialized";
  fld struct_in6_addr "secret"].

Definition struct_ipv6_devconf := struct "ipv6_devconf" [
  fld __s32 "forwarding";
  fld __s32 "hop_limit";
  fld __s32 "mtu6";
  fld __s32 "accept_ra";
  fld __s32 "accept_redirects";
  fld __s32 "autoconf";
  fld __s32 "dad_transmits";
  fld __s32 "rtr_solicits";
  fld __s32 "rtr_solicit_interval";
  fld __s32 "rtr_solicit_max_interval";
  fld __s32 "rtr_solicit_delay";
  fld __s32 "force_mld_version";
  fld __s32 "mldv1_unsolicited_report_interval";
  fld __s32 "mldv2_unsolicited_report_interval";
  fld __s32 "use_tempaddr";
  fld __s32 "temp_valid_lft";
  fld __s32 "temp_prefered_lft";
  fld __s32 "regen_max_retry";
  fld __s32 "max_desync_factor";
  fld __s32 "max_addresses";
  fld __s32 "accept_ra_defrtr";
  fld __s32 "accept_ra_min_hop_limit";
  fld __s32 "accept_ra_min_lft";
  fld __s32 "accept_ra_pinfo";
  fld __s32 "ignore_routes_with_linkdown";
  fld __s32 "accept_ra_rtr_pref";
  fld __s32 "rtr_probe_interval";
  fld __s32 "accept_ra_rt_info_min_plen";
  fld __s32 "accept_ra_rt_info_max_plen";
  fld __s32 "proxy_ndp";
  fld __s32 "accept_source_route";
  fld __s32 "accept_ra_from_local";
  fld __s32 "optimistic_dad";
  fld __s32 "use_optimistic";
  fld atomic_t "mc_forwarding";
  fld __s32 "disable_ipv6";
  fld __s32 "drop_unicast_in_l2_multicast";
  fld __s32 "accept_dad";
  fld __s32 "force_tllao";
  fld __s32 "ndisc_notify";
  fld __s32 "suppress_frag_ndisc";
  fld __s32 "accept_ra_mtu";
  fld __s32 "drop_unsolicited_na";
  fld struct_ipv6_stable_secret "stable_secret";
  fld __s32 "use_oif_addrs_only";
  fld __s32 "keep_addr_on_down";
  fld __s32 "seg6_enabled";
  fld __s32 "seg6_require_hmac";
  fld __u32 "enhanced_dad";
  fld __u32 "addr_gen_mode";
  fld __s32 "disable_policy";
  fld __s32 "ndisc_tclass";
  fld __s32 "rpl_seg_enabled";
  fld (ptr "struct ctl_table_header") "sysctl_header"].

Definition struct_ipv6_devstat := struct "ipv6_devstat" [
  fld (ptr "struct proc_dir_entry") "proc_dir_entry";
  fld (ptr "struct ipstats_mib") "ipv6";
  fld (ptr "struct icmpv6_mib_device") "icmpv6dev";
  fld (ptr "struct icmpv6msg_mib_device") "icmpv6msgdev"].

Definition struct_inet6_dev := struct "inet6_dev" [
  fld (ptr "struct net_device") "dev";
  fld struct_list_head "addr_list";
  fld (ptr "struct ifmcaddr6") "mc_list";
  fld (ptr "struct ifmcaddr6") "mc_tomb";
  fld spinlock_t "mc_lock";
  fld c_uchar "mc_qrv";
  fld c_uchar "mc_gq_running";
  fld c_uchar "mc_ifc_count";
  fld c_uchar "mc_dad_count";
  fld c_ulong "mc_v1_seen";
  fld c_ulong "mc_qi";
  fld c_ulong "mc_qri";
  fld c_ulong "mc_maxdelay";
  fld struct_timer_list "mc_gq_timer";
  fld struct_timer_list "mc_ifc_timer";
  fld struct_timer_list "mc_dad_timer";
  fld (ptr "struct ifacaddr6") "ac_list";
  fld rwlock_t "lock";
  fld refcount_t "refcnt";
  fld __u32 "if_flags";
  fld c_int "dead";
  fld u32 "desync_factor";
  fld struct_list_head "tempaddr_list";
  fld struct_in6_addr "token";
  fld (ptr "struct neigh_parms") "nd_parms";
  fld struct_ipv6_devconf "cnf";
  fld struct_ipv6_devstat "stats";
  fld struct_timer_list "rs_timer";
  fld __s32 "rs_interval";
  fld __u8 "rs_probes";
  fld c_ulong "tstamp";
  fld struct_callback_head "rcu"].

Definition struct_rhash_head := struct "rhash_head" [
  fld (ptr "struct rhash_head") "next"].

Definition struct_netlink_sock := struct "netlink_sock" [
  fld struct_sock "sk";
  fld u32 "portid";
  fld u32 "dst_portid";
  fld u32 "dst_group";
  fld u32 "flags";
  fld u32 "subscriptions";
  fld u32 "ngroups";
  fld (ptr "long unsigned int") "groups";
  fld c_ulong "state";
  fld size_t "max_recvmsg_len";
  fld wait_queue_head_t "wait";
  fld bool_ "bound";
  fld bool_ "cb_running";
  fld c_int "dump_done_errno";
  fld struct_netlink_callback "cb";
  fld (ptr "struct mutex") "cb_mutex";
  fld struct_mutex "cb_def_mutex";
  fld (fptr "void" "struct sk_buff *") "netlink_rcv";
  fld (fptr "int" "struct net *, int") "netlink_bind";
  fld (fptr "void" "struct net *, int") "netlink_unbind";
  fld (ptr "struct module") "module";
  fld struct_rhash_head "node";
  fld struct_callback_head "rcu"].

Definition struct_ethtool_ops := struct "ethtool_ops" [
  fld u32 "supported_coalesce_params";
  fld (fptr "void" "struct net_device *, struct ethtool_drvinfo *") "get_drvinfo";
  fld (fptr "int" "struct net_device *") "get_regs_len";
  fld (fptr "void" "struct net_device *, struct ethtool_regs *, void *") "get_regs";
  fld (fptr "void" "struct net_device *, struct ethtool_wolinfo *") "get_wol";
  fld (fptr "int" "struct net_device *, struct ethtool_wolinfo *") "set_wol";
  fld (fptr "u32" "struct net_device *") "get_msglevel";
  fld (fptr "void" "struct net_device *, u32") "set_msglevel";
  fld (fptr "int" "struct net_device *") "nway_reset";
  fld (fptr "u32" "struct net_device *") "get_link";
  fld (fptr "int" "struct net_device *, struct ethtool_link_ext_state_info *") "get_link_ext_state";
  fld (fptr "int" "struct net_device *") "get_eeprom_len";
  fld (fptr "int" "struct net_device *, struct ethtool_eeprom *, u8 *") "get_eeprom";
  fld (fptr "int" "struct net_device *, struct ethtool_eeprom *, u8 *") "set_eeprom";
  fld (fptr "int" "struct net_device *, struct ethtool_coalesce *") "get_coalesce";
  fld (fptr "int" "struct net_device *, struct ethtool_coalesce *") "set_coalesce";
  fld (fptr "void" "struct net_device *, struct ethtool_ringparam *") "get_ringparam";
  fld (fptr "int" "struct net_device *, struct ethtool_ringparam *") "set_ringparam";
  fld (fptr "void" "struct net_device *, struct ethtool_pause_stats *") "get_pause_stats";
  fld (fptr "void" "struct net_device *, struct ethtool_pauseparam *") "get_pauseparam";
  fld (fptr "int" "struct net_device *, struct ethtool_pauseparam *") "set_pauseparam";
  fld (fptr "void" "struct net_device *, struct ethtool_test *, u64 *") "self_test";
  fld (fptr "void" "struct net_device *, u32, u8 *") "get_strings";
  fld (fptr "int" "struct net_device *, enum ethtool_phys_id_state") "set_phys_id";
  fld (fptr "void" "struct net_device *, struct ethtool_stats *, u64 *") "get_ethtool_stats";
  fld (fptr "int" "struct net_device *") "begin";
  fld (fptr "void" "struct net_device *") "complete";
  fld (fptr "u32" "struct net_device *") "get_priv_flags";
  fld (fptr "int" "struct net_device *, u32") "set_priv_flags";
  fld (fptr "int" "struct net_device *, int") "get_sset_count";
  fld (fptr "int" "struct net_device *, struct ethtool_rxnfc *, u32 *") "get_rxnfc";
  fld (fptr "int" "struct net_device *, struct ethtool_rxnfc *") "set_rxnfc";
  fld (fptr "int" "struct net_device *, struct ethtool_flash *") "flash_device";
  fld (fptr "int" "struct net_device *, u32 *") "reset";
  fld (fptr "u32" "struct net_device *") "get_rxfh_key_size";
  fld (fptr "u32" "struct net_device *") "get_rxfh_indir_size";
  fld (fptr "int" "struct net_device *, u32 *, u8 *, u8 *") "get_rxfh";
  fld (fptr "int" "struct net_device *, const u32 *, const u8 *, const u8") "set_rxfh";
  fld (fptr "int" "struct net_device *, u32 *, u8 *, u8 *, u32") "get_rxfh_context";
  fld (fptr "int" "struct net_device *, const u32 *, const u8 *, const u8, u32 *, bool") "set_rxfh_context";
  fld (fptr "void" "struct net_device *, struct ethtool_channels *") "get_channels";
  fld (fptr "int" "struct net_device *, struct ethtool_channels *") "set_channels";
  fld (fptr "int" "struct net_device *, struct ethtool_dump *") "get_dump_flag";
  fld (fptr "int" "struct net_device *, struct ethtool_dump *, void *") "get_dump_data";
  fld (fptr "int" "struct net_device *, struct ethtool_dump *") "set_dump";
  fld (fptr "int" "struct net_device *, struct ethtool_ts_info *") "get_ts_info";
  fld (fptr "int" "struct net_device *, struct ethtool_modinfo *") "get_module_info";
  fld (fptr "int" "struct net_device *, struct ethtool_eeprom *, u8 *") "get_module_eeprom";
  fld (fptr "int" "struct net_device *, struct ethtool_eee *") "get_eee";
  fld (fptr "int" "struct net_device *, struct ethtool_eee *") "set_eee";
  fld (fptr "int" "struct net_device *, const struct ethtool_tunable *, void *") "get_tunable";
  fld (fptr "int" "struct net_device *, const struct ethtool_tunable *, const void *") "set_tunable";
  fld (fptr "int" "struct net_device *, u32, struct ethtool_coalesce *") "get_per_queue_coalesce";
  fld (fptr "int" "struct net_device *, u32, struct ethtool_coalesce *") "set_per_queue_coalesce";
  fld (fptr "int" "struct net_device *, struct ethtool_link_ksettings *") "get_link_ksettings";
  fld (fptr "int" "struct net_device *, const struct ethtool_link_ksettings *") "set_link_ksettings";
  fld (fptr "int" "struct net_device *, struct ethtool_fecparam *") "get_fecparam";
  fld (fptr "int" "struct net_device *, struct ethtool_fecparam *") "set_fecparam";
  fld (fptr "void" "struct net_device *, struct ethtool_stats *, u64 *") "get_ethtool_phy_stats";
  fld (fptr "int" "struct net_device *, const struct ethtool_tunable *, void *") "get_phy_tunable";
  fld (fptr "int" "struct net_device *, const struct ethtool_tunable *, const void *") "set_phy_tunable"].

Definition dma_addr_t := u64.

Definition struct_scatterlist := struct "scatterlist" [
  fld c_ulong "page_link";
  fld c_uint "offset";
  fld c_uint "length";
  fld dma_addr_t "dma_address";
  fld c_uint "dma_length"].

Definition struct_sk_msg_sg := struct "sk_msg_sg" [
  fld u32 "start";
  fld u32 "curr";
  fld u32 "end";
  fld u32 "size";
  fld u32 "copybreak";
  fld c_ulong "copy";
  fld (arr struct_scatterlist 19) "data"].

Definition struct_sk_msg := struct "sk_msg" [
  fld struct_sk_msg_sg "sg";
  fld (ptr "void") "data";
  fld (ptr "void") "data_end";
  fld u32 "apply_bytes";
  fld u32 "cork_bytes";
  fld u32 "flags";
  fld (ptr "struct sk_buff") "skb";
  fld (ptr "struct sock") "sk_redir";
  fld (ptr "struct sock") "sk";
  fld struct_list_head "list"].

Definition enum_dma_data_direction := enum "dma_data_direction" [
  ev "DMA_BIDIRECTIONAL" 0;
  ev "DMA_TO_DEVICE" 1;
  ev "DMA_FROM_DEVICE" 2;
  ev "DMA_NONE" 3].

Definition struct_page_pool_params := struct "page_pool_params" [
  fld c_uint "flags";
  fld c_uint "order";
  fld c_uint "pool_size";
  fld c_int "nid";
  fld (ptr "struct device") "dev";
  fld enum_dma_data_direction "dma_dir";
  fld c_uint "max_len";
  fld c_uint "offset"].

Definition struct_pp_alloc_cache := struct "pp_alloc_cache" [
  fld u32 "count";
  fld (arr (ptr "void") 128) "cache"].

Definition struct_ptr_ring := struct "ptr_ring" [
  fld c_int "producer";
  fld spinlock_t "producer_lock";
  pad c_long 64;
  pad c_long 64;
  pad c_long 64;
  pad c_long 64;
  pad c_long 64;
  pad c_long 64;
  pad c_long 64;
  fld c_int "consumer_head";
  fld c_int "consumer_tail";
  fld spinlock_t "consumer_lock";
  pad c_long 64;
  pad c_long 64;
  pad c_long 64;
  pad c_long 64;
  pad c_long 64;
  pad c_long 64;
  fld c_int "size";
  fld c_int "batch";
  fld (ptr "void **") "queue";
  pad c_long 64;
  pad c_long 64;
  pad c_long 64;
  pad c_long 64;
  pad c_long 64;
  pad c_long 64].

Definition struct_page_pool := struct "page_pool" [
  fld struct_page_pool_params "p";
  fld struct_delayed_work "release_dw";
  fld (fptr "void" "void *") "disconnect";
  fld c_ulong "defer_start";
  fld c_ulong "defer_warn";
  fld u32 "pages_state_hold_cnt";
  pad c_long 64;
  pad c_long 64;
  pad c_long 64;
  pad c_long 64;
  fld struct_pp_alloc_cache "alloc";
  pad c_long 64;
  pad c_long 64;
  pad c_long 64;
  pad c_long 64;
  pad c_long 64;
  pad c_long 64;
  pad c_long 64;
  fld struct_ptr_ring "ring";
  fld atomic_t "pages_state_release_cnt";
  fld refcount_t "user_cnt";
  fld u64 "destroy_cnt";
  pad c_long 64;
  pad c_long 64;
  pad c_long 64;
  pad c_long 64;
  pad c_long 64;
  pad c_long 64].

Definition struct_xdp_mem_info := struct "xdp_mem_info" [
  fld u32 "type";
  fld u32 "id"].

Definition struct_xdp_frame := struct "xdp_frame" [
  fld (ptr "void") "data";
  fld u16 "len";
  fld u16 "headroom";
  bits u32 "metasize" 8;
  bits u32 "frame_sz" 24;
  fld struct_xdp_mem_info "mem";
  fld (ptr "struct net_device") "dev_rx"].

Definition struct_bpf_tcp_sock := struct "bpf_tcp_sock" [
  fld __u32 "snd_cwnd";
  fld __u32 "srtt_us";
  fld __u32 "rtt_min";
  fld __u32 "snd_ssthresh";
  fld __u32 "rcv_nxt";
  fld __u32 "snd_nxt";
  fld __u32 "snd_una";
  fld __u32 "mss_cache";
  fld __u32 "ecn_flags";
  fld __u32 "rate_delivered";
  fld __u32 "rate_interval_us";
  fld __u32 "packets_out";
  fld __u32 "retrans_out";
  fld __u32 "total_retrans";
  fld __u32 "segs_in";
  fld __u32 "data_segs_in";
  fld __u32 "segs_out";
  fld __u32 "data_segs_out";
  fld __u32 "lost_out";
  fld __u32 "sacked_out";
  fld __u64 "bytes_received";
  fld __u64 "bytes_acked";
  fld __u32 "dsack_dups";
  fld __u32 "delivered";
  fld __u32 "delivered_ce";
  fld __u32 "icsk_retransmits"].

Definition struct_bpf_sock_tuple := struct "bpf_sock_tuple" [
  anon (union no_tag [
    fld (struct no_tag [
      fld __be32 "saddr";
      fld __be32 "daddr";
      fld __be16 "sport";
      fld __be16 "dport"]) "ipv4";
    fld (struct no_tag [
      fld (arr __be32 4) "saddr";
      fld (arr __be32 4) "daddr";
      fld __be16 "sport";
      fld __be16 "dport"]) "ipv6"])].

Definition struct_genl_info := struct "genl_info" [
  fld u32 "snd_seq";
  fld u32 "snd_portid";
  fld (ptr "struct nlmsghdr") "nlhdr";
  fld (ptr "struct genlmsghdr") "genlhdr";
  fld (ptr "void") "userhdr";
  fld (ptr "struct nlattr **") "attrs";
  fld possible_net_t "_net";
  fld (arr (ptr "void") 2) "user_ptr";
  fld (ptr "struct netlink_ext_ack") "extack"].

Definition struct_tcf_exts := struct "tcf_exts" [
  fld __u32 "type";
  fld c_int "nr_actions";
  fld (ptr "struct tc_action **") "actions";
  fld (ptr "struct net") "net";
  fld c_int "action";
  fld c_int "police"].

Definition struct_nf_hook_state := struct "nf_hook_state" [
  fld c_uint "hook";
  fld u_int8_t "pf";
  fld (ptr "struct net_device") "in";
  fld (ptr "struct net_device") "out";
  fld (ptr "struct sock") "sk";
  fld (ptr "struct net") "net";
  fld (fptr "int" "struct net *, struct sock *, struct sk_buff *") "okfn"].

Definition struct_request_sock := struct "request_sock" [
  fld struct_sock_common "__req_common";
  fld (ptr "struct request_sock") "dl_next";
  fld u16 "mss";
  fld u8 "num_retrans";
  bits u8 "syncookie" 1;
  bits u8 "num_timeout" 7;
  fld u32 "ts_recent";
  fld struct_timer_list "rsk_timer";
  fld (ptr "const struct request_sock_ops") "rsk_ops";
  fld (ptr "struct sock") "sk";
  fld (ptr "struct saved_syn") "saved_syn";
  fld u32 "secid";
  fld u32 "peer_secid"].

Definition socket_state := enum no_tag [
    ev "SS_FREE" 0;
    ev "SS_UNCONNECTED" 1;
    ev "SS_CONNECTING" 2;
    ev "SS_CONNECTED" 3;
    ev "SS_DISCONNECTING" 4].

Definition struct_socket_wq := struct "socket_wq" [
  fld wait_queue_head_t "wait";
  fld (ptr "struct fasync_struct") "fasync_list";
  fld c_ulong "flags";
  fld struct_callback_head "rcu";
  pad c_long 64].

Definition struct_socket := struct "socket" [
  fld socket_state "state";
  fld c_short "type";
  fld c_ulong "flags";
  fld (ptr "struct file") "file";
  fld (ptr "struct sock") "sk";
  fld (ptr "const struct proto_ops") "ops";
  pad c_long 64;
  pad c_long 64;
  pad c_long 64;
  fld struct_socket_wq "wq"].

Definition struct_iov_iter := struct "iov_iter" [
  fld c_uint "type";
  fld size_t "iov_offset";
  fld size_t "count";
  anon (union no_tag [
    fld (ptr "const struct iovec") "iov";
    fld (ptr "const struct kvec") "kvec";
    fld (ptr "const struct bio_vec") "bvec";
    fld (ptr "struct pipe_inode_info") "pipe"]);
  anon (union no_tag [
    fld c_ulong "nr_segs";
    anon (struct no_tag [
      fld c_uint "head";
      fld c_uint "start_head"])]);
  fld size_t "truncated"].

Definition struct_msghdr := struct "msghdr" [
  fld (ptr "void") "msg_name";
  fld c_int "msg_namelen";
  fld struct_iov_iter "msg_iter";
  anon (union no_tag [
    fld (ptr "void") "msg_control";
    fld (ptr "void") "msg_control_user"]);
  bits bool_ "msg_control_is_user" 1;
  fld __kernel_size_t "msg_controllen";
  fld c_uint "msg_flags";
  fld (ptr "struct kiocb") "msg_iocb"].

Definition struct_proto_ops := struct "proto_ops" [
  fld c_int "family";
  fld (ptr "struct module") "owner";
  fld (fptr "int" "struct socket *") "release";
  fld (fptr "int" "struct socket *, struct sockaddr *, int") "bind";
  fld (fptr "int" "struct socket *, struct sockaddr *, int, int") "connect";
  fld (fptr "int" "struct socket *, struct socket *") "socketpair";
  fld (fptr "int" "struct socket *, struct socket *, int, bool") "accept";
  fld (fptr "int" "struct socket *, struct sockaddr *, int") "getname";
  fld (fptr "__poll_t" "struct file *, struct socket *, struct poll_table_struct *") "poll";
  fld (fptr "int" "struct socket *, unsigned int, long unsigned int") "ioctl";
  fld (fptr "int" "struct socket *, unsigned int, long unsigned int") "compat_ioctl";
  fld (fptr "int" "struct socket *, void *, bool, bool") "gettstamp";
  fld (fptr "int" "struct socket *, int") "listen";
  fld (fptr "int" "struct socket *, int") "shutdown";
  fld (fptr "int" "struct socket *, int, int, sockptr_t, unsigned int") "setsockopt";
  fld (fptr "int" "struct socket *, int, int, char *, int *") "getsockopt";
  fld (fptr "void" "struct seq_file *, struct socket *") "show_fdinfo";
  fld (fptr "int" "struct socket *, struct msghdr *, size_t") "sendmsg";
  fld (fptr "int" "struct socket *, struct msghdr *, size_t, int") "recvmsg";
  fld (fptr "int" "struct file *, struct socket *, struct vm_area_struct *") "mmap";
  fld (fptr "ssize_t" "struct socket *, struct page *, int, size_t, int") "sendpage";
  fld (fptr "ssize_t" "struct socket *, loff_t *, struct pipe_inode_info *, size_t, unsigned int") "splice_read";
  fld (fptr "int" "struct sock *, int") "set_peek_off";
  fld (fptr "int" "struct socket *") "peek_len";
  fld (fptr "int" "struct sock *, read_descriptor_t *, sk_read_actor_t") "read_sock";
  fld (fptr "int" "struct sock *, struct page *, int, size_t, int") "sendpage_locked";
  fld (fptr "int" "struct sock *, struct msghdr *, size_t") "sendmsg_locked";
  fld (fptr "int" "struct sock *, int") "set_rcvlowat"].

(** The declarations of the file. *)
Definition declarations : list ctype := [
  struct_idr; struct_ns_common; struct_ctl_table_header; struct_ctl_dir;
  struct_ctl_table_set; struct_raw_notifier_head; struct_netns_core; struct_netns_mib;
  struct_netns_packet; struct_netns_unix; struct_blocking_notifier_head;
  struct_netns_nexthop; struct_netns_sysctl_ipv6; struct_netns_ipv6; struct_netns_sctp;
  struct_netns_dccp; struct_netns_nf; struct_netns_xt; struct_nf_generic_net;
  struct_nf_tcp_net; struct_nf_udp_net; struct_nf_icmp_net; struct_nf_dccp_net;
  struct_nf_sctp_net; struct_nf_gre_net; struct_nf_ip_net; struct_netns_ct;
  struct_netns_nftables; struct_netns_nf_frag; struct_netns_bpf; struct_xfrm_policy_hash;
  struct_xfrm_policy_hthresh; struct_netns_xfrm; struct_netns_mpls; struct_netns_can;
  struct_netns_xdp; struct_net; struct_fastopen_queue; struct_request_sock_queue;
  struct_inet_connection_sock; struct_tcp_rack; struct_minmax_sample; struct_minmax;
  struct_tcp_options_received; struct_tcp_sack_block; struct_tcp_sock; xfrm_address_t;
  struct_xfrm_id; struct_xfrm_selector; struct_xfrm_mark; struct_xfrm_state_walk;
  struct_xfrm_lifetime_cfg; struct_xfrm_replay_state; struct_xfrm_stats;
  struct_xfrm_lifetime_cur; struct_xfrm_dev_offload; struct_xfrm_mode; struct_xfrm_state;
  struct_rt6key; struct_fib6_nh; struct_fib6_info; struct_ipv6_stable_secret;
  struct_ipv6_devconf; struct_ipv6_devstat; struct_inet6_dev; struct_rhash_head;
  struct_netlink_sock; struct_ethtool_ops; dma_addr_t; struct_scatterlist; struct_sk_msg_sg;
  struct_sk_msg; enum_dma_data_direction; struct_page_pool_params; struct_pp_alloc_cache;
  struct_ptr_ring; struct_page_pool; struct_xdp_mem_info; struct_xdp_frame;
  struct_bpf_tcp_sock; struct_bpf_sock_tuple; struct_genl_info; struct_tcf_exts;
  struct_nf_hook_state; struct_request_sock; socket_state; struct_socket_wq; struct_socket;
  struct_iov_iter; struct_msghdr; struct_proto_ops].
