(* ===== verification/VmFs.v ===== *)
(** * Files, tasks and the bpf file system

    Declarations of headers/vmlinux.h, one definition per declaration and one
    line per member, in the order of use: the pin directory's file system, the
    descriptors that hold the maps, programs and links, and the tasks that own
    them. *)

From stdpp Require Import strings.
From S2P Require Import CLayout VmBase.

#[local] Open Scope string_scope.

Definition __kernel_loff_t := c_llong.

Definition loff_t := __kernel_loff_t.

Definition struct_hlist_bl_head := struct "hlist_bl_head" [
  fld (ptr "struct hlist_bl_node") "first"].

Definition qsize_t := c_llong.

Definition struct_mem_dqinfo := struct "mem_dqinfo" [
  fld (ptr "struct quota_format_type") "dqi_format";
  fld c_int "dqi_fmt_id";
  fld struct_list_head "dqi_dirty_list";
  fld c_ulong "dqi_flags";
  fld c_uint "dqi_bgrace";
  fld c_uint "dqi_igrace";
  fld qsize_t "dqi_max_spc_limit";
  fld qsize_t "dqi_max_ino_limit";
  fld (ptr "void") "dqi_priv"].

Definition struct_quota_info := struct "quota_info" [
  fld c_uint "flags";
  fld struct_rw_semaphore "dqio_sem";
  fld (arr (ptr "struct inode") 3) "files";
  fld (arr struct_mem_dqinfo 3) "info";
  fld (arr (ptr "const struct quota_format_ops") 3) "ops"].

Definition struct_rcu_sync := struct "rcu_sync" [
  fld c_int "gp_state";
  fld c_int "gp_count";
  fld wait_queue_head_t "gp_wait";
  fld struct_callback_head "cb_head"].

Definition struct_rcuwait := struct "rcuwait" [
  fld (ptr "struct task_struct") "task"].

Definition struct_percpu_rw_semaphore := struct "percpu_rw_semaphore" [
  fld struct_rcu_sync "rss";
  fld (ptr "unsigned int") "read_count";
  fld struct_rcuwait "writer";
  fld wait_queue_head_t "waiters";
  fld atomic_t "block"].

Definition struct_sb_writers := struct "sb_writers" [
  fld c_int "frozen";
  fld wait_queue_head_t "wait_unfrozen";
  fld (arr struct_percpu_rw_semaphore 3) "rw_sem"].

Definition uuid_t := struct no_tag [
    fld (arr __u8 16) "b"].

Definition fmode_t := c_uint.

Definition struct_shrinker := struct "shrinker" [
  fld (fptr "long unsigned int" "struct shrinker *, struct shrink_control *") "count_objects";
  fld (fptr "long unsigned int" "struct shrinker *, struct shrink_control *") "scan_objects";
  fld c_long "batch";
  fld c_int "seeks";
  fld c_uint "flags";
  fld struct_list_head "list";
  fld c_int "id";
  fld (ptr "atomic_long_t") "nr_deferred"].

Definition errseq_t := u32.

Definition struct_list_lru := struct "list_lru" [
  fld (ptr "struct list_lru_node") "node";
  fld struct_list_head "list";
  fld c_int "shrinker_id";
  fld bool_ "memcg_aware"].

Definition struct_super_block := struct "super_block" [
  fld struct_list_head "s_list";
  fld dev_t "s_dev";
  fld c_uchar "s_blocksize_bits";
  fld c_ulong "s_blocksize";
  fld loff_t "s_maxbytes";
  fld (ptr "struct file_system_type") "s_type";
  fld (ptr "const struct super_operations") "s_op";
  fld (ptr "const struct dquot_operations") "dq_op";
  fld (ptr "const struct quotactl_ops") "s_qcop";
  fld (ptr "const struct export_operations") "s_export_op";
  fld c_ulong "s_flags";
  fld c_ulong "s_iflags";
  fld c_ulong "s_magic";
  fld (ptr "struct dentry") "s_root";
  fld struct_rw_semaphore "s_umount";
  fld c_int "s_count";
  fld atomic_t "s_active";
  fld (ptr "void") "s_security";
  fld (ptr "const struct xattr_handler **") "s_xattr";
  fld (ptr "const struct fscrypt_operations") "s_cop";
  fld (ptr "struct fscrypt_keyring") "s_master_keys";
  fld struct_hlist_bl_head "s_roots";
  fld struct_list_head "s_mounts";
  fld (ptr "struct block_device") "s_bdev";
  fld (ptr "struct backing_dev_info") "s_bdi";
  fld (ptr "struct mtd_info") "s_mtd";
  fld struct_hlist_node "s_instances";
  fld c_uint "s_quota_types";
  fld struct_quota_info "s_dquot";
  fld struct_sb_writers "s_writers";
  fld (ptr "void") "s_fs_info";
  fld u32 "s_time_gran";
  fld time64_t "s_time_min";
  fld time64_t "s_time_max";
  fld __u32 "s_fsnotify_mask";
  fld (ptr "struct fsnotify_mark_connector") "s_fsnotify_marks";
  fld (arr c_char 32) "s_id";
  fld uuid_t "s_uuid";
  fld c_uint "s_max_links";
  fld fmode_t "s_mode";
  fld struct_mutex "s_vfs_rename_mutex";
  fld (ptr "const char") "s_subtype";
  fld (ptr "const struct dentry_operations") "s_d_op";
  fld c_int "cleancache_poolid";
  fld struct_shrinker "s_shrink";
  fld atomic_long_t "s_remove_count";
  fld atomic_long_t "s_fsnotify_connectors";
  fld c_int "s_readonly_remount";
  fld errseq_t "s_wb_err";
  fld (ptr "struct workqueue_struct") "s_dio_done_wq";
  fld struct_hlist_head "s_pins";
  fld (ptr "struct user_namespace") "s_user_ns";
  fld struct_list_lru "s_dentry_lru";
  fld struct_list_lru "s_inode_lru";
  fld struct_callback_head "rcu";
  fld struct_work_struct "destroy_work";
  fld struct_mutex "s_sync_lock";
  fld c_int "s_stack_depth";
  pad c_long 64;
  pad c_long 64;
  pad c_long 64;
  fld spinlock_t "s_inode_list_lock";
  fld struct_list_head "s_inodes";
  fld spinlock_t "s_inode_wblist_lock";
  fld struct_list_head "s_inodes_wb";
  pad c_long 64;
  pad c_long 64].

Definition umode_t := c_ushort.

Definition struct_timespec64 := struct "timespec64" [
  fld time64_t "tv_sec";
  fld c_long "tv_nsec"].

Definition blkcnt_t := u64.

Definition struct_rb_root_cached := struct "rb_root_cached" [
  fld struct_rb_root "rb_root";
  fld (ptr "struct rb_node") "rb_leftmost"].

Definition struct_address_space := struct "address_space" [
  fld (ptr "struct inode") "host";
  fld struct_xarray "i_pages";
  fld gfp_t "gfp_mask";
  fld atomic_t "i_mmap_writable";
  fld struct_rb_root_cached "i_mmap";
  fld struct_rw_semaphore "i_mmap_rwsem";
  fld c_ulong "nrpages";
  fld c_ulong "nrexceptional";
  fld c_ulong "writeback_index";
  fld (ptr "const struct address_space_operations") "a_ops";
  fld c_ulong "flags";
  fld errseq_t "wb_err";
  fld spinlock_t "private_lock";
  fld struct_list_head "private_list";
  fld (ptr "void") "private_data"].

Definition struct_inode := struct "inode" [
  fld umode_t "i_mode";
  fld c_ushort "i_opflags";
  fld kuid_t "i_uid";
  fld kgid_t "i_gid";
  fld c_uint "i_flags";
  fld (ptr "struct posix_acl") "i_acl";
  fld (ptr "struct posix_acl") "i_default_acl";
  fld (ptr "const struct inode_operations") "i_op";
  fld (ptr "struct super_block") "i_sb";
  fld (ptr "struct address_space") "i_mapping";
  fld (ptr "void") "i_security";
  fld c_ulong "i_ino";
  anon (union no_tag [
    fld c_uint "i_nlink";
    fld c_uint "__i_nlink"]);
  fld dev_t "i_rdev";
  fld loff_t "i_size";
  fld struct_timespec64 "i_atime";
  fld struct_timespec64 "i_mtime";
  fld struct_timespec64 "i_ctime";
  fld spinlock_t "i_lock";
  fld c_ushort "i_bytes";
  fld u8 "i_blkbits";
  fld u8 "i_write_hint";
  fld blkcnt_t "i_blocks";
  fld c_ulong "i_state";
  fld struct_rw_semaphore "i_rwsem";
  fld c_ulong "dirtied_when";
  fld c_ulong "dirtied_time_when";
  fld struct_hlist_node "i_hash";
  fld struct_list_head "i_io_list";
  fld (ptr "struct bdi_writeback") "i_wb";
  fld c_int "i_wb_frn_winner";
  fld u16 "i_wb_frn_avg_time";
  fld u16 "i_wb_frn_history";
  fld struct_list_head "i_lru";
  fld struct_list_head "i_sb_list";
  fld struct_list_head "i_wb_list";
  anon (union no_tag [
    fld struct_hlist_head "i_dentry";
    fld struct_callback_head "i_rcu"]);
  fld atomic64_t "i_version";
  fld atomic64_t "i_sequence";
  fld atomic_t "i_count";
  fld atomic_t "i_dio_count";
  fld atomic_t "i_writecount";
  fld atomic_t "i_readcount";
  anon (union no_tag [
    fld (ptr "const struct file_operations") "i_fop";
    fld (fptr "void" "struct inode *") "free_inode"]);
  fld (ptr "struct file_lock_context") "i_flctx";
  fld struct_address_space "i_data";
  fld struct_list_head "i_devices";
  anon (union no_tag [
    fld (ptr "struct pipe_inode_info") "i_pipe";
    fld (ptr "struct block_device") "i_bdev";
    fld (ptr "struct cdev") "i_cdev";
    fld (ptr "char") "i_link";
    fld c_uint "i_dir_seq"]);
  fld __u32 "i_generation";
  fld __u32 "i_fsnotify_mask";
  fld (ptr "struct fsnotify_mark_connector") "i_fsnotify_marks";
  fld (ptr "struct fscrypt_info") "i_crypt_info";
  fld (ptr "void") "i_private"].

Definition struct_hlist_bl_node := struct "hlist_bl_node" [
  fld (ptr "struct hlist_bl_node") "next";
  fld (ptr "struct hlist_bl_node **") "pprev"].

Definition struct_qstr := struct "qstr" [
  anon (union no_tag [
    anon (struct no_tag [
      fld u32 "hash";
      fld u32 "len"]);
    fld u64 "hash_len"]);
  fld (ptr "const unsigned char") "name"].

Definition struct_lockref := struct "lockref" [
  anon (union no_tag [
    fld __u64 "lock_count";
    anon (struct no_tag [
      fld spinlock_t "lock";
      fld c_int "count"])])].

Definition struct_dentry := struct "dentry" [
  fld c_uint "d_flags";
  fld seqcount_spinlock_t "d_seq";
  fld struct_hlist_bl_node "d_hash";
  fld (ptr "struct dentry") "d_parent";
  fld struct_qstr "d_name";
  fld (ptr "struct inode") "d_inode";
  fld (arr c_uchar 32) "d_iname";
  fld struct_lockref "d_lockref";
  fld (ptr "const struct dentry_operations") "d_op";
  fld (ptr "struct super_block") "d_sb";
  fld c_ulong "d_time";
  fld (ptr "void") "d_fsdata";
  anon (union no_tag [
    fld struct_list_head "d_lru";
    fld (ptr "wait_queue_head_t") "d_wait"]);
  fld struct_list_head "d_child";
  fld struct_list_head "d_subdirs";
  fld (union no_tag [
    fld struct_hlist_node "d_alias";
    fld struct_hlist_bl_node "d_in_lookup_hash";
    fld struct_callback_head "d_rcu"]) "d_u"].

Definition struct_path := struct "path" [
  fld (ptr "struct vfsmount") "mnt";
  fld (ptr "struct dentry") "dentry"].

Definition enum_rw_hint := enum "rw_hint" [
  ev "WRITE_LIFE_NOT_SET" 0;
  ev "WRITE_LIFE_NONE" 1;
  ev "WRITE_LIFE_SHORT" 2;
  ev "WRITE_LIFE_MEDIUM" 3;
  ev "WRITE_LIFE_LONG" 4;
  ev "WRITE_LIFE_EXTREME" 5].

Definition enum_pid_type := enum "pid_type" [
  ev "PIDTYPE_PID" 0;
  ev "PIDTYPE_TGID" 1;
  ev "PIDTYPE_PGID" 2;
  ev "PIDTYPE_SID" 3;
  ev "PIDTYPE_MAX" 4].

Definition struct_fown_struct := struct "fown_struct" [
  fld rwlock_t "lock";
  fld (ptr "struct pid") "pid";
  fld enum_pid_type "pid_type";
  fld kuid_t "uid";
  fld kuid_t "euid";
  fld c_int "signum"].

Definition struct_file_ra_state := struct "file_ra_state" [
  fld c_ulong "start";
  fld c_uint "size";
  fld c_uint "async_size";
  fld c_uint "ra_pages";
  fld c_uint "mmap_miss";
  fld loff_t "prev_pos"].

Definition struct_file := struct "file" [
  fld (union no_tag [
    fld struct_llist_node "fu_llist";
    fld struct_callback_head "fu_rcuhead"]) "f_u";
  fld struct_path "f_path";
  fld (ptr "struct inode") "f_inode";
  fld (ptr "const struct file_operations") "f_op";
  fld spinlock_t "f_lock";
  fld enum_rw_hint "f_write_hint";
  fld atomic_long_t "f_count";
  fld c_uint "f_flags";
  fld fmode_t "f_mode";
  fld struct_mutex "f_pos_lock";
  fld loff_t "f_pos";
  fld struct_fown_struct "f_owner";
  fld (ptr "const struct cred") "f_cred";
  fld struct_file_ra_state "f_ra";
  fld u64 "f_version";
  fld (ptr "void") "f_security";
  fld (ptr "void") "private_data";
  fld struct_list_head "f_ep_links";
  fld struct_list_head "f_tfile_llink";
  fld (ptr "struct address_space") "f_mapping";
  fld errseq_t "f_wb_err";
  fld errseq_t "f_sb_err"].

Definition struct_file_operations := struct "file_operations" [
  fld (ptr "struct module") "owner";
  fld (fptr "loff_t" "struct file *, loff_t, int") "llseek";
  fld (fptr "ssize_t" "struct file *, char *, size_t, loff_t *") "read";
  fld (fptr "ssize_t" "struct file *, const char *, size_t, loff_t *") "write";
  fld (fptr "ssize_t" "struct kiocb *, struct iov_iter *") "read_iter";
  fld (fptr "ssize_t" "struct kiocb *, struct iov_iter *") "write_iter";
  fld (fptr "int" "struct kiocb *, bool") "iopoll";
  fld (fptr "int" "struct file *, struct dir_context *") "iterate";
  fld (fptr "int" "struct file *, struct dir_context *") "iterate_shared";
  fld (fptr "__poll_t" "struct file *, struct poll_table_struct *") "poll";
  fld (fptr "long int" "struct file *, unsigned int, long unsigned int") "unlocked_ioctl";
  fld (fptr "long int" "struct file *, unsigned int, long unsigned int") "compat_ioctl";
  fld (fptr "int" "struct file *, struct vm_area_struct *") "mmap";
  fld c_ulong "mmap_supported_flags";
  fld (fptr "int" "struct inode *, struct file *") "open";
  fld (fptr "int" "struct file *, fl_owner_t") "flush";
  fld (fptr "int" "struct inode *, struct file *") "release";
  fld (fptr "int" "struct file *, loff_t, loff_t, int") "fsync";
  fld (fptr "int" "int, struct file *, int") "fasync";
  fld (fptr "int" "struct file *, int, struct file_lock *") "lock";
  fld (fptr "ssize_t" "struct file *, struct page *, int, size_t, loff_t *, int") "sendpage";
  fld (fptr "long unsigned int" "struct file *, long unsigned int, long unsigned int, long unsigned int, long unsigned int") "get_unmapped_area";
  fld (fptr "int" "int") "check_flags";
  fld (fptr "int" "struct file *, int, struct file_lock *") "flock";
  fld (fptr "ssize_t" "struct pipe_inode_info *, struct file *, loff_t *, size_t, unsigned int") "splice_write";
  fld (fptr "ssize_t" "struct file *, loff_t *, struct pipe_inode_info *, size_t, unsigned int") "splice_read";
  fld (fptr "int" "struct file *, long int, struct file_lock **, void **") "setlease";
  fld (fptr "long int" "struct file *, int, loff_t, loff_t") "fallocate";
  fld (fptr "void" "struct seq_file *, struct file *") "show_fdinfo";
  fld (fptr "ssize_t" "struct file *, loff_t, struct file *, loff_t, size_t, unsigned int") "copy_file_range";
  fld (fptr "loff_t" "struct file *, loff_t, struct file *, loff_t, loff_t, unsigned int") "remap_file_range";
  fld (fptr "int" "struct file *, loff_t, loff_t, int") "fadvise";
  fld bool_ "may_pollfree"].

Definition struct_inode_operations := struct "inode_operations" [
  fld (fptr "struct dentry *" "struct inode *, struct dentry *, unsigned int") "lookup";
  fld (fptr "const char *" "struct dentry *, struct inode *, struct delayed_call *") "get_link";
  fld (fptr "int" "struct inode *, int") "permission";
  fld (fptr "struct posix_acl *" "struct inode *, int") "get_acl";
  fld (fptr "int" "struct dentry *, char *, int") "readlink";
  fld (fptr "int" "struct inode *, struct dentry *, umode_t, bool") "create";
  fld (fptr "int" "struct dentry *, struct inode *, struct dentry *") "link";
  fld (fptr "int" "struct inode *, struct dentry *") "unlink";
  fld (fptr "int" "struct inode *, struct dentry *, const char *") "symlink";
  fld (fptr "int" "struct inode *, struct dentry *, umode_t") "mkdir";
  fld (fptr "int" "struct inode *, struct dentry *") "rmdir";
  fld (fptr "int" "struct inode *, struct dentry *, umode_t, dev_t") "mknod";
  fld (fptr "int" "struct inode *, struct dentry *, struct inode *, struct dentry *, unsigned int") "rename";
  fld (fptr "int" "struct dentry *, struct iattr *") "setattr";
  fld (fptr "int" "const struct path *, struct kstat *, u32, unsigned int") "getattr";
  fld (fptr "ssize_t" "struct dentry *, char *, size_t") "listxattr";
  fld (fptr "int" "struct inode *, struct fiemap_extent_info *, u64, u64") "fiemap";
  fld (fptr "int" "struct inode *, struct timespec64 *, int") "update_time";
  fld (fptr "int" "struct inode *, struct dentry *, struct file *, unsigned int, umode_t") "atomic_open";
  fld (fptr "int" "struct inode *, struct dentry *, umode_t") "tmpfile";
  fld (fptr "int" "struct inode *, struct posix_acl *, int") "set_acl";
  pad c_long 64;
  pad c_long 64;
  pad c_long 64].

Definition struct_p_log := struct "p_log" [
  fld (ptr "const char") "prefix";
  fld (ptr "struct fc_log") "log"].

Definition enum_fs_context_purpose := enum "fs_context_purpose" [
  ev "FS_CONTEXT_FOR_MOUNT" 0;
  ev "FS_CONTEXT_FOR_SUBMOUNT" 1;
  ev "FS_CONTEXT_FOR_RECONFIGURE" 2].

Definition enum_fs_context_phase := enum "fs_context_phase" [
  ev "FS_CONTEXT_CREATE_PARAMS" 0;
  ev "FS_CONTEXT_CREATING" 1;
  ev "FS_CONTEXT_AWAITING_MOUNT" 2;
  ev "FS_CONTEXT_AWAITING_RECONF" 3;
  ev "FS_CONTEXT_RECONF_PARAMS" 4;
  ev "FS_CONTEXT_RECONFIGURING" 5;
  ev "FS_CONTEXT_FAILED" 6].

Definition struct_fs_context := struct "fs_context" [
  fld (ptr "const struct fs_context_operations") "ops";
  fld struct_mutex "uapi_mutex";
  fld (ptr "struct file_system_type") "fs_type";
  fld (ptr "void") "fs_private";
  fld (ptr "void") "sget_key";
  fld (ptr "struct dentry") "root";
  fld (ptr "struct user_namespace") "user_ns";
  fld (ptr "struct net") "net_ns";
  fld (ptr "const struct cred") "cred";
  fld struct_p_log "log";
  fld (ptr "const char") "source";
  fld (ptr "void") "security";
  fld (ptr "void") "s_fs_info";
  fld c_uint "sb_flags";
  fld c_uint "sb_flags_mask";
  fld c_uint "s_iflags";
  bits enum_fs_context_purpose "purpose" 8;
  bits enum_fs_context_phase "phase" 8;
  bits bool_ "need_free" 1;
  bits bool_ "global" 1;
  bits bool_ "oldapi" 1].

Definition struct_bpf_mount_opts := struct "bpf_mount_opts" [
  fld umode_t "mode"].

Definition struct_seq_file := struct "seq_file" [
  fld (ptr "char") "buf";
  fld size_t "size";
  fld size_t "from";
  fld size_t "count";
  fld size_t "pad_until";
  fld loff_t "index";
  fld loff_t "read_pos";
  fld struct_mutex "lock";
  fld (ptr "const struct seq_operations") "op";
  fld c_int "poll_event";
  fld (ptr "const struct file") "file";
  fld (ptr "void") "private"].

Definition struct_thread_info := struct "thread_info" [
  fld c_ulong "flags";
  fld u32 "status"].

Definition struct_load_weight := struct "load_weight" [
  fld c_ulong "weight";
  fld u32 "inv_weight"].

Definition struct_sched_statistics := struct "sched_statistics" [
  fld u64 "wait_start";
  fld u64 "wait_max";
  fld u64 "wait_count";
  fld u64 "wait_sum";
  fld u64 "iowait_count";
  fld u64 "iowait_sum";
  fld u64 "sleep_start";
  fld u64 "sleep_max";
  fld s64 "sum_sleep_runtime";
  fld u64 "block_start";
  fld u64 "block_max";
  fld u64 "exec_max";
  fld u64 "slice_max";
  fld u64 "nr_migrations_cold";
  fld u64 "nr_failed_migrations_affine";
  fld u64 "nr_failed_migrations_running";
  fld u64 "nr_failed_migrations_hot";
  fld u64 "nr_forced_migrations";
  fld u64 "nr_wakeups";
  fld u64 "nr_wakeups_sync";
  fld u64 "nr_wakeups_migrate";
  fld u64 "nr_wakeups_local";
  fld u64 "nr_wakeups_remote";
  fld u64 "nr_wakeups_affine";
  fld u64 "nr_wakeups_affine_attempts";
  fld u64 "nr_wakeups_passive";
  fld u64 "nr_wakeups_idle"].

Definition struct_util_est := struct "util_est" [
  fld c_uint "enqueued";
  fld c_uint "ewma"].

Definition struct_sched_avg := struct "sched_avg" [
  fld u64 "last_update_time";
  fld u64 "load_sum";
  fld u64 "runnable_sum";
  fld u32 "util_sum";
  fld u32 "period_contrib";
  fld c_ulong "load_avg";
  fld c_ulong "runnable_avg";
  fld c_ulong "util_avg";
  fld struct_util_est "util_est"].

Definition struct_sched_entity := struct "sched_entity" [
  fld struct_load_weight "load";
  fld struct_rb_node "run_node";
  fld struct_list_head "group_node";
  fld c_uint "on_rq";
  fld u64 "exec_start";
  fld u64 "sum_exec_runtime";
  fld u64 "vruntime";
  fld u64 "prev_sum_exec_runtime";
  fld u64 "nr_migrations";
  fld struct_sched_statistics "statistics";
  fld c_int "depth";
  fld (ptr "struct sched_entity") "parent";
  fld (ptr "struct cfs_rq") "cfs_rq";
  fld (ptr "struct cfs_rq") "my_q";
  fld c_ulong "runnable_weight";
  pad c_long 64;
  pad c_long 64;
  pad c_long 64;
  fld struct_sched_avg "avg"].

Definition struct_sched_rt_entity := struct "sched_rt_entity" [
  fld struct_list_head "run_list";
  fld c_ulong "timeout";
  fld c_ulong "watchdog_stamp";
  fld c_uint "time_slice";
  fld c_ushort "on_rq";
  fld c_ushort "on_list";
  fld (ptr "struct sched_rt_entity") "back";
  fld (ptr "struct sched_rt_entity") "parent";
  fld (ptr "struct rt_rq") "rt_rq";
  fld (ptr "struct rt_rq") "my_q"].

Definition struct_sched_dl_entity := struct "sched_dl_entity" [
  fld struct_rb_node "rb_node";
  fld u64 "dl_runtime";
  fld u64 "dl_deadline";
  fld u64 "dl_period";
  fld u64 "dl_bw";
  fld u64 "dl_density";
  fld s64 "runtime";
  fld u64 "deadline";
  fld c_uint "flags";
  bits c_uint "dl_throttled" 1;
  bits c_uint "dl_yielded" 1;
  bits c_uint "dl_non_contending" 1;
  bits c_uint "dl_overrun" 1;
  fld struct_hrtimer "dl_timer";
  fld struct_hrtimer "inactive_timer";
  fld (ptr "struct sched_dl_entity") "pi_se"].

Definition struct_cpumask := struct "cpumask" [
  fld (arr c_ulong 128) "bits"].

Definition cpumask_t := struct_cpumask.

Definition union_rcu_special := union "rcu_special" [
  fld (struct no_tag [
    fld u8 "blocked";
    fld u8 "need_qs";
    fld u8 "exp_hint";
    fld u8 "need_mb"]) "b";
  fld u32 "s"].

Definition struct_sched_info := struct "sched_info" [
  fld c_ulong "pcount";
  fld c_ullong "run_delay";
  fld c_ullong "last_arrival";
  fld c_ullong "last_queued"].

Definition struct_plist_node := struct "plist_node" [
  fld c_int "prio";
  fld struct_list_head "prio_list";
  fld struct_list_head "node_list"].

Definition struct_vmacache := struct "vmacache" [
  fld u64 "seqnum";
  fld (arr (ptr "struct vm_area_struct") 4) "vmas"].

Definition struct_task_rss_stat := struct "task_rss_stat" [
  fld c_int "events";
  fld (arr c_int 4) "count"].

Definition __kernel_clockid_t := c_int.

Definition clockid_t := __kernel_clockid_t.

Definition enum_timespec_type := enum "timespec_type" [
  ev "TT_NONE" 0;
  ev "TT_NATIVE" 1;
  ev "TT_COMPAT" 2].

Definition struct_restart_block := struct "restart_block" [
  fld (fptr "long int" "struct restart_block *") "fn";
  anon (union no_tag [
    fld (struct no_tag [
      fld (ptr "u32") "uaddr";
      fld u32 "val";
      fld u32 "flags";
      fld u32 "bitset";
      fld u64 "time";
      fld (ptr "u32") "uaddr2"]) "futex";
    fld (struct no_tag [
      fld clockid_t "clockid";
      fld enum_timespec_type "type";
      anon (union no_tag [
        fld (ptr "struct __kernel_timespec") "rmtp";
        fld (ptr "struct old_timespec32") "compat_rmtp"]);
      fld u64 "expires"]) "nanosleep";
    fld (struct no_tag [
      fld (ptr "struct pollfd") "ufds";
      fld c_int "nfds";
      fld c_int "has_timeout";
      fld c_ulong "tv_sec";
      fld c_ulong "tv_nsec"]) "poll"])].

Definition __kernel_pid_t := c_int.

Definition pid_t := __kernel_pid_t.

Definition struct_prev_cputime := struct "prev_cputime" [
  fld u64 "utime";
  fld u64 "stime";
  fld raw_spinlock_t "lock"].

Definition struct_timerqueue_head := struct "timerqueue_head" [
  fld struct_rb_root_cached "rb_root"].

Definition struct_posix_cputimer_base := struct "posix_cputimer_base" [
  fld u64 "nextevt";
  fld struct_timerqueue_head "tqhead"].

Definition struct_posix_cputimers := struct "posix_cputimers" [
  fld (arr struct_posix_cputimer_base 3) "bases";
  fld c_uint "timers_active";
  fld c_uint "expiry_active"].

Definition struct_posix_cputimers_work := struct "posix_cputimers_work" [
  fld struct_callback_head "work";
  fld struct_mutex "mutex";
  fld c_uint "scheduled"].

Definition struct_sysv_sem := struct "sysv_sem" [
  fld (ptr "struct sem_undo_list") "undo_list"].

Definition struct_sysv_shm := struct "sysv_shm" [
  fld struct_list_head "shm_clist"].

Definition sigset_t := struct no_tag [
    fld (arr c_ulong 1) "sig"].

Definition struct_sigpending := struct "sigpending" [
  fld struct_list_head "list";
  fld sigset_t "signal"].

Definition struct_seccomp := struct "seccomp" [
  fld c_int "mode";
  fld atomic_t "filter_count";
  fld (ptr "struct seccomp_filter") "filter"].

Definition struct_wake_q_node := struct "wake_q_node" [
  fld (ptr "struct wake_q_node") "next"].

Definition struct_task_io_accounting := struct "task_io_accounting" [
  fld u64 "rchar";
  fld u64 "wchar";
  fld u64 "syscr";
  fld u64 "syscw";
  fld u64 "read_bytes";
  fld u64 "write_bytes";
  fld u64 "cancelled_write_bytes"].

Definition nodemask_t := struct no_tag [
    fld (arr c_ulong 16) "bits"].

Definition struct_arch_tlbflush_unmap_batch := struct "arch_tlbflush_unmap_batch" [
  fld struct_cpumask "cpumask"].

Definition struct_tlbflush_unmap_batch := struct "tlbflush_unmap_batch" [
  fld struct_arch_tlbflush_unmap_batch "arch";
  fld bool_ "flush_required";
  fld bool_ "writable"].

Definition struct_latency_record := struct "latency_record" [
  fld (arr c_ulong 12) "backtrace";
  fld c_uint "count";
  fld c_ulong "time";
  fld c_ulong "max"].

Definition struct_desc_struct := struct "desc_struct" [
  fld u16 "limit0";
  fld u16 "base0";
  bits u16 "base1" 8;
  bits u16 "type" 4;
  bits u16 "s" 1;
  bits u16 "dpl" 2;
  bits u16 "p" 1;
  bits u16 "limit1" 4;
  bits u16 "avl" 1;
  bits u16 "l" 1;
  bits u16 "d" 1;
  bits u16 "g" 1;
  bits u16 "base2" 8].

Definition struct_fregs_state := struct "fregs_state" [
  fld u32 "cwd";
  fld u32 "swd";
  fld u32 "twd";
  fld u32 "fip";
  fld u32 "fcs";
  fld u32 "foo";
  fld u32 "fos";
  fld (arr u32 20) "st_space";
  fld u32 "status"].

Definition struct_fxregs_state := struct "fxregs_state" [
  fld u16 "cwd";
  fld u16 "swd";
  fld u16 "twd";
  fld u16 "fop";
  anon (union no_tag [
    anon (struct no_tag [
      fld u64 "rip";
      fld u64 "rdp"]);
    anon (struct no_tag [
      fld u32 "fip";
      fld u32 "fcs";
      fld u32 "foo";
      fld u32 "fos"])]);
  fld u32 "mxcsr";
  fld u32 "mxcsr_mask";
  fld (arr u32 32) "st_space";
  fld (arr u32 64) "xmm_space";
  fld (arr u32 12) "padding";
  anon (union no_tag [
    fld (arr u32 12) "padding1";
    fld (arr u32 12) "sw_reserved"])].

Definition struct_swregs_state := struct "swregs_state" [
  fld u32 "cwd";
  fld u32 "swd";
  fld u32 "twd";
  fld u32 "fip";
  fld u32 "fcs";
  fld u32 "foo";
  fld u32 "fos";
  fld (arr u32 20) "st_space";
  fld u8 "ftop";
  fld u8 "changed";
  fld u8 "lookahead";
  fld u8 "no_update";
  fld u8 "rm";
  fld u8 "alimit";
  fld (ptr "struct math_emu_info") "info";
  fld u32 "entry_eip"].

Definition struct_xstate_header := struct "xstate_header" [
  fld u64 "xfeatures";
  fld u64 "xcomp_bv";
  fld (arr u64 6) "reserved"].

Definition struct_xregs_state := struct "xregs_state" [
  fld struct_fxregs_state "i387";
  fld struct_xstate_header "header";
  fld (arr u8 0) "extended_state_area"].

Definition union_fpregs_state := union "fpregs_state" [
  fld struct_fregs_state "fsave";
  fld struct_fxregs_state "fxsave";
  fld struct_swregs_state "soft";
  fld struct_xregs_state "xsave";
  fld (arr u8 4096) "__padding"].

Definition struct_fpu := struct "fpu" [
  fld c_uint "last_cpu";
  fld c_ulong "avx512_timestamp";
  pad c_long 64;
  pad c_long 64;
  pad c_long 64;
  pad c_long 64;
  pad c_long 64;
  pad c_long 64;
  fld union_fpregs_state "state"].

Definition struct_thread_struct := struct "thread_struct" [
  fld (arr struct_desc_struct 3) "tls_array";
  fld c_ulong "sp";
  fld c_ushort "es";
  fld c_ushort "ds";
  fld c_ushort "fsindex";
  fld c_ushort "gsindex";
  fld c_ulong "fsbase";
  fld c_ulong "gsbase";
  fld (arr (ptr "struct perf_event") 4) "ptrace_bps";
  fld c_ulong "virtual_dr6";
  fld c_ulong "ptrace_dr7";
  fld c_ulong "cr2";
  fld c_ulong "trap_nr";
  fld c_ulong "error_code";
  fld (ptr "struct io_bitmap") "io_bitmap";
  fld c_ulong "iopl_emul";
  bits c_uint "iopl_warn" 1;
  pad c_long 64;
  pad c_long 64;
  pad c_long 64;
  pad c_long 64;
  pad c_long 64;
  fld struct_fpu "fpu"].

Definition struct_task_struct := struct "task_struct" [
  fld struct_thread_info "thread_info";
  fld c_long "state";
  fld (ptr "void") "stack";
  fld refcount_t "usage";
  fld c_uint "flags";
  fld c_uint "ptrace";
  fld c_int "on_cpu";
  fld struct___call_single_node "wake_entry";
  fld c_uint "cpu";
  fld c_uint "wakee_flips";
  fld c_ulong "wakee_flip_decay_ts";
  fld (ptr "struct task_struct") "last_wakee";
  fld c_int "recent_used_cpu";
  fld c_int "wake_cpu";
  fld c_int "on_rq";
  fld c_int "prio";
  fld c_int "static_prio";
  fld c_int "normal_prio";
  fld c_uint "rt_priority";
  fld (ptr "const struct sched_class") "sched_class";
  fld struct_sched_entity "se";
  fld struct_sched_rt_entity "rt";
  fld (ptr "struct task_group") "sched_task_group";
  fld struct_sched_dl_entity "dl";
  fld struct_hlist_head "preempt_notifiers";
  fld c_uint "btrace_seq";
  fld c_uint "policy";
  fld c_int "nr_cpus_allowed";
  fld (ptr "const cpumask_t") "cpus_ptr";
  fld cpumask_t "cpus_mask";
  fld c_int "trc_reader_nesting";
  fld c_int "trc_ipi_to_cpu";
  fld union_rcu_special "trc_reader_special";
  fld bool_ "trc_reader_checked";
  fld struct_list_head "trc_holdout_list";
  fld struct_sched_info "sched_info";
  fld struct_list_head "tasks";
  fld struct_plist_node "pushable_tasks";
  fld struct_rb_node "pushable_dl_tasks";
  fld (ptr "struct mm_struct") "mm";
  fld (ptr "struct mm_struct") "active_mm";
  fld struct_vmacache "vmacache";
  fld struct_task_rss_stat "rss_stat";
  fld c_int "exit_state";
  fld c_int "exit_code";
  fld c_int "exit_signal";
  fld c_int "pdeath_signal";
  fld c_ulong "jobctl";
  fld c_uint "personality";
  bits c_uint "sched_reset_on_fork" 1;
  bits c_uint "sched_contributes_to_load" 1;
  bits c_uint "sched_migrated" 1;
  bits c_uint "sched_psi_wake_requeue" 1;
  pad c_long 28;
  bits c_uint "sched_remote_wakeup" 1;
  bits c_uint "in_execve" 1;
  bits c_uint "in_iowait" 1;
  bits c_uint "restore_sigmask" 1;
  bits c_uint "in_user_fault" 1;
  bits c_uint "no_cgroup_migration" 1;
  bits c_uint "frozen" 1;
  bits c_uint "use_memdelay" 1;
  bits c_uint "in_memstall" 1;
  fld c_ulong "atomic_flags";
  fld struct_restart_block "restart_block";
  fld pid_t "pid";
  fld pid_t "tgid";
  fld c_ulong "stack_canary";
  fld (ptr "struct task_struct") "real_parent";
  fld (ptr "struct task_struct") "parent";
  fld struct_list_head "children";
  fld struct_list_head "sibling";
  fld (ptr "struct task_struct") "group_leader";
  fld struct_list_head "ptraced";
  fld struct_list_head "ptrace_entry";
  fld (ptr "struct pid") "thread_pid";
  fld (arr struct_hlist_node 4) "pid_links";
  fld struct_list_head "thread_group";
  fld struct_list_head "thread_node";
  fld (ptr "struct completion") "vfork_done";
  fld (ptr "int") "set_child_tid";
  fld (ptr "int") "clear_child_tid";
  fld (ptr "void") "pf_io_worker";
  fld u64 "utime";
  fld u64 "stime";
  fld u64 "gtime";
  fld struct_prev_cputime "prev_cputime";
  fld c_ulong "nvcsw";
  fld c_ulong "nivcsw";
  fld u64 "start_time";
  fld u64 "start_boottime";
  fld c_ulong "min_flt";
  fld c_ulong "maj_flt";
  fld struct_posix_cputimers "posix_cputimers";
  fld struct_posix_cputimers_work "posix_cputimers_work";
  fld (ptr "const struct cred") "ptracer_cred";
  fld (ptr "const struct cred") "real_cred";
  fld (ptr "const struct cred") "cred";
  fld (ptr "struct key") "cached_requested_key";
  fld (arr c_char 16) "comm";
  fld (ptr "struct nameidata") "nameidata";
  fld struct_sysv_sem "sysvsem";
  fld struct_sysv_shm "sysvshm";
  fld c_ulong "last_switch_count";
  fld c_ulong "last_switch_time";
  fld (ptr "struct fs_struct") "fs";
  fld (ptr "struct files_struct") "files";
  fld (ptr "struct io_uring_task") "io_uring";
  fld (ptr "struct nsproxy") "nsproxy";
  fld (ptr "struct signal_struct") "signal";
  fld (ptr "struct sighand_struct") "sighand";
  fld sigset_t "blocked";
  fld sigset_t "real_blocked";
  fld sigset_t "saved_sigmask";
  fld struct_sigpending "pending";
  fld c_ulong "sas_ss_sp";
  fld size_t "sas_ss_size";
  fld c_uint "sas_ss_flags";
  fld (ptr "struct callback_head") "task_works";
  fld (ptr "struct audit_context") "audit_context";
  fld kuid_t "loginuid";
  fld c_uint "sessionid";
  fld struct_seccomp "seccomp";
  fld u64 "parent_exec_id";
  fld u64 "self_exec_id";
  fld spinlock_t "alloc_lock";
  fld raw_spinlock_t "pi_lock";
  fld struct_wake_q_node "wake_q";
  fld struct_rb_root_cached "pi_waiters";
  fld (ptr "struct task_struct") "pi_top_task";
  fld (ptr "struct rt_mutex_waiter") "pi_blocked_on";
  fld (ptr "void") "journal_info";
  fld (ptr "struct bio_list") "bio_list";
  fld (ptr "struct blk_plug") "plug";
  fld (ptr "struct reclaim_state") "reclaim_state";
  fld (ptr "struct backing_dev_info") "backing_dev_info";
  fld (ptr "struct io_context") "io_context";
  fld (ptr "struct capture_control") "capture_control";
  fld c_ulong "ptrace_message";
  fld (ptr "kernel_siginfo_t") "last_siginfo";
  fld struct_task_io_accounting "ioac";
  fld c_uint "psi_flags";
  fld u64 "acct_rss_mem1";
  fld u64 "acct_vm_mem1";
  fld u64 "acct_timexpd";
  fld nodemask_t "mems_allowed";
  fld seqcount_spinlock_t "mems_allowed_seq";
  fld c_int "cpuset_mem_spread_rotor";
  fld c_int "cpuset_slab_spread_rotor";
  fld (ptr "struct css_set") "cgroups";
  fld struct_list_head "cg_list";
  fld (ptr "struct robust_list_head") "robust_list";
  fld (ptr "struct compat_robust_list_head") "compat_robust_list";
  fld struct_list_head "pi_state_list";
  fld (ptr "struct futex_pi_state") "pi_state_cache";
  fld struct_mutex "futex_exit_mutex";
  fld c_uint "futex_state";
  fld (arr (ptr "struct perf_event_context") 2) "perf_event_ctxp";
  fld struct_mutex "perf_event_mutex";
  fld struct_list_head "perf_event_list";
  fld (ptr "struct mempolicy") "mempolicy";
  fld c_short "il_prev";
  fld c_short "pref_node_fork";
  fld c_int "numa_scan_seq";
  fld c_uint "numa_scan_period";
  fld c_uint "numa_scan_period_max";
  fld c_int "numa_preferred_nid";
  fld c_ulong "numa_migrate_retry";
  fld u64 "node_stamp";
  fld u64 "last_task_numa_placement";
  fld u64 "last_sum_exec_runtime";
  fld struct_callback_head "numa_work";
  fld (ptr "struct numa_group") "numa_group";
  fld (ptr "long unsigned int") "numa_faults";
  fld c_ulong "total_numa_faults";
  fld (arr c_ulong 3) "numa_faults_locality";
  fld c_ulong "numa_pages_migrated";
  fld (ptr "struct rseq") "rseq";
  fld u32 "rseq_sig";
  fld c_ulong "rseq_event_mask";
  fld struct_tlbflush_unmap_batch "tlb_ubc";
  anon (union no_tag [
    fld refcount_t "rcu_users";
    fld struct_callback_head "rcu"]);
  fld (ptr "struct pipe_inode_info") "splice_pipe";
  fld struct_page_frag "task_frag";
  fld (ptr "struct task_delay_info") "delays";
  fld c_int "make_it_fail";
  fld c_uint "fail_nth";
  fld c_int "nr_dirtied";
  fld c_int "nr_dirtied_pause";
  fld c_ulong "dirty_paused_when";
  fld c_int "latency_record_count";
  fld (arr struct_latency_record 32) "latency_record";
  fld u64 "timer_slack_ns";
  fld u64 "default_timer_slack_ns";
  fld c_int "curr_ret_stack";
  fld c_int "curr_ret_depth";
  fld (ptr "struct ftrace_ret_stack") "ret_stack";
  fld c_ullong "ftrace_timestamp";
  fld atomic_t "trace_overrun";
  fld atomic_t "tracing_graph_pause";
  fld c_ulong "trace";
  fld c_ulong "trace_recursion";
  fld (ptr "struct mem_cgroup") "memcg_in_oom";
  fld gfp_t "memcg_oom_gfp_mask";
  fld c_int "memcg_oom_order";
  fld c_uint "memcg_nr_pages_over_high";
  fld (ptr "struct mem_cgroup") "active_memcg";
  fld (ptr "struct request_queue") "throttle_queue";
  fld (ptr "struct uprobe_task") "utask";
  fld c_uint "sequential_io";
  fld c_uint "sequential_io_avg";
  fld c_int "pagefault_disabled";
  fld (ptr "struct task_struct") "oom_reaper_list";
  fld struct_timer_list "oom_reaper_timer";
  fld (ptr "struct vm_struct") "stack_vm_area";
  fld refcount_t "stack_refcount";
  fld c_int "patch_state";
  fld (ptr "void") "security";
  fld (ptr "void") "mce_vaddr";
  fld __u64 "mce_kflags";
  fld u64 "mce_addr";
  bits __u64 "mce_ripv" 1;
  bits __u64 "mce_whole_page" 1;
  bits __u64 "__mce_reserved" 62;
  fld struct_callback_head "mce_kill_me";
  fld c_int "mce_count";
  fld struct_callback_head "l1d_flush_kill";
  pad c_long 64;
  pad c_long 64;
  pad c_long 64;
  pad c_long 64;
  pad c_long 64;
  pad c_long 64;
  pad c_long 64;
  fld struct_thread_struct "thread"].

Definition struct_mm_rss_stat := struct "mm_rss_stat" [
  fld (arr atomic_long_t 4) "count"].

Definition mm_context_t := struct no_tag [
    fld u64 "ctx_id";
    fld atomic64_t "tlb_gen";
    fld c_ushort "ia32_compat";
    fld struct_mutex "lock";
    fld (ptr "void") "vdso";
    fld (ptr "const struct vdso_image") "vdso_image";
    fld atomic_t "perf_rdpmc_allowed";
    fld u16 "pkey_allocation_map";
    fld s16 "execute_only_pkey"].

Definition struct_uprobes_state := struct "uprobes_state" [
  fld (ptr "struct xol_area") "xol_area"].

Definition struct_mm_struct := struct "mm_struct" [
  anon (struct no_tag [
    fld (ptr "struct vm_area_struct") "mmap";
    fld struct_rb_root "mm_rb";
    fld u64 "vmacache_seqnum";
    fld (fptr "long unsigned int" "struct file *, long unsigned int, long unsigned int, long unsigned int, long unsigned int") "get_unmapped_area";
    fld c_ulong "mmap_base";
    fld c_ulong "mmap_legacy_base";
    fld c_ulong "mmap_compat_base";
    fld c_ulong "mmap_compat_legacy_base";
    fld c_ulong "task_size";
    fld c_ulong "highest_vm_end";
    fld (ptr "pgd_t") "pgd";
    fld atomic_t "membarrier_state";
    fld atomic_t "mm_users";
    fld atomic_t "mm_count";
    fld atomic_t "has_pinned";
    fld atomic_long_t "pgtables_bytes";
    fld c_int "map_count";
    fld spinlock_t "page_table_lock";
    fld struct_rw_semaphore "mmap_lock";
    fld struct_list_head "mmlist";
    fld c_ulong "hiwater_rss";
    fld c_ulong "hiwater_vm";
    fld c_ulong "total_vm";
    fld c_ulong "locked_vm";
    fld atomic64_t "pinned_vm";
    fld c_ulong "data_vm";
    fld c_ulong "exec_vm";
    fld c_ulong "stack_vm";
    fld c_ulong "def_flags";
    fld seqcount_t "write_protect_seq";
    fld spinlock_t "arg_lock";
    fld c_ulong "start_code";
    fld c_ulong "end_code";
    fld c_ulong "start_data";
    fld c_ulong "end_data";
    fld c_ulong "start_brk";
    fld c_ulong "brk";
    fld c_ulong "start_stack";
    fld c_ulong "arg_start";
    fld c_ulong "arg_end";
    fld c_ulong "env_start";
    fld c_ulong "env_end";
    fld (arr c_ulong 46) "saved_auxv";
    fld struct_mm_rss_stat "rss_stat";
    fld (ptr "struct linux_binfmt") "binfmt";
    fld mm_context_t "context";
    fld c_ulong "flags";
    fld (ptr "struct core_state") "core_state";
    fld spinlock_t "ioctx_lock";
    fld (ptr "struct kioctx_table") "ioctx_table";
    fld (ptr "struct task_struct") "owner";
    fld (ptr "struct user_namespace") "user_ns";
    fld (ptr "struct file") "exe_file";
    fld (ptr "struct mmu_notifier_subscriptions") "notifier_subscriptions";
    fld c_ulong "numa_next_scan";
    fld c_ulong "numa_scan_offset";
    fld c_int "numa_scan_seq";
    fld atomic_t "tlb_flush_pending";
    fld bool_ "tlb_flush_batched";
    fld struct_uprobes_state "uprobes_state";
    fld atomic_long_t "hugetlb_usage";
    fld struct_work_struct "async_put_work";
    fld u32 "pasid"]);
  fld (arr c_ulong 0) "cpu_bitmap"].

Definition pgprotval_t := c_ulong.

Definition struct_pgprot := struct "pgprot" [
  fld pgprotval_t "pgprot"].

Definition pgprot_t := struct_pgprot.

Definition struct_vm_userfaultfd_ctx := struct "vm_userfaultfd_ctx" [
  fld (ptr "struct userfaultfd_ctx") "ctx"].

Definition struct_vm_area_struct := struct "vm_area_struct" [
  fld c_ulong "vm_start";
  fld c_ulong "vm_end";
  fld (ptr "struct vm_area_struct") "vm_next";
  fld (ptr "struct vm_area_struct") "vm_prev";
  fld struct_rb_node "vm_rb";
  fld c_ulong "rb_subtree_gap";
  fld (ptr "struct mm_struct") "vm_mm";
  fld pgprot_t "vm_page_prot";
  fld c_ulong "vm_flags";
  fld (struct no_tag [
    fld struct_rb_node "rb";
    fld c_ulong "rb_subtree_last"]) "shared";
  fld struct_list_head "anon_vma_chain";
  fld (ptr "struct anon_vma") "anon_vma";
  fld (ptr "const struct vm_operations_struct") "vm_ops";
  fld c_ulong "vm_pgoff";
  fld (ptr "struct file") "vm_file";
  fld (ptr "void") "vm_private_data";
  fld atomic_long_t "swap_readahead_info";
  fld (ptr "struct mempolicy") "vm_policy";
  fld struct_vm_userfaultfd_ctx "vm_userfaultfd_ctx"].

Definition struct_btf_header := struct "btf_header" [
  fld __u16 "magic";
  fld __u8 "version";
  fld __u8 "flags";
  fld __u32 "hdr_len";
  fld __u32 "type_off";
  fld __u32 "type_len";
  fld __u32 "str_off";
  fld __u32 "str_len"].

Definition struct_btf := struct "btf" [
  fld (ptr "void") "data";
  fld (ptr "struct btf_type **") "types";
  fld (ptr "u32") "resolved_ids";
  fld (ptr "u32") "resolved_sizes";
  fld (ptr "const char") "strings";
  fld (ptr "void") "nohdr_data";
  fld struct_btf_header "hdr";
  fld u32 "nr_types";
  fld u32 "types_size";
  fld u32 "data_size";
  fld refcount_t "refcnt";
  fld u32 "id";
  fld struct_callback_head "rcu"].

Definition struct_bpf_local_storage_map := struct "bpf_local_storage_map" [
  fld struct_bpf_map "map";
  fld (ptr "struct bpf_local_storage_map_bucket") "buckets";
  fld u32 "bucket_log";
  fld u16 "elem_size";
  fld u16 "cache_idx";
  pad c_long 64;
  pad c_long 64;
  pad c_long 64;
  pad c_long 64;
  pad c_long 64;
  pad c_long 64].

Definition struct_bpf_struct_ops := struct "bpf_struct_ops" [
  fld (ptr "const struct bpf_verifier_ops") "verifier_ops";
  fld (fptr "int" "struct btf *") "init";
  fld (fptr "int" "const struct btf_type *, const struct btf_member *") "check_member";
  fld (fptr "int" "const struct btf_type *, const struct btf_member *, void *, const void *") "init_member";
  fld (fptr "int" "void *") "reg";
  fld (fptr "void" "void *") "unreg";
  fld (ptr "const struct btf_type") "type";
  fld (ptr "const struct btf_type") "value_type";
  fld (ptr "const char") "name";
  fld (arr struct_btf_func_model 64) "func_models";
  fld u32 "type_id";
  fld u32 "value_id"].

Definition bpf_iter_attach_target_t :=
  fptr "int" "struct bpf_prog *, union bpf_iter_link_info *, struct bpf_iter_aux_info *".

Definition bpf_iter_detach_target_t := fptr "void" "struct bpf_iter_aux_info *".

Definition bpf_iter_show_fdinfo_t :=
  fptr "void" "const struct bpf_iter_aux_info *, struct seq_file *".

Definition bpf_iter_fill_link_info_t :=
  fptr "int" "const struct bpf_iter_aux_info *, struct bpf_link_info *".

Definition struct_bpf_ctx_arg_aux := struct "bpf_ctx_arg_aux" [
  fld u32 "offset";
  fld enum_bpf_reg_type "reg_type";
  fld u32 "btf_id"].

Definition struct_bpf_iter_reg := struct "bpf_iter_reg" [
  fld (ptr "const char") "target";
  fld bpf_iter_attach_target_t "attach_target";
  fld bpf_iter_detach_target_t "detach_target";
  fld bpf_iter_show_fdinfo_t "show_fdinfo";
  fld bpf_iter_fill_link_info_t "fill_link_info";
  fld u32 "ctx_arg_info_size";
  fld (arr struct_bpf_ctx_arg_aux 2) "ctx_arg_info";
  fld (ptr "const struct bpf_iter_seq_info") "seq_info"].

Definition struct_percpu_ref := struct "percpu_ref" [
  fld c_ulong "percpu_count_ptr";
  fld (ptr "struct percpu_ref_data") "data"].

Definition struct_rcu_work := struct "rcu_work" [
  fld struct_work_struct "work";
  fld struct_callback_head "rcu";
  fld (ptr "struct workqueue_struct") "wq"].

Definition struct_cgroup_subsys_state := struct "cgroup_subsys_state" [
  fld (ptr "struct cgroup") "cgroup";
  fld (ptr "struct cgroup_subsys") "ss";
  fld struct_percpu_ref "refcnt";
  fld struct_list_head "sibling";
  fld struct_list_head "children";
  fld struct_list_head "rstat_css_node";
  fld c_int "id";
  fld c_uint "flags";
  fld u64 "serial_nr";
  fld atomic_t "online_cnt";
  fld struct_work_struct "destroy_work";
  fld struct_rcu_work "destroy_rwork";
  fld (ptr "struct cgroup_subsys_state") "parent"].

Definition struct_cgroup_file := struct "cgroup_file" [
  fld (ptr "struct kernfs_node") "kn";
  fld c_ulong "notified_at";
  fld struct_timer_list "notify_timer"].

Definition struct_task_cputime := struct "task_cputime" [
  fld u64 "stime";
  fld u64 "utime";
  fld c_ullong "sum_exec_runtime"].

Definition struct_cgroup_base_stat := struct "cgroup_base_stat" [
  fld struct_task_cputime "cputime"].

Definition struct_psi_group := struct "psi_group" [
  fld struct_mutex "avgs_lock";
  fld (ptr "struct psi_group_cpu") "pcpu";
  fld (arr u64 5) "avg_total";
  fld u64 "avg_last_update";
  fld u64 "avg_next_update";
  fld struct_delayed_work "avgs_work";
  fld (arr u64 10) "total";
  fld (arr c_ulong 15) "avg";
  fld (ptr "struct task_struct") "poll_task";
  fld struct_timer_list "poll_timer";
  fld wait_queue_head_t "poll_wait";
  fld atomic_t "poll_wakeup";
  fld struct_mutex "trigger_lock";
  fld struct_list_head "triggers";
  fld (arr u32 5) "nr_triggers";
  fld u32 "poll_states";
  fld u64 "poll_min_period";
  fld (arr u64 5) "polling_total";
  fld u64 "polling_next_update";
  fld u64 "polling_until"].

Definition struct_cgroup_bpf := struct "cgroup_bpf" [
  fld (arr (ptr "struct bpf_prog_array") 41) "effective";
  fld (arr struct_list_head 41) "progs";
  fld (arr u32 41) "flags";
  fld struct_list_head "storages";
  fld (ptr "struct bpf_prog_array") "inactive";
  fld struct_percpu_ref "refcnt";
  fld struct_work_struct "release_work"].

Definition struct_cgroup_freezer_state := struct "cgroup_freezer_state" [
  fld bool_ "freeze";
  fld c_int "e_freeze";
  fld c_int "nr_frozen_descendants";
  fld c_int "nr_frozen_tasks"].

Definition struct_cgroup := struct "cgroup" [
  fld struct_cgroup_subsys_state "self";
  fld c_ulong "flags";
  fld c_int "level";
  fld c_int "max_depth";
  fld c_int "nr_descendants";
  fld c_int "nr_dying_descendants";
  fld c_int "max_descendants";
  fld c_int "nr_populated_csets";
  fld c_int "nr_populated_domain_children";
  fld c_int "nr_populated_threaded_children";
  fld c_int "nr_threaded_children";
  fld (ptr "struct kernfs_node") "kn";
  fld struct_cgroup_file "procs_file";
  fld struct_cgroup_file "events_file";
  fld u16 "subtree_control";
  fld u16 "subtree_ss_mask";
  fld u16 "old_subtree_control";
  fld u16 "old_subtree_ss_mask";
  fld (arr (ptr "struct cgroup_subsys_state") 12) "subsys";
  fld (ptr "struct cgroup_root") "root";
  fld struct_list_head "cset_links";
  fld (arr struct_list_head 12) "e_csets";
  fld (ptr "struct cgroup") "dom_cgrp";
  fld (ptr "struct cgroup") "old_dom_cgrp";
  fld (ptr "struct cgroup_rstat_cpu") "rstat_cpu";
  fld struct_list_head "rstat_css_list";
  fld struct_cgroup_base_stat "last_bstat";
  fld struct_cgroup_base_stat "bstat";
  fld struct_prev_cputime "prev_cputime";
  fld struct_list_head "pidlists";
  fld struct_mutex "pidlist_mutex";
  fld wait_queue_head_t "offline_waitq";
  fld struct_work_struct "release_agent_work";
  fld struct_psi_group "psi";
  fld struct_cgroup_bpf "bpf";
  fld atomic_t "congestion_count";
  fld struct_cgroup_freezer_state "freezer";
  fld (arr u64 0) "ancestor_ids"].

Definition enum_perf_event_state := enum "perf_event_state" [
  ev "PERF_EVENT_STATE_DEAD" 4294967292;
  ev "PERF_EVENT_STATE_EXIT" 4294967293;
  ev "PERF_EVENT_STATE_ERROR" 4294967294;
  ev "PERF_EVENT_STATE_OFF" 4294967295;
  ev "PERF_EVENT_STATE_INACTIVE" 0;
  ev "PERF_EVENT_STATE_ACTIVE" 1].

Definition local_t := struct no_tag [
    fld atomic_long_t "a"].

Definition local64_t := struct no_tag [
    fld local_t "a"].

Definition struct_perf_event_attr := struct "perf_event_attr" [
  fld __u32 "type";
  fld __u32 "size";
  fld __u64 "config";
  anon (union no_tag [
    fld __u64 "sample_period";
    fld __u64 "sample_freq"]);
  fld __u64 "sample_type";
  fld __u64 "read_format";
  bits __u64 "disabled" 1;
  bits __u64 "inherit" 1;
  bits __u64 "pinned" 1;
  bits __u64 "exclusive" 1;
  bits __u64 "exclude_user" 1;
  bits __u64 "exclude_kernel" 1;
  bits __u64 "exclude_hv" 1;
  bits __u64 "exclude_idle" 1;
  bits __u64 "mmap" 1;
  bits __u64 "comm" 1;
  bits __u64 "freq" 1;
  bits __u64 "inherit_stat" 1;
  bits __u64 "enable_on_exec" 1;
  bits __u64 "task" 1;
  bits __u64 "watermark" 1;
  bits __u64 "precise_ip" 2;
  bits __u64 "mmap_data" 1;
  bits __u64 "sample_id_all" 1;
  bits __u64 "exclude_host" 1;
  bits __u64 "exclude_guest" 1;
  bits __u64 "exclude_callchain_kernel" 1;
  bits __u64 "exclude_callchain_user" 1;
  bits __u64 "mmap2" 1;
  bits __u64 "comm_exec" 1;
  bits __u64 "use_clockid" 1;
  bits __u64 "context_switch" 1;
  bits __u64 "write_backward" 1;
  bits __u64 "namespaces" 1;
  bits __u64 "ksymbol" 1;
  bits __u64 "bpf_event" 1;
  bits __u64 "aux_output" 1;
  bits __u64 "cgroup" 1;
  bits __u64 "text_poke" 1;
  bits __u64 "__reserved_1" 30;
  anon (union no_tag [
    fld __u32 "wakeup_events";
    fld __u32 "wakeup_watermark"]);
  fld __u32 "bp_type";
  anon (union no_tag [
    fld __u64 "bp_addr";
    fld __u64 "kprobe_func";
    fld __u64 "uprobe_path";
    fld __u64 "config1"]);
  anon (union no_tag [
    fld __u64 "bp_len";
    fld __u64 "kprobe_addr";
    fld __u64 "probe_offset";
    fld __u64 "config2"]);
  fld __u64 "branch_sample_type";
  fld __u64 "sample_regs_user";
  fld __u32 "sample_stack_user";
  fld __s32 "clockid";
  fld __u64 "sample_regs_intr";
  fld __u32 "aux_watermark";
  fld __u16 "sample_max_stack";
  fld __u16 "__reserved_2";
  fld __u32 "aux_sample_size";
  fld __u32 "__reserved_3"].

Definition struct_hw_perf_event_extra := struct "hw_perf_event_extra" [
  fld u64 "config";
  fld c_uint "reg";
  fld c_int "alloc";
  fld c_int "idx"].

Definition struct_arch_hw_breakpoint := struct "arch_hw_breakpoint" [
  fld c_ulong "address";
  fld c_ulong "mask";
  fld u8 "len";
  fld u8 "type"].

Definition struct_hw_perf_event := struct "hw_perf_event" [
  anon (union no_tag [
    anon (struct no_tag [
      fld u64 "config";
      fld u64 "last_tag";
      fld c_ulong "config_base";
      fld c_ulong "event_base";
      fld c_int "event_base_rdpmc";
      fld c_int "idx";
      fld c_int "last_cpu";
      fld c_int "flags";
      fld struct_hw_perf_event_extra "extra_reg";
      fld struct_hw_perf_event_extra "branch_reg"]);
    anon (struct no_tag [
      fld struct_hrtimer "hrtimer"]);
    anon (struct no_tag [
      fld struct_list_head "tp_list"]);
    anon (struct no_tag [
      fld u64 "pwr_acc";
      fld u64 "ptsc"]);
    anon (struct no_tag [
      fld struct_arch_hw_breakpoint "info";
      fld struct_list_head "bp_list"]);
    anon (struct no_tag [
      fld u8 "iommu_bank";
      fld u8 "iommu_cntr";
      fld u16 "padding";
      fld u64 "conf";
      fld u64 "conf1"])]);
  fld (ptr "struct task_struct") "target";
  fld (ptr "void") "addr_filters";
  fld c_ulong "addr_filters_gen";
  fld c_int "state";
  fld local64_t "prev_count";
  fld u64 "sample_period";
  anon (union no_tag [
    anon (struct no_tag [
      fld u64 "last_period";
      fld local64_t "period_left"]);
    anon (struct no_tag [
      fld u64 "saved_metric";
      fld u64 "saved_slots"])]);
  fld u64 "interrupts_seq";
  fld u64 "interrupts";
  fld u64 "freq_time_stamp";
  fld u64 "freq_count_stamp"].

Definition struct_irq_work := struct "irq_work" [
  anon (union no_tag [
    fld struct___call_single_node "node";
    anon (struct no_tag [
      fld struct_llist_node "llnode";
      fld atomic_t "flags"])]);
  fld (fptr "void" "struct irq_work *") "func"].

Definition struct_perf_addr_filters_head := struct "perf_addr_filters_head" [
  fld struct_list_head "list";
  fld raw_spinlock_t "lock";
  fld c_uint "nr_file_filters"].

Definition perf_overflow_handler_t :=
  fptr "void" "struct perf_event *, struct perf_sample_data *, struct pt_regs *".

Definition ftrace_func_t :=
  fptr "void" "long unsigned int, long unsigned int, struct ftrace_ops *, struct pt_regs *".

Definition struct_ftrace_ops_hash := struct "ftrace_ops_hash" [
  fld (ptr "struct ftrace_hash") "notrace_hash";
  fld (ptr "struct ftrace_hash") "filter_hash";
  fld struct_mutex "regex_lock"].

Definition struct_ftrace_ops := struct "ftrace_ops" [
  fld ftrace_func_t "func";
  fld (ptr "struct ftrace_ops") "next";
  fld c_ulong "flags";
  fld (ptr "void") "private";
  fld ftrace_func_t "saved_func";
  fld struct_ftrace_ops_hash "local_hash";
  fld (ptr "struct ftrace_ops_hash") "func_hash";
  fld struct_ftrace_ops_hash "old_hash";
  fld c_ulong "trampoline";
  fld c_ulong "trampoline_size";
  fld struct_list_head "list"].

Definition struct_perf_event := struct "perf_event" [
  fld struct_list_head "event_entry";
  fld struct_list_head "sibling_list";
  fld struct_list_head "active_list";
  fld struct_rb_node "group_node";
  fld u64 "group_index";
  fld struct_list_head "migrate_entry";
  fld struct_hlist_node "hlist_entry";
  fld struct_list_head "active_entry";
  fld c_int "nr_siblings";
  fld c_int "event_caps";
  fld c_int "group_caps";
  fld c_uint "group_generation";
  fld (ptr "struct perf_event") "group_leader";
  fld (ptr "struct pmu") "pmu";
  fld (ptr "void") "pmu_private";
  fld enum_perf_event_state "state";
  fld c_uint "attach_state";
  fld local64_t "count";
  fld atomic64_t "child_count";
  fld u64 "total_time_enabled";
  fld u64 "total_time_running";
  fld u64 "tstamp";
  fld struct_perf_event_attr "attr";
  fld u16 "header_size";
  fld u16 "id_header_size";
  fld u16 "read_size";
  fld struct_hw_perf_event "hw";
  fld (ptr "struct perf_event_context") "ctx";
  fld atomic_long_t "refcount";
  fld atomic64_t "child_total_time_enabled";
  fld atomic64_t "child_total_time_running";
  fld struct_mutex "child_mutex";
  fld struct_list_head "child_list";
  fld (ptr "struct perf_event") "parent";
  fld c_int "oncpu";
  fld c_int "cpu";
  fld struct_list_head "owner_entry";
  fld (ptr "struct task_struct") "owner";
  fld struct_mutex "mmap_mutex";
  fld atomic_t "mmap_count";
  fld (ptr "struct perf_buffer") "rb";
  fld struct_list_head "rb_entry";
  fld c_ulong "rcu_batches";
  fld c_int "rcu_pending";
  fld wait_queue_head_t "waitq";
  fld (ptr "struct fasync_struct") "fasync";
  fld c_int "pending_wakeup";
  fld c_int "pending_kill";
  fld c_int "pending_disable";
  fld struct_irq_work "pending";
  fld atomic_t "event_limit";
  fld struct_perf_addr_filters_head "addr_filters";
  fld (ptr "struct perf_addr_filter_range") "addr_filter_ranges";
  fld c_ulong "addr_filters_gen";
  fld (ptr "struct perf_event") "aux_event";
  fld (fptr "void" "struct perf_event *") "destroy";
  fld struct_callback_head "callback_head";
  fld (ptr "struct pid_namespace") "ns";
  fld u64 "id";
  fld atomic64_t "lost_samples";
  fld (fptr "u64" "void") "clock";
  fld perf_overflow_handler_t "overflow_handler";
  fld (ptr "void") "overflow_handler_context";
  fld perf_overflow_handler_t "orig_overflow_handler";
  fld (ptr "struct bpf_prog") "prog";
  fld (ptr "struct trace_event_call") "tp_event";
  fld (ptr "struct event_filter") "filter";
  fld struct_ftrace_ops "ftrace_ops";
  fld (ptr "struct perf_cgroup") "cgrp";
  fld (ptr "void") "security";
  fld struct_list_head "sb_list"].

(** The declarations of the file. *)
Definition declarations : list ctype := [
  __kernel_loff_t; loff_t; struct_hlist_bl_head; qsize_t; struct_mem_dqinfo;
  struct_quota_info; struct_rcu_sync; struct_rcuwait; struct_percpu_rw_semaphore;
  struct_sb_writers; uuid_t; fmode_t; struct_shrinker; errseq_t; struct_list_lru;
  struct_super_block; umode_t; struct_timespec64; blkcnt_t; struct_rb_root_cached;
  struct_address_space; struct_inode; struct_hlist_bl_node; struct_qstr; struct_lockref;
  struct_dentry; struct_path; enum_rw_hint; enum_pid_type; struct_fown_struct;
  struct_file_ra_state; struct_file; struct_file_operations; struct_inode_operations;
  struct_p_log; enum_fs_context_purpose; enum_fs_context_phase; struct_fs_context;
  struct_bpf_mount_opts; struct_seq_file; struct_thread_info; struct_load_weight;
  struct_sched_statistics; struct_util_est; struct_sched_avg; struct_sched_entity;
  struct_sched_rt_entity; struct_sched_dl_entity; struct_cpumask; cpumask_t;
  union_rcu_special; struct_sched_info; struct_plist_node; struct_vmacache;
  struct_task_rss_stat; __kernel_clockid_t; clockid_t; enum_timespec_type;
  struct_restart_block; __kernel_pid_t; pid_t; struct_prev_cputime; struct_timerqueue_head;
  struct_posix_cputimer_base; struct_posix_cputimers; struct_posix_cputimers_work;
  struct_sysv_sem; struct_sysv_shm; sigset_t; struct_sigpending; struct_seccomp;
  struct_wake_q_node; struct_task_io_accounting; nodemask_t;
  struct_arch_tlbflush_unmap_batch; struct_tlbflush_unmap_batch; struct_latency_record;
  struct_desc_struct; struct_fregs_state; struct_fxregs_state; struct_swregs_state;
  struct_xstate_header; struct_xregs_state; union_fpregs_state; struct_fpu;
  struct_thread_struct; struct_task_struct; struct_mm_rss_stat; mm_context_t;
  struct_uprobes_state; struct_mm_struct; pgprotval_t; struct_pgprot; pgprot_t;
  struct_vm_userfaultfd_ctx; struct_vm_area_struct; struct_btf_header; struct_btf;
  struct_bpf_local_storage_map; struct_bpf_struct_ops; bpf_iter_attach_target_t;
  bpf_iter_detach_target_t; bpf_iter_show_fdinfo_t; bpf_iter_fill_link_info_t;
  struct_bpf_ctx_arg_aux; struct_bpf_iter_reg; struct_percpu_ref; struct_rcu_work;
  struct_cgroup_subsys_state; struct_cgroup_file; struct_task_cputime;
  struct_cgroup_base_stat; struct_psi_group; struct_cgroup_bpf; struct_cgroup_freezer_state;
  struct_cgroup; enum_perf_event_state; local_t; local64_t; struct_perf_event_attr;
  struct_hw_perf_event_extra; struct_arch_hw_breakpoint; struct_hw_perf_event;
  struct_irq_work; struct_perf_addr_filters_head; perf_overflow_handler_t; ftrace_func_t;
  struct_ftrace_ops_hash; struct_ftrace_ops; struct_perf_event].
