(* ===== verification/Abi.v ===== *)
(** * The binary interfaces of the program

    The structs and maps of [bpf/dns_gateway.h] and [bpf/dns_gateway.c] as C
    declarations, the Go structs bpf2go generates for them
    ([internal/ebpf/dnsgateway_x86_bpfel.go]), and how the records of [Types]
    sit in memory: the headers the programs read, the keys the kernel hashes,
    the values the controller writes. *)

From stdpp Require Import strings.
From S2P Require Import Prelude Types CLayout.
From S2P Require Import VmBase VmPacket VmBpfUapi VmBpfMaps VmNetdev VmQueue VmRouting VmSock.
From S2P Require Import VmNetns VmFs.

#[local] Open Scope string_scope.

(** ** dns_gateway.h *)

Definition struct_suffix_key := struct "suffix_key" [
  fld (arr __u8 MAX_DNS_NAME_LEN) "name"].

Definition struct_suffix_value := struct "suffix_value" [
  fld __u32 "action";
  fld __u32 "_pad"].

Definition struct_gateway_config := struct "gateway_config" [
  fld __u32 "coredns_ip";
  fld __u32 "host_resolver_ip";
  fld __u16 "dns_port";
  fld __u16 "bypass";
  fld __u32 "default_action"].

Definition struct_conntrack_key := struct "conntrack_key" [
  fld __u32 "pod_ip";
  fld __u16 "pod_port";
  fld __u16 "txid"].

Definition struct_conntrack_value := struct "conntrack_value" [
  fld __u32 "coredns_ip";
  fld __u32 "_pad";
  fld __u64 "timestamp_ns"].

Definition struct_scratch_buf := struct "scratch_buf" [
  fld (arr __u8 MAX_DNS_NAME_LEN) "qname";
  fld (arr __u8 MAX_DNS_NAME_LEN) "lookup"].

(** ** The map declarations of dns_gateway.c *)

Record map_decl := MapDecl {
  map_name : string;
  map_type : string;
  map_key : ctype;
  map_value : ctype;
  max_entries : Z
}.

Definition CONNTRACK_MAX : Z := 65536.

Definition suffix_rules := {|
  map_name := "suffix_rules";
  map_type := "BPF_MAP_TYPE_HASH";
  map_key := struct_suffix_key;
  map_value := struct_suffix_value;
  max_entries := 1024
|}.

Definition config_map := {|
  map_name := "config_map";
  map_type := "BPF_MAP_TYPE_ARRAY";
  map_key := __u32;
  map_value := struct_gateway_config;
  max_entries := 1
|}.

Definition conntrack_map := {|
  map_name := "conntrack_map";
  map_type := "BPF_MAP_TYPE_LRU_HASH";
  map_key := struct_conntrack_key;
  map_value := struct_conntrack_value;
  max_entries := CONNTRACK_MAX
|}.

Definition metrics_map := {|
  map_name := "metrics_map";
  map_type := "BPF_MAP_TYPE_PERCPU_ARRAY";
  map_key := __u32;
  map_value := __u64;
  max_entries := Z.of_nat METRIC__MAX
|}.

Definition scratch_map := {|
  map_name := "scratch_map";
  map_type := "BPF_MAP_TYPE_PERCPU_ARRAY";
  map_key := __u32;
  map_value := struct_scratch_buf;
  max_entries := 1
|}.

Definition bpf_maps : list map_decl :=
  [suffix_rules; config_map; conntrack_map; metrics_map; scratch_map].

(** ** dnsgateway_x86_bpfel.go

    [structs.HostLayout], the first field of each struct, takes no space and
    asks for the layout of the host's C ABI. *)

Definition uint8 := CInt 1 false.
Definition uint16 := CInt 2 false.
Definition uint32 := CInt 4 false.
Definition uint64 := CInt 8 false.

Definition DnsGatewayConntrackKey := struct "DnsGatewayConntrackKey" [
  fld uint32 "PodIp";
  fld uint16 "PodPort";
  fld uint16 "Txid"].

Definition DnsGatewayConntrackValue := struct "DnsGatewayConntrackValue" [
  fld uint32 "CorednsIp";
  fld uint32 "Pad";
  fld uint64 "TimestampNs"].

Definition DnsGatewayGatewayConfig := struct "DnsGatewayGatewayConfig" [
  fld uint32 "CorednsIp";
  fld uint32 "HostResolverIp";
  fld uint16 "DnsPort";
  fld uint16 "Bypass";
  fld uint32 "DefaultAction"].

Definition DnsGatewayScratchBuf := struct "DnsGatewayScratchBuf" [
  fld (arr uint8 128) "Qname";
  fld (arr uint8 128) "Lookup"].

Definition DnsGatewaySuffixKey := struct "DnsGatewaySuffixKey" [
  fld (arr uint8 128) "Name"].

Definition DnsGatewaySuffixValue := struct "DnsGatewaySuffixValue" [
  fld uint32 "Action";
  fld uint32 "Pad"].

(** The Go struct generated for a C struct. *)
Definition bindings : list (ctype * ctype) := [
  (struct_conntrack_key, DnsGatewayConntrackKey);
  (struct_conntrack_value, DnsGatewayConntrackValue);
  (struct_gateway_config, DnsGatewayGatewayConfig);
  (struct_scratch_buf, DnsGatewayScratchBuf);
  (struct_suffix_key, DnsGatewaySuffixKey);
  (struct_suffix_value, DnsGatewaySuffixValue)].

(** The Go name of a C field: [pod_ip] becomes [PodIp], [_pad] becomes [Pad]. *)
Definition upper (c : Ascii.ascii) : Ascii.ascii :=
  let n := Ascii.nat_of_ascii c in
  if (97 <=? n)%nat && (n <=? 122)%nat then Ascii.ascii_of_nat (n - 32) else c.

Fixpoint camel (start : bool) (s : string) : string :=
  match s with
  | EmptyString => EmptyString
  | String c s =>
      if (Ascii.nat_of_ascii c =? 95)%nat then camel true s
      else String (if start then upper c else c) (camel false s)
  end.

Definition go_name : string -> string := camel true.

(** ** Objects *)

(** The object of type [t] with the given fields, the rest zero. *)
Definition object (t : ctype) (vals : list (string * Z)) : Z :=
  fold_right (fun '(name, v) obj => default obj (cset t name v obj)) 0 vals.

Definition suffix_key_object (k : suffix_key) : Z :=
  object struct_suffix_key [("name", le_combine (sk_name k))].

Definition conntrack_key_object (k : conntrack_key) : Z :=
  object struct_conntrack_key
    [("pod_ip", pod_ip k); ("pod_port", pod_port k); ("txid", txid k)].

Definition suffix_key_wf (k : suffix_key) : Prop :=
  Z.of_nat (length (sk_name k)) = MAX_DNS_NAME_LEN.

Definition conntrack_key_wf (k : conntrack_key) : Prop :=
  is_u32 (pod_ip k) /\ is_u16 (pod_port k) /\ is_u16 (txid k).

(** The fields of a struct fill it: no byte is padding. *)
Definition no_padding (t : ctype) : bool :=
  match t with
  | CRecord false _ _ _ =>
      (fold_right (fun '(_, _, w) s => w + s)%Z 0%Z (fields t) =? 8 * csize t)%Z
  | CRecord true _ _ _ => false
  | _ => true
  end.

(** The declarations of the [Vm] files and of this one. *)
Definition all_declarations : list ctype :=
  VmBase.declarations ++ VmPacket.declarations ++ VmBpfUapi.declarations ++
  VmBpfMaps.declarations ++ VmNetdev.declarations ++ VmQueue.declarations ++
  VmRouting.declarations ++ VmSock.declarations ++ VmNetns.declarations ++ VmFs.declarations ++
  bindings.*1 ++ bindings.*2.
