(* ===== verification/AbiProps.v ===== *)
(** * The binary interfaces agree

    Every declaration has the layout a C compiler gives it, and a sound one; the
    headers and constants the model uses are the ones of the declarations; the Go
    bindings describe the C structs and name the C maps; two map keys are one
    entry exactly when they are equal. *)

From stdpp Require Import strings.
From S2P Require Import Prelude Types NatRewrite CLayout CLayoutProps.
From S2P Require Monitor.
From S2P Require Import Bindings.
From S2P Require Import VmLayouts VmPacket VmBpfUapi VmNetdev Abi.

(** ** Lemmas *)

Lemma declarations_ok : forallb declaration_ok all_declarations = true.
Proof. vm_cast_no_check (eq_refl true). Qed.

Lemma declaration_ok_in t : t ∈ all_declarations -> declaration_ok t = true.
Proof.
  intros Ht%list_elem_of_In. pose proof declarations_ok as H. rewrite forallb_forall in H.
  by apply H.
Qed.

Lemma declaration_ctype_ok t : t ∈ all_declarations -> ctype_ok t = true.
Proof. intros [? _]%declaration_ok_in%andb_true_iff. done. Qed.

Lemma declaration_sound t :
  t ∈ all_declarations -> ctype_sound t /\ NoDup (fields t).*1.*1.
Proof.
  intros [? ?%bool_decide_eq_true]%declaration_ok_in%andb_true_iff.
  split; [by apply ctype_ok_sound|done].
Qed.

Lemma suffix_key_object_eq k : suffix_key_object k = set_bits 0 1024 (le_combine (sk_name k)) 0.
Proof. reflexivity. Qed.

Lemma conntrack_key_object_eq k :
  conntrack_key_object k =
  set_bits 0 32 (pod_ip k) (set_bits 32 16 (pod_port k) (set_bits 48 16 (txid k) 0)).
Proof. reflexivity. Qed.

Lemma suffix_key_field k :
  suffix_key_wf k -> get_bits 0 1024 (suffix_key_object k) = le_combine (sk_name k).
Proof.
  intros Hk. rewrite suffix_key_object_eq, get_set_bits by lia.
  apply Z.mod_small. pose proof (le_combine_range (sk_name k)) as Hr.
  rewrite Hk in Hr. exact Hr.
Qed.

Lemma conntrack_key_fields k :
  conntrack_key_wf k ->
  get_bits 0 32 (conntrack_key_object k) = pod_ip k /\
  get_bits 32 16 (conntrack_key_object k) = pod_port k /\
  get_bits 48 16 (conntrack_key_object k) = txid k.
Proof.
  intros (? & ? & ?). rewrite conntrack_key_object_eq.
  split; [|split];
    [|rewrite (get_set_bits_disjoint 0 32) by lia
     |rewrite (get_set_bits_disjoint 0 32), (get_set_bits_disjoint 32 16) by lia];
    rewrite get_set_bits by lia; by apply Z.mod_small.
Qed.

Lemma le_split_app n m z : le_split (n + m) z = le_split n z ++ le_split m (z / 256 ^ Z.of_nat n).
Proof.
  revert z. induction n as [|n IH]; intros z; [by rewrite Z.div_1_r|].
  change (le_split (S n + m) z) with (byte_of_Z z :: le_split (n + m) (z / 256)).
  rewrite IH. change (le_split (S n) z) with (byte_of_Z z :: le_split n (z / 256)).
  rewrite Nat2Z.inj_succ, Z.pow_succ_r, Z.div_div by lia. done.
Qed.

Lemma le_split_mod n z : le_split n (z mod 256 ^ Z.of_nat n) = le_split n z.
Proof.
  apply le_combine_inj; [by rewrite !length_le_split|].
  by rewrite !le_combine_split, Z.mod_mod by (apply Z.pow_nonzero; lia).
Qed.

Lemma le_split_get_bits n off z :
  0 <= off -> le_split n (get_bits (8 * off) (8 * Z.of_nat n) z) = le_split n (z / 256 ^ off).
Proof.
  intros. rewrite get_bits_mod, !Z.pow_mul_r by lia. apply le_split_mod.
Qed.

Lemma conntrack_key_bytes k :
  conntrack_key_wf k ->
  le_split 8 (conntrack_key_object k) =
  le_split 4 (pod_ip k) ++ le_split 2 (pod_port k) ++ le_split 2 (txid k).
Proof.
  intros Hk. destruct (conntrack_key_fields k Hk) as (E1 & E2 & E3).
  pose proof (le_split_get_bits 4 0 (conntrack_key_object k) ltac:(lia)) as H1.
  pose proof (le_split_get_bits 2 4 (conntrack_key_object k) ltac:(lia)) as H2.
  pose proof (le_split_get_bits 2 6 (conntrack_key_object k) ltac:(lia)) as H3.
  change (get_bits (8 * 0) (8 * Z.of_nat 4)) with (get_bits 0 32) in H1.
  change (get_bits (8 * 4) (8 * Z.of_nat 2)) with (get_bits 32 16) in H2.
  change (get_bits (8 * 6) (8 * Z.of_nat 2)) with (get_bits 48 16) in H3.
  rewrite E1 in H1. rewrite E2 in H2. rewrite E3 in H3. rewrite H1, H2, H3.
  rewrite (le_split_app 4 4), (le_split_app 2 2 (_ / _)), Z.div_div by done.
  change (256 ^ 0) with 1. by rewrite Z.div_1_r.
Qed.

(** A read of a whole-byte field is the read of [Types]. *)
Lemma get_bits_field off n bs :
  0 <= off -> 0 <= n -> get_bits (8 * off) (8 * n) (le_combine bs) = field off n bs.
Proof. apply get_bits_bytes. Qed.

(** The two halves of the first byte of the IP header. *)
Lemma get_bits_nibbles bs :
  get_bits 0 4 (le_combine bs) = Z.land (field 0 1 bs) 15 /\
  get_bits 4 4 (le_combine bs) = Z.shiftr (field 0 1 bs) 4.
Proof.
  rewrite <- (get_bits_field 0 1) by lia. change (8 * 0) with 0. change (8 * 1) with 8.
  rewrite <- (get_bits_in 0 8 0 4), <- (get_bits_in 0 8 4 4) by lia.
  set (b := get_bits 0 8 _). split; [by unfold get_bits at 1; rewrite Z.shiftr_0_r|].
  rewrite get_bits_mod, Z.shiftr_div_pow2 by lia. apply Z.mod_small.
  assert (0 <= b < 256) by (unfold b; rewrite get_bits_mod by lia; apply Z.mod_pos_bound; lia).
  split; [apply Z.div_pos; lia|apply Z.div_lt_upper_bound; lia].
Qed.

(** ** Properties *)

(** C15. The layouts are exact.  For every declaration of [headers/vmlinux.h] and
    [dns_gateway.h] the development translates, and every Go binding, the size,
    the alignment, and the first bit and the width of each field in order, those
    of anonymous members and the bit-fields included, are the numbers of the
    table that a C compiler gives; so a member that is dropped, resized, renamed
    or out of place shows.  And these layouts are sound: the size is a multiple
    of the alignment, all fields lie inside, struct members are in order, aligned
    and disjoint, each bit-field within one unit of its type, union members
    together, and no field name occurs twice. *)
Theorem layouts_exact :
  map layout_of all_declarations = all_layouts /\
  Forall (fun t => ctype_sound t /\ NoDup (fields t).*1.*1) all_declarations.
Proof.
  split; [vm_compute; reflexivity|].
  apply List.Forall_forall. intros t Ht%list_elem_of_In. by apply declaration_sound.
Qed.

(** The computed offsets are the ones the ABI's rules determine: in every
    unpacked struct declared, the members' places obey the rules of alignment
    and of bit-field units, any other arrangement that obeys them puts every
    member at the same bit or later, and none of them fits in a smaller
    size. *)
Theorem layout_least :
  Forall (fun t => forall tag ms, t = CRecord false false tag ms ->
    placed 0 ms (starts false false 0 ms) (struct_end false 0 ms) /\
    struct_end false 0 ms <= 8 * csize t /\
    (forall ss e size, placed 0 ms ss e -> e <= 8 * size -> (calign t | size) ->
       Forall2 Z.le (starts false false 0 ms) ss /\ csize t <= size)) all_declarations.
Proof.
  apply List.Forall_forall. intros t Ht tag ms ->. apply struct_layout_least.
  by apply declaration_ctype_ok, list_elem_of_In.
Qed.

(** Assigning a field of any declared type, bit-fields included, stays
    inside the object; reading the field back gives the value reduced to the
    field's width; writing the value it has changes nothing; and every field
    that does not share its bits reads as before. *)
Theorem object_laws t name o w v obj :
  t ∈ all_declarations -> field_bits t name = Some (o, w) -> 0 <= obj < 2 ^ (8 * csize t) ->
  exists obj', cset t name v obj = Some obj' /\ 0 <= obj' < 2 ^ (8 * csize t) /\
    cget t name obj' = Some (v mod 2 ^ w) /\
    (cget t name obj = Some v -> obj' = obj) /\
    (forall other o' w', field_bits t other = Some (o', w') ->
       o + w <= o' \/ o' + w' <= o -> cget t other obj' = cget t other obj).
Proof. intros Ht. apply cset_laws, (declaration_sound t Ht). Qed.

(** Setting [version] to 6 in an IP header that starts with 0x45. *)
Lemma object_laws_witness :
  exists obj', cset struct_iphdr "version" 6 0x45 = Some obj' /\
    cget struct_iphdr "version" obj' = Some 6 /\ cget struct_iphdr "ihl" obj' = Some 5.
Proof.
  destruct (object_laws struct_iphdr "version" 4 4 6 0x45) as (obj' & E & _ & Hv & _ & Hd).
  - unfold all_declarations. rewrite !elem_of_app. right; left.
    apply list_elem_of_lookup_2 with (i := 3%nat). reflexivity.
  - reflexivity.
  - split; [lia|reflexivity].
  - exists obj'. split; [exact E|]. split; [exact Hv|].
    rewrite (Hd "ihl" 0 4); [reflexivity|reflexivity|]. right. lia.
Defined.

(** C14. Reading a packet header through the structs of [headers/vmlinux.h], on
    a little-endian machine, gives the fields the model takes from the packet
    bytes, the bit-fields [ihl] and [version] included; the sizes loaded, the
    checksum offset of [nat_rewrite_addr], the flags passed to the helpers and
    the netlink message types are the header's. *)
Theorem header_equivalence bs :
  let eth := ethhdr_of_bytes bs in
  let iph := iphdr_of_bytes bs in
  let udp := udphdr_of_bytes bs in
  let obj := le_combine bs in
  (cget struct_ethhdr "h_dest" obj = Some (le_combine (h_dest eth)) /\
   cget struct_ethhdr "h_source" obj = Some (le_combine (h_source eth)) /\
   cget struct_ethhdr "h_proto" obj = Some (h_proto eth) /\
   csize struct_ethhdr = sizeof_ethhdr) /\
  (cget struct_iphdr "ihl" obj = Some (ihl iph) /\
   cget struct_iphdr "version" obj = Some (version iph) /\
   cget struct_iphdr "tos" obj = Some (tos iph) /\
   cget struct_iphdr "tot_len" obj = Some (tot_len iph) /\
   cget struct_iphdr "id" obj = Some (ip_id iph) /\
   cget struct_iphdr "frag_off" obj = Some (frag_off iph) /\
   cget struct_iphdr "ttl" obj = Some (ttl iph) /\
   cget struct_iphdr "protocol" obj = Some (protocol iph) /\
   cget struct_iphdr "check" obj = Some (ip_check iph) /\
   cget struct_iphdr "saddr" obj = Some (saddr iph) /\
   cget struct_iphdr "daddr" obj = Some (daddr iph) /\
   csize struct_iphdr = sizeof_iphdr /\
   offsetof struct_iphdr "check" = Some (IP_CSUM_OFF - ETH_HLEN)) /\
  (cget struct_udphdr "source" obj = Some (source udp) /\
   cget struct_udphdr "dest" obj = Some (dest udp) /\
   cget struct_udphdr "len" obj = Some (udp_len udp) /\
   cget struct_udphdr "check" obj = Some (udp_check udp) /\
   csize struct_udphdr = sizeof_udphdr) /\
  (enumerator enum_BPF_ANY "BPF_ANY" = Some BPF_ANY /\
   enumerator enum_BPF_F_PSEUDO_HDR "BPF_F_PSEUDO_HDR" = Some BPF_F_PSEUDO_HDR /\
   enumerator enum_BPF_F_PSEUDO_HDR "BPF_F_MARK_MANGLED_0" = Some BPF_F_MARK_MANGLED_0 /\
   enumerator enum_RTM_BASE "RTM_NEWLINK" = Some Monitor.RTM_NEWLINK /\
   enumerator enum_RTM_BASE "RTM_DELLINK" = Some Monitor.RTM_DELLINK).
Proof.
  intros eth iph udp obj.
  pose proof (get_bits_nibbles bs) as [Hi Hv].
  pose proof (fun off n (p : 0 <= off) (q : 0 <= n) =>
    f_equal Some (get_bits_field off n bs p q)) as Hf.
  split; [|split; [|split]].
  - split; [exact (Hf 0 6 ltac:(lia) ltac:(lia))|].
    split; [exact (Hf 6 6 ltac:(lia) ltac:(lia))|].
    split; [exact (Hf 12 2 ltac:(lia) ltac:(lia))|reflexivity].
  - split; [exact (f_equal Some Hi)|]. split; [exact (f_equal Some Hv)|].
    split; [exact (Hf 1 1 ltac:(lia) ltac:(lia))|].
    split; [exact (Hf 2 2 ltac:(lia) ltac:(lia))|].
    split; [exact (Hf 4 2 ltac:(lia) ltac:(lia))|].
    split; [exact (Hf 6 2 ltac:(lia) ltac:(lia))|].
    split; [exact (Hf 8 1 ltac:(lia) ltac:(lia))|].
    split; [exact (Hf 9 1 ltac:(lia) ltac:(lia))|].
    split; [exact (Hf 10 2 ltac:(lia) ltac:(lia))|].
    split; [exact (Hf 12 4 ltac:(lia) ltac:(lia))|].
    split; [exact (Hf 16 4 ltac:(lia) ltac:(lia))|split; reflexivity].
  - split; [exact (Hf 0 2 ltac:(lia) ltac:(lia))|].
    split; [exact (Hf 2 2 ltac:(lia) ltac:(lia))|].
    split; [exact (Hf 4 2 ltac:(lia) ltac:(lia))|].
    split; [exact (Hf 6 2 ltac:(lia) ltac:(lia))|reflexivity].
  - by repeat split.
Qed.

(** C20. The structs bpf2go generated describe the C structs of
    [dns_gateway.h]: same size and alignment, and field by field, under the Go
    spelling of its name, the same bits, so that whatever one side stores the
    other reads; and the maps it loads by name are the maps that
    [dns_gateway.c] declares. *)
Theorem go_bindings_match :
  map ebpf_tag DnsGatewayMaps ≡ₚ map map_name bpf_maps /\
  Forall (fun '(c, g) =>
    csize g = csize c /\ calign g = calign c /\
    (fields g).*1.*1 = map go_name (fields c).*1.*1 /\
    Forall (fun name => forall obj, cget g (go_name name) obj = cget c name obj)
      (fields c).*1.*1) bindings.
Proof.
  split; [by apply (bool_decide_unpack _)|].
  repeat (constructor; [split; [|split; [|split]]; [reflexivity..|]; repeat constructor|]).
  constructor.
Qed.

(** C19. The kernel compares hash keys as bytes, so a key must determine its
    bytes and the other way round: no map's key or value has padding, two
    suffix keys or conntrack keys are the same object exactly when they are
    equal, and a conntrack key's bytes are those of its three fields in
    order. *)
Theorem map_keys_exact (s1 s2 : suffix_key) (c1 c2 : conntrack_key) :
  suffix_key_wf s1 -> suffix_key_wf s2 -> conntrack_key_wf c1 -> conntrack_key_wf c2 ->
  Forall (fun m => no_padding (map_key m) = true /\ no_padding (map_value m) = true) bpf_maps /\
  (suffix_key_object s1 = suffix_key_object s2 <-> s1 = s2) /\
  (conntrack_key_object c1 = conntrack_key_object c2 <-> c1 = c2) /\
  le_split 128 (suffix_key_object s1) = sk_name s1 /\
  le_split 8 (conntrack_key_object c1) =
    le_split 4 (pod_ip c1) ++ le_split 2 (pod_port c1) ++ le_split 2 (txid c1).
Proof.
  intros Hs1 Hs2 Hc1 Hc2.
  assert (forall s, suffix_key_wf s -> le_split 128 (suffix_key_object s) = sk_name s) as Hs.
  { intros s Hs. rewrite <- (le_split_mod 128). 
    pose proof (suffix_key_field s Hs) as E. rewrite get_bits_mod, Z.div_1_r in E by lia.
    change (256 ^ Z.of_nat 128) with (2 ^ 1024). rewrite E.
    apply le_split_combine. unfold suffix_key_wf, MAX_DNS_NAME_LEN in Hs. lia. }
  split; [by repeat constructor|]. split; [|split; [|split]].
  - split; [|by intros ->]. intros E. pose proof (Hs s1 Hs1) as E1. rewrite E, Hs in E1 by done.
    destruct s1, s2; simpl in *; congruence.
  - split; [|by intros ->]. intros E. destruct (conntrack_key_fields c1 Hc1) as (E1 & E2 & E3).
    rewrite E in E1, E2, E3. destruct (conntrack_key_fields c2 Hc2) as (F1 & F2 & F3).
    destruct c1, c2; simpl in *; congruence.
  - by apply Hs.
  - by apply conntrack_key_bytes.
Qed.

Lemma map_keys_exact_witness :
  let s := SuffixKey (Byte.x03 :: repeat Byte.x00 127) in
  let c := ConntrackKey 0x0100000a 0x3500 0x1234 in
  le_split 8 (conntrack_key_object c) =
    [Byte.x0a; Byte.x00; Byte.x00; Byte.x01; Byte.x00; Byte.x35; Byte.x34; Byte.x12] /\
  le_split 128 (suffix_key_object s) = sk_name s.
Proof.
  intros s c.
  destruct (map_keys_exact s s c c) as (_ & _ & _ & Es & Ec);
    [reflexivity|reflexivity|by vm_compute|by vm_compute|].
  split; [|exact Es]. rewrite Ec. reflexivity.
Defined.
