(* ===== verification/Verdicts.v ===== *)
(** * The verdicts of the two programs

    Every path of both programs ends in [TC_ACT_OK], whatever the helpers do:
    a syntactic closure argument over the combinators, carried by instances. *)

From S2P Require Import Prelude.
From S2P Require Import Types.
From S2P Require Import Kernel.
From S2P Require Import NatRewrite.
From S2P Require Import Ingress.
From S2P Require Import Egress.

#[export] Typeclasses Opaque increment_metric lookup_config load_bytes store_bytes
  l3_csum l4_csum ktime conntrack_update conntrack_delete nat_rewrite_addr
  count_nat_failure ingress_config ingress_headers ingress_dns_header load_qname
  walk_labels qname_labels copy_suffix lookup_suffix_rule match_suffixes
  ingress_redirect ingress_resolve dns_gateway_ingress
  egress_headers egress_txid egress_restore dns_gateway_egress.

(** ** Programs that only return [TC_ACT_OK]

    [ExitsOk m]: an early return of [m], with any helpers, is [TC_ACT_OK]. *)

Class ExitsOk {H : BpfHelpers} {A} (m : prog A) : Prop :=
  exits_ok s s' act : m s = (s', Exit act) -> act = TC_ACT_OK.

Section exits_ok.
Context {H : BpfHelpers}.

#[export] Instance ret_exits_ok {A} (a : A) : ExitsOk (mret a).
Proof. by intros s s' act [=]. Qed.
#[export] Instance exit_exits_ok {A} : ExitsOk (exit (A:=A) TC_ACT_OK).
Proof. by intros s s' act [= _ <-]. Qed.
#[export] Instance exit_if_exits_ok c : ExitsOk (exit_if c TC_ACT_OK).
Proof. intros s s' act. by destruct c; intros [=]. Qed.
#[export] Instance gets_exits_ok {A} (f : dp_state -> A) : ExitsOk (gets f).
Proof. by intros s s' act [=]. Qed.
#[export] Instance modify_exits_ok f : ExitsOk (modify f).
Proof. by intros s s' act [=]. Qed.
#[export] Instance bind_exits_ok {A B} (m : prog A) (f : A -> prog B) :
  ExitsOk m -> (forall a, ExitsOk (f a)) -> ExitsOk (m ≫= f).
Proof.
  intros Hm Hf s s' act. rewrite run_bind.
  destruct (m s) as [s1 [a|act']] eqn:E; [apply Hf|].
  intros [= _ <-]. by eapply Hm.
Qed.
#[export] Instance increment_exits_ok m : ExitsOk (increment_metric m).
Proof. by intros s s' act [=]. Qed.
#[export] Instance lookup_config_exits_ok : ExitsOk lookup_config.
Proof. intros s s' act. unfold lookup_config. case_match; by intros [=]. Qed.
#[export] Instance load_exits_ok off n : ExitsOk (load_bytes off n).
Proof. by intros s s' act [=]. Qed.
#[export] Instance store_exits_ok off bs : ExitsOk (store_bytes off bs).
Proof. intros s s' act. unfold store_bytes. by destruct (skb_store_bytes _ _ _ _ _) as [[]]. Qed.
#[export] Instance l3_exits_ok off a b f : ExitsOk (l3_csum off a b f).
Proof. intros s s' act. unfold l3_csum. by destruct (l3_csum_replace _ _ _ _ _ _) as [[]]. Qed.
#[export] Instance l4_exits_ok off a b f : ExitsOk (l4_csum off a b f).
Proof. intros s s' act. unfold l4_csum. by destruct (l4_csum_replace _ _ _ _ _ _) as [[]]. Qed.
#[export] Instance ktime_exits_ok : ExitsOk ktime.
Proof. intros s s' act. unfold ktime. by destruct (ktime_get_ns _). Qed.
#[export] Instance update_exits_ok k v : ExitsOk (conntrack_update k v).
Proof. intros s s' act. unfold conntrack_update. by destruct (ct_update_elem _ _ _ _ _) as [[]]. Qed.
#[export] Instance delete_exits_ok k : ExitsOk (conntrack_delete k).
Proof. intros s s' act. unfold conntrack_delete. by destruct (ct_delete_elem _ _ _) as [[]]. Qed.
End exits_ok.

(** [ReturnsOk m]: every run of [m] returns [TC_ACT_OK]. *)
Class ReturnsOk {H : BpfHelpers} (m : prog Z) : Prop :=
  returns_ok s : (run m s).2 = TC_ACT_OK.

Section returns_ok.
Context {H : BpfHelpers}.

#[export] Instance ret_returns_ok : ReturnsOk (mret TC_ACT_OK).
Proof. done. Qed.
#[export] Instance exit_returns_ok : ReturnsOk (exit TC_ACT_OK).
Proof. done. Qed.
#[export] Instance bind_returns_ok {A} (m : prog A) (f : A -> prog Z) :
  ExitsOk m -> (forall a, ReturnsOk (f a)) -> ReturnsOk (m ≫= f).
Proof.
  intros Hm Hf s. unfold run. rewrite run_bind.
  destruct (m s) as [s1 [a|act]] eqn:E; [apply Hf|simpl; by eapply Hm].
Qed.

End returns_ok.

(** Walks a program: binds are split, tests decided, leaves found as instances. *)
Ltac solve_ok :=
  cbv zeta;
  repeat (intros;
    match goal with
    | |- context [match ?x with _ => _ end] =>
        lazymatch goal with
        | |- ExitsOk (match x with _ => _ end) => destruct x
        | |- ReturnsOk (match x with _ => _ end) => destruct x
        end
    | |- ExitsOk (_ ≫= _) => apply bind_exits_ok
    | |- ReturnsOk (_ ≫= _) => apply bind_returns_ok
    | _ => apply _
    end).

Section programs_ok.
Context {H : BpfHelpers}.

#[export] Instance nat_exits_ok a u o n : ExitsOk (nat_rewrite_addr a u o n).
Proof. unfold nat_rewrite_addr; solve_ok. Qed.
#[export] Instance count_failure_exits_ok rc : ExitsOk (count_nat_failure rc).
Proof. unfold count_nat_failure; solve_ok. Qed.
#[export] Instance walk_exits_ok n r offs pos : ExitsOk (walk_labels n r offs pos).
Proof. revert offs pos. induction n; cbn [walk_labels]; unfold scratch_qname_byte; solve_ok. Qed.
#[export] Instance copy_exits_ok n k ss sl : ExitsOk (copy_suffix n k ss sl).
Proof.
  revert k. induction n; cbn [copy_suffix]; unfold scratch_qname_byte, on_scratch; solve_ok.
Qed.
#[export] Instance match_exits_ok n i offs tot act : ExitsOk (match_suffixes n i offs tot act).
Proof. revert i. induction n; cbn [match_suffixes]; unfold lookup_suffix_rule; solve_ok. Qed.

#[export] Instance config_exits_ok : ExitsOk ingress_config.
Proof. unfold ingress_config; solve_ok. Qed.
#[export] Instance ingress_headers_exits_ok cfg : ExitsOk (ingress_headers cfg).
Proof. unfold ingress_headers; solve_ok. Qed.
#[export] Instance egress_headers_exits_ok cfg : ExitsOk (egress_headers cfg).
Proof. unfold egress_headers; solve_ok. Qed.
#[export] Instance dns_header_exits_ok o : ExitsOk (ingress_dns_header o).
Proof. unfold ingress_dns_header; solve_ok. Qed.
#[export] Instance txid_exits_ok o : ExitsOk (egress_txid o).
Proof. unfold egress_txid; solve_ok. Qed.
#[export] Instance load_qname_exits_ok o : ExitsOk (load_qname o).
Proof. unfold load_qname, on_scratch; solve_ok. Qed.
#[export] Instance qname_labels_exits_ok r : ExitsOk (qname_labels r).
Proof. unfold qname_labels; solve_ok. Qed.
#[export] Instance redirect_returns_ok cfg k o u : ReturnsOk (ingress_redirect cfg k o u).
Proof. unfold ingress_redirect; solve_ok. Qed.
#[export] Instance resolve_returns_ok cfg i u o t l : ReturnsOk (ingress_resolve cfg i u o t l).
Proof. unfold ingress_resolve; solve_ok. Qed.
#[export] Instance restore_returns_ok k o u : ReturnsOk (egress_restore k o u).
Proof. unfold egress_restore; solve_ok. Qed.
#[export] Instance ingress_returns_ok : ReturnsOk dns_gateway_ingress.
Proof. unfold dns_gateway_ingress; solve_ok. Qed.
#[export] Instance egress_returns_ok : ReturnsOk dns_gateway_egress.
Proof. unfold dns_gateway_egress; solve_ok. Qed.
End programs_ok.

Section no_drop.
Context {H : BpfHelpers}.

(** C23. Neither program ever drops or redirects a packet: with any helpers,
    failing in any way, on any state, both return [TC_ACT_OK]. *)
Theorem programs_never_drop s :
  (run dns_gateway_ingress s).2 = TC_ACT_OK /\ (run dns_gateway_egress s).2 = TC_ACT_OK.
Proof.
  split; apply (_ : ReturnsOk _).
Qed.
End no_drop.
